(* ===== verification/_CoqProject ===== *)
-Q . S2P
Prelude.v
Inet.v
MD5.v
Logger.v
BgpCommon.v
TopicSelector.v
Configuration.v
AddPath.v
NotificationMsg.v
OpenMsg.v
UpdateTypes.v
EVPN.v
MPReach.v
LinkStateNlri.v
LinkStateAttr.v
ExtCommunity.v
UpdateMsg.v
MsgBus.v
Md5Stream.v
LsMerge.v
ParseBGP.v
ParseBMP.v
BMPReader.v
BusFrame.v
Kafka.v
KafkaLs.v
KafkaEvents.v
ClientThread.v
Listener.v
Server.v
Session.v
Process.v
ClientLife.v
Connection.v
SafeQueue.v
Redis.v
RedisSession.v
Termination.v
