(* ===== verification/Prelude.v ===== *)
(** * sonic-bmp: a verification development of the BMP collector

    The program under [src/Server/src] accepts TCP connections from routers that
    speak the BGP Monitoring Protocol (BMP), parses the BMP messages and the BGP
    messages inside them, and hands what it finds (routers, peers, routes,
    link-state objects, statistics) to a message bus: Kafka, or in SONiC the
    state database in Redis.

    ** Parts and files

    The components are modelled bottom-up, one file each, in the order of the
    calls.
    - [Prelude] (this file): outcomes, octets, pointers and machine integers, and
      the tactics and hints the other files share.  [Inet]: the text functions of
      the C library the sources print with ([inet_ntop], [snprintf], [strncpy]).
    - [MD5], [Md5Stream] ([md5.cpp]): the digest behind every hash identifier, and its
      constructors over files and streams.
    - [Logger] ([Logger.cpp]): the log and debug files and the lines in them.
    - [BgpCommon] ([bgp/bgp_common.h]): byte order, address family names, tuples.
    - [TopicSelector] ([kafka/KafkaTopicSelector.cpp], the partitioner): the groups
      of routers and peers and the Kafka topics named after them.
    - [Configuration] ([Config.cpp]): the values of the program and their reading
      from a YAML document, which is a parameter ([Yaml], [YamlLaws]).
    - [AddPath] ([bgp/AddPathDataContainer.cpp]): the add-path codes of a peer.
    - [NotificationMsg], [OpenMsg], [UpdateMsg] (the files of the same names in
      [bgp/]): the three BGP messages; [UpdateTypes] holds the data they share.
    - [EVPN], [MPReach] ([bgp/EVPN.cpp], [bgp/MPReachAttr.cpp],
      [bgp/MPUnReachAttr.cpp]) and [ExtCommunity]: multiprotocol NLRIs and
      extended communities.
    - [LinkStateNlri], [LinkStateAttr] ([bgp/linkstate/MPLinkState.cpp],
      [bgp/linkstate/MPLinkStateAttr.cpp]): BGP-LS.  The UPDATE parsers are
      stated against the class [LinkState]; [link_state] implements it.
    - [MsgBus] ([MsgBusInterface.hpp]): the bus as a class [MsgBus], one operation
      per virtual method, and [trace_bus], which records the calls.
    - [LsMerge], [ParseBGP] ([bgp/parseBGP.cpp]): the message handlers and the
      translation of parsed messages to bus objects.
    - [ParseBMP] ([bmp/parseBMP.cpp]): the BMP framing, headers and bodies.
    - [BMPReader] ([bmp/BMPReader.cpp], and the hash of [bmp/BMPListener.cpp]):
      one message after the other, exceptions, and the RIB dump rate.
    - [BusFrame]: the reader changes a bus only with the calls of its interface, so that
      what these calls keep, a connection keeps, whatever the bus is.
    - [Kafka], [KafkaLs] ([kafka/MsgBusImpl_kafka.cpp]): the bus as rows of text,
      connection and reconnection; [kafka_bus] implements [MsgBus].  [KafkaEvents]
      ([kafka/KafkaEventCallback.cpp], [kafka/KafkaDeliveryReportCallback.cpp]): the
      callbacks, with what they log.  The broker library, the resolver and the clock are a parameter
      ([RdKafka], [KafkaWorld], with the laws of a healthy broker in [KafkaUp]).
    - [ClientThread] ([client_thread.cpp]): the circular buffer between the socket
      of a router and the reader.
    - [Listener] ([bmp/BMPListener.cpp]): the listening sockets and accepted
      connections, over the sockets of the system ([Sockets]).
    - [Server] ([openbmp.cpp]): the command line, the configuration the server runs
      with, and the server loop as a step relation in which the client threads
      interleave; the bus is the class [CollectorBus], implemented once for each
      build.  [Process] (the rest of [openbmp.cpp]): the log file, becoming a daemon,
      the file with the process number and the signal handler.
    - [Session], [RedisSession] ([client_thread.cpp]): the bus and the reader of a
      connection in the two builds.  [ClientLife]: what the thread of a connection
      releases, and in which order, however it ends.  [Connection] ([client_thread.cpp]
      and the loop of [bmp/BMPReader.cpp]): this thread and its reader thread as a step
      relation in which they interleave, with the flag, the pair of sockets, the reader
      object and the bus that they share.
    - [SafeQueue] ([safeQueue.hpp]): threads that share a queue and its mutex, as a
      step relation; what is read without the mutex may be any number.
    - [Redis] ([redis/MsgBusImpl_redis.cpp], [RedisManager.cpp]): the bus over the
      swss database library, which is a parameter ([SwssDb], [SwssLaws]).
    - [Termination]: no loop of the above exhausts its bound.

    ** Correspondence

    A C++ object is a record and a method is a function that takes the record and
    returns the new one; constants, members and methods keep their names.  The
    result of a computation is an [outcome]: a value, a thrown text, undefined
    behaviour (a read or write outside a buffer, a null pointer, the use of an
    uninitialised value, a signed overflow), or an exhausted loop bound.  A
    pointer is the list of octets from its position to the end of the buffer, so
    that reading past the buffer is [Undef OobRead], while reading past a length
    field but inside the buffer is defined, as in the program.  Integers are [Z]
    with [u8], [u16], [u32], [u64] and [i32] where the sources convert or may wrap.
    Maps are [gmap]; a socket is the list of octets that arrive before it is
    closed.  The BMP parser runs in the state and error monad [M], the reader in
    [R], where a caught exception is a value.  An exception of the bus is kept in the
    bus ([thrown]) until a handler takes it ([put_bus]), since the calls before it have
    had their effect; the configuration is read in a monad
    of its own, whose exceptions are those of the YAML library.  The build switch [REDIS_ENABLED] is
    the argument [redis] of the handlers.

    ** Loop bounds

    A loop that is not structural takes a number of iterations, always one more
    than the octets it was given ([loop_fuel]), since every iteration consumes an
    octet or stops.  That this is enough is proved: [Termination] shows for
    arbitrary octets that no parser returns [NoFuel], and that the reader of a
    finite stream stops on every bus whose calls return ([BusTotal]; the recording and
    the Redis bus are instances, the Kafka bus is not).  The reader's loop is bounded by the list of clock
    readings, one per message, and the loop of the circular buffer by the answers
    of the system.  The Kafka bus reconnects until it succeeds; its loops take a
    number [attempts], and [reconnect_progress] shows that as many attempts as the
    broker needs are enough.  The pass of the server over its threads takes as many
    rounds as there are threads, which is exact, since the list only gets shorter.

    ** Theorems

    - End to end: [reader_stream] and [negotiated_session] (a byte stream of BMP
      messages causes exactly the bus calls of the decoded messages, in order; the
      OPEN messages of a Peer Up decide how the UPDATEs after it are decoded),
      [handleUpdate_publishes], [malformed_disconnects] (after valid messages a
      malformed one terminates the router and closes the connection),
      [handleUpdate_refuses], and [connection_transparent] (the thread and the buffer in
      front of the reader are invisible, however the two threads interleave).
    - Round trips of encoders with the parsers: UPDATE, OPEN, Peer Up, the per-peer
      header, multiprotocol prefixes, EVPN, labelled and VPN prefixes, link-state NLRIs
      and attributes, statistics and initiation TLVs.  The encoders take numbers, octets
      and texts, and say what is meant by them ([peer_meant], [evpn_meant], [rd_meant],
      [ls_meant]) without the parsers.
    - Publication: [unicast_published] (a consumer that splits the message of a
      healthy broker at newlines and tabs gets one row for each prefix),
      [row_widths], [router_first_once], [topics_by_template] and
      [configured_router_group] (from the text of a configured prefix to the group
      of a router); [redis_routes_stored] and [redis_session_only_adds] (a connection of
      the SONiC build writes to its tables only, and removes nothing).
    - Concurrency and state: [server_counters] (the counters of the server however
      its loop and the threads interleave), [ended_threads_removed],
      [queue_is_fifo], [ring_is_fifo], [ring_delivers], [bus_outlives_reader] (the
      reader is joined before its bus is deleted, however the threads interleave and end),
      [kafka_bus_invariant], [session_keeps_shape] (the same for a whole connection),
      and [server_config_ok] (the ranges that the code checks for the values of the
      configuration, from every command line and file).
    - The process: [log_is_lines] (the log file is its lines), [descriptors_released], [daemon_environment], [signals_end_threads] and
      [redis_daemon_deaf] (an IPv4 daemon of the SONiC build listens on descriptor 0,
      which it takes for no socket).
    - Equivalence with a reference: MD5 with RFC 1321, the add-path container with
      a specification by the last codes announced, the IEEE conversion with exact
      rational arithmetic, the last address of a prefix with the bitwise one.
    - Safety and bounds: buffers, descriptors, the RIB dump rate, tables that are
      not enabled; and, as theorems, the places where the code leaves its buffers
      or loses data.  The latter are also listed as findings of the manifest.
    - Termination: [parseUpdateMsg_terminates] and [reader_terminates].

    ** Not modelled

    What the parsers, the buses and the server log, which no result depends on (the
    logger itself and the lines of the broker callbacks are modelled), and the texts of
    the usage and the version; the effects of the operating system behind its calls
    (threads, descriptors, processes, clocks and sockets), which enter as answers and
    as records of what is open; regular expressions, YAML, librdkafka and the swss
    library, which are parameters; header files that only declare what the sources
    above define. *)

From stdpp Require Export base tactics numbers list gmap strings pretty.
From Stdlib Require Export Ascii ZArith Lia.


Open Scope Z_scope.

(** [case_match] on integer comparisons, turned into propositions *)
Ltac cmp := repeat match goal with
  | H : (_ <=? _) = true |- _ => apply Z.leb_le in H
  | H : (_ <=? _) = false |- _ => apply Z.leb_gt in H
  | H : (_ <? _) = true |- _ => apply Z.ltb_lt in H
  | H : (_ <? _) = false |- _ => apply Z.ltb_ge in H
  | H : (_ =? _) = true |- _ => apply Z.eqb_eq in H
  | H : (_ =? _) = false |- _ => apply Z.eqb_neq in H
  end.
Ltac zcase := case_match; cmp.
(** the first integer comparison the goal tests *)
Ltac zif := match goal with
  |- context [if ?c then _ else _] =>
    match c with
    | _ <=? _ => idtac
    | _ <? _ => idtac
    | _ =? _ => idtac
    end; let E := fresh "E" in destruct c eqn:E; cmp
  end.

(** ** Outcomes of C++ code

    A function of the collector returns a value, throws a [char const *], or
    executes something the C++ standard leaves undefined.  [NoFuel] is the
    value of a loop whose iteration bound is exhausted; every loop comes with
    a theorem that excludes it. *)

Inductive ub : Set :=
| OobRead      (** read outside the allocation a pointer points into *)
| OobWrite     (** write past the end of a fixed-size array *)
| Uninit       (** read of a variable that was never assigned *)
| NullDeref    (** access through a null pointer *)
| Overflow     (** overflow of a signed integer, or a shift by its width or more *)
| BadFormat    (** a conversion of [printf] without an argument of its type *)
| BadHandle.   (** use of a stream, thread or object that was closed or destroyed *)

Inductive outcome (A : Type) : Type :=
| Ok (a : A)
| Throw (msg : string)
| Undef (u : ub)
| NoFuel.
Arguments Ok {A} a.
Arguments Throw {A} msg.
Arguments Undef {A} u.
Arguments NoFuel {A}.

#[global] Instance ub_eq_dec : EqDecision ub.
Proof. solve_decision. Defined.
#[global] Instance outcome_eq_dec `{EqDecision A} : EqDecision (outcome A).
Proof. solve_decision. Defined.

#[global] Instance outcome_ret : MRet outcome := @Ok.
#[global] Instance outcome_bind : MBind outcome := λ A B f m,
  match m with
  | Ok a => f a
  | Throw e => Throw e
  | Undef u => Undef u
  | NoFuel => NoFuel
  end.

(** the value of a variable, which may be indeterminate *)
Definition init_read {A} (o : option A) : outcome A := match o with Some a => Ok a | None => Undef Uninit end.

(** [defined m]: the run neither is undefined nor exhausts its bound. *)
Definition defined {A} (m : outcome A) : bool :=
  match m with Ok _ | Throw _ => true | _ => false end.

Section outcome_lemmas.
Context {A B : Type}.
Implicit Types (m : outcome A) (f : A → outcome B).

Lemma bind_Ok_l a f : Ok a ≫= f = f a.
Proof. done. Qed.

Lemma bind_Ok_inv m f b : m ≫= f = Ok b ↔ ∃ a, m = Ok a ∧ f a = Ok b.
Proof. destruct m; cbn; naive_solver. Qed.

Lemma bind_NoFuel_inv m f : m ≫= f = NoFuel ↔ m = NoFuel ∨ ∃ a, m = Ok a ∧ f a = NoFuel.
Proof. destruct m; cbn; naive_solver. Qed.

Lemma bind_eq_Ok m f a b : m = Ok a → f a = Ok b → m ≫= f = Ok b.
Proof. by intros -> ?. Qed.
End outcome_lemmas.

(** ** Machine integers *)

Definition u8  (z : Z) : Z := z mod 2 ^ 8.
Definition u16 (z : Z) : Z := z mod 2 ^ 16.
Definition u32 (z : Z) : Z := z mod 2 ^ 32.
Definition u64 (z : Z) : Z := z mod 2 ^ 64.
(** conversion to the signed 32-bit [int] *)
Definition i32 (z : Z) : Z := (z + 2 ^ 31) mod 2 ^ 32 - 2 ^ 31.

Lemma u16_small z : 0 ≤ z < 65536 → u16 z = z.
Proof. intros. unfold u16. by rewrite Z.mod_small. Qed.
Lemma u32_small z : 0 ≤ z < 4294967296 → u32 z = z.
Proof. intros. unfold u32. by rewrite Z.mod_small. Qed.
Lemma u64_small z : 0 ≤ z < 2 ^ 64 → u64 z = z.
Proof. intros. unfold u64. by rewrite Z.mod_small. Qed.
Lemma i32_small z : 0 ≤ z < 2 ^ 31 → i32 z = z.
Proof. intros. unfold i32. rewrite Z.mod_small by lia. lia. Qed.
Lemma u8_small z : 0 ≤ z < 256 → u8 z = z.
Proof. intros. unfold u8. by rewrite Z.mod_small. Qed.

(** ** Bytes and read pointers

    A byte is an integer in [0, 255].  A pointer into a receive buffer is the
    list of the bytes that follow it in its allocation, so that [p + n] is
    [adv n p] and a read is undefined exactly when it leaves the allocation. *)

Definition is_byte (b : Z) : Prop := 0 ≤ b < 256.
Abbreviation bytes_ok := (Forall is_byte).
Abbreviation ptr := (list Z).

#[global] Instance is_byte_dec b : Decision (is_byte b).
Proof. unfold is_byte. apply _. Defined.

(** [*p++] *)
Definition rd (p : ptr) : outcome (Z * ptr) :=
  match p with
  | b :: p' => Ok (b, p')
  | [] => Undef OobRead
  end.

(** [memcpy(dst, p, n)] into a destination that holds at least [n] bytes *)
Definition memcpy (n : Z) (p : ptr) : outcome (list Z) :=
  if n <=? Z.of_nat (length p) then Ok (take (Z.to_nat n) p) else Undef OobRead.

(** [memcpy(dst, p, n)] over the first bytes of the fixed-size array [dst] *)
Definition memcpy_into (dst : list Z) (n : Z) (p : ptr) : outcome (list Z) :=
  if n <=? Z.of_nat (length dst)
  then src ← memcpy n p; Ok (src ++ drop (Z.to_nat n) dst)
  else Undef OobWrite.

Definition adv (n : Z) (p : ptr) : ptr := drop (Z.to_nat n) p.

(** [bzero(dst, n)] of a fixed-size array *)
Definition zeros (n : nat) : list Z := replicate n 0.
Lemma length_zeros n : length (zeros n) = n.
Proof. apply length_replicate. Qed.

Lemma rd_cons b p : rd (b :: p) = Ok (b, p).
Proof. done. Qed.

Lemma memcpy_app bs p n : n = Z.of_nat (length bs) → memcpy n (bs ++ p) = Ok bs.
Proof.
  intros ->. unfold memcpy. rewrite length_app.
  zcase; [|lia]. by rewrite Nat2Z.id, take_app_length.
Qed.

Lemma memcpy_all bs n : n = Z.of_nat (length bs) → memcpy n bs = Ok bs.
Proof. intros. rewrite <-(app_nil_r bs) at 1. by apply memcpy_app. Qed.

Lemma adv_app bs p n : n = Z.of_nat (length bs) → adv n (bs ++ p) = p.
Proof. intros ->. unfold adv. by rewrite Nat2Z.id, drop_app_length. Qed.

Lemma memcpy_ok n p : 0 ≤ n ≤ Z.of_nat (length p) → ∃ bs, memcpy n p = Ok bs ∧ length bs = Z.to_nat n.
Proof.
  intros H. unfold memcpy. zcase; [|lia].
  eexists; split; [done|]. rewrite length_take. lia.
Qed.

Lemma memcpy_inv n p bs : memcpy n p = Ok bs → n ≤ Z.of_nat (length p) ∧ bs = take (Z.to_nat n) p.
Proof. unfold memcpy. zcase; naive_solver lia. Qed.

Lemma memcpy_not_NoFuel n p : memcpy n p ≠ NoFuel.
Proof. unfold memcpy. by case_match. Qed.
Lemma rd_not_NoFuel p : rd p ≠ NoFuel.
Proof. by destruct p. Qed.
Lemma memcpy_into_not_NoFuel d n p : memcpy_into d n p ≠ NoFuel.
Proof. unfold memcpy_into, memcpy. by repeat case_match. Qed.

Lemma memcpy_into_app dst bs p n :
  n = Z.of_nat (length bs) → n ≤ Z.of_nat (length dst) →
  memcpy_into dst n (bs ++ p) = Ok (bs ++ drop (length bs) dst).
Proof.
  intros -> ?. unfold memcpy_into. zcase; [|lia].
  rewrite memcpy_app by done. csimpl. by rewrite Nat2Z.id.
Qed.

Lemma length_adv n p : 0 ≤ n → n ≤ Z.of_nat (length p) → Z.of_nat (length (adv n p)) = Z.of_nat (length p) - n.
Proof. intros. unfold adv. rewrite length_drop. lia. Qed.

(** ** Host integers from bytes

    The collector runs on little-endian hosts (amd64, arm64): an integer
    object holds its least significant byte first. *)

Fixpoint le_val (bs : list Z) : Z :=
  match bs with
  | [] => 0
  | b :: bs' => b + 256 * le_val bs'
  end.

Fixpoint le_bytes (n : nat) (v : Z) : list Z :=
  match n with
  | O => []
  | S n' => v mod 256 :: le_bytes n' (v / 256)
  end.

Lemma length_le_bytes n v : length (le_bytes n v) = n.
Proof. revert v; induction n; intros; simpl; auto. Qed.

Lemma le_bytes_ok n v : bytes_ok (le_bytes n v).
Proof.
  revert v; induction n; intros; simpl; constructor; auto.
  unfold is_byte. apply Z.mod_pos_bound. lia.
Qed.

Lemma le_val_le_bytes n v : le_val (le_bytes n v) = v mod 256 ^ Z.of_nat n.
Proof.
  revert v; induction n as [|n IH]; intros v; cbn [le_bytes le_val].
  - by rewrite Z.mod_1_r.
  - rewrite IH, Nat2Z.inj_succ, Z.pow_succ_r by lia.
    rewrite Z.rem_mul_r by lia. lia.
Qed.

Lemma le_bytes_mod n v : le_bytes n (v mod 256 ^ Z.of_nat n) = le_bytes n v.
Proof.
  revert v; induction n as [|n IH]; intros v; cbn [le_bytes]; [done|].
  rewrite Nat2Z.inj_succ, Z.pow_succ_r, Z.rem_mul_r by lia.
  rewrite (Z.mul_comm 256), Z.mod_add, Z.mod_mod, Z.div_add by lia.
  by rewrite (Z.div_small (v mod 256)), Z.add_0_l, IH by (apply Z.mod_pos_bound; lia).
Qed.

Lemma le_bytes_add n k v : le_bytes (n + k) v = le_bytes n v ++ le_bytes k (v / 256 ^ Z.of_nat n).
Proof.
  revert v; induction n as [|n IH]; intros v; cbn [le_bytes app Nat.add].
  - by rewrite Z.div_1_r.
  - by rewrite IH, Nat2Z.inj_succ, Z.pow_succ_r, Z.div_div by lia.
Qed.

Lemma le_val_bound bs : bytes_ok bs → 0 ≤ le_val bs < 256 ^ Z.of_nat (length bs).
Proof.
  induction 1 as [|b bs Hb _ IH]; cbn [le_val length]; [lia|].
  rewrite Nat2Z.inj_succ, Z.pow_succ_r by lia. unfold is_byte in Hb. nia.
Qed.

Lemma le_val_app bs1 bs2 : le_val (bs1 ++ bs2) = le_val bs1 + 256 ^ Z.of_nat (length bs1) * le_val bs2.
Proof.
  induction bs1 as [|b bs1 IH]; cbn [le_val length app]; [lia|].
  rewrite IH, Nat2Z.inj_succ, Z.pow_succ_r by lia. lia.
Qed.

(** ** Bit masks *)

Lemma testbit_high y k n : 0 ≤ y < 2 ^ k → 0 ≤ k ≤ n → Z.testbit y n = false.
Proof. intros Hy Hn. rewrite <-(Z.mod_small y (2 ^ k)) by lia. apply Z.mod_pow2_bits_high. lia. Qed.

Lemma lor_mod_pow2 x y k : 0 ≤ x < 2 ^ k → 0 ≤ y < 2 ^ k → 0 ≤ k → Z.lor x y mod 2 ^ k = Z.lor x y.
Proof.
  intros Hx Hy Hk. apply Z.bits_inj'. intros n Hn. destruct (decide (n < k)).
  - by rewrite Z.mod_pow2_bits_low by lia.
  - rewrite Z.mod_pow2_bits_high, Z.lor_spec by lia. by rewrite !(testbit_high _ k) by lia.
Qed.

(** the host mask: all ones shifted right by the prefix length *)
Lemma host_mask w len : 0 ≤ len ≤ w → Z.shiftr (2 ^ w - 1) len = 2 ^ (w - len) - 1.
Proof.
  intros. replace (2 ^ w - 1) with (Z.ones w) by (rewrite Z.ones_equiv; lia).
  rewrite Z.shiftr_div_pow2, Z.ones_div_pow2 by lia. rewrite Z.ones_equiv. lia.
Qed.

Lemma host_mask_bound w len : 0 ≤ len ≤ w → 0 ≤ Z.shiftr (2 ^ w - 1) len < 2 ^ w.
Proof.
  intros. rewrite host_mask by lia. pose proof (Z.pow_pos_nonneg 2 (w - len)).
  pose proof (Z.pow_le_mono_r 2 (w - len) w). lia.
Qed.

(** high and low parts side by side *)
Lemma shiftl_lor_add x y k : 0 ≤ k → 0 ≤ y < 2 ^ k → x * 2 ^ k + y = Z.lor (Z.shiftl x k) y.
Proof.
  intros Hk Hy. rewrite <-Z.shiftl_mul_pow2 by lia. rewrite Z.add_nocarry_lxor; [apply Z.lxor_lor|];
    apply Z.bits_inj'; intros n Hn; rewrite Z.land_spec, Z.bits_0;
    (destruct (decide (n < k)); [by rewrite Z.shiftl_spec_low by lia|]);
    by rewrite (testbit_high y k), andb_false_r by lia.
Qed.

Lemma halves_lor x y : 0 ≤ y < 2 ^ 64 → x * 2 ^ 64 + y = Z.lor (Z.shiftl x 64) y.
Proof. intros. by apply shiftl_lor_add. Qed.

Lemma lor_low_half x y k :
  0 ≤ y < 2 ^ 64 → 0 ≤ k ≤ 64 →
  Z.lor (x * 2 ^ 64 + y) (2 ^ k - 1) = x * 2 ^ 64 + Z.lor y (2 ^ k - 1).
Proof.
  intros Hy Hk. assert (0 ≤ 2 ^ k - 1 < 2 ^ 64) as Hm.
  { pose proof (Z.pow_pos_nonneg 2 k). pose proof (Z.pow_le_mono_r 2 k 64). lia. }
  assert (0 ≤ Z.lor y (2 ^ k - 1) < 2 ^ 64)
    by (rewrite <-(lor_mod_pow2 y (2 ^ k - 1) 64) by lia; apply Z.mod_pos_bound; lia).
  by rewrite !halves_lor, Z.lor_assoc by lia.
Qed.

Lemma lor_high_half x y k :
  0 ≤ y < 2 ^ 64 → 0 ≤ k →
  Z.lor (x * 2 ^ 64 + y) (2 ^ (64 + k) - 1) = Z.lor x (2 ^ k - 1) * 2 ^ 64 + (2 ^ 64 - 1).
Proof.
  intros Hy Hk. pose proof (Z.pow_pos_nonneg 2 k).
  replace (2 ^ (64 + k) - 1) with ((2 ^ k - 1) * 2 ^ 64 + (2 ^ 64 - 1)) by (rewrite Z.pow_add_r by lia; lia).
  rewrite !halves_lor by lia. rewrite Z.shiftl_lor.
  assert (Z.lor y (2 ^ 64 - 1) = 2 ^ 64 - 1) as E.
  { change (2 ^ 64 - 1) with (Z.ones 64). apply Z.lor_ones_low; [lia|].
    destruct (decide (y = 0)) as [->|]; [done|]. apply Z.log2_lt_pow2; lia. }
  rewrite <-E at 2. generalize (2 ^ 64 - 1). intros m. rewrite !Z.lor_assoc. f_equal.
  rewrite <-!Z.lor_assoc. f_equal. apply Z.lor_comm.
Qed.

(** [std::ostringstream << n] and [printf "%d"] of an integer *)
Definition dec (z : Z) : string := pretty z.

(** ** Proof automation *)

Create HintDb bmp discriminated.
Create Rewrite HintDb bmp_len.
#[export] Hint Resolve memcpy_not_NoFuel rd_not_NoFuel memcpy_into_not_NoFuel : bmp.
#[export] Hint Resolve le_bytes_ok : bmp.

(** Runs the leading reads of a monadic goal on a buffer in cons form. *)
Ltac run := repeat (first
  [ rewrite rd_cons | rewrite memcpy_app by (simpl; lia) | rewrite adv_app by (simpl; lia)
  | rewrite bind_Ok_l ]; cbn beta iota).

(** Inverts an equation [m ≫= f = Ok b] into the successes of its steps. *)
Ltac inv_ok := repeat match goal with
  | H : mbind _ _ = Ok _ |- _ => apply bind_Ok_inv in H; destruct H as [? [? H]]
  | H : Ok _ = Ok _ |- _ => injection H as H; subst
  | H : Throw _ = Ok _ |- _ => discriminate H
  | H : Undef _ = Ok _ |- _ => discriminate H
  | H : NoFuel = Ok _ |- _ => discriminate H
  | x : (_ * _)%type |- _ => destruct x
  end; simplify_eq.

(** ** Termination

    A computation terminates when it does not exhaust the bound of a loop.
    [term] splits a computation into its steps; the steps themselves are left
    to the hint database. *)
Abbreviation terminates m := (m ≠ NoFuel).

Lemma terminates_bind {A B} (m : outcome A) (f : A → outcome B) :
  terminates m → (∀ a, m = Ok a → terminates (f a)) → terminates (m ≫= f).
Proof. intros Hm Hf. destruct m; cbn; try done. by apply Hf. Qed.

Ltac term_step := match goal with
  | |- mbind _ _ ≠ _ => apply terminates_bind; [|intros ? ?]
  | |- Ok _ ≠ _ => discriminate
  | |- Throw _ ≠ _ => discriminate
  | |- Undef _ ≠ _ => discriminate
  | |- (let '(_, _) := ?x in _) ≠ _ => let E := fresh "E" in destruct x eqn:E
  | |- (if ?b then _ else _) ≠ _ => let E := fresh "E" in destruct b eqn:E
  | |- (match ?x with _ => _ end) ≠ _ => let E := fresh "E" in destruct x eqn:E
  end; cbv beta zeta.
Ltac term := repeat (cbv beta zeta; first [solve [eauto 2 with bmp] | term_step]).

(** ** Counting in lists *)

Lemma length_filter_cons {A} (P : A → Prop) `{∀ x, Decision (P x)} t l :
  length (filter P (t :: l)) = ((if decide (P t) then 1 else 0) + length (filter P l))%nat.
Proof. rewrite filter_cons. by case_decide. Qed.
Lemma filter_delete {A} (P : A → Prop) `{∀ x, Decision (P x)} (l : list A) i t :
  l !! i = Some t → length (filter P l) = ((if decide (P t) then 1 else 0) + length (filter P (delete i l)))%nat.
Proof.
  intros Hi. rewrite delete_take_drop. rewrite <-(take_drop_middle l i t Hi) at 1.
  rewrite !filter_app, !length_app, length_filter_cons. lia.
Qed.
Lemma filter_insert {A} (P : A → Prop) `{∀ x, Decision (P x)} (l : list A) i t t' :
  l !! i = Some t →
  (length (filter P l) + (if decide (P t') then 1 else 0))%nat
  = ((if decide (P t) then 1 else 0) + length (filter P (<[i := t']> l)))%nat.
Proof.
  intros Hi. pose proof (lookup_lt_Some _ _ _ Hi). rewrite insert_take_drop by done.
  rewrite <-(take_drop_middle l i t Hi) at 1. rewrite !filter_app, !length_app, !length_filter_cons. lia.
Qed.
