(* ===== verification/Inet.v ===== *)
(** * Text formatting used by the parsers

    The parts of the C and C++ standard libraries the collector prints with:
    hexadecimal stream output, field padding, [inet_ntop] for IPv4 and IPv6,
    and the bounded string copies [strncpy] and [snprintf]. *)

From S2P Require Import Prelude.

(** ** Hexadecimal output *)

Definition hexdigit (d : Z) : Ascii.ascii :=
  match d with
  | 0 => "0" | 1 => "1" | 2 => "2" | 3 => "3" | 4 => "4" | 5 => "5" | 6 => "6" | 7 => "7"
  | 8 => "8" | 9 => "9" | 10 => "a" | 11 => "b" | 12 => "c" | 13 => "d" | 14 => "e" | _ => "f"
  end%char.

Fixpoint hex_go (digits : nat) (z : Z) (acc : string) : string :=
  match digits with
  | O => acc
  | S n =>
      let acc' := String (hexdigit (z mod 16)) acc in
      if z <? 16 then acc' else hex_go n (z / 16) acc'
  end.

(** [%x] of an unsigned value below 2^64 *)
Definition hex (z : Z) : string := hex_go 16 z "".

(** [setfill(c) << setw(n)] and [%0nx]: pad on the left to [n] characters *)
Fixpoint fill (n : nat) (c : Ascii.ascii) (s : string) : string :=
  match n with O => s | S n' => String c (fill n' c s) end.
Definition setw (n : nat) (c : Ascii.ascii) (s : string) : string :=
  fill (n - String.length s) c s.

(** one byte as two hexadecimal characters *)
Definition hex2 (b : Z) : string := setw 2 "0" (hex b).

(** ** [inet_ntop] *)

Definition inet_ntop4 (src : list Z) : string :=
  match src with
  | a :: b :: c :: d :: _ => dec a +:+ "." +:+ dec b +:+ "." +:+ dec c +:+ "." +:+ dec d
  | _ => ""
  end.

(** the eight 16-bit groups of an IPv6 address *)
Fixpoint words (src : list Z) : list Z :=
  match src with
  | a :: b :: src' => Z.lor (Z.shiftl a 8) b :: words src'
  | _ => []
  end.

(** Longest run of zero groups: [run] is a start index and a length. *)
Definition run : Type := option (nat * nat).
Definition better (best cur : run) : run :=
  match best, cur with
  | _, None => best
  | None, Some _ => cur
  | Some (_, lb), Some (_, lc) => if Nat.ltb lb lc then cur else best
  end.

Fixpoint scan (i : nat) (ws : list Z) (best cur : run) : run :=
  match ws with
  | [] => better best cur
  | w :: ws' =>
      if w =? 0
      then scan (S i) ws' best (match cur with None => Some (i, 1%nat) | Some (b, l) => Some (b, S l) end)
      else scan (S i) ws' (better best cur) None
  end.

Definition best_run (ws : list Z) : run :=
  match scan 0 ws None None with
  | Some (b, l) => if Nat.ltb l 2 then None else Some (b, l)
  | None => None
  end.

Definition in_run (r : run) (i : nat) : bool :=
  match r with Some (b, l) => Nat.leb b i && Nat.ltb i (b + l) | None => false end.
Definition starts_run (r : run) (i : nat) : bool :=
  match r with Some (b, _) => Nat.eqb b i | None => false end.

(** an IPv4 address in the last four bytes of the IPv6 address *)
Definition embeds_v4 (r : run) (ws : list Z) : bool :=
  match r with
  | Some (O, l) => Nat.eqb l 6 || (Nat.eqb l 5 && (nth 5 ws 0 =? 65535))
  | _ => false
  end.

Fixpoint groups (i : nat) (r : run) (ws src all : list Z) : string :=
  match ws with
  | [] => if match r with Some (b, l) => Nat.eqb (b + l) 8 | None => false end then ":" else ""
  | w :: ws' =>
      if in_run r i
      then (if starts_run r i then ":" else "") +:+ groups (S i) r ws' src all
      else (if Nat.eqb i 0 then "" else ":") +:+
           (if Nat.eqb i 6 && embeds_v4 r all
            then inet_ntop4 (drop 12 src)
            else hex w +:+ groups (S i) r ws' src all)
  end.

Definition inet_ntop6 (src : list Z) : string :=
  let ws := words (take 16 src) in groups 0 (best_run ws) ws src ws.

(** [inet_ntop(isIPv4 ? AF_INET : AF_INET6, src, ...)] *)
Definition inet_ntop (isIPv4 : bool) (src : list Z) : string :=
  if isIPv4 then inet_ntop4 src else inet_ntop6 src.

(** ** Fixed-size text fields

    A [char] array that is read back as a C string is represented by that
    string: [strncpy] and [snprintf] into an array of [n] bytes. *)

Fixpoint str_take (n : nat) (s : string) : string :=
  match n, s with
  | S n', String c s' => String c (str_take n' s')
  | _, _ => ""
  end.

(** [snprintf(dst, n, "%s", s)] keeps at most [n - 1] characters. *)
Definition snprintf (n : nat) (s : string) : string := str_take (pred n) s.

Lemma length_str_take n s : String.length (str_take n s) = Nat.min n (String.length s).
Proof. revert s; induction n; intros [|c s]; simpl; auto. Qed.

Lemma str_take_all n s : (String.length s ≤ n)%nat → str_take n s = s.
Proof.
  revert s; induction n; intros [|c s] H; simpl in *; try done; [lia|].
  f_equal. apply IHn. lia.
Qed.

Lemma snprintf_fits n s : (String.length s < n)%nat → snprintf n s = s.
Proof. intros. apply str_take_all. lia. Qed.

Lemma length_append s1 s2 : String.length (s1 +:+ s2) = (String.length s1 + String.length s2)%nat.
Proof. induction s1; simpl; auto. Qed.

(** Bytes of a buffer as text *)
Definition ascii_of_byte (b : Z) : Ascii.ascii := Ascii.ascii_of_N (Z.to_N b).
Definition byte_of_ascii (c : Ascii.ascii) : Z := Z.of_N (Ascii.N_of_ascii c).
(** the characters of a text as octets, without the terminator *)
Definition bytes_of_string (s : string) : list Z := byte_of_ascii <$> String.list_ascii_of_string s.

Lemma bytes_of_string_ok s : bytes_ok (bytes_of_string s).
Proof.
  unfold bytes_of_string. apply Forall_fmap, Forall_true. intros c. unfold compose, is_byte, byte_of_ascii.
  pose proof (Ascii.N_ascii_bounded c). lia.
Qed.
Definition text (bs : list Z) : string := String.string_of_list_ascii (map ascii_of_byte bs).

(** the C string that starts at the first byte of [bs] *)
Fixpoint cstr (bs : list Z) : string :=
  match bs with
  | [] => ""
  | b :: bs' => if b =? 0 then "" else String (ascii_of_byte b) (cstr bs')
  end.

(** texts with a separator between them *)
Fixpoint join (sep : string) (l : list string) : string :=
  match l with
  | [] => ""
  | [s] => s
  | s :: l' => s +:+ sep +:+ join sep l'
  end.

Definition is_empty (s : string) : bool := match s with EmptyString => true | _ => false end.

(** the value of a hexadecimal digit *)
Definition hex_value (c : Ascii.ascii) : option Z :=
  let v := byte_of_ascii c in
  if (48 <=? v) && (v <=? 57) then Some (v - 48)
  else if (97 <=? v) && (v <=? 102) then Some (v - 87)
  else if (65 <=? v) && (v <=? 70) then Some (v - 55)
  else None.

Lemma hex_value_digit d : 0 ≤ d < 16 → hex_value (hexdigit d) = Some d.
Proof.
  intros H. assert (d = 0 ∨ d = 1 ∨ d = 2 ∨ d = 3 ∨ d = 4 ∨ d = 5 ∨ d = 6 ∨ d = 7 ∨ d = 8 ∨ d = 9 ∨ d = 10
    ∨ d = 11 ∨ d = 12 ∨ d = 13 ∨ d = 14 ∨ d = 15) as Hc by lia.
  by repeat destruct Hc as [->|Hc]; [..|subst].
Qed.

(** [s.find(sub) != npos] *)
Fixpoint contains (sub s : string) : bool :=
  String.prefix sub s || match s with String _ s' => contains sub s' | EmptyString => false end.

Definition NL : string := String "010" "".

(** ** The calendar *)

(** the date of a day since 1970-01-01, as [gmtime] computes it *)
Definition civil_from_days (days : Z) : Z * Z * Z :=
  let z := days + 719468 in
  let era := z / 146097 in
  let doe := z mod 146097 in
  let yoe := (doe - doe / 1460 + doe / 36524 - doe / 146096) / 365 in
  let doy := doe - (365 * yoe + yoe / 4 - yoe / 100) in
  let mp := (5 * doy + 2) / 153 in
  let d := doy - (153 * mp + 2) / 5 + 1 in
  let m := if mp <? 10 then mp + 3 else mp - 9 in
  (yoe + era * 400 + (if m <=? 2 then 1 else 0), m, d).

(** ** Facts about printed numbers *)

Definition is_digit (c : Ascii.ascii) : bool :=
  (Nat.leb 48 (Ascii.nat_of_ascii c) && Nat.leb (Ascii.nat_of_ascii c) 57).

Fixpoint str_all (f : Ascii.ascii → bool) (s : string) : bool :=
  match s with "" => true | String c s' => f c && str_all f s' end.

Lemma str_all_impl f g s : (∀ c, f c = true → g c = true) → str_all f s = true → str_all g s = true.
Proof.
  intros Hfg. induction s as [|c s IH]; [done|]. cbn. rewrite !andb_true_iff. naive_solver.
Qed.

Lemma str_all_app f s1 s2 : str_all f (s1 +:+ s2) = str_all f s1 && str_all f s2.
Proof. induction s1; simpl; [done|]. by rewrite IHs1, andb_assoc. Qed.

(** Two strings with a separator that occurs in neither prefix agree on both parts. *)
Lemma sep_inj f c s1 s2 t1 t2 :
  f c = false → str_all f s1 = true → str_all f s2 = true →
  s1 +:+ String c t1 = s2 +:+ String c t2 → s1 = s2 ∧ t1 = t2.
Proof.
  intros Hc. revert s2; induction s1 as [|a s1 IH]; intros [|b s2] H1 H2; cbn in *.
  - naive_solver.
  - intros [= <- _]. by rewrite Hc in H2.
  - intros [= -> _]. by rewrite Hc in H1.
  - intros [= -> H]. apply andb_prop in H1 as [_ H1], H2 as [_ H2].
    destruct (IH s2 H1 H2 H). by subst.
Qed.

Lemma pretty_N_go_digits (x : N) s : str_all is_digit s = true → str_all is_digit (pretty_N_go x s) = true.
Proof.
  revert s. induction (N.lt_wf_0 x) as [x _ IH]; intros s Hs.
  destruct (decide (x = 0%N)) as [->|Hx]; [done|].
  rewrite pretty_N_go_step by lia. apply IH; [apply N.div_lt; lia|].
  cbn. rewrite Hs, andb_true_r.
  assert (x `mod` 10 < 10)%N by (apply N.mod_lt; lia).
  generalize dependent (x `mod` 10)%N; clear. intros y Hy.
  assert (y = 0 ∨ y = 1 ∨ y = 2 ∨ y = 3 ∨ y = 4 ∨ y = 5 ∨ y = 6 ∨ y = 7 ∨ y = 8 ∨ y = 9)%N as Hc by lia.
  by repeat destruct Hc as [-> | Hc]; [..|subst].
Qed.

Lemma dec_digits z : 0 ≤ z → str_all is_digit (dec z) = true.
Proof.
  intros Hz. destruct z as [|p|p]; [done| |lia].
  change (dec (Zpos p)) with (pretty_N_go (Npos p) ""). by apply pretty_N_go_digits.
Qed.

(** a property of the digits and the sign holds of a printed number, and one of the
    filling character of a field *)
Lemma str_all_dec f z : (∀ c, is_digit c = true → f c = true) → f "-"%char = true → str_all f (dec z) = true.
Proof.
  intros Hf Hm. destruct (decide (0 ≤ z)) as [Hz|Hz]; [by apply (str_all_impl is_digit), dec_digits|].
  destruct z as [|p|p]; [lia..|]. change (dec (Zneg p)) with ("-" +:+ pretty_N_go (Npos p) "").
  rewrite str_all_app. cbn [str_all]. rewrite Hm. by apply (str_all_impl is_digit), pretty_N_go_digits.
Qed.
Lemma str_all_fill f n c s : f c = true → str_all f s = true → str_all f (fill n c s) = true.
Proof. intros Hc Hs. induction n; [done|]. cbn [fill str_all]. by rewrite Hc. Qed.
Lemma fill_length n c s : String.length (fill n c s) = (n + String.length s)%nat.
Proof. induction n as [|n IH]; [done|]. cbn. by rewrite IH. Qed.

Lemma dec_inj z1 z2 : dec z1 = dec z2 → z1 = z2.
Proof. exact (pretty_Z_inj z1 z2). Qed.

Lemma append_cons a s t : String a s +:+ t = String a (s +:+ t).
Proof. done. Qed.
Lemma append_nil_l s : "" +:+ s = s.
Proof. done. Qed.

Lemma string_app_assoc s1 s2 s3 : (s1 +:+ s2) +:+ s3 = s1 +:+ s2 +:+ s3.
Proof. induction s1; [done|]. rewrite !append_cons. congruence. Qed.
Lemma string_app_nil_r s : s +:+ "" = s.
Proof. induction s; [done|]. rewrite append_cons. congruence. Qed.

(** The printed form of an IPv4 address determines its four bytes. *)
Lemma inet_ntop4_inj a b c d a' b' c' d' :
  Forall (λ z, 0 ≤ z) [a; b; c; d; a'; b'; c'; d'] →
  inet_ntop4 [a; b; c; d] = inet_ntop4 [a'; b'; c'; d'] → [a; b; c; d] = [a'; b'; c'; d'].
Proof.
  intros H. repeat (apply Forall_cons in H as [? H]). cbn. intros E.
  apply (sep_inj is_digit) in E as [E1 E]; eauto using dec_digits.
  apply (sep_inj is_digit) in E as [E2 E]; eauto using dec_digits.
  apply (sep_inj is_digit) in E as [E3 E4]; eauto using dec_digits.
  apply dec_inj in E1, E2, E3, E4. by subst.
Qed.

(** ** Texts and octets *)

Lemma cstr_text bs rest : Forall (λ b, b ≠ 0) bs → cstr (bs ++ 0 :: rest) = text bs.
Proof.
  induction 1 as [|b bs Hb _ IH]; [done|]. cbn [app cstr]. rewrite (proj2 (Z.eqb_neq b 0)) by done. by rewrite IH.
Qed.

Lemma text_app bs1 bs2 : text (bs1 ++ bs2) = text bs1 +:+ text bs2.
Proof. induction bs1 as [|b bs1 IH]; [done|]. cbn. unfold text in IH. by rewrite IH. Qed.

Lemma text_bytes s : text (bytes_of_string s) = s.
Proof.
  unfold text, bytes_of_string. induction s as [|c s IH]; [done|]. cbn. f_equal; [|exact IH].
  unfold ascii_of_byte, byte_of_ascii. by rewrite N2Z.id, Ascii.ascii_N_embedding.
Qed.

Lemma length_bytes_of_string s : length (bytes_of_string s) = String.length s.
Proof. unfold bytes_of_string. rewrite length_fmap. induction s; cbn; auto. Qed.

(** ** Lengths of printed numbers *)

Lemma pretty_N_go_length n x s : (x < 10 ^ N.of_nat n)%N → (String.length (pretty_N_go x s) ≤ n + String.length s)%nat.
Proof.
  revert x s. induction n as [|n IH]; intros x s Hx.
  - replace x with 0%N by (cbn in Hx; lia). done.
  - destruct (decide (x = 0%N)) as [->|Hn]; [rewrite pretty_N_go_0; lia|]. rewrite pretty_N_go_step by lia.
    etransitivity; [apply IH|cbn; lia]. rewrite Nat2N.inj_succ, N.pow_succ_r' in Hx. apply N.Div0.div_lt_upper_bound; lia.
Qed.
Lemma dec_length n z : 0 ≤ z < 10 ^ Z.of_nat n → (1 ≤ n)%nat → (String.length (dec z) ≤ n)%nat.
Proof.
  intros Hz Hn. destruct z as [|p|p]; [cbn; lia| |lia]. change (dec (Zpos p)) with (pretty_N_go (Npos p) "").
  etransitivity; [apply (pretty_N_go_length n)|cbn; lia]. apply N2Z.inj_lt. rewrite N2Z.inj_pow, nat_N_Z.
  change (Z.of_N (N.pos p)) with (Zpos p). change (Z.of_N 10) with 10. lia.
Qed.
Lemma inet_ntop4_length bs : bytes_ok bs → length bs = 4%nat → (String.length (inet_ntop4 bs) ≤ 15)%nat.
Proof.
  intros Hb Hl. destruct bs as [|a [|b [|c [|d [|]]]]]; try done. repeat (apply Forall_cons in Hb as [? Hb]). unfold is_byte in *.
  unfold inet_ntop4. rewrite !length_append. pose proof (dec_length 3 a ltac:(lia) ltac:(lia)).
  pose proof (dec_length 3 b ltac:(lia) ltac:(lia)). pose proof (dec_length 3 c ltac:(lia) ltac:(lia)).
  pose proof (dec_length 3 d ltac:(lia) ltac:(lia)). cbn [String.length]. lia.
Qed.

Example inet6_a : inet_ntop6 ([32;1;13;184] ++ zeros 11 ++ [1]) = "2001:db8::1".
Proof. vm_compute. reflexivity. Qed.
Example inet6_b : inet_ntop6 (zeros 10 ++ [255;255;10;0;0;1]) = "::ffff:10.0.0.1".
Proof. vm_compute. reflexivity. Qed.
Example inet6_c : inet_ntop6 (zeros 16) = "::".
Proof. vm_compute. reflexivity. Qed.
Example inet6_d : inet_ntop6 [0;1;0;0;0;0;0;2;0;0;0;0;0;0;0;0] = "1:0:0:2::".
Proof. vm_compute. reflexivity. Qed.
