(* ===== verification/MD5.v ===== *)
(** * MD5 ([md5.cpp], [md5.h])

    The digest behind every hash identifier of the collector.  The context is
    a record, the four working variables of [transform] are the fields of
    [regs], and the 64 calls of the round macros are the rows of a table in the
    order of the source.  The main theorem relates any sequence of updates to
    the one-shot definition of RFC 1321. *)

From S2P Require Import Prelude Inet.

Module Md5.

(** ** Word operations *)

Definition not32 (x : Z) : Z := u32 (Z.lnot x).
Definition rotate_left (x n : Z) : Z := Z.lor (u32 (Z.shiftl x n)) (Z.shiftr x (32 - n)).
Definition F (x y z : Z) : Z := Z.lor (Z.land x y) (Z.land (not32 x) z).
Definition G (x y z : Z) : Z := Z.lor (Z.land x z) (Z.land y (not32 z)).
Definition H (x y z : Z) : Z := Z.lxor (Z.lxor x y) z.
Definition I (x y z : Z) : Z := Z.lxor y (Z.lor x (not32 z)).

(** the macros [FF], [GG], [HH] and [II], which differ in the function *)
Inductive macro : Set := FF | GG | HH | II.
#[global] Instance macro_eq_dec : EqDecision macro.
Proof. solve_decision. Defined.

Definition macro_fun (m : macro) : Z → Z → Z → Z :=
  match m with FF => F | GG => G | HH => H | II => I end.

(** [a += f(b, c, d) + x + ac; a = rotate_left(a, s) + b] *)
Definition macro_step (m : macro) (a b c d x s ac : Z) : Z :=
  let a := u32 (a + u32 (macro_fun m b c d + x + ac)) in
  u32 (rotate_left a s + b).

(** ** Octets and words *)

Fixpoint encode (words : list Z) : list Z :=
  match words with
  | [] => []
  | w :: ws => Z.land w 255 :: Z.land (Z.shiftr w 8) 255 :: Z.land (Z.shiftr w 16) 255
               :: Z.land (Z.shiftr w 24) 255 :: encode ws
  end.

Fixpoint decode (bs : list Z) : list Z :=
  match bs with
  | b0 :: b1 :: b2 :: b3 :: bs' =>
      Z.lor (Z.lor (Z.lor b0 (Z.shiftl b1 8)) (Z.shiftl b2 16)) (Z.shiftl b3 24) :: decode bs'
  | _ => []
  end.

(** ** The compression function *)

Inductive reg : Set := a | b | c | d.
#[global] Instance reg_eq_dec : EqDecision reg.
Proof. solve_decision. Defined.
Record regs : Type := { ra : Z; rb : Z; rc : Z; rd : Z }.

Definition get_reg (r : reg) (s : regs) : Z := match r with a => ra s | b => rb s | c => rc s | d => rd s end.
Definition set_reg (r : reg) (v : Z) (s : regs) : regs :=
  match r with
  | a => {| ra := v; rb := rb s; rc := rc s; rd := rd s |}
  | b => {| ra := ra s; rb := v; rc := rc s; rd := rd s |}
  | c => {| ra := ra s; rb := rb s; rc := v; rd := rd s |}
  | d => {| ra := ra s; rb := rb s; rc := rc s; rd := v |}
  end.

(** one macro call: the registers it is given, the index into [x], the shift
    and the additive constant *)
Record step_row : Type :=
  op { row_macro : macro; row_a : reg; row_b : reg; row_c : reg; row_d : reg; row_x : nat; row_s : Z; row_ac : Z }.

Definition S11 : Z := 7.
Definition S12 : Z := 12.
Definition S13 : Z := 17.
Definition S14 : Z := 22.
Definition S21 : Z := 5.
Definition S22 : Z := 9.
Definition S23 : Z := 14.
Definition S24 : Z := 20.
Definition S31 : Z := 4.
Definition S32 : Z := 11.
Definition S33 : Z := 16.
Definition S34 : Z := 23.
Definition S41 : Z := 6.
Definition S42 : Z := 10.
Definition S43 : Z := 15.
Definition S44 : Z := 21.

Definition transform_rows : list step_row :=
  [
   op FF a b c d 0 S11 0xd76aa478; op FF d a b c 1 S12 0xe8c7b756;
   op FF c d a b 2 S13 0x242070db; op FF b c d a 3 S14 0xc1bdceee;
   op FF a b c d 4 S11 0xf57c0faf; op FF d a b c 5 S12 0x4787c62a;
   op FF c d a b 6 S13 0xa8304613; op FF b c d a 7 S14 0xfd469501;
   op FF a b c d 8 S11 0x698098d8; op FF d a b c 9 S12 0x8b44f7af;
   op FF c d a b 10 S13 0xffff5bb1; op FF b c d a 11 S14 0x895cd7be;
   op FF a b c d 12 S11 0x6b901122; op FF d a b c 13 S12 0xfd987193;
   op FF c d a b 14 S13 0xa679438e; op FF b c d a 15 S14 0x49b40821;
   op GG a b c d 1 S21 0xf61e2562; op GG d a b c 6 S22 0xc040b340;
   op GG c d a b 11 S23 0x265e5a51; op GG b c d a 0 S24 0xe9b6c7aa;
   op GG a b c d 5 S21 0xd62f105d; op GG d a b c 10 S22 0x2441453;
   op GG c d a b 15 S23 0xd8a1e681; op GG b c d a 4 S24 0xe7d3fbc8;
   op GG a b c d 9 S21 0x21e1cde6; op GG d a b c 14 S22 0xc33707d6;
   op GG c d a b 3 S23 0xf4d50d87; op GG b c d a 8 S24 0x455a14ed;
   op GG a b c d 13 S21 0xa9e3e905; op GG d a b c 2 S22 0xfcefa3f8;
   op GG c d a b 7 S23 0x676f02d9; op GG b c d a 12 S24 0x8d2a4c8a;
   op HH a b c d 5 S31 0xfffa3942; op HH d a b c 8 S32 0x8771f681;
   op HH c d a b 11 S33 0x6d9d6122; op HH b c d a 14 S34 0xfde5380c;
   op HH a b c d 1 S31 0xa4beea44; op HH d a b c 4 S32 0x4bdecfa9;
   op HH c d a b 7 S33 0xf6bb4b60; op HH b c d a 10 S34 0xbebfbc70;
   op HH a b c d 13 S31 0x289b7ec6; op HH d a b c 0 S32 0xeaa127fa;
   op HH c d a b 3 S33 0xd4ef3085; op HH b c d a 6 S34 0x4881d05;
   op HH a b c d 9 S31 0xd9d4d039; op HH d a b c 12 S32 0xe6db99e5;
   op HH c d a b 15 S33 0x1fa27cf8; op HH b c d a 2 S34 0xc4ac5665;
   op II a b c d 0 S41 0xf4292244; op II d a b c 7 S42 0x432aff97;
   op II c d a b 14 S43 0xab9423a7; op II b c d a 5 S44 0xfc93a039;
   op II a b c d 12 S41 0x655b59c3; op II d a b c 3 S42 0x8f0ccc92;
   op II c d a b 10 S43 0xffeff47d; op II b c d a 1 S44 0x85845dd1;
   op II a b c d 8 S41 0x6fa87e4f; op II d a b c 15 S42 0xfe2ce6e0;
   op II c d a b 6 S43 0xa3014314; op II b c d a 13 S44 0x4e0811a1;
   op II a b c d 4 S41 0xf7537e82; op II d a b c 11 S42 0xbd3af235;
   op II c d a b 2 S43 0x2ad7d2bb; op II b c d a 9 S44 0xeb86d391
  ].

Definition run_row (x : list Z) (s : regs) (o : step_row) : regs :=
  set_reg (row_a o)
    (macro_step (row_macro o) (get_reg (row_a o) s) (get_reg (row_b o) s) (get_reg (row_c o) s)
       (get_reg (row_d o) s) (nth (row_x o) x 0) (row_s o) (row_ac o)) s.

Definition add_regs (s t : regs) : regs :=
  {| ra := u32 (ra s + ra t); rb := u32 (rb s + rb t); rc := u32 (rc s + rc t); rd := u32 (rd s + rd t) |}.

(** the compression of one block of 64 octets *)
Definition transform (st : regs) (block : list Z) : regs :=
  add_regs st (foldl (run_row (decode block)) st transform_rows).

(** ** The context *)

Record md5 : Type := {
  state : regs;
  count0 : Z; count1 : Z;             (** [uint4 count[2]] *)
  buffer : list Z;                    (** 64 octets *)
  digest : list Z;
  finalized : bool }.

Definition init_state : regs := {| ra := 0x67452301; rb := 0xefcdab89; rc := 0x98badcfe; rd := 0x10325476 |}.

(** The buffers are not initialised; [junk] is what they hold. *)
Definition init (junk junk16 : list Z) : md5 :=
  {| state := init_state; count0 := 0; count1 := 0; buffer := junk; digest := junk16; finalized := false |}.

Definition set_state (s : regs) (m : md5) : md5 :=
  {| state := s; count0 := count0 m; count1 := count1 m; buffer := buffer m; digest := digest m;
     finalized := finalized m |}.
Definition set_count (c0 c1 : Z) (m : md5) : md5 :=
  {| state := state m; count0 := c0; count1 := c1; buffer := buffer m; digest := digest m;
     finalized := finalized m |}.
Definition set_buffer (l : list Z) (m : md5) : md5 :=
  {| state := state m; count0 := count0 m; count1 := count1 m; buffer := l; digest := digest m;
     finalized := finalized m |}.

(** [memcpy(dst + off, src, n)] *)
Definition memcpy_at (dst : list Z) (off n : Z) (src : ptr) : outcome (list Z) :=
  if off + n <=? Z.of_nat (length dst) then
    bs ← memcpy n src;
    Ok (take (Z.to_nat off) dst ++ bs ++ drop (Z.to_nat (off + n)) dst)
  else Undef OobWrite.

(** [for (input_index = buffer_space; input_index + 63 < input_length; input_index += 64)] *)
Fixpoint block_loop (fuel : nat) (input : ptr) (input_index input_length : Z) (s : regs)
  : outcome (Z * regs) :=
  match fuel with
  | O => NoFuel
  | S fuel =>
      if u32 (input_index + 63) <? input_length then
        blk ← memcpy 64 (adv input_index input);
        block_loop fuel input (u32 (input_index + 64)) input_length (transform s blk)
      else Ok (input_index, s)
  end.

(** A finalized context is left alone. *)
Definition update (input : ptr) (input_length : Z) (m : md5) : outcome md5 :=
  if finalized m then Ok m
  else
    let buffer_index := Z.land (Z.shiftr (count0 m) 3) 63 in
    let bits := u32 (Z.shiftl input_length 3) in
    let c0 := u32 (count0 m + bits) in
    let c1 := if c0 <? bits then u32 (count1 m + 1) else count1 m in
    let m := set_count c0 (u32 (c1 + Z.shiftr input_length 29)) m in
    let buffer_space := 64 - buffer_index in
    '(m, buffer_index, input_index) ←
      (if buffer_space <=? input_length then
         buf ← memcpy_at (buffer m) buffer_index buffer_space input;
         let m := set_state (transform (state m) buf) (set_buffer buf m) in
         '(i, s) ← block_loop (S (Z.to_nat input_length)) input buffer_space input_length (state m);
         Ok (set_state s m, 0, i)
       else Ok (m, buffer_index, 0));
    buf ← memcpy_at (buffer m) buffer_index (u32 (input_length - input_index)) (adv input_index input);
    Ok (set_buffer buf m).

Definition PADDING : list Z := 128 :: zeros 63.

Definition regs_list (s : regs) : list Z := [ra s; rb s; rc s; rd s].

(** [for (i = 0; i < len; i++) output[i] = value] *)
Definition memset (output : list Z) (value : Z) (len : nat) : list Z := replicate len value ++ drop len output.

(** [memset(buffer, 0, sizeof( *buffer))] clears one octet. *)
Definition finalize (m : md5) : outcome md5 :=
  if finalized m then Ok m
  else
    let bits := encode [count0 m; count1 m] in
    let index := Z.land (Z.shiftr (count0 m) 3) 63 in
    let padLen := if index <? 56 then 56 - index else 120 - index in
    m ← update PADDING padLen m;
    m ← update bits 8 m;
    Ok {| state := state m; count0 := count0 m; count1 := count1 m; buffer := memset (buffer m) 0 1;
          digest := encode (regs_list (state m)); finalized := true |}.

(** The digest of an unfinished context is an empty text, a static array of
    one octet. *)
Definition raw_digest (m : md5) : list Z := if finalized m then digest m else [0].

Fixpoint update_all (chunks : list (list Z)) (m : md5) : outcome md5 :=
  match chunks with
  | [] => Ok m
  | bs :: l => m ← update bs (Z.of_nat (length bs)) m; update_all l m
  end.

(** the digest of a message given in pieces *)
Definition md5_chunks (junk junk16 : list Z) (chunks : list (list Z)) : outcome (list Z) :=
  m ← update_all chunks (init junk junk16);
  m ← finalize m;
  Ok (raw_digest m).

(** The digest of a new context; by [md5_chunks_rfc] the contents of its
    uninitialised buffers do not matter. *)
Definition md5_digest (chunks : list (list Z)) : outcome (list Z) := md5_chunks (zeros 64) (zeros 16) chunks.

(** ** The algorithm of RFC 1321 *)

(** the sine of an integer as a fixed-point number with 256 fractional bits,
    from 240 terms of its Taylor series *)
Fixpoint sin_terms (n : nat) (k x term sum : Z) : Z :=
  match n with
  | O => sum
  | S n => sin_terms n (k + 2) x (- (term * (x * x)) / ((k + 1) * (k + 2))) (sum + term)
  end.
Definition sin_fix (x : Z) : Z := sin_terms 240 1 x (x * 2 ^ 256) 0.
(** [T[i] = floor(4294967296 * abs(sin(i)))] *)
Definition rfc_T (i : Z) : Z := Z.abs (sin_fix i) * 4294967296 / 2 ^ 256.

Open Scope nat_scope.
Definition rfc_row (i : nat) : step_row :=
  let '(m, g, sh) := nth (i / 16) [(FF, i, [7; 12; 17; 22]); (GG, (5 * i + 1) mod 16, [5; 9; 14; 20]);
                                   (HH, (3 * i + 5) mod 16, [4; 11; 16; 23]); (II, (7 * i) mod 16, [6; 10; 15; 21])]
                       (FF, i, []) in
  let '(r0, r1, r2, r3) := nth (i mod 4) [(a, b, c, d); (d, a, b, c); (c, d, a, b); (b, c, d, a)] (a, b, c, d) in
  op m r0 r1 r2 r3 g (Z.of_nat (nth (i mod 4) sh O)) (rfc_T (Z.of_nat i + 1)%Z).
Close Scope nat_scope.

(** little-endian words *)
Fixpoint words (n : nat) (bs : list Z) : list Z :=
  match n with O => [] | S n => le_val (take 4 bs) :: words n (drop 4 bs) end.

Definition rfc_compress (st : regs) (block : list Z) : regs :=
  add_regs st (foldl (run_row (words 16 block)) st (rfc_row <$> seq 0 64)).

(** the chaining value after [n] blocks *)
Fixpoint absorb (compress : regs → list Z → regs) (n : nat) (m : list Z) (st : regs) : regs :=
  match n with O => st | S n => absorb compress n (drop 64 m) (compress st (take 64 m)) end.

(** a one, zeros up to 56 modulo 64, and the length in bits modulo 2^64 *)
Definition rfc_pad (m : list Z) : list Z :=
  let n := Z.of_nat (length m) in
  m ++ [128] ++ zeros (Z.to_nat ((55 - n) mod 64)) ++ le_bytes 8 (8 * n).

Definition md5_rfc (m : list Z) : list Z :=
  let p := rfc_pad m in
  concat (le_bytes 4 <$> regs_list (absorb rfc_compress (length p / 64) p init_state)).

(** ** Correctness *)

(** The table in the source is the schedule of the RFC. *)
Lemma transform_rows_rfc : transform_rows = rfc_row <$> seq 0 64.
Proof. vm_compute. reflexivity. Qed.

Lemma decode_words n bs : length bs = (4 * n)%nat → bytes_ok bs → decode bs = words n bs.
Proof.
  revert bs. induction n as [|n IH]; intros bs Hl Hb; [by destruct bs|].
  destruct bs as [|b0 [|b1 [|b2 [|b3 bs]]]]; cbn [length] in Hl; try lia.
  rewrite !Forall_cons in Hb. destruct Hb as (H0 & H1 & H2 & H3 & Hb). unfold is_byte in *.
  cbn [decode words take drop le_val]. rewrite IH by (done || lia). f_equal.
  rewrite (Z.lor_comm b0), <-(shiftl_lor_add b1 b0 8) by lia.
  rewrite (Z.lor_comm _ (Z.shiftl b2 16)), <-(shiftl_lor_add b2 _ 16) by lia.
  rewrite (Z.lor_comm _ (Z.shiftl b3 24)), <-(shiftl_lor_add b3 _ 24) by lia. unfold take. cbn [le_val]. lia.
Qed.

Lemma transform_rfc st block : length block = 64%nat → bytes_ok block → transform st block = rfc_compress st block.
Proof.
  intros Hl Hb. unfold transform, rfc_compress. by rewrite (decode_words 16), transform_rows_rfc.
Qed.

Lemma encode_le ws : encode ws = concat (le_bytes 4 <$> ws).
Proof.
  induction ws as [|w ws IH]; [done|]. cbn [encode fmap list_fmap concat le_bytes app]. rewrite IH.
  change 255 with (Z.ones 8). rewrite !Z.land_ones, !Z.shiftr_div_pow2 by lia.
  rewrite !Z.div_div by lia. done.
Qed.

Lemma length_encode ws : length (encode ws) = (4 * length ws)%nat.
Proof. induction ws; cbn [encode length]; lia. Qed.

(** *** Blocks *)

Section blocks.
Context (f : regs → list Z → regs).

Lemma absorb_app n k m1 m2 st :
  length m1 = (64 * n)%nat → absorb f (n + k) (m1 ++ m2) st = absorb f k m2 (absorb f n m1 st).
Proof.
  revert m1 st. induction n as [|n IH]; intros m1 st Hl; [by destruct m1|].
  cbn [absorb Nat.add]. rewrite take_app_le, drop_app_le by lia. rewrite IH; [done|].
  rewrite length_drop. lia.
Qed.

Lemma absorb_1 m st : length m = 64%nat → absorb f 1 m st = f st m.
Proof. intros Hl. cbn [absorb]. by rewrite take_ge by lia. Qed.
End blocks.

Lemma absorb_transform n m st :
  length m = (64 * n)%nat → bytes_ok m → absorb transform n m st = absorb rfc_compress n m st.
Proof.
  revert m st. induction n as [|n IH]; intros m st Hl Hb; cbn [absorb]; [reflexivity|].
  rewrite transform_rfc by (apply Forall_take, Hb || (rewrite length_take; lia)).
  apply IH; [rewrite length_drop; lia|by apply Forall_drop].
Qed.

Lemma block_loop_ok n fuel pre blocks rest extra st :
  length blocks = (64 * n)%nat → (length rest < 64)%nat → (n < fuel)%nat →
  Z.of_nat (length (pre ++ blocks ++ rest)) < 2 ^ 32 - 64 →
  block_loop fuel (pre ++ blocks ++ rest ++ extra) (Z.of_nat (length pre)) (Z.of_nat (length (pre ++ blocks ++ rest))) st
  = Ok (Z.of_nat (length (pre ++ blocks)), absorb transform n blocks st).
Proof.
  revert n pre blocks st. induction fuel as [|fuel IH]; intros n pre blocks st Hb Hr Hf Hl; [lia|].
  cbn [block_loop]. rewrite !length_app in *. rewrite u32_small by lia. destruct n as [|n].
  - destruct blocks; [|done]. zif; [cbn [length] in *; lia|]. by rewrite Nat.add_0_r.
  - rewrite (proj2 (Z.ltb_lt _ _)) by lia. set (b1 := take 64 blocks). set (b2 := drop 64 blocks).
    assert (blocks = b1 ++ b2) as Eb by (symmetry; apply take_drop).
    assert (length b1 = 64%nat) as H1 by (subst b1; rewrite length_take; lia).
    assert (length b2 = (64 * n)%nat) as H2 by (subst b2; rewrite length_drop; lia).
    rewrite Eb, adv_app by done. rewrite <-!app_assoc, memcpy_app, bind_Ok_l by (rewrite H1; done).
    rewrite u32_small by lia. specialize (IH n (pre ++ b1) b2 (transform st b1) H2 Hr ltac:(lia)).
    rewrite <-!app_assoc in IH. rewrite !length_app in *. rewrite H1 in IH.
    replace (Z.of_nat (length pre) + 64) with (Z.of_nat (length pre + 64)) by lia.
    replace (Z.of_nat (length pre + (length b1 + length b2 + length rest)))
      with (Z.of_nat (length pre + (64 + (length b2 + length rest)))) by lia.
    rewrite IH by lia. f_equal. f_equal; [lia|]. rewrite (absorb_app transform 1 n) by done.
    by rewrite absorb_1.
Qed.

(** *** The context after a message *)

(** the context has absorbed the message [m]: the full blocks are in the
    chaining value, the rest is at the front of the buffer, and the counters
    hold the length in bits *)
Definition absorbed (m : list Z) (x : md5) : Prop :=
  bytes_ok m ∧ finalized x = false ∧ length (buffer x) = 64%nat
  ∧ count0 x = 8 * Z.of_nat (length m) mod 2 ^ 32
  ∧ count1 x = (8 * Z.of_nat (length m) / 2 ^ 32) mod 2 ^ 32
  ∧ ∃ n full tail, m = full ++ tail ∧ length full = (64 * n)%nat ∧ (length tail < 64)%nat
      ∧ state x = absorb rfc_compress n full init_state ∧ take (length tail) (buffer x) = tail.

Lemma absorbed_init junk junk16 : length junk = 64%nat → absorbed [] (init junk junk16).
Proof.
  intros Hj. split_and!; try done. exists O, [], []. split_and!; cbn [length]; done || lia.
Qed.

(** the buffer index from the bit counter *)
Lemma index_of_count n k t :
  n = 64 * k + t → 0 ≤ k → 0 ≤ t < 64 → Z.land (Z.shiftr (8 * n mod 2 ^ 32) 3) 63 = t.
Proof.
  intros -> Hk Ht. change 63 with (Z.ones 6). rewrite Z.land_ones, Z.shiftr_div_pow2 by lia.
  change (2 ^ 32) with (8 * 2 ^ 29). rewrite Z.mul_mod_distr_l by lia.
  rewrite (Z.mul_comm 8), Z.div_mul by lia. change (2 ^ 29) with (2 ^ 6 * 2 ^ 23).
  rewrite Z.rem_mul_r by lia. rewrite (Z.mul_comm (2 ^ 6) (_ mod _)), Z.mod_add by lia. rewrite Z.mod_mod by lia.
  symmetry. apply (Z.mod_unique _ _ k); lia.
Qed.

(** the two-word counter adds modulo 2^64 *)
Lemma count_add x k :
  0 ≤ x → 0 ≤ k < 2 ^ 32 →
  let c0 := u32 (x mod 2 ^ 32 + u32 (Z.shiftl k 3)) in
  let c1 := if c0 <? u32 (Z.shiftl k 3) then u32 (x / 2 ^ 32 mod 2 ^ 32 + 1) else x / 2 ^ 32 mod 2 ^ 32 in
  c0 = (x + 8 * k) mod 2 ^ 32 ∧ u32 (c1 + Z.shiftr k 29) = (x + 8 * k) / 2 ^ 32 mod 2 ^ 32.
Proof.
  intros Hx Hk c0 c1. subst c0 c1. unfold u32. rewrite Z.shiftl_mul_pow2, Z.shiftr_div_pow2 by lia.
  replace (k * 2 ^ 3) with (8 * k) by lia.
  assert (k / 2 ^ 29 = 8 * k / 2 ^ 32) as ->.
  { change (2 ^ 32) with (8 * 2 ^ 29). by rewrite Z.div_mul_cancel_l by lia. }
  split; [by rewrite <-Z.add_mod by lia|].
  pose proof (Z.div_mod x (2 ^ 32) ltac:(lia)) as E1. pose proof (Z.mod_pos_bound x (2 ^ 32) ltac:(lia)).
  pose proof (Z.div_mod (8 * k) (2 ^ 32) ltac:(lia)) as E2. pose proof (Z.mod_pos_bound (8 * k) (2 ^ 32) ltac:(lia)).
  set (xh := x / 2 ^ 32) in *. set (xl := x mod 2 ^ 32) in *.
  set (kh := 8 * k / 2 ^ 32) in *. set (kl := 8 * k mod 2 ^ 32) in *.
  destruct (decide (xl + kl < 2 ^ 32)) as [Hc|Hc].
  - rewrite (Z.mod_small (xl + kl)) by lia. rewrite (proj2 (Z.ltb_ge _ _)) by lia.
    rewrite Z.add_mod_idemp_l by lia. f_equal. apply (Z.div_unique _ _ _ (xl + kl)); lia.
  - replace ((xl + kl) mod 2 ^ 32) with (xl + kl - 2 ^ 32) by (apply (Z.mod_unique _ _ 1); lia).
    rewrite (proj2 (Z.ltb_lt _ _)) by lia. rewrite !Z.add_mod_idemp_l by lia.
    rewrite <-Z.add_assoc, Z.add_mod_idemp_l by lia. f_equal.
    apply (Z.div_unique _ _ _ (xl + kl - 2 ^ 32)); lia.
Qed.

Lemma memcpy_at_ok dst pre bs rest off n :
  take (length pre) dst = pre → off = Z.of_nat (length pre) → n = Z.of_nat (length bs) →
  (length pre + length bs ≤ length dst)%nat →
  memcpy_at dst off n (bs ++ rest) = Ok (pre ++ bs ++ drop (length pre + length bs) dst).
Proof.
  intros Hp -> -> Hl. unfold memcpy_at. rewrite (proj2 (Z.leb_le _ _)) by lia.
  rewrite memcpy_app, bind_Ok_l by done. rewrite Nat2Z.id, Hp.
  by replace (Z.to_nat (Z.of_nat (length pre) + Z.of_nat (length bs))) with (length pre + length bs)%nat by lia.
Qed.

Lemma split_blocks (l : list Z) :
  ∃ n blocks rest, l = blocks ++ rest ∧ length blocks = (64 * n)%nat ∧ (length rest < 64)%nat.
Proof.
  pose proof (Nat.div_mod_eq (length l) 64). pose proof (Nat.mod_upper_bound (length l) 64 ltac:(lia)).
  exists (length l / 64)%nat, (take (64 * (length l / 64)) l), (drop (64 * (length l / 64)) l).
  rewrite take_drop, length_take, length_drop. split_and!; [done|lia..].
Qed.

Lemma update_absorbed m bs extra x :
  absorbed m x → bytes_ok bs → Z.of_nat (length bs) < 2 ^ 32 - 64 →
  ∃ x', update (bs ++ extra) (Z.of_nat (length bs)) x = Ok x' ∧ absorbed (m ++ bs) x'.
Proof.
  intros (Hm & Hf & Hbl & Hc0 & Hc1 & n & full & tail & -> & Hfull & Htail & Hst & Htk) Hb Hl.
  unfold update. rewrite Hf.
  destruct (count_add (8 * Z.of_nat (length (full ++ tail))) (Z.of_nat (length bs))) as [Ec0 Ec1]; [lia..|].
  replace (8 * Z.of_nat (length (full ++ tail)) + 8 * Z.of_nat (length bs))
    with (8 * Z.of_nat (length ((full ++ tail) ++ bs))) in * by (rewrite !length_app; lia).
  rewrite <-Hc0 in Ec0, Ec1. rewrite <-Hc1 in Ec1. cbv zeta. rewrite Ec1, Ec0, Hc0.
  rewrite (index_of_count _ (Z.of_nat n) (Z.of_nat (length tail))) by (rewrite ?length_app; lia).
  cbn [buffer state set_count]. zif.
  - (* the buffer is filled *)
    assert (∃ i1 i2, bs = i1 ++ i2 ∧ length i1 = (64 - length tail)%nat) as (i1 & i2 & -> & Hi1).
    { exists (take (64 - length tail) bs), (drop (64 - length tail) bs).
      rewrite take_drop, length_take. split; [done|lia]. }
    destruct (split_blocks i2) as (k & blocks & rest & -> & Hk & Hr).
    rewrite <-!app_assoc, (memcpy_at_ok _ tail i1) by (done || lia).
    replace (length tail + length i1)%nat with 64%nat by lia. rewrite drop_ge, app_nil_r, bind_Ok_l by lia.
    cbn [state set_state set_buffer].
    rewrite !Forall_app in *. destruct Hb as (Hb1 & Hb2 & Hb3). destruct Hm as [Hm1 Hm2].
    replace (64 - Z.of_nat (length tail)) with (Z.of_nat (length i1)) by lia.
    rewrite (block_loop_ok k) by (done || (rewrite !length_app in *; lia)).
    rewrite bind_Ok_l. cbn beta iota. rewrite bind_Ok_l. cbn beta iota.
    cbn [buffer set_state set_buffer set_count]. rewrite (app_assoc i1 blocks (rest ++ extra)), adv_app by (rewrite ?length_app; lia).
    replace (u32 _) with (Z.of_nat (length rest)) by (rewrite u32_small; rewrite !length_app in *; lia).
    rewrite (memcpy_at_ok _ [] rest) by (done || (cbn [length]; rewrite length_app; lia)).
    rewrite bind_Ok_l. eexists. split; [done|]. cbn [app length].
    split_and!; cbn [finalized buffer count0 count1 state set_buffer set_state set_count];
      rewrite ?Forall_app; try done.
    + rewrite !length_app, length_drop, length_app. lia.
    + exists (n + 1 + k)%nat, (((full ++ tail) ++ i1) ++ blocks), rest. split_and!; [by rewrite <-!app_assoc| |done| |by rewrite take_app_length].
      * rewrite !length_app. lia.
      * rewrite absorb_app by (rewrite !length_app; lia). rewrite <-!app_assoc, absorb_app by done.
        rewrite absorb_1 by (rewrite length_app; lia). rewrite Hst.
        rewrite transform_rfc by (rewrite ?length_app, ?Forall_app; done || lia). by apply absorb_transform.
  - (* everything fits the buffer *)
    rewrite bind_Ok_l. cbn beta iota. rewrite Z.sub_0_r, u32_small by lia. cbn [buffer set_count].
    change (adv 0 ?l) with l. rewrite (memcpy_at_ok _ tail bs) by (done || lia). rewrite bind_Ok_l. eexists. split; [done|].
    split_and!; cbn [finalized buffer count0 count1 state set_buffer set_count]; rewrite ?Forall_app in *; try tauto.
    + rewrite !length_app, length_drop. lia.
    + exists n, full, (tail ++ bs). split_and!; try done.
      * by rewrite <-app_assoc.
      * rewrite length_app. lia.
      * rewrite app_assoc. by rewrite take_app_length.
Qed.

Lemma update_all_absorbed chunks m x :
  absorbed m x → Forall (λ bs, bytes_ok bs ∧ Z.of_nat (length bs) < 2 ^ 32 - 64) chunks →
  ∃ x', update_all chunks x = Ok x' ∧ absorbed (m ++ concat chunks) x'.
Proof.
  intros Hx Hc. revert m x Hx. induction Hc as [|bs l [Hb Hl] _ IH]; intros m x Hx; cbn [update_all concat].
  - rewrite app_nil_r. eauto.
  - destruct (update_absorbed m bs [] x) as (x' & E & H'); [done..|]. rewrite app_nil_r in E.
    rewrite E, bind_Ok_l, app_assoc. by apply IH.
Qed.

(** the two counter words are the 64-bit length *)
Lemma bits_le_bytes v : encode [v mod 2 ^ 32; (v / 2 ^ 32) mod 2 ^ 32] = le_bytes 8 v.
Proof.
  rewrite encode_le. cbn [fmap list_fmap concat]. rewrite app_nil_r. change (2 ^ 32) with (256 ^ Z.of_nat 4).
  by rewrite !le_bytes_mod, <-le_bytes_add.
Qed.

(** a message of whole blocks *)
Lemma absorbed_full m x :
  absorbed m x → (64 | Z.of_nat (length m)) → state x = absorb rfc_compress (length m / 64) m init_state.
Proof.
  intros (_ & _ & _ & _ & _ & n & full & tail & -> & Hfull & Ht & -> & _) [q Hq]. rewrite length_app in *.
  destruct tail; cbn [length] in *; [|lia]. rewrite app_nil_r, Nat.add_0_r, Hfull.
  by rewrite Nat.mul_comm, Nat.div_mul by lia.
Qed.

(** *** Finalization *)

Lemma finalize_absorbed m x :
  absorbed m x → ∃ x', finalize x = Ok x' ∧ finalized x' = true ∧ digest x' = md5_rfc m.
Proof.
  intros Hx. pose proof Hx as (Hm & Hf & _ & Hc0 & Hc1 & n & full & tail & Em & Hfull & Htail & _).
  unfold finalize. rewrite Hf. set (L := Z.of_nat (length m)) in *.
  assert (L = 64 * Z.of_nat n + Z.of_nat (length tail)) as HL by (subst L m; rewrite length_app; lia).
  rewrite Hc0, (index_of_count L (Z.of_nat n) (Z.of_nat (length tail))) by lia.
  set (t := Z.of_nat (length tail)) in *.
  set (padLen := if t <? 56 then 56 - t else 120 - t).
  assert (padLen = 1 + (55 - L) mod 64) as Hp.
  { subst padLen. replace ((55 - L) mod 64) with (if t <? 56 then 55 - t else 119 - t);
      [by destruct (t <? 56); lia|].
    zif; [apply (Z.mod_unique _ _ (- Z.of_nat n))|apply (Z.mod_unique _ _ (- Z.of_nat n - 1))]; lia. }
  pose proof (Z.mod_pos_bound (55 - L) 64 ltac:(lia)) as Hk. set (k := (55 - L) mod 64) in *.
  assert (PADDING = (128 :: zeros (Z.to_nat k)) ++ zeros (63 - Z.to_nat k)) as Epad.
  { unfold PADDING, zeros. cbn [app]. rewrite <-replicate_add. do 2 f_equal. lia. }
  destruct (update_absorbed m (128 :: zeros (Z.to_nat k)) (zeros (63 - Z.to_nat k)) x Hx)
    as (x1 & E1 & H1).
  { constructor; [split; lia|]. apply Forall_replicate. split; lia. }
  { cbn [length]. rewrite length_zeros. lia. }
  rewrite <-Epad in E1. replace (Z.of_nat (length (128 :: zeros (Z.to_nat k)))) with padLen in E1
    by (cbn [length]; rewrite length_zeros; lia).
  rewrite E1, bind_Ok_l.
  assert (encode [8 * L mod 2 ^ 32; count1 x] = le_bytes 8 (8 * L)) as Ebits.
  { rewrite Hc1. apply bits_le_bytes. }
  rewrite Ebits. destruct (update_absorbed _ (le_bytes 8 (8 * L)) [] x1 H1) as (x2 & E2 & H2).
  { apply le_bytes_ok. }
  { rewrite length_le_bytes. lia. }
  rewrite app_nil_r, length_le_bytes in E2. change (Z.of_nat 8) with 8 in E2. rewrite E2, bind_Ok_l. eexists. split_and!; [done..|].
  cbn [digest]. rewrite encode_le. unfold md5_rfc. do 3 f_equal.
  replace (rfc_pad m) with ((m ++ 128 :: zeros (Z.to_nat k)) ++ le_bytes 8 (8 * L))
    by (unfold rfc_pad; fold L k; by rewrite <-app_assoc).
  apply absorbed_full; [done|]. rewrite !length_app, length_le_bytes. cbn [length]. rewrite length_zeros.
  exists (Z.of_nat n + if t <? 56 then 1 else 2). subst padLen. destruct (t <? 56); lia.
Qed.

Lemma md5_chunks_rfc junk junk16 chunks :
  length junk = 64%nat → Forall (λ bs, bytes_ok bs ∧ Z.of_nat (length bs) < 2 ^ 32 - 64) chunks →
  md5_chunks junk junk16 chunks = Ok (md5_rfc (concat chunks)).
Proof.
  intros Hj Hc. unfold md5_chunks.
  destruct (update_all_absorbed chunks [] (init junk junk16)) as (x & -> & Hx); [by apply absorbed_init|done|].
  rewrite bind_Ok_l. destruct (finalize_absorbed _ _ Hx) as (x' & -> & Hf & Hd). rewrite bind_Ok_l.
  unfold raw_digest. by rewrite Hf, Hd.
Qed.

Lemma md5_digest_rfc chunks :
  Forall (λ bs, bytes_ok bs ∧ Z.of_nat (length bs) < 2 ^ 32 - 64) chunks →
  md5_digest chunks = Ok (md5_rfc (concat chunks)).
Proof. by apply md5_chunks_rfc. Qed.

(** C12: MD5 as RFC 1321 defines it.  Whatever the uninitialised buffers hold, any
    sequence of updates followed by the finalization yields the RFC digest of
    the concatenated message: the table of 64 steps is the RFC's schedule with
    the sine constants, the counters carry across the two words, blocks are
    completed across update calls, and the padding is right for every length. *)
Theorem md5_correct (junk junk16 : list Z) (chunks : list (list Z)) :
  length junk = 64%nat → Forall (λ bs, bytes_ok bs ∧ Z.of_nat (length bs) < 2 ^ 32 - 64) chunks →
  md5_chunks junk junk16 chunks = Ok (md5_rfc (concat chunks)).
Proof. apply md5_chunks_rfc. Qed.

Lemma md5_correct_witness :
  md5_chunks (zeros 64) [] [[97]; [98; 99]] = Ok (md5_rfc [97; 98; 99])
  ∧ md5_rfc [97; 98; 99] = [144; 1; 80; 152; 60; 210; 79; 176; 214; 150; 63; 125; 40; 225; 127; 114].
Proof.
  split; [|vm_compute; reflexivity].
  apply (md5_correct (zeros 64) [] [[97]; [98; 99]]); [reflexivity|].
  repeat (constructor; [split; [repeat constructor; done|simpl; lia]|]). constructor.
Defined.

(** two of the test vectors of the RFC: the empty message and 62 characters *)
Example md5_test_vectors :
  md5_chunks (zeros 64) [] []
    = Ok [0xd4; 0x1d; 0x8c; 0xd9; 0x8f; 0x00; 0xb2; 0x04; 0xe9; 0x80; 0x09; 0x98; 0xec; 0xf8; 0x42; 0x7e]
  ∧ md5_chunks (zeros 64) []
      [bytes_of_string "ABCDEFGHIJKLMNOPQRSTUVWXYZabcdefghijklmnopqrstuvwxyz0123456789"]
    = Ok [0xd1; 0x74; 0xab; 0x98; 0xd2; 0x77; 0xd9; 0xf5; 0xa5; 0x61; 0x1c; 0x2c; 0x9f; 0x41; 0x9d; 0x9f].
Proof. by vm_compute. Qed.

Lemma length_md5_rfc m : length (md5_rfc m) = 16%nat.
Proof. unfold md5_rfc, regs_list. cbn [fmap list_fmap concat]. by rewrite !length_app, !length_le_bytes. Qed.

End Md5.
