(* ===== verification/Logger.v ===== *)
(** * The log ([Logger.cpp], [Logger.h])

    Every message of the program goes through [Logger::printV], which formats
    three times: the widths of the columns into a format, the columns and the
    message of the caller into a second format, and that one with the arguments of
    the caller into the file.  [vformat] is [vsnprintf] for the conversions the
    sources use; [stdio] is the part of the C library the files live in.  A stream
    is seen as after [fflush], which the debug file only gets when it is closed. *)

From S2P Require Import Prelude Inet.

(** ** Formatted output *)

Inductive arg : Set := AInt (z : Z) | AStr (s : string).

(** inside a conversion: the flags [-] and [0], the width so far, whether the flags
    are over, and the bits of the argument (the modifiers [h], [l] and [z]) *)
Record spec : Set := { sp_minus : bool; sp_zero : bool; sp_width : nat; sp_digits : bool; sp_bits : Z }.
Inductive fstate : Set := Plain | Conv (p : spec).

Definition new_spec : spec := {| sp_minus := false; sp_zero := false; sp_width := 0; sp_digits := false; sp_bits := 32 |}.
Definition with_width (n : nat) (p : spec) : spec :=
  {| sp_minus := sp_minus p; sp_zero := sp_zero p; sp_width := n; sp_digits := true; sp_bits := sp_bits p |}.
Definition with_bits (n : Z) (p : spec) : spec :=
  {| sp_minus := sp_minus p; sp_zero := sp_zero p; sp_width := sp_width p; sp_digits := true; sp_bits := n |}.

Definition pad_left (n : nat) (s : string) : string := setw n " " s.
Definition pad_right (n : nat) (s : string) : string := s +:+ fill (n - String.length s) " " "".

Definition pad_text (p : spec) (s : string) : string :=
  if sp_minus p then pad_right (sp_width p) s else pad_left (sp_width p) s.
(** zeros go between the sign and the digits *)
Definition pad_number (p : spec) (negative : bool) (digits : string) : string :=
  let sign := if negative then "-" else "" in
  if sp_zero p && negb (sp_minus p) then sign +:+ setw (sp_width p - String.length sign) "0" digits
  else pad_text p (sign +:+ digits).

Definition upper_char (c : Ascii.ascii) : Ascii.ascii :=
  let n := Ascii.nat_of_ascii c in
  if (Nat.leb 97 n && Nat.leb n 122)%bool then Ascii.ascii_of_nat (n - 32) else c.
Fixpoint upper (s : string) : string :=
  match s with "" => "" | String c s => String (upper_char c) (upper s) end.

(** an argument at the width of its conversion *)
Definition as_signed (bits z : Z) : Z := (z + 2 ^ (bits - 1)) mod 2 ^ bits - 2 ^ (bits - 1).
Definition as_unsigned (bits z : Z) : Z := z mod 2 ^ bits.

(** one conversion; an argument that is missing or of another type is undefined *)
Definition convert (p : spec) (c : Ascii.ascii) (args : list arg) : outcome (string * list arg) :=
  match c, args with
  | "s"%char, AStr s :: args => Ok (pad_text p s, args)
  | ("d" | "i")%char, AInt z :: args =>
      let z := as_signed (sp_bits p) z in Ok (pad_number p (z <? 0) (dec (Z.abs z)), args)
  | "u"%char, AInt z :: args => Ok (pad_number p false (dec (as_unsigned (sp_bits p) z)), args)
  | "x"%char, AInt z :: args => Ok (pad_number p false (hex (as_unsigned (sp_bits p) z)), args)
  | "X"%char, AInt z :: args => Ok (pad_number p false (upper (hex (as_unsigned (sp_bits p) z))), args)
  | _, _ => Undef BadFormat
  end.

Definition digit_value (c : Ascii.ascii) : nat := (Ascii.nat_of_ascii c - 48)%nat.

(** [vsnprintf]; arguments that are left over are ignored *)
Fixpoint vformat (st : fstate) (fmt : string) (args : list arg) : outcome string :=
  match st, fmt with
  | Plain, "" => Ok ""
  | Plain, String c fmt =>
      if Ascii.eqb c "%" then vformat (Conv new_spec) fmt args else t ← vformat Plain fmt args; Ok (String c t)
  | Conv _, "" => Undef BadFormat
  | Conv p, String c fmt =>
      if Ascii.eqb c "%" then t ← vformat Plain fmt args; Ok (String "%" t)
      else if Ascii.eqb c "-" && negb (sp_digits p) then
        vformat (Conv {| sp_minus := true; sp_zero := sp_zero p; sp_width := sp_width p; sp_digits := false;
                         sp_bits := sp_bits p |}) fmt args
      else if Ascii.eqb c "0" && negb (sp_digits p) then
        vformat (Conv {| sp_minus := sp_minus p; sp_zero := true; sp_width := sp_width p; sp_digits := false;
                         sp_bits := sp_bits p |}) fmt args
      else if is_digit c then vformat (Conv (with_width (10 * sp_width p + digit_value c) p)) fmt args
      else if Ascii.eqb c "h" then vformat (Conv (with_bits 16 p)) fmt args
      else if Ascii.eqb c "l" || Ascii.eqb c "z" then vformat (Conv (with_bits 64 p)) fmt args
      else '(s, args) ← convert p c args; t ← vformat Plain fmt args; Ok (s +:+ t)
  end.

Abbreviation printf fmt args := (vformat Plain fmt args).

(** ** Files *)

(** the file a stream writes to, [None] for the terminal, and where: at the end of
    the file, or at a position *)
Record stream : Set := { st_file : option Z; st_append : bool; st_pos : nat }.

(** The contents of the files, of the terminal, and the open streams. *)
Record stdio : Type := { io_files : gmap Z string; io_console : string; io_streams : gmap Z stream }.

Definition contents (f : Z) (io : stdio) : string := default "" (io_files io !! f).

Definition stdout : Z := 1.

Fixpoint str_drop (n : nat) (s : string) : string :=
  match n, s with S n, String _ s => str_drop n s | O, s => s | _, "" => "" end.

(** writing at a position replaces what is there; a gap is filled with zeros *)
Definition write_at (pos : nat) (t old : string) : string :=
  let old := old +:+ fill (pos - String.length old) zero "" in
  str_take pos old +:+ t +:+ str_drop (pos + String.length t) old.

Definition stdio_write (h : Z) (t : string) (io : stdio) : outcome stdio :=
  match io_streams io !! h with
  | None => Undef BadHandle
  | Some s =>
      Ok (match st_file s with
          | None => {| io_files := io_files io; io_console := io_console io +:+ t; io_streams := io_streams io |}
          | Some f =>
              {| io_files := <[f := if st_append s then contents f io +:+ t else write_at (st_pos s) t (contents f io)]> (io_files io);
                 io_console := io_console io;
                 io_streams := <[h := {| st_file := Some f; st_append := st_append s;
                                         st_pos := st_pos s + String.length t |}]> (io_streams io) |}
          end)
  end.

Definition stdio_close (h : Z) (io : stdio) : outcome stdio :=
  match io_streams io !! h with
  | None => Undef BadHandle
  | Some _ => Ok {| io_files := io_files io; io_console := io_console io; io_streams := delete h (io_streams io) |}
  end.

Section logger.
(** [path] finds the file of a name, or the text of the error; [fresh] is the stream
    that [fopen] returns, which is not open. *)
Context (path : string → string + Z) (fresh : gmap Z stream → Z).

(** modes ["a+"] and ["w"] *)
Definition stdio_open (name : string) (append : bool) (io : stdio) : (string + Z) * stdio :=
  match path name with
  | inl e => (inl e, io)
  | inr f =>
      let h := fresh (io_streams io) in
      (inr h, {| io_files := <[f := if append then contents f io else ""]> (io_files io); io_console := io_console io;
                 io_streams := <[h := {| st_file := Some f; st_append := append; st_pos := 0 |}]> (io_streams io) |})
  end.

(** ** The class *)

Record Logger : Set := {
  logFile_REALFILE : bool; debugFile_REALFILE : bool;
  debugFile : Z; logFile : Z; debugEnabled : bool;
  width_function : Z; width_filename : Z }.

(** The constructor throws the text of the error; what was opened until then stays
    open, since the destructor of an unfinished object does not run. *)
Definition new_logger (log_filename debug_filename : option string) (io : stdio) : (string + Logger) * stdio :=
  let '(log, io) := match log_filename with
                    | None => (inr (stdout, false), io)
                    | Some f => let '(r, io) := stdio_open f true io in
                                (match r with inl e => inl e | inr h => inr (h, true) end, io)
                    end in
  match log with
  | inl e => (inl e, io)
  | inr (lf, lf_real) =>
      let '(dbg, io) := match debug_filename with
                        | None => (inr (lf, false), io)
                        | Some d =>
                            if match log_filename with Some l => String.eqb l d | None => false end then (inr (lf, false), io)
                            else let '(r, io) := stdio_open d false io in
                                 (match r with inl e => inl e | inr h => inr (h, true) end, io)
                        end in
      match dbg with
      | inl e => (inl e, io)
      | inr (df, df_real) =>
          (inr {| logFile_REALFILE := lf_real; debugFile_REALFILE := df_real; debugFile := df; logFile := lf;
                  debugEnabled := false; width_function := 20; width_filename := 20 |}, io)
      end
  end.

Definition delete_logger (lg : Logger) (io : stdio) : outcome stdio :=
  io ← (if logFile_REALFILE lg then stdio_close (logFile lg) io else Ok io);
  if debugFile_REALFILE lg then stdio_close (debugFile lg) io else Ok io.

Definition set_debug (b : bool) (lg : Logger) : Logger :=
  {| logFile_REALFILE := logFile_REALFILE lg; debugFile_REALFILE := debugFile_REALFILE lg; debugFile := debugFile lg;
     logFile := logFile lg; debugEnabled := b; width_function := width_function lg; width_filename := width_filename lg |}.
Definition set_widths (fn file : Z) (lg : Logger) : Logger :=
  {| logFile_REALFILE := logFile_REALFILE lg; debugFile_REALFILE := debugFile_REALFILE lg; debugFile := debugFile lg;
     logFile := logFile lg; debugEnabled := debugEnabled lg; width_function := fn; width_filename := file |}.

Definition lg_enableDebug (lg : Logger) : Logger := set_debug true lg.
Definition lg_disableDebug (lg : Logger) : Logger := set_debug false lg.

(** [width] is an unsigned char *)
Definition setWidthFunction (width : Z) (lg : Logger) : Logger :=
  let width := u8 width in
  if (5 <? width) && (width <? 60) then set_widths width (width_filename lg) lg else lg.
Definition setWidthFilename (width : Z) (lg : Logger) : Logger :=
  let width := u8 width in
  if (5 <? width) && (width <? 60) then set_widths (width_function lg) width lg else lg.

(** [strftime "%Y-%m-%dT%H:%M:%S"] of [gmtime_r] *)
Definition time_str (secs : Z) : string :=
  let '(y, m, d) := civil_from_days (secs / 86400) in
  let t := secs mod 86400 in
  dec y +:+ "-" +:+ setw 2 "0" (dec m) +:+ "-" +:+ setw 2 "0" (dec d) +:+ "T"
  +:+ setw 2 "0" (dec (t / 3600)) +:+ ":" +:+ setw 2 "0" (dec (t / 60 mod 60)) +:+ ":" +:+ setw 2 "0" (dec (t mod 60)).

(** what follows the last slash *)
Fixpoint after_slash (s : string) : option string :=
  match s with
  | "" => None
  | String c s' => match after_slash s' with Some t => Some t | None => if Ascii.eqb c "/" then Some s' else None end
  end.
Definition strip_path (filename : string) : string := default filename (after_slash filename).

(** the format of the line, as it is passed to [vfprintf] *)
Definition bufmsg (lg : Logger) (now : Z * Z) (sev : string) (filename : option string) (line_num : Z)
    (func_name msg : string) : outcome string :=
  match filename with
  | Some filename =>
      let fname := strip_path filename in
      fmt ← printf ("%%s.%%06u | %%-8s | %%%ds[%%05d] | %%-%ds | %%s" +:+ NL)
              [AInt (width_filename lg); AInt (width_function lg)];
      t ← printf (snprintf 512 fmt)
            [AStr (time_str now.1); AInt now.2; AStr sev; AStr fname; AInt line_num; AStr func_name; AStr msg];
      Ok (snprintf 4096 t)
  | None =>
      fmt ← printf ("%%s.%%06u | %%-8s | %%-%ds | %%s" +:+ NL) [AInt (width_function lg)];
      t ← printf (snprintf 512 fmt) [AStr (time_str now.1); AInt now.2; AStr sev; AStr func_name; AStr msg];
      Ok (snprintf 4096 t)
  end.

Definition printV (lg : Logger) (now : Z * Z) (sev : string) (output : Z) (filename : option string) (line_num : Z)
    (func_name msg : string) (args : list arg) (io : stdio) : outcome stdio :=
  buf ← bufmsg lg now sev filename line_num func_name msg;
  t ← printf buf args;
  stdio_write output t io.

Definition Print (lg : Logger) (now : Z * Z) (sev func_name msg : string) (args : list arg) (io : stdio) : outcome stdio :=
  printV lg now sev (logFile lg) None 0 func_name msg args io.

Definition DebugPrint (lg : Logger) (now : Z * Z) (filename : string) (line_num : Z) (func_name msg : string)
    (args : list arg) (io : stdio) : outcome stdio :=
  if negb (debugEnabled lg) then Ok io
  else printV lg now "DEBUG" (debugFile lg) (Some filename) line_num func_name msg args io.
End logger.

(** ** Formats *)

(** a text without conversions *)
Definition plain (s : string) : Prop := str_all (λ c, negb (Ascii.eqb c "%")) s = true.
#[global] Instance plain_dec s : Decision (plain s).
Proof. unfold plain. apply _. Defined.

Lemma plain_app s t : plain (s +:+ t) ↔ plain s ∧ plain t.
Proof. unfold plain. rewrite str_all_app. apply andb_true_iff. Qed.
Lemma plain_dec_text z : plain (dec z).
Proof. apply str_all_dec; [|done]. intros c Hc. by destruct c as [[] [] [] [] [] [] [] []]. Qed.
Lemma plain_fill n c s : c ≠ "%"%char → plain s → plain (fill n c s).
Proof. intros Hc. apply str_all_fill. apply negb_true_iff. by apply Ascii.eqb_neq. Qed.
Lemma plain_setw n s : plain s → plain (setw n "0" s).
Proof. intros. by apply plain_fill. Qed.
Lemma plain_pad_right n s : plain s → plain (pad_right n s).
Proof. intros. unfold pad_right. rewrite plain_app. split; [done|]. by apply (plain_fill _ " "). Qed.
Lemma plain_pad_left n s : plain s → plain (pad_left n s).
Proof. intros. by apply plain_fill. Qed.
#[export] Hint Resolve plain_dec_text plain_setw plain_pad_left plain_pad_right : bmp.

(** a text in front of a format is copied *)
Lemma printf_plain s fmt args : plain s → printf (s +:+ fmt) args = t ← printf fmt args; Ok (s +:+ t).
Proof.
  induction s as [|c s IH]; intros Hs; [rewrite append_nil_l; by destruct (printf fmt args)|].
  unfold plain in Hs. cbn [str_all] in Hs. apply andb_prop in Hs as [Hc Hs]. apply negb_true_iff in Hc.
  rewrite append_cons. cbn [vformat]. rewrite Hc, IH by done. by destruct (printf fmt args).
Qed.
Lemma printf_text s args : plain s → printf s args = Ok s.
Proof. intros. rewrite <-(string_app_nil_r s) at 1. rewrite printf_plain by done. cbn. by rewrite string_app_nil_r. Qed.

(** a text behind a format that is complete is copied *)
Lemma vformat_app fmt : ∀ st args t s, vformat st fmt args = Ok t → plain s → vformat st (fmt +:+ s) args = Ok (t +:+ s).
Proof.
  induction fmt as [|c fmt IH]; intros st args t s E Hs.
  { destruct st; [|done]. injection E as <-. by apply printf_text. }
  rewrite append_cons. destruct st as [|p]; cbn [vformat] in *.
  - destruct (Ascii.eqb c "%"); [by apply IH|]. apply bind_Ok_inv in E as (t' & E & [= <-]). by rewrite (IH _ _ _ _ E Hs).
  - repeat match goal with |- context [if ?b then _ else _] => destruct b end; try by apply IH.
    + apply bind_Ok_inv in E as (t' & E & [= <-]). by rewrite (IH _ _ _ _ E Hs).
    + apply bind_Ok_inv in E as ([u args'] & Ec & E). apply bind_Ok_inv in E as (t' & E & [= <-]).
      rewrite Ec, bind_Ok_l. cbn beta iota. rewrite (IH _ _ _ _ E Hs), bind_Ok_l. by rewrite string_app_assoc.
Qed.

(** the widths that the setters accept *)
Definition width_ok (w : Z) : Prop := 6 ≤ w < 60.

Lemma vformat_width w minus fmt args :
  width_ok w →
  vformat (Conv {| sp_minus := minus; sp_zero := false; sp_width := 0; sp_digits := false; sp_bits := 32 |}) (dec w +:+ fmt) args
  = vformat (Conv {| sp_minus := minus; sp_zero := false; sp_width := Z.to_nat w; sp_digits := true; sp_bits := 32 |}) fmt args.
Proof.
  intros Hw. assert (w ∈ seqZ 6 54) as Hin by (apply elem_of_seqZ; unfold width_ok in Hw; lia). vm_compute in Hin.
  repeat (apply elem_of_cons in Hin as [->|Hin]; [reflexivity|]). by apply elem_of_nil in Hin.
Qed.
Lemma width_signed w : width_ok w → as_signed 32 w = w.
Proof. unfold width_ok, as_signed. intros. rewrite Z.mod_small by lia. lia. Qed.

(** ** The line of a message *)

Lemma pad_number_plain w : width_ok w → pad_number new_spec (as_signed 32 w <? 0) (dec (Z.abs (as_signed 32 w))) = dec w.
Proof.
  intros Hw. rewrite width_signed by done. unfold width_ok in Hw. rewrite (proj2 (Z.ltb_ge _ _)), Z.abs_eq by lia. done.
Qed.
Lemma length_width w : width_ok w → (String.length (dec w) ≤ 2)%nat.
Proof.
  intros Hw. assert (w ∈ seqZ 6 54) as Hin by (apply elem_of_seqZ; unfold width_ok in Hw; lia). vm_compute in Hin.
  repeat (apply elem_of_cons in Hin as [->|Hin]; [by apply (bool_decide_unpack _)|]). by apply elem_of_nil in Hin.
Qed.

Definition widths_ok (lg : Logger) : Prop := width_ok (width_function lg) ∧ width_ok (width_filename lg).

(** the columns in front of the message *)
Definition columns (lg : Logger) (now : Z * Z) (sev : string) (place : option (string * Z)) (func_name : string) : string :=
  time_str now.1 +:+ "." +:+ setw 6 "0" (dec now.2) +:+ " | " +:+ pad_right 8 sev +:+ " | "
  +:+ match place with
      | Some (filename, line_num) =>
          pad_left (Z.to_nat (width_filename lg)) (strip_path filename) +:+ "[" +:+ setw 5 "0" (dec line_num) +:+ "] | "
      | None => ""
      end
  +:+ pad_right (Z.to_nat (width_function lg)) func_name +:+ " | ".

Definition clock_ok (now : Z * Z) : Prop := 0 ≤ now.2 < 1000000.

(** the file and line of a debug message *)
Definition place_ok (place : option (string * Z)) : Prop :=
  match place with Some (f, n) => plain (strip_path f) ∧ 0 ≤ n < 2 ^ 31 | None => True end.

Definition print_buf (lg : Logger) now sev (place : option (string * Z)) func_name msg :=
  bufmsg lg now sev (fst <$> place) (default 0 (snd <$> place)) func_name msg.

(** the conversions of the columns *)
Section conversions.
Context (fmt : string) (args : list arg).
Lemma printf_s s : printf ("%s" +:+ fmt) (AStr s :: args) = t ← printf fmt args; Ok (s +:+ t).
Proof. done. Qed.
Lemma printf_8s s : printf ("%-8s" +:+ fmt) (AStr s :: args) = t ← printf fmt args; Ok (pad_right 8 s +:+ t).
Proof. done. Qed.
Lemma printf_06u z : 0 ≤ z < 2 ^ 32 → printf ("%06u" +:+ fmt) (AInt z :: args) = t ← printf fmt args; Ok (setw 6 "0" (dec z) +:+ t).
Proof.
  intros Hz. transitivity (t ← printf fmt args; Ok (setw 6 "0" (dec (as_unsigned 32 z)) +:+ t)); [done|].
  unfold as_unsigned. by rewrite Z.mod_small.
Qed.
Lemma printf_05d z : 0 ≤ z < 2 ^ 31 → printf ("%05d" +:+ fmt) (AInt z :: args) = t ← printf fmt args; Ok (setw 5 "0" (dec z) +:+ t).
Proof.
  intros Hz. assert (as_signed 32 z = z) as E by (unfold as_signed; rewrite Z.mod_small; lia).
  transitivity (t ← printf fmt args; Ok (pad_number {| sp_minus := false; sp_zero := true; sp_width := 5; sp_digits := true; sp_bits := 32 |}
    (as_signed 32 z <? 0) (dec (Z.abs (as_signed 32 z))) +:+ t)); [done|].
  rewrite E, (proj2 (Z.ltb_ge _ _)), Z.abs_eq by lia. done.
Qed.
Lemma printf_left w s :
  width_ok w → printf ("%" +:+ dec w +:+ "s" +:+ fmt) (AStr s :: args) = t ← printf fmt args; Ok (pad_left (Z.to_nat w) s +:+ t).
Proof. intros Hw. rewrite append_cons, append_nil_l. cbn [vformat Ascii.eqb Bool.eqb]. unfold new_spec. by rewrite vformat_width. Qed.
Lemma printf_right w s :
  width_ok w → printf ("%-" +:+ dec w +:+ "s" +:+ fmt) (AStr s :: args) = t ← printf fmt args; Ok (pad_right (Z.to_nat w) s +:+ t).
Proof.
  intros Hw. rewrite !append_cons, append_nil_l.
  transitivity (vformat (Conv {| sp_minus := true; sp_zero := false; sp_width := 0; sp_digits := false; sp_bits := 32 |})
    (dec w +:+ "s" +:+ fmt) (AStr s :: args)); [done|]. by rewrite vformat_width.
Qed.
End conversions.

(** the formats with the widths filled in *)
Lemma debug_format lg :
  widths_ok lg →
  printf ("%%s.%%06u | %%-8s | %%%ds[%%05d] | %%-%ds | %%s" +:+ NL) [AInt (width_filename lg); AInt (width_function lg)]
  = Ok ("%s" +:+ "." +:+ "%06u" +:+ " | " +:+ "%-8s" +:+ " | " +:+ "%" +:+ dec (width_filename lg) +:+ "s" +:+ "[" +:+ "%05d"
        +:+ "] | " +:+ "%-" +:+ dec (width_function lg) +:+ "s" +:+ " | " +:+ "%s" +:+ NL).
Proof.
  intros [Hw Hf]. transitivity (Ok ("%s.%06u | %-8s | %"
    +:+ pad_number new_spec (as_signed 32 (width_filename lg) <? 0) (dec (Z.abs (as_signed 32 (width_filename lg))))
    +:+ "s[%05d] | %-" +:+ pad_number new_spec (as_signed 32 (width_function lg) <? 0) (dec (Z.abs (as_signed 32 (width_function lg))))
    +:+ "s | %s" +:+ NL)); [done|]. by rewrite !pad_number_plain.
Qed.
Lemma message_format lg :
  widths_ok lg →
  printf ("%%s.%%06u | %%-8s | %%-%ds | %%s" +:+ NL) [AInt (width_function lg)]
  = Ok ("%s" +:+ "." +:+ "%06u" +:+ " | " +:+ "%-8s" +:+ " | " +:+ "%-" +:+ dec (width_function lg) +:+ "s" +:+ " | " +:+ "%s" +:+ NL).
Proof.
  intros [Hw _]. transitivity (Ok ("%s.%06u | %-8s | %-"
    +:+ pad_number new_spec (as_signed 32 (width_function lg) <? 0) (dec (Z.abs (as_signed 32 (width_function lg))))
    +:+ "s | %s" +:+ NL)); [done|]. by rewrite pad_number_plain.
Qed.

(** fields are separated by texts without conversions *)
Ltac fields := repeat first [rewrite printf_s | rewrite printf_8s | rewrite printf_06u by lia | rewrite printf_05d by lia
  | rewrite printf_left by done | rewrite printf_right by done | rewrite printf_plain by done | rewrite printf_text by done];
  rewrite ?bind_Ok_l.

Lemma bufmsg_columns lg now sev place func_name msg :
  widths_ok lg → clock_ok now → place_ok place →
  print_buf lg now sev place func_name msg = Ok (snprintf 4096 (columns lg now sev place func_name +:+ msg +:+ NL)).
Proof.
  intros Hlg Hn Hp. pose proof Hlg as [Hw Hf]. unfold print_buf, bufmsg, columns. destruct now as [secs us].
  unfold clock_ok in Hn. cbn [fst snd] in *. pose proof (length_width _ Hw). pose proof (length_width _ Hf).
  destruct place as [[f n]|]; cbn [fmap option_fmap option_map default fst snd id].
  - destruct Hp as [_ Hp]. rewrite debug_format, bind_Ok_l, snprintf_fits by (rewrite ?length_append; cbn [String.length NL]; done || lia).
    fields. by rewrite !string_app_assoc.
  - rewrite message_format, bind_Ok_l, snprintf_fits by (rewrite ?length_append; cbn [String.length NL]; done || lia).
    fields. by rewrite !string_app_assoc.
Qed.

(** what a message looks like in the file *)
Definition log_line (lg : Logger) now sev place func_name (text : string) : string :=
  columns lg now sev place func_name +:+ text +:+ NL.

Definition names_ok (sev : string) (place : option (string * Z)) (func_name : string) : Prop :=
  plain sev ∧ plain func_name ∧ place_ok place.

Lemma time_str_plain secs : plain (time_str secs).
Proof.
  unfold time_str. destruct (civil_from_days _) as [[y m] d]. rewrite !plain_app. split_and!; auto with bmp; done.
Qed.
#[local] Hint Resolve time_str_plain : bmp.

Lemma columns_plain lg now sev place func_name : names_ok sev place func_name → plain (columns lg now sev place func_name).
Proof.
  intros (Hs & Hf & Hp). unfold columns. rewrite !plain_app. split_and!; auto with bmp; try done.
  destruct place as [[f n]|]; [|done]. destruct Hp. rewrite !plain_app. split_and!; auto with bmp; done.
Qed.

(** the call of [printV] behind [Print] and [DebugPrint] *)
Definition print_at (lg : Logger) now sev output (place : option (string * Z)) func_name msg args io :=
  printV lg now sev output (fst <$> place) (default 0 (snd <$> place)) func_name msg args io.

Lemma print_at_line lg now sev output place func_name msg args text io :
  widths_ok lg → clock_ok now → names_ok sev place func_name →
  (String.length (columns lg now sev place func_name) + String.length msg < 4095)%nat → printf msg args = Ok text →
  print_at lg now sev output place func_name msg args io = stdio_write output (log_line lg now sev place func_name text) io.
Proof.
  intros Hw Hn Hnames Hl Ht. pose proof Hnames as (_ & _ & Hp). unfold print_at, printV.
  pose proof (bufmsg_columns lg now sev place func_name msg Hw Hn Hp) as E. unfold print_buf in E. rewrite E.
  rewrite bind_Ok_l, snprintf_fits by (rewrite !length_append; cbn [String.length NL]; lia).
  rewrite printf_plain by by apply columns_plain. by rewrite (vformat_app msg Plain args text NL Ht).
Qed.

(** a message that is too long is cut, and its newline with it *)
Lemma print_at_cut lg now sev output place func_name msg args io :
  widths_ok lg → clock_ok now → names_ok sev place func_name → plain msg →
  print_at lg now sev output place func_name msg args io
  = stdio_write output (str_take 4095 (log_line lg now sev place func_name msg)) io.
Proof.
  intros Hw Hn Hnames Hm. pose proof Hnames as (_ & _ & Hp). unfold print_at, printV.
  pose proof (bufmsg_columns lg now sev place func_name msg Hw Hn Hp) as E. unfold print_buf in E. rewrite E, bind_Ok_l.
  assert (plain (log_line lg now sev place func_name msg)) as Hpl
    by (unfold log_line; rewrite !plain_app; split_and!; [by apply columns_plain|done..]).
  rewrite printf_text; [done|]. revert Hpl. unfold log_line, snprintf, plain. clear.
  generalize (columns lg now sev place func_name +:+ msg +:+ NL). intros s. generalize (pred 4096). intros n.
  revert s. induction n as [|n IH]; intros [|c s]; cbn [str_take str_all]; try done.
  intros [-> Hs]%andb_prop. by apply IH.
Qed.

(** ** The files of a logger *)

Lemma length_setw n c s : String.length (setw n c s) = Nat.max n (String.length s).
Proof. unfold setw. rewrite fill_length. lia. Qed.
Lemma length_pad_left n s : String.length (pad_left n s) = Nat.max n (String.length s).
Proof. apply length_setw. Qed.
Lemma length_pad_right n s : String.length (pad_right n s) = Nat.max n (String.length s).
Proof. unfold pad_right. rewrite length_append, fill_length. cbn [String.length]. lia. Qed.

(** a message fits when it does with the widest columns *)
Definition widest : Logger :=
  {| logFile_REALFILE := false; debugFile_REALFILE := false; debugFile := 1; logFile := 1; debugEnabled := true;
     width_function := 59; width_filename := 59 |}.

Lemma columns_widest lg now sev place func_name :
  widths_ok lg →
  (String.length (columns lg now sev place func_name) ≤ String.length (columns widest now sev place func_name))%nat.
Proof.
  intros [H1 H2]. unfold width_ok, columns in *. rewrite !length_append, !length_pad_right. cbn [width_function width_filename widest].
  destruct place as [[f n]|]; [rewrite !length_append, !length_pad_left|]; lia.
Qed.

(** the text behind a stream, and the file *)
Definition read_back (h : Z) (io : stdio) : string :=
  match io_streams io !! h with
  | Some s => match st_file s with None => io_console io | Some f => contents f io end
  | None => ""
  end.
Definition target (h : Z) (io : stdio) : option (option Z) := st_file <$> io_streams io !! h.

(** an open stream that writes to the end of its file *)
Definition at_end (h : Z) (io : stdio) : Prop :=
  match io_streams io !! h with
  | Some s => match st_file s with
              | None => True
              | Some f => st_append s = true ∨ st_pos s = String.length (contents f io)
              end
  | None => False
  end.

Lemma str_take_length s t : str_take (String.length s) (s +:+ t) = s.
Proof. induction s as [|c s IH]; [by destruct t|]. rewrite append_cons. cbn [String.length str_take]. by rewrite IH. Qed.
Lemma str_drop_ge n s : (String.length s ≤ n)%nat → str_drop n s = "".
Proof. revert n. induction s as [|c s IH]; intros [|n] H; cbn [String.length str_drop] in *; try done; [lia|]. apply IH. lia. Qed.
Lemma write_at_end t old : write_at (String.length old) t old = old +:+ t.
Proof.
  unfold write_at. rewrite Nat.sub_diag. cbn [fill]. rewrite str_take_length, string_app_nil_r.
  by rewrite str_drop_ge, string_app_nil_r by lia.
Qed.

Lemma write_end h t io :
  at_end h io →
  ∃ io', stdio_write h t io = Ok io' ∧ at_end h io' ∧ read_back h io' = read_back h io +:+ t
    ∧ (∀ g, target g io' = target g io)
    ∧ (∀ g, at_end g io → target g io ≠ target h io → at_end g io' ∧ read_back g io' = read_back g io)
    ∧ (io_streams io' = io_streams io ∧ target h io = Some None
       ∨ ∃ s, io_streams io' = <[h := s]> (io_streams io) ∧ target h io ≠ Some None).
Proof.
  unfold at_end, read_back, target, stdio_write. destruct (io_streams io !! h) as [s|] eqn:E; [|done].
  destruct (st_file s) as [f|] eqn:Ef; intros He; (eexists; split; [done|]); cbn [io_streams].
  - rewrite lookup_insert_eq. cbn [st_file st_append st_pos]. unfold contents. cbn [io_files]. rewrite lookup_insert_eq. cbn [default].
    fold (contents f io). set (old := contents f io) in *. assert (
      (if st_append s then old +:+ t else write_at (st_pos s) t old) = old +:+ t) as Ew.
    { destruct He as [->|He]; [done|]. destruct (st_append s); [done|]. rewrite He. apply write_at_end. }
    cbn [id]. rewrite Ew. split_and!; try done.
    + destruct He as [He|He]; [by left|right]. change (id ?x) with x. rewrite length_append. lia.
    + intros g. destruct (decide (g = h)) as [->|]; [by rewrite lookup_insert_eq, E; cbn; rewrite Ef|by rewrite lookup_insert_ne].
    + intros g Hg Hne. destruct (decide (g = h)) as [->|]; [by rewrite E in Hne|]. rewrite lookup_insert_ne by done.
      destruct (io_streams io !! g) as [sg|]; [|done]. cbn in Hne. rewrite Ef in Hne. destruct (st_file sg) as [f'|] eqn:Eg; [|done].
      rewrite lookup_insert_ne by congruence. done.
    + right. eexists. split; [done|]. cbn. by rewrite Ef.
  - rewrite E, Ef. cbn [io_console]. split_and!; try done.
    + intros g Hg Hne. destruct (io_streams io !! g) as [sg|] eqn:Eg; [|done]. cbn in Hne. rewrite Ef in Hne.
      by destruct (st_file sg) as [f'|] eqn:Eg'.
    + left. cbn. by rewrite Ef.
Qed.

(** ** Any use of a logger *)

(** the public methods *)
Inductive log_op : Type :=
| OpWidthFunction (w : Z)
| OpWidthFilename (w : Z)
| OpEnable
| OpDisable
| OpPrint (now : Z * Z) (sev func_name msg : string) (args : list arg)
| OpDebug (now : Z * Z) (filename : string) (line_num : Z) (func_name msg : string) (args : list arg).

Definition next_logger (op : log_op) (lg : Logger) : Logger :=
  match op with
  | OpWidthFunction w => setWidthFunction w lg
  | OpWidthFilename w => setWidthFilename w lg
  | OpEnable => lg_enableDebug lg
  | OpDisable => lg_disableDebug lg
  | _ => lg
  end.

Definition run_op (op : log_op) (lg : Logger) (io : stdio) : outcome stdio :=
  match op with
  | OpPrint now sev func_name msg args => Print lg now sev func_name msg args io
  | OpDebug now filename line_num func_name msg args => DebugPrint lg now filename line_num func_name msg args io
  | _ => Ok io
  end.

Fixpoint run_ops (ops : list log_op) (lg : Logger) (io : stdio) : outcome (Logger * stdio) :=
  match ops with
  | [] => Ok (lg, io)
  | op :: ops => io ← run_op op lg io; run_ops ops (next_logger op lg) io
  end.

(** the specification: the lines of the operations, with those of the debug file
    marked *)
Definition line_of (op : log_op) (lg : Logger) : list (bool * string) :=
  match op with
  | OpPrint now sev func_name msg args =>
      match printf msg args with Ok t => [(false, log_line lg now sev None func_name t)] | _ => [] end
  | OpDebug now filename line_num func_name msg args =>
      if debugEnabled lg then
        match printf msg args with Ok t => [(true, log_line lg now "DEBUG" (Some (filename, line_num)) func_name t)] | _ => [] end
      else []
  | _ => []
  end.
Fixpoint lines_of (ops : list log_op) (lg : Logger) : list (bool * string) :=
  match ops with
  | [] => []
  | op :: ops => line_of op lg ++ lines_of ops (next_logger op lg)
  end.

Fixpoint joined (l : list string) : string := match l with [] => "" | s :: l => s +:+ joined l end.
(** the lines of one file; both kinds when the files are the same *)
Definition lines_for (shared debug : bool) (l : list (bool * string)) : string :=
  joined (snd <$> filter (λ x, shared = true ∨ x.1 = debug) l).

(** arguments that fit the message, names without conversions and a message that
    is not cut *)
Definition message_ok now sev place func_name msg args : Prop :=
  clock_ok now ∧ names_ok sev place func_name ∧ is_Some (match printf msg args with Ok t => Some t | _ => None end)
  ∧ (String.length (columns widest now sev place func_name) + String.length msg < 4095)%nat.
Definition op_ok (op : log_op) : Prop :=
  match op with
  | OpPrint now sev func_name msg args => message_ok now sev None func_name msg args
  | OpDebug now filename line_num func_name msg args => message_ok now "DEBUG" (Some (filename, line_num)) func_name msg args
  | _ => True
  end.

#[global] Instance op_ok_dec op : Decision (op_ok op).
Proof.
  destruct op as [w|w| | |now sev func_name msg args|now f n func_name msg args]; cbn; try apply _;
    unfold message_ok, names_ok, place_ok, clock_ok; apply _.
Defined.

Lemma next_logger_files op lg :
  logFile (next_logger op lg) = logFile lg ∧ debugFile (next_logger op lg) = debugFile lg
  ∧ logFile_REALFILE (next_logger op lg) = logFile_REALFILE lg ∧ debugFile_REALFILE (next_logger op lg) = debugFile_REALFILE lg.
Proof. destruct op; try done; cbn; unfold setWidthFunction, setWidthFilename; by case_match. Qed.

Lemma next_logger_widths op lg : widths_ok lg → widths_ok (next_logger op lg).
Proof.
  intros [H1 H2]. destruct op; try done; cbn; unfold setWidthFunction, setWidthFilename; case_match eqn:E; try done;
    apply andb_prop in E as [E1 E2]; cmp; split; unfold width_ok; cbn; unfold width_ok in *; lia.
Qed.

(** the open streams without those the logger opened *)
Definition others (lg : Logger) (m : gmap Z stream) : gmap Z stream :=
  (if debugFile_REALFILE lg then delete (debugFile lg) else id) ((if logFile_REALFILE lg then delete (logFile lg) else id) m).

Lemma others_insert lg h s m :
  (h = logFile lg ∧ logFile_REALFILE lg = true) ∨ (h = debugFile lg ∧ debugFile_REALFILE lg = true) →
  others lg (<[h := s]> m) = others lg m.
Proof.
  unfold others. intros [[-> ->]|[-> ->]]; [by rewrite delete_insert_eq|].
  destruct (logFile_REALFILE lg); cbn [id]; [|by rewrite delete_insert_eq].
  destruct (decide (logFile lg = debugFile lg)) as [->|]; [by rewrite delete_insert_eq|].
  by rewrite delete_insert_ne, delete_insert_eq.
Qed.

(** the streams of a logger *)
Record streams_ok (lg : Logger) (base : gmap Z stream) (io : stdio) : Prop := {
  so_log : at_end (logFile lg) io;
  so_debug : at_end (debugFile lg) io;
  so_apart : debugFile lg = logFile lg ∨ target (debugFile lg) io ≠ target (logFile lg) io;
  (* a stream that the logger did not open is the terminal *)
  so_log_real : logFile_REALFILE lg = true ∨ target (logFile lg) io = Some None;
  so_debug_real : debugFile_REALFILE lg = true ∨ debugFile lg = logFile lg;
  so_own : debugFile_REALFILE lg = true → debugFile lg ≠ logFile lg;
  so_base : others lg (io_streams io) = base }.

Definition shared (lg : Logger) : bool := debugFile lg =? logFile lg.

Lemma lines_for_one sh (debug b : bool) t : lines_for sh debug [(b, t)] = if sh || Bool.eqb b debug then t else "".
Proof.
  unfold lines_for. rewrite filter_cons, filter_nil. case_decide as H; cbn [fst] in H;
    cbn [fmap list_fmap snd joined]; rewrite ?string_app_nil_r; destruct sh, debug, b; naive_solver.
Qed.

Lemma write_streams lg base t (debug : bool) io :
  streams_ok lg base io →
  ∃ io', stdio_write (if debug then debugFile lg else logFile lg) t io = Ok io' ∧ streams_ok lg base io'
    ∧ (∀ g, target g io' = target g io)
    ∧ read_back (logFile lg) io' = read_back (logFile lg) io +:+ lines_for (shared lg) false [(debug, t)]
    ∧ read_back (debugFile lg) io' = read_back (debugFile lg) io +:+ lines_for (shared lg) true [(debug, t)].
Proof.
  intros [Hl Hd Ha Hlr Hdr Ho Hb]. set (h := if debug then debugFile lg else logFile lg).
  assert (at_end h io) as Hh by (subst h; by destruct debug).
  destruct (write_end h t io Hh) as (io' & E & He & Er & Et & Eo & Es). exists io'. split; [done|].
  assert (∀ g, (g = h ∨ target g io ≠ target h io) → at_end g io → at_end g io') as Hends.
  { intros g [->|Hg] Hend; [done|]. by apply Eo. }
  split.
  - split; rewrite ?Et; try done.
    + apply Hends; [|done]. subst h. destruct debug, Ha as [Ha|Ha]; auto.
    + apply Hends; [|done]. subst h. destruct debug, Ha as [Ha|Ha]; auto.
    + destruct Es as [[-> _]|(s & -> & Hs)]; [done|]. rewrite others_insert; [done|]. subst h.
      destruct debug, Hlr as [Hlr|Hlr], Hdr as [Hdr|Hdr]; auto; congruence.
  - split; [done|]. rewrite !lines_for_one. unfold shared. subst h. destruct Ha as [Ha|Ha].
    + rewrite Ha in *. rewrite Z.eqb_refl. by destruct debug.
    + rewrite (proj2 (Z.eqb_neq _ _)) by congruence. destruct debug; cbn [Bool.eqb orb]; rewrite string_app_nil_r.
      * split; [|done]. apply Eo; auto.
      * split; [done|]. apply Eo; auto.
Qed.

Lemma lines_for_app sh debug l1 l2 : lines_for sh debug (l1 ++ l2) = lines_for sh debug l1 +:+ lines_for sh debug l2.
Proof.
  unfold lines_for. rewrite filter_app, fmap_app. induction (snd <$> filter _ l1) as [|s l IH]; [done|].
  cbn [app joined]. by rewrite IH, string_app_assoc.
Qed.

(** one operation *)
Lemma run_op_lines op lg base io :
  widths_ok lg → op_ok op → streams_ok lg base io →
  ∃ io', run_op op lg io = Ok io' ∧ streams_ok lg base io' ∧ (∀ g, target g io' = target g io)
    ∧ read_back (logFile lg) io' = read_back (logFile lg) io +:+ lines_for (shared lg) false (line_of op lg)
    ∧ read_back (debugFile lg) io' = read_back (debugFile lg) io +:+ lines_for (shared lg) true (line_of op lg).
Proof.
  intros Hw Ho Hs. assert (∀ now sev place func msg args (debug : bool),
    message_ok now sev place func msg args →
    ∃ io' t, printf msg args = Ok t ∧ print_at lg now sev (if debug then debugFile lg else logFile lg) place func msg args io = Ok io'
      ∧ streams_ok lg base io' ∧ (∀ g, target g io' = target g io)
      ∧ read_back (logFile lg) io' = read_back (logFile lg) io
        +:+ lines_for (shared lg) false [(debug, log_line lg now sev place func t)]
      ∧ read_back (debugFile lg) io' = read_back (debugFile lg) io
        +:+ lines_for (shared lg) true [(debug, log_line lg now sev place func t)]) as Hprint.
  { intros now sev place func msg args debug (Hn & Hnames & [t Et] & Hlen).
    destruct (printf msg args) as [t'| | |] eqn:Ef; try done. pose proof (columns_widest lg now sev place func Hw).
    destruct (write_streams lg base (log_line lg now sev place func t') debug io Hs) as (io' & E & H1 & H2 & H3 & H4).
    exists io', t'. rewrite (print_at_line _ _ _ _ _ _ _ _ t') by (done || lia). by split_and!. }
  assert (∃ io', Ok io = Ok io' ∧ streams_ok lg base io' ∧ (∀ g, target g io' = target g io)
    ∧ read_back (logFile lg) io' = read_back (logFile lg) io +:+ lines_for (shared lg) false []
    ∧ read_back (debugFile lg) io' = read_back (debugFile lg) io +:+ lines_for (shared lg) true []) as Hnone
    by (exists io; by rewrite !string_app_nil_r).
  destruct op as [w|w| | |now sev func msg args|now file line func msg args]; try exact Hnone; cbn [run_op line_of op_ok] in *.
  - destruct (Hprint now sev None func msg args false Ho) as (io' & t & -> & E & H). by exists io'.
  - unfold DebugPrint. destruct (debugEnabled lg); cbn [negb]; [|exact Hnone].
    destruct (Hprint now "DEBUG" (Some (file, line)) func msg args true Ho) as (io' & t & -> & E & H). by exists io'.
Qed.

Lemma run_ops_lines ops lg base io :
  widths_ok lg → Forall op_ok ops → streams_ok lg base io →
  ∃ lg' io', run_ops ops lg io = Ok (lg', io') ∧ widths_ok lg' ∧ streams_ok lg' base io'
    ∧ (∀ g, target g io' = target g io)
    ∧ read_back (logFile lg) io' = read_back (logFile lg) io +:+ lines_for (shared lg) false (lines_of ops lg)
    ∧ read_back (debugFile lg) io' = read_back (debugFile lg) io +:+ lines_for (shared lg) true (lines_of ops lg).
Proof.
  intros Hw Ho. revert lg io Hw. induction Ho as [|op ops Hop _ IH]; intros lg io Hw Hs; cbn [run_ops lines_of].
  { exists lg, io. by rewrite !string_app_nil_r. }
  destruct (run_op_lines op lg base io Hw Hop Hs) as (io1 & -> & Hs1 & T1 & E1 & E2). rewrite bind_Ok_l.
  destruct (next_logger_files op lg) as (F1 & F2 & F3 & F4).
  destruct (IH (next_logger op lg) io1) as (lg' & io' & E & Hw' & Hs' & T2 & E3 & E4).
  { by apply next_logger_widths. }
  { destruct Hs1 as [A1 A2 A3 A4 A5 A6 A7]. split; rewrite ?F1, ?F2, ?F3, ?F4; try done. unfold others in *. by rewrite F1, F2, F3, F4. }
  exists lg', io'. unfold shared in *. rewrite F1, F2 in *. rewrite E3, E4, E1, E2, !lines_for_app, !string_app_assoc. split_and!; try done. intros g. by rewrite T2.
Qed.

(** ** From the constructor to the destructor *)

Section life.
Context (path : string → string + Z) (fresh : gmap Z stream → Z).

(** the file behind a name, none for the terminal *)
Definition file_of (name : option string) : option Z :=
  match name with Some n => match path n with inr f => Some f | inl _ => None end | None => None end.
(** and its text *)
Definition text_of (name : option string) (io : stdio) : string :=
  match file_of name with Some f => contents f io | None => io_console io end.

(** two names that differ are those of two files *)
Definition names_apart (log dbg : option string) : Prop :=
  ∀ l d f, log = Some l → dbg = Some d → l ≠ d → path l = inr f → path d ≠ inr f.

Context (Hfresh : ∀ m, m !! fresh m = None).

Lemma contents_open f (append : bool) io g io' :
  (inr g : string + Z, io') = (inr (fresh (io_streams io)),
     {| io_files := <[f := if append then contents f io else ""]> (io_files io); io_console := io_console io;
        io_streams := <[fresh (io_streams io) := {| st_file := Some f; st_append := append; st_pos := 0 |}]> (io_streams io) |}) →
  (∀ f', contents f' io' = if decide (f' = f) then (if append then contents f io else "") else contents f' io)
  ∧ io_console io' = io_console io ∧ g = fresh (io_streams io)
  ∧ io_streams io' = <[g := {| st_file := Some f; st_append := append; st_pos := 0 |}]> (io_streams io).
Proof.
  intros [= -> ->]. split_and!; try done. intros f'. unfold contents at 1. cbn [io_files].
  case_decide as E; [subst; by rewrite lookup_insert_eq|by rewrite lookup_insert_ne].
Qed.

Lemma read_back_text h name io : target h io = Some (file_of name) → read_back h io = text_of name io.
Proof.
  unfold target, read_back, text_of. destruct (io_streams io !! h) as [s|]; [|done]. intros [= ->]. done.
Qed.

Lemma stdio_open_ok name append io g io' :
  stdio_open path fresh name append io = (inr g, io') →
  ∃ f, path name = inr f
    ∧ (∀ f', contents f' io' = if decide (f' = f) then (if append then contents f io else "") else contents f' io)
    ∧ io_console io' = io_console io ∧ io_streams io !! g = None
    ∧ io_streams io' = <[g := {| st_file := Some f; st_append := append; st_pos := 0 |}]> (io_streams io).
Proof.
  unfold stdio_open. destruct (path name) as [e|f]; [done|]. intros E. exists f. split; [done|].
  destruct (contents_open f append io g io') as (H1 & H2 & H3 & H4); [done|]. split_and!; try done. rewrite H3. apply Hfresh.
Qed.

(** a stream over the file of a name, opened or the terminal *)
Record opened (name : option string) (text : string) (h : Z) (real : bool) (io io' : stdio) : Prop := {
  op_end : at_end h io';
  op_target : target h io' = Some (file_of name);
  op_real : real = true ∨ target h io' = Some None;
  op_base : (if real then delete h else id) (io_streams io') = io_streams io;
  op_text : read_back h io' = text }.

Lemma opened_file name append io h io' :
  stdio_open path fresh name append io = (inr h, io') →
  opened (Some name) (if append then text_of (Some name) io else "") h true io io'.
Proof.
  intros (f & Hp & Hc & _ & Hn & Hs)%stdio_open_ok. split; unfold at_end, target, read_back, text_of, file_of; rewrite ?Hs, ?lookup_insert_eq, ?Hp;
    cbn [fmap option_fmap option_map st_file st_append st_pos]; try done; auto.
  - destruct append; [by left|right]. rewrite Hc. by rewrite decide_True.
  - rewrite delete_insert_eq. by apply delete_id.
  - rewrite Hc, decide_True by done. by destruct append.
Qed.

(** another file leaves a stream as it is *)
Lemma opened_other log text lf real io io1 d h io0 :
  opened log text lf real io io1 → stdio_open path fresh d false io1 = (inr h, io0) → file_of log ≠ file_of (Some d) →
  lf ≠ h ∧ at_end lf io0 ∧ target lf io0 = Some (file_of log) ∧ read_back lf io0 = text
  ∧ io_streams io0 !! lf = io_streams io1 !! lf.
Proof.
  intros [He Ht _ _ Hr] (f & Hp & Hc & Hcon & Hn & Hs)%stdio_open_ok Hne.
  unfold at_end, target, read_back in *. assert (lf ≠ h) as Hlf by (intros ->; by rewrite Hn in He).
  rewrite Hs, !lookup_insert_ne by done. destruct (io_streams io1 !! lf) as [s|]; [|done]. cbn in Ht. injection Ht as Ht.
  destruct (st_file s) as [g|] eqn:Eg; [|by rewrite Hcon; split_and!; cbn; rewrite ?Eg, ?Ht].
  assert (g ≠ f) by (intros ->; apply Hne; rewrite <-Ht; cbn; by rewrite Hp).
  rewrite Hc, decide_False by done. split_and!; try done. cbn. by rewrite Eg, Ht.
Qed.

Lemma new_logger_ok log dbg io lg io0 :
  target stdout io = Some None → names_apart log dbg → new_logger path fresh log dbg io = (inr lg, io0) →
  widths_ok lg ∧ streams_ok lg (io_streams io) io0 ∧ read_back (logFile lg) io0 = text_of log io
  ∧ target (logFile lg) io0 = Some (file_of log)
  ∧ (∀ d, dbg = Some d → log ≠ Some d →
       shared lg = false ∧ read_back (debugFile lg) io0 = "" ∧ target (debugFile lg) io0 = Some (file_of (Some d))).
Proof.
  intros Hout Hap H. unfold new_logger in H.
  destruct (match log with None => _ | Some f => _ end) as [logr io1] eqn:El. destruct logr as [e|[lf lreal]]; [done|].
  assert (opened log (text_of log io) lf lreal io io1) as Hl.
  { destruct log as [l|]; [|injection El as <- <- <-].
    - destruct (stdio_open path fresh l true io) as [[e|h] io'] eqn:Eo; [done|]. injection El as <- <- <-. by apply opened_file in Eo.
    - unfold target in Hout. destruct (io_streams io !! stdout) as [s|] eqn:Es; [|done]. injection Hout as Hs.
      split; unfold at_end, target, read_back; rewrite ?Es; cbn; rewrite ?Hs; auto. }
  assert (∀ lg', (inr {| logFile_REALFILE := lreal; debugFile_REALFILE := false; debugFile := lf; logFile := lf;
      debugEnabled := false; width_function := 20; width_filename := 20 |}, io1) = (inr lg' : string + Logger, io0) →
    widths_ok lg' ∧ streams_ok lg' (io_streams io) io0 ∧ read_back (logFile lg') io0 = text_of log io
    ∧ target (logFile lg') io0 = Some (file_of log)) as Hsh.
  { intros lg' [= <- <-]. destruct Hl. split_and!; try done. split; cbn; auto. }
  destruct dbg as [d|]; [|destruct (Hsh _ H) as (? & ? & ? & ?); by split_and!].
  destruct (match log with Some l => String.eqb l d | None => false end) eqn:Eq.
  { destruct log as [l|]; [|done]. apply String.eqb_eq in Eq as ->. destruct (Hsh _ H) as (? & ? & ? & ?). by split_and!. }
  destruct (stdio_open path fresh d false io1) as [[e|h] io'] eqn:Eo; [done|]. injection H as <- <-.
  assert (file_of log ≠ file_of (Some d)) as Hne.
  { pose proof (stdio_open_ok _ _ _ _ _ Eo) as (f & Hp & _). cbn. rewrite Hp. destruct log as [l|]; [|done]. cbn.
    destruct (path l) as [e|g] eqn:Epl; [done|]. intros [= ->]. apply String.eqb_neq in Eq. by apply (Hap l d f). }
  destruct (opened_other _ _ _ _ _ _ _ _ _ Hl Eo Hne) as (Hlf & He & Ht & Hr & Hsame).
  apply opened_file in Eo. destruct Eo as [De Dt _ Db Dr], Hl as [_ Lt Lr Lb _]. cbn [logFile debugFile]. split_and!; try done.
  - split; cbn [logFile debugFile logFile_REALFILE debugFile_REALFILE]; auto.
    + right. rewrite Ht, Dt. congruence.
    + rewrite Ht, <-Lt. done.
    + unfold others. cbn. rewrite <-Lb. destruct lreal; cbn [id]; [rewrite delete_delete|]; by rewrite Db.
  - intros d' [= <-] _. split_and!; try done. unfold shared. apply Z.eqb_neq. cbn. congruence.
Qed.

Lemma new_logger_shared log dbg io lg io0 :
  new_logger path fresh log dbg io = (inr lg, io0) → dbg = None ∨ dbg = log → shared lg = true.
Proof.
  unfold new_logger, shared. destruct (match log with None => _ | Some f => _ end) as [[e|[lf real]] io1]; [done|].
  intros H Hx. apply Z.eqb_eq. destruct dbg as [d|]; [|by injection H as <- _].
  destruct Hx as [|<-]; [done|]. rewrite String.eqb_refl in H. by injection H as <- _.
Qed.

(** the destructor closes what the constructor opened *)
Lemma delete_logger_ok lg base io :
  streams_ok lg base io →
  ∃ io', delete_logger lg io = Ok io' ∧ io_streams io' = base ∧ io_files io' = io_files io ∧ io_console io' = io_console io.
Proof.
  intros [Hl Hd _ _ _ Ho Hb]. unfold delete_logger, stdio_close, at_end, others in *.
  destruct (io_streams io !! logFile lg) as [s|] eqn:El; [|done]. destruct (io_streams io !! debugFile lg) as [s'|] eqn:Ed; [|done].
  destruct (logFile_REALFILE lg); rewrite bind_Ok_l; (destruct (debugFile_REALFILE lg); [|by eexists]); cbn [io_streams].
  - rewrite lookup_delete_ne, Ed by (intros E; by apply Ho). by eexists.
  - rewrite Ed. by eexists.
Qed.

(** ** Theorems *)

(** C38: the log is the list of its lines.  Let different names of the two files not be the
    same file ([names_apart]), and let the calls that follow the constructor, in any
    order, be such that each message fits with its columns into 4095 characters, its
    arguments are those that its conversions ask for, its time has a date, and the names
    in front of it contain no conversion ([op_ok]).  Then the log file is what it was before with one complete
    line for each message, in the order of the calls, each with the columns of the
    widths at that time; the debug file holds the lines of the debug messages that
    came while debugging was enabled, or these are among those of the log when
    there is one file; and the destructor closes each stream that the constructor
    opened, once, and no other. *)
Theorem log_is_lines (log dbg : option string) (io : stdio) (lg : Logger) (io0 : stdio) (ops : list log_op) :
  target stdout io = Some None → names_apart log dbg → new_logger path fresh log dbg io = (inr lg, io0) → Forall op_ok ops →
  ∃ lg' io1 io2, run_ops ops lg io0 = Ok (lg', io1) ∧ delete_logger lg' io1 = Ok io2
    ∧ io_streams io2 = io_streams io
    ∧ text_of log io2 = text_of log io +:+ lines_for (bool_decide (dbg = None ∨ dbg = log)) false (lines_of ops lg)
    ∧ (dbg ≠ None → dbg ≠ log → text_of dbg io2 = lines_for false true (lines_of ops lg)).
Proof.
  intros Hout Hap Hnew Hops. destruct (new_logger_ok log dbg io lg io0 Hout Hap Hnew) as (Hw & Hs & Hr & Ht & Hd).
  destruct (run_ops_lines ops lg _ io0 Hw Hops Hs) as (lg' & io1 & E & _ & Hs1 & T & R1 & R2).
  destruct (delete_logger_ok _ _ _ Hs1) as (io2 & E2 & Hb & Hf & Hc).
  assert (∀ name, text_of name io2 = text_of name io1) as Htext
    by (intros name; unfold text_of, contents; by rewrite Hf, Hc).
  assert (shared lg = bool_decide (dbg = None ∨ dbg = log)) as <-.
  { destruct (decide (dbg = None ∨ dbg = log)) as [Hx|Hx].
    - rewrite bool_decide_eq_true_2 by done. by apply (new_logger_shared log dbg io lg io0).
    - rewrite bool_decide_eq_false_2 by done. destruct dbg as [d|]; [|tauto]. apply (Hd d); [done|]. intros ->. tauto. }
  exists lg', io1, io2. split_and!; try done.
  - rewrite Htext, <-(read_back_text (logFile lg)) by (by rewrite T). by rewrite R1, Hr.
  - intros Hn Hne. destruct dbg as [d|]; [|done]. destruct (Hd d eq_refl) as (Hsh & Hr2 & Ht2); [congruence|].
    rewrite Htext, <-(read_back_text (debugFile lg)) by (by rewrite T). by rewrite R2, Hr2, Hsh.
Qed.
End life.

(** ** A sample log *)

Definition sample_path (n : string) : string + Z :=
  if String.eqb n "log" then inr 7 else if String.eqb n "dbg" then inr 8 else inl "No such file or directory".
Definition sample_fresh (m : gmap Z stream) : Z := 1 + foldr Z.max 0 (elements (dom m)).
Lemma sample_fresh_ok m : m !! sample_fresh m = None.
Proof.
  apply not_elem_of_dom. rewrite <-elem_of_elements. intros Hin.
  assert (∀ x l, x ∈ l → x ≤ foldr Z.max 0 l) as Hmax.
  { intros x l. induction l as [|y l IH]; [by intros ?%elem_of_nil|]. intros [->|Hx]%elem_of_cons; cbn; [lia|]. specialize (IH Hx). lia. }
  apply Hmax in Hin. unfold sample_fresh in Hin. lia.
Qed.
Definition sample_io : stdio :=
  {| io_files := {[ 7 := "old" +:+ NL ]}; io_console := "";
     io_streams := {[ 1 := {| st_file := None; st_append := true; st_pos := 0 |} ]} |}.
Definition sample_ops : list log_op :=
  [OpDebug (1700000000, 1) "src/openbmp.cpp" 600 "main" "not yet enabled" [];
   OpWidthFilename 15; OpWidthFunction 200; OpEnable;
   OpPrint (1700000000, 42) "INFO" "main" "client %s, sock = %d" [AStr "192.0.2.1"; AInt 7];
   OpDebug (1700000001, 7) "src/openbmp.cpp" 601 "main" "flags %02x" [AInt 10]].

Lemma log_is_lines_witness :
  ∃ io2, text_of sample_path (Some "log") io2
      = "old" +:+ NL +:+ "2023-11-14T22:13:20.000042 | INFO     | main                 | client 192.0.2.1, sock = 7" +:+ NL
    ∧ text_of sample_path (Some "dbg") io2
      = "2023-11-14T22:13:21.000007 | DEBUG    |     openbmp.cpp[00601] | main                 | flags 0a" +:+ NL
    ∧ io_streams io2 = io_streams sample_io.
Proof.
  destruct (log_is_lines sample_path sample_fresh sample_fresh_ok (Some "log") (Some "dbg") sample_io
    {| logFile_REALFILE := true; debugFile_REALFILE := true; debugFile := 3; logFile := 2; debugEnabled := false;
       width_function := 20; width_filename := 20 |} (new_logger sample_path sample_fresh (Some "log") (Some "dbg") sample_io).2 sample_ops)
    as (lg' & io1 & io2 & _ & _ & Hs & Hl & Hd).
  - reflexivity.
  - intros l d f [= <-] [= <-] _ [= <-] [=].
  - reflexivity.
  - apply (bool_decide_unpack _). vm_compute. exact I.
  - exists io2. split_and!; [rewrite Hl|rewrite Hd by done|exact Hs]; vm_compute; reflexivity.
Defined.

(** A logger whose debug file has another name of the log file: the second [fopen]
    truncates the log. *)
Theorem aliased_debug_file_truncates (path : string → string + Z) (fresh : gmap Z stream → Z) (l d : string) (f : Z) (io : stdio) :
  path l = inr f → path d = inr f → l ≠ d →
  ∃ lg io0, new_logger path fresh (Some l) (Some d) io = (inr lg, io0) ∧ contents f io0 = "".
Proof.
  intros Hl Hd Hne. unfold new_logger, stdio_open. rewrite Hl. cbn beta iota zeta. rewrite (proj2 (String.eqb_neq l d)), Hd by done.
  eexists _, _. split; [done|]. unfold contents. cbn [io_files]. by rewrite lookup_insert_eq.
Qed.
Lemma aliased_debug_file_truncates_witness :
  ∃ lg io0, new_logger (λ _, inr 7) (λ _, 3) (Some "log") (Some "./log")
      {| io_files := {[ 7 := "old lines" ]}; io_console := ""; io_streams := ∅ |} = (inr lg, io0) ∧ contents 7 io0 = "".
Proof. exact (aliased_debug_file_truncates (λ _, inr 7) (λ _, 3) "log" "./log" 7 _ eq_refl eq_refl ltac:(done)). Defined.

(** A debug file that cannot be opened: the log file was opened by then, and stays
    open, since nothing is left that could close it. *)
Theorem failed_debug_file_leaks (path : string → string + Z) (fresh : gmap Z stream → Z) (l d e : string) (f : Z) (io : stdio) :
  (∀ m, m !! fresh m = None) → path l = inr f → path d = inl e →
  ∃ io0 h, new_logger path fresh (Some l) (Some d) io = (inl e, io0)
    ∧ io_streams io !! h = None ∧ is_Some (io_streams io0 !! h).
Proof.
  intros Hf Hl Hd. unfold new_logger, stdio_open. rewrite Hl. cbn beta iota zeta.
  rewrite (proj2 (String.eqb_neq l d)), Hd by congruence. eexists _, _. split; [done|]. split; [apply Hf|].
  cbn [io_streams]. rewrite lookup_insert_eq. by eexists.
Qed.
Lemma failed_debug_file_leaks_witness :
  ∃ io0 h, new_logger sample_path sample_fresh (Some "log") (Some "/dbg") sample_io = (inl "No such file or directory", io0)
    ∧ io_streams sample_io !! h = None ∧ is_Some (io_streams io0 !! h).
Proof.
  exact (failed_debug_file_leaks sample_path sample_fresh "log" "/dbg" "No such file or directory" 7 sample_io sample_fresh_ok eq_refl eq_refl).
Defined.

(** A message without conversions of 4096 characters or more loses its end, with the
    newline: at most 4095 characters of the line are written. *)
Theorem long_message_cut (lg : Logger) (now : Z * Z) (sev func_name msg : string) (args : list arg) (io : stdio) :
  widths_ok lg → clock_ok now → plain sev → plain func_name → plain msg →
  Print lg now sev func_name msg args io = stdio_write (logFile lg) (str_take 4095 (log_line lg now sev None func_name msg)) io.
Proof. intros Hw Hn Hs Hf Hm. by apply (print_at_cut lg now sev (logFile lg) None). Qed.
Lemma long_message_cut_witness :
  let msg := fill 5000 "x" "" in
  let io := {| io_files := ∅; io_console := ""; io_streams := {[ 1 := {| st_file := None; st_append := true; st_pos := 0 |} ]} |} in
  Print widest (0, 0) "INFO" "main" msg [] io
  = Ok {| io_files := ∅; io_console := str_take 4095 (log_line widest (0, 0) "INFO" None "main" msg); io_streams := io_streams io |}.
Proof.
  intros msg io. rewrite (long_message_cut widest (0, 0) "INFO" "main" msg [] io); [reflexivity|..]; try reflexivity; repeat split; cbn; lia.
Defined.

(** The message is a format also when the caller only has a text, as in the handler
    of [runServer]: a text with a conversion is undefined. *)
Example text_as_format : printf "topic 100% full, %s" [] = Undef BadFormat ∧ printf "100%" [] = Undef BadFormat.
Proof. done. Qed.
