(* ===== verification/BgpCommon.v ===== *)
(** * BGP common definitions ([bgp/bgp_common.h])

    Byte-order conversion, the AFI/SAFI code points and their names, and the
    NLRI tuples that the UPDATE parsers produce. *)

From S2P Require Import Prelude Inet.

(** ** SWAP_BYTES *)

(** [for (int i=size-1; i >= 0; i--) v[i2++] = buf[i];] with [i] counting the
    iterations still to run *)
Fixpoint swap_loop (buf : list Z) (i : nat) : list Z :=
  match i with
  | O => []
  | S i' => nth i' buf 0 :: swap_loop buf i'
  end.

Definition SWAP_BYTES (v : list Z) : list Z :=
  if Nat.leb (length v) 1 then v else swap_loop v (length v).

(** A network-order integer: the bytes are copied into the variable, swapped
    in place, and read back as a host integer. *)
Definition ntoh (bs : list Z) : Z := le_val (SWAP_BYTES bs).

Definition get_u16 (p : ptr) : outcome Z := bs ← memcpy 2 p; Ok (ntoh bs).
Definition get_u32 (p : ptr) : outcome Z := bs ← memcpy 4 p; Ok (ntoh bs).

(** the network encoding of [v] on [n] octets *)
Definition hton (n : nat) (v : Z) : list Z := rev (le_bytes n v).

(** ** Code points *)

Definition BGP_MAX_MSG_SIZE : Z := 65535.
Definition BGP_MSG_HDR_LEN : Z := 19.
Definition BGP_CAP_PARAM_TYPE : Z := 2.

Definition ATTR_FLAG_EXTENDED (flags : Z) : bool := negb (Z.land flags 16 =? 0).

Definition BGP_AFI_IPV4 : Z := 1.
Definition BGP_AFI_IPV6 : Z := 2.
Definition BGP_AFI_L2VPN : Z := 25.
Definition BGP_AFI_BGPLS : Z := 16388.

Definition BGP_SAFI_UNICAST : Z := 1.
Definition BGP_SAFI_MULTICAST : Z := 2.
Definition BGP_SAFI_NLRI_LABEL : Z := 4.
Definition BGP_SAFI_MCAST_VPN : Z := 5.
Definition BGP_SAFI_VPLS : Z := 65.
Definition BGP_SAFI_MDT : Z := 66.
Definition BGP_SAFI_4over6 : Z := 67.
Definition BGP_SAFI_6over4 : Z := 68.
Definition BGP_SAFI_EVPN : Z := 70.
Definition BGP_SAFI_BGPLS : Z := 71.
Definition BGP_SAFI_MPLS : Z := 128.
Definition BGP_SAFI_MCAST_MPLS_VPN : Z := 129.
Definition BGP_SAFI_RT_CONSTRAINS : Z := 132.

Inductive PREFIX_TYPE : Set :=
| PREFIX_UNICAST_V4
| PREFIX_UNICAST_V6
| PREFIX_LABEL_UNICAST_V4
| PREFIX_LABEL_UNICAST_V6
| PREFIX_VPN_V4
| PREFIX_VPN_v6
| PREFIX_MULTICAST_V4.

#[global] Instance PREFIX_TYPE_eq_dec : EqDecision PREFIX_TYPE.
Proof. solve_decision. Defined.

(** ** NLRI tuples

    A field that a parser may leave unassigned is an [option]; [None] is the
    indeterminate value of a C++ automatic variable. *)

Record prefix_tuple : Type := {
  pt_type : PREFIX_TYPE;
  pt_len : Z;                       (** length in bits, one octet *)
  pt_prefix : string;               (** printed address *)
  pt_prefix_bin : option (list Z);  (** 16 octets *)
  pt_path_id : Z;
  pt_isIPv4 : bool;
  pt_labels : string }.

Record rd_tuple : Type := {
  rd_administrator_subfield : string;
  rd_assigned_number : string;
  rd_type : option Z }.

Record vpn_tuple : Type := { vt_prefix : prefix_tuple; vt_rd : rd_tuple }.

Record evpn_tuple : Type := {
  ev_rd : rd_tuple;
  ev_path_id : Z;
  ethernet_segment_identifier : string;
  ethernet_tag_id_hex : string;
  mac_len : Z;
  mac : string;
  ip_len : Z;
  ip : string;
  mpls_label_1 : Z;
  mpls_label_2 : Z;
  originating_router_ip_len : Z;
  originating_router_ip : string }.

#[global] Instance prefix_tuple_eq_dec : EqDecision prefix_tuple.
Proof. solve_decision. Defined.
#[global] Instance rd_tuple_eq_dec : EqDecision rd_tuple.
Proof. solve_decision. Defined.
#[global] Instance vpn_tuple_eq_dec : EqDecision vpn_tuple.
Proof. solve_decision. Defined.
#[global] Instance evpn_tuple_eq_dec : EqDecision evpn_tuple.
Proof. solve_decision. Defined.

(** ** Names *)

(** [bgp::parse_mac]: six bytes in hexadecimal, separated by colons *)
Fixpoint hex_colon (bs : list Z) : string :=
  match bs with
  | [] => ""
  | [b] => hex2 b
  | b :: bs' => hex2 b +:+ ":" +:+ hex_colon bs'
  end.
Definition parse_mac (p : ptr) : outcome string := bs ← memcpy 6 p; Ok (hex_colon bs).

Definition GET_AFI_STRING_BY_CODE (code : Z) : string :=
  if code =? BGP_AFI_IPV4 then "IPv4"
  else if code =? BGP_AFI_IPV6 then "IPv6"
  else if code =? BGP_AFI_BGPLS then "BGP-LS"
  else "unknown".

Definition GET_SAFI_STRING_BY_CODE (code : Z) : string :=
  if code =? BGP_SAFI_UNICAST then "Unicast"
  else if code =? BGP_SAFI_MULTICAST then "Multicast"
  else if code =? BGP_SAFI_NLRI_LABEL then "Labeled Unicast"
  else if code =? BGP_SAFI_MCAST_VPN then "MCAST VPN"
  else if code =? BGP_SAFI_VPLS then "VPLS"
  else if code =? BGP_SAFI_MDT then "BGP MDT"
  else if code =? BGP_SAFI_4over6 then "BGP 4over6"
  else if code =? BGP_SAFI_6over4 then "BGP 6over4"
  else if code =? BGP_SAFI_EVPN then "BGP EVPNs"
  else if code =? BGP_SAFI_BGPLS then "BGP-LS"
  else if code =? BGP_SAFI_MPLS then "MPLS-Labeled VPN"
  else if code =? BGP_SAFI_MCAST_MPLS_VPN then "Multicast BGP/MPLS VPN"
  else if code =? BGP_SAFI_RT_CONSTRAINS then "RT constrains"
  else "".

(** ** Last address of a prefix

    The statements that set the host bits of an address, which the unicast and
    the link-state code have in common. *)

(** [v |= mask] on the octets of a network-order integer *)
Definition or_mask (bs : list Z) (mask : Z) : list Z :=
  SWAP_BYTES (le_bytes (length bs) (Z.lor (ntoh bs) mask)).

(** four octets of an IPv4 address with a prefix of less than 32 bits *)
Definition last_address4 (len : Z) (bin : list Z) : list Z :=
  or_mask (take 4 bin) (Z.shiftr (2 ^ 32 - 1) len).

Definition last_address6 (len : Z) (bin : list Z) : list Z :=
  if len <? 128 then
    if 64 <=? len then take 8 bin ++ or_mask (drop 8 bin) (Z.shiftr (2 ^ 64 - 1) (len - 64))
    else or_mask (take 8 bin) (Z.shiftr (2 ^ 64 - 1) len) ++ replicate 8 255
  else bin.

(** ** Byte-order lemmas *)

Lemma swap_loop_take buf i : (i ≤ length buf)%nat → swap_loop buf i = rev (take i buf).
Proof.
  induction i as [|i IH]; intros H; [done|]. simpl.
  rewrite (take_S_r buf i (nth i buf 0)).
  - rewrite rev_app_distr. simpl. f_equal. apply IH. lia.
  - rewrite nth_lookup. destruct (buf !! i) eqn:E; [done|].
    apply lookup_ge_None in E. lia.
Qed.

Lemma SWAP_BYTES_rev v : SWAP_BYTES v = rev v.
Proof.
  unfold SWAP_BYTES. destruct v as [|a [|b v]]; [done..|].
  cbn [length Nat.leb]. by rewrite swap_loop_take, take_ge.
Qed.

Lemma SWAP_BYTES_involutive v : SWAP_BYTES (SWAP_BYTES v) = v.
Proof. by rewrite !SWAP_BYTES_rev, rev_involutive. Qed.

Lemma length_hton n v : length (hton n v) = n.
Proof. unfold hton. by rewrite length_rev, length_le_bytes. Qed.

Lemma hton_ok n v : bytes_ok (hton n v).
Proof. unfold hton. apply Forall_rev, le_bytes_ok. Qed.

Lemma ntoh_hton n v : 0 ≤ v < 256 ^ Z.of_nat n → ntoh (hton n v) = v.
Proof.
  intros. unfold ntoh, hton. rewrite SWAP_BYTES_rev, rev_involutive, le_val_le_bytes.
  by apply Z.mod_small.
Qed.

Lemma le_bytes_le_val bs : bytes_ok bs → le_bytes (length bs) (le_val bs) = bs.
Proof.
  induction 1 as [|b bs Hb _ IH]; [done|]. unfold is_byte in Hb. cbn [length le_bytes le_val].
  rewrite (Z.mul_comm 256), Z.mod_add, Z.mod_small by lia.
  by rewrite Z.div_add, Z.div_small, Z.add_0_l, IH by lia.
Qed.

Lemma hton_ntoh bs : bytes_ok bs → hton (length bs) (ntoh bs) = bs.
Proof.
  intros. unfold hton, ntoh. rewrite SWAP_BYTES_rev, <-length_rev.
  rewrite le_bytes_le_val by by apply Forall_rev. apply rev_involutive.
Qed.

Lemma ntoh_bound bs : bytes_ok bs → 0 ≤ ntoh bs < 256 ^ Z.of_nat (length bs).
Proof.
  intros. unfold ntoh. rewrite SWAP_BYTES_rev, <-length_rev.
  apply le_val_bound. by apply Forall_rev.
Qed.

Lemma length_swap l : length (SWAP_BYTES l) = length l.
Proof. by rewrite SWAP_BYTES_rev, length_rev. Qed.

Lemma ntoh_app bs1 bs2 : ntoh (bs1 ++ bs2) = ntoh bs1 * 256 ^ Z.of_nat (length bs2) + ntoh bs2.
Proof. unfold ntoh. rewrite !SWAP_BYTES_rev, rev_app_distr, le_val_app, length_rev. lia. Qed.

Lemma ntoh_or_mask bs mask :
  bytes_ok bs → 0 ≤ mask < 256 ^ Z.of_nat (length bs) →
  length (or_mask bs mask) = length bs ∧ bytes_ok (or_mask bs mask)
  ∧ ntoh (or_mask bs mask) = Z.lor (ntoh bs) mask.
Proof.
  intros Hb Hm. unfold or_mask. rewrite length_swap, length_le_bytes. split_and!; [done| |].
  - rewrite SWAP_BYTES_rev. apply Forall_rev, le_bytes_ok.
  - unfold ntoh at 1. rewrite SWAP_BYTES_involutive, le_val_le_bytes.
    pose proof (ntoh_bound bs Hb). change 256 with (2 ^ 8) in *. rewrite <-Z.pow_mul_r in * by lia.
    apply lor_mod_pow2; lia.
Qed.

Lemma last_address4_correct len bin :
  bytes_ok bin → (4 ≤ length bin)%nat → 0 ≤ len ≤ 32 →
  length (last_address4 len bin) = 4%nat
  ∧ ntoh (last_address4 len bin) = Z.lor (ntoh (take 4 bin)) (2 ^ (32 - len) - 1).
Proof.
  intros Hb Hl Hlen. unfold last_address4.
  destruct (ntoh_or_mask (take 4 bin) (Z.shiftr (2 ^ 32 - 1) len)) as (H1 & _ & H3);
    [by apply Forall_take|rewrite length_take, Nat.min_l by lia; apply (host_mask_bound 32); lia|].
  rewrite H1, length_take, H3, host_mask by lia. split; [lia|done].
Qed.

Lemma last_address6_correct len bin :
  bytes_ok bin → length bin = 16%nat → 0 ≤ len ≤ 128 →
  length (last_address6 len bin) = 16%nat
  ∧ ntoh (last_address6 len bin) = Z.lor (ntoh bin) (2 ^ (128 - len) - 1).
Proof.
  intros Hb Hl Hlen. unfold last_address6.
  assert (length (take 8 bin) = 8%nat ∧ length (drop 8 bin) = 8%nat) as [Hl1 Hl2]
    by (rewrite length_take, length_drop; lia).
  assert (bytes_ok (take 8 bin) ∧ bytes_ok (drop 8 bin)) as [Hb1 Hb2]
    by (split; [by apply Forall_take|by apply Forall_drop]).
  assert (ntoh bin = ntoh (take 8 bin) * 2 ^ 64 + ntoh (drop 8 bin)) as Hn
    by (rewrite <-(take_drop 8 bin) at 1; by rewrite ntoh_app, Hl2).
  pose proof (ntoh_bound _ Hb2) as Hy. rewrite Hl2 in Hy. change (256 ^ Z.of_nat 8) with (2 ^ 64) in Hy.
  zif; [zif|].
  - destruct (ntoh_or_mask (drop 8 bin) (Z.shiftr (2 ^ 64 - 1) (len - 64))) as (H1 & _ & H3);
      [done|rewrite Hl2; apply (host_mask_bound 64); lia|].
    split; [rewrite length_app; lia|].
    rewrite ntoh_app, H1, H3, Hl2, Hn, host_mask by lia. change (256 ^ Z.of_nat 8) with (2 ^ 64).
    rewrite <-lor_low_half by lia. do 3 f_equal. lia.
  - destruct (ntoh_or_mask (take 8 bin) (Z.shiftr (2 ^ 64 - 1) len)) as (H1 & _ & H3);
      [done|rewrite Hl1; apply (host_mask_bound 64); lia|].
    split; [rewrite length_app, H1, Hl1; done|].
    rewrite ntoh_app, H3, Hn, host_mask, length_replicate by lia. change (256 ^ Z.of_nat 8) with (2 ^ 64).
    replace (128 - len) with (64 + (64 - len)) by lia. by rewrite lor_high_half by lia.
  - split; [done|]. replace len with 128 by lia. cbn. by rewrite Z.lor_0_r.
Qed.

Lemma get_u16_app bs p : length bs = 2%nat → get_u16 (bs ++ p) = Ok (ntoh bs).
Proof. intros H. unfold get_u16. rewrite memcpy_app; [done|lia]. Qed.
Lemma get_u32_app bs p : length bs = 4%nat → get_u32 (bs ++ p) = Ok (ntoh bs).
Proof. intros H. unfold get_u32. rewrite memcpy_app; [done|lia]. Qed.

Lemma get_u16_hton v p : 0 ≤ v < 65536 → get_u16 (hton 2 v ++ p) = Ok v.
Proof. intros. by rewrite get_u16_app, ntoh_hton by (try apply length_hton; simpl; lia). Qed.
Lemma get_u32_hton v p : 0 ≤ v < 4294967296 → get_u32 (hton 4 v ++ p) = Ok v.
Proof. intros. by rewrite get_u32_app, ntoh_hton by (try apply length_hton; simpl; lia). Qed.

Lemma get_u16_ok p : bytes_ok p → (2 ≤ length p)%nat → ∃ v, get_u16 p = Ok v ∧ 0 ≤ v < 65536.
Proof.
  intros Hp Hl. unfold get_u16, memcpy. zcase; [|lia]. eexists; split; [done|].
  pose proof (ntoh_bound (take 2 p) (Forall_take _ _ _ Hp)) as Hb.
  rewrite length_take, Nat.min_l in Hb by lia. exact Hb.
Qed.
Lemma get_u32_ok p : bytes_ok p → (4 ≤ length p)%nat → ∃ v, get_u32 p = Ok v ∧ 0 ≤ v < 4294967296.
Proof.
  intros Hp Hl. unfold get_u32, memcpy. zcase; [|lia]. eexists; split; [done|].
  pose proof (ntoh_bound (take 4 p) (Forall_take _ _ _ Hp)) as Hb.
  rewrite length_take, Nat.min_l in Hb by lia. exact Hb.
Qed.

Lemma get_u16_not_NoFuel p : get_u16 p ≠ NoFuel.
Proof. unfold get_u16, memcpy. by case_match. Qed.
Lemma get_u32_not_NoFuel p : get_u32 p ≠ NoFuel.
Proof. unfold get_u32, memcpy. by case_match. Qed.

#[export] Hint Resolve get_u16_not_NoFuel get_u32_not_NoFuel hton_ok : bmp.
#[export] Hint Rewrite length_hton length_app length_zeros : bmp_len.

(** ** Reads that stay inside the buffer

    A read of [n] octets from a pointer with at least [n] octets left succeeds;
    [rstep] runs the next read of a goal and leaves its value abstract. *)

Lemma rd_def p : (1 ≤ length p)%nat → ∃ b p', rd p = Ok (b, p') ∧ length p = S (length p').
Proof. destruct p as [|b p']; simpl; [lia|eauto]. Qed.
Lemma memcpy_def n p : (Z.to_nat n ≤ length p)%nat → ∃ bs, memcpy n p = Ok bs ∧ length bs = Z.to_nat n.
Proof. intros. unfold memcpy. zcase; [|lia]. eexists; split; [done|]. rewrite length_take. lia. Qed.
Lemma get_u16_def p : (2 ≤ length p)%nat → ∃ v, get_u16 p = Ok v.
Proof. intros. unfold get_u16. destruct (memcpy_def 2 p) as (bs & -> & _); [lia|eauto]. Qed.
Lemma get_u32_def p : (4 ≤ length p)%nat → ∃ v, get_u32 p = Ok v.
Proof. intros. unfold get_u32. destruct (memcpy_def 4 p) as (bs & -> & _); [lia|eauto]. Qed.
Lemma parse_mac_def p : (6 ≤ length p)%nat → ∃ s, parse_mac p = Ok s.
Proof. intros. unfold parse_mac. destruct (memcpy_def 6 p) as (bs & -> & _); [lia|eauto]. Qed.

Lemma length_adv_nat n p : length (adv n p) = (length p - Z.to_nat n)%nat.
Proof. apply length_drop. Qed.

Ltac len := rewrite ?length_adv_nat in *; cbn [length] in *; lia.

(** the computation a goal runs first *)
Ltac head_of m := match m with mbind _ ?m' => head_of m' | _ => m end.

Ltac read_step m :=
  let E := fresh "E" in
  match m with
  | rd ?p => destruct (rd_def p) as (? & ? & E & ?); [len|]
  | memcpy ?n ?p => destruct (memcpy_def n p) as (? & E & ?); [len|]
  | get_u16 ?p => destruct (get_u16_def p) as (? & E); [len|]
  | get_u32 ?p => destruct (get_u32_def p) as (? & E); [len|]
  | parse_mac ?p => destruct (parse_mac_def p) as (? & E); [len|]
  end; rewrite E; clear E; rewrite bind_Ok_l; cbn beta iota.

Ltac rstep := match goal with
  |- context [mbind ?f ?m] => let h := head_of m in read_step h
  end.

(** Reads from a pointer whose next octets are explicit *)

Create Rewrite HintDb bmp_read.

Lemma memcpy2_cons a b l : memcpy 2 (a :: b :: l) = Ok [a; b].
Proof. by apply (memcpy_app [a; b]). Qed.
Lemma memcpy3_cons a b c l : memcpy 3 (a :: b :: c :: l) = Ok [a; b; c].
Proof. by apply (memcpy_app [a; b; c]). Qed.
Lemma memcpy4_cons a b c d l : memcpy 4 (a :: b :: c :: d :: l) = Ok [a; b; c; d].
Proof. by apply (memcpy_app [a; b; c; d]). Qed.
Lemma memcpy6_cons a b c d e f l : memcpy 6 (a :: b :: c :: d :: e :: f :: l) = Ok [a; b; c; d; e; f].
Proof. by apply (memcpy_app [a; b; c; d; e; f]). Qed.
Lemma get_u16_cons a b l : get_u16 (a :: b :: l) = Ok (ntoh [a; b]).
Proof. unfold get_u16. by rewrite memcpy2_cons. Qed.
Lemma get_u32_cons a b c d l : get_u32 (a :: b :: c :: d :: l) = Ok (ntoh [a; b; c; d]).
Proof. unfold get_u32. by rewrite memcpy4_cons. Qed.
Lemma parse_mac_cons a b c d e f l :
  parse_mac (a :: b :: c :: d :: e :: f :: l) = Ok (hex_colon [a; b; c; d; e; f]).
Proof. unfold parse_mac. by rewrite memcpy6_cons. Qed.
Lemma adv2_cons a b l : adv 2 (a :: b :: l) = l.
Proof. done. Qed.
Lemma adv3_cons a b c l : adv 3 (a :: b :: c :: l) = l.
Proof. done. Qed.
Lemma adv4_cons a b c d l : adv 4 (a :: b :: c :: d :: l) = l.
Proof. done. Qed.
Lemma adv6_cons a b c d e f l : adv 6 (a :: b :: c :: d :: e :: f :: l) = l.
Proof. done. Qed.
Lemma adv8_cons a b c d e f g h l : adv 8 (a :: b :: c :: d :: e :: f :: g :: h :: l) = l.
Proof. done. Qed.
#[export] Hint Rewrite rd_cons memcpy2_cons memcpy3_cons memcpy4_cons memcpy6_cons get_u16_cons
  get_u32_cons parse_mac_cons adv2_cons adv3_cons adv4_cons adv6_cons adv8_cons : bmp_read.

(** run all reads of a goal on explicit octets *)
Ltac rrun := repeat (autorewrite with bmp_read; rewrite ?bind_Ok_l; cbn beta iota).

(** a list of [n] elements, given [H : length l = n] *)
Tactic Notation "explode" ident(l) integer(n) ident(H) :=
  do n (destruct l as [|? l]; [discriminate H|]); destruct l; [clear H|discriminate H].

(** ** Route distinguishers as data

    RFC 4364: an AS number, an address or a 4-octet AS number, each with a number
    that its owner assigned. *)
Inductive route_distinguisher : Type :=
| RdAs (asn num : Z)
| RdIp (ip : list Z) (num : Z)
| RdAs4 (asn num : Z).

Definition enc_rd (r : route_distinguisher) : list Z :=
  match r with
  | RdAs asn num => hton 2 0 ++ hton 2 asn ++ hton 4 num
  | RdIp ip num => hton 2 1 ++ ip ++ hton 2 num
  | RdAs4 asn num => hton 2 2 ++ hton 4 asn ++ hton 2 num
  end.

Definition wf_rd (r : route_distinguisher) : Prop :=
  match r with
  | RdAs asn num => 0 ≤ asn < 2 ^ 16 ∧ 0 ≤ num < 2 ^ 32
  | RdIp ip num => bytes_ok ip ∧ length ip = 4%nat ∧ 0 ≤ num < 2 ^ 16
  | RdAs4 asn num => 0 ≤ asn < 2 ^ 32 ∧ 0 ≤ num < 2 ^ 16
  end.

Lemma length_enc_rd r : wf_rd r → length (enc_rd r) = 8%nat.
Proof. destruct r; cbn [wf_rd enc_rd]; intros H; rewrite !length_app, !length_hton; [done| |done]. by rewrite (proj1 (proj2 H)). Qed.

Lemma hton2_octets v : 0 ≤ v < 2 ^ 16 → ∃ a b, hton 2 v = [a; b] ∧ is_byte a ∧ is_byte b ∧ v = 256 * a + b.
Proof.
  intros Hv. pose proof (hton_ok 2 v) as B. pose proof (ntoh_hton 2 v Hv) as N. pose proof (length_hton 2 v) as L.
  destruct (hton 2 v) as [|a [|b [|]]]; try done. repeat (apply Forall_cons in B as [? B]). cbn in N. exists a, b.
  split_and!; [done..|lia].
Qed.
Lemma hton4_octets v :
  0 ≤ v < 2 ^ 32 → ∃ a b c d, hton 4 v = [a; b; c; d] ∧ is_byte a ∧ is_byte b ∧ is_byte c ∧ is_byte d
    ∧ v = 16777216 * a + 65536 * b + 256 * c + d.
Proof.
  intros Hv. pose proof (hton_ok 4 v) as B. pose proof (ntoh_hton 4 v Hv) as N. pose proof (length_hton 4 v) as L.
  destruct (hton 4 v) as [|a [|b [|c [|d [|]]]]]; try done. repeat (apply Forall_cons in B as [? B]). cbn in N.
  exists a, b, c, d. split_and!; [done..|lia].
Qed.
