(* ===== verification/TopicSelector.v ===== *)
(** * Kafka topics ([kafka/KafkaTopicSelector.cpp])

    The group of a router or a peer, found by name, address or AS number; the
    name of the topic of a message, built from a template and the groups; and
    the cache of created topics.  The broker library librdkafka is the class
    [RdKafka]; regular expressions are a parameter of the configuration. *)

From Stdlib Require Import Sorted.
From S2P Require Import Prelude Inet BgpCommon.

(** ** [inet_pton] of the C library *)

(** four decimal numbers below 256 without leading zeros *)
Fixpoint pton4_go (s : string) (octets : list Z) (cur : option Z) : option (list Z) :=
  match s with
  | EmptyString =>
      match cur with
      | Some v => if bool_decide (length octets = 3%nat) then Some (octets ++ [v]) else None
      | None => None
      end
  | String c s' =>
      if is_digit c then
        let d := byte_of_ascii c - 48 in
        match cur with
        | None => pton4_go s' octets (Some d)
        | Some v => if (v =? 0) || (255 <? 10 * v + d) then None else pton4_go s' octets (Some (10 * v + d))
        end
      else if Ascii.eqb c "." then
        match cur with
        | Some v => if bool_decide (length octets = 3%nat) then None else pton4_go s' (octets ++ [v]) None
        | None => None
        end
      else None
  end.
Definition inet_pton4 (s : string) : option (list Z) := pton4_go s [] None.

(** groups of hexadecimal digits, at most one [::], and an IPv4 address at the
    end; [cur] is the text of the current group, [colon] the place of the [::] *)
Fixpoint pton6_go (s cur : string) (out : list Z) (colon : option nat) (val : Z) (digits : nat)
  : option (list Z * option nat) :=
  let word (v : Z) : list Z := [v / 256; v mod 256] in
  match s with
  | EmptyString =>
      if bool_decide (digits = 0%nat) then Some (out, colon)
      else if bool_decide (16 < length out + 2)%nat then None else Some (out ++ word val, colon)
  | String c s' =>
      match hex_value c with
      | Some d => if bool_decide (4 ≤ digits)%nat then None else pton6_go s' cur out colon (16 * val + d) (S digits)
      | None =>
          if Ascii.eqb c ":" then
            if bool_decide (digits = 0%nat) then
              match colon with Some _ => None | None => pton6_go s' s' out (Some (length out)) 0 0 end
            else if is_empty s' || bool_decide (16 < length out + 2)%nat then None
            else pton6_go s' s' (out ++ word val) colon 0 0
          else if Ascii.eqb c "." && bool_decide (length out + 4 ≤ 16)%nat then
            v4 ← inet_pton4 cur; Some (out ++ v4, colon)
          else None
      end
  end.

Definition inet_pton6 (s : string) : option (list Z) :=
  s ← match s with
      | String ":" (String ":" _ as s') => Some s'
      | String ":" _ => None
      | _ => Some s
      end;
  '(out, colon) ← pton6_go s s [] None 0 0;
  match colon with
  | Some k => if bool_decide (length out = 16%nat) then None
              else Some (take k out ++ zeros (16 - length out) ++ drop k out)
  | None => if bool_decide (length out = 16%nat) then Some out else None
  end.

(** ** Group configuration ([Config.h]) *)

(** a prefix as four words in the memory order of the address *)
Record match_type_ip : Type := { mi_isIPv4 : bool; mi_prefix : list Z; mi_bits : Z }.

(** The maps are given by their entries in the order of the keys. *)
Record GroupConfig (regex : Type) : Type := {
  topic_names_map : gmap string string;
  match_router_group_by_name : list (string * list regex);
  match_router_group_by_ip : list (string * list match_type_ip);
  match_peer_group_by_name : list (string * list regex);
  match_peer_group_by_ip : list (string * list match_type_ip);
  match_peer_group_by_asn : list (string * list Z) }.
Arguments topic_names_map {_} _.
Arguments match_router_group_by_name {_} _.
Arguments match_router_group_by_ip {_} _.
Arguments match_peer_group_by_name {_} _.
Arguments match_peer_group_by_ip {_} _.
Arguments match_peer_group_by_asn {_} _.

(** the first group with an entry that matches *)
Definition first_group {A} (f : A → bool) (groups : list (string * list A)) : option string :=
  fst <$> find (λ g, existsb f g.2) groups.

(** ** Prefixes *)

(** the address as [uint32_t prefix[4]] *)
Definition words_of (octets : list Z) : list Z :=
  let o := octets ++ zeros (16 - length octets) in
  [le_val (take 4 o); le_val (take 4 (drop 4 o)); le_val (take 4 (drop 8 o)); le_val (take 4 (drop 12 o))].

(** [w <<= bits; w >>= bits] of a [uint32_t] *)
Definition shift_out (bits w : Z) : outcome Z :=
  if bits <? 32 then Ok (Z.shiftr (u32 (Z.shiftl w bits)) bits) else Undef Overflow.

(** One entry.  The address itself is shifted and stays so for the entries that
    follow; the first branch is taken when the families are the same. *)
Definition ip_match (isIPv4 : bool) (lit : match_type_ip) (prefix : list Z) : outcome (bool * list Z) :=
  if Bool.eqb (mi_isIPv4 lit) isIPv4 then
    let bits := u8 (32 - mi_bits lit) in
    w ← shift_out bits (nth 0 prefix 0);
    Ok (w =? nth 0 (mi_prefix lit) 0, <[0%nat := w]> prefix)
  else
    let end_idx := u8 (mi_bits lit / 32) in
    let bits := u8 (mi_bits lit - 32 * end_idx) in
    let end_idx := if bits =? 0 then u8 (end_idx - 1) else end_idx in
    prefix ← (if (end_idx <? 4) && (bits <? 32) then
                w ← shift_out bits (nth (Z.to_nat end_idx) prefix 0);
                Ok (<[Z.to_nat end_idx := w]> prefix)
              else Ok prefix);
    Ok (bool_decide (prefix = mi_prefix lit), prefix).

Fixpoint ip_entries (isIPv4 : bool) (lits : list match_type_ip) (prefix : list Z) : outcome (bool * list Z) :=
  match lits with
  | [] => Ok (false, prefix)
  | lit :: lits =>
      '(hit, prefix) ← ip_match isIPv4 lit prefix;
      if (hit : bool) then Ok (true, prefix) else ip_entries isIPv4 lits prefix
  end.

Fixpoint ip_groups (isIPv4 : bool) (groups : list (string * list match_type_ip)) (prefix : list Z)
  : outcome (option string) :=
  match groups with
  | [] => Ok None
  | (name, lits) :: groups =>
      '(hit, prefix) ← ip_entries isIPv4 lits prefix;
      if (hit : bool) then Ok (Some name) else ip_groups isIPv4 groups prefix
  end.

(** the search by address, for the text of an address *)
Definition lookup_ip (groups : list (string * list match_type_ip)) (ip_addr : string) : outcome (option string) :=
  let isIPv4 := negb (contains ":" ip_addr) in
  let octets := if isIPv4 then inet_pton4 ip_addr else inet_pton6 ip_addr in
  ip_groups isIPv4 groups (words_of (default [] octets)).

Section groups.
Context {regex : Type} (regex_search : string → regex → bool) (cfg : GroupConfig regex).

Definition lookup_name (groups : list (string * list regex)) (hostname : string) : option string :=
  if is_empty hostname then None else first_group (regex_search hostname) groups.

Definition lookupRouterGroup (hostname ip_addr : string) : outcome string :=
  match lookup_name (match_router_group_by_name cfg) hostname with
  | Some g => Ok g
  | None => g ← lookup_ip (match_router_group_by_ip cfg) ip_addr; Ok (default "" g)
  end.

Definition lookupPeerGroup (hostname ip_addr : string) (peer_asn : Z) : outcome string :=
  match lookup_name (match_peer_group_by_name cfg) hostname with
  | Some g => Ok g
  | None =>
      g ← lookup_ip (match_peer_group_by_ip cfg) ip_addr;
      match g with
      | Some g => Ok g
      | None => Ok (default "" (first_group (Z.eqb peer_asn) (match_peer_group_by_asn cfg)))
      end
  end.
End groups.

(** ** Topics *)

Definition MSGBUS_TOPIC_VAR_COLLECTOR : string := "collector".
Definition MSGBUS_TOPIC_VAR_ROUTER : string := "router".
Definition MSGBUS_TOPIC_VAR_PEER : string := "peer".
Definition MSGBUS_TOPIC_VAR_BASE_ATTRIBUTE : string := "base_attribute".
Definition MSGBUS_TOPIC_VAR_UNICAST_PREFIX : string := "unicast_prefix".
Definition MSGBUS_TOPIC_VAR_L3VPN : string := "l3vpn".
Definition MSGBUS_TOPIC_VAR_EVPN : string := "evpn".
Definition MSGBUS_TOPIC_VAR_LS_NODE : string := "ls_node".
Definition MSGBUS_TOPIC_VAR_LS_LINK : string := "ls_link".
Definition MSGBUS_TOPIC_VAR_LS_PREFIX : string := "ls_prefix".
Definition MSGBUS_TOPIC_VAR_BMP_STAT : string := "bmp_stat".
Definition MSGBUS_TOPIC_VAR_BMP_RAW : string := "bmp_raw".

(** the broker client: configuration, producer, topics and messages; a topic is
    known by its name.  [rk_poll] tells whether the event that all brokers are
    down was served, which the event callback turns into a lost connection. *)
Class RdKafka (kc : Type) : Type := {
  rk_conf_set : string → string → kc → bool * kc;
  rk_producer_create : kc → bool * kc;
  rk_poll : Z → kc → bool * kc;
  rk_outq_len : kc → Z;
  rk_producer_delete : kc → kc;
  rk_topic_create : string → kc → bool * kc;
  rk_produce : string → list Z → string → kc → bool * kc }.

(** [boost::replace_all]: occurrences from the left, which do not overlap;
    [skip] characters belong to an occurrence *)
Fixpoint replace_skip (pat rep s : string) (skip : nat) : string :=
  match s with
  | EmptyString => ""
  | String c s' =>
      match skip with
      | S k => replace_skip pat rep s' k
      | O => if String.prefix pat s then rep +:+ replace_skip pat rep s' (pred (String.length pat))
             else String c (replace_skip pat rep s' 0)
      end
  end.
Definition replace_all (pat rep s : string) : string := replace_skip pat rep s 0.

(** [topic]: the topics created so far by key, null when the creation failed *)
Record KafkaTopicSelector : Type := {
  topic : gmap string (option string);
  topic_flags_map : gmap string bool }.     (** [include_peerAsn] *)

Definition new_selector : KafkaTopicSelector := {| topic := ∅; topic_flags_map := ∅ |}.

(** A null pointer to a group is the same as an empty group. *)
Definition group_or_default (g : string) : string := if is_empty g then "default" else g.
Definition asn_or_default (asn : Z) : string := if 0 <? asn then dec asn else "default".

(** [topic_flags_map[topic_var].include_peerAsn] of a new entry is [false]. *)
Definition getTopicKey (flags : gmap string bool) (topic_var router_group peer_group : string) (peer_asn : Z)
  : string :=
  if String.eqb topic_var MSGBUS_TOPIC_VAR_COLLECTOR then topic_var
  else if String.eqb topic_var MSGBUS_TOPIC_VAR_ROUTER then topic_var +:+ "_" +:+ router_group
  else
    topic_var +:+ "_" +:+ router_group +:+ "_" +:+ peer_group
    +:+ (if default false (flags !! topic_var) then "_" +:+ (if 0 <? peer_asn then dec peer_asn else "") else "").

(** the name of a topic from its template *)
Definition topic_name (template topic_var router_group peer_group : string) (peer_asn : Z) : string :=
  if String.eqb topic_var MSGBUS_TOPIC_VAR_COLLECTOR then template
  else
    let t := replace_all "{router_group}" (group_or_default router_group) template in
    if String.eqb topic_var MSGBUS_TOPIC_VAR_ROUTER then t
    else replace_all "{peer_asn}" (asn_or_default peer_asn)
           (replace_all "{peer_group}" (group_or_default peer_group) t).

Section topics.
Context {kc : Type} {RK : RdKafka kc} (names : gmap string string).

Definition template_of (topic_var : string) : string := default "" (names !! topic_var).

Definition topicEnabled (topic_var : string) : bool := negb (is_empty (template_of topic_var)).

(** The key is computed again, after the flag of the topic is set.  The result is
    the topic or the text that is thrown; when no topic could be created, a null
    pointer stays in the map. *)
Definition initTopic (topic_var router_group peer_group : string) (peer_asn : Z) (s : KafkaTopicSelector) (k : kc)
  : (option string + string) * KafkaTopicSelector * kc :=
  let template := template_of topic_var in
  let flags := <[topic_var := contains "{peer_asn}" template]> (topic_flags_map s) in
  let key := getTopicKey flags topic_var router_group peer_group peer_asn in
  let name := topic_name template topic_var router_group peer_group peer_asn in
  let '(ok, k) := rk_conf_set "partitioner_cb" "KafkaPeerPartitionerCallback" k in
  if negb ok then (inr "ERROR: Failed to configure kafka partitioner callback", {| topic := topic s; topic_flags_map := flags |}, k)
  else
    let '(ok, k) := rk_topic_create name k in
    let t := if (ok : bool) then Some name else None in
    (if ok then inl t else inr "ERROR: Failed to create topic", {| topic := <[key := t]> (topic s); topic_flags_map := flags |}, k).

Definition getTopic (topic_var router_group peer_group : string) (peer_asn : Z) (s : KafkaTopicSelector) (k : kc)
  : (option string + string) * KafkaTopicSelector * kc :=
  match topic s !! getTopicKey (topic_flags_map s) topic_var router_group peer_group peer_asn with
  | Some t => (inl t, s, k)
  | None => initTopic topic_var router_group peer_group peer_asn s k
  end.
End topics.

(** [KafkaPeerPartitionerCallback::partitioner_cb]: characters are signed *)
Definition partitioner_cb (key : string) (partition_cnt : Z) : outcome Z :=
  match bytes_of_string key with
  | [] => Throw "std::out_of_range"
  | b :: bs =>
      let char v := if v <? 128 then v else v - 256 in
      if partition_cnt =? 0 then Undef Overflow
      else Ok (Z.rem (char b + char (List.last (b :: bs) 0)) partition_cnt)
  end.

(** ** Addresses *)

Lemma pton4_octet v rest octets :
  is_byte v → pton4_go (dec v +:+ rest) octets None = pton4_go rest octets (Some v).
Proof.
  intros Hv. assert (Forall (λ v, ∀ rest octets, pton4_go (dec v +:+ rest) octets None = pton4_go rest octets (Some v))
    (seqZ 0 256)) as H.
  { cbn [seqZ seq Z.to_nat Pos.to_nat Pos.iter_op fmap list_fmap]. change (seqZ 0 256) with (Z.of_nat <$> seq 0 256).
    repeat (apply Forall_cons_2; [intros; reflexivity|]). apply Forall_nil_2. }
  rewrite Forall_forall in H. apply H, elem_of_seqZ. unfold is_byte in Hv. lia.
Qed.

Lemma pton4_dot rest octets v :
  length octets ≠ 3%nat → pton4_go ("." +:+ rest) octets (Some v) = pton4_go rest (octets ++ [v]) None.
Proof.
  intros H. change ("." +:+ rest) with (String "." rest). cbn [pton4_go]. by rewrite bool_decide_false.
Qed.

(** reading an address back *)
Lemma inet_pton_ntop4 bs : bytes_ok bs → length bs = 4%nat → inet_pton4 (inet_ntop4 bs) = Some bs.
Proof.
  intros Hb Hl. destruct bs as [|a [|b [|c [|d [|]]]]]; try done.
  repeat (apply Forall_cons in Hb as [? Hb]). unfold inet_pton4, inet_ntop4.
  rewrite <-(string_app_nil_r (dec d)).
  do 3 (rewrite pton4_octet by done; rewrite pton4_dot by done). by rewrite pton4_octet.
Qed.

Lemma contains_colon c s : contains ":" (String c s) = Ascii.eqb c ":" || contains ":" s.
Proof.
  cbn [contains String.prefix]. destruct (Ascii.ascii_dec ":" c) as [<-|Hc].
  - by destruct s.
  - by rewrite (proj2 (Ascii.eqb_neq c ":")) by congruence.
Qed.
Lemma no_colon_app s t : contains ":" (s +:+ t) = contains ":" s || contains ":" t.
Proof. induction s as [|c s IH]; [done|]. by rewrite append_cons, !contains_colon, IH, orb_assoc. Qed.

Lemma dec_no_colon v : 0 ≤ v → contains ":" (dec v) = false.
Proof.
  intros Hv. pose proof (dec_digits v Hv) as Hd. induction (dec v) as [|c s IH]; [done|].
  cbn in Hd. apply andb_prop in Hd as [Hc Hd]. rewrite contains_colon, IH by done. rewrite orb_false_r.
  destruct (Ascii.eqb_spec c ":") as [->|]; done.
Qed.

Lemma ntop4_no_colon bs : bytes_ok bs → contains ":" (inet_ntop4 bs) = false.
Proof.
  intros Hb. destruct bs as [|a [|b [|c [|d bs]]]]; try done.
  repeat (apply Forall_cons in Hb as [? Hb]). unfold is_byte in *. unfold inet_ntop4.
  by rewrite !no_colon_app, !dec_no_colon by lia.
Qed.

(** ** Prefixes as words *)

Lemma le_val_zeros n : le_val (zeros n) = 0.
Proof. induction n as [|n IH]; [done|]. change (zeros (S n)) with (0 :: zeros n). cbn [le_val]. lia. Qed.

Lemma le_val_take bs k : bytes_ok bs → (k ≤ length bs)%nat → le_val bs mod 256 ^ Z.of_nat k = le_val (take k bs).
Proof.
  intros Hb Hk. rewrite <-(take_drop k bs) at 1. rewrite le_val_app, length_take, Nat.min_l by done.
  rewrite Z.mul_comm, Z.mod_add by (apply Z.pow_nonzero; lia). apply Z.mod_small.
  pose proof (le_val_bound (take k bs) ltac:(by apply Forall_take)) as H. by rewrite length_take, Nat.min_l in H.
Qed.

Lemma le_val_inj bs1 bs2 : bytes_ok bs1 → bytes_ok bs2 → length bs1 = length bs2 → le_val bs1 = le_val bs2 → bs1 = bs2.
Proof.
  intros H1. revert bs2. induction H1 as [|b bs1 Hb H1 IH]; intros [|b' bs2] H2 Hl; try done. cbn [le_val].
  apply Forall_cons in H2 as [Hb' H2]. unfold is_byte in *. intros E.
  assert (b = b' ∧ le_val bs1 = le_val bs2) as [-> E'] by lia. f_equal. apply IH; [done|by simpl in Hl; lia|done].
Qed.

Lemma shift_out_mod bits w : 0 ≤ bits < 32 → 0 ≤ w → shift_out bits w = Ok (w mod 2 ^ (32 - bits)).
Proof.
  intros Hb Hw. unfold shift_out. zif; [|lia]. f_equal. rewrite Z.shiftl_mul_pow2, Z.shiftr_div_pow2 by lia. unfold u32.
  replace (2 ^ 32) with (2 ^ (32 - bits) * 2 ^ bits) by (rewrite <-Z.pow_add_r by lia; f_equal; lia).
  rewrite Z.mul_mod_distr_r by (apply Z.pow_nonzero; lia). apply Z.div_mul. apply Z.pow_nonzero; lia.
Qed.

(** an IPv4 prefix of whole octets *)
Definition v4_entry (p : list Z) : match_type_ip :=
  {| mi_isIPv4 := true; mi_prefix := words_of p; mi_bits := 8 * Z.of_nat (length p) |}.
Definition v4_prefix (p : list Z) : Prop := bytes_ok p ∧ (1 ≤ length p ≤ 4)%nat.

Lemma words_of_first p : (length p ≤ 4)%nat → nth 0 (words_of p) 0 = le_val p.
Proof.
  intros Hp. unfold words_of. cbn [nth]. rewrite take_app_ge by lia. unfold zeros. rewrite take_replicate, le_val_app.
  change (replicate _ 0) with (zeros ((4 - length p) `min` (16 - length p))). rewrite le_val_zeros. lia.
Qed.

(** the octets compared, when the address still has them *)
Lemma v4_match p addr m prefix :
  v4_prefix p → bytes_ok addr → length addr = 4%nat → (length p ≤ m ≤ 4)%nat →
  nth 0 prefix 0 = le_val (take m addr) → prefix ≠ [] →
  ∃ prefix', ip_match true (v4_entry p) prefix = Ok (bool_decide (p `prefix_of` addr), prefix')
    ∧ nth 0 prefix' 0 = le_val (take (length p) addr) ∧ prefix' ≠ [].
Proof.
  intros [Hb Hp] Ha Hl Hm Hx Hn. unfold ip_match, v4_entry. cbn [mi_isIPv4 mi_bits mi_prefix Bool.eqb].
  rewrite u8_small by lia. rewrite Hx. pose proof (le_val_bound (take m addr) ltac:(by apply Forall_take)).
  rewrite shift_out_mod by lia. rewrite bind_Ok_l.
  replace (2 ^ (32 - (32 - 8 * Z.of_nat (length p)))) with (256 ^ Z.of_nat (length p))
    by (change 256 with (2 ^ 8); rewrite <-Z.pow_mul_r by lia; f_equal; lia).
  rewrite le_val_take by (try (by apply Forall_take); rewrite length_take; lia). rewrite take_take, Nat.min_l by lia.
  eexists. split; [f_equal; f_equal|split; [by destruct prefix|by destruct prefix]].
  rewrite words_of_first by lia. apply eq_true_iff_eq. rewrite Z.eqb_eq, bool_decide_eq_true. split.
  - intros E. apply le_val_inj in E; [|by apply Forall_take|done|rewrite length_take; lia].
    rewrite <-E. exists (drop (length p) addr). by rewrite take_drop.
  - intros [k ->]. by rewrite take_app_length.
Qed.

Lemma v4_entries ps addr m prefix :
  Forall v4_prefix ps → StronglySorted (λ p q, length q ≤ length p)%nat ps →
  bytes_ok addr → length addr = 4%nat → Forall (λ p, length p ≤ m)%nat ps → (m ≤ 4)%nat →
  nth 0 prefix 0 = le_val (take m addr) → prefix ≠ [] →
  ∃ prefix' m', ip_entries true (v4_entry <$> ps) prefix = Ok (existsb (λ p, bool_decide (p `prefix_of` addr)) ps, prefix')
    ∧ (m' ≤ 4)%nat ∧ (m' = m ∨ ∃ p, p ∈ ps ∧ m' = length p)
    ∧ nth 0 prefix' 0 = le_val (take m' addr) ∧ prefix' ≠ [].
Proof.
  intros Hps Hs Ha Hl. revert m prefix. induction Hs as [|p ps Hs IH Hall]; intros m prefix Hm Hm4 Hx Hn.
  { exists prefix, m. cbn. split_and!; auto. }
  apply Forall_cons in Hps as [Hp Hps], Hm as [Hpm Hm]. cbn [fmap list_fmap ip_entries existsb].
  destruct (v4_match p addr m prefix) as (prefix' & -> & Hx' & Hn'); [done..|].
  rewrite bind_Ok_l. cbn beta iota. destruct (bool_decide _) eqn:E.
  - exists prefix', (length p). split_and!; [done|destruct Hp; lia|right; exists p; set_solver|done..].
  - destruct (IH Hps (length p) prefix') as (q & m' & -> & Hm' & Hor & Hq & Hqn); [done|destruct Hp; lia|done..|].
    exists q, m'. split_and!; [done..|right|done|done]. destruct Hor as [->|(r & Hr & ->)]; [exists p|exists r]; set_solver.
Qed.

Lemma sorted_app_inv {A} (R : A → A → Prop) l1 l2 :
  StronglySorted R (l1 ++ l2) → StronglySorted R l1 ∧ StronglySorted R l2 ∧ ∀ x y, x ∈ l1 → y ∈ l2 → R x y.
Proof.
  induction l1 as [|a l1 IH]; cbn; intros H.
  { split_and!; [constructor|done|set_solver]. }
  apply StronglySorted_inv in H as [H Ha]. destruct (IH H) as (H1 & H2 & H3).
  rewrite Forall_app in Ha. destruct Ha as [Ha1 Ha2]. split_and!; [by constructor|done|].
  intros x y Hx Hy. apply elem_of_cons in Hx as [->|Hx]; [|auto]. rewrite Forall_forall in Ha2. auto.
Qed.

Abbreviation v4_groups gs := ((λ g : string * list (list Z), (g.1, v4_entry <$> g.2)) <$> gs).

Lemma ip_groups_v4 (gs : list (string * list (list Z))) addr m prefix :
  Forall v4_prefix (concat (snd <$> gs)) → StronglySorted (λ p q, length q ≤ length p)%nat (concat (snd <$> gs)) →
  bytes_ok addr → length addr = 4%nat → Forall (λ p, length p ≤ m)%nat (concat (snd <$> gs)) → (m ≤ 4)%nat →
  nth 0 prefix 0 = le_val (take m addr) → prefix ≠ [] →
  ip_groups true (v4_groups gs) prefix = Ok (first_group (λ p, bool_decide (p `prefix_of` addr)) gs).
Proof.
  intros Hps Hs Ha Hl. revert m prefix. induction gs as [|[g ps] gs IH]; intros m prefix Hm Hm4 Hx Hn; [done|].
  cbn [fmap list_fmap concat fst snd] in *. rewrite Forall_app in Hps, Hm. destruct Hps as [Hp Hps], Hm as [Hmp Hm].
  apply sorted_app_inv in Hs as (Hs1 & Hs2 & Hs3). cbn [ip_groups].
  destruct (v4_entries ps addr m prefix) as (prefix' & m' & -> & Hm' & Hor & Hx' & Hn'); [done..|].
  rewrite bind_Ok_l. cbn beta iota. unfold first_group. cbn [find snd]. destruct (existsb _ ps); [done|].
  rewrite IH with (m := m'); [done..| |done|done|done].
  apply Forall_forall. intros q Hq. destruct Hor as [->|(p & Hp' & ->)]; [|by apply Hs3].
  rewrite Forall_forall in Hm. by apply Hm.
Qed.

(** Groups by address, longest prefix first.  When the configured IPv4 prefixes
    are whole octets and come in the order of decreasing length, a router or
    peer is in the first group with a prefix of its address. *)
Theorem group_by_prefix (gs : list (string * list (list Z))) (addr : list Z) :
  Forall v4_prefix (concat (snd <$> gs)) → StronglySorted (λ p q, length q ≤ length p)%nat (concat (snd <$> gs)) →
  bytes_ok addr → length addr = 4%nat →
  lookup_ip (v4_groups gs) (inet_ntop4 addr) = Ok (first_group (λ p, bool_decide (p `prefix_of` addr)) gs).
Proof.
  intros Hps Hs Ha Hl. unfold lookup_ip. rewrite ntop4_no_colon, inet_pton_ntop4 by done. cbn [negb default from_option id].
  apply ip_groups_v4 with (m := 4%nat); [done..| |done| |done].
  - apply (Forall_impl _ _ _ Hps). intros p [_ ?]. lia.
  - rewrite words_of_first, take_ge by lia. done.
Qed.

(** A shorter prefix hides the longer ones after it.  The entries shift the
    address itself, so that once a prefix of [p1] octets did not match, a longer
    one whose further octets are not all zero matches no address, not even one
    that starts with it. *)
Theorem shorter_prefix_hides (g1 g2 : string) (p1 p2 addr : list Z) :
  v4_prefix p1 → v4_prefix p2 → (length p1 < length p2)%nat → le_val (drop (length p1) p2) ≠ 0 →
  bytes_ok addr → length addr = 4%nat → ¬ p1 `prefix_of` addr →
  lookup_ip (v4_groups [(g1, [p1]); (g2, [p2])]) (inet_ntop4 addr) = Ok None.
Proof.
  intros H1 H2 Hlt Hz Ha Hl Hn. unfold lookup_ip. rewrite ntop4_no_colon, inet_pton_ntop4 by done.
  cbn [negb default fmap list_fmap fst snd ip_groups ip_entries from_option id].
  destruct (v4_match p1 addr 4 (words_of addr)) as (q & -> & Hq & Hqn); [done|done|done|destruct H1; lia| |done|].
  { rewrite words_of_first, take_ge by lia. done. }
  rewrite (bool_decide_false _ Hn). rewrite !bind_Ok_l. cbn beta iota.
  unfold ip_match, v4_entry. cbn [mi_isIPv4 mi_bits mi_prefix Bool.eqb]. destruct H1 as [B1 L1], H2 as [B2 L2].
  pose proof (le_val_bound (take (length p1) addr) ltac:(by apply Forall_take)) as Hb.
  rewrite length_take, Nat.min_l in Hb by lia.
  rewrite u8_small by lia. rewrite Hq, shift_out_mod by lia. rewrite !bind_Ok_l. cbn beta iota.
  rewrite words_of_first by lia.
  assert (256 ^ Z.of_nat (length p1) ≤ le_val p2) as Hp2.
  { rewrite <-(take_drop (length p1) p2), le_val_app, length_take, Nat.min_l by lia.
    pose proof (le_val_bound (take (length p1) p2) ltac:(by apply Forall_take)).
    pose proof (le_val_bound (drop (length p1) p2) ltac:(by apply Forall_drop)). nia. }
  assert (le_val (take (length p1) addr) mod 2 ^ (32 - (32 - 8 * Z.of_nat (length p2))) < 256 ^ Z.of_nat (length p1)) as Hm.
  { eapply Z.le_lt_trans; [apply Z.mod_le; [lia|apply Z.pow_pos_nonneg; lia]|lia]. }
  by rewrite (proj2 (Z.eqb_neq _ _)) by lia.
Qed.

(** IPv6 prefixes longer than 32 bits are undefined.  An IPv6 address compared with
    an IPv6 prefix takes the branch for IPv4, where the width of the shift is 32
    minus the length of the prefix as an octet. *)
Theorem ipv6_prefix_undefined (g : string) (bits : Z) (words : list Z) (more : list match_type_ip)
    (groups : list (string * list match_type_ip)) (ip_addr : string) :
  32 < bits ≤ 128 → contains ":" ip_addr = true →
  lookup_ip ((g, {| mi_isIPv4 := false; mi_prefix := words; mi_bits := bits |} :: more) :: groups) ip_addr = Undef Overflow.
Proof.
  intros Hb Hc. unfold lookup_ip. rewrite Hc. cbn [negb ip_groups ip_entries]. unfold ip_match.
  cbn [mi_isIPv4 mi_bits Bool.eqb]. unfold shift_out.
  assert (u8 (32 - bits) = 288 - bits) as ->
    by (unfold u8; rewrite <-(Z.mod_add _ 1) by lia; rewrite Z.mod_small by lia; lia).
  by rewrite (proj2 (Z.ltb_ge _ _)) by lia.
Qed.

Lemma group_by_prefix_witness :
  lookup_ip (v4_groups [("lab", [[10; 1; 2]; [10; 1]]); ("core", [[10]])]) (inet_ntop4 [10; 1; 7; 9])
  = Ok (first_group (λ p, bool_decide (p `prefix_of` [10; 1; 7; 9])) [("lab", [[10; 1; 2]; [10; 1]]); ("core", [[10]])]).
Proof.
  apply (group_by_prefix [("lab", [[10; 1; 2]; [10; 1]]); ("core", [[10]])] [10; 1; 7; 9]).
  - repeat (apply Forall_cons_2; [split; [repeat constructor; done|simpl; lia]|]). apply Forall_nil_2.
  - repeat constructor; simpl; lia.
  - repeat constructor; done.
  - reflexivity.
Defined.

Lemma shorter_prefix_hides_witness :
  lookup_ip (v4_groups [("west", [[192]]); ("lab", [[10; 1]])]) (inet_ntop4 [10; 1; 7; 9]) = Ok None.
Proof.
  apply (shorter_prefix_hides "west" "lab" [192] [10; 1] [10; 1; 7; 9]).
  - split; [repeat constructor; done|simpl; lia].
  - split; [repeat constructor; done|simpl; lia].
  - simpl. lia.
  - done.
  - repeat constructor; done.
  - reflexivity.
  - intros [k [=]].
Defined.

Lemma ipv6_prefix_undefined_witness :
  lookup_ip [("v6", [{| mi_isIPv4 := false; mi_prefix := [3087892512; 0; 0; 0]; mi_bits := 48 |}])] "2001:db8::1" = Undef Overflow.
Proof. apply (ipv6_prefix_undefined "v6" 48 [3087892512; 0; 0; 0] [] [] "2001:db8::1"); [lia|reflexivity]. Defined.

(** ** Topic names *)

(** a template as it is meant: literal text and the three variables *)
Inductive segment : Type := Lit (s : string) | RouterGroup | PeerGroup | PeerAsn.
#[global] Instance segment_eq_dec : EqDecision segment.
Proof. solve_decision. Defined.

Definition seg_text (g : segment) : string :=
  match g with Lit s => s | RouterGroup => "{router_group}" | PeerGroup => "{peer_group}" | PeerAsn => "{peer_asn}" end.
Definition seg_texts (gs : list segment) : string := foldr (λ g t, seg_text g +:+ t) "" gs.

Definition plain (c : Ascii.ascii) : bool := negb (Ascii.eqb c "{").
Definition seg_ok (g : segment) : Prop := match g with Lit s => str_all plain s = true | _ => True end.

(** one variable replaced everywhere *)
Definition seg_subst (v : segment) (rep : string) (gs : list segment) : list segment :=
  (λ g, if decide (g = v) then Lit rep else g) <$> gs.

(** the name meant: the variables a topic has are replaced at the same time *)
Definition expand (topic_var router_group peer_group : string) (peer_asn : Z) (gs : list segment) : string :=
  seg_texts ((λ g,
    if String.eqb topic_var MSGBUS_TOPIC_VAR_COLLECTOR then g
    else match g with
         | RouterGroup => Lit (group_or_default router_group)
         | PeerGroup => if String.eqb topic_var MSGBUS_TOPIC_VAR_ROUTER then g else Lit (group_or_default peer_group)
         | PeerAsn => if String.eqb topic_var MSGBUS_TOPIC_VAR_ROUTER then g else Lit (asn_or_default peer_asn)
         | Lit _ => g
         end) <$> gs).

Lemma replace_plain pat rep s t :
  str_all plain s = true → replace_all (String "{" pat) rep (s +:+ t) = s +:+ replace_all (String "{" pat) rep t.
Proof.
  unfold replace_all. induction s as [|c s IH]; intros H; [done|]. cbn in H. apply andb_prop in H as [Hc H].
  rewrite append_cons. cbn [replace_skip String.prefix]. destruct (Ascii.ascii_dec "{" c) as [<-|]; [done|].
  by rewrite IH.
Qed.

Lemma contains_plain pat s t :
  str_all plain s = true → contains (String "{" pat) (s +:+ t) = contains (String "{" pat) t.
Proof.
  induction s as [|c s IH]; intros H; [done|]. cbn in H. apply andb_prop in H as [Hc H].
  rewrite append_cons. cbn [contains String.prefix]. destruct (Ascii.ascii_dec "{" c) as [<-|]; [done|].
  by rewrite IH.
Qed.

Lemma replace_segs v rep gs :
  match v with Lit _ => False | _ => True end → Forall seg_ok gs →
  replace_all (seg_text v) rep (seg_texts gs) = seg_texts (seg_subst v rep gs).
Proof.
  intros Hv. induction 1 as [|g gs Hg H IH]; [by destruct v|].
  unfold seg_subst. cbn [fmap list_fmap seg_texts foldr]. fold (seg_texts gs). fold (seg_subst v rep gs).
  change (foldr _ "" (seg_subst v rep gs)) with (seg_texts (seg_subst v rep gs)). rewrite <-IH.
  destruct g, v; try done; cbn [seg_text]; case_decide; simplify_eq; 
    try (by rewrite replace_plain); clear IH; by destruct (seg_texts gs).
Qed.

Lemma contains_segs gs :
  Forall seg_ok gs → contains "{peer_asn}" (seg_texts gs) = bool_decide (PeerAsn ∈ gs).
Proof.
  induction 1 as [|g gs Hg H IH]; [done|]. cbn [seg_texts foldr]. fold (seg_texts gs).
  destruct g; cbn [seg_text]; try (rewrite contains_plain by done).
  - rewrite IH. apply bool_decide_ext. set_solver.
  - transitivity (contains "{peer_asn}" (seg_texts gs)); [reflexivity|]. rewrite IH. apply bool_decide_ext. set_solver.
  - transitivity (contains "{peer_asn}" (seg_texts gs)); [reflexivity|]. rewrite IH. apply bool_decide_ext. set_solver.
  - rewrite bool_decide_true by set_solver. transitivity true; [|done].
    change ("{peer_asn}" +:+ seg_texts gs) with (String "{" ("peer_asn}" +:+ seg_texts gs)). cbn [contains].
    by destruct (seg_texts gs).
Qed.

Lemma seg_subst_ok v rep gs : str_all plain rep = true → Forall seg_ok gs → Forall seg_ok (seg_subst v rep gs).
Proof. intros Hr H. apply Forall_fmap. apply (Forall_impl _ _ _ H). intros g Hg. cbn. by case_decide. Qed.

(** a group name that neither ends a key nor looks like a variable *)
Definition name_char (c : Ascii.ascii) : bool := plain c && negb (Ascii.eqb c "_").
Definition group_name (g : string) : Prop := str_all name_char g = true.

Lemma name_plain g : group_name g → str_all plain g = true.
Proof. apply str_all_impl. intros c H. by apply andb_prop in H as [? _]. Qed.
Lemma digits_plain s : str_all is_digit s = true → str_all name_char s = true.
Proof.
  apply str_all_impl. intros c H. unfold name_char, plain.
  destruct (Ascii.eqb_spec c "{") as [->|]; [done|]. by destruct (Ascii.eqb_spec c "_") as [->|].
Qed.
Lemma default_plain g : group_name g → str_all plain (group_or_default g) = true.
Proof. intros H. unfold group_or_default. destruct (is_empty g); [done|by apply name_plain]. Qed.

(** replacing one variable after the other *)
Lemma topic_name_expand tv rg pg asn gs :
  Forall seg_ok gs → group_name rg → group_name pg →
  topic_name (seg_texts gs) tv rg pg asn = expand tv rg pg asn gs.
Proof.
  intros Hg Hr Hp. unfold topic_name, expand. apply default_plain in Hr, Hp.
  destruct (String.eqb tv MSGBUS_TOPIC_VAR_COLLECTOR); [by rewrite list_fmap_id|].
  change "{router_group}" with (seg_text RouterGroup). change "{peer_group}" with (seg_text PeerGroup).
  change "{peer_asn}" with (seg_text PeerAsn). rewrite replace_segs by done.
  destruct (String.eqb tv MSGBUS_TOPIC_VAR_ROUTER).
  { f_equal. apply list_fmap_ext. intros _ [] _; done. }
  rewrite !replace_segs by (try done; auto using seg_subst_ok).
  unfold seg_subst. rewrite <-!list_fmap_compose. f_equal. apply list_fmap_ext. intros _ [] _; done.
Qed.

(** ** The cache of topics *)

Definition topic_vars : list string :=
  [MSGBUS_TOPIC_VAR_COLLECTOR; MSGBUS_TOPIC_VAR_ROUTER; MSGBUS_TOPIC_VAR_PEER; MSGBUS_TOPIC_VAR_BASE_ATTRIBUTE;
   MSGBUS_TOPIC_VAR_UNICAST_PREFIX; MSGBUS_TOPIC_VAR_L3VPN; MSGBUS_TOPIC_VAR_EVPN; MSGBUS_TOPIC_VAR_LS_NODE;
   MSGBUS_TOPIC_VAR_LS_LINK; MSGBUS_TOPIC_VAR_LS_PREFIX; MSGBUS_TOPIC_VAR_BMP_STAT; MSGBUS_TOPIC_VAR_BMP_RAW].

Record request : Type := { r_var : string; r_router : string; r_peer : string; r_asn : Z }.
Definition request_ok (r : request) : Prop :=
  r_var r ∈ topic_vars ∧ group_name (r_router r) ∧ group_name (r_peer r) ∧ 0 ≤ r_asn r.

Abbreviation request_key flags r := (getTopicKey flags (r_var r) (r_router r) (r_peer r) (r_asn r)).
Abbreviation request_name gs r := (expand (r_var r) (r_router r) (r_peer r) (r_asn r) gs).

Lemma key_var flags tv rg pg asn :
  ∃ rest, getTopicKey flags tv rg pg asn = tv +:+ rest ∧ (rest = "" ∧ tv = MSGBUS_TOPIC_VAR_COLLECTOR ∨ ∃ t, rest = String "_" t).
Proof.
  unfold getTopicKey. destruct (String.eqb_spec tv MSGBUS_TOPIC_VAR_COLLECTOR) as [->|].
  { exists "". by rewrite string_app_nil_r; auto. }
  destruct (String.eqb tv MSGBUS_TOPIC_VAR_ROUTER); eexists; (split; [reflexivity|right; eexists; reflexivity]).
Qed.

Lemma var_inj tv1 tv2 rest1 rest2 :
  tv1 ∈ topic_vars → tv2 ∈ topic_vars →
  (rest1 = "" ∧ tv1 = MSGBUS_TOPIC_VAR_COLLECTOR ∨ ∃ t, rest1 = String "_" t) →
  (rest2 = "" ∧ tv2 = MSGBUS_TOPIC_VAR_COLLECTOR ∨ ∃ t, rest2 = String "_" t) →
  tv1 +:+ rest1 = tv2 +:+ rest2 → tv1 = tv2.
Proof.
  unfold topic_vars. intros H1 H2 R1 R2. rewrite !elem_of_cons, elem_of_nil in H1, H2.
  repeat match goal with
    | H : _ ∨ _ |- _ => destruct H
    | H : _ ∧ _ |- _ => destruct H
    | H : ∃ _, _ |- _ => destruct H
    end; subst; first [done|discriminate].
Qed.

Lemma pretty_N_go_nonempty x s : s ≠ "" → pretty_N_go x s ≠ "".
Proof.
  revert s. induction (N.lt_wf_0 x) as [x _ IH]; intros s Hs.
  destruct (decide (x = 0%N)) as [->|]; [done|].
  rewrite pretty_N_go_step by lia. apply IH; [apply N.div_lt; lia|done].
Qed.
Lemma dec_nonempty z : 0 < z → dec z ≠ "".
Proof.
  destruct z as [|p|p]; try lia. intros _. change (dec (Zpos p)) with (pretty_N_go (Npos p) "").
  rewrite pretty_N_go_step by lia. by apply pretty_N_go_nonempty.
Qed.

Lemma asn_key_inj a b :
  (if 0 <? a then dec a else "") = (if 0 <? b then dec b else "") → asn_or_default a = asn_or_default b.
Proof.
  unfold asn_or_default. intros E. pose proof (dec_nonempty a). pose proof (dec_nonempty b).
  repeat zif; naive_solver.
Qed.

(** requests with one key have one name *)
Lemma request_key_inj flags r1 r2 gs :
  request_ok r1 → request_ok r2 → request_key flags r1 = request_key flags r2 →
  (default false (flags !! r_var r1) = false → PeerAsn ∉ gs) →
  r_var r1 = r_var r2 ∧ request_name gs r1 = request_name gs r2.
Proof.
  destruct r1 as [tv rg pg a], r2 as [tv2 rg2 pg2 b]. unfold request_ok. cbn [r_var r_router r_peer r_asn].
  intros (V1 & R1 & P1 & A1) (V2 & R2 & P2 & A2) E Hf.
  assert (tv = tv2) as <-.
  { destruct (key_var flags tv rg pg a) as (x1 & E1 & X1), (key_var flags tv2 rg2 pg2 b) as (x2 & E2 & X2).
    rewrite E1, E2 in E. by apply (var_inj _ _ _ _ V1 V2 X1 X2). }
  split; [done|]. unfold getTopicKey in E. unfold expand.
  destruct (String.eqb tv MSGBUS_TOPIC_VAR_COLLECTOR); [done|].
  destruct (String.eqb tv MSGBUS_TOPIC_VAR_ROUTER).
  { apply (inj (String.append tv)) in E. injection E as E. by rewrite !append_nil_l in E; subst. }
  apply (inj (String.append tv)) in E. injection E as E. rewrite !append_nil_l in E.
  apply (sep_inj name_char) in E as [-> E]; [|done..].
  f_equal. apply list_fmap_ext. intros i g Hg.
  destruct (default false (flags !! tv)).
  - apply (sep_inj name_char) in E as [-> E]; [|done..]. by rewrite (asn_key_inj a b).
  - rewrite !string_app_nil_r in E. subst. destruct g; [done..|]. destruct Hf; [done|]. by eapply list_elem_of_lookup_2.
Qed.

(** the library accepts every topic *)
Class RdKafkaAccepts (kc : Type) {RK : RdKafka kc} : Prop := {
  rk_conf_ok : ∀ name value k, (rk_conf_set name value k).1 = true;
  rk_topic_ok : ∀ name k, (rk_topic_create name k).1 = true }.

Section cache.
Context {kc : Type} {RK : RdKafka kc} (names : gmap string string) (templates : string → list segment).

Definition templates_of : Prop :=
  ∀ tv, tv ∈ topic_vars → Forall seg_ok (templates tv) ∧ names !! tv = Some (seg_texts (templates tv)).

(** requests one after the other, also after one that threw *)
Fixpoint getTopics (rs : list request) (s : KafkaTopicSelector) (k : kc)
  : list (option string + string) * KafkaTopicSelector * kc :=
  match rs with
  | [] => ([], s, k)
  | r :: rs =>
      let '(t, s, k) := getTopic names (r_var r) (r_router r) (r_peer r) (r_asn r) s k in
      let '(ts, s, k) := getTopics rs s k in
      (t :: ts, s, k)
  end.

Definition flags_ok (flags : gmap string bool) : Prop :=
  ∀ tv b, flags !! tv = Some b → b = contains "{peer_asn}" (template_of names tv).

(** every topic in the cache is the one its key stands for, or null *)
Definition cache_sound (s : KafkaTopicSelector) : Prop :=
  flags_ok (topic_flags_map s) ∧
  ∀ key t, topic s !! key = Some t →
    ∃ r, request_ok r ∧ is_Some (topic_flags_map s !! r_var r) ∧ key = request_key (topic_flags_map s) r
      ∧ ∀ n, t = Some n → n = request_name (templates (r_var r)) r.
(** and none is null *)
Definition cache_ok (s : KafkaTopicSelector) : Prop := cache_sound s ∧ ∀ key t, topic s !! key = Some t → is_Some t.

Lemma cache_ok_new : cache_ok new_selector.
Proof. split; [split|]; intros ??; cbn; by rewrite lookup_empty. Qed.

(** a flag set again keeps the keys of the topics in the cache *)
Lemma key_insert_flag flags tv r :
  flags_ok flags → is_Some (flags !! r_var r) →
  request_key (<[tv := contains "{peer_asn}" (template_of names tv)]> flags) r = request_key flags r.
Proof.
  intros Hf [b Hb]. unfold getTopicKey. destruct (decide (r_var r = tv)) as [<-|Hn].
  - by rewrite lookup_insert_eq, Hb, <-(Hf _ _ Hb).
  - by rewrite lookup_insert_ne.
Qed.

Context (HT : templates_of).

Lemma template_of_segs tv : tv ∈ topic_vars → template_of names tv = seg_texts (templates tv).
Proof. intros H. unfold template_of. by rewrite (proj2 (HT tv H)). Qed.

(** the name behind a key found in the cache *)
Lemma cache_hit s r n :
  cache_sound s → request_ok r → topic s !! request_key (topic_flags_map s) r = Some (Some n) →
  n = request_name (templates (r_var r)) r.
Proof.
  intros [Hf Hc] Hr H. destruct (Hc _ _ H) as (r' & Hr' & [b Hb] & E & Hn). rewrite (Hn n eq_refl).
  assert (r_var r' = r_var r) as Hv by (eapply (request_key_inj _ r' r []); [done..|set_solver]).
  edestruct (request_key_inj (topic_flags_map s) r' r (templates (r_var r))) as [_ <-]; [done..| |by rewrite Hv].
  rewrite Hb. cbn. intros ->.
  apply Hf in Hb. rewrite Hv, template_of_segs, contains_segs in Hb by first [apply Hr|apply HT, Hr].
  symmetry in Hb. by apply bool_decide_eq_false in Hb.
Qed.

(** the flag of a topic is set *)
Lemma sound_flag tv s :
  cache_sound s → cache_sound {| topic := topic s; topic_flags_map := <[tv := contains "{peer_asn}" (template_of names tv)]> (topic_flags_map s) |}.
Proof.
  intros [Hf Hc]. split; cbn [topic topic_flags_map].
  - intros tv' b. rewrite lookup_insert_Some. intros [[-> <-]|[_ H]]; [done|by apply Hf].
  - intros key t H. destruct (Hc _ _ H) as (r' & ? & Hb & -> & Hn). exists r'. rewrite key_insert_flag by done.
    split_and!; [done| |done..]. destruct (decide (r_var r' = tv)) as [->|]; [by rewrite lookup_insert_eq|by rewrite lookup_insert_ne].
Qed.
(** a topic is entered under the key of its request *)
Lemma sound_insert r t s :
  cache_sound s → request_ok r → is_Some (topic_flags_map s !! r_var r) → (∀ n, t = Some n → n = request_name (templates (r_var r)) r) →
  cache_sound {| topic := <[request_key (topic_flags_map s) r := t]> (topic s); topic_flags_map := topic_flags_map s |}.
Proof.
  intros [Hf Hc] Hr Hb Hn. split; [done|]. cbn [topic topic_flags_map]. intros key t'. rewrite lookup_insert_Some.
  intros [[<- <-]|[_ H]]; [by exists r|by apply Hc].
Qed.

(** whatever the library answers *)
Lemma getTopic_sound s k r :
  cache_sound s → request_ok r →
  let '(t, s', _) := getTopic names (r_var r) (r_router r) (r_peer r) (r_asn r) s k in
  cache_sound s' ∧ ∀ n, t = inl (Some n) → n = request_name (templates (r_var r)) r.
Proof.
  intros Hs Hr. unfold getTopic. destruct (topic s !! _) as [t|] eqn:E.
  { split; [done|]. intros n [= ->]. by eapply cache_hit. }
  unfold initTopic. destruct (rk_conf_set _ _ k) as [[] k1]; cbn [negb]; [|split; [by apply sound_flag|done]].
  set (name := topic_name _ _ _ _ _). assert (name = request_name (templates (r_var r)) r) as ->.
  { subst name. destruct Hr as (Hv & ? & ? & ?). rewrite template_of_segs by done. apply topic_name_expand; [by apply HT|done..]. }
  apply (sound_flag (r_var r)) in Hs. destruct (rk_topic_create _ k1) as [ok k2]. split.
  - apply (sound_insert r _ _ Hs Hr); [cbn; rewrite lookup_insert_eq; eauto|]. destruct ok; congruence.
  - destruct ok; congruence.
Qed.

(** and a library that accepts everything *)
Lemma getTopic_spec {RA : RdKafkaAccepts kc} s k r :
  cache_ok s → request_ok r →
  ∃ s' k', getTopic names (r_var r) (r_router r) (r_peer r) (r_asn r) s k
    = (inl (Some (request_name (templates (r_var r)) r)), s', k') ∧ cache_ok s'.
Proof.
  intros [Hs Hn] Hr. pose proof (getTopic_sound s k r Hs Hr) as H. unfold getTopic in *. destruct (topic s !! _) as [t|] eqn:E.
  { destruct (Hn _ _ E) as [n ->]. destruct H as [_ H]. eexists _, _. split; [by rewrite (H n eq_refl)|by split]. }
  unfold initTopic in *. pose proof (rk_conf_ok "partitioner_cb" "KafkaPeerPartitionerCallback" k) as Hk.
  destruct (rk_conf_set _ _ k) as [ok k1]. cbn in Hk. subst. cbn [negb] in *.
  set (name := topic_name _ _ _ _ _) in *. pose proof (rk_topic_ok name k1) as Hk. destruct (rk_topic_create name k1) as [ok k2].
  cbn in Hk. subst ok. destruct H as [H1 H2]. rewrite <-(H2 name eq_refl). eexists _, _. split; [done|]. split; [done|].
  cbn [topic]. intros key t. rewrite lookup_insert_Some. intros [[_ <-]|[_ ?]]; eauto.
Qed.

(** the answer to a request: its topic, a topic that could not be created before, or an
    exception *)
Definition answer_ok (r : request) (t : option string + string) : Prop :=
  ∀ n, t = inl (Some n) → n = request_name (templates (r_var r)) r.

Lemma getTopics_sound rs s k : cache_sound s → Forall request_ok rs → Forall2 answer_ok rs (getTopics rs s k).1.1.
Proof.
  intros Hs Hr. revert s k Hs. induction Hr as [|r rs Hr Hrs IH]; intros s k Hs; [constructor|].
  cbn [getTopics]. pose proof (getTopic_sound s k r Hs Hr) as H. destruct (getTopic _ _ _ _ _ s k) as [[t s1] k1].
  destruct H as [H1 H2]. specialize (IH s1 k1 H1). destruct (getTopics rs s1 k1) as [[ts s2] k2]. by constructor.
Qed.
Lemma getTopics_spec {RA : RdKafkaAccepts kc} rs s k :
  cache_ok s → Forall request_ok rs →
  (getTopics rs s k).1.1 = (λ r, inl (Some (request_name (templates (r_var r)) r))) <$> rs.
Proof.
  intros Hs Hr. revert s k Hs. induction Hr as [|r rs Hr Hrs IH]; intros s k Hs; [done|].
  cbn [getTopics]. destruct (getTopic_spec s k r Hs Hr) as (s1 & k1 & -> & Hs1).
  specialize (IH s1 k1 Hs1). destruct (getTopics rs s1 k1) as [[ts s2] k2]. cbn in *. by rewrite IH.
Qed.
End cache.

(** a key of ASCII characters, as the printed hashes are *)
Definition is_ascii (c : Ascii.ascii) : bool := byte_of_ascii c <? 128.

(** C16: every message goes to the topic of its template.  For templates of text
    and variables, and groups without [_] and braces, any sequence of requests
    to a new selector returns for each one the name in which the variables are
    replaced at the same time, unless the broker library refused to create the
    topic: the cache never returns the topic of another request, and replacing
    one variable after the other is the same.  With a library that accepts
    everything each request gets its topic. *)
Theorem topics_by_template {kc : Type} {RK : RdKafka kc} (names : gmap string string) (templates : string → list segment)
    (rs : list request) (k : kc) :
  templates_of names templates → Forall request_ok rs →
  let ts := (getTopics names rs new_selector k).1.1 in
  Forall2 (λ r t, t = inl (Some (expand (r_var r) (r_router r) (r_peer r) (r_asn r) (templates (r_var r))))
                  ∨ t = inl None ∨ ∃ e, t = inr e) rs ts
  ∧ (RdKafkaAccepts kc →
     ts = (λ r, inl (Some (expand (r_var r) (r_router r) (r_peer r) (r_asn r) (templates (r_var r))))) <$> rs).
Proof.
  intros HT Hr. split.
  - pose proof (getTopics_sound names templates HT rs new_selector k (proj1 (cache_ok_new names templates)) Hr) as H.
    apply (Forall2_impl _ _ _ _ H). intros r [[n|]|e] Ha; eauto. left. by rewrite (Ha n eq_refl).
  - intros RA. by apply (getTopics_spec names templates HT), Hr; apply cache_ok_new.
Qed.

(** Groups with an underscore share topics.  The key of the cache joins the
    groups with [_]: the router group [a_b] with the peer group [c] gets the topic
    that was created for [a] and [b_c], whatever the template. *)
Theorem underscore_groups_collide {kc : Type} {RK : RdKafka kc} (names : gmap string string)
    (topic_var a b c : string) (peer_asn : Z) (s s' : KafkaTopicSelector) (k k' : kc) (t : option string) :
  topic_var ≠ MSGBUS_TOPIC_VAR_COLLECTOR → topic_var ≠ MSGBUS_TOPIC_VAR_ROUTER →
  initTopic names topic_var a (b +:+ "_" +:+ c) peer_asn s k = (inl t, s', k') →
  getTopic names topic_var (a +:+ "_" +:+ b) c peer_asn s' k' = (inl t, s', k').
Proof.
  intros H1 H2 H. assert (∀ flags, getTopicKey flags topic_var (a +:+ "_" +:+ b) c peer_asn
    = getTopicKey flags topic_var a (b +:+ "_" +:+ c) peer_asn) as E.
  { intros flags. unfold getTopicKey. rewrite (proj2 (String.eqb_neq _ _) H1), (proj2 (String.eqb_neq _ _) H2).
    by rewrite !string_app_assoc. }
  unfold initTopic in H. destruct (rk_conf_set _ _ k) as [[|] k1]; [|done].
  destruct (rk_topic_create _ k1) as [[|] k2]; [|done]. cbn [negb] in H. simplify_eq. unfold getTopic. cbn [topic topic_flags_map].
  by rewrite E, lookup_insert_eq.
Qed.

(** The partition of a message.  A key of ASCII text gives a partition of the
    topic. *)
Theorem partition_in_range (key : string) (partition_cnt : Z) :
  key ≠ "" → str_all is_ascii key = true → 0 < partition_cnt →
  ∃ p, partitioner_cb key partition_cnt = Ok p ∧ 0 ≤ p < partition_cnt.
Proof.
  intros Hk Ha Hc. unfold partitioner_cb. destruct (bytes_of_string key) as [|b bs] eqn:E; [by destruct key|].
  zif; [lia|]. eexists. split; [done|]. assert (Forall (λ v, 0 ≤ v < 128) (b :: bs)) as HF.
  { rewrite <-E. clear -Ha. induction key as [|c key IH]; [by apply Forall_nil_2|]. cbn in Ha. apply andb_prop in Ha as [Hc Ha].
    apply Forall_cons_2; [|by apply IH]. unfold is_ascii in Hc. apply Z.ltb_lt in Hc. unfold byte_of_ascii in *. lia. }
  assert (∀ v, v ∈ b :: bs → 0 ≤ v < 128) as HB by (by apply Forall_forall).
  assert (List.last (b :: bs) 0 ∈ b :: bs) as Hl by (clear; revert b; induction bs as [|x bs IH]; intros b; [set_solver|right; apply IH]).
  apply HB in Hl. pose proof (HB b ltac:(set_solver)). rewrite !(proj2 (Z.ltb_lt _ 128)) by lia.
  rewrite Z.rem_mod_nonneg by lia. apply Z.mod_pos_bound. lia.
Qed.

(** ** Witnesses *)

(** a library that accepts everything and keeps the names of the topics *)
Definition kafka_log : Type := list string.
#[global] Instance kafka_log_client : RdKafka kafka_log := {
  rk_conf_set _ _ k := (true, k);
  rk_producer_create k := (true, k);
  rk_poll _ k := (false, k);
  rk_outq_len _ := 0;
  rk_producer_delete k := k;
  rk_topic_create name k := (true, k ++ [name]);
  rk_produce _ _ _ k := (true, k) }.
#[global] Instance kafka_log_accepts : RdKafkaAccepts kafka_log.
Proof. split; done. Qed.

Definition sample_templates (tv : string) : list segment :=
  if bool_decide (tv ∈ [MSGBUS_TOPIC_VAR_COLLECTOR; MSGBUS_TOPIC_VAR_ROUTER]) then [Lit "openbmp.parsed."; Lit tv]
  else [Lit "openbmp.parsed."; Lit tv; Lit "."; RouterGroup; Lit "."; PeerGroup; Lit "."; PeerAsn].
Definition sample_names : gmap string string :=
  list_to_map ((λ tv, (tv, seg_texts (sample_templates tv))) <$> topic_vars).
Definition sample_requests : list request :=
  [{| r_var := "collector"; r_router := ""; r_peer := ""; r_asn := 0 |};
   {| r_var := "unicast_prefix"; r_router := "lab"; r_peer := ""; r_asn := 65001 |};
   {| r_var := "unicast_prefix"; r_router := "lab"; r_peer := ""; r_asn := 65002 |};
   {| r_var := "unicast_prefix"; r_router := "lab"; r_peer := ""; r_asn := 65001 |}].

Lemma topics_by_template_witness :
  (getTopics sample_names sample_requests new_selector ([] : kafka_log)).1.1
  = (λ r, inl (Some (expand (r_var r) (r_router r) (r_peer r) (r_asn r) (sample_templates (r_var r))))) <$> sample_requests.
Proof.
  apply (topics_by_template sample_names sample_templates sample_requests ([] : kafka_log)); [| |apply _].
  - intros tv H. unfold topic_vars in H. rewrite !elem_of_cons, elem_of_nil in H.
    repeat destruct H as [-> | H]; try done; (split; [repeat constructor|reflexivity]).
  - repeat (apply Forall_cons_2; [split_and!; [|done|done|done]|]); [..|by apply Forall_nil_2];
      unfold topic_vars; cbn; set_solver.
Defined.

Lemma underscore_groups_collide_witness :
  ∃ s', initTopic sample_names "peer" "a" ("b" +:+ "_" +:+ "c") 65001 new_selector ([] : kafka_log)
      = (inl (Some "openbmp.parsed.peer.a.b_c.65001"), s', ["openbmp.parsed.peer.a.b_c.65001"])
    ∧ getTopic sample_names "peer" ("a" +:+ "_" +:+ "b") "c" 65001 s' (["openbmp.parsed.peer.a.b_c.65001"] : kafka_log)
      = (inl (Some "openbmp.parsed.peer.a.b_c.65001"), s', ["openbmp.parsed.peer.a.b_c.65001"]).
Proof.
  eexists. split; [reflexivity|].
  apply (underscore_groups_collide sample_names "peer" "a" "b" "c" 65001 new_selector _ [] _ _); [done|done|reflexivity].
Defined.

Lemma partition_in_range_witness : ∃ p, partitioner_cb "c81e728d9d4c2f636f067f89cc14862c" 8 = Ok p ∧ 0 ≤ p < 8.
Proof. apply (partition_in_range "c81e728d9d4c2f636f067f89cc14862c" 8); [done|reflexivity|lia]. Defined.
