(* ===== verification/Configuration.v ===== *)
(** * The configuration ([Config.cpp], [Config.h])

    The values of the collector with their defaults, and the functions that
    take them from a YAML document.  The document and the conversions of its
    scalars are those of yaml-cpp, the class [Yaml]; regular expressions are
    compiled by a parameter. *)

From Stdlib Require Import Sorted.
From S2P Require Import Prelude Inet BgpCommon TopicSelector.

(** ** YAML *)

Inductive ytype : Set := YNull | YScalar | YSequence | YMap.

(** [node[key]] is [None] where the subscript throws and [Some None] where there
    is no such entry; a conversion is [None] where it throws. *)
Class Yaml (node : Type) : Type := {
  y_type : node → ytype;
  y_get : node → string → option (option node);
  y_items : node → list (node * node);
  y_seq : node → list node;
  y_scalar : node → string;
  y_as_string : node → option string;
  y_as_int : node → option Z;
  y_as_uint16 : node → option Z;
  y_as_uint32 : node → option Z;
  y_as_bool : node → option bool }.

(** a conversion to [int] gives a value of that type *)
Class YamlLaws (node : Type) {Y : Yaml node} : Prop := {
  y_int_range n v : y_as_int n = Some v → - 2 ^ 31 ≤ v < 2 ^ 31 }.

(** ** Exceptions *)

Inductive exn : Set :=
| ExText (msg : string)          (** [throw "..."] *)
| ExInvalidNode                  (** a value of a node that is not there *)
| ExBadConversion                (** [YAML::TypedBadConversion] *)
| ExBadSubscript                 (** [YAML::BadSubscript] *)
| ExDangling.                    (** a text inside an exception that is no longer there *)

Inductive result (A : Type) : Type := Good (a : A) | Exn (e : exn).
Arguments Good {A} a.
Arguments Exn {A} e.
#[global] Instance result_bind : MBind result := λ A B f m, match m with Good a => f a | Exn e => Exn e end.

Lemma Good_inv {A B} (m : result A) (f : A → result B) b : m ≫= f = Good b ↔ ∃ a, m = Good a ∧ f a = Good b.
Proof. destruct m; cbn; naive_solver. Qed.
Lemma bind_Good {A B} (a : A) (f : A → result B) : Good a ≫= f = f a.
Proof. done. Qed.

(** ** Values *)

Inductive int_member : Set :=
| bmp_port | bmp_buffer_size | heartbeat_interval | tx_max_bytes | rx_max_bytes | session_timeout | socket_timeout
| q_buf_max_msgs | q_buf_max_kbytes | q_buf_max_ms | msg_send_max_retry | retry_backoff_ms | max_concurrent_routers
| initial_router_time.
Inductive bool_member : Set :=
| svr_ipv4 | svr_ipv6 | debug_general | debug_bgp | debug_bmp | debug_msgbus | calculate_baseline | pat_enabled.
Inductive string_member : Set := kafka_brokers | bind_ipv4 | bind_ipv6 | compression.
#[global] Instance int_member_eq_dec : EqDecision int_member.
Proof. solve_decision. Defined.
#[global] Instance bool_member_eq_dec : EqDecision bool_member.
Proof. solve_decision. Defined.
#[global] Instance string_member_eq_dec : EqDecision string_member.
Proof. solve_decision. Defined.

Definition MAX_THREADS : Z := 200.

(** [cf_admin_id] is the array; the maps that are searched in the order of their
    keys are sorted lists. *)
Record config (regex : Type) : Type := {
  cf_admin_id : list Z;
  cf_int : int_member → Z;
  cf_bool : bool_member → bool;
  cf_string : string_member → string;
  cf_router_by_name : list (string * list regex);
  cf_router_by_ip : list (string * list match_type_ip);
  cf_peer_by_name : list (string * list regex);
  cf_peer_by_ip : list (string * list match_type_ip);
  cf_peer_by_asn : list (string * list Z);
  cf_topic_vars : list (string * string);
  cf_topic_names : gmap string string }.
Arguments cf_admin_id {_} _.
Arguments cf_int {_} _ _.
Arguments cf_bool {_} _ _.
Arguments cf_string {_} _ _.
Arguments cf_router_by_name {_} _.
Arguments cf_router_by_ip {_} _.
Arguments cf_peer_by_name {_} _.
Arguments cf_peer_by_ip {_} _.
Arguments cf_peer_by_asn {_} _.
Arguments cf_topic_vars {_} _.
Arguments cf_topic_names {_} _.

Section setters.
Context {regex : Type}.
Implicit Type c : config regex.

Definition set_admin (a : list Z) c : config regex :=
  {| cf_admin_id := a; cf_int := cf_int c; cf_bool := cf_bool c; cf_string := cf_string c;
     cf_router_by_name := cf_router_by_name c; cf_router_by_ip := cf_router_by_ip c; cf_peer_by_name := cf_peer_by_name c;
     cf_peer_by_ip := cf_peer_by_ip c; cf_peer_by_asn := cf_peer_by_asn c; cf_topic_vars := cf_topic_vars c;
     cf_topic_names := cf_topic_names c |}.
Definition set_members (i : int_member → Z) (b : bool_member → bool) (s : string_member → string) c : config regex :=
  {| cf_admin_id := cf_admin_id c; cf_int := i; cf_bool := b; cf_string := s;
     cf_router_by_name := cf_router_by_name c; cf_router_by_ip := cf_router_by_ip c; cf_peer_by_name := cf_peer_by_name c;
     cf_peer_by_ip := cf_peer_by_ip c; cf_peer_by_asn := cf_peer_by_asn c; cf_topic_vars := cf_topic_vars c;
     cf_topic_names := cf_topic_names c |}.
Definition set_int (m : int_member) (v : Z) c : config regex :=
  set_members (λ m', if decide (m' = m) then v else cf_int c m') (cf_bool c) (cf_string c) c.
Definition set_bool (m : bool_member) (v : bool) c : config regex :=
  set_members (cf_int c) (λ m', if decide (m' = m) then v else cf_bool c m') (cf_string c) c.
Definition set_string (m : string_member) (v : string) c : config regex :=
  set_members (cf_int c) (cf_bool c) (λ m', if decide (m' = m) then v else cf_string c m') c.
Definition set_topics (vars : list (string * string)) (names : gmap string string) c : config regex :=
  {| cf_admin_id := cf_admin_id c; cf_int := cf_int c; cf_bool := cf_bool c; cf_string := cf_string c;
     cf_router_by_name := cf_router_by_name c; cf_router_by_ip := cf_router_by_ip c; cf_peer_by_name := cf_peer_by_name c;
     cf_peer_by_ip := cf_peer_by_ip c; cf_peer_by_asn := cf_peer_by_asn c; cf_topic_vars := vars; cf_topic_names := names |}.
Definition set_router_groups (n : list (string * list regex)) (i : list (string * list match_type_ip)) c : config regex :=
  {| cf_admin_id := cf_admin_id c; cf_int := cf_int c; cf_bool := cf_bool c; cf_string := cf_string c;
     cf_router_by_name := n; cf_router_by_ip := i; cf_peer_by_name := cf_peer_by_name c;
     cf_peer_by_ip := cf_peer_by_ip c; cf_peer_by_asn := cf_peer_by_asn c; cf_topic_vars := cf_topic_vars c;
     cf_topic_names := cf_topic_names c |}.
Definition set_peer_groups (n : list (string * list regex)) (i : list (string * list match_type_ip))
    (a : list (string * list Z)) c : config regex :=
  {| cf_admin_id := cf_admin_id c; cf_int := cf_int c; cf_bool := cf_bool c; cf_string := cf_string c;
     cf_router_by_name := cf_router_by_name c; cf_router_by_ip := cf_router_by_ip c; cf_peer_by_name := n;
     cf_peer_by_ip := i; cf_peer_by_asn := a; cf_topic_vars := cf_topic_vars c; cf_topic_names := cf_topic_names c |}.
End setters.

(** [map[key]] of a [std::map], updated by [f] *)
Fixpoint map_at {A} (key : string) (d : A) (f : A → A) (l : list (string * A)) : list (string * A) :=
  match l with
  | [] => [(key, f d)]
  | (k, v) :: l' =>
      match String.compare key k with
      | Eq => (k, f v) :: l'
      | Lt => (key, f d) :: l
      | Gt => (k, v) :: map_at key d f l'
      end
  end.
(** [map[key].push_back(v)] *)
Definition map_push {A} (key : string) (v : A) : list (string * list A) → list (string * list A) :=
  map_at key [] (λ l, l ++ [v]).

(** *** Defaults *)

Definition default_int (m : int_member) : Z :=
  match m with
  | bmp_port => 5000
  | bmp_buffer_size => 15 * 1024 * 1024
  | heartbeat_interval => 60 * 5
  | tx_max_bytes => 1000000
  | rx_max_bytes => 100000000
  | session_timeout => 30000
  | socket_timeout => 60000
  | q_buf_max_msgs => 100000
  | q_buf_max_kbytes => 1048576
  | q_buf_max_ms => 1000
  | msg_send_max_retry => 2
  | retry_backoff_ms => 100
  | max_concurrent_routers => 2
  | initial_router_time => 60
  end.
Definition default_bool (m : bool_member) : bool := match m with svr_ipv4 | calculate_baseline => true | _ => false end.
Definition default_string (m : string_member) : string :=
  match m with kafka_brokers => "localhost:9092" | compression => "snappy" | _ => "" end.
Definition default_names : gmap string string :=
  list_to_map [(MSGBUS_TOPIC_VAR_COLLECTOR, "openbmp.parsed.collector"); (MSGBUS_TOPIC_VAR_ROUTER, "openbmp.parsed.router");
    (MSGBUS_TOPIC_VAR_PEER, "openbmp.parsed.peer"); (MSGBUS_TOPIC_VAR_BMP_STAT, "openbmp.parsed.bmp_stat");
    (MSGBUS_TOPIC_VAR_BMP_RAW, "openbmp.bmp_raw"); (MSGBUS_TOPIC_VAR_BASE_ATTRIBUTE, "openbmp.parsed.base_attribute");
    (MSGBUS_TOPIC_VAR_UNICAST_PREFIX, "openbmp.parsed.unicast_prefix"); (MSGBUS_TOPIC_VAR_LS_NODE, "openbmp.parsed.ls_node");
    (MSGBUS_TOPIC_VAR_LS_LINK, "openbmp.parsed.ls_link"); (MSGBUS_TOPIC_VAR_LS_PREFIX, "openbmp.parsed.ls_prefix");
    (MSGBUS_TOPIC_VAR_L3VPN, "openbmp.parsed.l3vpn"); (MSGBUS_TOPIC_VAR_EVPN, "openbmp.parsed.evpn")].

(** the constructor *)
Definition new_config (regex : Type) : config regex :=
  {| cf_admin_id := zeros 64; cf_int := default_int; cf_bool := default_bool; cf_string := default_string;
     cf_router_by_name := []; cf_router_by_ip := []; cf_peer_by_name := []; cf_peer_by_ip := []; cf_peer_by_asn := [];
     cf_topic_vars := []; cf_topic_names := default_names |}.

(** ** Library functions *)

(** [atoi]: blanks, a sign, digits; the value of [strtol] as an [int] *)
Fixpoint digits_value (s : string) (acc : Z) : Z :=
  match s with
  | String c s' => if is_digit c then digits_value s' (10 * acc + (byte_of_ascii c - 48)) else acc
  | EmptyString => acc
  end.
Fixpoint skip_blanks (s : string) : string :=
  match s with
  | String c s' => if existsb (Z.eqb (byte_of_ascii c)) [32; 9; 10; 11; 12; 13] then skip_blanks s' else s
  | EmptyString => ""
  end.
Definition atoi (s : string) : Z :=
  let clamp v := Z.max (- 2 ^ 63) (Z.min (2 ^ 63 - 1) v) in
  i32 match skip_blanks s with
      | String "-" s' => clamp (- digits_value s' 0)
      | String "+" s' => clamp (digits_value s' 0)
      | s' => clamp (digits_value s' 0)
      end.

(** [strtok] with the delimiter [/]: the parts that are not empty *)
Fixpoint tokens (s cur : string) : list string :=
  let close := if is_empty cur then [] else [cur] in
  match s with
  | EmptyString => close
  | String c s' => if Ascii.eqb c "/" then close ++ tokens s' "" else tokens s' (cur +:+ String c "")
  end.

(** [s.c_str()] as a C string *)
Definition c_str (s : string) : string := cstr (bytes_of_string s).

(** [strncpy] into the whole of an array of [n] characters *)
Definition strncpy_fill (n : nat) (s : string) : list Z :=
  let t := take n (bytes_of_string (c_str s)) in t ++ zeros (n - length t).

(** ** Parsing *)

(** [gethostname] gives the array it leaves of the one it is given;
    [regex_compile] is [None] where the expression is not valid;
    [subscript_first]: C++14 does not say whether in [map[key] = value] the entry
    is made before the value is computed. *)
Section parse.
Context {node regex : Type} {Y : Yaml node} (regex_compile : string → option regex)
  (gethostname : list Z → list Z) (subscript_first : bool).
Implicit Type (c : config regex) (n : node).

(** [if (node[key]) ...] *)
Definition child (n : node) (key : string) (k : node → config regex → result (config regex)) c : result (config regex) :=
  match y_get n key with
  | None => Exn ExBadSubscript
  | Some None => Good c
  | Some (Some m) => k m c
  end.

(** [if (node[key] and node[key].Type() == t) ...] *)
Definition child_of (t : ytype) (n : node) (key : string) (k : node → config regex → result (config regex)) c
  : result (config regex) :=
  child n key (λ m c, match t, y_type m with
                      | YScalar, YScalar | YSequence, YSequence | YMap, YMap => k m c
                      | _, _ => Good c
                      end) c.

(** [try { v = node.as<T>(); ... } catch (TypedBadConversion<T>) { warning }] *)
Definition try_as {A} (conv : node → option A) (k : A → config regex → result (config regex)) n c : result (config regex) :=
  match conv n with Some v => k v c | None => Good c end.

(** [node.as<std::string>()] that nobody catches *)
Definition as_string n : result string := match y_as_string n with Some s => Good s | None => Exn ExBadConversion end.

(** a number between [lo] and [hi], kept in other units *)
Definition ranged (m : int_member) (lo hi unit : Z) (msg : string) (v : Z) c : result (config regex) :=
  if (v <? lo) || (hi <? v) then Exn (ExText msg) else Good (set_int m (v * unit) c).

Definition parse_admin_id (v : string) c : result (config regex) :=
  Good (set_admin (if String.eqb v "hostname" then gethostname (cf_admin_id c) else strncpy_fill 64 v) c).

Definition parse_listen_mode (v : string) c : result (config regex) :=
  Good (if String.eqb v "v4" then set_bool svr_ipv4 true c
        else if String.eqb v "v6" then set_bool svr_ipv4 false (set_bool svr_ipv6 true c)
        else set_bool svr_ipv4 true (set_bool svr_ipv6 true c)).

Definition parse_max_concurrent (v : Z) c : result (config regex) :=
  if v =? 0 then Good (set_int max_concurrent_routers MAX_THREADS c)
  else if v <? 0 then Exn (ExText "invalid maximum concurrent routers not greater than 0)")
  else Good (set_int max_concurrent_routers v c).

Definition parseBase n c : result (config regex) :=
  c ← child n "admin_id" (try_as y_as_string parse_admin_id) c;
  c ← child n "listen_port" (try_as y_as_uint16
        (ranged bmp_port 25 65535 1 "invalid listen_port, not within range of 25 - 65535)")) c;
  c ← child n "listen_ipv4" (λ m c, s ← as_string m; Good (set_string bind_ipv4 s c)) c;
  c ← child n "listen_ipv6" (λ m c, s ← as_string m; Good (set_string bind_ipv6 s c)) c;
  c ← child n "listen_mode" (try_as y_as_string parse_listen_mode) c;
  c ← child n "buffers" (λ m, child m "router" (try_as y_as_int
        (ranged bmp_buffer_size 2 384 (1024 * 1024) "invalid router buffer size, not within range of 2 - 384)"))) c;
  c ← child n "heartbeat" (λ m, child m "interval" (try_as y_as_int
        (ranged heartbeat_interval 1 1440 60 "invalid heartbeat interval not within range of 1 - 1440)"))) c;
  child n "startup" (λ m c,
    c ← child m "max_concurrent_routers" (try_as y_as_int parse_max_concurrent) c;
    c ← child m "initial_router_time" (try_as y_as_int
          (ranged initial_router_time 5 1800 1 "invalid initial router time not within range of 5-1800 seconds)")) c;
    c ← child m "calculate_baseline" (try_as y_as_bool (λ v c, Good (set_bool calculate_baseline v c))) c;
    child m "pat_enabled" (try_as y_as_bool (λ v c, Good (set_bool pat_enabled v c))) c) c.

(** A debug flag that is already set, by the command line, is kept. *)
Definition debug_flag (m : bool_member) (key : string) n c : result (config regex) :=
  if cf_bool c m then Good c else child n key (try_as y_as_bool (λ v c, Good (set_bool m v c))) c.
Definition parseDebug n c : result (config regex) :=
  c ← debug_flag debug_general "general" n c; c ← debug_flag debug_bmp "bmp" n c;
  c ← debug_flag debug_bgp "bgp" n c; debug_flag debug_msgbus "msgbus" n c.

(** *** Kafka *)

Definition parse_brokers n c : result (config regex) :=
  Good (set_string kafka_brokers (join "," (filter (λ s, is_empty s = false) (y_scalar <$> y_seq n))) c).

(** the corrected default of older configurations *)
Definition parse_tx_max (v : Z) c : result (config regex) :=
  c ← ranged tx_max_bytes 1000 1000000000 1 "invalid transmit max bytes , should be in range 1000 - 1000000000" v c;
  Good (if v =? 200000000 then set_int tx_max_bytes 1000000 c else c).

Definition parse_compression (v : string) c : result (config regex) :=
  if existsb (String.eqb v) ["none"; "snappy"; "gzip"; "lz4"] then Good (set_string compression v c)
  else Exn (ExText "invalid value for compression, should be one of none, gzip, snappy, or lz4").

(** [topic_vars_map[var] = value] *)
Definition parse_variable (kv : node * node) (vars : list (string * string)) : list (string * string) :=
  match y_as_string kv.1 with
  | None => vars
  | Some var =>
      if String.eqb var "router_group" || String.eqb var "peer_group" then vars
      else match y_as_string kv.2 with
           | Some v => map_at var "" (λ _, v) vars
           | None => if subscript_first then map_at var "" id vars else vars
           end
  end.

(** names that are not known are ignored *)
Definition parse_name (kv : node * node) (names : gmap string string) : gmap string string :=
  match y_as_string kv.1 with
  | None => names
  | Some k =>
      match names !! k, y_type kv.2, y_as_string kv.2 with
      | None, _, _ => names
      | Some _, YNull, _ => <[k := ""]> names
      | Some _, _, Some v => <[k := v]> names
      | Some _, _, None => names
      end
  end.

Definition substitute_var (names : gmap string string) (v : string * string) : gmap string string :=
  replace_all ("{" +:+ v.1 +:+ "}") v.2 <$> names.
Definition topicSubstitutions c : config regex :=
  set_topics (cf_topic_vars c) (fold_left substitute_var (cf_topic_vars c) (cf_topic_names c)) c.

Definition parseTopics n c : result (config regex) :=
  c ← child_of YMap n "variables" (λ m c,
        Good (set_topics (fold_left (λ vs kv, parse_variable kv vs) (y_items m) (cf_topic_vars c)) (cf_topic_names c) c)) c;
  c ← child_of YMap n "names" (λ m c,
        Good (set_topics (cf_topic_vars c) (fold_left (λ ns kv, parse_name kv ns) (y_items m) (cf_topic_names c)) c)) c;
  Good (topicSubstitutions c).

Definition kafka_int (key : string) (k : Z → config regex → result (config regex)) n : config regex → result (config regex) :=
  child_of YScalar n key (try_as y_as_int k).

(** the message of most of the ranges *)
Definition range_msg (r : string) : string := "invalid receive max bytes , should be in range " +:+ r.

Definition parseKafka n c : result (config regex) :=
  c ← child_of YSequence n "brokers" parse_brokers c;
  c ← kafka_int "message.max.bytes" parse_tx_max n c;
  c ← kafka_int "receive.message.max.bytes" (ranged rx_max_bytes 1000 1000000000 1 (range_msg "1000 - 1000000000")) n c;
  c ← kafka_int "session.timeout.ms" (ranged session_timeout 1 3600000 1 (range_msg "1 - 3600000")) n c;
  c ← kafka_int "socket.timeout.ms" (ranged socket_timeout 10 300000 1 (range_msg "10 - 300000")) n c;
  c ← kafka_int "queue.buffering.max.messages" (ranged q_buf_max_msgs 1 10000000 1 (range_msg "1 - 10000000")) n c;
  c ← kafka_int "queue.buffering.max.kbytes" (ranged q_buf_max_kbytes 1 2097151 1 (range_msg "1 - 2097151")) n c;
  c ← kafka_int "queue.buffering.max.ms" (ranged q_buf_max_ms 1 900000 1 (range_msg "1 - 900000")) n c;
  c ← kafka_int "message.send.max.retries" (ranged msg_send_max_retry 0 10000000 1 (range_msg "1 - 10000000")) n c;
  c ← kafka_int "retry.backoff.ms" (ranged retry_backoff_ms 1 300000 1 (range_msg "1 - 300000")) n c;
  c ← child_of YScalar n "compression.codec" (try_as y_as_string parse_compression) c;
  child_of YMap n "topics" parseTopics c.

(** *** Groups *)

(** a loop over a sequence, skipping the elements that are not of the type *)
Fixpoint each {A} (t : ytype) (f : node → A → result A) (ns : list node) (a : A) : result A :=
  match ns with
  | [] => Good a
  | n :: ns =>
      a ← match t, y_type n with YScalar, YScalar | YMap, YMap => f n a | _, _ => Good a end;
      each t f ns a
  end.

Definition parse_regexp (name : string) n (map : list (string * list regex)) : result (list (string * list regex)) :=
  s ← as_string n;
  match regex_compile s with
  | Some r => Good (map_push name r map)
  | None => Exn (ExText "Invalid regular expression pattern")
  end.
Definition parseRegexpList (ns : list node) (name : string) (map : list (string * list regex))
  : result (list (string * list regex)) := each YScalar (parse_regexp name) ns map.

(** A text with a point is an IPv4 prefix; the length is kept in 8 bits; an
    address that is not valid leaves zeros. *)
Definition prefix_entry (s : string) : result match_type_ip :=
  match tokens (c_str s) "" with
  | prefix :: bits :: _ =>
      let bits := u8 (atoi bits) in
      let isIPv4 := contains "." s in
      let max := if isIPv4 then 32 else 128 in
      if (bits <? 1) || (max <? bits) then
        Exn (ExText (if isIPv4 then "Invalid prefix range bits value, must be 1 - 32"
                     else "Invalid prefix range bits value, must be 1 - 128"))
      else
        let octets := if isIPv4 then inet_pton4 prefix else inet_pton6 prefix in
        Good {| mi_isIPv4 := isIPv4; mi_prefix := words_of (default [] octets); mi_bits := bits |}
  | _ => Exn (ExText "Missing prefix range bits value")
  end.
Definition parse_prefix (name : string) n (map : list (string * list match_type_ip))
  : result (list (string * list match_type_ip)) :=
  s ← as_string n; e ← prefix_entry s; Good (map_push name e map).
Definition parsePrefixList (ns : list node) (name : string) (map : list (string * list match_type_ip))
  : result (list (string * list match_type_ip)) := each YScalar (parse_prefix name) ns map.

(** a list of a group: a sequence, or nothing *)
Definition group_list {A} (cur : node) (key msg : string) (f : list node → A → result A) (a : A) : result A :=
  match y_get cur key with
  | None => Exn ExBadSubscript
  | Some None => Good a
  | Some (Some m) => match y_type m with YSequence => f (y_seq m) a | _ => Exn (ExText msg) end
  end.

Definition group_name_of (cur : node) : result string :=
  match y_get cur "name" with
  | None => Exn ExBadSubscript
  | Some None => Exn ExInvalidNode
  | Some (Some m) => as_string m
  end.

(** The handler of a bad conversion is the one for [std::string], not for
    [uint32_t]. *)
Definition parse_asn (name : string) n (map : list (string * list Z)) : result (list (string * list Z)) :=
  match y_as_uint32 n with Some asn => Good (map_push name asn map) | None => Exn ExBadConversion end.

Definition parse_router_group (cur : node) c : result (config regex) :=
  name ← group_name_of cur;
  by_name ← group_list cur "regexp_hostname"
              "Invalid mapping.groups.router_group.regexp_hostname, should be of type list/sequence"
              (λ ns, parseRegexpList ns name) (cf_router_by_name c);
  by_ip ← group_list cur "prefix_range" "Invalid mapping.groups.router_group.prefix_range, should be of type list/sequence"
            (λ ns, parsePrefixList ns name) (cf_router_by_ip c);
  Good (set_router_groups by_name by_ip c).

Definition parse_peer_group (cur : node) c : result (config regex) :=
  name ← group_name_of cur;
  by_name ← group_list cur "regexp_hostname"
              "Invalid mapping.groups.peer_group.regexp_hostname, should be of type list/sequence"
              (λ ns, parseRegexpList ns name) (cf_peer_by_name c);
  by_ip ← group_list cur "prefix_range" "Invalid mapping.groups.peer_group.prefix_range, should be of type list/sequence"
            (λ ns, parsePrefixList ns name) (cf_peer_by_ip c);
  by_asn ← group_list cur "asn" "Invalid mapping.groups.peer_group.asn, should be of type list/sequence"
             (each YScalar (parse_asn name)) (cf_peer_by_asn c);
  Good (set_peer_groups by_name by_ip by_asn c).

Definition parseMapping n c : result (config regex) :=
  child_of YMap n "groups" (λ m c,
    c ← child_of YSequence m "router_group" (λ s, each YMap parse_router_group (y_seq s)) c;
    child_of YSequence m "peer_group" (λ s, each YMap parse_peer_group (y_seq s)) c) c.

(** *** The document *)

Definition parse_section (kv : node * node) c : result (config regex) :=
  match y_type kv.2 with
  | YMap =>
      let key := y_scalar kv.1 in
      if String.eqb key "base" then parseBase kv.2 c
      else if String.eqb key "debug" then parseDebug kv.2 c
      else if String.eqb key "kafka" then parseKafka kv.2 c
      else if String.eqb key "mapping" then parseMapping kv.2 c
      else Good c
  | _ => Good c
  end.

Fixpoint parse_sections (kvs : list (node * node)) c : result (config regex) :=
  match kvs with [] => Good c | kv :: kvs => c ← parse_section kv c; parse_sections kvs c end.

(** [LoadFile] is [None] where it throws [BadFile] or [ParserException].  The
    handlers throw the text of an exception that is destroyed as they end. *)
Definition load (root : option node) c : result (config regex) :=
  match root with
  | None => Exn ExDangling
  | Some root =>
      match y_type root with
      | YMap => match parse_sections (y_items root) c with
                | Exn ExInvalidNode => Exn ExDangling
                | r => r
                end
      | _ => Good c
      end
  end.

(** the groups as the topic selector has them *)
Definition group_config c : GroupConfig regex :=
  {| topic_names_map := cf_topic_names c; match_router_group_by_name := cf_router_by_name c;
     match_router_group_by_ip := cf_router_by_ip c; match_peer_group_by_name := cf_peer_by_name c;
     match_peer_group_by_ip := cf_peer_by_ip c; match_peer_group_by_asn := cf_peer_by_asn c |}.
End parse.

(** ** What a configuration satisfies *)

(** the bounds of the numbers *)
Definition int_low (m : int_member) : Z :=
  match m with
  | bmp_port => 25
  | bmp_buffer_size => 2 * 1024 * 1024
  | heartbeat_interval => 60
  | tx_max_bytes | rx_max_bytes => 1000
  | socket_timeout => 10
  | msg_send_max_retry => 0
  | initial_router_time => 5
  | _ => 1
  end.
Definition int_high (m : int_member) : Z :=
  match m with
  | bmp_port => 65535
  | bmp_buffer_size => 384 * 1024 * 1024
  | heartbeat_interval => 86400
  | tx_max_bytes | rx_max_bytes => 1000000000
  | session_timeout => 3600000
  | socket_timeout | retry_backoff_ms => 300000
  | q_buf_max_msgs | msg_send_max_retry => 10000000
  | q_buf_max_kbytes => 2097151
  | q_buf_max_ms => 900000
  | max_concurrent_routers => 2 ^ 31 - 1
  | initial_router_time => 1800
  end.

Definition key_lt {A} (x y : string * A) : Prop := String.compare x.1 y.1 = Lt.
Definition sorted_map {A} (l : list (string * A)) : Prop := StronglySorted key_lt l.

(** What the reading of a prefix makes sure of: a bit count in the range of the family and
    four words.  It is not that the text was a prefix: the result of [inet_pton] is not
    looked at, so that the words of an invalid address are zero, and the count is taken
    modulo 256 before it is compared. *)
Definition entry_ok (e : match_type_ip) : Prop :=
  1 ≤ mi_bits e ≤ (if mi_isIPv4 e then 32 else 128) ∧ length (mi_prefix e) = 4%nat.
Definition ip_map_ok (l : list (string * list match_type_ip)) : Prop :=
  sorted_map l ∧ Forall (λ g, Forall entry_ok g.2) l.

Record config_ok {regex} (c : config regex) : Prop := {
  ok_admin : length (cf_admin_id c) = 64%nat;
  ok_ints m : int_low m ≤ cf_int c m ≤ int_high m;
  ok_compression : cf_string c compression ∈ ["none"; "snappy"; "gzip"; "lz4"];
  ok_listen : cf_bool c svr_ipv4 || cf_bool c svr_ipv6 = true;
  ok_names : dom (cf_topic_names c) = dom default_names;
  ok_vars : sorted_map (cf_topic_vars c) ∧ Forall (λ v, v.1 ≠ "router_group" ∧ v.1 ≠ "peer_group") (cf_topic_vars c);
  ok_router_name : sorted_map (cf_router_by_name c);
  ok_router_ip : ip_map_ok (cf_router_by_ip c);
  ok_peer_name : sorted_map (cf_peer_by_name c);
  ok_peer_ip : ip_map_ok (cf_peer_by_ip c);
  ok_peer_asn : sorted_map (cf_peer_by_asn c) }.

(** *** Maps *)

Lemma map_at_Forall {A} (P : string * A → Prop) k d f l :
  P (k, f d) → (∀ v, P (k, v) → P (k, f v)) → Forall P l → Forall P (map_at k d f l).
Proof.
  intros Hd Hf. induction 1 as [|[k' v] l Hv Hl IH]; cbn [map_at]; [by constructor|].
  destruct (String.compare k k') eqn:E; [|by repeat constructor|by constructor].
  apply String.compare_eq_iff in E as ->. constructor; auto.
Qed.

Lemma compare_refl s : String.compare s s = Eq.
Proof. induction s as [|c s IH]; [done|]. cbn. unfold Ascii.compare. by rewrite N.compare_refl. Qed.
Lemma compare_lt a b : String.compare a b = Lt ↔ strings.String.le a b ∧ a ≠ b.
Proof.
  unfold strings.String.le, String.leb. destruct (String.compare a b) eqn:E; cbn; [|split; [|done]|naive_solver].
  - apply String.compare_eq_iff in E as ->. naive_solver.
  - intros _. split; [done|]. intros ->. by rewrite compare_refl in E.
Qed.
Lemma compare_trans a b c : String.compare a b = Lt → String.compare b c = Lt → String.compare a c = Lt.
Proof.
  rewrite !compare_lt. intros [H1 N1] [H2 N2]. split; [by etrans|]. intros ->. apply N1. by apply (anti_symm strings.String.le).
Qed.

Lemma map_at_sorted {A} k d (f : A → A) l : sorted_map l → sorted_map (map_at k d f l).
Proof.
  unfold sorted_map. induction 1 as [|[k' v] l Hl IH Hv]; cbn [map_at]; [by repeat constructor|].
  destruct (String.compare k k') eqn:E.
  - constructor; [done|]. apply (Forall_impl _ _ _ Hv). done.
  - constructor; [by constructor|]. constructor; [done|]. apply (Forall_impl _ _ _ Hv).
    intros [k2 v2] H2. unfold key_lt in *. cbn in *. by eapply compare_trans.
  - constructor; [done|]. apply map_at_Forall; [|done..].
    unfold key_lt. cbn. rewrite String.compare_antisym, E. done.
Qed.

Lemma map_push_sorted {A} k (v : A) l : sorted_map l → sorted_map (map_push k v l).
Proof. apply map_at_sorted. Qed.
Lemma map_push_entries k e l : entry_ok e → ip_map_ok l → ip_map_ok (map_push k e l).
Proof.
  intros He [Hs Hl]. split; [by apply map_push_sorted|]. apply map_at_Forall; [by apply Forall_singleton| |done].
  cbn. intros v Hv. apply Forall_app. split; [done|by apply Forall_singleton].
Qed.

(** *** Results *)

(** the value of a computation that does not throw *)
Definition keeps {A} (P : A → Prop) (r : result A) : Prop := match r with Good a => P a | Exn _ => True end.

Lemma keeps_bind {A B} (P : A → Prop) (Q : B → Prop) (r : result A) (f : A → result B) :
  keeps P r → (∀ a, P a → keeps Q (f a)) → keeps Q (r ≫= f).
Proof. destruct r; cbn; auto. Qed.
Lemma keeps_any {A} (r : result A) : keeps (λ _, True) r.
Proof. by destruct r. Qed.

Section kept.
Context {node regex : Type} {Y : Yaml node} {YL : YamlLaws node}.
Implicit Type (c : config regex) (n : node).

Lemma keeps_child (P : config regex → Prop) n key k c : P c → (∀ m c, P c → keeps P (k m c)) → keeps P (child n key k c).
Proof. intros Hc Hk. unfold child. destruct (y_get n key) as [[m|]|]; cbn; auto. Qed.
Lemma keeps_child_of (P : config regex → Prop) t n key k c :
  P c → (∀ m c, P c → keeps P (k m c)) → keeps P (child_of t n key k c).
Proof. intros Hc Hk. apply keeps_child; [done|]. intros m c0 H0. destruct t, (y_type m); cbn; auto. Qed.
Lemma keeps_try {A} (P : config regex → Prop) (conv : node → option A) k n c :
  P c → (∀ v c, conv n = Some v → P c → keeps P (k v c)) → keeps P (try_as conv k n c).
Proof. intros Hc Hk. unfold try_as. destruct (conv n) eqn:E; cbn; auto. Qed.
Lemma keeps_each {A} (P : A → Prop) t f (ns : list node) (a : A) :
  P a → (∀ n a, P a → keeps P (f n a)) → keeps P (each t f ns a).
Proof.
  intros Ha Hf. revert a Ha. induction ns as [|n ns IH]; intros a Ha; [done|]. cbn [each].
  apply (keeps_bind P); [|auto]. destruct t, (y_type n); cbn; auto.
Qed.
Lemma keeps_group_list {A} (P : A → Prop) (cur : node) key msg f (a : A) :
  P a → (∀ ns, keeps P (f ns a)) → keeps P (group_list cur key msg f a).
Proof. intros Ha Hf. unfold group_list. destruct (y_get cur key) as [[m|]|]; [destruct (y_type m)|..]; cbn; auto. Qed.

(** *** The operations on the members *)

Lemma set_int_ok m v c : int_low m ≤ v ≤ int_high m → config_ok c → config_ok (set_int m v c).
Proof.
  intros Hv []. constructor; try done. intros m'. cbn. destruct (decide (m' = m)) as [->|]; [done|auto].
Qed.
Lemma set_bool_ok m v c :
  (m = svr_ipv4 → v || cf_bool c svr_ipv6 = true) → (m = svr_ipv6 → cf_bool c svr_ipv4 || v = true) →
  config_ok c → config_ok (set_bool m v c).
Proof. intros H4 H6 []. constructor; try done. cbn. repeat case_decide; subst; naive_solver. Qed.
Lemma set_string_ok m v c : (m = compression → v ∈ ["none"; "snappy"; "gzip"; "lz4"]) → config_ok c → config_ok (set_string m v c).
Proof. intros Hv []. constructor; try done. cbn. case_decide; [auto|done]. Qed.

Lemma ranged_ok m lo hi unit msg v c :
  int_low m = lo * unit → int_high m = hi * unit → 0 < unit → config_ok c → keeps config_ok (ranged m lo hi unit msg v c).
Proof.
  intros Hl Hh Hu Hc. unfold ranged. destruct ((v <? lo) || (hi <? v)) eqn:E; [done|].
  apply orb_false_iff in E as [E1 E2]. cbn. apply set_int_ok; [nia|done].
Qed.

(** *** Sections *)

Context (regex_compile : string → option regex) (gethostname : list Z → list Z) (subscript_first : bool).
Context (host_length : ∀ l, length (gethostname l) = length l).

Lemma length_strncpy_fill (k : nat) s : length (strncpy_fill k s) = k.
Proof. unfold strncpy_fill. rewrite length_app, length_zeros, length_take. lia. Qed.

Lemma parse_admin_id_ok v c : config_ok c → keeps config_ok (parse_admin_id gethostname v c).
Proof.
  intros []. constructor; try done. cbn. destruct (String.eqb v "hostname"); [by rewrite host_length|apply length_strncpy_fill].
Qed.
Lemma parse_listen_mode_ok v c : config_ok c → keeps config_ok (parse_listen_mode v c).
Proof.
  intros Hc. unfold parse_listen_mode. cbn.
  repeat case_match; repeat (apply set_bool_ok; [try done..|]); try done; cbn; intros _; by rewrite ?orb_true_r.
Qed.
Lemma parse_max_concurrent_ok n v c : y_as_int n = Some v → config_ok c → keeps config_ok (parse_max_concurrent v c).
Proof.
  intros Hn Hc. apply y_int_range in Hn. unfold parse_max_concurrent. unfold MAX_THREADS.
  repeat case_match; try done; apply set_int_ok; try done; cbn; lia.
Qed.

Lemma parse_tx_max_ok v c : config_ok c → keeps config_ok (parse_tx_max v c).
Proof.
  intros Hc. apply (keeps_bind config_ok); [by apply ranged_ok|]. intros c' Hc'. cbn.
  destruct (v =? 200000000); [by apply set_int_ok|done].
Qed.
Lemma parse_compression_ok v c : config_ok c → keeps config_ok (parse_compression v c).
Proof.
  intros Hc. unfold parse_compression. destruct (existsb _ _) eqn:E; [|done]. apply set_string_ok; [|done]. intros _.
  apply existsb_exists in E as (s & Hs & ->%String.eqb_eq). by apply list_elem_of_In.
Qed.

Lemma parse_name_dom kv names : dom (parse_name kv names : gmap string string) = dom names.
Proof.
  unfold parse_name. destruct (y_as_string kv.1) as [k|]; [|done].
  destruct (names !! k) eqn:E; [|done]. assert (k ∈ dom names) by (apply elem_of_dom; eauto).
  repeat case_match; try done; set_solver.
Qed.
Lemma fold_dom {A} (f : gmap string string → A → gmap string string) l names :
  (∀ ns a, dom (f ns a) = dom ns) → dom (fold_left f l names) = dom names.
Proof. intros Hf. revert names. induction l as [|a l IH]; intros names; [done|]. cbn. by rewrite IH, Hf. Qed.

Definition vars_ok (vars : list (string * string)) : Prop :=
  sorted_map vars ∧ Forall (λ v, v.1 ≠ "router_group" ∧ v.1 ≠ "peer_group") vars.
Lemma parse_variable_ok kv vars : vars_ok vars → vars_ok (parse_variable subscript_first kv vars).
Proof.
  intros [Hs Hv]. unfold parse_variable. destruct (y_as_string kv.1) as [k|]; [|done].
  destruct (_ || _) eqn:E; [done|]. apply orb_false_iff in E as [E1%String.eqb_neq E2%String.eqb_neq].
  repeat case_match; try done; (split; [by apply map_at_sorted|by apply map_at_Forall]).
Qed.
Lemma parseTopics_ok n c : config_ok c → keeps config_ok (parseTopics subscript_first n c).
Proof.
  intros Hc. unfold parseTopics. apply (keeps_bind config_ok); [|intros c1 H1; apply (keeps_bind config_ok)].
  - apply keeps_child_of; [done|]. intros m c0 []. constructor; try done. cbn.
    change (vars_ok (fold_left (λ vs kv, parse_variable subscript_first kv vs) (y_items m) (cf_topic_vars c0))).
    change (vars_ok (cf_topic_vars c0)) in ok_vars0. revert ok_vars0. generalize (cf_topic_vars c0).
    induction (y_items m) as [|kv kvs IH]; intros vars Hv; [done|]. cbn. by apply IH, parse_variable_ok.
  - apply keeps_child_of; [done|]. intros m c0 []. constructor; try done. cbn.
    rewrite fold_dom; [done|]. intros. apply parse_name_dom.
  - intros c2 []. constructor; try done. cbn. rewrite fold_dom; [done|]. intros. apply dom_fmap_L.
Qed.

Lemma prefix_entry_ok s : keeps entry_ok (prefix_entry s).
Proof.
  unfold prefix_entry. destruct (tokens _ _) as [|? [|b ?]]; try done.
  destruct ((u8 (atoi b) <? 1) || _) eqn:E; [done|]. apply orb_false_iff in E as [E1 E2]. split; [cbn; lia|done].
Qed.
Lemma parsePrefixList_ok (ns : list node) name map : ip_map_ok map → keeps ip_map_ok (parsePrefixList ns name map).
Proof.
  intros Hm. apply keeps_each; [done|]. intros n l Hl. apply (keeps_bind (λ _, True)); [apply keeps_any|]. intros s _.
  apply (keeps_bind entry_ok); [apply prefix_entry_ok|]. intros e He. by apply map_push_entries.
Qed.
Lemma parseRegexpList_ok (ns : list node) name map :
  sorted_map map → keeps sorted_map (parseRegexpList regex_compile ns name map).
Proof.
  intros Hm. apply keeps_each; [done|]. intros n l Hl. apply (keeps_bind (λ _, True)); [apply keeps_any|]. intros s _.
  destruct (regex_compile s); [|done]. by apply map_push_sorted.
Qed.
Lemma parse_asn_ok name (n : node) l : sorted_map l → keeps sorted_map (parse_asn name n l).
Proof. intros Hl. unfold parse_asn. destruct (y_as_uint32 n); [|done]. by apply map_push_sorted. Qed.

Lemma parse_router_group_ok (cur : node) c : config_ok c → keeps config_ok (parse_router_group regex_compile cur c).
Proof.
  intros []. unfold parse_router_group. apply (keeps_bind (λ _, True)); [apply keeps_any|]. intros name _.
  apply (keeps_bind sorted_map); [apply keeps_group_list; [done|]; intros; by apply parseRegexpList_ok|]. intros l1 H1.
  apply (keeps_bind ip_map_ok); [apply keeps_group_list; [done|]; intros; by apply parsePrefixList_ok|]. intros l2 H2.
  by constructor.
Qed.
Lemma parse_peer_group_ok (cur : node) c : config_ok c → keeps config_ok (parse_peer_group regex_compile cur c).
Proof.
  intros []. unfold parse_peer_group. apply (keeps_bind (λ _, True)); [apply keeps_any|]. intros name _.
  apply (keeps_bind sorted_map); [apply keeps_group_list; [done|]; intros; by apply parseRegexpList_ok|]. intros l1 H1.
  apply (keeps_bind ip_map_ok); [apply keeps_group_list; [done|]; intros; by apply parsePrefixList_ok|]. intros l2 H2.
  apply (keeps_bind sorted_map); [|intros l3 H3; by constructor].
  apply keeps_group_list; [done|]. intros ns. apply keeps_each; [done|]. intros. by apply parse_asn_ok.
Qed.

Ltac kept_step :=
  match goal with
  | |- keeps config_ok (as_string _ ≫= _) => apply (keeps_bind (λ _, True)); [apply keeps_any|intros ? _]
  | |- keeps config_ok (_ ≫= _) => apply (keeps_bind config_ok); [|intros ? ?]
  | |- keeps config_ok (kafka_int _ _ _ _) => unfold kafka_int
  | |- keeps config_ok (child_of _ _ _ _ _) => apply keeps_child_of; [done|intros ? ? ?]
  | |- keeps config_ok (child _ _ _ _) => apply keeps_child; [done|intros ? ? ?]
  | |- keeps config_ok (try_as _ _ _ _) => apply keeps_try; [done|intros ? ? ? ?]
  | |- keeps config_ok (each _ _ _ _) => apply keeps_each; [done|intros ? ? ?]
  | |- keeps config_ok (ranged _ _ _ _ _ _ _) => apply ranged_ok; [done..|lia|done]
  | |- keeps config_ok (Good (set_bool _ _ _)) => by apply set_bool_ok
  | |- keeps config_ok (Good (set_string _ _ _)) => by apply set_string_ok
  end.
Ltac kept :=
  repeat kept_step; eauto using parse_admin_id_ok, parse_listen_mode_ok, parse_max_concurrent_ok, parse_tx_max_ok,
    parse_compression_ok, parseTopics_ok, parse_router_group_ok, parse_peer_group_ok.

Lemma parseBase_ok n c : config_ok c → keeps config_ok (parseBase gethostname n c).
Proof. intros Hc. unfold parseBase. kept. Qed.
Lemma parseDebug_ok n c : config_ok c → keeps config_ok (parseDebug n c).
Proof. intros Hc. unfold parseDebug, debug_flag. repeat first [kept_step | done | case_match]. Qed.
Lemma parse_brokers_ok n c : config_ok c → keeps config_ok (parse_brokers n c).
Proof. intros Hc. by apply set_string_ok. Qed.
Lemma parseKafka_ok n c : config_ok c → keeps config_ok (parseKafka subscript_first n c).
Proof. intros Hc. unfold parseKafka. kept. by apply parse_brokers_ok. Qed.
Lemma parseMapping_ok n c : config_ok c → keeps config_ok (parseMapping regex_compile n c).
Proof. intros Hc. unfold parseMapping. kept. Qed.

Lemma parse_sections_ok kvs c :
  config_ok c → keeps config_ok (parse_sections regex_compile gethostname subscript_first kvs c).
Proof.
  revert c. induction kvs as [|kv kvs IH]; intros c Hc; [done|]. cbn [parse_sections].
  apply (keeps_bind config_ok); [|auto]. unfold parse_section.
  repeat case_match; try done; eauto using parseBase_ok, parseDebug_ok, parseKafka_ok, parseMapping_ok.
Qed.
Lemma load_ok root c : config_ok c → keeps config_ok (load regex_compile gethostname subscript_first root c).
Proof.
  intros Hc. unfold load. destruct root as [root|]; [|done]. destruct (y_type root); try done.
  pose proof (parse_sections_ok (y_items root) c Hc) as Hk. by destruct (parse_sections _ _ _ _ _) as [c0|[]].
Qed.
End kept.

Lemma new_config_ok regex : config_ok (new_config regex).
Proof.
  constructor; try done; try (by repeat constructor).
  intros []; cbn; lia.
Qed.

(** Every number of a loaded configuration is in its range, whatever the
    document says, and so are the compression, the families that are listened
    on, the topic names that exist, the reserved variables, the order of the
    group maps and the lengths of their prefixes: the initial configuration has
    these properties, and loading a document keeps them. *)
Theorem loaded_in_range {node regex : Type} {Y : Yaml node} {YL : YamlLaws node} (regex_compile : string → option regex)
    (gethostname : list Z → list Z) (subscript_first : bool) (root : option node) (c c' : config regex) :
  (∀ l, length (gethostname l) = length l) →
  config_ok (new_config regex)
  ∧ (config_ok c → load regex_compile gethostname subscript_first root c = Good c' → config_ok c').
Proof.
  intros Hh. split; [apply new_config_ok|]. intros Hn E.
  pose proof (load_ok regex_compile gethostname subscript_first Hh root c Hn) as Hk. by rewrite E in Hk.
Qed.

(** ** Prefixes *)

Definition no_nul_char (c : Ascii.ascii) : bool := negb (byte_of_ascii c =? 0).
Lemma c_str_id s : str_all no_nul_char s = true → c_str s = s.
Proof.
  unfold c_str, bytes_of_string. induction s as [|c s IH]; [done|]. cbn. intros [Hc Hs]%andb_prop.
  unfold no_nul_char in Hc. apply negb_true_iff in Hc. rewrite Hc. rewrite IH by done.
  f_equal. unfold ascii_of_byte, byte_of_ascii. by rewrite N2Z.id, Ascii.ascii_N_embedding.
Qed.

Definition no_slash (c : Ascii.ascii) : bool := negb (Ascii.eqb c "/").
Lemma tokens_app s t cur :
  str_all no_slash s = true → cur +:+ s ≠ "" → tokens (s +:+ String "/" t) cur = (cur +:+ s) :: tokens t "".
Proof.
  revert cur. induction s as [|c s IH]; intros cur; cbn [str_all].
  - intros _ Hn. rewrite string_app_nil_r in *. cbn. by destruct cur.
  - intros [Hc Hs]%andb_prop Hn. rewrite append_cons. cbn [tokens]. unfold no_slash in Hc. apply negb_true_iff in Hc.
    rewrite Hc, IH; rewrite ?string_app_assoc; done.
Qed.
Lemma tokens_last s cur : str_all no_slash s = true → cur +:+ s ≠ "" → tokens s cur = [cur +:+ s].
Proof.
  revert cur. induction s as [|c s IH]; intros cur; cbn [str_all].
  - intros _ Hn. rewrite string_app_nil_r in *. cbn. by destruct cur.
  - intros [Hc Hs]%andb_prop Hn. cbn [tokens]. unfold no_slash in Hc. apply negb_true_iff in Hc.
    rewrite Hc, IH; rewrite ?string_app_assoc; done.
Qed.

(** the text of a prefix, the address [addr] and a length *)
Definition prefix_text (addr : list Z) (bits : Z) : string := inet_ntop4 addr +:+ "/" +:+ dec bits.

Definition addr_char (c : Ascii.ascii) : bool := is_digit c || Ascii.eqb c ".".
Lemma ntop4_chars addr : bytes_ok addr → str_all addr_char (inet_ntop4 addr) = true.
Proof.
  intros Hb. destruct addr as [|a [|b [|c [|d bs]]]]; try done. unfold inet_ntop4.
  repeat (apply Forall_cons in Hb as [? Hb]). unfold is_byte in *.
  rewrite !str_all_app. repeat (apply andb_true_intro; split); try done;
    (apply (str_all_impl is_digit); [unfold addr_char; intros ? ->; done|apply dec_digits; lia]).
Qed.
Lemma addr_char_ok c : addr_char c = true → no_nul_char c = true ∧ no_slash c = true.
Proof. destruct c as [[] [] [] [] [] [] [] []]; done. Qed.

Lemma small_bits bits : 1 ≤ bits ≤ 32 → atoi (dec bits) = bits.
Proof.
  intros Hb. assert (forallb (λ b, atoi (dec b) =? b) (seqZ 1 32) = true) as H by (vm_compute; reflexivity).
  rewrite forallb_forall in H. apply Z.eqb_eq, H, list_elem_of_In, elem_of_seqZ. lia.
Qed.

Lemma contains_dot s t : contains "." (s +:+ String "." t) = true.
Proof. induction s as [|c s IH]; [by destruct t|]. rewrite append_cons. cbn [contains]. by rewrite IH, orb_true_r. Qed.

Lemma ntop4_dot addr rest : length addr = 4%nat → contains "." (inet_ntop4 addr +:+ rest) = true.
Proof.
  intros Hl. destruct addr as [|a [|b [|c [|d [|]]]]]; try done. unfold inet_ntop4.
  rewrite !string_app_assoc. apply contains_dot.
Qed.

Lemma prefix_entry_text addr bits :
  bytes_ok addr → length addr = 4%nat → 1 ≤ bits ≤ 32 →
  prefix_entry (prefix_text addr bits) = Good {| mi_isIPv4 := true; mi_prefix := words_of addr; mi_bits := bits |}.
Proof.
  intros Hb Hl Hbits. pose proof (ntop4_chars addr Hb) as Hc. pose proof (dec_digits bits ltac:(lia)) as Hd.
  assert (str_all addr_char (dec bits) = true) as Hd'.
  { apply (str_all_impl is_digit); [unfold addr_char; intros ? ->; done|done]. }
  assert (contains "." (prefix_text addr bits) = true) as Hdot by (by apply ntop4_dot).
  unfold prefix_entry. rewrite Hdot. unfold prefix_text in *. rewrite c_str_id.
  - change ("/" +:+ dec bits) with (String "/" (dec bits)). rewrite tokens_app, tokens_last.
    + rewrite !append_nil_l, small_bits, u8_small by lia. rewrite inet_pton_ntop4 by done. cbn zeta iota.
      rewrite (proj2 (orb_false_iff _ _)) by lia. done.
    + eapply str_all_impl, Hd'. intros c' ?%addr_char_ok. naive_solver.
    + rewrite append_nil_l. by apply dec_nonempty; lia.
    + eapply str_all_impl, Hc. intros c' ?%addr_char_ok. naive_solver.
    + rewrite append_nil_l. pose proof (ntop4_dot addr "" Hl) as Hne. intros E. by rewrite E in Hne.
  - rewrite !str_all_app. repeat (apply andb_true_intro; split); try done.
    + eapply str_all_impl, Hc. intros c' ?%addr_char_ok. naive_solver.
    + eapply str_all_impl, Hd'. intros c' ?%addr_char_ok. naive_solver.
Qed.

Lemma words_of_pad p : (length p ≤ 4)%nat → words_of (p ++ zeros (4 - length p)) = words_of p.
Proof. intros H. destruct p as [|? [|? [|? [|? [|]]]]]; cbn in H; try done; lia. Qed.

(** the text of a prefix of whole octets *)
Definition octets_text (p : list Z) : string := prefix_text (p ++ zeros (4 - length p)) (8 * Z.of_nat (length p)).

Lemma octets_entry p : v4_prefix p → prefix_entry (octets_text p) = Good (v4_entry p).
Proof.
  intros [Hb Hl]. unfold octets_text. rewrite prefix_entry_text.
  - by rewrite words_of_pad by lia.
  - apply Forall_app. split; [done|]. apply Forall_replicate. unfold is_byte. lia.
  - rewrite length_app, length_zeros. lia.
  - lia.
Qed.

Section grouped.
Context {node regex : Type} {Y : Yaml node} (regex_compile : string → option regex).
Implicit Type (c : config regex) (n : node).

(** the entry of a group with a name and a list of prefixes *)
Record group_node n (g : string * list (list Z)) : Prop := {
  gn_map : y_type n = YMap;
  gn_name : ∃ m, y_get n "name" = Some (Some m) ∧ y_as_string m = Some g.1;
  gn_regexp : y_get n "regexp_hostname" = Some None;
  gn_prefix : ∃ m, y_get n "prefix_range" = Some (Some m) ∧ y_type m = YSequence
    ∧ Forall2 (λ e p, y_type e = YScalar ∧ y_as_string e = Some (octets_text p)) (y_seq m) g.2 }.

(** what a list of prefixes adds to a map *)
Definition push_all {A} (name : string) (l : list (string * list A)) (es : list A) : list (string * list A) :=
  fold_left (λ l e, map_push name e l) es l.

Lemma parsePrefixList_texts name ns ps l :
  Forall v4_prefix ps → Forall2 (λ e p, y_type e = YScalar ∧ y_as_string e = Some (octets_text p)) ns ps →
  parsePrefixList ns name l = Good (push_all name l (v4_entry <$> ps)).
Proof.
  intros Hp Hn. revert l Hp. unfold parsePrefixList. induction Hn as [|n p ns ps [Ht Hs] Hn IH]; intros l Hp; [done|].
  apply Forall_cons in Hp as [Hp Hps]. cbn [each fmap list_fmap push_all fold_left]. rewrite Ht.
  assert (parse_prefix name n l = Good (map_push name (v4_entry p) l)) as ->; [|by apply IH].
  unfold parse_prefix, as_string. by rewrite Hs, bind_Good, octets_entry, bind_Good by done.
Qed.

(** a map that has only smaller keys *)
Lemma push_last {A} name (l : list (string * list A)) vs e :
  Forall (λ x, String.compare x.1 name = Lt) l → map_push name e (l ++ [(name, vs)]) = l ++ [(name, vs ++ [e])].
Proof.
  induction 1 as [|[k v] l Hk Hl IH]; unfold map_push in *; cbn.
  - by rewrite compare_refl.
  - rewrite String.compare_antisym. cbn in Hk. rewrite Hk. cbn. by rewrite IH.
Qed.
Lemma push_new {A} name (l : list (string * list A)) e :
  Forall (λ x, String.compare x.1 name = Lt) l → map_push name e l = l ++ [(name, [e])].
Proof.
  induction 1 as [|[k v] l Hk Hl IH]; unfold map_push in *; cbn; [done|].
  rewrite String.compare_antisym. cbn in Hk. rewrite Hk. cbn. by rewrite IH.
Qed.
Lemma push_all_new {A} name (l : list (string * list A)) es :
  es ≠ [] → Forall (λ x, String.compare x.1 name = Lt) l → push_all name l es = l ++ [(name, es)].
Proof.
  intros Hn Hl. destruct es as [|e es]; [done|]. unfold push_all. cbn [fold_left]. rewrite push_new by done.
  change (l ++ [(name, e :: es)]) with (l ++ [(name, [e] ++ es)]). generalize [e]. revert Hl. clear.
  induction es as [|e es IH]; intros Hl vs; [by rewrite app_nil_r|]. cbn [fold_left].
  rewrite push_last, IH by done. by rewrite <-app_assoc.
Qed.

Lemma parse_router_group_node n g c :
  group_node n g → Forall v4_prefix g.2 → g.2 ≠ [] → Forall (λ x, String.compare x.1 g.1 = Lt) (cf_router_by_ip c) →
  parse_router_group regex_compile n c
  = Good (set_router_groups (cf_router_by_name c) (cf_router_by_ip c ++ [(g.1, v4_entry <$> g.2)]) c).
Proof.
  intros [Ht (m & Em & Es) Hr (q & Eq & Tq & Sq)] Hp Hne Hl.
  unfold parse_router_group, group_name_of, group_list, as_string. rewrite Em, Es, Hr, Eq, Tq, !bind_Good.
  rewrite (parsePrefixList_texts g.1 _ g.2), push_all_new by (try done; by destruct g.2). done.
Qed.

Lemma parse_router_groups ns gs c :
  Forall2 group_node ns gs → Forall (λ g, Forall v4_prefix g.2 ∧ g.2 ≠ []) gs → sorted_map gs →
  (∀ x g, x ∈ cf_router_by_ip c → g ∈ gs → String.compare x.1 g.1 = Lt) →
  ∃ c', each YMap (parse_router_group regex_compile) ns c = Good c'
    ∧ cf_router_by_ip c' = cf_router_by_ip c ++ v4_groups gs ∧ cf_router_by_name c' = cf_router_by_name c.
Proof.
  intros Hn. revert c. induction Hn as [|n g ns gs Hg Hn IH]; intros c Hp Hs Hl; cbn [each fmap list_fmap].
  { exists c. by rewrite app_nil_r. }
  apply Forall_cons in Hp as [[Hp Hne] Hps]. apply StronglySorted_inv in Hs as [Hs Hall].
  rewrite (gn_map _ _ Hg), (parse_router_group_node n g c), bind_Good; [|done..|].
  - destruct (IH (set_router_groups (cf_router_by_name c) (cf_router_by_ip c ++ [(g.1, v4_entry <$> g.2)]) c))
      as (c' & -> & Hi & Hname); [done|done| |].
    + cbn. intros x g' [Hx| ->%list_elem_of_singleton]%elem_of_app Hg'; [apply Hl; set_solver|].
      rewrite Forall_forall in Hall. by apply Hall.
    + exists c'. split; [done|]. split; [|done]. rewrite Hi. cbn. by rewrite <-app_assoc.
  - apply Forall_forall. intros x Hx. apply Hl; set_solver.
Qed.
End grouped.

(** C26: from the document to the group of a router.  When the router groups of a
    document have the IPv4 prefixes of [gs], whole octets in the order of decreasing
    length over all the groups, and the groups stand in the document in the order of
    their names (which is the order of the map they are kept in), an IPv4 router without
    a host name is in the first group that has a prefix of its address, and in none when
    there is no such group. *)
Theorem configured_router_group {node regex : Type} {Y : Yaml node} (regex_compile : string → option regex)
    (regex_search : string → regex → bool) (ns : list node) (gs : list (string * list (list Z))) (c : config regex) :
  Forall2 group_node ns gs → Forall (λ g, Forall v4_prefix g.2 ∧ g.2 ≠ []) gs → sorted_map gs →
  StronglySorted (λ p q, length q ≤ length p)%nat (concat (snd <$> gs)) → cf_router_by_ip c = [] →
  ∃ c', each YMap (parse_router_group regex_compile) ns c = Good c'
    ∧ ∀ addr, bytes_ok addr → length addr = 4%nat →
        lookupRouterGroup regex_search (group_config c') "" (inet_ntop4 addr)
        = Ok (default "" (first_group (λ p, bool_decide (p `prefix_of` addr)) gs)).
Proof.
  intros Hn Hp Hs Ho Hc. destruct (parse_router_groups regex_compile ns gs c) as (c' & Hc' & Hi & _); [done..| |].
  { rewrite Hc. set_solver. }
  exists c'. split; [done|]. intros addr Ha Hl. unfold lookupRouterGroup, lookup_name. cbn [is_empty].
  unfold group_config. cbn [match_router_group_by_ip]. rewrite Hi, Hc. cbn [app].
  rewrite group_by_prefix; [done| |done..].
  clear -Hp. induction Hp as [|g gs [Hg _] Hp IH]; [constructor|]. cbn. by apply Forall_app.
Qed.

(** A prefix with a bit set outside of its length, counted in the order of the
    word in memory, is accepted and is in no group: neither [10.1.0.0/8], whose
    host bits nobody clears, nor [172.16.0.0/12], whose last bits are compared
    with the wrong half of the octet. *)
Theorem stray_bits_never_match (g : string) (net : list Z) (bits : Z) :
  bytes_ok net → length net = 4%nat → 1 ≤ bits ≤ 32 → 2 ^ bits ≤ le_val net →
  ∃ e, prefix_entry (prefix_text net bits) = Good e
    ∧ ∀ addr, bytes_ok addr → length addr = 4%nat → lookup_ip [(g, [e])] (inet_ntop4 addr) = Ok None.
Proof.
  intros Hn Hl Hb Hv. eexists. split; [by apply prefix_entry_text|]. intros addr Ha La.
  unfold lookup_ip. rewrite ntop4_no_colon, inet_pton_ntop4 by done. cbn [negb default from_option id].
  pose proof (le_val_bound addr Ha) as Hbound.
  unfold ip_groups, ip_entries, ip_match. cbn [mi_isIPv4 mi_bits mi_prefix Bool.eqb].
  rewrite u8_small, (words_of_first addr), shift_out_mod, !bind_Ok_l by lia. rewrite words_of_first by lia.
  replace (32 - (32 - bits)) with bits by lia. pose proof (Z.mod_pos_bound (le_val addr) (2 ^ bits) ltac:(lia)).
  rewrite (proj2 (Z.eqb_neq _ _)) by lia. done.
Qed.

(** ** Documents *)

(** a document as the nodes it has *)
#[warnings="-register-all"]
Inductive ydoc : Type := DNull | DScalar (s : string) | DSeq (l : list ydoc) | DMap (l : list (string * ydoc)).

Definition doc_scalar (d : ydoc) : option string := match d with DScalar s => Some s | _ => None end.
Definition doc_number (lo hi : Z) (d : ydoc) : option Z :=
  s ← doc_scalar d; if str_all is_digit s && (lo <=? atoi s) && (atoi s <=? hi) then Some (atoi s) else None.
#[global] Instance doc_yaml : Yaml ydoc := {
  y_type d := match d with DNull => YNull | DScalar _ => YScalar | DSeq _ => YSequence | DMap _ => YMap end;
  y_get d k := match d with
               | DScalar _ => None
               | DMap l => Some (snd <$> find (λ kv, String.eqb kv.1 k) l)
               | _ => Some None
               end;
  y_items d := match d with DMap l => (λ kv, (DScalar kv.1, kv.2)) <$> l | _ => [] end;
  y_seq d := match d with DSeq l => l | _ => [] end;
  y_scalar d := default "" (doc_scalar d);
  y_as_string := doc_scalar;
  y_as_int := doc_number 0 (2 ^ 31 - 1);
  y_as_uint16 := doc_number 0 65535;
  y_as_uint32 := doc_number 0 (2 ^ 31 - 1);
  y_as_bool d := match doc_scalar d with Some "true" => Some true | Some "false" => Some false | _ => None end }.
#[global] Instance doc_laws : YamlLaws ydoc.
Proof.
  constructor. intros n v. cbn. unfold doc_number. destruct (doc_scalar n); [|done]. cbn.
  destruct (_ && _) eqn:E; [|done]. intros [= <-]. apply andb_prop in E as [[_ E1]%andb_prop E2]. lia.
Qed.

(** expressions as texts, and a host name *)
Definition any_regex (s : string) : option string := Some s.
Definition fixed_host (l : list Z) : list Z := take (length l) (bytes_of_string "bmp1" ++ zeros (length l)).
Abbreviation load_doc d := (load any_regex fixed_host false (Some d) (new_config string)).

Definition sample : ydoc :=
  DMap [("base", DMap [("admin_id", DScalar "hostname"); ("listen_port", DScalar "1790"); ("listen_mode", DScalar "v6");
                       ("buffers", DMap [("router", DScalar "64")]);
                       ("startup", DMap [("max_concurrent_routers", DScalar "0")])]);
        ("kafka", DMap [("brokers", DSeq [DScalar "k1:9092"; DScalar ""; DScalar "k2:9092"]);
                        ("message.max.bytes", DScalar "200000000");
                        ("topics", DMap [("variables", DMap [("dc", DScalar "lab"); ("peer_group", DScalar "no")]);
                                         ("names", DMap [("peer", DScalar "{dc}.{peer_group}.peer"); ("bmp_raw", DNull);
                                                         ("nothing", DScalar "x")])])]);
        ("mapping", DMap [("groups", DMap [("router_group",
           DSeq [DMap [("name", DScalar "b"); ("prefix_range", DSeq [DScalar "10.0.0.0/8"])];
                 DMap [("name", DScalar "a"); ("prefix_range", DSeq [DScalar "10.1.0.0/16"; DScalar "fd00::/32"])]])])])].

(** the sample document as it is loaded *)
Example sample_loaded :
  match load_doc sample with
  | Good c =>
      cstr (cf_admin_id c) = "bmp1" ∧ cf_int c bmp_port = 1790 ∧ cf_int c bmp_buffer_size = 67108864
      ∧ cf_int c max_concurrent_routers = 200 ∧ cf_int c tx_max_bytes = 1000000
      ∧ cf_bool c svr_ipv4 = false ∧ cf_bool c svr_ipv6 = true ∧ cf_string c kafka_brokers = "k1:9092,k2:9092"
      ∧ cf_topic_names c !! "peer" = Some "lab.{peer_group}.peer" ∧ cf_topic_names c !! "bmp_raw" = Some ""
      ∧ cf_topic_names c !! "nothing" = None ∧ fst <$> cf_router_by_ip c = ["a"; "b"]
      ∧ lookupRouterGroup (λ _ _, false) (group_config c) "" "10.1.2.3" = Ok "a"
      ∧ lookupRouterGroup (λ _ _, false) (group_config c) "" "10.2.2.3" = Ok "b"
  | Exn _ => False
  end.
Proof. vm_compute. done. Qed.

(** the sections on which loading ends with an exception that says nothing: an AS
    number that is not one is not caught, and a group without a name or a file
    that cannot be read gives a text that is no longer there *)
Example silent_errors :
  let peers l := DMap [("mapping", DMap [("groups", DMap [("peer_group", DSeq [DMap l])])])] in
  load_doc (peers [("name", DScalar "p"); ("asn", DSeq [DScalar "AS65000"])]) = Exn ExBadConversion
  ∧ load_doc (peers [("asn", DSeq [DScalar "65000"])]) = Exn ExDangling
  ∧ load_doc (DMap [("base", DMap [("buffers", DScalar "64")])]) = Exn ExBadSubscript
  ∧ load any_regex fixed_host false (None : option ydoc) (new_config string) = Exn ExDangling.
Proof. vm_compute. done. Qed.

(** lengths are taken modulo 256 *)
Example prefix_length_wraps : prefix_entry "10.0.0.0/264" = Good (v4_entry [10]).
Proof. vm_compute. done. Qed.

Lemma loaded_in_range_witness :
  config_ok (new_config string) ∧ ∃ c, load_doc sample = Good c ∧ config_ok c.
Proof.
  assert (Hh : ∀ l, length (fixed_host l) = length l).
  { intros l. unfold fixed_host. rewrite length_take, length_app, length_zeros. lia. }
  destruct (load_doc sample) as [c|] eqn:E.
  - destruct (loaded_in_range any_regex fixed_host false (Some sample) (new_config string) c Hh) as [H1 H2].
    split; [exact H1|]. exists c. split; [reflexivity|]. apply H2; [exact H1|exact E].
  - exfalso. vm_compute in E. discriminate E.
Defined.

Lemma configured_router_group_witness :
  ∃ c' : config string,
    each YMap (parse_router_group any_regex)
      [DMap [("name", DScalar "a"); ("prefix_range", DSeq [DScalar "10.1.0.0/16"])];
       DMap [("name", DScalar "b"); ("prefix_range", DSeq [DScalar "10.0.0.0/8"])]] (new_config string) = Good c'
    ∧ lookupRouterGroup (λ _ _, false) (group_config c') "" "10.2.3.4" = Ok "b".
Proof.
  destruct (configured_router_group any_regex (λ _ _, false)
    [DMap [("name", DScalar "a"); ("prefix_range", DSeq [DScalar "10.1.0.0/16"])];
     DMap [("name", DScalar "b"); ("prefix_range", DSeq [DScalar "10.0.0.0/8"])]]
    [("a", [[10; 1]]); ("b", [[10]])] (new_config string)) as (c' & H1 & H2).
  - repeat constructor; eexists; repeat split; repeat constructor.
  - repeat constructor; discriminate.
  - repeat constructor.
  - repeat constructor.
  - reflexivity.
  - exists c'. split; [exact H1|]. refine (eq_trans (H2 [10; 2; 3; 4] _ _) _); [|reflexivity|vm_compute; reflexivity].
    repeat (constructor; [unfold is_byte; lia|]). constructor.
Defined.

Lemma stray_bits_never_match_witness :
  ∃ e, prefix_entry "172.16.0.0/12" = Good e ∧ lookup_ip [("private", [e])] "172.16.0.1" = Ok None.
Proof.
  destruct (stray_bits_never_match "private" [172; 16; 0; 0] 12) as (e & He & Ha).
  - repeat (constructor; [unfold is_byte; lia|]). constructor.
  - reflexivity.
  - lia.
  - vm_compute. discriminate.
  - exists e. split; [exact He|]. apply (Ha [172; 16; 0; 1]); [|reflexivity].
    repeat (constructor; [unfold is_byte; lia|]). constructor.
Defined.
