(* ===== verification/AddPath.v ===== *)
(** * Add-path capabilities of a peer ([bgp/AddPathDataContainer.cpp])

    The container maps an AFI/SAFI pair, through a string key, to the
    send/receive codes seen in the sent and the received OPEN message.  The
    codes of an entry start out unassigned; an entry is created by the first
    OPEN message that mentions the pair and only one of its codes is set. *)

From S2P Require Import Prelude Inet BgpCommon.

Definition BGP_CAP_ADD_PATH_RECEIVE : Z := 1.
Definition BGP_CAP_ADD_PATH_SEND : Z := 2.
Definition BGP_CAP_ADD_PATH_SEND_RECEIVE : Z := 3.

(** [sendReceiveCodesForSentAndReceivedOpenMessageStructure] *)
Record codes : Type := {
  sendReceiveCodeForSentOpenMessage : option Z;
  sendReceiveCodeForReceivedOpenMessage : option Z }.

Abbreviation AddPathMap := (gmap string codes).

Definition getAFiSafiKeyString (afi safi : Z) : string := dec afi +:+ "_" +:+ dec safi.

Definition set_code (sent_open : bool) (send_receive : Z) (c : codes) : codes :=
  if sent_open
  then {| sendReceiveCodeForSentOpenMessage := Some send_receive;
          sendReceiveCodeForReceivedOpenMessage := sendReceiveCodeForReceivedOpenMessage c |}
  else {| sendReceiveCodeForSentOpenMessage := sendReceiveCodeForSentOpenMessage c;
          sendReceiveCodeForReceivedOpenMessage := Some send_receive |}.

Definition newStructure : codes :=
  {| sendReceiveCodeForSentOpenMessage := None; sendReceiveCodeForReceivedOpenMessage := None |}.

Definition addAddPath (afi safi send_receive : Z) (sent_open : bool) (m : AddPathMap) : AddPathMap :=
  let key := getAFiSafiKeyString afi safi in
  match m !! key with
  | None => <[key := set_code sent_open send_receive newStructure]> m
  | Some c => <[key := set_code sent_open send_receive c]> m
  end.

(** reading a code that was never assigned is undefined *)
Definition read_code (c : option Z) : outcome Z :=
  match c with Some z => Ok z | None => Undef Uninit end.

(** [(sent == RECEIVE or sent == SEND_RECEIVE) and (recv == SEND or recv == SEND_RECEIVE)],
    evaluated with short circuit *)
Definition codes_enabled (c : codes) : outcome bool :=
  s ← read_code (sendReceiveCodeForSentOpenMessage c);
  if (s =? BGP_CAP_ADD_PATH_RECEIVE) || (s =? BGP_CAP_ADD_PATH_SEND_RECEIVE)
  then r ← read_code (sendReceiveCodeForReceivedOpenMessage c);
       Ok ((r =? BGP_CAP_ADD_PATH_SEND) || (r =? BGP_CAP_ADD_PATH_SEND_RECEIVE))
  else Ok false.

Definition isAddPathEnabled (afi safi : Z) (m : AddPathMap) : outcome bool :=
  match m !! getAFiSafiKeyString afi safi with
  | None => Ok false
  | Some c => codes_enabled c
  end.

(** ** Keys *)

Definition is_num_char (c : Ascii.ascii) : bool := is_digit c || Ascii.eqb c "-".

Lemma dec_num_chars z : str_all is_num_char (dec z) = true.
Proof.
  assert (∀ z, 0 ≤ z → str_all is_num_char (dec z) = true) as Hnn.
  { intros y Hy. eapply str_all_impl, dec_digits; [|done].
    intros c Hc. unfold is_num_char. by rewrite Hc. }
  destruct (decide (0 ≤ z)) as [?|?]; [by apply Hnn|].
  destruct z as [|p|p]; [lia..|].
  change (dec (Zneg p)) with ("-" +:+ dec (Zpos p)). rewrite str_all_app, (Hnn (Zpos p)); [done|lia].
Qed.

(** The key determines the AFI and the SAFI. *)
Lemma getAFiSafiKeyString_inj afi safi afi' safi' :
  getAFiSafiKeyString afi safi = getAFiSafiKeyString afi' safi' → afi = afi' ∧ safi = safi'.
Proof.
  intros H. apply (sep_inj is_num_char) in H as [H1 H2]; auto using dec_num_chars.
  split; by apply dec_inj.
Qed.

(** ** Refinement of the history of OPEN messages *)

(** An [addAddPath] call *)
Record add_op : Type := { op_afi : Z; op_safi : Z; op_code : Z; op_sent : bool }.

Definition apply_op (m : AddPathMap) (o : add_op) : AddPathMap :=
  addAddPath (op_afi o) (op_safi o) (op_code o) (op_sent o) m.

Definition op_about (afi safi : Z) (sent : bool) (o : add_op) : bool :=
  (op_afi o =? afi) && (op_safi o =? safi) && Bool.eqb (op_sent o) sent.

(** the code of the latest call about the pair and the direction *)
Fixpoint last_code (afi safi : Z) (sent : bool) (rev_ops : list add_op) : option Z :=
  match rev_ops with
  | [] => None
  | o :: ops => if op_about afi safi sent o then Some (op_code o) else last_code afi safi sent ops
  end.

(** What the container promises: the pair is enabled when the latest sent code
    allows receiving and the latest received code allows sending.  A pair that
    only one side announced leaves the other code unassigned. *)
Definition enabled_spec (sent recv : option Z) : outcome bool :=
  match sent, recv with
  | None, None => Ok false
  | None, Some _ => Undef Uninit
  | Some s, None => if (s =? 1) || (s =? 3) then Undef Uninit else Ok false
  | Some s, Some r => Ok (((s =? 1) || (s =? 3)) && ((r =? 2) || (r =? 3)))
  end.

(** The map represents a history when each entry holds the latest codes. *)
Definition represents (m : AddPathMap) (rev_ops : list add_op) : Prop :=
  ∀ afi safi,
    match m !! getAFiSafiKeyString afi safi with
    | None => last_code afi safi true rev_ops = None ∧ last_code afi safi false rev_ops = None
    | Some c => sendReceiveCodeForSentOpenMessage c = last_code afi safi true rev_ops
                ∧ sendReceiveCodeForReceivedOpenMessage c = last_code afi safi false rev_ops
                ∧ (is_Some (last_code afi safi true rev_ops) ∨ is_Some (last_code afi safi false rev_ops))
    end.

Lemma represents_empty : represents ∅ [].
Proof. intros afi safi. by rewrite lookup_empty. Qed.

Lemma apply_op_lookup m o key :
  apply_op m o !! key =
  if decide (getAFiSafiKeyString (op_afi o) (op_safi o) = key)
  then Some (set_code (op_sent o) (op_code o) (default newStructure (m !! key)))
  else m !! key.
Proof.
  unfold apply_op, addAddPath. case_decide as E.
  - rewrite <-E. destruct (m !! _); by rewrite lookup_insert_eq.
  - destruct (m !! _); by rewrite lookup_insert_ne.
Qed.

Lemma represents_step m o ops : represents m ops → represents (apply_op m o) (o :: ops).
Proof.
  intros Hm afi safi. specialize (Hm afi safi). rewrite apply_op_lookup.
  case_decide as E.
  - apply getAFiSafiKeyString_inj in E as [Ha Hs].
    assert (∀ b, op_about afi safi b o = Bool.eqb (op_sent o) b) as Hb
      by (intros b; unfold op_about; by rewrite Ha, Hs, !Z.eqb_refl).
    simpl. rewrite !Hb. destruct (m !! _) as [c|]; destruct (op_sent o); simpl; naive_solver.
  - assert (op_about afi safi true o = false ∧ op_about afi safi false o = false) as [H1 H2].
    { unfold op_about. destruct (Z.eqb_spec (op_afi o) afi) as [Ha|]; [|done].
      destruct (Z.eqb_spec (op_safi o) safi) as [Hs|]; [congruence|done]. }
    simpl. rewrite H1, H2. exact Hm.
Qed.

Lemma represents_run ops : represents (foldr (λ o m, apply_op m o) ∅ ops) ops.
Proof. induction ops; [apply represents_empty|by apply represents_step]. Qed.

Lemma codes_enabled_spec c :
  is_Some (sendReceiveCodeForSentOpenMessage c) ∨ is_Some (sendReceiveCodeForReceivedOpenMessage c) →
  codes_enabled c = enabled_spec (sendReceiveCodeForSentOpenMessage c) (sendReceiveCodeForReceivedOpenMessage c).
Proof.
  destruct c as [[s|] [r|]]; unfold codes_enabled, enabled_spec; cbn; intros H.
  - unfold BGP_CAP_ADD_PATH_RECEIVE, BGP_CAP_ADD_PATH_SEND_RECEIVE, BGP_CAP_ADD_PATH_SEND.
    by destruct ((s =? 1) || (s =? 3)).
  - unfold BGP_CAP_ADD_PATH_RECEIVE, BGP_CAP_ADD_PATH_SEND_RECEIVE.
    by destruct ((s =? 1) || (s =? 3)).
  - done.
  - destruct H as [[? ?]|[? ?]]; done.
Qed.

(** C21: the add-path container refines the history of OPEN messages.  After
    any sequence of [addAddPath] calls (the latest first in [ops]), the answer
    for an AFI/SAFI pair depends only on the latest sent and received codes of
    that very pair: enabled when the sent code is receive or both and the
    received code is send or both; undefined when only one of the OPEN messages
    announced the pair and the comparison reaches the unassigned code.  (The
    comment in the function has the two directions exchanged; this is the code.) *)
Theorem isAddPathEnabled_refines (ops : list add_op) (afi safi : Z) :
  isAddPathEnabled afi safi (foldr (λ o m, apply_op m o) ∅ ops)
  = enabled_spec (last_code afi safi true ops) (last_code afi safi false ops).
Proof.
  pose proof (represents_run ops afi safi) as H. unfold isAddPathEnabled.
  destruct (_ !! _) as [c|].
  - destruct H as (H1 & H2 & H3). rewrite <-H1, <-H2. apply codes_enabled_spec.
    by rewrite H1, H2.
  - by destruct H as [-> ->].
Qed.
