(* ===== verification/NotificationMsg.v ===== *)
(** * BGP NOTIFICATION parser ([bgp/NotificationMsg.cpp])

    The error code and subcode of a NOTIFICATION message and their texts. *)

From S2P Require Import Prelude Inet BgpCommon.

(** ** Error codes *)

Definition NOTIFY_MSG_HDR_ERR : Z := 1.
Definition NOTIFY_OPEN_MSG_ERR : Z := 2.
Definition NOTIFY_UPDATE_MSG_ERR : Z := 3.
Definition NOTIFY_HOLD_TIMER_EXPIRED : Z := 4.
Definition NOTIFY_FSM_ERR : Z := 5.
Definition NOTIFY_CEASE : Z := 6.

Record parsed_notify_msg : Type := {
  error_code : Z;
  error_subcode : Z;
  error_text : string }.   (** the C string of the 255-byte array *)

Definition zero_notify : parsed_notify_msg :=
  {| error_code := 0; error_subcode := 0; error_text := "" |}.

(** ** Texts, by error code *)

Definition hdr_text (sub : Z) : string :=
  if sub =? 2 then "Bad message header length" else "Bad message header type".

Definition open_text (sub : Z) : string :=
  match sub with
  | 3 => "Bad BGP ID"
  | 2 => "Incorrect peer AS"
  | 6 => "Unacceptable hold time"
  | 4 => "Unsupported optional parameter"
  | 1 => "Unsupported BGP version"
  | _ => "Open message error - unknown subcode [" +:+ dec sub +:+ "]"
  end.

Definition update_text (sub : Z) : string :=
  match sub with
  | 4 => "Update attribute flags error"
  | 5 => "Update attribute lenght error"
  | 8 => "Invalid network field"
  | 6 => "Invalid next hop address/attribute"
  | 9 => "Malformed AS_PATH"
  | 1 => "Malformed attribute list"
  | 3 => "Missing well known attribute"
  | 7 => "Update optional attribute error"
  | 2 => "Unrecognized well known attribute"
  | _ => "Update message error - unknown subcode [" +:+ dec sub +:+ "]"
  end.

Definition cease_text (sub : Z) : string :=
  match sub with
  | 1 => "Maximum number of prefixes reached"
  | 2 => "Administrative shutdown"
  | 3 => "Peer de-configured"
  | 4 => "Administratively reset"
  | 5 => "Connection rejected"
  | 6 => "Other configuration change"
  | 7 => "Connection collision resolution"
  | 8 => "Maximum number of prefixes reached"
  | _ => "Unknown cease code, subcode [" +:+ dec sub +:+ "]"
  end.

(** [switch (parsed_msg.error_code)]; every text goes through [snprintf] into
    the 255-byte array except the last, which is an unbounded [sprintf]. *)
Definition notify_text (code sub : Z) : string :=
  if code =? NOTIFY_MSG_HDR_ERR then snprintf 255 (hdr_text sub)
  else if code =? NOTIFY_OPEN_MSG_ERR then snprintf 255 (open_text sub)
  else if code =? NOTIFY_UPDATE_MSG_ERR then snprintf 255 (update_text sub)
  else if code =? NOTIFY_HOLD_TIMER_EXPIRED then snprintf 255 "Hold timer expired"
  else if code =? NOTIFY_FSM_ERR then snprintf 255 "FSM error"
  else if code =? NOTIFY_CEASE then snprintf 255 (cease_text sub)
  else "Unknown notification type [" +:+ dec code +:+ "]".

(** ** The parser

    Returns [true] on error.  Each successful read increments [size], not
    [read_size], so the second guard compares 0 with a positive size. *)
Definition parseNotify (data : ptr) (size : Z) : outcome (bool * parsed_notify_msg) :=
  let read_size := 0 in
  if read_size <? size then
    '(code, data) ← rd data;
    let size := u64 (size + 1) in
    if read_size <? size then
      '(sub, _) ← rd data;
      Ok (false, {| error_code := code; error_subcode := sub; error_text := notify_text code sub |})
    else Ok (true, {| error_code := code; error_subcode := 0; error_text := "" |})
  else Ok (true, zero_notify).

(** ** Text bounds *)

Lemma length_dec_byte z : is_byte z → (String.length (dec z) ≤ 3)%nat.
Proof.
  intros Hz. unfold is_byte in Hz.
  assert (∀ n, (n < 256)%nat → Nat.leb (String.length (dec (Z.of_nat n))) 3 = true) as H.
  { intros n Hn. do 256 (destruct n as [|n]; [vm_compute; reflexivity|]). lia. }
  apply Nat.leb_le. rewrite <-(Z2Nat.id z) by lia. apply H. lia.
Qed.

Lemma length_snprintf n s : (0 < n)%nat → (String.length (snprintf n s) < n)%nat.
Proof. intros. unfold snprintf. rewrite length_str_take. lia. Qed.

Lemma length_notify_text code sub : is_byte code → (String.length (notify_text code sub) < 255)%nat.
Proof.
  intros Hc. unfold notify_text. repeat case_match; try (apply length_snprintf; lia).
  rewrite !length_append. pose proof (length_dec_byte code Hc). simpl. lia.
Qed.

(** With at least one octet announced and two present, the parser reports
    no error, returns the two octets as code and subcode, and the text it
    builds fits the 255-byte field with its terminator (also in the case that
    uses the unbounded [sprintf]). *)
Theorem parseNotify_ok (code sub size : Z) (rest : ptr) :
  is_byte code → 0 < size < 2 ^ 64 - 1 →
  ∃ text, parseNotify (code :: sub :: rest) size
          = Ok (false, {| error_code := code; error_subcode := sub; error_text := text |})
          ∧ text = notify_text code sub ∧ (String.length text < 255)%nat.
Proof.
  intros Hc Hs. eexists. split; [|split; [done|by apply length_notify_text]].
  unfold parseNotify. zcase; [|lia]. run. rewrite u64_small by lia. zcase; [|lia]. done.
Qed.

Lemma parseNotify_ok_witness :
  ∃ text, parseNotify [6; 2] 2
          = Ok (false, {| error_code := 6; error_subcode := 2; error_text := text |})
          ∧ text = notify_text 6 2 ∧ (String.length text < 255)%nat.
Proof. apply (parseNotify_ok 6 2 2 []); [split; lia|lia]. Defined.

(** The guard before the subcode does not protect the read.  A
    NOTIFICATION with a single octet of payload makes the parser read one octet
    beyond the announced size. *)
Theorem parseNotify_overread (code : Z) : parseNotify [code] 1 = Undef OobRead.
Proof. done. Qed.
