(* ===== verification/OpenMsg.v ===== *)
(** * BGP OPEN parser ([bgp/OpenMsg.cpp])

    The fixed header of an OPEN message, its optional parameters and the
    capabilities inside them.  The parser fills the ASN, the hold time, the
    BGP identifier, the list of printed capabilities, and the add-path
    container of the peer. *)

From S2P Require Import Prelude Inet BgpCommon AddPath.

(** ** Capability codes *)

Definition BGP_CAP_MPBGP : Z := 1.
Definition BGP_CAP_ROUTE_REFRESH : Z := 2.
Definition BGP_CAP_OUTBOUND_FILTER : Z := 3.
Definition BGP_CAP_GRACEFUL_RESTART : Z := 64.
Definition BGP_CAP_4OCTET_ASN : Z := 65.
Definition BGP_CAP_MULTI_SESSION : Z := 68.
Definition BGP_CAP_ADD_PATH : Z := 69.
Definition BGP_CAP_ROUTE_REFRESH_ENHANCED : Z := 70.
Definition BGP_CAP_ROUTE_REFRESH_OLD : Z := 128.

(** What [parseCapabilities] updates: the [asn] and [capabilities] references
    and [peer_info->add_path_capability]. *)
Record cap_state : Type := {
  cs_asn : Z;
  cs_caps : list string;
  cs_add_path : AddPathMap }.

Definition push_cap (s : string) (st : cap_state) : cap_state :=
  {| cs_asn := cs_asn st; cs_caps := cs_caps st ++ [s]; cs_add_path := cs_add_path st |}.
Definition set_asn (a : Z) (st : cap_state) : cap_state :=
  {| cs_asn := a; cs_caps := cs_caps st; cs_add_path := cs_add_path st |}.
Definition set_add_path (m : AddPathMap) (st : cap_state) : cap_state :=
  {| cs_asn := cs_asn st; cs_caps := cs_caps st; cs_add_path := m |}.

(** ** Add-path entries *)

Definition send_receive_text (code : Z) : string :=
  if code =? BGP_CAP_ADD_PATH_SEND then "Send"
  else if code =? BGP_CAP_ADD_PATH_RECEIVE then "Receive"
  else if code =? BGP_CAP_ADD_PATH_SEND_RECEIVE then "Send/Receive"
  else "unknown".

Definition add_path_text (afi safi sr : Z) : string :=
  "ADD Path (" +:+ dec BGP_CAP_ADD_PATH +:+ ") : afi=" +:+ dec afi +:+ " safi=" +:+ dec safi
  +:+ " send/receive=" +:+ dec sr +:+ " : " +:+ GET_SAFI_STRING_BY_CODE safi +:+ " "
  +:+ GET_AFI_STRING_BY_CODE afi +:+ " " +:+ send_receive_text sr.

(** one [cap_add_path_data]: AFI (2), SAFI (1), send/receive (1) *)
Definition add_path_entry (sent : bool) (bs : list Z) (st : cap_state) : cap_state :=
  let afi := ntoh (take 2 bs) in
  let safi := nth 2 bs 0 in
  let sr := nth 3 bs 0 in
  push_cap (add_path_text afi safi sr)
    (set_add_path (addAddPath afi safi sr sent (cs_add_path st)) st).

(** [for (int l = 0; l < cap->len; l += 4)] *)
Fixpoint add_path_loop (fuel : nat) (sent : bool) (l len : Z) (cap_ptr : ptr) (st : cap_state)
  : outcome (ptr * cap_state) :=
  match fuel with
  | O => NoFuel
  | S fuel =>
      if l <? len then
        bs ← memcpy 4 cap_ptr;
        add_path_loop fuel sent (l + 4) len (adv 4 cap_ptr) (add_path_entry sent bs st)
      else Ok (cap_ptr, st)
  end.

(** ** One capability *)

Definition mpbgp_text (afi safi : Z) : string :=
  "MPBGP (" +:+ dec BGP_CAP_MPBGP +:+ ") : afi=" +:+ dec afi +:+ " safi=" +:+ dec safi
  +:+ " : " +:+ GET_SAFI_STRING_BY_CODE safi +:+ " " +:+ GET_AFI_STRING_BY_CODE afi.

Definition named_cap (name : string) (code : Z) : string := name +:+ " (" +:+ dec code +:+ ")".

(** [switch (cap->code)]; [cap_ptr] points at the code.  [None] is the early
    [return 0] of the MPBGP case.  The add-path case moves [cap_ptr]. *)
Definition parse_cap (sent : bool) (code clen : Z) (cap_ptr : ptr) (st : cap_state)
  : outcome (option ptr * cap_state) :=
  if code =? BGP_CAP_4OCTET_ASN then
    if clen =? 4 then
      a ← get_u32 (adv 2 cap_ptr);
      Ok (Some cap_ptr, push_cap (named_cap "4 Octet ASN" BGP_CAP_4OCTET_ASN) (set_asn a st))
    else Ok (Some cap_ptr, st)
  else if code =? BGP_CAP_ROUTE_REFRESH then
    Ok (Some cap_ptr, push_cap (named_cap "Route Refresh" BGP_CAP_ROUTE_REFRESH) st)
  else if code =? BGP_CAP_ROUTE_REFRESH_ENHANCED then
    Ok (Some cap_ptr, push_cap (named_cap "Route Refresh Enhanced" BGP_CAP_ROUTE_REFRESH_ENHANCED) st)
  else if code =? BGP_CAP_ROUTE_REFRESH_OLD then
    Ok (Some cap_ptr, push_cap (named_cap "Route Refresh Old" BGP_CAP_ROUTE_REFRESH_OLD) st)
  else if code =? BGP_CAP_ADD_PATH then
    let cap_ptr := adv 2 cap_ptr in
    if 4 <=? clen then
      '(cap_ptr, st) ← add_path_loop (S (Z.to_nat clen)) sent 0 clen cap_ptr st;
      Ok (Some cap_ptr, st)
    else Ok (Some cap_ptr, st)
  else if code =? BGP_CAP_GRACEFUL_RESTART then
    Ok (Some cap_ptr, push_cap (named_cap "Graceful Restart" BGP_CAP_GRACEFUL_RESTART) st)
  else if code =? BGP_CAP_OUTBOUND_FILTER then
    Ok (Some cap_ptr, push_cap (named_cap "Outbound Filter" BGP_CAP_OUTBOUND_FILTER) st)
  else if code =? BGP_CAP_MULTI_SESSION then
    Ok (Some cap_ptr, push_cap (named_cap "Multi-session" BGP_CAP_MULTI_SESSION) st)
  else if code =? BGP_CAP_MPBGP then
    if clen =? 4 then
      bs ← memcpy 4 (adv 2 cap_ptr);
      Ok (Some cap_ptr, push_cap (mpbgp_text (ntoh (take 2 bs)) (nth 3 bs 0)) st)
    else Ok (None, st)
  else Ok (Some cap_ptr, push_cap (dec code) st).

(** [for (int c=0; c < param->len; )]; [false] when the function returned 0 *)
Fixpoint caps_loop (fuel : nat) (sent : bool) (c plen : Z) (cap_ptr : ptr) (st : cap_state)
  : outcome (bool * cap_state) :=
  match fuel with
  | O => NoFuel
  | S fuel =>
      if c <? plen then
        '(code, p1) ← rd cap_ptr;
        '(clen, _) ← rd p1;
        '(next, st) ← parse_cap sent code clen cap_ptr st;
        match next with
        | None => Ok (false, st)
        | Some cap_ptr => caps_loop fuel sent (c + (2 + clen)) plen (adv (2 + clen) cap_ptr) st
        end
      else Ok (true, st)
  end.

(** ** Optional parameters: [for (int i=0; i < size; )]

    [i] and [read_size] advance together. *)
Fixpoint params_loop (fuel : nat) (sent : bool) (read_size size : Z) (bufPtr : ptr) (st : cap_state)
  : outcome (Z * cap_state) :=
  match fuel with
  | O => NoFuel
  | S fuel =>
      if read_size <? size then
        '(type, p1) ← rd bufPtr;
        '(plen, body) ← rd p1;
        '(good, st) ←
          (if negb (type =? BGP_CAP_PARAM_TYPE) then Ok (true, st)
           else if (2 <=? plen) && (read_size + 2 + plen <=? size)
           then caps_loop (S (Z.to_nat plen)) sent 0 plen body st
           else Ok (true, st));
        if (good : bool)
        then params_loop fuel sent (read_size + (2 + plen)) size (adv (2 + plen) bufPtr) st
        else Ok (0, st)
      else Ok (read_size, st)
  end.

Definition parseCapabilities (sent : bool) (data : ptr) (size : Z) (st : cap_state)
  : outcome (Z * cap_state) :=
  params_loop (S (Z.to_nat size)) sent 0 size data st.

(** ** The OPEN message *)

Definition open_hdr_len : Z := 10.

(** the out parameters of [parseOpenMsg] *)
Record open_out : Type := {
  oo_hold : Z;
  oo_bgp_id : string;
  oo_state : cap_state }.

Definition parseOpenMsg (sent : bool) (data : ptr) (size : Z) (o : open_out) : outcome (Z * open_out) :=
  let st := {| cs_asn := cs_asn (oo_state o); cs_caps := []; cs_add_path := cs_add_path (oo_state o) |} in
  if size <? open_hdr_len
  then Ok (0, {| oo_hold := oo_hold o; oo_bgp_id := oo_bgp_id o; oo_state := st |})
  else
    hdr ← memcpy open_hdr_len data;
    let asn := ntoh (take 2 (drop 1 hdr)) in
    let hold := ntoh (take 2 (drop 3 hdr)) in
    let bgp_id := inet_ntop4 (take 4 (drop 5 hdr)) in
    let param_len := nth 9 hdr 0 in
    let read_size := open_hdr_len in
    let bufPtr := adv open_hdr_len data in
    let st := set_asn asn st in
    let out st := {| oo_hold := hold; oo_bgp_id := bgp_id; oo_state := st |} in
    if param_len =? 0 then Ok (read_size, out st)
    else if size - read_size <? param_len then
      '(_, st) ← parseCapabilities sent bufPtr (size - read_size) st;
      Ok (size, out st)
    else
      '(n, st) ← parseCapabilities sent bufPtr param_len st;
      if n =? 0 then Ok (0, out st) else Ok (read_size + param_len, out st).

(** ** The capability list as data

    A capability is a code with its value octets, an optional parameter a list
    of capabilities.  [cap_effect] is what a capability means for the parser's
    outputs. *)

Abbreviation tlv := (Z * list Z)%type.

Definition enc_cap (c : tlv) : list Z := c.1 :: Z.of_nat (length c.2) :: c.2.
Definition enc_caps (cs : list tlv) : list Z := concat (enc_cap <$> cs).
Definition enc_param (cs : list tlv) : list Z :=
  BGP_CAP_PARAM_TYPE :: Z.of_nat (length (enc_caps cs)) :: enc_caps cs.
Definition enc_params (ps : list (list tlv)) : list Z := concat (enc_param <$> ps).

(** the 4-octet entries of an add-path capability *)
Fixpoint add_path_effect (sent : bool) (v : list Z) (st : cap_state) : cap_state :=
  match v with
  | a :: b :: c :: d :: v' => add_path_effect sent v' (add_path_entry sent [a; b; c; d] st)
  | _ => st
  end.

Definition cap_effect (sent : bool) (st : cap_state) (c : tlv) : cap_state :=
  let (code, v) := c in
  if code =? BGP_CAP_4OCTET_ASN then
    if Nat.eqb (length v) 4 then push_cap "4 Octet ASN (65)" (set_asn (ntoh v) st) else st
  else if code =? BGP_CAP_ADD_PATH then add_path_effect sent v st
  else if code =? BGP_CAP_MPBGP then push_cap (mpbgp_text (ntoh (take 2 v)) (nth 3 v 0)) st
  else push_cap
    (if code =? BGP_CAP_ROUTE_REFRESH then "Route Refresh (2)"
     else if code =? BGP_CAP_ROUTE_REFRESH_ENHANCED then "Route Refresh Enhanced (70)"
     else if code =? BGP_CAP_ROUTE_REFRESH_OLD then "Route Refresh Old (128)"
     else if code =? BGP_CAP_GRACEFUL_RESTART then "Graceful Restart (64)"
     else if code =? BGP_CAP_OUTBOUND_FILTER then "Outbound Filter (3)"
     else if code =? BGP_CAP_MULTI_SESSION then "Multi-session (68)"
     else dec code) st.

Definition wf_cap (c : tlv) : Prop :=
  (c.1 = BGP_CAP_MPBGP → length c.2 = 4%nat)
  ∧ (c.1 = BGP_CAP_ADD_PATH → ∃ k, length c.2 = (4 * k)%nat).

(** In a parameter only the last capability may be add-path. *)
Fixpoint wf_caps (cs : list tlv) : Prop :=
  match cs with
  | [] => True
  | c :: cs' => wf_cap c ∧ (cs' ≠ [] → c.1 ≠ BGP_CAP_ADD_PATH) ∧ wf_caps cs'
  end.

Definition wf_param (cs : list tlv) : Prop := wf_caps cs ∧ cs ≠ [].

(** ** Capability framing *)

Lemma add_path_loop_ok fuel sent k l v rest st :
  length v = (4 * k)%nat → (k < fuel)%nat →
  add_path_loop fuel sent l (l + Z.of_nat (length v)) (v ++ rest) st
  = Ok (rest, add_path_effect sent v st).
Proof.
  revert fuel l v st. induction k as [|k IH]; intros fuel l v st Hv Hf.
  - destruct v; [|simpl in Hv; lia]. destruct fuel; [lia|]. simpl.
    zcase; [lia|done].
  - destruct v as [|a [|b [|c [|d v]]]]; try (simpl in Hv; lia). destruct fuel as [|fuel]; [lia|].
    cbn [add_path_loop]. zcase; [|simpl length in *; lia].
    change ((a :: b :: c :: d :: v) ++ rest) with ([a; b; c; d] ++ v ++ rest). run.
    replace (l + Z.of_nat (length (a :: b :: c :: d :: v))) with (l + 4 + Z.of_nat (length v))
      by (simpl length; lia).
    cbn [add_path_effect]. apply IH; simpl in Hv; lia.
Qed.

Lemma parse_cap_ok sent c rest st :
  wf_cap c →
  ∃ p, parse_cap sent c.1 (Z.of_nat (length c.2)) (enc_cap c ++ rest) st
       = Ok (Some p, cap_effect sent st c)
       ∧ (c.1 ≠ BGP_CAP_ADD_PATH → p = enc_cap c ++ rest).
Proof.
  destruct c as [code v]. intros [Hmp Hap]. cbn [fst snd] in *.
  assert (adv 2 (enc_cap (code, v) ++ rest) = v ++ rest) as Hadv by done.
  unfold parse_cap, cap_effect. rewrite Hadv.
  destruct (code =? BGP_CAP_4OCTET_ASN) eqn:E1; cmp.
  { assert ((Z.of_nat (length v) =? 4) = Nat.eqb (length v) 4) as ->.
    { destruct (Nat.eqb_spec (length v) 4); [apply Z.eqb_eq|apply Z.eqb_neq]; lia. }
    destruct (Nat.eqb_spec (length v) 4); [|eauto].
    rewrite get_u32_app by done. eauto. }
  destruct (code =? BGP_CAP_ADD_PATH) eqn:E2; cmp.
  { destruct (Hap E2) as [k Hk]. subst code. with_strategy opaque [add_path_loop] cbn.
    pose proof (add_path_loop_ok (S (Z.to_nat (Z.of_nat (length v)))) sent k 0 v rest st Hk) as Hl.
    rewrite Z.add_0_l in Hl. zcase.
    - rewrite Hl by lia. cbn. eexists; split; [done|congruence].
    - destruct v; [|simpl in *; lia]. eexists; split; [done|congruence]. }
  destruct (code =? BGP_CAP_MPBGP) eqn:E3; cmp.
  { subst code. cbn. rewrite Hmp by done. cbn.
    rewrite memcpy_app by (rewrite Hmp; done). eauto. }
  repeat case_match; cmp; eauto; congruence.
Qed.

Lemma length_enc_cap c : length (enc_cap c) = (2 + length c.2)%nat.
Proof. done. Qed.
Lemma enc_caps_cons c cs : enc_caps (c :: cs) = enc_cap c ++ enc_caps cs.
Proof. done. Qed.
Lemma enc_params_cons p ps : enc_params (p :: ps) = enc_param p ++ enc_params ps.
Proof. done. Qed.

Lemma caps_loop_ok fuel sent c cs rest st :
  wf_caps cs → (length cs < fuel)%nat →
  caps_loop fuel sent c (c + Z.of_nat (length (enc_caps cs))) (enc_caps cs ++ rest) st
  = Ok (true, foldl (cap_effect sent) st cs).
Proof.
  revert fuel c st. induction cs as [|x cs IH]; intros fuel c st Hwf Hf;
    (destruct fuel as [|fuel]; [simpl in Hf; lia|]); cbn [caps_loop].
  { zcase; [simpl in *; lia|done]. }
  destruct Hwf as (Hx & Hap & Hcs). rewrite enc_caps_cons, length_app, length_enc_cap.
  zcase; [|lia]. rewrite <-app_assoc.
  destruct (parse_cap_ok sent x (enc_caps cs ++ rest) st Hx) as (p & Hp & Hpp).
  change (rd (enc_cap x ++ ?r)) with (Ok (x.1, Z.of_nat (length x.2) :: x.2 ++ r)). run.
  rewrite Hp. run.
  destruct cs as [|y cs].
  - destruct fuel; [simpl in Hf; lia|]. cbn. zcase; [lia|done].
  - rewrite Hpp by (apply Hap; done).
    rewrite adv_app by (rewrite length_enc_cap; lia).
    replace (c + Z.of_nat (2 + length x.2 + length (enc_caps (y :: cs)))) with (c + (2 + Z.of_nat (length x.2)) + Z.of_nat (length (enc_caps (y :: cs)))) by lia.
    apply IH; [done|simpl in *; lia].
Qed.

Lemma length_enc_caps_ge cs : (2 * length cs ≤ length (enc_caps cs))%nat.
Proof.
  induction cs as [|c cs IH]; [simpl; lia|].
  rewrite enc_caps_cons, length_app, length_enc_cap. simpl. lia.
Qed.

Lemma length_enc_params_ge ps : (2 * length ps ≤ length (enc_params ps))%nat.
Proof. induction ps as [|p ps IH]; [simpl; lia|]. rewrite enc_params_cons, length_app. simpl. lia. Qed.

Lemma params_loop_ok fuel sent n ps rest st :
  Forall wf_param ps → 0 ≤ n → (length ps < fuel)%nat →
  params_loop fuel sent n (n + Z.of_nat (length (enc_params ps))) (enc_params ps ++ rest) st
  = Ok (n + Z.of_nat (length (enc_params ps)), foldl (λ st p, foldl (cap_effect sent) st p) st ps).
Proof.
  revert fuel n st. induction ps as [|p ps IH]; intros fuel n st Hwf Hn Hf;
    (destruct fuel as [|fuel]; [simpl in Hf; lia|]); cbn [params_loop].
  { zcase; [simpl in *; lia|]. do 2 f_equal. simpl; lia. }
  inversion_clear Hwf as [|? ? [Hp Hne] Hps]. rewrite enc_params_cons, length_app.
  set (L := length (enc_caps p)).
  assert (length (enc_param p) = 2 + L)%nat as HL by done.
  pose proof (length_enc_caps_ge p) as Hge. fold L in Hge.
  assert (2 ≤ L)%nat by (destruct p; [done|simpl in Hge; lia]).
  zcase; [|lia]. rewrite <-app_assoc.
  change (rd (enc_param p ++ ?r)) with (Ok (BGP_CAP_PARAM_TYPE, Z.of_nat L :: enc_caps p ++ r)).
  run. change (BGP_CAP_PARAM_TYPE =? BGP_CAP_PARAM_TYPE) with true.
  replace (2 <=? Z.of_nat L) with true by (symmetry; apply Z.leb_le; lia).
  replace (n + 2 + Z.of_nat L <=? _) with true by (symmetry; apply Z.leb_le; lia).
  cbn [negb andb].
  assert (caps_loop (S (Z.to_nat (Z.of_nat L))) sent 0 (Z.of_nat L) (enc_caps p ++ enc_params ps ++ rest) st
          = Ok (true, foldl (cap_effect sent) st p)) as Hcl.
  { apply (caps_loop_ok _ sent 0 p); [done|lia]. }
  rewrite Hcl. run.
  replace (n + Z.of_nat (length (enc_param p) + length (enc_params ps)))
    with (n + (2 + Z.of_nat L) + Z.of_nat (length (enc_params ps))) by lia.
  apply IH; [done|lia|simpl in Hf; lia].
Qed.

(** ** Termination

    Every iteration consumes at least two octets, so the loops end.  The
    pointers they advance stay inside the octets of the message. *)

Lemma adv_bytes_ok n p : bytes_ok p → bytes_ok (adv n p).
Proof. apply Forall_drop. Qed.

Lemma add_path_loop_fuel fuel sent l len p st :
  0 < Z.of_nat fuel → len - l < Z.of_nat fuel → add_path_loop fuel sent l len p st ≠ NoFuel.
Proof.
  revert l p st. induction fuel as [|fuel IH]; intros l p st Hf Hl; [lia|]; cbn [add_path_loop].
  zcase; try done. unfold memcpy. zcase; [|done]. rewrite bind_Ok_l. apply IH; lia.
Qed.

Lemma add_path_loop_bytes fuel sent l len p st p' st' :
  bytes_ok p → add_path_loop fuel sent l len p st = Ok (p', st') → bytes_ok p'.
Proof.
  revert l p st. induction fuel as [|fuel IH]; intros l p st Hp; cbn [add_path_loop]; [done|].
  zcase; intros H'; inv_ok; eauto using adv_bytes_ok.
Qed.

Lemma parse_cap_fuel sent code clen p st : parse_cap sent code clen p st ≠ NoFuel.
Proof.
  unfold parse_cap. repeat case_match; try done; rewrite bind_NoFuel_inv.
  - intros [H'|(? & _ & H')]; [by apply get_u32_not_NoFuel in H'|done].
  - intros [H'|([? ?] & _ & H')]; [|done]. apply add_path_loop_fuel in H'; [done|lia..].
  - intros [H'|(? & _ & H')]; [by apply memcpy_not_NoFuel in H'|done].
Qed.

Lemma parse_cap_bytes sent code clen p st p' st' :
  bytes_ok p → parse_cap sent code clen p st = Ok (Some p', st') → bytes_ok p'.
Proof.
  intros Hp. unfold parse_cap. repeat case_match; intros H'; inv_ok; eauto using adv_bytes_ok.
  eapply add_path_loop_bytes; [|done]. by apply adv_bytes_ok.
Qed.

Lemma caps_loop_fuel fuel sent c plen p st :
  bytes_ok p → 0 < Z.of_nat fuel → plen - c < Z.of_nat fuel → caps_loop fuel sent c plen p st ≠ NoFuel.
Proof.
  revert c p st. induction fuel as [|fuel IH]; intros c p st Hp Hf Hl; [lia|]; cbn [caps_loop].
  zcase; [|done]. destruct p as [|code [|clen p]]; [done..|]. run.
  rewrite bind_NoFuel_inv. intros [Hn|([[p'|] st'] & Hc & Hn)];
    [by apply parse_cap_fuel in Hn| |done].
  apply parse_cap_bytes in Hc; [|done].
  assert (is_byte clen) as [? ?] by (by inversion_clear Hp as [|? ? _ H1]; inversion_clear H1).
  revert Hn. apply IH; [by apply adv_bytes_ok|lia..].
Qed.

Lemma params_loop_fuel fuel sent n size p st :
  bytes_ok p → 0 < Z.of_nat fuel → size - n < Z.of_nat fuel → params_loop fuel sent n size p st ≠ NoFuel.
Proof.
  revert n p st. induction fuel as [|fuel IH]; intros n p st Hp Hf Hl; [lia|]; cbn [params_loop].
  zcase; [|done]. destruct p as [|type [|plen p]]; [done..|]. run.
  assert (is_byte plen ∧ bytes_ok p) as [[? ?] Hp'] by (by inversion_clear Hp as [|? ? _ H1]; inversion_clear H1).
  rewrite bind_NoFuel_inv. intros [Hn|([[] st'] & Hc & Hn)]; [| |done].
  - revert Hn. repeat case_match; try done. apply caps_loop_fuel; [done|lia..].
  - revert Hn. apply IH; [by apply adv_bytes_ok|lia..].
Qed.

Lemma parseOpenMsg_total sent data size o : bytes_ok data → parseOpenMsg sent data size o ≠ NoFuel.
Proof.
  intros Hd. unfold parseOpenMsg. case_match; [done|].
  rewrite bind_NoFuel_inv. intros [H'|(hdr & _ & H')]; [by apply memcpy_not_NoFuel in H'|].
  revert H'. repeat case_match; try done; rewrite bind_NoFuel_inv.
  - intros [H'|([? ?] & _ & H')]; [|done].
    apply params_loop_fuel in H'; [done|by apply adv_bytes_ok|lia..].
  - intros [H'|([n ?] & _ & H')]; [|by destruct (n =? 0)].
    apply params_loop_fuel in H'; [done|by apply adv_bytes_ok|lia..].
Qed.

(** Parsing an OPEN message terminates on every input: whatever the octets
    and the announced size, the capability and parameter loops end. *)
Theorem parseOpenMsg_terminates (sent : bool) (data : ptr) (size : Z) (o : open_out) :
  bytes_ok data → parseOpenMsg sent data size o ≠ NoFuel.
Proof. apply parseOpenMsg_total. Qed.

(** ** Round trip *)

Definition enc_open (ver asn hold : Z) (id : list Z) (ps : list (list tlv)) : list Z :=
  [ver] ++ hton 2 asn ++ hton 2 hold ++ id ++ [Z.of_nat (length (enc_params ps))] ++ enc_params ps.

Lemma parseCapabilities_ok sent ps rest st :
  Forall wf_param ps →
  parseCapabilities sent (enc_params ps ++ rest) (Z.of_nat (length (enc_params ps))) st
  = Ok (Z.of_nat (length (enc_params ps)), foldl (λ st p, foldl (cap_effect sent) st p) st ps).
Proof.
  intros H. unfold parseCapabilities.
  apply (params_loop_ok _ sent 0 ps); [done|lia|].
  pose proof (length_enc_params_ge ps). lia.
Qed.

Lemma parseOpenMsg_app (sent : bool) (ver asn hold : Z) (id : list Z)
    (ps : list (list tlv)) (rest : ptr) (o : open_out) :
  0 ≤ asn < 65536 → 0 ≤ hold < 65536 → length id = 4%nat →
  Forall wf_param ps → ps ≠ [] →
  parseOpenMsg sent (enc_open ver asn hold id ps ++ rest) (10 + Z.of_nat (length (enc_params ps))) o
  = Ok (10 + Z.of_nat (length (enc_params ps)),
        {| oo_hold := hold; oo_bgp_id := inet_ntop4 id;
           oo_state := foldl (λ st p, foldl (cap_effect sent) st p)
             {| cs_asn := asn; cs_caps := []; cs_add_path := cs_add_path (oo_state o) |} ps |}).
Proof.
  intros Ha Hh Hid Hps Hne. unfold parseOpenMsg, open_hdr_len, enc_open.
  pose proof (length_enc_params_ge ps) as Hge. set (L := length (enc_params ps)) in *.
  assert (1 ≤ L)%nat by (destruct ps; [done|simpl in Hge; lia]).
  zcase; [lia|].
  destruct id as [|i1 [|i2 [|i3 [|i4 [|]]]]]; try (simpl in Hid; lia).
  set (hdr := ver :: hton 2 asn ++ hton 2 hold ++ [i1; i2; i3; i4; Z.of_nat L]).
  assert (length hdr = 10%nat) as Hlen by done.
  match goal with |- context [memcpy 10 ?d] => replace d with (hdr ++ enc_params ps ++ rest)
    by done end.
  rewrite memcpy_app, adv_app by lia. rewrite bind_Ok_l.
  assert (take 2 (drop 1 hdr) = hton 2 asn) as -> by done.
  assert (take 2 (drop 3 hdr) = hton 2 hold) as -> by done.
  assert (take 4 (drop 5 hdr) = [i1; i2; i3; i4]) as -> by done.
  change (nth 9 hdr 0) with (Z.of_nat L).
  rewrite !ntoh_hton by (simpl; lia). zcase; [lia|]. zcase; [lia|].
  rewrite parseCapabilities_ok by done. run. fold L. zcase; [lia|]. done.
Qed.


(** a parameter with MPBGP IPv4/unicast, route refresh and 4-octet ASN, and a
    parameter with add-path for IPv4 unicast *)
Definition sample_params : list (list tlv) :=
  [[(1, [0; 1; 0; 1]); (2, []); (65, hton 4 4200000001)]; [(69, [0; 1; 1; 3])]].

Definition empty_out : open_out :=
  {| oo_hold := 0; oo_bgp_id := ""; oo_state := {| cs_asn := 0; cs_caps := []; cs_add_path := ∅ |} |}.

Lemma sample_params_wf : Forall wf_param sample_params.
Proof.
  unfold sample_params. repeat constructor; try done; intros Hc; try (vm_compute in Hc; congruence).
  by exists 1%nat.
Qed.


(** An add-path capability hides the capability that follows it in the
    same optional parameter.  The add-path case advances the pointer past its
    own value and the loop advances it again by the same amount: with the
    4-octet ASN capability next, the ASN stays at the 2-octet value and the
    parser reads beyond the parameter. *)
Theorem add_path_hides_next_capability :
  parseCapabilities true (enc_param [(69, [0; 1; 1; 3]); (65, hton 4 4200000001)]) 14
    {| cs_asn := 23456; cs_caps := []; cs_add_path := ∅ |} = Undef OobRead
  ∧ ∃ st, parseCapabilities true
            (enc_param [(69, [0; 1; 1; 3]); (65, hton 4 4200000001)] ++ zeros 8) 14
            {| cs_asn := 23456; cs_caps := []; cs_add_path := ∅ |} = Ok (14, st)
          ∧ cs_asn st = 23456 ∧ cs_caps st = [add_path_text 1 1 3; "0"; "0"; "0"].
Proof. split; [vm_compute; reflexivity|]. eexists. vm_compute. eauto. Qed.

Lemma parseOpenMsg_terminates_witness :
  bytes_ok [4; 0; 1] ∧ parseOpenMsg true [4; 0; 1] 3 empty_out ≠ NoFuel.
Proof.
  assert (bytes_ok [4; 0; 1]) as H by (repeat constructor; lia).
  split; [exact H|exact (parseOpenMsg_terminates true [4; 0; 1] 3 empty_out H)].
Defined.
