(* ===== verification/UpdateTypes.v ===== *)
(** * Data shared by the UPDATE parsers

    The path attribute types and the parse result of [bgp/UpdateMsg.h], the
    link-state objects of [MsgBusInterface.hpp], and the per-peer state
    [BMPReader::peer_info] that outlives a message. *)

From S2P Require Import Prelude Inet BgpCommon AddPath.

(** ** Attribute types ([UPDATE_ATTR_TYPES]) *)

Definition ATTR_TYPE_ORIGIN : Z := 1.
Definition ATTR_TYPE_AS_PATH : Z := 2.
Definition ATTR_TYPE_NEXT_HOP : Z := 3.
Definition ATTR_TYPE_MED : Z := 4.
Definition ATTR_TYPE_LOCAL_PREF : Z := 5.
Definition ATTR_TYPE_ATOMIC_AGGREGATE : Z := 6.
Definition ATTR_TYPE_AGGEGATOR : Z := 7.
Definition ATTR_TYPE_COMMUNITIES : Z := 8.
Definition ATTR_TYPE_ORIGINATOR_ID : Z := 9.
Definition ATTR_TYPE_CLUSTER_LIST : Z := 10.
Definition ATTR_TYPE_MP_REACH_NLRI : Z := 14.
Definition ATTR_TYPE_MP_UNREACH_NLRI : Z := 15.
Definition ATTR_TYPE_EXT_COMMUNITY : Z := 16.
Definition ATTR_TYPE_AS4_PATH : Z := 17.
Definition ATTR_TYPE_AS4_AGGREGATOR : Z := 18.
Definition ATTR_TYPE_AS_PATHLIMIT : Z := 21.
Definition ATTR_TYPE_IPV6_EXT_COMMUNITY : Z := 25.
Definition ATTR_TYPE_BGP_LS : Z := 29.
Definition ATTR_TYPE_LARGE_COMMUNITY : Z := 32.
Definition ATTR_TYPE_INTERNAL_AS_COUNT : Z := 9000.
Definition ATTR_TYPE_INTERNAL_AS_ORIGIN : Z := 9001.

(** [std::map<UPDATE_ATTR_TYPES, std::string>] *)
Abbreviation attrs_map := (gmap Z string).
(** [std::map<uint16_t, std::array<uint8_t, 255>>] *)
Abbreviation ls_attrs_map := (gmap Z (list Z)).

(** ** Link-state objects

    Octet arrays are lists of octets, text fields the C string they hold. *)

Record obj_ls_node : Type := {
  ln_id : Z; ln_isIPv4 : bool; ln_asn : Z; ln_bgp_ls_id : Z;
  ln_igp_router_id : list Z; ln_ospf_area_Id : list Z; ln_protocol : string;
  ln_router_id : list Z; ln_isis_area_id : list Z; ln_flags : string; ln_name : string;
  ln_mt_id : string; ln_sr_capabilities_tlv : string; ln_hash_id : list Z }.

Record obj_ls_link : Type := {
  lk_id : Z; lk_mt_id : Z; lk_bgp_ls_id : Z;
  lk_igp_router_id : list Z; lk_remote_igp_router_id : list Z; lk_ospf_area_Id : list Z;
  lk_router_id : list Z; lk_remote_router_id : list Z;
  lk_local_node_asn : Z; lk_remote_node_asn : Z;
  lk_local_bgp_router_id : Z; lk_remote_bgp_router_id : Z;
  lk_isis_area_id : list Z; lk_protocol : string; lk_intf_addr : list Z; lk_nei_addr : list Z;
  lk_local_link_id : Z; lk_remote_link_id : Z; lk_isIPv4 : bool;
  lk_local_node_hash_id : list Z; lk_remote_node_hash_id : list Z; lk_hash_id : list Z;
  lk_admin_group : Z; lk_max_link_bw : Z; lk_max_resv_bw : Z; lk_unreserved_bw : string;
  lk_te_def_metric : Z; lk_protection_type : string; lk_mpls_proto_mask : string;
  lk_igp_metric : Z; lk_srlg : string; lk_name : string;
  lk_peer_node_sid : string; lk_peer_adj_sid : string }.

Record obj_ls_prefix : Type := {
  lp_id : Z; lp_protocol : string; lp_bgp_ls_id : Z;
  lp_igp_router_id : list Z; lp_ospf_area_Id : list Z; lp_router_id : list Z;
  lp_isis_area_id : list Z; lp_intf_addr : list Z; lp_nei_addr : list Z;
  lp_local_node_hash_id : list Z; lp_hash_id : list Z; lp_mt_id : Z; lp_metric : Z; lp_isIPv4 : bool;
  lp_prefix_len : Z; lp_ospf_route_type : string; lp_prefix_bin : list Z;
  lp_prefix_bcast_bin : list Z; lp_igp_flags : string; lp_route_tag : Z; lp_ext_route_tag : Z;
  lp_ospf_fwd_addr : list Z; lp_sid_tlv : string }.

Record parsed_data_ls : Type := {
  nodes : list obj_ls_node;
  links : list obj_ls_link;
  prefixes : list obj_ls_prefix }.

(** ** Parse result *)

Record parsed_update_data : Type := {
  attrs : attrs_map;
  withdrawn : list prefix_tuple;
  advertised : list prefix_tuple;
  ls_attrs : ls_attrs_map;
  ls : parsed_data_ls;
  ls_withdrawn : parsed_data_ls;
  vpn : list vpn_tuple;
  vpn_withdrawn : list vpn_tuple;
  evpn : list evpn_tuple;
  evpn_withdrawn : list evpn_tuple }.

Definition no_ls : parsed_data_ls := {| nodes := []; links := []; prefixes := [] |}.

(** a default-constructed [parsed_update_data] *)
Definition no_update : parsed_update_data :=
  {| attrs := ∅; withdrawn := []; advertised := []; ls_attrs := ∅; ls := no_ls; ls_withdrawn := no_ls;
     vpn := []; vpn_withdrawn := []; evpn := []; evpn_withdrawn := [] |}.

Definition set_attrs (m : attrs_map) (d : parsed_update_data) : parsed_update_data :=
  {| attrs := m; withdrawn := withdrawn d; advertised := advertised d; ls_attrs := ls_attrs d;
     ls := ls d; ls_withdrawn := ls_withdrawn d; vpn := vpn d; vpn_withdrawn := vpn_withdrawn d;
     evpn := evpn d; evpn_withdrawn := evpn_withdrawn d |}.
Definition set_withdrawn (l : list prefix_tuple) (d : parsed_update_data) : parsed_update_data :=
  {| attrs := attrs d; withdrawn := l; advertised := advertised d; ls_attrs := ls_attrs d;
     ls := ls d; ls_withdrawn := ls_withdrawn d; vpn := vpn d; vpn_withdrawn := vpn_withdrawn d;
     evpn := evpn d; evpn_withdrawn := evpn_withdrawn d |}.
Definition set_advertised (l : list prefix_tuple) (d : parsed_update_data) : parsed_update_data :=
  {| attrs := attrs d; withdrawn := withdrawn d; advertised := l; ls_attrs := ls_attrs d;
     ls := ls d; ls_withdrawn := ls_withdrawn d; vpn := vpn d; vpn_withdrawn := vpn_withdrawn d;
     evpn := evpn d; evpn_withdrawn := evpn_withdrawn d |}.
Definition set_vpn (l : list vpn_tuple) (d : parsed_update_data) : parsed_update_data :=
  {| attrs := attrs d; withdrawn := withdrawn d; advertised := advertised d; ls_attrs := ls_attrs d;
     ls := ls d; ls_withdrawn := ls_withdrawn d; vpn := l; vpn_withdrawn := vpn_withdrawn d;
     evpn := evpn d; evpn_withdrawn := evpn_withdrawn d |}.
Definition set_vpn_withdrawn (l : list vpn_tuple) (d : parsed_update_data) : parsed_update_data :=
  {| attrs := attrs d; withdrawn := withdrawn d; advertised := advertised d; ls_attrs := ls_attrs d;
     ls := ls d; ls_withdrawn := ls_withdrawn d; vpn := vpn d; vpn_withdrawn := l;
     evpn := evpn d; evpn_withdrawn := evpn_withdrawn d |}.
Definition set_evpn (l : list evpn_tuple) (d : parsed_update_data) : parsed_update_data :=
  {| attrs := attrs d; withdrawn := withdrawn d; advertised := advertised d; ls_attrs := ls_attrs d;
     ls := ls d; ls_withdrawn := ls_withdrawn d; vpn := vpn d; vpn_withdrawn := vpn_withdrawn d;
     evpn := l; evpn_withdrawn := evpn_withdrawn d |}.
Definition set_evpn_withdrawn (l : list evpn_tuple) (d : parsed_update_data) : parsed_update_data :=
  {| attrs := attrs d; withdrawn := withdrawn d; advertised := advertised d; ls_attrs := ls_attrs d;
     ls := ls d; ls_withdrawn := ls_withdrawn d; vpn := vpn d; vpn_withdrawn := vpn_withdrawn d;
     evpn := evpn d; evpn_withdrawn := l |}.

Definition set_ls (v : parsed_data_ls) (d : parsed_update_data) : parsed_update_data :=
  {| attrs := attrs d; withdrawn := withdrawn d; advertised := advertised d; ls_attrs := ls_attrs d;
     ls := v; ls_withdrawn := ls_withdrawn d; vpn := vpn d; vpn_withdrawn := vpn_withdrawn d;
     evpn := evpn d; evpn_withdrawn := evpn_withdrawn d |}.
Definition set_ls_withdrawn (v : parsed_data_ls) (d : parsed_update_data) : parsed_update_data :=
  {| attrs := attrs d; withdrawn := withdrawn d; advertised := advertised d; ls_attrs := ls_attrs d;
     ls := ls d; ls_withdrawn := v; vpn := vpn d; vpn_withdrawn := vpn_withdrawn d;
     evpn := evpn d; evpn_withdrawn := evpn_withdrawn d |}.
Definition set_ls_attrs (v : ls_attrs_map) (d : parsed_update_data) : parsed_update_data :=
  {| attrs := attrs d; withdrawn := withdrawn d; advertised := advertised d; ls_attrs := v;
     ls := ls d; ls_withdrawn := ls_withdrawn d; vpn := vpn d; vpn_withdrawn := vpn_withdrawn d;
     evpn := evpn d; evpn_withdrawn := evpn_withdrawn d |}.

(** [parsed_data.attrs[t] = s] *)
Definition set_attr (t : Z) (s : string) (d : parsed_update_data) : parsed_update_data :=
  set_attrs (<[t := s]> (attrs d)) d.

(** ** Persistent peer state ([BMPReader::peer_info])

    The struct has no constructor; an entry that [peer_info_map[key]] creates
    is value-initialised, so every flag starts [false]. *)

Record peer_info : Type := {
  sent_four_octet_asn : bool;
  recv_four_octet_asn : bool;
  using_2_octet_asn : bool;
  add_path_capability : AddPathMap;
  peer_group : string;
  endOfRIB : bool }.

Definition new_peer_info : peer_info :=
  {| sent_four_octet_asn := false; recv_four_octet_asn := false; using_2_octet_asn := false;
     add_path_capability := ∅; peer_group := ""; endOfRIB := false |}.

Definition set_using_2_octet (b : bool) (i : peer_info) : peer_info :=
  {| sent_four_octet_asn := sent_four_octet_asn i; recv_four_octet_asn := recv_four_octet_asn i;
     using_2_octet_asn := b; add_path_capability := add_path_capability i;
     peer_group := peer_group i; endOfRIB := endOfRIB i |}.
Definition set_endOfRIB (b : bool) (i : peer_info) : peer_info :=
  {| sent_four_octet_asn := sent_four_octet_asn i; recv_four_octet_asn := recv_four_octet_asn i;
     using_2_octet_asn := using_2_octet_asn i; add_path_capability := add_path_capability i;
     peer_group := peer_group i; endOfRIB := b |}.
Definition set_sent_four (b : bool) (i : peer_info) : peer_info :=
  {| sent_four_octet_asn := b; recv_four_octet_asn := recv_four_octet_asn i;
     using_2_octet_asn := using_2_octet_asn i; add_path_capability := add_path_capability i;
     peer_group := peer_group i; endOfRIB := endOfRIB i |}.
Definition set_recv_four (b : bool) (i : peer_info) : peer_info :=
  {| sent_four_octet_asn := sent_four_octet_asn i; recv_four_octet_asn := b;
     using_2_octet_asn := using_2_octet_asn i; add_path_capability := add_path_capability i;
     peer_group := peer_group i; endOfRIB := endOfRIB i |}.
Definition set_peer_add_path (m : AddPathMap) (i : peer_info) : peer_info :=
  {| sent_four_octet_asn := sent_four_octet_asn i; recv_four_octet_asn := recv_four_octet_asn i;
     using_2_octet_asn := using_2_octet_asn i; add_path_capability := m;
     peer_group := peer_group i; endOfRIB := endOfRIB i |}.
