(* ===== verification/EVPN.v ===== *)
(** * EVPN NLRI parser ([bgp/EVPN.cpp])

    Route distinguishers, Ethernet segment identifiers and the EVPN route
    types 1 to 4. *)

From S2P Require Import Prelude Inet BgpCommon UpdateTypes.

Definition EVPN_ROUTE_TYPE_ETHERNET_AUTO_DISCOVERY : Z := 1.
Definition EVPN_ROUTE_TYPE_MAC_IP_ADVERTISMENT : Z := 2.
Definition EVPN_ROUTE_TYPE_INCLUSIVE_MULTICAST_ETHERNET_TAG : Z := 3.
Definition EVPN_ROUTE_TYPE_ETHERNET_SEGMENT_ROUTE : Z := 4.

(** ** Route distinguisher

    [val_ss.clear()] resets the stream's error flags and keeps its text, so in
    the types 0 and 2 the administrator is appended to the assigned number. *)
Definition parseRouteDistinguisher (p : ptr) (rd0 : rd_tuple) : outcome rd_tuple :=
  '(_, p) ← rd p;
  '(type, p) ← rd p;
  if type =? 0 then
    admin ← get_u16 p;
    num ← get_u32 (adv 2 p);
    Ok {| rd_assigned_number := dec num;
          rd_administrator_subfield := dec num +:+ dec admin; rd_type := Some type |}
  else if type =? 1 then
    admin ← memcpy 4 p;
    num ← get_u16 (adv 4 p);
    Ok {| rd_assigned_number := dec num;
          rd_administrator_subfield := inet_ntop4 admin; rd_type := Some type |}
  else if type =? 2 then
    admin ← get_u32 p;
    num ← get_u16 (adv 4 p);
    Ok {| rd_assigned_number := dec num;
          rd_administrator_subfield := dec num +:+ dec admin; rd_type := Some type |}
  else
    Ok {| rd_assigned_number := rd_assigned_number rd0;
          rd_administrator_subfield := rd_administrator_subfield rd0; rd_type := Some type |}.

(** ** Ethernet segment identifier *)

Definition hex_bytes (bs : list Z) : string := foldr (λ b s, hex2 b +:+ s) "" bs.

(** [(int)] of a network-order 32-bit value *)
Definition get_i32 (p : ptr) : outcome Z := v ← get_u32 p; Ok (i32 v).

(** three octets copied into an [int] or [uint32_t], swapped and shifted down;
    the fourth octet of the variable is shifted out *)
Definition get_u24 (p : ptr) : outcome Z :=
  bs ← memcpy 3 p; Ok (Z.shiftr (le_val (SWAP_BYTES (bs ++ [0]))) 8).

Definition parseEthernetSegmentIdentifier (p : ptr) : outcome string :=
  '(type, p) ← rd p;
  let pre := dec type +:+ " " in
  if type =? 0 then
    bs ← memcpy 9 p; Ok (pre +:+ hex_bytes bs)
  else if (type =? 1) || (type =? 2) then
    m ← parse_mac p; v ← get_u16 (adv 6 p); Ok (pre +:+ m +:+ " " +:+ dec v)
  else if type =? 3 then
    m ← parse_mac p; v ← get_u24 (adv 6 p); Ok (pre +:+ m +:+ " " +:+ dec (i32 v))
  else if (type =? 4) || (type =? 5) then
    a ← get_i32 p; v ← get_i32 (adv 4 p); Ok (pre +:+ dec a +:+ " " +:+ dec v)
  else Ok pre.

(** [memcpy(&tuple.mpls_label_1, p, 3); SWAP_BYTES; >>= 8] on a zeroed [int] *)
Definition get_label (p : ptr) : outcome Z :=
  bs ← memcpy 3 p; Ok (Z.shiftr (i32 (le_val (SWAP_BYTES (bs ++ [0])))) 8).

(** ** Route types

    [cursor] is [(data_pointer, data_read)]; each function is one case of the
    [switch] and leaves tuple and cursor unchanged when its guard fails. *)

Abbreviation cursor := (ptr * Z)%type.

Definition empty_evpn (r : rd_tuple) : evpn_tuple :=
  {| ev_rd := r; ev_path_id := 0; ethernet_segment_identifier := ""; ethernet_tag_id_hex := "";
     mac_len := 0; mac := ""; ip_len := 0; ip := ""; mpls_label_1 := 0; mpls_label_2 := 0;
     originating_router_ip_len := 0; originating_router_ip := "" |}.

Definition no_rd : rd_tuple :=
  {| rd_administrator_subfield := ""; rd_assigned_number := ""; rd_type := None |}.

Definition evpn_auto_discovery (r : rd_tuple) (p : ptr) (data_read data_len : Z)
  : outcome (evpn_tuple * cursor) :=
  if data_read + 17 <=? data_len then
    esi ← parseEthernetSegmentIdentifier p;
    let p := adv 10 p in
    tag ← memcpy 4 p;
    let p := adv 4 p in
    label ← get_label p;
    Ok ({| ev_rd := r; ev_path_id := 0; ethernet_segment_identifier := esi;
           ethernet_tag_id_hex := hex_bytes tag; mac_len := 0; mac := ""; ip_len := 0; ip := "";
           mpls_label_1 := label; mpls_label_2 := 0;
           originating_router_ip_len := 0; originating_router_ip := "" |},
        (adv 3 p, data_read + 17))
  else Ok (empty_evpn r, (p, data_read)).

(** [addr_bytes] of an address length in bits, capped at [sizeof(ip_binary)] *)
Definition evpn_addr_bytes (bits : Z) : Z :=
  let b := if 0 <? bits then bits / 8 else 0 in if 16 <? b then 16 else b.

(** an optional address: printed text and the octets consumed *)
Definition evpn_addr (bits : Z) (p : ptr) (data_read data_len : Z) : outcome (string * Z) :=
  let n := evpn_addr_bytes bits in
  if (0 <? bits) && (n + data_read <=? data_len) then
    raw ← memcpy_into (zeros 16) n p;
    Ok (inet_ntop (negb (32 <? bits)) raw, n)
  else Ok ("", 0).

Definition evpn_mac_ip (r : rd_tuple) (p : ptr) (data_read data_len len : Z)
  : outcome (evpn_tuple * cursor) :=
  if data_read + 25 <=? data_len then
    esi ← parseEthernetSegmentIdentifier p;
    let p := adv 10 p in
    tag ← memcpy 4 p;
    let p := adv 4 p in
    '(mlen, p) ← rd p;
    m ← parse_mac p;
    let p := adv 6 p in
    '(ilen, p) ← rd p;
    let data_read := data_read + 22 in
    let len := len - 22 in
    '(addr, n) ← evpn_addr ilen p data_read data_len;
    let p := adv n p in
    let data_read := data_read + n in
    let len := len - n in
    '(label1, p, data_read, len) ←
      (if data_read + 3 <=? data_len
       then l ← get_label p; Ok (l, adv 3 p, data_read + 3, len - 3)
       else Ok (0, p, data_read, len));
    '(label2, p, data_read) ←
      (if len =? 3 then l ← get_label p; Ok (l, adv 3 p, data_read + 3) else Ok (0, p, data_read));
    Ok ({| ev_rd := r; ev_path_id := 0; ethernet_segment_identifier := esi;
           ethernet_tag_id_hex := hex_bytes tag; mac_len := mlen; mac := m; ip_len := ilen; ip := addr;
           mpls_label_1 := label1; mpls_label_2 := label2;
           originating_router_ip_len := 0; originating_router_ip := "" |},
        (p, data_read))
  else Ok (empty_evpn r, (p, data_read)).

Definition evpn_multicast (r : rd_tuple) (p : ptr) (data_read data_len : Z)
  : outcome (evpn_tuple * cursor) :=
  if data_read + 5 <=? data_len then
    tag ← memcpy 4 p;
    let p := adv 4 p in
    '(olen, p) ← rd p;
    let data_read := data_read + 5 in
    '(addr, n) ← evpn_addr olen p data_read data_len;
    Ok ({| ev_rd := r; ev_path_id := 0; ethernet_segment_identifier := "";
           ethernet_tag_id_hex := hex_bytes tag; mac_len := 0; mac := ""; ip_len := 0; ip := "";
           mpls_label_1 := 0; mpls_label_2 := 0;
           originating_router_ip_len := olen; originating_router_ip := addr |},
        (adv n p, data_read + n))
  else Ok (empty_evpn r, (p, data_read)).

(** In this case the code counts the address in [data_read] and does not move
    [data_pointer] past it. *)
Definition evpn_segment (r : rd_tuple) (p : ptr) (data_read data_len : Z)
  : outcome (evpn_tuple * cursor) :=
  if data_read + 11 <=? data_len then
    esi ← parseEthernetSegmentIdentifier p;
    let p := adv 10 p in
    '(olen, p) ← rd p;
    let data_read := data_read + 11 in
    '(addr, n) ← evpn_addr olen p data_read data_len;
    Ok ({| ev_rd := r; ev_path_id := 0; ethernet_segment_identifier := esi;
           ethernet_tag_id_hex := ""; mac_len := 0; mac := ""; ip_len := 0; ip := "";
           mpls_label_1 := 0; mpls_label_2 := 0;
           originating_router_ip_len := olen; originating_router_ip := addr |},
        (p, data_read + n))
  else Ok (empty_evpn r, (p, data_read)).

(** ** The NLRI loop: [while ((data_read + 10) < data_len)] *)

Definition evpn_route (route_type : Z) (r : rd_tuple) (p : ptr) (data_read data_len len : Z)
  : outcome (evpn_tuple * cursor) :=
  if route_type =? EVPN_ROUTE_TYPE_ETHERNET_AUTO_DISCOVERY then evpn_auto_discovery r p data_read data_len
  else if route_type =? EVPN_ROUTE_TYPE_MAC_IP_ADVERTISMENT then evpn_mac_ip r p data_read data_len len
  else if route_type =? EVPN_ROUTE_TYPE_INCLUSIVE_MULTICAST_ETHERNET_TAG then evpn_multicast r p data_read data_len
  else if route_type =? EVPN_ROUTE_TYPE_ETHERNET_SEGMENT_ROUTE then evpn_segment r p data_read data_len
  else Ok (empty_evpn r, (p, data_read)).

Fixpoint evpn_loop (fuel : nat) (p : ptr) (data_read data_len : Z) (acc : list evpn_tuple)
  : outcome (list evpn_tuple) :=
  match fuel with
  | O => NoFuel
  | S fuel =>
      if data_read + 10 <? data_len then
        '(route_type, p) ← rd p;
        '(len, p) ← rd p;
        r ← parseRouteDistinguisher p no_rd;
        '(t, (p, data_read)) ← evpn_route route_type r (adv 8 p) (data_read + 10) data_len (len - 8);
        evpn_loop fuel p data_read data_len (acc ++ [t])
      else Ok acc
  end.

Definition parseNlriData (isUnreach : bool) (data : ptr) (data_len : Z) (d : parsed_update_data)
  : outcome parsed_update_data :=
  let acc := if isUnreach then evpn_withdrawn d else evpn d in
  l ← evpn_loop (S (Z.to_nat data_len)) data 0 data_len acc;
  Ok (if isUnreach then set_evpn_withdrawn l d else set_evpn l d).

(** ** Bounds

    How far a parser reads: with the octets it may touch present, it returns. *)

Lemma parseRouteDistinguisher_def p r : (8 ≤ length p)%nat → ∃ r', parseRouteDistinguisher p r = Ok r'.
Proof.
  intros Hp. unfold parseRouteDistinguisher. rstep. rstep.
  repeat case_match; [| | |eauto]; do 2 rstep; eauto.
Qed.

Lemma parseEthernetSegmentIdentifier_def p :
  (10 ≤ length p)%nat → ∃ s, parseEthernetSegmentIdentifier p = Ok s.
Proof.
  intros Hp. unfold parseEthernetSegmentIdentifier, get_u24, get_i32. rstep.
  repeat case_match; [| | | |eauto].
  - rstep. eauto.
  - do 2 rstep. eauto.
  - do 2 rstep. eauto.
  - do 2 rstep. eauto.
Qed.

Lemma get_label_def p : (3 ≤ length p)%nat → ∃ v, get_label p = Ok v.
Proof. intros. unfold get_label. rstep. eauto. Qed.

Lemma evpn_addr_bytes_bound bits : 0 ≤ evpn_addr_bytes bits ≤ 16.
Proof.
  unfold evpn_addr_bytes. repeat zcase; try lia.
  assert (0 ≤ bits / 8) by (apply Z.div_pos; lia). lia.
Qed.

Lemma evpn_addr_def bits p n len :
  len - n ≤ Z.of_nat (length p) →
  ∃ s k, evpn_addr bits p n len = Ok (s, k) ∧ 0 ≤ k ≤ 16 ∧ (k = 0 ∨ n + k ≤ len).
Proof.
  intros Hp. unfold evpn_addr. pose proof (evpn_addr_bytes_bound bits).
  destruct (0 <? bits); [|exists "", 0; split_and!; [done|lia..]]. simpl.
  zcase; [|exists "", 0; split_and!; [done|lia..]].
  unfold memcpy_into. rewrite length_zeros. zcase; [|lia].
  rstep. eexists _, _. split; [done|lia].
Qed.

(** Where a route leaves the cursor: [data_read] never goes back, and the
    pointer keeps at least [data_len - data_read + 3] octets ahead. *)
Lemma evpn_mac_ip_def r p n len l :
  len - n + 3 ≤ Z.of_nat (length p) →
  ∃ t p' n', evpn_mac_ip r p n len l = Ok (t, (p', n'))
    ∧ n ≤ n' ∧ len - n' + 3 ≤ Z.of_nat (length p').
Proof.
  intros Hp.
  unfold evpn_mac_ip. zcase; [|eauto 6 with lia].
  destruct (parseEthernetSegmentIdentifier_def p) as [s ->]; [len|]. rewrite bind_Ok_l.
  do 4 rstep.
  match goal with |- context [evpn_addr ?b ?q ?k len] =>
    destruct (evpn_addr_def b q k len) as (a & na & -> & ? & ?); [len|] end.
  rewrite bind_Ok_l. cbn beta iota.
  match goal with |- context [get_label (adv na ?q)] => set (q' := adv na q) end.
  assert (len - (n + 22 + na) + 3 ≤ Z.of_nat (length q')) as Hq by (subst q'; len).
  clearbody q'. zcase.
  + destruct (get_label_def q') as [v ->]; [len|]. rewrite !bind_Ok_l. cbn beta iota.
    zcase; [|rewrite bind_Ok_l; eexists _, _, _; split; [done|len]].
    destruct (get_label_def (adv 3 q')) as [v' ->]; [len|]. rewrite !bind_Ok_l.
    eexists _, _, _. split; [done|len].
  + rewrite bind_Ok_l. cbn beta iota.
    zcase; [|rewrite bind_Ok_l; eexists _, _, _; split; [done|len]].
    destruct (get_label_def q') as [v' ->]; [len|]. rewrite !bind_Ok_l.
    eexists _, _, _. split; [done|len].
Qed.

Lemma evpn_route_def type r p n len l :
  len - n + 3 ≤ Z.of_nat (length p) →
  ∃ t p' n', evpn_route type r p n len l = Ok (t, (p', n'))
    ∧ n ≤ n' ∧ len - n' + 3 ≤ Z.of_nat (length p').
Proof.
  intros Hp. unfold evpn_route.
  repeat match goal with |- context [if type =? ?k then _ else _] => destruct (type =? k) end;
    [| | | |eauto 6 with lia].
  - unfold evpn_auto_discovery. zcase; [|eauto 6 with lia].
    destruct (parseEthernetSegmentIdentifier_def p) as [s ->]; [len|]. rewrite bind_Ok_l. rstep.
    destruct (get_label_def (adv 4 (adv 10 p))) as [v ->]; [len|]. rewrite bind_Ok_l.
    eexists _, _, _. split; [done|]. len.
  - by apply evpn_mac_ip_def.
  - unfold evpn_multicast. zcase; [|eauto 6 with lia]. do 2 rstep.
    match goal with |- context [evpn_addr ?b ?q ?k len] =>
      destruct (evpn_addr_def b q k len) as (a & na & -> & ? & ?); [len|] end.
    rewrite bind_Ok_l. eexists _, _, _. split; [done|len].
  - unfold evpn_segment. zcase; [|eauto 6 with lia].
    destruct (parseEthernetSegmentIdentifier_def p) as [s ->]; [len|]. rewrite bind_Ok_l. rstep.
    match goal with |- context [evpn_addr ?b ?q ?k len] =>
      destruct (evpn_addr_def b q k len) as (a & na & -> & ? & ?); [len|] end.
    rewrite bind_Ok_l. eexists _, _, _. split; [done|len].
Qed.

Lemma evpn_loop_def fuel p n len acc :
  0 ≤ n → len - n < Z.of_nat fuel → 0 < Z.of_nat fuel → len - n + 3 ≤ Z.of_nat (length p) →
  ∃ l, evpn_loop fuel p n len acc = Ok (acc ++ l).
Proof.
  revert p n acc. induction fuel as [|fuel IH]; intros p n acc Hn Hf Hf' Hp; [lia|].
  cbn [evpn_loop]. zcase; [|exists []; by rewrite app_nil_r].
  do 2 rstep.
  destruct (parseRouteDistinguisher_def x2 no_rd) as [r ->]; [len|]. rewrite bind_Ok_l.
  destruct (evpn_route_def x r (adv 8 x2) (n + 10) len (x1 - 8)) as (t & p' & n' & -> & ? & ?); [len|].
  rewrite bind_Ok_l. cbn beta iota.
  destruct (IH p' n' (acc ++ [t])) as [l' ->]; [lia..|].
  exists (t :: l'). by rewrite <-app_assoc.
Qed.

(** The EVPN parser stays within three octets of the announced length and
    terminates.  With [data_len + 3] octets available it returns normally for
    every content, and it only appends to the advertised (or withdrawn) EVPN
    list of the parse result. *)
Theorem evpn_parse_bounded (isUnreach : bool) (data : ptr) (data_len : Z) (d : parsed_update_data) :
  0 ≤ data_len → data_len + 3 ≤ Z.of_nat (length data) →
  ∃ l, parseNlriData isUnreach data data_len d
       = Ok (if isUnreach then set_evpn_withdrawn (evpn_withdrawn d ++ l) d
             else set_evpn (evpn d ++ l) d).
Proof.
  intros Hl Hd. unfold parseNlriData.
  destruct (evpn_loop_def (S (Z.to_nat data_len)) data 0 data_len
    (if isUnreach then evpn_withdrawn d else evpn d)) as [l ->]; [lia..|].
  exists l. by destruct isUnreach.
Qed.

Lemma evpn_parse_bounded_witness :
  ∃ l, parseNlriData false ([3; 17] ++ zeros 30) 27 no_update
       = Ok (set_evpn (evpn no_update ++ l) no_update).
Proof. apply (evpn_parse_bounded false ([3; 17] ++ zeros 30) 27 no_update); [lia|vm_compute; done]. Defined.

(** The three octets are needed.  A MAC/IP route whose length octet
    announces a second label makes the parser read that label without checking
    the attribute's length. *)
Theorem evpn_second_label_overread :
  let nlri := [2; 36] ++ zeros 8 ++ zeros 10 ++ zeros 4 ++ [48] ++ zeros 6 ++ [0] ++ [0; 1; 1] in
  length nlri = 35%nat ∧ parseNlriData false nlri 35 no_update = Undef OobRead.
Proof. vm_compute. done. Qed.

(** ** Round trip

    EVPN routes as data (RFC 7432): route distinguisher, segment identifier, Ethernet
    tag (4 octets), MAC (6), labels, address (0, 4 or 16 octets). *)

(** a segment identifier: arbitrary, with the MAC of a LACP system or of a root bridge
    and a port key or priority, with the MAC of the system and a discriminator of three
    octets, with a router identifier, with an AS number, or of an unknown type *)
Inductive segment_id : Type :=
| EsiArbitrary (bs : list Z)
| EsiLacp (m : list Z) (key : Z)
| EsiBridge (m : list Z) (priority : Z)
| EsiMac (m : list Z) (disc : Z)
| EsiRouter (id disc : Z)
| EsiAs (asn disc : Z)
| EsiOther (t : Z) (bs : list Z).

Definition enc_esi (e : segment_id) : list Z :=
  match e with
  | EsiArbitrary bs => 0 :: bs
  | EsiLacp m key => 1 :: m ++ hton 2 key ++ [0]
  | EsiBridge m priority => 2 :: m ++ hton 2 priority ++ [0]
  | EsiMac m disc => 3 :: m ++ hton 3 disc
  | EsiRouter id disc => 4 :: hton 4 id ++ hton 4 disc ++ [0]
  | EsiAs asn disc => 5 :: hton 4 asn ++ hton 4 disc ++ [0]
  | EsiOther t bs => t :: bs
  end.

(** numbers of four octets are printed as an [int] *)
Definition wf_esi (e : segment_id) : Prop :=
  match e with
  | EsiArbitrary bs => length bs = 9%nat
  | EsiLacp m v | EsiBridge m v => length m = 6%nat ∧ 0 ≤ v < 2 ^ 16
  | EsiMac m disc => length m = 6%nat ∧ 0 ≤ disc < 2 ^ 24
  | EsiRouter a disc | EsiAs a disc => 0 ≤ a < 2 ^ 31 ∧ 0 ≤ disc < 2 ^ 31
  | EsiOther t bs => 6 ≤ t < 256 ∧ length bs = 9%nat
  end.

Definition esi_meant (e : segment_id) : string :=
  match e with
  | EsiArbitrary bs => "0 " +:+ hex_bytes bs
  | EsiLacp m key => "1 " +:+ hex_colon m +:+ " " +:+ dec key
  | EsiBridge m priority => "2 " +:+ hex_colon m +:+ " " +:+ dec priority
  | EsiMac m disc => "3 " +:+ hex_colon m +:+ " " +:+ dec disc
  | EsiRouter id disc => "4 " +:+ dec id +:+ " " +:+ dec disc
  | EsiAs asn disc => "5 " +:+ dec asn +:+ " " +:+ dec disc
  | EsiOther t _ => dec t +:+ " "
  end.

(** the texts of a route distinguisher; in the types 0 and 2 the administrator comes
    behind the assigned number *)
Definition rd_meant (r : route_distinguisher) : rd_tuple :=
  match r with
  | RdAs asn num => {| rd_type := Some 0; rd_assigned_number := dec num; rd_administrator_subfield := dec num +:+ dec asn |}
  | RdIp ip num => {| rd_type := Some 1; rd_assigned_number := dec num; rd_administrator_subfield := inet_ntop4 ip |}
  | RdAs4 asn num => {| rd_type := Some 2; rd_assigned_number := dec num; rd_administrator_subfield := dec num +:+ dec asn |}
  end.

(** the label field of three octets as a signed number *)
Definition label_meant (v : Z) : Z := if v <? 2 ^ 23 then v else v - 2 ^ 24.

Inductive evpn_nlri : Type :=
| AutoDiscovery (r : route_distinguisher) (esi : segment_id) (tag : list Z) (label : Z)
| MacIp (r : route_distinguisher) (esi : segment_id) (tag : list Z) (mlen : Z) (m addr : list Z) (label1 : Z) (label2 : option Z)
| Multicast (r : route_distinguisher) (tag addr : list Z).

Definition bits (addr : list Z) : Z := 8 * Z.of_nat (length addr).
Definition opt_label (o : option Z) : list Z := match o with Some l => hton 3 l | None => [] end.

Definition evpn_body (x : evpn_nlri) : list Z :=
  match x with
  | AutoDiscovery r esi tag label => enc_rd r ++ enc_esi esi ++ tag ++ hton 3 label
  | MacIp r esi tag mlen m addr l1 l2 =>
      enc_rd r ++ enc_esi esi ++ tag ++ [mlen] ++ m ++ [bits addr] ++ addr ++ hton 3 l1 ++ opt_label l2
  | Multicast r tag addr => enc_rd r ++ tag ++ [bits addr] ++ addr
  end.

Definition evpn_type (x : evpn_nlri) : Z :=
  match x with AutoDiscovery _ _ _ _ => 1 | MacIp _ _ _ _ _ _ _ _ => 2 | Multicast _ _ _ => 3 end.

Definition enc_evpn (x : evpn_nlri) : list Z :=
  evpn_type x :: Z.of_nat (length (evpn_body x)) :: evpn_body x.

Definition wf_addr (a : list Z) : Prop := length a = 0%nat ∨ length a = 4%nat ∨ length a = 16%nat.

Definition wf_evpn (x : evpn_nlri) : Prop :=
  match x with
  | AutoDiscovery r esi tag label => wf_rd r ∧ wf_esi esi ∧ length tag = 4%nat ∧ 0 ≤ label < 2 ^ 24
  | MacIp r esi tag _ m addr l1 l2 =>
      wf_rd r ∧ wf_esi esi ∧ length tag = 4%nat ∧ length m = 6%nat ∧ wf_addr addr
      ∧ 0 ≤ l1 < 2 ^ 24 ∧ match l2 with Some l => 0 ≤ l < 2 ^ 24 | None => True end
  | Multicast r tag addr => wf_rd r ∧ length tag = 4%nat ∧ wf_addr addr
  end.

Definition addr_text (addr : list Z) : string :=
  match length addr with
  | 0%nat => ""
  | 4%nat => inet_ntop4 addr
  | _ => inet_ntop6 addr
  end.

Definition evpn_meant (x : evpn_nlri) : evpn_tuple :=
  match x with
  | AutoDiscovery r esi tag label =>
      {| ev_rd := rd_meant r; ev_path_id := 0; ethernet_segment_identifier := esi_meant esi;
         ethernet_tag_id_hex := hex_bytes tag; mac_len := 0; mac := ""; ip_len := 0; ip := "";
         mpls_label_1 := label_meant label; mpls_label_2 := 0;
         originating_router_ip_len := 0; originating_router_ip := "" |}
  | MacIp r esi tag mlen m addr l1 l2 =>
      {| ev_rd := rd_meant r; ev_path_id := 0; ethernet_segment_identifier := esi_meant esi;
         ethernet_tag_id_hex := hex_bytes tag; mac_len := mlen; mac := hex_colon m;
         ip_len := bits addr; ip := addr_text addr; mpls_label_1 := label_meant l1;
         mpls_label_2 := match l2 with Some l => label_meant l | None => 0 end;
         originating_router_ip_len := 0; originating_router_ip := "" |}
  | Multicast r tag addr =>
      {| ev_rd := rd_meant r; ev_path_id := 0; ethernet_segment_identifier := "";
         ethernet_tag_id_hex := hex_bytes tag; mac_len := 0; mac := ""; ip_len := 0; ip := "";
         mpls_label_1 := 0; mpls_label_2 := 0;
         originating_router_ip_len := bits addr; originating_router_ip := addr_text addr |}
  end.

Lemma parseRouteDistinguisher_app r rest r0 : wf_rd r → parseRouteDistinguisher (enc_rd r ++ rest) r0 = Ok (rd_meant r).
Proof.
  unfold parseRouteDistinguisher. destruct r as [asn num|ip num|asn num]; cbn [wf_rd enc_rd rd_meant]; rewrite <-!app_assoc.
  - intros [Ha Hn]. change (hton 2 0) with [0; 0]. cbn [app]. rrun. cbn [Z.eqb]. rewrite get_u16_hton by done. run.
    rewrite ?adv_app, get_u32_hton by (rewrite ?length_hton; done). done.
  - intros (_ & Hl & Hn). change (hton 2 1) with [0; 1]. cbn [app]. rrun. cbn [Z.eqb Pos.eqb]. rewrite memcpy_app by lia. run.
    rewrite ?adv_app, get_u16_hton by (done || lia). done.
  - intros [Ha Hn]. change (hton 2 2) with [0; 2]. cbn [app]. rrun. cbn [Z.eqb Pos.eqb]. rewrite get_u32_hton by done. run.
    rewrite ?adv_app, get_u16_hton by (rewrite ?length_hton; done). done.
Qed.

Lemma get_i32_hton v rest : 0 ≤ v < 2 ^ 31 → get_i32 (hton 4 v ++ rest) = Ok v.
Proof. intros Hv. unfold get_i32. rewrite get_u32_hton by lia. run. by rewrite i32_small by lia. Qed.

Lemma hton3_word v : 0 ≤ v < 2 ^ 24 → le_val (SWAP_BYTES (hton 3 v ++ [0])) = 256 * v.
Proof.
  intros Hv. change (le_val (SWAP_BYTES (hton 3 v ++ [0]))) with (ntoh (hton 3 v ++ [0])). rewrite ntoh_app, ntoh_hton by done.
  change (ntoh [0]) with 0. cbn [length]. lia.
Qed.

Lemma get_u24_hton v rest : 0 ≤ v < 2 ^ 24 → get_u24 (hton 3 v ++ rest) = Ok v.
Proof.
  intros Hv. unfold get_u24. rewrite memcpy_app by (by rewrite length_hton). run. rewrite hton3_word by done.
  f_equal. rewrite Z.shiftr_div_pow2 by lia. change (2 ^ 8) with 256. rewrite Z.mul_comm. by apply Z.div_mul.
Qed.

Lemma length_enc_esi e : wf_esi e → length (enc_esi e) = 10%nat.
Proof.
  destruct e; cbn [wf_esi enc_esi]; intros; cbn [length]; rewrite ?length_app, ?length_hton; cbn [length]; lia.
Qed.

Lemma parseEthernetSegmentIdentifier_app e rest :
  wf_esi e → parseEthernetSegmentIdentifier (enc_esi e ++ rest) = Ok (esi_meant e).
Proof.
  intros He. unfold parseEthernetSegmentIdentifier, parse_mac.
  destruct e as [bs|m v|m v|m v|a v|a v|t bs]; cbn [wf_esi enc_esi esi_meant app] in *; rrun;
    cbn [Z.eqb Pos.eqb orb]; rewrite <-?app_assoc.
  - by rewrite memcpy_app by lia.
  - destruct He as [Hm Hv]. rewrite memcpy_app by lia. run. by rewrite ?adv_app, get_u16_hton by (done || lia).
  - destruct He as [Hm Hv]. rewrite memcpy_app by lia. run. by rewrite ?adv_app, get_u16_hton by (done || lia).
  - destruct He as [Hm Hv]. rewrite memcpy_app by lia. run. rewrite ?adv_app, get_u24_hton by (done || lia). run.
    by rewrite i32_small by lia.
  - destruct He as [Hm Hv]. rewrite get_i32_hton by done. run. by rewrite ?adv_app, get_i32_hton by (rewrite ?length_hton; done).
  - destruct He as [Hm Hv]. rewrite get_i32_hton by done. run. by rewrite ?adv_app, get_i32_hton by (rewrite ?length_hton; done).
  - do 6 (rewrite (proj2 (Z.eqb_neq t _)) by lia). done.
Qed.

Lemma get_label_app l rest : 0 ≤ l < 2 ^ 24 → get_label (hton 3 l ++ rest) = Ok (label_meant l).
Proof.
  intros Hl. unfold get_label. rewrite memcpy_app by (by rewrite length_hton). run. rewrite hton3_word by done. f_equal.
  rewrite Z.shiftr_div_pow2 by lia. unfold label_meant, i32. change (2 ^ 8) with 256. zif.
  - rewrite Z.mod_small by lia. rewrite Z.mul_comm. replace (l * 256 + 2 ^ 31 - 2 ^ 31) with (l * 256) by lia. by apply Z.div_mul.
  - replace (256 * l + 2 ^ 31) with (256 * l - 2 ^ 31 + 1 * 2 ^ 32) by lia. rewrite Z.mod_add, Z.mod_small by lia.
    replace (256 * l - 2 ^ 31 - 2 ^ 31) with ((l - 2 ^ 24) * 256) by lia. by apply Z.div_mul.
Qed.

Lemma evpn_addr_app addr rest n len :
  wf_addr addr → n + Z.of_nat (length addr) ≤ len →
  evpn_addr (bits addr) (addr ++ rest) n len = Ok (addr_text addr, Z.of_nat (length addr)).
Proof.
  intros Ha Hn. unfold evpn_addr, bits, addr_text.
  assert (evpn_addr_bytes (8 * Z.of_nat (length addr)) = Z.of_nat (length addr)) as Hb
    by (destruct Ha as [-> | [-> | ->]]; done).
  rewrite Hb. destruct (0 <? 8 * Z.of_nat (length addr)) eqn:E0; cmp.
  - zcase; [|lia]. cbn [andb]. rewrite memcpy_into_app by (rewrite ?length_zeros; destruct Ha as [-> | [-> | ->]]; lia).
    rrun. destruct Ha as [Ha | [Ha | Ha]]; [lia| |]; rewrite Ha.
    + explode addr 4 Ha. done.
    + explode addr 16 Ha. done.
  - by destruct addr; [|simpl in *; lia].
Qed.

Lemma evpn_auto_discovery_app r esi tag label rest n len :
  wf_esi esi → length tag = 4%nat → 0 ≤ label < 2 ^ 24 → n + 17 ≤ len →
  evpn_auto_discovery r (enc_esi esi ++ tag ++ hton 3 label ++ rest) n len
  = Ok ({| ev_rd := r; ev_path_id := 0; ethernet_segment_identifier := esi_meant esi;
           ethernet_tag_id_hex := hex_bytes tag; mac_len := 0; mac := ""; ip_len := 0; ip := "";
           mpls_label_1 := label_meant label; mpls_label_2 := 0;
           originating_router_ip_len := 0; originating_router_ip := "" |}, (rest, n + 17)).
Proof.
  intros He Ht Hl Hn. unfold evpn_auto_discovery. zcase; [|lia].
  rewrite parseEthernetSegmentIdentifier_app by done. run. rewrite ?(adv_app (enc_esi esi)) by (rewrite length_enc_esi; done).
  rewrite ?(memcpy_app tag), ?(adv_app tag) by lia. run.
  by rewrite get_label_app, ?(adv_app (hton 3 label)) by (rewrite ?length_hton; lia).
Qed.

Lemma evpn_mac_ip_app r esi tag mlen m addr l1 l2 rest n len :
  wf_esi esi → length tag = 4%nat → length m = 6%nat → wf_addr addr →
  0 ≤ l1 < 2 ^ 24 → match l2 with Some l => 0 ≤ l < 2 ^ 24 | None => True end →
  n + 25 + Z.of_nat (length addr + length (opt_label l2)) ≤ len →
  evpn_mac_ip r (enc_esi esi ++ tag ++ mlen :: m ++ bits addr :: addr ++ hton 3 l1 ++ opt_label l2 ++ rest) n len
    (25 + Z.of_nat (length addr + length (opt_label l2)))
  = Ok ({| ev_rd := r; ev_path_id := 0; ethernet_segment_identifier := esi_meant esi;
           ethernet_tag_id_hex := hex_bytes tag; mac_len := mlen; mac := hex_colon m;
           ip_len := bits addr; ip := addr_text addr; mpls_label_1 := label_meant l1;
           mpls_label_2 := match l2 with Some l => label_meant l | None => 0 end;
           originating_router_ip_len := 0; originating_router_ip := "" |},
        (rest, n + 25 + Z.of_nat (length addr + length (opt_label l2)))).
Proof.
  intros He Ht Hm Ha Hl1 Hl2 Hn. unfold evpn_mac_ip. zif; [|lia].
  rewrite parseEthernetSegmentIdentifier_app by done. run. rewrite ?(adv_app (enc_esi esi)) by (rewrite length_enc_esi; done).
  rewrite ?(memcpy_app tag), ?(adv_app tag) by lia. run. unfold parse_mac.
  rewrite ?(memcpy_app m), ?(adv_app m) by lia. run.
  rewrite evpn_addr_app by (done || lia). run. rewrite ?(adv_app addr) by lia.
  zif; [|lia]. rewrite get_label_app, ?(adv_app (hton 3 l1)) by (rewrite ?length_hton; lia). run.
  destruct l2 as [l2|]; cbn [opt_label length] in *; rewrite ?length_hton in *.
  - zif; [|lia]. rewrite get_label_app, ?(adv_app (hton 3 l2)) by (rewrite ?length_hton; lia). run.
    do 3 f_equal. lia.
  - zif; [lia|]. run. do 3 f_equal. lia.
Qed.

Lemma evpn_multicast_app r tag addr rest n len :
  length tag = 4%nat → wf_addr addr → n + 5 + Z.of_nat (length addr) ≤ len →
  evpn_multicast r (tag ++ bits addr :: addr ++ rest) n len
  = Ok ({| ev_rd := r; ev_path_id := 0; ethernet_segment_identifier := "";
           ethernet_tag_id_hex := hex_bytes tag; mac_len := 0; mac := ""; ip_len := 0; ip := "";
           mpls_label_1 := 0; mpls_label_2 := 0;
           originating_router_ip_len := bits addr; originating_router_ip := addr_text addr |},
        (rest, n + 5 + Z.of_nat (length addr))).
Proof.
  intros Ht Ha Hn. unfold evpn_multicast. zcase; [|lia].
  rewrite ?(memcpy_app tag), ?(adv_app tag) by lia. run.
  rewrite evpn_addr_app by (done || lia). run. by rewrite ?(adv_app addr) by lia.
Qed.

Definition enc_evpns (xs : list evpn_nlri) : list Z := concat (enc_evpn <$> xs).

Lemma evpn_loop_app fuel xs rest n acc :
  Forall wf_evpn xs → (length xs < fuel)%nat →
  evpn_loop fuel (enc_evpns xs ++ rest) n (n + Z.of_nat (length (enc_evpns xs))) acc
  = Ok (acc ++ (evpn_meant <$> xs)).
Proof.
  revert fuel n acc. induction xs as [|x xs IH]; intros fuel n acc Hwf Hf;
    (destruct fuel as [|fuel]; [simpl in Hf; lia|]); cbn [evpn_loop].
  { zcase; [simpl in *; lia|]. by rewrite app_nil_r. }
  inversion_clear Hwf as [|? ? Hx Hxs].
  change (enc_evpns (x :: xs)) with (enc_evpn x ++ enc_evpns xs). rewrite length_app, <-app_assoc.
  set (L := length (enc_evpns xs)). specialize (IH fuel).
  assert (∀ k, evpn_loop fuel (enc_evpns xs ++ rest) (n + k) (n + k + Z.of_nat L) (acc ++ [evpn_meant x])
          = Ok (acc ++ (evpn_meant <$> x :: xs))) as IH'.
  { intros k. rewrite IH by (done || simpl in Hf; lia). by rewrite <-app_assoc. }
  destruct x as [r esi tag label|r esi tag mlen m addr l1 l2|r tag addr];
    unfold enc_evpn; cbn [evpn_type evpn_body wf_evpn app] in *; destruct_and! Hx;
    do 4 (rewrite ?length_app in *; cbn [length] in *);
    rewrite ?length_hton, ?length_enc_rd, ?length_enc_esi by done;
    (zif; [|lia]); run; do 3 (rewrite <-?app_assoc; cbn [app]);
    rewrite parseRouteDistinguisher_app by done; run;
    rewrite ?(adv_app (enc_rd r)) by (rewrite length_enc_rd; done).
  - change (evpn_route 1 ?r ?p ?n ?len ?l) with (evpn_auto_discovery r p n len).
    rewrite evpn_auto_discovery_app by (done || lia). run.
    specialize (IH' 27). replace (n + 10 + 17) with (n + 27) by lia.
    etrans; [|apply IH']. f_equal. lia.
  - change (evpn_route 2 ?r ?p ?n ?len ?l) with (evpn_mac_ip r p n len l).
    replace (_ - 8) with (25 + Z.of_nat (length addr + length (opt_label l2))) by lia.
    rewrite evpn_mac_ip_app by (done || lia). run.
    specialize (IH' (35 + Z.of_nat (length addr + length (opt_label l2)))).
    etrans; [|apply IH']. f_equal; lia.
  - change (evpn_route 3 ?r ?p ?n ?len ?l) with (evpn_multicast r p n len).
    rewrite evpn_multicast_app by (done || lia). run.
    specialize (IH' (15 + Z.of_nat (length addr))). etrans; [|apply IH']. f_equal; lia.
Qed.

Lemma length_enc_evpns_ge xs : (length xs ≤ length (enc_evpns xs))%nat.
Proof.
  induction xs as [|x xs IH]; [done|].
  change (enc_evpns (x :: xs)) with (enc_evpn x ++ enc_evpns xs). rewrite length_app. simpl. lia.
Qed.

(** C30: parsing encoded EVPN routes returns them.  A concatenation of Ethernet
    auto-discovery, MAC/IP (with or without address and second label) and
    inclusive multicast routes decodes, in order, to one tuple per route with the
    numbers and texts that were encoded: the distinguisher of type 0, 1 or 2, the segment
    identifier of any type (numbers of four octets below 2^31), tag, MAC, address and
    labels.  As the code prints them: the administrator of a distinguisher of type 0 or 2
    has the assigned number in front of it, and a label is the whole field of three
    octets, read as a signed number. *)
Theorem evpn_roundtrip (isUnreach : bool) (xs : list evpn_nlri) (rest : ptr) (d : parsed_update_data) :
  Forall wf_evpn xs →
  parseNlriData isUnreach (enc_evpns xs ++ rest) (Z.of_nat (length (enc_evpns xs))) d
  = Ok (if isUnreach then set_evpn_withdrawn (evpn_withdrawn d ++ (evpn_meant <$> xs)) d
        else set_evpn (evpn d ++ (evpn_meant <$> xs)) d).
Proof.
  intros Hx. unfold parseNlriData. pose proof (length_enc_evpns_ge xs).
  pose proof (evpn_loop_app (S (Z.to_nat (Z.of_nat (length (enc_evpns xs))))) xs rest 0
    (if isUnreach then evpn_withdrawn d else evpn d) Hx) as E.
  rewrite Z.add_0_l in E. rewrite E by lia. by destruct isUnreach.
Qed.

Definition sample_evpn : list evpn_nlri :=
  [MacIp (RdIp [10;0;0;1] 7) (EsiLacp [0;17;34;51;68;86] 300) [0;0;0;5] 48 [0;17;34;51;68;85] [192;168;1;1] 257 (Some 0x900000);
   Multicast (RdAs 65000 1) [0;0;0;5] [10;0;0;1]; AutoDiscovery (RdAs4 4200000000 2) (EsiAs 65000 9) [0;0;0;5] 1601].

Lemma evpn_roundtrip_witness :
  parseNlriData false (enc_evpns sample_evpn ++ []) (Z.of_nat (length (enc_evpns sample_evpn))) no_update
  = Ok (set_evpn (evpn no_update ++ (evpn_meant <$> sample_evpn)) no_update)
  ∧ (ethernet_segment_identifier <$> (evpn_meant <$> sample_evpn)) = ["1 00:11:22:33:44:56 300"; ""; "5 65000 9"].
Proof.
  split; [|vm_compute; reflexivity].
  apply (evpn_roundtrip false sample_evpn [] no_update).
  unfold sample_evpn. repeat (apply Forall_cons; split); try apply Forall_nil; cbn [wf_evpn wf_rd wf_esi];
    repeat first [lia | reflexivity | right; left; reflexivity | split | apply Forall_cons | apply Forall_nil]; lia.
Defined.

(** A type 0 or type 2 route distinguisher is printed with the assigned
    number glued in front of the administrator: the stream that prints both is
    not emptied in between. *)
Theorem rd_administrator_carries_assigned_number (t a b c d e f : Z) (rest : ptr) :
  (∃ x, parseRouteDistinguisher (t :: 0 :: a :: b :: c :: d :: e :: f :: rest) no_rd = Ok x
     ∧ rd_administrator_subfield x = rd_assigned_number x +:+ dec (ntoh [a; b]))
  ∧ (∃ x, parseRouteDistinguisher (t :: 2 :: a :: b :: c :: d :: e :: f :: rest) no_rd = Ok x
     ∧ rd_administrator_subfield x = rd_assigned_number x +:+ dec (ntoh [a; b; c; d]))
  ∧ (∃ x, parseRouteDistinguisher (t :: 1 :: a :: b :: c :: d :: e :: f :: rest) no_rd = Ok x
     ∧ rd_administrator_subfield x = inet_ntop4 [a; b; c; d] ∧ rd_assigned_number x = dec (ntoh [e; f])).
Proof.
  split_and!; unfold parseRouteDistinguisher; rrun; cbn [Z.eqb]; rrun; eauto.
Qed.

(** After an Ethernet segment route the parser is misaligned.  The address
    of a type 4 route is counted as read but the pointer is not moved past it,
    so a following route is decoded from the address octets: here the second
    route, a multicast route for 10.0.0.2, comes out as an unknown type with no
    originating address. *)
Theorem evpn_segment_route_misaligns :
  let r4 := [4; 23] ++ [0;1;10;0;0;1;0;7] ++ zeros 10 ++ [32; 10;0;0;1] in
  let r3 := enc_evpn (Multicast (RdIp [10;0;0;1] 7) [0;0;0;5] [10;0;0;2]) in
  ∃ d t1 t2, parseNlriData false (r4 ++ r3) (Z.of_nat (length (r4 ++ r3))) no_update = Ok d
    ∧ evpn d = [t1; t2] ∧ originating_router_ip t1 = "10.0.0.1" ∧ originating_router_ip t2 = "".
Proof. vm_compute. do 3 eexists. eauto. Qed.
