(* ===== verification/MPReach.v ===== *)
(** * MP_REACH_NLRI and MP_UNREACH_NLRI
      ([bgp/MPReachAttr.cpp], [bgp/MPUnReachAttr.cpp])

    Multiprotocol reachability: the attribute header, the dispatch on AFI and
    SAFI, and the decoders of plain and labelled IPv4/IPv6 prefixes.  The
    link-state parsers are reached through the interface [LinkState]. *)

From S2P Require Import Prelude Inet BgpCommon AddPath UpdateTypes EVPN.

(** ** Attribute headers *)

Record mp_reach_nlri : Type := {
  afi : Z; safi : Z; nh_len : Z; next_hop : ptr; reserved : Z; nlri_data : ptr; nlri_len : Z }.

Record mp_unreach_nlri : Type := {
  un_afi : Z; un_safi : Z; un_nlri_data : ptr; un_nlri_len : Z }.

(** ** The link-state component, as the UPDATE parsers see it

    [MPLinkState::parseReachLinkState], [MPLinkState::parseUnReachLinkState] and
    [MPLinkStateAttr::parseAttrLinkState] change the parse result only. *)
Class LinkState : Type := {
  parseReachLinkState : mp_reach_nlri → parsed_update_data → outcome parsed_update_data;
  parseUnReachLinkState : mp_unreach_nlri → parsed_update_data → outcome parsed_update_data;
  parseAttrLinkState : Z → ptr → parsed_update_data → outcome parsed_update_data }.

(** ** Prefix octets *)

(** [addr_bytes = len / 8; if (len % 8) ++addr_bytes;] *)
Definition addr_bytes (len : Z) : Z := if len mod 8 =? 0 then len / 8 else len / 8 + 1.

(** ** Labels: [decodeLabel]

    Three octets are copied over a zeroed 32-bit word and swapped, which puts
    the 20-bit label in the bits 12 to 31 and the bottom-of-stack bit at 8. *)

Definition label_word (bs : list Z) : Z := ntoh (bs ++ [0]).
Definition label_value (w : Z) : Z := Z.shiftr w 12.
Definition label_bos (w : Z) : bool := Z.testbit w 8.

(** [while (read_size <= len)] *)
Fixpoint label_loop (fuel : nat) (p : ptr) (read_size len : Z) (labels : string)
  : outcome (Z * string) :=
  match fuel with
  | O => NoFuel
  | S fuel =>
      if read_size <=? len then
        bs ← memcpy 3 p;
        let w := label_word bs in
        let labels := labels +:+ dec (label_value w) in
        if label_bos w || (w =? 2147483648) || (w =? 0)
        then Ok (read_size + 3, labels)
        else label_loop fuel (adv 3 p) (read_size + 3) len (labels +:+ ",")
      else Ok (read_size, labels)
  end.

Definition decodeLabel (p : ptr) (len : Z) : outcome (Z * string) :=
  label_loop (S (S (Z.to_nat len))) p 0 len "".

(** ** Plain prefixes *)

(** the add-path identifier in front of a prefix: identifier and octets read *)
Definition path_id_step (enabled : bool) (left : Z) (p : ptr) : outcome (Z * Z) :=
  if enabled && (4 <=? left) then id ← get_u32 p; Ok (id, 4) else Ok (0, 0).

Fixpoint prefix_loop (fuel : nat) (isIPv4 add_path : bool) (p : ptr) (read_size len : Z)
    (acc : list prefix_tuple) : outcome (list prefix_tuple) :=
  match fuel with
  | O => NoFuel
  | S fuel =>
      if read_size <? len then
        '(path_id, n) ← path_id_step add_path (len - read_size) p;
        '(plen, p) ← rd (adv n p);
        let nb := addr_bytes plen in
        ip_raw ← memcpy_into (zeros 16) nb p;
        let t := {| pt_type := if isIPv4 then PREFIX_UNICAST_V4 else PREFIX_UNICAST_V6;
                    pt_len := plen; pt_prefix := inet_ntop isIPv4 ip_raw;
                    pt_prefix_bin := Some ip_raw; pt_path_id := path_id;
                    pt_isIPv4 := isIPv4; pt_labels := "" |} in
        prefix_loop fuel isIPv4 add_path (adv nb p) (read_size + n + nb + 1) len (acc ++ [t])
      else Ok acc
  end.

Definition parseNlriData_IPv4IPv6 (isIPv4 : bool) (data : ptr) (len : Z) (info : peer_info)
    (acc : list prefix_tuple) : outcome (list prefix_tuple) :=
  if len <=? 0 then Ok acc
  else
    add_path ← isAddPathEnabled (if isIPv4 then BGP_AFI_IPV4 else BGP_AFI_IPV6) BGP_SAFI_UNICAST
                 (add_path_capability info);
    prefix_loop (S (Z.to_nat len)) isIPv4 add_path data 0 len acc.

(** ** Labelled prefixes

    The C++ template is instantiated with [prefix_tuple] and [vpn_tuple]; here
    the tuple is the larger one and [isVPN] selects the behaviour.  The tuple
    is declared outside the loop: the prefix octets and the route distinguisher
    keep the value of the previous iteration when an iteration does not set them. *)

Definition label_type (isIPv4 : bool) : PREFIX_TYPE :=
  if isIPv4 then PREFIX_LABEL_UNICAST_V4 else PREFIX_LABEL_UNICAST_V6.

Definition fresh_label_tuple (isIPv4 : bool) : vpn_tuple :=
  {| vt_prefix := {| pt_type := label_type isIPv4; pt_len := 0; pt_prefix := ""; pt_prefix_bin := None;
                     pt_path_id := 0; pt_isIPv4 := isIPv4; pt_labels := "" |};
     vt_rd := no_rd |}.

(** the route distinguisher of a VPN prefix: distinguisher and octets read *)
Definition vpn_rd_step (isVPN : bool) (nb : Z) (p : ptr) (r : rd_tuple) : outcome (rd_tuple * Z) :=
  if isVPN && (8 <=? nb) then r ← parseRouteDistinguisher p r; Ok (r, 8) else Ok (r, 0).

(** the address that follows: printed form, octets, and octets read *)
Definition label_addr_step (isIPv4 : bool) (nb : Z) (p : ptr) (old : option (list Z))
  : outcome (string * option (list Z) * Z) :=
  if 0 <? nb then
    ip_raw ← memcpy_into (zeros 16) nb p;
    Ok (inet_ntop isIPv4 ip_raw, Some ip_raw, nb)
  else Ok (if isIPv4 then "0.0.0.0" else "::", old, 0).

Fixpoint label_prefix_loop (fuel : nat) (isVPN isIPv4 add_path : bool) (p : ptr) (read_size len : Z)
    (t : vpn_tuple) (acc : list vpn_tuple) : outcome (list vpn_tuple) :=
  match fuel with
  | O => NoFuel
  | S fuel =>
      if read_size <? len then
        '(path_id, n) ← path_id_step (negb isVPN && add_path) (len - read_size) p;
        '(plen, p) ← rd (adv n p);
        let nb := addr_bytes plen in
        '(lb, labels) ← decodeLabel p (u16 nb);
        let p := adv lb p in
        let nb := nb - lb in
        '(r, rb) ← vpn_rd_step isVPN nb p (vt_rd t);
        let p := adv rb p in
        let nb := nb - rb in
        '(text, bin, ab) ← label_addr_step isIPv4 nb p (pt_prefix_bin (vt_prefix t));
        let t := {| vt_prefix := {| pt_type := label_type isIPv4;
                                    pt_len := u8 (u8 (plen - 8 * lb) - 8 * rb);
                                    pt_prefix := text; pt_prefix_bin := bin; pt_path_id := path_id;
                                    pt_isIPv4 := isIPv4; pt_labels := labels |};
                    vt_rd := r |} in
        label_prefix_loop fuel isVPN isIPv4 add_path (adv ab p) (read_size + n + lb + rb + ab + 1) len
          t (acc ++ [t])
      else Ok acc
  end.

Definition parseNlriData_LabelIPv4IPv6 (isVPN isIPv4 : bool) (data : ptr) (len : Z) (info : peer_info)
  : outcome (list vpn_tuple) :=
  if len <=? 0 then Ok []
  else
    add_path ← isAddPathEnabled (if isIPv4 then BGP_AFI_IPV4 else BGP_AFI_IPV6)
                 (if isVPN then BGP_SAFI_MPLS else BGP_SAFI_NLRI_LABEL) (add_path_capability info);
    label_prefix_loop (S (Z.to_nat len)) isVPN isIPv4 add_path data 0 len (fresh_label_tuple isIPv4) [].

(** ** Dispatch on AFI and SAFI *)

(** the next hop: at most 16 octets of it over a zeroed address *)
Definition next_hop_text (isIPv4 : bool) (nh_len : Z) (nh : ptr) : outcome string :=
  ip_raw ← memcpy_into (zeros 16) (if 16 <? nh_len then 16 else nh_len) nh;
  Ok (inet_ntop isIPv4 ip_raw).

Section mp_dispatch.
Context {LS : LinkState}.

Definition reach_IPv4IPv6 (isIPv4 : bool) (nlri : mp_reach_nlri) (info : peer_info)
    (d : parsed_update_data) : outcome parsed_update_data :=
  if safi nlri =? BGP_SAFI_UNICAST then
    nh ← next_hop_text isIPv4 (nh_len nlri) (next_hop nlri);
    let d := set_attr ATTR_TYPE_NEXT_HOP nh d in
    l ← parseNlriData_IPv4IPv6 isIPv4 (nlri_data nlri) (nlri_len nlri) info (advertised d);
    Ok (set_advertised l d)
  else if safi nlri =? BGP_SAFI_NLRI_LABEL then
    nh ← next_hop_text isIPv4 (nh_len nlri) (next_hop nlri);
    let d := set_attr ATTR_TYPE_NEXT_HOP nh d in
    l ← parseNlriData_LabelIPv4IPv6 false isIPv4 (nlri_data nlri) (nlri_len nlri) info;
    Ok (set_advertised (advertised d ++ (vt_prefix <$> l)) d)
  else if safi nlri =? BGP_SAFI_MPLS then
    let (nh, nhl) := if isIPv4 then (adv 8 (next_hop nlri), u8 (nh_len nlri - 8))
                     else (next_hop nlri, nh_len nlri) in
    nh ← next_hop_text isIPv4 nhl nh;
    let d := set_attr ATTR_TYPE_NEXT_HOP nh d in
    l ← parseNlriData_LabelIPv4IPv6 true isIPv4 (nlri_data nlri) (nlri_len nlri) info;
    Ok (set_vpn (vpn d ++ l) d)
  else Ok d.

(** [MPReachAttr::parseAfi] *)
Definition reach_parseAfi (nlri : mp_reach_nlri) (info : peer_info) (d : parsed_update_data)
  : outcome parsed_update_data :=
  if afi nlri =? BGP_AFI_IPV6 then reach_IPv4IPv6 false nlri info d
  else if afi nlri =? BGP_AFI_IPV4 then reach_IPv4IPv6 true nlri info d
  else if afi nlri =? BGP_AFI_BGPLS then parseReachLinkState nlri d
  else if afi nlri =? BGP_AFI_L2VPN then
    nh ← next_hop_text (nh_len nlri =? 4) (nh_len nlri) (next_hop nlri);
    let d := set_attr ATTR_TYPE_NEXT_HOP nh d in
    if safi nlri =? BGP_SAFI_EVPN then parseNlriData false (nlri_data nlri) (nlri_len nlri) d
    else Ok d
  else Ok d.

(** The fields are read before the length is checked. *)
Definition parseReachNlriAttr (attr_len : Z) (data : ptr) (info : peer_info) (d : parsed_update_data)
  : outcome parsed_update_data :=
  a ← get_u16 data;
  '(s, p) ← rd (adv 2 data);
  '(nl, p) ← rd p;
  let nh := p in
  '(res, p) ← rd (adv nl p);
  let attr_len := attr_len - 5 - nl in
  if attr_len <? 0 then Ok d
  else reach_parseAfi
         {| afi := a; safi := s; nh_len := nl; next_hop := nh; reserved := res;
            nlri_data := p; nlri_len := u16 attr_len |} info d.

Definition unreach_IPv4IPv6 (isIPv4 : bool) (nlri : mp_unreach_nlri) (info : peer_info)
    (d : parsed_update_data) : outcome parsed_update_data :=
  if un_safi nlri =? BGP_SAFI_UNICAST then
    l ← parseNlriData_IPv4IPv6 isIPv4 (un_nlri_data nlri) (un_nlri_len nlri) info (withdrawn d);
    Ok (set_withdrawn l d)
  else if un_safi nlri =? BGP_SAFI_NLRI_LABEL then
    l ← parseNlriData_LabelIPv4IPv6 false isIPv4 (un_nlri_data nlri) (un_nlri_len nlri) info;
    Ok (set_withdrawn (withdrawn d ++ (vt_prefix <$> l)) d)
  else if un_safi nlri =? BGP_SAFI_MPLS then
    l ← parseNlriData_LabelIPv4IPv6 true isIPv4 (un_nlri_data nlri) (un_nlri_len nlri) info;
    Ok (set_vpn_withdrawn (vpn_withdrawn d ++ l) d)
  else Ok d.

(** [MPUnReachAttr::parseAfi] *)
Definition unreach_parseAfi (nlri : mp_unreach_nlri) (info : peer_info) (d : parsed_update_data)
  : outcome parsed_update_data :=
  if un_afi nlri =? BGP_AFI_IPV6 then unreach_IPv4IPv6 false nlri info d
  else if un_afi nlri =? BGP_AFI_IPV4 then unreach_IPv4IPv6 true nlri info d
  else if un_afi nlri =? BGP_AFI_BGPLS then parseUnReachLinkState nlri d
  else if un_afi nlri =? BGP_AFI_L2VPN then
    if un_safi nlri =? BGP_SAFI_EVPN then parseNlriData true (un_nlri_data nlri) (un_nlri_len nlri) d
    else Ok d
  else Ok d.

Definition parseUnReachNlriAttr (attr_len : Z) (data : ptr) (info : peer_info) (d : parsed_update_data)
  : outcome (peer_info * parsed_update_data) :=
  a ← get_u16 data;
  '(s, p) ← rd (adv 2 data);
  let attr_len := attr_len - 3 in
  if attr_len <? 0 then Ok (info, d)
  else if u16 attr_len =? 0 then Ok (set_endOfRIB true info, d)
  else
    d ← unreach_parseAfi {| un_afi := a; un_safi := s; un_nlri_data := p; un_nlri_len := u16 attr_len |}
          info d;
    Ok (info, d).
End mp_dispatch.

(** ** Prefixes as data

    An NLRI entry: add-path identifier, length in bits, and the octets that
    hold those bits. *)
Record nlri : Type := { n_path : Z; n_len : Z; n_addr : list Z }.

Definition enc_nlri (ap : bool) (x : nlri) : list Z :=
  (if ap then hton 4 (n_path x) else []) ++ n_len x :: n_addr x.
Definition enc_nlris (ap : bool) (xs : list nlri) : list Z := concat (enc_nlri ap <$> xs).

(** the octets in a zeroed 16-octet address *)
Definition pad16 (bs : list Z) : list Z := bs ++ drop (length bs) (zeros 16).

Definition dec_nlri (isIPv4 ap : bool) (x : nlri) : prefix_tuple :=
  {| pt_type := if isIPv4 then PREFIX_UNICAST_V4 else PREFIX_UNICAST_V6;
     pt_len := n_len x; pt_prefix := inet_ntop isIPv4 (pad16 (n_addr x));
     pt_prefix_bin := Some (pad16 (n_addr x)); pt_path_id := if ap then n_path x else 0;
     pt_isIPv4 := isIPv4; pt_labels := "" |}.

Definition wf_nlri (max : Z) (x : nlri) : Prop :=
  0 ≤ n_len x ≤ max ∧ Z.of_nat (length (n_addr x)) = addr_bytes (n_len x) ∧ 0 ≤ n_path x < 4294967296.

Lemma addr_bytes_bound len : 0 ≤ len → 0 ≤ addr_bytes len ∧ len ≤ 8 * addr_bytes len < len + 8.
Proof.
  intros. unfold addr_bytes. pose proof (Z.div_mod len 8). pose proof (Z.mod_pos_bound len 8).
  zcase; lia.
Qed.

Lemma path_id_step_ap id n rest :
  0 ≤ id < 4294967296 → 4 ≤ n → path_id_step true n (hton 4 id ++ rest) = Ok (id, 4).
Proof. intros. unfold path_id_step. cbn [andb]. zif; [|lia]. by rewrite get_u32_hton. Qed.

(** One entry is consumed: the identifier, the length and the address. *)
Lemma path_id_step_nlri ap x n rest :
  0 ≤ n_path x < 4294967296 → Z.of_nat (length (enc_nlri ap x)) ≤ n →
  ∃ k, path_id_step ap n (enc_nlri ap x ++ rest) = Ok (if ap then n_path x else 0, k)
    ∧ adv k (enc_nlri ap x ++ rest) = n_len x :: n_addr x ++ rest
    ∧ k + 1 + Z.of_nat (length (n_addr x)) = Z.of_nat (length (enc_nlri ap x)).
Proof.
  intros Hp Hn. unfold enc_nlri in *. destruct ap.
  - exists 4. rewrite <-app_assoc in *. rewrite length_app, length_hton in *. cbn [length] in *.
    rewrite path_id_step_ap by lia. rewrite adv_app by (rewrite length_hton; lia).
    split_and!; [done..|lia].
  - exists 0. cbn [app length] in *. split_and!; [done..|lia].
Qed.

Lemma prefix_loop_app fuel isIPv4 ap xs rest n acc :
  Forall (wf_nlri 128) xs → (length xs < fuel)%nat →
  prefix_loop fuel isIPv4 ap (enc_nlris ap xs ++ rest) n (n + Z.of_nat (length (enc_nlris ap xs))) acc
  = Ok (acc ++ (dec_nlri isIPv4 ap <$> xs)).
Proof.
  revert fuel n acc. induction xs as [|x xs IH]; intros fuel n acc Hwf Hf;
    (destruct fuel as [|fuel]; [simpl in Hf; lia|]); cbn [prefix_loop].
  { zif; [simpl in *; lia|]. by rewrite app_nil_r. }
  inversion_clear Hwf as [|? ? (Hl & Ha & Hp) Hxs].
  change (enc_nlris ap (x :: xs)) with (enc_nlri ap x ++ enc_nlris ap xs).
  rewrite length_app, <-app_assoc. set (L := length (enc_nlris ap xs)).
  pose proof (addr_bytes_bound (n_len x)).
  destruct (path_id_step_nlri ap x
    (n + Z.of_nat (length (enc_nlri ap x) + L) - n) (enc_nlris ap xs ++ rest)) as (k & E1 & E2 & E3); [lia..|].
  zif; [|unfold enc_nlri in *; rewrite length_app in *; simpl in *; lia].
  rewrite E1. run. rewrite E2. run.
  rewrite (memcpy_into_app _ (n_addr x)) by (rewrite ?length_zeros; lia). run.
  rewrite ?adv_app by lia.
  replace (n + k + addr_bytes (n_len x) + 1) with (n + Z.of_nat (length (enc_nlri ap x))) by lia.
  rewrite Nat2Z.inj_add, Z.add_assoc, IH by (done || simpl in Hf; lia).
  by rewrite <-app_assoc.
Qed.

Lemma length_enc_nlris_ge ap xs : (length xs ≤ length (enc_nlris ap xs))%nat.
Proof.
  induction xs as [|x xs IH]; [done|].
  change (enc_nlris ap (x :: xs)) with (enc_nlri ap x ++ enc_nlris ap xs).
  unfold enc_nlri. rewrite !length_app. simpl. lia.
Qed.

(** The decoder of plain prefixes returns the encoded entries, in order. *)
Lemma prefixes_app (isIPv4 ap : bool) (xs : list nlri) (rest : ptr) (info : peer_info)
    (acc : list prefix_tuple) :
  isAddPathEnabled (if isIPv4 then BGP_AFI_IPV4 else BGP_AFI_IPV6) BGP_SAFI_UNICAST
    (add_path_capability info) = Ok ap →
  Forall (wf_nlri 128) xs →
  parseNlriData_IPv4IPv6 isIPv4 (enc_nlris ap xs ++ rest) (Z.of_nat (length (enc_nlris ap xs))) info acc
  = Ok (acc ++ (dec_nlri isIPv4 ap <$> xs)).
Proof.
  intros Hap Hxs. unfold parseNlriData_IPv4IPv6. pose proof (length_enc_nlris_ge ap xs).
  zif. { destruct xs; [by rewrite app_nil_r|simpl in *; lia]. }
  rewrite Hap. run.
  pose proof (prefix_loop_app (S (Z.to_nat (Z.of_nat (length (enc_nlris ap xs))))) isIPv4 ap xs rest 0 acc Hxs) as Hloop.
  rewrite Z.add_0_l in Hloop. apply Hloop. lia.
Qed.

(** a peer that negotiated add-path in both directions for IPv6 unicast *)
Definition add_path_peer : peer_info :=
  set_peer_add_path (addAddPath 2 1 3 false (addAddPath 2 1 3 true ∅)) new_peer_info.

Definition sample_v6 : list nlri :=
  [{| n_path := 7; n_len := 33; n_addr := [32; 1; 13; 184; 128] |}; {| n_path := 8; n_len := 0; n_addr := [] |}].

(** A prefix length above 128 bits overruns the address buffer.  The
    decoder copies the octets of any announced length (up to 32) into the
    16-octet array on its stack. *)
Theorem prefix_too_long_overruns (isIPv4 : bool) (plen : Z) (rest : ptr) (len : Z) (info : peer_info)
    (acc : list prefix_tuple) :
  add_path_capability info = ∅ → 128 < plen < 256 → 0 < len →
  parseNlriData_IPv4IPv6 isIPv4 (plen :: rest) len info acc = Undef OobWrite.
Proof.
  intros Hi Hp Hl. unfold parseNlriData_IPv4IPv6. zif; [lia|]. rewrite Hi.
  unfold isAddPathEnabled. rewrite lookup_empty. run. cbn [prefix_loop]. zif; [|lia].
  change (path_id_step false _ _) with (Ok (0, 0)). run.
  change (adv 0 (plen :: rest)) with (plen :: rest). run.
  pose proof (addr_bytes_bound plen). unfold memcpy_into. rewrite length_zeros. zif; [lia|]. done.
Qed.

Lemma prefix_too_long_overruns_witness :
  parseNlriData_IPv4IPv6 false (200 :: zeros 25) 26 new_peer_info [] = Undef OobWrite.
Proof. apply (prefix_too_long_overruns false 200 (zeros 25) 26 new_peer_info []); [reflexivity|lia|lia]. Defined.

(** ** Labelled prefixes as data *)

(** a label of 20 bits with its bottom-of-stack bit, on three octets *)
Definition enc_label (bos : bool) (l : Z) : list Z := hton 3 (16 * l + (if bos then 1 else 0)).

Fixpoint enc_stack (ls : list Z) : list Z :=
  match ls with
  | [] => []
  | [l] => enc_label true l
  | l :: ls' => enc_label false l ++ enc_stack ls'
  end.

Fixpoint stack_text (ls : list Z) : string :=
  match ls with
  | [] => ""
  | [l] => dec l
  | l :: ls' => dec l +:+ "," +:+ stack_text ls'
  end.

(** Labels 0 and 2^19 end the stack whatever their bottom-of-stack bit. *)
Fixpoint wf_stack (ls : list Z) : Prop :=
  match ls with
  | [] => False
  | [l] => 0 ≤ l < 2 ^ 20
  | l :: ls' => 0 < l < 2 ^ 20 ∧ l ≠ 2 ^ 19 ∧ wf_stack ls'
  end.

Lemma ntoh_snoc_0 bs : ntoh (bs ++ [0]) = 256 * ntoh bs.
Proof. unfold ntoh. rewrite !SWAP_BYTES_rev, rev_app_distr. cbn. lia. Qed.

Lemma label_word_enc bos l :
  0 ≤ l < 2 ^ 20 → label_word (enc_label bos l) = 256 * (16 * l + (if bos then 1 else 0)).
Proof.
  intros. unfold label_word, enc_label. rewrite ntoh_snoc_0, ntoh_hton; [done|].
  change (256 ^ Z.of_nat 3) with 16777216. destruct bos; lia.
Qed.

Lemma label_value_enc bos l : label_value (256 * (16 * l + (if bos : bool then 1 else 0))) = l.
Proof.
  unfold label_value. rewrite Z.shiftr_div_pow2 by lia. change (2 ^ 12) with 4096.
  symmetry. apply (Z.div_unique _ _ _ (if bos then 256 else 0)); destruct bos; lia.
Qed.

Lemma label_bos_enc bos l : label_bos (256 * (16 * l + (if bos : bool then 1 else 0))) = bos.
Proof.
  unfold label_bos. rewrite Z.mul_comm. change 256 with (2 ^ 8).
  rewrite Z.mul_pow2_bits by lia. change (8 - 8) with 0.
  rewrite Z.bit0_odd, Z.odd_add, Z.odd_mul. by destruct bos.
Qed.

Lemma length_enc_label bos l : length (enc_label bos l) = 3%nat.
Proof. apply length_hton. Qed.

Lemma length_enc_stack ls : length (enc_stack ls) = (3 * length ls)%nat.
Proof.
  induction ls as [|l ls IH]; [done|]. destruct ls as [|l' ls]; [apply length_enc_label|].
  change (enc_stack (l :: l' :: ls)) with (enc_label false l ++ enc_stack (l' :: ls)).
  rewrite length_app, length_enc_label, IH. simpl. lia.
Qed.

Lemma label_loop_app fuel ls rest n len acc :
  wf_stack ls → (length ls ≤ fuel)%nat → n + 3 * Z.of_nat (length ls) ≤ len + 3 →
  label_loop fuel (enc_stack ls ++ rest) n len acc
  = Ok (n + 3 * Z.of_nat (length ls), acc +:+ stack_text ls).
Proof.
  revert fuel n acc. induction ls as [|l ls IH]; intros fuel n acc Hwf Hf Hn; [done|].
  destruct fuel as [|fuel]; [simpl in Hf; lia|]. cbn [label_loop].
  zif; [|simpl length in *; lia]. destruct ls as [|l' ls].
  - cbn [enc_stack wf_stack stack_text] in *.
    rewrite memcpy_app by (rewrite length_enc_label; done). rewrite bind_Ok_l.
    cbv zeta. rewrite label_word_enc, (label_value_enc true), (label_bos_enc true) by done. done.
  - destruct Hwf as (Hl & Hl' & Hwf).
    change (enc_stack (l :: l' :: ls)) with (enc_label false l ++ enc_stack (l' :: ls)).
    change (stack_text (l :: l' :: ls)) with (dec l +:+ "," +:+ stack_text (l' :: ls)).
    rewrite <-app_assoc. rewrite memcpy_app, adv_app by (rewrite length_enc_label; done).
    rewrite bind_Ok_l. cbv zeta. rewrite label_word_enc, (label_value_enc false), (label_bos_enc false) by lia.
    cbn [orb]. do 2 (rewrite (proj2 (Z.eqb_neq _ _)) by lia). cbn [orb].
    rewrite IH by (done || simpl length in *; lia). rewrite !string_app_assoc.
    do 2 f_equal. simpl length. lia.
Qed.

(** a labelled prefix: identifier, label stack, route distinguisher (VPN only),
    address length in bits, address octets *)
Record lnlri : Type :=
  { l_path : Z; l_stack : list Z; l_dist : option route_distinguisher; l_bits : Z; l_addr : list Z }.

Definition l_rd (x : lnlri) : list Z := from_option enc_rd [] (l_dist x).

Definition l_total_bits (x : lnlri) : Z :=
  8 * Z.of_nat (length (enc_stack (l_stack x)) + length (l_rd x)) + l_bits x.

Definition enc_lnlri (ap : bool) (x : lnlri) : list Z :=
  (if ap then hton 4 (l_path x) else []) ++
  l_total_bits x :: enc_stack (l_stack x) ++ l_rd x ++ l_addr x.
Definition enc_lnlris (ap : bool) (xs : list lnlri) : list Z := concat (enc_lnlri ap <$> xs).

Definition wf_lnlri (isVPN : bool) (x : lnlri) : Prop :=
  wf_stack (l_stack x)
  ∧ match l_dist x with Some r => isVPN = true ∧ wf_rd r | None => isVPN = false end
  ∧ 0 ≤ l_bits x ≤ 128 ∧ Z.of_nat (length (l_addr x)) = addr_bytes (l_bits x)
  ∧ l_total_bits x < 256 ∧ 0 ≤ l_path x < 4294967296.

(** what a labelled prefix decodes to, given the tuple of the previous one *)
Definition dec_lnlri (isVPN isIPv4 ap : bool) (t : vpn_tuple) (x : lnlri) : vpn_tuple :=
  {| vt_prefix :=
       {| pt_type := label_type isIPv4; pt_len := l_bits x;
          pt_prefix := match l_addr x with
                       | [] => if isIPv4 then "0.0.0.0" else "::"
                       | _ => inet_ntop isIPv4 (pad16 (l_addr x))
                       end;
          pt_prefix_bin := match l_addr x with
                           | [] => pt_prefix_bin (vt_prefix t)
                           | _ => Some (pad16 (l_addr x))
                           end;
          pt_path_id := if ap then l_path x else 0; pt_isIPv4 := isIPv4;
          pt_labels := stack_text (l_stack x) |};
     vt_rd := from_option rd_meant (vt_rd t) (l_dist x) |}.

Fixpoint dec_lnlris (isVPN isIPv4 ap : bool) (t : vpn_tuple) (xs : list lnlri) : list vpn_tuple :=
  match xs with
  | [] => []
  | x :: xs' => let t' := dec_lnlri isVPN isIPv4 ap t x in t' :: dec_lnlris isVPN isIPv4 ap t' xs'
  end.

Lemma decodeLabel_app ls rest len :
  wf_stack ls → 3 * Z.of_nat (length ls) ≤ len →
  decodeLabel (enc_stack ls ++ rest) len = Ok (3 * Z.of_nat (length ls), stack_text ls).
Proof. intros. unfold decodeLabel. rewrite label_loop_app by (done || lia). by rewrite append_nil_l. Qed.

Lemma vpn_rd_step_app isVPN x nb rest r :
  wf_lnlri isVPN x → nb = Z.of_nat (length (l_rd x ++ l_addr x)) →
  vpn_rd_step isVPN nb (l_rd x ++ l_addr x ++ rest) r
  = Ok (from_option rd_meant r (l_dist x), Z.of_nat (length (l_rd x))).
Proof.
  intros (_ & Hr & _) ->. unfold vpn_rd_step, l_rd. rewrite length_app. destruct (l_dist x) as [rd|]; cbn [from_option].
  - destruct Hr as [-> Hr]. cbn [andb]. pose proof (length_enc_rd rd Hr). zif; [|lia].
    rewrite parseRouteDistinguisher_app by done. by rewrite H.
  - by subst isVPN.
Qed.

Lemma label_addr_step_app isIPv4 bs rest old :
  (length bs ≤ 16)%nat →
  label_addr_step isIPv4 (Z.of_nat (length bs)) (bs ++ rest) old
  = Ok (match bs with [] => if isIPv4 then "0.0.0.0" else "::" | _ => inet_ntop isIPv4 (pad16 bs) end,
        match bs with [] => old | _ => Some (pad16 bs) end, Z.of_nat (length bs)).
Proof.
  intros H. unfold label_addr_step. destruct bs as [|b bs]; [done|].
  zif; [|simpl in *; lia]. by rewrite memcpy_into_app by (rewrite ?length_zeros; lia).
Qed.

Lemma addr_bytes_add k bits : 0 ≤ k → 0 ≤ bits → addr_bytes (8 * k + bits) = k + addr_bytes bits.
Proof.
  intros. unfold addr_bytes. rewrite Z.add_comm, Z.mul_comm, Z.mod_add, Z.div_add by lia.
  zcase; lia.
Qed.

Lemma path_id_step_lnlri ap x n rest :
  0 ≤ l_path x < 4294967296 → Z.of_nat (length (enc_lnlri ap x)) ≤ n →
  ∃ k, path_id_step ap n (enc_lnlri ap x ++ rest) = Ok (if ap then l_path x else 0, k)
    ∧ adv k (enc_lnlri ap x ++ rest)
      = l_total_bits x :: enc_stack (l_stack x) ++ l_rd x ++ l_addr x ++ rest
    ∧ Z.of_nat (length (enc_lnlri ap x))
      = k + 1 + Z.of_nat (length (enc_stack (l_stack x)) + length (l_rd x) + length (l_addr x)).
Proof.
  intros Hp Hn. unfold enc_lnlri in *. destruct ap.
  - exists 4. rewrite <-app_assoc in *. rewrite length_app, length_hton in *. cbn [length app] in *.
    rewrite <-!app_assoc. rewrite !length_app in *.
    rewrite path_id_step_ap by lia. rewrite adv_app by (rewrite length_hton; lia).
    split_and!; [done..|lia].
  - exists 0. cbn [app length] in *. rewrite !length_app, <-!app_assoc in *. split_and!; [done..|lia].
Qed.

Lemma label_prefix_loop_app fuel isVPN isIPv4 add_path ap xs rest n t acc :
  ap = negb isVPN && add_path → Forall (wf_lnlri isVPN) xs → (length xs < fuel)%nat →
  label_prefix_loop fuel isVPN isIPv4 add_path (enc_lnlris ap xs ++ rest) n
    (n + Z.of_nat (length (enc_lnlris ap xs))) t acc
  = Ok (acc ++ dec_lnlris isVPN isIPv4 ap t xs).
Proof.
  intros Hap. revert fuel n t acc. induction xs as [|x xs IH]; intros fuel n t acc Hwf Hf;
    (destruct fuel as [|fuel]; [simpl in Hf; lia|]); cbn [label_prefix_loop].
  { zif; [simpl in *; lia|]. by rewrite app_nil_r. }
  inversion_clear Hwf as [|? ? Hx Hxs]. pose proof Hx as (Hs & Hr & Hb & Ha & Ht & Hp).
  change (enc_lnlris ap (x :: xs)) with (enc_lnlri ap x ++ enc_lnlris ap xs).
  rewrite length_app, <-app_assoc, <-Hap. set (L := length (enc_lnlris ap xs)).
  pose proof (addr_bytes_bound (l_bits x)) as Hab. pose proof (length_enc_stack (l_stack x)) as HS.
  destruct (path_id_step_lnlri ap x (n + Z.of_nat (length (enc_lnlri ap x) + L) - n)
    (enc_lnlris ap xs ++ rest)) as (k & E1 & E2 & E3); [lia..|].
  zif; [|unfold enc_lnlri in *; rewrite !length_app in *; simpl length in *; lia].
  rewrite E1. run. rewrite E2. run.
  assert (addr_bytes (l_total_bits x)
    = Z.of_nat (length (enc_stack (l_stack x)) + length (l_rd x) + length (l_addr x))) as HT
    by (unfold l_total_bits; rewrite addr_bytes_add by lia; lia).
  assert (Z.of_nat (length (enc_stack (l_stack x)) + length (l_rd x)) < 32) by (unfold l_total_bits in Ht; lia).
  rewrite HT, u16_small by lia. rewrite decodeLabel_app by (done || lia). run.
  rewrite ?adv_app by lia.
  rewrite vpn_rd_step_app by (done || (rewrite length_app; lia)). run. rewrite ?adv_app by lia.
  replace (Z.of_nat _ - 3 * _ - _) with (Z.of_nat (length (l_addr x))) by lia.
  rewrite label_addr_step_app by lia. run. rewrite ?adv_app by lia.
  replace (u8 (u8 _ - _)) with (l_bits x)
    by (unfold u8, l_total_bits; rewrite Zminus_mod_idemp_l; rewrite Z.mod_small; lia).
  change {| vt_prefix := {| pt_type := _ |} |} with (dec_lnlri isVPN isIPv4 ap t x).
  match goal with |- label_prefix_loop _ _ _ _ _ ?m _ _ _ = _ =>
    replace m with (n + Z.of_nat (length (enc_lnlri ap x))) by lia end.
  rewrite Nat2Z.inj_add, Z.add_assoc, IH by (done || simpl in Hf; lia).
  by rewrite <-app_assoc.
Qed.

Lemma length_enc_lnlris_ge ap xs : (length xs ≤ length (enc_lnlris ap xs))%nat.
Proof.
  induction xs as [|x xs IH]; [done|].
  change (enc_lnlris ap (x :: xs)) with (enc_lnlri ap x ++ enc_lnlris ap xs).
  unfold enc_lnlri. rewrite !length_app. simpl. lia.
Qed.

(** C31: parsing encoded labelled prefixes returns them, for labelled unicast
    and for VPN.  Each entry yields its label stack printed with commas, its
    route distinguisher (VPN; types 0, 1 and 2, given by their numbers and with the
    assigned number in front of the administrator in the types 0 and 2, as the code
    prints them), its address and the prefix length with the labels and the
    distinguisher subtracted; add-path identifiers are read only for labelled
    unicast.  An entry without address octets keeps the address octets of the
    entry before it. *)
Theorem labelled_prefixes_roundtrip (isVPN isIPv4 add_path : bool) (xs : list lnlri) (rest : ptr)
    (info : peer_info) :
  isAddPathEnabled (if isIPv4 then BGP_AFI_IPV4 else BGP_AFI_IPV6)
    (if isVPN then BGP_SAFI_MPLS else BGP_SAFI_NLRI_LABEL) (add_path_capability info) = Ok add_path →
  Forall (wf_lnlri isVPN) xs →
  let ap := negb isVPN && add_path in
  parseNlriData_LabelIPv4IPv6 isVPN isIPv4 (enc_lnlris ap xs ++ rest)
    (Z.of_nat (length (enc_lnlris ap xs))) info
  = Ok (dec_lnlris isVPN isIPv4 ap (fresh_label_tuple isIPv4) xs).
Proof.
  intros Hap Hxs ap. unfold parseNlriData_LabelIPv4IPv6. pose proof (length_enc_lnlris_ge ap xs).
  zif. { destruct xs; [done|simpl in *; lia]. }
  rewrite Hap. run.
  pose proof (label_prefix_loop_app (S (Z.to_nat (Z.of_nat (length (enc_lnlris ap xs))))) isVPN isIPv4
    add_path ap xs rest 0 (fresh_label_tuple isIPv4) [] eq_refl Hxs) as Hloop.
  rewrite Z.add_0_l in Hloop. rewrite Hloop by lia. done.
Qed.

(** 65000:1 10.1.0.0/16 with the labels 100 and 200, and 10.0.0.1:7 10.1.2.0/24 *)
Definition sample_vpn : list lnlri :=
  [{| l_path := 0; l_stack := [100; 200]; l_dist := Some (RdAs 65000 1); l_bits := 16; l_addr := [10; 1] |};
   {| l_path := 0; l_stack := [300]; l_dist := Some (RdIp [10;0;0;1] 7); l_bits := 24; l_addr := [10; 1; 2] |}].

Lemma labelled_prefixes_roundtrip_witness :
  parseNlriData_LabelIPv4IPv6 true true (enc_lnlris false sample_vpn ++ [])
    (Z.of_nat (length (enc_lnlris false sample_vpn))) new_peer_info
  = Ok (dec_lnlris true true false (fresh_label_tuple true) sample_vpn)
  ∧ (pt_labels ∘ vt_prefix <$> dec_lnlris true true false (fresh_label_tuple true) sample_vpn) = ["100,200"; "300"].
Proof.
  split; [|vm_compute; reflexivity].
  apply (labelled_prefixes_roundtrip true true false sample_vpn [] new_peer_info); [reflexivity|].
  unfold sample_vpn. repeat (apply Forall_cons; split); try apply Forall_nil;
    repeat first [lia | reflexivity | split | apply Forall_cons | apply Forall_nil]; first [lia | vm_compute; lia | vm_compute; intuition discriminate].
Defined.

(** ** The attributes *)

Definition enc_reach (a s : Z) (nh : list Z) (body : list Z) : list Z :=
  hton 2 a ++ s :: Z.of_nat (length nh) :: nh ++ 0 :: body.

Section mp_properties.
Context {LS : LinkState}.

Lemma parseReachNlriAttr_frame a s nh body rest info d :
  0 ≤ a < 65536 → Z.of_nat (length body) < 65536 →
  parseReachNlriAttr (Z.of_nat (length (enc_reach a s nh body))) (enc_reach a s nh body ++ rest) info d
  = reach_parseAfi
      {| afi := a; safi := s; nh_len := Z.of_nat (length nh); next_hop := nh ++ 0 :: body ++ rest;
         reserved := 0; nlri_data := body ++ rest; nlri_len := Z.of_nat (length body) |} info d.
Proof.
  intros Ha Hb. unfold parseReachNlriAttr, enc_reach. rewrite !length_app, length_hton.
  cbn [length]. rewrite length_app. cbn [length].
  rewrite <-app_assoc, get_u16_hton by done. rewrite bind_Ok_l.
  rewrite adv_app by (rewrite length_hton; done). cbn [app]. run. rewrite <-app_assoc. run.
  zif; [lia|].
  replace (_ - 5 - _) with (Z.of_nat (length body)) by lia. by rewrite u16_small by lia.
Qed.

(** the next hop of a unicast attribute: 4 octets for IPv4, 16 for IPv6 *)
Definition nh_octets (isIPv4 : bool) : nat := if isIPv4 then 4%nat else 16%nat.
Definition unicast_afi (isIPv4 : bool) : Z := if isIPv4 then BGP_AFI_IPV4 else BGP_AFI_IPV6.

Lemma next_hop_text_app isIPv4 nh rest :
  length nh = nh_octets isIPv4 →
  next_hop_text isIPv4 (Z.of_nat (length nh)) (nh ++ rest) = Ok (inet_ntop isIPv4 nh).
Proof.
  intros Hn. unfold next_hop_text. rewrite Hn. destruct isIPv4; cbn [nh_octets] in *.
  - change (16 <? Z.of_nat 4) with false. rewrite (memcpy_into_app _ nh) by (rewrite ?Hn; done).
    rewrite bind_Ok_l. explode nh 4 Hn. done.
  - change (16 <? Z.of_nat 16) with false. rewrite (memcpy_into_app _ nh) by (rewrite ?Hn; done).
    rewrite Hn. by rewrite app_nil_r.
Qed.

Lemma mp_reach_unicast_app (isIPv4 ap : bool) (nh : list Z) (xs : list nlri) (rest : ptr)
    (info : peer_info) (d : parsed_update_data) :
  length nh = nh_octets isIPv4 →
  isAddPathEnabled (unicast_afi isIPv4) BGP_SAFI_UNICAST (add_path_capability info) = Ok ap →
  Forall (wf_nlri 128) xs → Z.of_nat (length (enc_nlris ap xs)) < 65536 →
  parseReachNlriAttr (Z.of_nat (length (enc_reach (unicast_afi isIPv4) 1 nh (enc_nlris ap xs))))
    (enc_reach (unicast_afi isIPv4) 1 nh (enc_nlris ap xs) ++ rest) info d
  = Ok (set_advertised (advertised d ++ (dec_nlri isIPv4 ap <$> xs))
          (set_attr ATTR_TYPE_NEXT_HOP (inet_ntop isIPv4 nh) d)).
Proof.
  intros Hn Hap Hxs Hl. rewrite parseReachNlriAttr_frame by (destruct isIPv4; done || lia).
  assert (reach_parseAfi {| afi := unicast_afi isIPv4; safi := 1; nh_len := Z.of_nat (length nh);
    next_hop := nh ++ 0 :: enc_nlris ap xs ++ rest; reserved := 0; nlri_data := enc_nlris ap xs ++ rest;
    nlri_len := Z.of_nat (length (enc_nlris ap xs)) |} info d
    = reach_IPv4IPv6 isIPv4 {| afi := unicast_afi isIPv4; safi := 1; nh_len := Z.of_nat (length nh);
    next_hop := nh ++ 0 :: enc_nlris ap xs ++ rest; reserved := 0; nlri_data := enc_nlris ap xs ++ rest;
    nlri_len := Z.of_nat (length (enc_nlris ap xs)) |} info d) as -> by (by destruct isIPv4).
  unfold reach_IPv4IPv6. cbn [afi safi nh_len next_hop nlri_data nlri_len].
  change (1 =? BGP_SAFI_UNICAST) with true. cbn iota.
  rewrite next_hop_text_app by done. run.
  by rewrite (prefixes_app isIPv4 ap) by (done || by destruct isIPv4).
Qed.

(** C27: MP_REACH for unicast prefixes.  An attribute with the IPv4 or IPv6
    AFI, SAFI 1, a next hop of the family's size and any list of prefixes of
    at most 128 bits (with add-path identifiers exactly when the peer
    negotiated them) sets the next-hop attribute to the printed next hop and
    appends one tuple per prefix to the advertised ones, in order, with
    length, zero-padded octets, printed address and identifier.  Nothing else
    of the parse result changes. *)
Theorem mp_reach_unicast (isIPv4 ap : bool) (nh : list Z) (xs : list nlri) (rest : ptr)
    (info : peer_info) (d : parsed_update_data) :
  length nh = nh_octets isIPv4 →
  isAddPathEnabled (unicast_afi isIPv4) BGP_SAFI_UNICAST (add_path_capability info) = Ok ap →
  Forall (wf_nlri 128) xs → Z.of_nat (length (enc_nlris ap xs)) < 65536 →
  parseReachNlriAttr (Z.of_nat (length (enc_reach (unicast_afi isIPv4) 1 nh (enc_nlris ap xs))))
    (enc_reach (unicast_afi isIPv4) 1 nh (enc_nlris ap xs) ++ rest) info d
  = Ok (set_advertised (advertised d ++ (dec_nlri isIPv4 ap <$> xs))
          (set_attr ATTR_TYPE_NEXT_HOP (inet_ntop isIPv4 nh) d)).
Proof. apply mp_reach_unicast_app. Qed.

Definition enc_unreach (a s : Z) (body : list Z) : list Z := hton 2 a ++ s :: body.

Lemma parseUnReachNlriAttr_frame a s body rest info d :
  0 ≤ a < 65536 → 0 < Z.of_nat (length body) < 65536 →
  parseUnReachNlriAttr (Z.of_nat (length (enc_unreach a s body))) (enc_unreach a s body ++ rest) info d
  = (d' ← unreach_parseAfi {| un_afi := a; un_safi := s; un_nlri_data := body ++ rest;
                             un_nlri_len := Z.of_nat (length body) |} info d; Ok (info, d')).
Proof.
  intros Ha Hb. unfold parseUnReachNlriAttr, enc_unreach. rewrite !length_app, length_hton. cbn [length].
  rewrite <-app_assoc, get_u16_hton by done. rewrite bind_Ok_l.
  rewrite adv_app by (rewrite length_hton; done). cbn [app]. run. zif; [lia|].
  replace (Z.of_nat (2 + S (length body)) - 3) with (Z.of_nat (length body)) by lia.
  rewrite u16_small by lia. by zif; [lia|].
Qed.

Lemma mp_unreach_eor_app a s rest info d :
  0 ≤ a < 65536 →
  parseUnReachNlriAttr 3 (enc_unreach a s [] ++ rest) info d = Ok (set_endOfRIB true info, d).
Proof.
  intros Ha. unfold parseUnReachNlriAttr, enc_unreach. rewrite <-app_assoc, get_u16_hton by done.
  rewrite bind_Ok_l, adv_app by (rewrite length_hton; done). done.
Qed.

Lemma mp_unreach_unicast_app (isIPv4 ap : bool) xs rest info d :
  isAddPathEnabled (unicast_afi isIPv4) BGP_SAFI_UNICAST (add_path_capability info) = Ok ap →
  Forall (wf_nlri 128) xs → 0 < Z.of_nat (length (enc_nlris ap xs)) < 65536 →
  parseUnReachNlriAttr (Z.of_nat (length (enc_unreach (unicast_afi isIPv4) 1 (enc_nlris ap xs))))
    (enc_unreach (unicast_afi isIPv4) 1 (enc_nlris ap xs) ++ rest) info d
  = Ok (info, set_withdrawn (withdrawn d ++ (dec_nlri isIPv4 ap <$> xs)) d).
Proof.
  intros Hap Hxs Hl. rewrite parseUnReachNlriAttr_frame by (destruct isIPv4; done || lia).
  pose proof (prefixes_app isIPv4 ap xs rest info (withdrawn d)) as E.
  unfold unreach_parseAfi, unreach_IPv4IPv6. cbn [un_afi un_safi un_nlri_data un_nlri_len].
  destruct isIPv4; cbn [unicast_afi Z.eqb Pos.eqb BGP_AFI_IPV4 BGP_AFI_IPV6 BGP_SAFI_UNICAST] in *;
    by rewrite E.
Qed.

(** MP_UNREACH.  With no NLRI the attribute is the End-of-RIB marker: it
    sets the peer's flag and changes nothing else.  With unicast prefixes it
    appends them to the withdrawn ones and leaves the peer state alone. *)
Theorem mp_unreach_unicast_or_eor (isIPv4 ap : bool) (a s : Z) (xs : list nlri) (rest : ptr)
    (info : peer_info) (d : parsed_update_data) :
  0 ≤ a < 65536 →
  isAddPathEnabled (unicast_afi isIPv4) BGP_SAFI_UNICAST (add_path_capability info) = Ok ap →
  Forall (wf_nlri 128) xs → 0 < Z.of_nat (length (enc_nlris ap xs)) < 65536 →
  parseUnReachNlriAttr 3 (enc_unreach a s [] ++ rest) info d = Ok (set_endOfRIB true info, d)
  ∧ parseUnReachNlriAttr (Z.of_nat (length (enc_unreach (unicast_afi isIPv4) 1 (enc_nlris ap xs))))
      (enc_unreach (unicast_afi isIPv4) 1 (enc_nlris ap xs) ++ rest) info d
    = Ok (info, set_withdrawn (withdrawn d ++ (dec_nlri isIPv4 ap <$> xs)) d).
Proof. intros. split; [by apply mp_unreach_eor_app|by apply mp_unreach_unicast_app]. Qed.
End mp_properties.

(** a link-state component that accepts nothing, to run the dispatch *)
Definition null_link_state : LinkState :=
  {| parseReachLinkState _ d := Ok d; parseUnReachLinkState _ d := Ok d; parseAttrLinkState _ _ d := Ok d |}.

Lemma sample_v6_wf : Forall (wf_nlri 128) sample_v6.
Proof. unfold sample_v6. repeat constructor; simpl; (reflexivity || lia). Qed.

Lemma mp_reach_unicast_witness :
  @parseReachNlriAttr null_link_state
    (Z.of_nat (length (enc_reach 2 1 (zeros 15 ++ [1]) (enc_nlris true sample_v6))))
    (enc_reach 2 1 (zeros 15 ++ [1]) (enc_nlris true sample_v6) ++ []) add_path_peer no_update
  = Ok (set_advertised (advertised no_update ++ (dec_nlri false true <$> sample_v6))
          (set_attr ATTR_TYPE_NEXT_HOP (inet_ntop false (zeros 15 ++ [1])) no_update))
  ∧ (pt_prefix <$> (dec_nlri false true <$> sample_v6)) = ["2001:db8:8000::"; "::"].
Proof.
  split; [|vm_compute; reflexivity].
  apply (@mp_reach_unicast null_link_state false true (zeros 15 ++ [1]) sample_v6 [] add_path_peer no_update).
  - reflexivity.
  - vm_compute. reflexivity.
  - apply sample_v6_wf.
  - vm_compute. reflexivity.
Defined.

Lemma mp_unreach_unicast_or_eor_witness :
  @parseUnReachNlriAttr null_link_state 3 (enc_unreach 2 1 [] ++ []) add_path_peer no_update
  = Ok (set_endOfRIB true add_path_peer, no_update)
  ∧ @parseUnReachNlriAttr null_link_state (Z.of_nat (length (enc_unreach 2 1 (enc_nlris true sample_v6))))
      (enc_unreach 2 1 (enc_nlris true sample_v6) ++ []) add_path_peer no_update
    = Ok (add_path_peer, set_withdrawn (withdrawn no_update ++ (dec_nlri false true <$> sample_v6)) no_update).
Proof.
  apply (@mp_unreach_unicast_or_eor null_link_state false true 2 1 sample_v6 [] add_path_peer no_update).
  - lia.
  - vm_compute. reflexivity.
  - apply sample_v6_wf.
  - vm_compute. split; reflexivity.
Defined.
