(* ===== verification/LinkStateNlri.v ===== *)
(** * BGP-LS NLRIs ([bgp/linkstate/MPLinkState.cpp])

    The nodes, links and prefixes of MP_REACH and MP_UNREACH attributes of the
    link-state address family: the NLRI loop, the node, link and prefix
    descriptors with their sub-TLVs, and the node hash. *)

From S2P Require Import Prelude Inet MD5 BgpCommon UpdateTypes MPReach.

(** ** Code points ([bgp/linkstate/MPLinkState.h]) *)

Definition NLRI_TYPE_NODE : Z := 1.
Definition NLRI_TYPE_LINK : Z := 2.
Definition NLRI_TYPE_IPV4_PREFIX : Z := 3.
Definition NLRI_TYPE_IPV6_PREFIX : Z := 4.

Definition NODE_DESCR_LOCAL_DESCR : Z := 256.
Definition NODE_DESCR_REMOTE_DESCR : Z := 257.
Definition NODE_DESCR_AS : Z := 512.
Definition NODE_DESCR_BGP_LS_ID : Z := 513.
Definition NODE_DESCR_OSPF_AREA_ID : Z := 514.
Definition NODE_DESCR_IGP_ROUTER_ID : Z := 515.
Definition NODE_DESCR_BGP_ROUTER_ID : Z := 516.

Definition LINK_DESCR_ID : Z := 258.
Definition LINK_DESCR_IPV4_INTF_ADDR : Z := 259.
Definition LINK_DESCR_IPV4_NEI_ADDR : Z := 260.
Definition LINK_DESCR_IPV6_INTF_ADDR : Z := 261.
Definition LINK_DESCR_IPV6_NEI_ADDR : Z := 262.
Definition LINK_DESCR_MT_ID : Z := 263.

Definition PREFIX_DESCR_MT_ID : Z := 263.
Definition PREFIX_DESCR_OSPF_ROUTE_TYPE : Z := 264.
Definition PREFIX_DESCR_IP_REACH_INFO : Z := 265.

(** [OSPF_ROUTE_TYPES], printed *)
Definition ospf_route_text (b : Z) : string :=
  match b with
  | 3 => "Ext-1" | 4 => "Ext-2" | 2 => "Inter" | 1 => "Intra" | 5 => "NSSA-1" | 6 => "NSSA-2" | _ => "Intra"
  end.

Definition decodeNlriProtocolId (proto_id : Z) : string :=
  match proto_id with
  | 4 => "Direct" | 5 => "Static" | 1 => "IS-IS_L1" | 2 => "IS-IS_L2" | 3 => "OSPFv2" | 6 => "OSPFv3"
  | 7 => "EPE" | _ => ""
  end.

(** ** Descriptors *)

Record node_descriptor : Type := {
  nd_asn : Z; nd_bgp_ls_id : Z; nd_igp_router_id : list Z; nd_ospf_area_Id : list Z;
  nd_bgp_router_id : Z; nd_hash_bin : list Z }.

Record link_descriptor : Type := {
  ld_local_id : Z; ld_remote_id : Z; ld_intf_addr : list Z; ld_nei_addr : list Z;
  ld_mt_id : Z; ld_isIPv4 : bool }.

Record prefix_descriptor : Type := {
  pd_ospf_route_type : string; pd_mt_id : Z; pd_prefix : list Z; pd_prefix_bcast : list Z;
  pd_prefix_len : Z }.

#[global] Instance node_descriptor_eq_dec : EqDecision node_descriptor.
Proof. solve_decision. Defined.
#[global] Instance link_descriptor_eq_dec : EqDecision link_descriptor.
Proof. solve_decision. Defined.
#[global] Instance prefix_descriptor_eq_dec : EqDecision prefix_descriptor.
Proof. solve_decision. Defined.

(** [bzero(&info, sizeof(info))] *)
Definition no_node : node_descriptor :=
  {| nd_asn := 0; nd_bgp_ls_id := 0; nd_igp_router_id := zeros 8; nd_ospf_area_Id := zeros 4;
     nd_bgp_router_id := 0; nd_hash_bin := zeros 16 |}.
Definition no_link : link_descriptor :=
  {| ld_local_id := 0; ld_remote_id := 0; ld_intf_addr := zeros 16; ld_nei_addr := zeros 16;
     ld_mt_id := 0; ld_isIPv4 := false |}.
Definition no_prefix : prefix_descriptor :=
  {| pd_ospf_route_type := ""; pd_mt_id := 0; pd_prefix := zeros 16; pd_prefix_bcast := zeros 16;
     pd_prefix_len := 0 |}.

Definition nd_set_asn (v : Z) (i : node_descriptor) : node_descriptor :=
  {| nd_asn := v; nd_bgp_ls_id := nd_bgp_ls_id i; nd_igp_router_id := nd_igp_router_id i;
     nd_ospf_area_Id := nd_ospf_area_Id i; nd_bgp_router_id := nd_bgp_router_id i; nd_hash_bin := nd_hash_bin i |}.
Definition nd_set_ls_id (v : Z) (i : node_descriptor) : node_descriptor :=
  {| nd_asn := nd_asn i; nd_bgp_ls_id := v; nd_igp_router_id := nd_igp_router_id i;
     nd_ospf_area_Id := nd_ospf_area_Id i; nd_bgp_router_id := nd_bgp_router_id i; nd_hash_bin := nd_hash_bin i |}.
Definition nd_set_igp (v : list Z) (i : node_descriptor) : node_descriptor :=
  {| nd_asn := nd_asn i; nd_bgp_ls_id := nd_bgp_ls_id i; nd_igp_router_id := v;
     nd_ospf_area_Id := nd_ospf_area_Id i; nd_bgp_router_id := nd_bgp_router_id i; nd_hash_bin := nd_hash_bin i |}.
Definition nd_set_area (v : list Z) (i : node_descriptor) : node_descriptor :=
  {| nd_asn := nd_asn i; nd_bgp_ls_id := nd_bgp_ls_id i; nd_igp_router_id := nd_igp_router_id i;
     nd_ospf_area_Id := v; nd_bgp_router_id := nd_bgp_router_id i; nd_hash_bin := nd_hash_bin i |}.
Definition nd_set_bgp (v : Z) (i : node_descriptor) : node_descriptor :=
  {| nd_asn := nd_asn i; nd_bgp_ls_id := nd_bgp_ls_id i; nd_igp_router_id := nd_igp_router_id i;
     nd_ospf_area_Id := nd_ospf_area_Id i; nd_bgp_router_id := v; nd_hash_bin := nd_hash_bin i |}.
Definition nd_set_hash (v : list Z) (i : node_descriptor) : node_descriptor :=
  {| nd_asn := nd_asn i; nd_bgp_ls_id := nd_bgp_ls_id i; nd_igp_router_id := nd_igp_router_id i;
     nd_ospf_area_Id := nd_ospf_area_Id i; nd_bgp_router_id := nd_bgp_router_id i; nd_hash_bin := v |}.

Definition ld_set_ids (l r : Z) (i : link_descriptor) : link_descriptor :=
  {| ld_local_id := l; ld_remote_id := r; ld_intf_addr := ld_intf_addr i; ld_nei_addr := ld_nei_addr i;
     ld_mt_id := ld_mt_id i; ld_isIPv4 := ld_isIPv4 i |}.
Definition ld_set_mt (v : Z) (i : link_descriptor) : link_descriptor :=
  {| ld_local_id := ld_local_id i; ld_remote_id := ld_remote_id i; ld_intf_addr := ld_intf_addr i;
     ld_nei_addr := ld_nei_addr i; ld_mt_id := v; ld_isIPv4 := ld_isIPv4 i |}.
Definition ld_set_intf (v : list Z) (i : link_descriptor) : link_descriptor :=
  {| ld_local_id := ld_local_id i; ld_remote_id := ld_remote_id i; ld_intf_addr := v;
     ld_nei_addr := ld_nei_addr i; ld_mt_id := ld_mt_id i; ld_isIPv4 := ld_isIPv4 i |}.
Definition ld_set_nei (v : list Z) (i : link_descriptor) : link_descriptor :=
  {| ld_local_id := ld_local_id i; ld_remote_id := ld_remote_id i; ld_intf_addr := ld_intf_addr i;
     ld_nei_addr := v; ld_mt_id := ld_mt_id i; ld_isIPv4 := ld_isIPv4 i |}.
Definition ld_set_v4 (v : bool) (i : link_descriptor) : link_descriptor :=
  {| ld_local_id := ld_local_id i; ld_remote_id := ld_remote_id i; ld_intf_addr := ld_intf_addr i;
     ld_nei_addr := ld_nei_addr i; ld_mt_id := ld_mt_id i; ld_isIPv4 := v |}.

Definition pd_set_reach (len : Z) (prefix bcast : list Z) (i : prefix_descriptor) : prefix_descriptor :=
  {| pd_ospf_route_type := pd_ospf_route_type i; pd_mt_id := pd_mt_id i; pd_prefix := prefix;
     pd_prefix_bcast := bcast; pd_prefix_len := len |}.
Definition pd_set_mt (v : Z) (i : prefix_descriptor) : prefix_descriptor :=
  {| pd_ospf_route_type := pd_ospf_route_type i; pd_mt_id := v; pd_prefix := pd_prefix i;
     pd_prefix_bcast := pd_prefix_bcast i; pd_prefix_len := pd_prefix_len i |}.
Definition pd_set_route (v : string) (i : prefix_descriptor) : prefix_descriptor :=
  {| pd_ospf_route_type := v; pd_mt_id := pd_mt_id i; pd_prefix := pd_prefix i;
     pd_prefix_bcast := pd_prefix_bcast i; pd_prefix_len := pd_prefix_len i |}.

(** ** Node hash *)

Definition genNodeHashId (i : node_descriptor) : outcome node_descriptor :=
  h ← Md5.md5_digest [nd_igp_router_id i; le_bytes 4 (nd_bgp_ls_id i); le_bytes 4 (nd_asn i); nd_ospf_area_Id i];
  Ok (nd_set_hash h i).

(** ** Sub-TLVs

    The head that all three descriptor parsers share: the header is read and
    checked against the octets left; [parse] decodes the value and returns the
    octets read, header included. *)
Definition sub_tlv {A} (data : ptr) (data_len : Z) (info : A)
    (parse : Z → Z → ptr → outcome (Z * A)) : outcome (Z * A) :=
  if data_len <? 4 then Ok (data_len, info)
  else
    type ← get_u16 data;
    len ← get_u16 (adv 2 data);
    if data_len - 4 <? len then Ok (data_len, info)
    else parse type len (adv 4 data).

(** [data_read += len <= data_len ? len : data_len] *)
Definition clip_len (len data_len : Z) : Z := if len <=? data_len then len else data_len.

Definition parseDescrLocalRemoteNode (data : ptr) (data_len : Z) (info : node_descriptor)
  : outcome (Z * node_descriptor) :=
  sub_tlv data data_len info (λ type len data,
    if type =? NODE_DESCR_AS then
      if negb (len =? 4) then Ok (4 + len, info)
      else v ← get_u32 data; Ok (4 + 4, nd_set_asn v info)
    else if type =? NODE_DESCR_BGP_LS_ID then
      if negb (len =? 4) then Ok (4 + len, info)
      else v ← get_u32 data; Ok (4 + 4, nd_set_ls_id v info)
    else if type =? NODE_DESCR_OSPF_AREA_ID then
      if negb (len =? 4) then Ok (4 + clip_len len data_len, info)
      else bs ← memcpy 4 data; Ok (4 + 4, nd_set_area bs info)
    else if type =? NODE_DESCR_IGP_ROUTER_ID then
      if (data_len <? len) || (8 <? len) then Ok (4 + len, info)
      else bs ← memcpy_into (zeros 8) len data; Ok (4 + len, nd_set_igp bs info)
    else if type =? NODE_DESCR_BGP_ROUTER_ID then
      if negb (len =? 4) then Ok (4 + clip_len len data_len, info)
      (* the identifier stays in network order *)
      else bs ← memcpy 4 data; Ok (4 + 4, nd_set_bgp (le_val bs) info)
    else Ok (4 + len, info)).

(** [memcpy(&mt_id, data, len); SWAP_BYTES(&mt_id); mt_id >>= 16;] *)
Definition read_mt_id (old len : Z) (data : ptr) : outcome Z :=
  bs ← memcpy_into (le_bytes 4 old) len data;
  Ok (Z.shiftr (ntoh bs) 16).

Definition parseDescrLink (data : ptr) (data_len : Z) (info : link_descriptor)
  : outcome (Z * link_descriptor) :=
  sub_tlv data data_len info (λ type len data,
    if type =? LINK_DESCR_ID then
      if negb (len =? 8) then Ok (4 + len, info)
      else l ← get_u32 data; r ← get_u32 (adv 4 data); Ok (4 + 8, ld_set_ids l r info)
    else if type =? LINK_DESCR_MT_ID then
      if len <? 2 then Ok (4 + len, info)
      else if 4 <? len then Ok (4 + len, ld_set_mt 0 info)
      else v ← read_mt_id (ld_mt_id info) len data; Ok (4 + len, ld_set_mt v info)
    else if type =? LINK_DESCR_IPV4_INTF_ADDR then
      let info := ld_set_v4 true info in
      if negb (len =? 4) then Ok (4 + clip_len len data_len, info)
      else bs ← memcpy_into (ld_intf_addr info) 4 data; Ok (4 + 4, ld_set_intf bs info)
    else if type =? LINK_DESCR_IPV6_INTF_ADDR then
      let info := ld_set_v4 false info in
      if negb (len =? 16) then Ok (4 + clip_len len data_len, info)
      else bs ← memcpy_into (ld_intf_addr info) 16 data; Ok (4 + 16, ld_set_intf bs info)
    else if type =? LINK_DESCR_IPV4_NEI_ADDR then
      let info := ld_set_v4 true info in
      if negb (len =? 4) then Ok (4 + clip_len len data_len, info)
      else bs ← memcpy_into (ld_nei_addr info) 4 data; Ok (4 + 4, ld_set_nei bs info)
    else if type =? LINK_DESCR_IPV6_NEI_ADDR then
      let info := ld_set_v4 false info in
      if negb (len =? 16) then Ok (4 + clip_len len data_len, info)
      else bs ← memcpy_into (ld_nei_addr info) 16 data; Ok (4 + 16, ld_set_nei bs info)
    else Ok (4 + len, info)).

(** the last address: the octets an IPv4 prefix does not set keep their value *)
Definition prefix_bcast (isIPv4 : bool) (len : Z) (prefix old : list Z) : list Z :=
  if isIPv4 then if len <? 32 then last_address4 len prefix ++ drop 4 old else prefix
  else last_address6 len prefix.

(** The prefix is copied without a check against the 16 octets of its array,
    and the route type is one octet whatever the length says. *)
Definition parseDescrPrefix (data : ptr) (data_len : Z) (info : prefix_descriptor) (isIPv4 : bool)
  : outcome (Z * prefix_descriptor) :=
  sub_tlv data data_len info (λ type len data,
    if type =? PREFIX_DESCR_IP_REACH_INFO then
      if len <? 1 then Ok (4 + len, info)
      else
        '(plen, data) ← rd data;
        prefix ← (if 1 <? len then memcpy_into (zeros 16) (len - 1) data else Ok (zeros 16));
        let data_read := 4 + 1 + (if 1 <? len then len - 1 else 0) in
        Ok (data_read, pd_set_reach plen prefix (prefix_bcast isIPv4 plen prefix (pd_prefix_bcast info)) info)
    else if type =? PREFIX_DESCR_MT_ID then
      if len <? 2 then Ok (4 + len, info)
      else if 4 <? len then Ok (4 + len, pd_set_mt 0 info)
      else v ← read_mt_id (pd_mt_id info) len data; Ok (4 + len, pd_set_mt v info)
    else if type =? PREFIX_DESCR_OSPF_ROUTE_TYPE then
      '(b, _) ← rd data; Ok (4 + 1, pd_set_route (ospf_route_text b) info)
    else Ok (4 + len, info)).

(** ** Descriptor loops *)

(** [while (len > 0)] over the sub-TLVs of a node descriptor; [len] is a
    [uint16_t] *)
Fixpoint node_loop (fuel : nat) (data : ptr) (len data_len : Z) (info : node_descriptor)
  : outcome (ptr * Z * node_descriptor) :=
  match fuel with
  | O => NoFuel
  | S fuel =>
      if 0 <? len then
        '(data_read, info) ← parseDescrLocalRemoteNode data len info;
        node_loop fuel (adv data_read data) (u16 (len - data_read)) (data_len - data_read) info
      else Ok (data, data_len, info)
  end.

(** [while (data_len > 0)] over the sub-TLVs of a link *)
Fixpoint link_loop (fuel : nat) (data : ptr) (data_len : Z) (info : link_descriptor)
  : outcome link_descriptor :=
  match fuel with
  | O => NoFuel
  | S fuel =>
      if 0 <? data_len then
        '(data_read, info) ← parseDescrLink data data_len info;
        link_loop fuel (adv data_read data) (data_len - data_read) info
      else Ok info
  end.

Fixpoint prefix_descr_loop (fuel : nat) (data : ptr) (data_len : Z) (isIPv4 : bool) (info : prefix_descriptor)
  : outcome prefix_descriptor :=
  match fuel with
  | O => NoFuel
  | S fuel =>
      if 0 <? data_len then
        '(data_read, info) ← parseDescrPrefix data data_len info isIPv4;
        prefix_descr_loop fuel (adv data_read data) (data_len - data_read) isIPv4 info
      else Ok info
  end.

(** A node descriptor TLV: its type, what follows it and its contents with the
    hash; [None] when it is longer than the data. *)
Definition node_tlv (data : ptr) (data_len : Z) : outcome (option (Z * ptr * Z * Z)) :=
  type ← get_u16 data;
  len ← get_u16 (adv 2 data);
  let data_len := data_len - 4 in
  if data_len <? len then Ok None else Ok (Some (type, adv 4 data, len, data_len)).

Definition node_contents (data : ptr) (len data_len : Z) : outcome (ptr * Z * node_descriptor) :=
  '(data, data_len, info) ← node_loop (S (Z.to_nat len)) data len data_len no_node;
  info ← genNodeHashId info;
  Ok (data, data_len, info).

(** ** NLRIs *)

Definition ls_node (id proto_id : Z) (info : node_descriptor) : obj_ls_node :=
  {| ln_id := id; ln_isIPv4 := true; ln_asn := nd_asn info; ln_bgp_ls_id := nd_bgp_ls_id info;
     ln_igp_router_id := nd_igp_router_id info; ln_ospf_area_Id := nd_ospf_area_Id info;
     ln_protocol := snprintf 32 (decodeNlriProtocolId proto_id); ln_router_id := zeros 16;
     ln_isis_area_id := zeros 9; ln_flags := ""; ln_name := ""; ln_mt_id := "";
     ln_sr_capabilities_tlv := ""; ln_hash_id := nd_hash_bin info |}.

Definition push_node (x : obj_ls_node) (d : parsed_data_ls) : parsed_data_ls :=
  {| nodes := nodes d ++ [x]; links := links d; prefixes := prefixes d |}.
Definition push_link (x : obj_ls_link) (d : parsed_data_ls) : parsed_data_ls :=
  {| nodes := nodes d; links := links d ++ [x]; prefixes := prefixes d |}.
Definition push_prefix (x : obj_ls_prefix) (d : parsed_data_ls) : parsed_data_ls :=
  {| nodes := nodes d; links := links d; prefixes := prefixes d ++ [x] |}.

Definition parseNlriNode (data : ptr) (data_len id proto_id : Z) (d : parsed_data_ls) : outcome parsed_data_ls :=
  if data_len <? 4 then Ok d
  else
    t ← node_tlv data data_len;
    match t with
    | None => Ok d
    | Some (type, data, len, data_len) =>
        if negb (type =? NODE_DESCR_LOCAL_DESCR) then Ok d
        else
          '(_, _, info) ← node_contents data len data_len;
          Ok (push_node (ls_node id proto_id info) d)
    end.

(** the link object, as far as the node descriptors fill it *)
Record link_ends : Type := { le_local : option node_descriptor; le_remote : option node_descriptor }.

(** [for (char i = 0; i < 2; i++)]; [None] for the early return *)
Fixpoint link_nodes (i : nat) (data : ptr) (data_len : Z) (e : link_ends) : outcome (option (ptr * Z * link_ends)) :=
  match i with
  | O => Ok (Some (data, data_len, e))
  | S i =>
      t ← node_tlv data data_len;
      match t with
      | None => Ok None
      | Some (type, data, len, data_len) =>
          '(data, data_len, info) ← node_contents data len data_len;
          link_nodes i data data_len
            (if type =? NODE_DESCR_LOCAL_DESCR then {| le_local := Some info; le_remote := le_remote e |}
             else if type =? NODE_DESCR_REMOTE_DESCR then {| le_local := le_local e; le_remote := Some info |}
             else e)
      end
  end.

(** a member set from a node descriptor, zero when there was none *)
Definition of_node {A} (f : node_descriptor → A) (zero : A) (o : option node_descriptor) : A :=
  match o with Some n => f n | None => zero end.

Definition ls_link (id proto_id : Z) (e : link_ends) (info : link_descriptor) : obj_ls_link :=
  {| lk_id := id; lk_mt_id := ld_mt_id info;
     lk_bgp_ls_id := of_node nd_bgp_ls_id 0 (le_local e);
     lk_igp_router_id := of_node nd_igp_router_id (zeros 8) (le_local e);
     lk_remote_igp_router_id := of_node nd_igp_router_id (zeros 8) (le_remote e);
     lk_ospf_area_Id := of_node nd_ospf_area_Id (zeros 4) (le_local e);
     lk_router_id := zeros 16; lk_remote_router_id := zeros 16;
     lk_local_node_asn := of_node nd_asn 0 (le_local e); lk_remote_node_asn := of_node nd_asn 0 (le_remote e);
     lk_local_bgp_router_id := of_node nd_bgp_router_id 0 (le_local e);
     lk_remote_bgp_router_id := of_node nd_bgp_router_id 0 (le_remote e);
     lk_isis_area_id := zeros 9; lk_protocol := snprintf 32 (decodeNlriProtocolId proto_id);
     lk_intf_addr := ld_intf_addr info; lk_nei_addr := ld_nei_addr info;
     lk_local_link_id := ld_local_id info; lk_remote_link_id := ld_remote_id info;
     lk_isIPv4 := ld_isIPv4 info;
     lk_local_node_hash_id := of_node nd_hash_bin (zeros 16) (le_local e);
     lk_remote_node_hash_id := of_node nd_hash_bin (zeros 16) (le_remote e);
     lk_hash_id := zeros 16; lk_admin_group := 0; lk_max_link_bw := 0; lk_max_resv_bw := 0;
     lk_unreserved_bw := ""; lk_te_def_metric := 0; lk_protection_type := ""; lk_mpls_proto_mask := "";
     lk_igp_metric := 0; lk_srlg := ""; lk_name := ""; lk_peer_node_sid := ""; lk_peer_adj_sid := "" |}.

Definition parseNlriLink (data : ptr) (data_len id proto_id : Z) (d : parsed_data_ls) : outcome parsed_data_ls :=
  if data_len <? 4 then Ok d
  else
    r ← link_nodes 2 data data_len {| le_local := None; le_remote := None |};
    match r with
    | None => Ok d
    | Some (data, data_len, e) =>
        info ← link_loop (S (Z.to_nat data_len)) data data_len no_link;
        Ok (push_link (ls_link id proto_id e info) d)
    end.

Definition ls_prefix (id proto_id : Z) (isIPv4 : bool) (node : node_descriptor) (info : prefix_descriptor)
  : obj_ls_prefix :=
  {| lp_id := id; lp_protocol := snprintf 32 (decodeNlriProtocolId proto_id); lp_bgp_ls_id := nd_bgp_ls_id node;
     lp_igp_router_id := nd_igp_router_id node; lp_ospf_area_Id := nd_ospf_area_Id node;
     lp_router_id := zeros 16; lp_isis_area_id := zeros 9; lp_intf_addr := zeros 16; lp_nei_addr := zeros 16;
     lp_local_node_hash_id := nd_hash_bin node; lp_hash_id := zeros 16; lp_mt_id := pd_mt_id info;
     lp_metric := 0; lp_isIPv4 := isIPv4; lp_prefix_len := pd_prefix_len info;
     lp_ospf_route_type := pd_ospf_route_type info; lp_prefix_bin := pd_prefix info;
     lp_prefix_bcast_bin := pd_prefix_bcast info; lp_igp_flags := ""; lp_route_tag := 0;
     lp_ext_route_tag := 0; lp_ospf_fwd_addr := zeros 16; lp_sid_tlv := "" |}.

Definition parseNlriPrefix (data : ptr) (data_len id proto_id : Z) (isIPv4 : bool) (d : parsed_data_ls)
  : outcome parsed_data_ls :=
  if data_len <? 4 then Ok d
  else
    t ← node_tlv data data_len;
    match t with
    | None => Ok d
    | Some (type, data, len, data_len) =>
        if negb (type =? NODE_DESCR_LOCAL_DESCR) then Ok d
        else
          '(data, data_len, local_node) ← node_contents data len data_len;
          info ← prefix_descr_loop (S (Z.to_nat data_len)) data data_len isIPv4 no_prefix;
          Ok (push_prefix (ls_prefix id proto_id isIPv4 local_node info) d)
    end.

(** [while (nlri_len_read < len)]: the counters are [uint16_t], so that
    [nlri_len -= 9] wraps for an NLRI of less than nine octets.  Every iteration
    moves the pointer by 13 octets or more, which bounds the iterations by the
    octets of the buffer. *)
Fixpoint nlri_loop (fuel : nat) (data : ptr) (nlri_len_read len : Z) (d : parsed_data_ls)
  : outcome parsed_data_ls :=
  match fuel with
  | O => NoFuel
  | S fuel =>
      if nlri_len_read <? len then
        nlri_type ← get_u16 data;
        nlri_len ← get_u16 (adv 2 data);
        let data := adv 2 (adv 2 data) in
        let nlri_len_read := u16 (nlri_len_read + 4) in
        if len <? nlri_len then Ok d
        else
          '(proto_id, id_ptr) ← rd data;
          id ← memcpy 8 id_ptr;
          let id := ntoh id in
          let nlri_len_read := u16 (nlri_len_read + 9) in
          let nlri_len := u16 (nlri_len - 9) in
          let data := adv 9 data in
          let next (d : parsed_data_ls) :=
            nlri_loop fuel (adv nlri_len data) (u16 (nlri_len_read + nlri_len)) len d in
          if nlri_type =? NLRI_TYPE_NODE then parseNlriNode data nlri_len id proto_id d ≫= next
          else if nlri_type =? NLRI_TYPE_LINK then parseNlriLink data nlri_len id proto_id d ≫= next
          else if nlri_type =? NLRI_TYPE_IPV4_PREFIX then parseNlriPrefix data nlri_len id proto_id true d ≫= next
          else if nlri_type =? NLRI_TYPE_IPV6_PREFIX then parseNlriPrefix data nlri_len id proto_id false d ≫= next
          else Ok d
      else Ok d
  end.

Definition parseLinkStateNlriData (data : ptr) (len : Z) (d : parsed_data_ls) : outcome parsed_data_ls :=
  nlri_loop (S (length data)) data 0 len d.

(** ** MP_REACH and MP_UNREACH *)

(** The next hop goes to an array of 16 octets without a check; a shorter IPv6
    next hop leaves octets of it, and a next hop of less than four octets the
    text, unassigned. *)
Definition ls_next_hop (nh_len : Z) (nh : ptr) : outcome string :=
  if nh_len =? 4 then bs ← memcpy 4 nh; Ok (inet_ntop4 bs)
  else if 4 <? nh_len then
    if 16 <? nh_len then Undef OobWrite
    else bs ← memcpy nh_len nh; if nh_len <? 16 then Undef Uninit else Ok (inet_ntop6 bs)
  else Undef Uninit.

Definition reachLinkState (nlri : mp_reach_nlri) (d : parsed_update_data) : outcome parsed_update_data :=
  nh ← ls_next_hop (nh_len nlri) (next_hop nlri);
  let d := set_attr ATTR_TYPE_NEXT_HOP nh d in
  if safi nlri =? BGP_SAFI_BGPLS
  then l ← parseLinkStateNlriData (nlri_data nlri) (nlri_len nlri) (ls d); Ok (set_ls l d)
  else Ok d.

Definition unReachLinkState (nlri : mp_unreach_nlri) (d : parsed_update_data) : outcome parsed_update_data :=
  if un_safi nlri =? BGP_SAFI_BGPLS
  then l ← parseLinkStateNlriData (un_nlri_data nlri) (un_nlri_len nlri) (ls_withdrawn d); Ok (set_ls_withdrawn l d)
  else Ok d.

(** ** NLRIs as data

    A descriptor is a sequence of sub-TLVs; sub-TLVs of other types may stand
    between those the parser knows. *)

Definition ls_tlv (type : Z) (v : list Z) : list Z := hton 2 type ++ hton 2 (Z.of_nat (length v)) ++ v.

Inductive node_sub : Type :=
| NS_As (asn : Z)
| NS_LsId (v : Z)
| NS_Area (bs : list Z)
| NS_Igp (bs : list Z)
| NS_Bgp (bs : list Z)
| NS_Other (type : Z) (bs : list Z).

Inductive link_sub : Type :=
| LS_Id (local remote : Z)
| LS_Mt (v : Z) (extra : list Z)
| LS_Intf (v4 : bool) (bs : list Z)
| LS_Nei (v4 : bool) (bs : list Z)
| LS_Other (type : Z) (bs : list Z).

Inductive prefix_sub : Type :=
| PS_Reach (len : Z) (bs : list Z)
| PS_Mt (v : Z) (extra : list Z)
| PS_Route (b : Z)
| PS_Other (type : Z) (bs : list Z).

Definition enc_node_sub (x : node_sub) : list Z :=
  match x with
  | NS_As v => ls_tlv NODE_DESCR_AS (hton 4 v)
  | NS_LsId v => ls_tlv NODE_DESCR_BGP_LS_ID (hton 4 v)
  | NS_Area bs => ls_tlv NODE_DESCR_OSPF_AREA_ID bs
  | NS_Igp bs => ls_tlv NODE_DESCR_IGP_ROUTER_ID bs
  | NS_Bgp bs => ls_tlv NODE_DESCR_BGP_ROUTER_ID bs
  | NS_Other t bs => ls_tlv t bs
  end.
Definition enc_link_sub (x : link_sub) : list Z :=
  match x with
  | LS_Id l r => ls_tlv LINK_DESCR_ID (hton 4 l ++ hton 4 r)
  | LS_Mt v extra => ls_tlv LINK_DESCR_MT_ID (hton 2 v ++ extra)
  | LS_Intf v4 bs => ls_tlv (if v4 then LINK_DESCR_IPV4_INTF_ADDR else LINK_DESCR_IPV6_INTF_ADDR) bs
  | LS_Nei v4 bs => ls_tlv (if v4 then LINK_DESCR_IPV4_NEI_ADDR else LINK_DESCR_IPV6_NEI_ADDR) bs
  | LS_Other t bs => ls_tlv t bs
  end.
Definition enc_prefix_sub (x : prefix_sub) : list Z :=
  match x with
  | PS_Reach len bs => ls_tlv PREFIX_DESCR_IP_REACH_INFO (len :: bs)
  | PS_Mt v extra => ls_tlv PREFIX_DESCR_MT_ID (hton 2 v ++ extra)
  | PS_Route b => ls_tlv PREFIX_DESCR_OSPF_ROUTE_TYPE [b]
  | PS_Other t bs => ls_tlv t bs
  end.

(** what a sub-TLV says *)
Definition node_effect (i : node_descriptor) (x : node_sub) : node_descriptor :=
  match x with
  | NS_As v => nd_set_asn v i
  | NS_LsId v => nd_set_ls_id v i
  | NS_Area bs => nd_set_area bs i
  | NS_Igp bs => nd_set_igp (bs ++ zeros (8 - length bs)) i
  | NS_Bgp bs => nd_set_bgp (le_val bs) i
  | NS_Other _ _ => i
  end.
(** the first octets of an address of 16 octets *)
Definition put_addr (bs old : list Z) : list Z := bs ++ drop (length bs) old.
Definition link_effect (i : link_descriptor) (x : link_sub) : link_descriptor :=
  match x with
  | LS_Id l r => ld_set_ids l r i
  | LS_Mt v _ => ld_set_mt v i
  | LS_Intf v4 bs => ld_set_intf (put_addr bs (ld_intf_addr i)) (ld_set_v4 v4 i)
  | LS_Nei v4 bs => ld_set_nei (put_addr bs (ld_nei_addr i)) (ld_set_v4 v4 i)
  | LS_Other _ _ => i
  end.
Definition prefix_effect (v4 : bool) (i : prefix_descriptor) (x : prefix_sub) : prefix_descriptor :=
  match x with
  | PS_Reach len bs =>
      let prefix := bs ++ zeros (16 - length bs) in
      pd_set_reach len prefix (prefix_bcast v4 len prefix (pd_prefix_bcast i)) i
  | PS_Mt v _ => pd_set_mt v i
  | PS_Route b => pd_set_route (ospf_route_text b) i
  | PS_Other _ _ => i
  end.

Definition u32_ok (v : Z) : Prop := 0 ≤ v < 2 ^ 32.
Definition octets (n : nat) (bs : list Z) : Prop := bytes_ok bs ∧ length bs = n.
(** a type the descriptor does not know, with a value that fits the length field *)
Definition other_ok (known : list Z) (t : Z) (bs : list Z) : Prop :=
  0 ≤ t < 65536 ∧ (t ∉ known) ∧ Z.of_nat (length bs) < 65536.

Definition wf_node_sub (x : node_sub) : Prop :=
  match x with
  | NS_As v | NS_LsId v => u32_ok v
  | NS_Area bs | NS_Bgp bs => octets 4 bs
  | NS_Igp bs => bytes_ok bs ∧ (length bs ≤ 8)%nat
  | NS_Other t bs => other_ok [512; 513; 514; 515; 516] t bs
  end.
Definition mt_ok (v : Z) (extra : list Z) : Prop := 0 ≤ v < 65536 ∧ bytes_ok extra ∧ (length extra ≤ 2)%nat.
Definition wf_link_sub (x : link_sub) : Prop :=
  match x with
  | LS_Id l r => u32_ok l ∧ u32_ok r
  | LS_Mt v extra => mt_ok v extra
  | LS_Intf v4 bs | LS_Nei v4 bs => octets (if v4 then 4 else 16) bs
  | LS_Other t bs => other_ok [258; 259; 260; 261; 262; 263] t bs
  end.
Definition wf_prefix_sub (x : prefix_sub) : Prop :=
  match x with
  | PS_Reach len bs => is_byte len ∧ bytes_ok bs ∧ (length bs ≤ 16)%nat
  | PS_Mt v extra => mt_ok v extra
  | PS_Route b => True
  | PS_Other t bs => other_ok [263; 264; 265] t bs
  end.

(** ** Sub-TLVs: round trips *)

Lemma length_ls_tlv t v : Z.of_nat (length (ls_tlv t v)) = 4 + Z.of_nat (length v).
Proof. unfold ls_tlv. autorewrite with bmp_len. lia. Qed.

Lemma sub_tlv_app {A} t v rest data_len (info : A) parse :
  0 ≤ t < 65536 → Z.of_nat (length v) < 65536 → Z.of_nat (length (ls_tlv t v)) ≤ data_len →
  sub_tlv (ls_tlv t v ++ rest) data_len info parse = parse t (Z.of_nat (length v)) (v ++ rest).
Proof.
  rewrite length_ls_tlv. intros Ht Hv Hl. unfold sub_tlv, ls_tlv. rewrite <-!app_assoc.
  zif; [lia|]. rewrite get_u16_hton by lia. run.
  rewrite (adv_app (hton 2 t) _ 2) by (rewrite length_hton; done).
  rewrite get_u16_hton by lia. run. zif; [lia|].
  by rewrite app_assoc, adv_app by by autorewrite with bmp_len.
Qed.

Lemma read_mt_id_app old v extra rest :
  mt_ok v extra →
  read_mt_id old (Z.of_nat (length (hton 2 v ++ extra))) ((hton 2 v ++ extra) ++ rest) = Ok v.
Proof.
  intros (Hv & He & Hl). unfold read_mt_id.
  assert (length (hton 2 v ++ extra) = (2 + length extra)%nat) as Hlen by by autorewrite with bmp_len.
  rewrite memcpy_into_app by (rewrite ?length_le_bytes, ?Hlen; lia). run.
  rewrite <-app_assoc, ntoh_app, ntoh_hton by (simpl; lia).
  set (tl := extra ++ drop _ _). assert (bytes_ok tl ∧ length tl = 2%nat) as [Htl Hn].
  { subst tl. split; [apply Forall_app; split; [done|apply Forall_drop, le_bytes_ok]|].
    rewrite length_app, length_drop, length_le_bytes, Hlen. lia. }
  pose proof (ntoh_bound tl Htl) as Hb. rewrite Hn in *. change (256 ^ Z.of_nat 2) with 65536 in *.
  rewrite Z.shiftr_div_pow2 by lia. change (2 ^ 16) with 65536.
  by rewrite Z.div_add_l, Z.div_small, Z.add_0_r by lia.
Qed.

Ltac known := cbn -[hton get_u32 memcpy memcpy_into read_mt_id clip_len rd zeros Z.of_nat inet_ntop4].

(** side conditions on types and lengths *)
Ltac side := destruct_and?; rewrite ?length_hton; solve [done|lia|simpl; lia|split; by vm_compute].

(** an unknown type falls through every comparison *)
Ltac unknown := match goal with H : _ ∉ _ |- _ =>
  repeat (zif; [exfalso; apply H; match goal with E : _ = _ |- _ => rewrite E end;
                by apply (bool_decide_unpack _)|]) end.

Lemma parse_node_sub_app x rest data_len info :
  wf_node_sub x → Z.of_nat (length (enc_node_sub x)) ≤ data_len →
  parseDescrLocalRemoteNode (enc_node_sub x ++ rest) data_len info
  = Ok (Z.of_nat (length (enc_node_sub x)), node_effect info x).
Proof.
  unfold parseDescrLocalRemoteNode.
  destruct x as [v|v|bs|bs|bs|t bs]; cbn [wf_node_sub enc_node_sub]; unfold u32_ok, octets, other_ok;
    intros Hx Hl.
  all: rewrite sub_tlv_app, length_ls_tlv by side.
  all: rewrite length_ls_tlv in Hl; cbv zeta.
  - rewrite length_hton. known. by rewrite get_u32_hton by lia.
  - rewrite length_hton. known. by rewrite get_u32_hton by lia.
  - destruct Hx as [Hb Hn]. rewrite Hn. known. by rewrite memcpy_app by lia.
  - destruct Hx as [Hb Hn]. known. rewrite (proj2 (Z.ltb_ge _ _)), (proj2 (Z.ltb_ge _ _)) by lia.
    cbn [orb]. rewrite memcpy_into_app by (rewrite ?length_zeros; lia). run. cbn [node_effect].
    do 3 f_equal. unfold zeros. by rewrite drop_replicate.
  - destruct Hx as [Hb Hn]. rewrite Hn. known. by rewrite memcpy_app by lia.
  - destruct Hx as (H1 & H2 & H3). unknown. done.
Qed.

Lemma parse_link_sub_app x rest data_len info :
  wf_link_sub x → length (ld_intf_addr info) = 16%nat → length (ld_nei_addr info) = 16%nat →
  Z.of_nat (length (enc_link_sub x)) ≤ data_len →
  parseDescrLink (enc_link_sub x ++ rest) data_len info
  = Ok (Z.of_nat (length (enc_link_sub x)), link_effect info x).
Proof.
  intros Hx Hi Hn Hl. unfold parseDescrLink. revert Hx Hl.
  destruct x as [l r|v extra|[] bs|[] bs|t bs]; cbn [wf_link_sub enc_link_sub]; unfold u32_ok, octets, other_ok;
    intros Hx Hl.
  2: assert (length (hton 2 v ++ extra) = (2 + length extra)%nat) as Hmt by by autorewrite with bmp_len.
  2: destruct Hx as (? & ? & ?).
  all: rewrite sub_tlv_app, length_ls_tlv by (rewrite ?length_app; side).
  all: rewrite length_ls_tlv in Hl; cbv zeta.
  - rewrite length_app, !length_hton. known. rewrite <-app_assoc, get_u32_hton by lia.
    run. by rewrite get_u32_hton by lia.
  - known. rewrite (proj2 (Z.ltb_ge _ 2)), (proj2 (Z.ltb_ge 4 _)) by lia.
    by rewrite read_mt_id_app by done.
  - destruct Hx as [? Hb]. rewrite Hb. known. by rewrite memcpy_into_app by lia.
  - destruct Hx as [? Hb]. rewrite Hb. known. by rewrite memcpy_into_app by lia.
  - destruct Hx as [? Hb]. rewrite Hb. known. by rewrite memcpy_into_app by lia.
  - destruct Hx as [? Hb]. rewrite Hb. known. by rewrite memcpy_into_app by lia.
  - destruct Hx as (? & ? & ?). by unknown.
Qed.

Lemma parse_prefix_sub_app v4 x rest data_len info :
  wf_prefix_sub x → Z.of_nat (length (enc_prefix_sub x)) ≤ data_len →
  parseDescrPrefix (enc_prefix_sub x ++ rest) data_len info v4
  = Ok (Z.of_nat (length (enc_prefix_sub x)), prefix_effect v4 info x).
Proof.
  intros Hx Hl. unfold parseDescrPrefix. revert Hx Hl.
  destruct x as [len bs|v extra|b|t bs]; cbn [wf_prefix_sub enc_prefix_sub]; unfold other_ok; intros Hx Hl.
  2: assert (length (hton 2 v ++ extra) = (2 + length extra)%nat) as Hmt by by autorewrite with bmp_len.
  2: destruct Hx as (? & ? & ?).
  all: rewrite sub_tlv_app, length_ls_tlv by (rewrite ?length_app; side).
  all: rewrite length_ls_tlv in Hl; cbv zeta.
  - destruct Hx as (_ & _ & Hb). cbn [length] in *. known. rewrite (proj2 (Z.ltb_ge _ 1)) by lia. run.
    zif.
    + rewrite memcpy_into_app by (rewrite ?length_zeros; lia). run. unfold zeros. rewrite drop_replicate.
      do 2 f_equal. lia.
    + destruct bs; [|simpl in *; lia]. run. done.
  - known. rewrite (proj2 (Z.ltb_ge _ 2)), (proj2 (Z.ltb_ge 4 _)) by lia.
    by rewrite read_mt_id_app by done.
  - known. by run.
  - destruct Hx as (? & ? & ?). by unknown.
Qed.

(** ** Descriptors *)

Definition enc_node_subs (xs : list node_sub) : list Z := concat (enc_node_sub <$> xs).
Definition enc_link_subs (xs : list link_sub) : list Z := concat (enc_link_sub <$> xs).
Definition enc_prefix_subs (xs : list prefix_sub) : list Z := concat (enc_prefix_sub <$> xs).

Lemma length_node_sub x : (4 ≤ length (enc_node_sub x))%nat.
Proof. destruct x; unfold enc_node_sub, ls_tlv; autorewrite with bmp_len; lia. Qed.
Lemma length_link_sub x : (4 ≤ length (enc_link_sub x))%nat.
Proof. destruct x; unfold enc_link_sub, ls_tlv; autorewrite with bmp_len; lia. Qed.
Lemma length_prefix_sub x : (4 ≤ length (enc_prefix_sub x))%nat.
Proof. destruct x; unfold enc_prefix_sub, ls_tlv; autorewrite with bmp_len; lia. Qed.

Lemma node_loop_app fuel xs rest k info :
  Forall wf_node_sub xs → (length (enc_node_subs xs) < fuel)%nat → Z.of_nat (length (enc_node_subs xs)) < 65536 →
  node_loop fuel (enc_node_subs xs ++ rest) (Z.of_nat (length (enc_node_subs xs)))
    (Z.of_nat (length (enc_node_subs xs)) + k) info
  = Ok (rest, k, foldl node_effect info xs).
Proof.
  intros Hxs. revert fuel info. induction Hxs as [|x xs Hx Hxs IH]; intros fuel info Hf Hl;
    (destruct fuel as [|fuel]; [simpl in Hf; lia|]); cbn [node_loop]; [done|].
  change (enc_node_subs (x :: xs)) with (enc_node_sub x ++ enc_node_subs xs) in *.
  rewrite length_app in *. pose proof (length_node_sub x). zif; [|lia].
  rewrite <-app_assoc, parse_node_sub_app by (done || lia). run.
  rewrite u16_small, Nat2Z.inj_add, Z.add_simpl_l by lia.
  replace (_ + _ + k - _) with (Z.of_nat (length (enc_node_subs xs)) + k) by lia.
  by apply IH; lia.
Qed.

Lemma link_effect_len i x : wf_link_sub x → length (ld_intf_addr i) = 16%nat → length (ld_nei_addr i) = 16%nat →
  length (ld_intf_addr (link_effect i x)) = 16%nat ∧ length (ld_nei_addr (link_effect i x)) = 16%nat.
Proof.
  destruct x as [| |v4 bs|v4 bs|]; cbn; try done; unfold put_addr, octets; intros [_ Hb] ? ?;
    rewrite length_app, length_drop; destruct v4; lia.
Qed.

Lemma link_loop_app fuel xs rest info :
  Forall wf_link_sub xs → length (ld_intf_addr info) = 16%nat → length (ld_nei_addr info) = 16%nat →
  (length (enc_link_subs xs) < fuel)%nat →
  link_loop fuel (enc_link_subs xs ++ rest) (Z.of_nat (length (enc_link_subs xs))) info
  = Ok (foldl link_effect info xs).
Proof.
  intros Hxs. revert fuel info. induction Hxs as [|x xs Hx Hxs IH]; intros fuel info H1 H2 Hf;
    (destruct fuel as [|fuel]; [simpl in Hf; lia|]); cbn [link_loop]; [done|].
  change (enc_link_subs (x :: xs)) with (enc_link_sub x ++ enc_link_subs xs) in *.
  rewrite length_app in *. pose proof (length_link_sub x). zif; [|lia].
  rewrite <-app_assoc, parse_link_sub_app by (done || lia). run.
  rewrite Nat2Z.inj_add, Z.add_simpl_l. destruct (link_effect_len info x); [done..|]. apply IH; [done..|lia].
Qed.

Lemma prefix_descr_loop_app fuel v4 xs rest info :
  Forall wf_prefix_sub xs → (length (enc_prefix_subs xs) < fuel)%nat →
  prefix_descr_loop fuel (enc_prefix_subs xs ++ rest) (Z.of_nat (length (enc_prefix_subs xs))) v4 info
  = Ok (foldl (prefix_effect v4) info xs).
Proof.
  intros Hxs. revert fuel info. induction Hxs as [|x xs Hx Hxs IH]; intros fuel info Hf;
    (destruct fuel as [|fuel]; [simpl in Hf; lia|]); cbn [prefix_descr_loop]; [done|].
  change (enc_prefix_subs (x :: xs)) with (enc_prefix_sub x ++ enc_prefix_subs xs) in *.
  rewrite length_app in *. pose proof (length_prefix_sub x). zif; [|lia].
  rewrite <-app_assoc, parse_prefix_sub_app by (done || lia). run.
  rewrite Nat2Z.inj_add, Z.add_simpl_l. apply IH; lia.
Qed.

(** ** The node hash *)

(** the octets the hash is computed from: router identifier, BGP-LS identifier
    and AS number in host order, area *)
Definition node_key (i : node_descriptor) : list Z :=
  nd_igp_router_id i ++ le_bytes 4 (nd_bgp_ls_id i) ++ le_bytes 4 (nd_asn i) ++ nd_ospf_area_Id i.

Definition node_bytes (i : node_descriptor) : Prop :=
  octets 8 (nd_igp_router_id i) ∧ octets 4 (nd_ospf_area_Id i).

Lemma zeros_octets n : octets n (zeros n).
Proof. split; [apply Forall_replicate; unfold is_byte; lia|apply length_zeros]. Qed.

Lemma node_effect_bytes i x : wf_node_sub x → node_bytes i → node_bytes (node_effect i x).
Proof.
  unfold node_bytes. intros Hx [H1 H2]. destruct x as [| | |bs| |]; cbn in *; try done.
  destruct Hx as [Hb Hl]. split; [|done]. split.
  - apply Forall_app. split; [done|apply zeros_octets].
  - rewrite length_app, length_zeros. lia.
Qed.

Lemma node_effects_bytes xs : ∀ i, Forall wf_node_sub xs → node_bytes i → node_bytes (foldl node_effect i xs).
Proof.
  induction xs as [|x xs IH]; intros i Hxs Hi; [done|]. inversion_clear Hxs. cbn [foldl].
  auto using node_effect_bytes.
Qed.

Lemma genNodeHashId_md5 i :
  node_bytes i → genNodeHashId i = Ok (nd_set_hash (Md5.md5_rfc (node_key i)) i).
Proof.
  intros [[H1 H2] [H3 H4]]. unfold genNodeHashId. rewrite Md5.md5_digest_rfc.
  - cbn [concat]. rewrite app_nil_r. done.
  - do 4 (constructor; [rewrite ?length_le_bytes; split; (apply le_bytes_ok || done || lia)|]). constructor.
Qed.

(** the descriptor a sequence of sub-TLVs describes, with its hash *)
Definition node_of (xs : list node_sub) : node_descriptor :=
  let i := foldl node_effect no_node xs in nd_set_hash (Md5.md5_rfc (node_key i)) i.

Lemma node_contents_app xs rest k :
  Forall wf_node_sub xs → Z.of_nat (length (enc_node_subs xs)) < 65536 →
  node_contents (enc_node_subs xs ++ rest) (Z.of_nat (length (enc_node_subs xs)))
    (Z.of_nat (length (enc_node_subs xs)) + k) = Ok (rest, k, node_of xs).
Proof.
  intros Hxs Hl. unfold node_contents. rewrite node_loop_app by (done || lia). run.
  rewrite genNodeHashId_md5; [done|]. apply node_effects_bytes; [done|]. split; apply zeros_octets.
Qed.

(** ** NLRIs *)

Inductive ls_nlri : Type :=
| LN_Node (proto id : Z) (node : list node_sub)
| LN_Link (proto id : Z) (local remote : list node_sub) (link : list link_sub)
| LN_Prefix (v4 : bool) (proto id : Z) (node : list node_sub) (prefix : list prefix_sub).

Definition node_part (type : Z) (xs : list node_sub) : list Z := ls_tlv type (enc_node_subs xs).

Definition nlri_type_of (n : ls_nlri) : Z :=
  match n with
  | LN_Node _ _ _ => NLRI_TYPE_NODE
  | LN_Link _ _ _ _ _ => NLRI_TYPE_LINK
  | LN_Prefix v4 _ _ _ _ => if v4 then NLRI_TYPE_IPV4_PREFIX else NLRI_TYPE_IPV6_PREFIX
  end.
Definition nlri_ids (n : ls_nlri) : Z * Z :=
  match n with LN_Node p i _ | LN_Link p i _ _ _ | LN_Prefix _ p i _ _ => (p, i) end.
Definition nlri_body (n : ls_nlri) : list Z :=
  match n with
  | LN_Node _ _ xs => node_part NODE_DESCR_LOCAL_DESCR xs
  | LN_Link _ _ xs ys ls =>
      node_part NODE_DESCR_LOCAL_DESCR xs ++ node_part NODE_DESCR_REMOTE_DESCR ys ++ enc_link_subs ls
  | LN_Prefix _ _ _ xs ps => node_part NODE_DESCR_LOCAL_DESCR xs ++ enc_prefix_subs ps
  end.
Definition enc_ls_nlri (n : ls_nlri) : list Z :=
  hton 2 (nlri_type_of n) ++ hton 2 (9 + Z.of_nat (length (nlri_body n)))
  ++ (nlri_ids n).1 :: hton 8 (nlri_ids n).2 ++ nlri_body n.

Definition nlri_effect (d : parsed_data_ls) (n : ls_nlri) : parsed_data_ls :=
  match n with
  | LN_Node p i xs => push_node (ls_node i p (node_of xs)) d
  | LN_Link p i xs ys ls =>
      push_link (ls_link i p {| le_local := Some (node_of xs); le_remote := Some (node_of ys) |}
                   (foldl link_effect no_link ls)) d
  | LN_Prefix v4 p i xs ps =>
      push_prefix (ls_prefix i p v4 (node_of xs) (foldl (prefix_effect v4) no_prefix ps)) d
  end.

Definition wf_ls_nlri (n : ls_nlri) : Prop :=
  is_byte (nlri_ids n).1 ∧ 0 ≤ (nlri_ids n).2 < 2 ^ 64
  ∧ match n with
    | LN_Node _ _ xs => Forall wf_node_sub xs
    | LN_Link _ _ xs ys ls => Forall wf_node_sub xs ∧ Forall wf_node_sub ys ∧ Forall wf_link_sub ls
    | LN_Prefix _ _ _ xs ps => Forall wf_node_sub xs ∧ Forall wf_prefix_sub ps
    end.

Lemma node_tlv_app type xs rest data_len :
  0 ≤ type < 65536 → Z.of_nat (length (node_part type xs)) ≤ data_len → Z.of_nat (length (node_part type xs)) < 65536 →
  node_tlv (node_part type xs ++ rest) data_len
  = Ok (Some (type, enc_node_subs xs ++ rest, Z.of_nat (length (enc_node_subs xs)), data_len - 4)).
Proof.
  unfold node_part. rewrite length_ls_tlv. intros Ht H1 H2. unfold node_tlv, ls_tlv. rewrite <-!app_assoc.
  rewrite get_u16_hton by lia. run.
  rewrite (adv_app (hton 2 type) _ 2) by (rewrite length_hton; done).
  rewrite get_u16_hton by lia. run. zif; [lia|].
  by rewrite (app_assoc (hton 2 type)), adv_app by by autorewrite with bmp_len.
Qed.

(** the two steps on a node descriptor inside an NLRI *)
Lemma node_contents_in type xs data_len rest :
  Forall wf_node_sub xs → Z.of_nat (length (node_part type xs)) < 65536 →
  node_contents (enc_node_subs xs ++ rest) (Z.of_nat (length (enc_node_subs xs))) (data_len - 4)
  = Ok (rest, data_len - Z.of_nat (length (node_part type xs)), node_of xs).
Proof.
  unfold node_part. rewrite length_ls_tlv. intros Hxs Hl.
  replace (data_len - 4) with
    (Z.of_nat (length (enc_node_subs xs)) + (data_len - (4 + Z.of_nat (length (enc_node_subs xs))))) by lia.
  by rewrite node_contents_app by (done || lia).
Qed.

Lemma length_node_part type xs : (4 ≤ length (node_part type xs))%nat.
Proof. unfold node_part, ls_tlv. autorewrite with bmp_len. lia. Qed.

Definition parse_body (n : ls_nlri) (data : ptr) (data_len : Z) (d : parsed_data_ls) : outcome parsed_data_ls :=
  let '(p, i) := nlri_ids n in
  match n with
  | LN_Node _ _ _ => parseNlriNode data data_len i p d
  | LN_Link _ _ _ _ _ => parseNlriLink data data_len i p d
  | LN_Prefix v4 _ _ _ _ => parseNlriPrefix data data_len i p v4 d
  end.

Lemma parse_body_app n rest d :
  wf_ls_nlri n → Z.of_nat (length (nlri_body n)) < 65536 →
  parse_body n (nlri_body n ++ rest) (Z.of_nat (length (nlri_body n))) d = Ok (nlri_effect d n).
Proof.
  intros (_ & _ & Hw) Hl.
  destruct n as [p i xs|p i xs ys ls|v4 p i xs ps]; cbn [nlri_body parse_body nlri_ids nlri_effect] in *;
    rewrite ?length_app in *;
    pose proof (length_node_part NODE_DESCR_LOCAL_DESCR xs).
  - unfold parseNlriNode. zif; [lia|]. rewrite node_tlv_app by (lia || done). run. cbn [negb Z.eqb].
    by rewrite (node_contents_in NODE_DESCR_LOCAL_DESCR) by (done || lia).
  - destruct Hw as (Hx & Hy & Hs). pose proof (length_node_part NODE_DESCR_REMOTE_DESCR ys).
    unfold parseNlriLink. zif; [lia|]. cbn [link_nodes]. rewrite <-!app_assoc.
    rewrite node_tlv_app by (lia || done). run.
    rewrite (node_contents_in NODE_DESCR_LOCAL_DESCR) by (done || lia). run.
    rewrite node_tlv_app by (lia || done). run.
    rewrite (node_contents_in NODE_DESCR_REMOTE_DESCR) by (done || lia). run. cbn -[link_loop zeros enc_link_subs].
    replace (_ - _ - _) with (Z.of_nat (length (enc_link_subs ls))) by lia.
    by rewrite link_loop_app by (done || lia).
  - destruct Hw as (Hx & Hp). unfold parseNlriPrefix. zif; [lia|]. rewrite <-!app_assoc.
    rewrite node_tlv_app by (lia || done). run. cbn [negb Z.eqb].
    rewrite (node_contents_in NODE_DESCR_LOCAL_DESCR) by (done || lia). run.
    replace (_ - _) with (Z.of_nat (length (enc_prefix_subs ps))) by lia.
    by rewrite prefix_descr_loop_app by (done || lia).
Qed.

Lemma length_enc_ls_nlri n : Z.of_nat (length (enc_ls_nlri n)) = 13 + Z.of_nat (length (nlri_body n)).
Proof. unfold enc_ls_nlri. rewrite !length_app. cbn [length]. rewrite length_app, !length_hton. lia. Qed.

Definition enc_ls_nlris (ns : list ls_nlri) : list Z := concat (enc_ls_nlri <$> ns).

Lemma nlri_loop_app fuel ns rest k d :
  Forall wf_ls_nlri ns → (length ns < fuel)%nat → 0 ≤ k →
  k + Z.of_nat (length (enc_ls_nlris ns)) < 65536 →
  nlri_loop fuel (enc_ls_nlris ns ++ rest) k (k + Z.of_nat (length (enc_ls_nlris ns))) d
  = Ok (foldl nlri_effect d ns).
Proof.
  intros Hns. revert fuel k d. induction Hns as [|n ns Hn Hns IH]; intros fuel k d Hf Hk Hl;
    (destruct fuel as [|fuel]; [simpl in Hf; lia|]); cbn [nlri_loop].
  { zif; [simpl in *; lia|done]. }
  change (enc_ls_nlris (n :: ns)) with (enc_ls_nlri n ++ enc_ls_nlris ns) in *.
  rewrite length_app, Nat2Z.inj_add, length_enc_ls_nlri in *. set (L := Z.of_nat (length (enc_ls_nlris ns))) in *.
  set (B := Z.of_nat (length (nlri_body n))) in *. assert (0 ≤ L ∧ 0 ≤ B) as [? ?] by lia.
  zif; [|lia]. unfold enc_ls_nlri. fold B. destruct Hn as (Hp & Hi & Hw).
  rewrite <-!app_assoc, <-app_comm_cons, get_u16_hton by (destruct n as [| |[]]; done). run.
  rewrite ?(adv_app (hton 2 (nlri_type_of n)) _ 2) by (rewrite length_hton; done).
  rewrite get_u16_hton by lia. run. rewrite ?(adv_app (hton 2 _) _ 2) by (rewrite length_hton; done).
  zif; [lia|]. run. rewrite <-app_assoc, (memcpy_app (hton 8 _)) by (rewrite length_hton; done). run.
  rewrite ntoh_hton by (simpl; lia). rewrite app_comm_cons, adv_app by (cbn [length]; rewrite length_hton; done).
  cbv zeta. rewrite (u16_small (9 + B - 9)), (u16_small (k + 4)), (u16_small (k + 4 + 9)), u16_small by lia.
  replace (9 + B - 9) with B by lia. rewrite adv_app by lia.
  replace (k + 4 + 9 + B) with (k + (13 + B)) by lia.
  pose proof (parse_body_app n (enc_ls_nlris ns ++ rest) d (conj Hp (conj Hi Hw)) ltac:(lia)) as Hbody.
  fold B in Hbody. unfold parse_body in Hbody.
  assert (nlri_loop fuel (enc_ls_nlris ns ++ rest) (k + (13 + B)) (k + (13 + B + L)) (nlri_effect d n)
          = Ok (foldl nlri_effect d (n :: ns))) as Hnext.
  { replace (k + (13 + B + L)) with (k + (13 + B) + L) by lia. apply IH; simpl in Hf; lia. }
  destruct n as [p i xs|p i xs ys ls|[] p i xs ps]; 
    cbn [nlri_type_of nlri_ids fst snd] in Hbody |- *; cbn [Z.eqb Pos.eqb NLRI_TYPE_NODE NLRI_TYPE_LINK
      NLRI_TYPE_IPV4_PREFIX NLRI_TYPE_IPV6_PREFIX]; rewrite Hbody; exact Hnext.
Qed.

Lemma enc_ls_nlris_count ns : (length ns ≤ length (enc_ls_nlris ns))%nat.
Proof.
  induction ns as [|n ns IH]; [done|]. change (enc_ls_nlris (n :: ns)) with (enc_ls_nlri n ++ enc_ls_nlris ns).
  rewrite length_app. cbn [length]. pose proof (length_enc_ls_nlri n). lia.
Qed.

Lemma parseLinkStateNlriData_app ns rest d :
  Forall wf_ls_nlri ns → Z.of_nat (length (enc_ls_nlris ns)) < 65536 →
  parseLinkStateNlriData (enc_ls_nlris ns ++ rest) (Z.of_nat (length (enc_ls_nlris ns))) d
  = Ok (foldl nlri_effect d ns).
Proof.
  intros Hns Hl. unfold parseLinkStateNlriData. pose proof (enc_ls_nlris_count ns).
  rewrite <-(Z.add_0_l (Z.of_nat (length (enc_ls_nlris ns)))) at 1.
  apply nlri_loop_app; [done|rewrite length_app; lia|lia|lia].
Qed.

(** C8: a link-state UPDATE comes back as what was sent.  NLRIs of nodes, links and
    prefixes of both families, encoded one after the other with any sub-TLVs in
    any order and unknown ones among them, are appended to the announced objects
    by MP_REACH, which also stores the next hop, and to the withdrawn ones by
    MP_UNREACH; every node carries the MD5 digest of its identifying fields. *)
Theorem link_state_roundtrip (ns : list ls_nlri) (v4 : bool) (nh rest : list Z) (a r : Z) (d : parsed_update_data) :
  Forall wf_ls_nlri ns → Z.of_nat (length (enc_ls_nlris ns)) < 65536 → length nh = (if v4 then 4 else 16)%nat →
  reachLinkState {| afi := a; safi := BGP_SAFI_BGPLS; nh_len := if v4 then 4 else 16; next_hop := nh ++ rest;
                    reserved := r; nlri_data := enc_ls_nlris ns ++ rest;
                    nlri_len := Z.of_nat (length (enc_ls_nlris ns)) |} d
    = Ok (set_ls (foldl nlri_effect (ls d) ns) (set_attr ATTR_TYPE_NEXT_HOP (inet_ntop v4 nh) d))
  ∧ unReachLinkState {| un_afi := a; un_safi := BGP_SAFI_BGPLS; un_nlri_data := enc_ls_nlris ns ++ rest;
                        un_nlri_len := Z.of_nat (length (enc_ls_nlris ns)) |} d
    = Ok (set_ls_withdrawn (foldl nlri_effect (ls_withdrawn d) ns) d).
Proof.
  intros Hns Hl Hnh. unfold reachLinkState, unReachLinkState. cbn [nh_len next_hop safi nlri_data nlri_len
    un_safi un_nlri_data un_nlri_len].
  assert (ls_next_hop (if v4 then 4 else 16) (nh ++ rest) = Ok (inet_ntop v4 nh)) as ->
    by (unfold ls_next_hop; destruct v4; cbn [Z.eqb Z.ltb Z.compare Pos.eqb Pos.compare Pos.compare_cont];
        by rewrite memcpy_app by lia).
  run. rewrite Z.eqb_refl, !parseLinkStateNlriData_app by done. done.
Qed.

(** ** Bounds and termination *)

Lemma get_u16_bound p v : bytes_ok p → get_u16 p = Ok v → 0 ≤ v < 65536.
Proof.
  intros Hb H. unfold get_u16 in H. inv_ok.
  match goal with H2 : memcpy 2 _ = Ok _ |- _ => apply memcpy_inv in H2 as [? ->] end.
  pose proof (ntoh_bound (take 2 p) ltac:(apply Forall_take, Hb)) as Hn.
  by rewrite length_take, Nat.min_l in Hn by lia.
Qed.

Lemma adv_bytes n p : bytes_ok p → bytes_ok (adv n p).
Proof. apply Forall_drop. Qed.
#[export] Hint Resolve adv_bytes : bmp.

(** a sub-TLV is too short or too long for the octets left, or it is parsed *)
Lemma sub_tlv_inv {A} data data_len (info : A) parse r :
  bytes_ok data → sub_tlv data data_len info parse = Ok r →
  r = (data_len, info) ∨ ∃ t len, 0 ≤ len ≤ data_len - 4 ∧ parse t len (adv 4 data) = Ok r.
Proof.
  intros Hb. unfold sub_tlv. zif; [intros [= <-]; by left|]. intros H.
  apply bind_Ok_inv in H as (t & _ & H). apply bind_Ok_inv in H as (len & Hlen & H).
  apply get_u16_bound in Hlen; [|by apply adv_bytes].
  revert H. zif; [intros [= <-]; by left|]. intros H. right. exists t, len. split; [lia|done].
Qed.

(** runs an equation on a parsed value through its branches *)
Ltac octets_read := repeat (first [progress cbv zeta in * | progress inv_ok | progress cmp | case_match]); cmp; try done; try lia.

(** the octets read lie between 1 and the octets left *)
Lemma node_read data data_len info n i' :
  bytes_ok data → 0 < data_len → parseDescrLocalRemoteNode data data_len info = Ok (n, i') → 1 ≤ n ≤ data_len.
Proof.
  intros Hb Hd H. apply sub_tlv_inv in H as [[= -> _]|(t & len & Hl & H)]; [lia| |done].
  unfold clip_len in H. octets_read.
Qed.
Lemma link_read data data_len info n i' :
  bytes_ok data → 0 < data_len → parseDescrLink data data_len info = Ok (n, i') → 1 ≤ n ≤ data_len.
Proof.
  intros Hb Hd H. apply sub_tlv_inv in H as [[= -> _]|(t & len & Hl & H)]; [lia| |done].
  unfold clip_len in H. octets_read.
Qed.
Lemma prefix_read data data_len info v4 n i' :
  bytes_ok data → 0 < data_len → parseDescrPrefix data data_len info v4 = Ok (n, i') → 1 ≤ n.
Proof.
  intros Hb Hd H. apply sub_tlv_inv in H as [[= -> _]|(t & len & Hl & H)]; [lia| |done].
  octets_read.
Qed.

Lemma memcpy_octets n p bs : bytes_ok p → memcpy n p = Ok bs → octets (Z.to_nat n) bs.
Proof.
  intros Hb H. apply memcpy_inv in H as [? ->]. split; [by apply Forall_take|]. rewrite length_take. lia.
Qed.
Lemma memcpy_into_octets k dst n p bs :
  octets k dst → bytes_ok p → memcpy_into dst n p = Ok bs → octets k bs.
Proof.
  intros [Hd Hk] Hb. unfold memcpy_into. zif; [|done]. intros H. inv_ok.
  match goal with H : memcpy _ _ = Ok _ |- _ => apply memcpy_octets in H as [H1 H2]; [|done] end.
  split; [apply Forall_app; split; [done|by apply Forall_drop]|]. rewrite length_app, length_drop. lia.
Qed.

Lemma node_sub_bytes data data_len info n i' :
  bytes_ok data → node_bytes info → parseDescrLocalRemoteNode data data_len info = Ok (n, i') → node_bytes i'.
Proof.
  intros Hb [H1 H2] H. apply sub_tlv_inv in H as [[= _ ->]|(t & len & Hl & H)]; [by split| |done].
  octets_read; try (by split); split; try done.
  - by eapply (memcpy_octets 4); [|eassumption]; apply adv_bytes.
  - eapply memcpy_into_octets; [apply zeros_octets| |eassumption]. by apply adv_bytes.
Qed.

Lemma sub_tlv_terminates {A} data data_len (info : A) parse :
  (∀ t len p, terminates (parse t len p)) → terminates (sub_tlv data data_len info parse).
Proof. intros. unfold sub_tlv. term. Qed.

Lemma node_sub_terminates data data_len info : terminates (parseDescrLocalRemoteNode data data_len info).
Proof. apply sub_tlv_terminates. intros. term. Qed.
Lemma link_sub_terminates data data_len info : terminates (parseDescrLink data data_len info).
Proof. apply sub_tlv_terminates. unfold read_mt_id. intros. term. Qed.
Lemma prefix_sub_terminates data data_len info v4 : terminates (parseDescrPrefix data data_len info v4).
Proof. apply sub_tlv_terminates. unfold read_mt_id. intros. term. Qed.
#[export] Hint Resolve node_sub_terminates link_sub_terminates prefix_sub_terminates : bmp.

(** a node descriptor of any octets is read to its end; what is left is an
    octet sequence, and a count that is bounded by the one before *)
Lemma node_loop_total fuel data len k info :
  bytes_ok data → node_bytes info → 0 ≤ len < 65536 → len < Z.of_nat fuel →
  terminates (node_loop fuel data len k info)
  ∧ ∀ data' k' i', node_loop fuel data len k info = Ok (data', k', i') → bytes_ok data' ∧ k' ≤ k ∧ node_bytes i'.
Proof.
  revert data len k info. induction fuel as [|fuel IH]; intros data len k info Hb Hi Hl Hf; [lia|].
  cbn [node_loop]. zif; [|split; [done|intros ? ? ? [= <- <- <-]; split; [done|split; [lia|done]]]].
  destruct (parseDescrLocalRemoteNode data len info) as [[n i1]|e|u|] eqn:E1; cbn; try (split; [done|done]).
  - pose proof (node_sub_bytes _ _ _ _ _ Hb Hi E1). apply node_read in E1; [|done|lia]. rewrite u16_small by lia.
    destruct (IH (adv n data) (len - n) (k - n) i1) as [H1 H2]; [by apply adv_bytes|done|lia..|].
    split; [done|]. intros data' k' i' Hr. destruct (H2 _ _ _ Hr) as (? & ? & ?). split_and!; [done|lia|done].
  - by apply node_sub_terminates in E1.
Qed.

Lemma link_loop_total fuel data data_len info :
  bytes_ok data → 0 < Z.of_nat fuel → data_len < Z.of_nat fuel → terminates (link_loop fuel data data_len info).
Proof.
  revert data data_len info. induction fuel as [|fuel IH]; intros data data_len info Hb Hf Hl; [lia|].
  cbn [link_loop]. term. cmp. subst. match goal with H : _ = Ok _ |- _ => apply link_read in H; [|done|lia] end.
  apply IH; [by apply adv_bytes|lia..].
Qed.

Lemma prefix_descr_loop_total fuel data data_len v4 info :
  bytes_ok data → 0 < Z.of_nat fuel → data_len < Z.of_nat fuel → terminates (prefix_descr_loop fuel data data_len v4 info).
Proof.
  revert data data_len info. induction fuel as [|fuel IH]; intros data data_len info Hb Hf Hl; [lia|].
  cbn [prefix_descr_loop]. term. cmp. subst. match goal with H : _ = Ok _ |- _ => apply prefix_read in H; [|done|lia] end.
  apply IH; [by apply adv_bytes|lia..].
Qed.

Lemma node_contents_total data len k :
  bytes_ok data → 0 ≤ len < 65536 →
  terminates (node_contents data len k)
  ∧ ∀ data' k' i', node_contents data len k = Ok (data', k', i') → bytes_ok data' ∧ k' ≤ k.
Proof.
  intros Hb Hl. unfold node_contents.
  destruct (node_loop_total (S (Z.to_nat len)) data len k no_node) as [H1 H2];
    [done|split; apply zeros_octets|lia..|].
  destruct (node_loop _ _ _ _ _) as [[[data1 k1] i1]|e|u|] eqn:E; [|by split..].
  rewrite bind_Ok_l. cbn beta iota.
  destruct (H2 _ _ _ eq_refl) as (H3 & H4 & H5). rewrite genNodeHashId_md5 by done. cbn.
  split; [done|]. intros ? ? ? [= <- <- <-]. done.
Qed.

Lemma node_tlv_inv data data_len t p len k :
  bytes_ok data → node_tlv data data_len = Ok (Some (t, p, len, k)) → bytes_ok p ∧ 0 ≤ len < 65536 ∧ k = data_len - 4.
Proof.
  intros Hb H. unfold node_tlv in H. apply bind_Ok_inv in H as (ty & _ & H).
  apply bind_Ok_inv in H as (len' & Hlen & H). apply get_u16_bound in Hlen; [|by apply adv_bytes].
  revert H. zif; [done|]. intros [= <- <- <- <-]. split; [by apply adv_bytes|done].
Qed.

Lemma node_tlv_terminates data data_len : terminates (node_tlv data data_len).
Proof. unfold node_tlv. term. Qed.
#[export] Hint Resolve node_tlv_terminates : bmp.

Lemma parseNlriNode_terminates data data_len id p d : bytes_ok data → terminates (parseNlriNode data data_len id p d).
Proof.
  intros Hb. unfold parseNlriNode. term. subst.
  match goal with H : node_tlv _ _ = _ |- _ => apply node_tlv_inv in H as (? & ? & ?); [|done] end.
  by apply node_contents_total.
Qed.

Lemma link_nodes_total i data data_len e :
  bytes_ok data →
  terminates (link_nodes i data data_len e)
  ∧ ∀ data' k' e', link_nodes i data data_len e = Ok (Some (data', k', e')) → bytes_ok data'.
Proof.
  revert data data_len e. induction i as [|i IH]; intros data data_len e Hb; cbn [link_nodes].
  { split; [done|]. by intros ? ? ? [= <- <- <-]. }
  pose proof (node_tlv_terminates data data_len).
  destruct (node_tlv data data_len) as [[[[[t p] len] k]|]|e1|u|] eqn:E; rewrite ?bind_Ok_l; try by split.
  apply node_tlv_inv in E as (H1 & H2 & ->); [|done].
  destruct (node_contents_total p len (data_len - 4)) as [H3 H4]; [done..|].
  destruct (node_contents p len (data_len - 4)) as [[[data1 k1] i1]|e1|u|]; rewrite ?bind_Ok_l; try by split.
  destruct (H4 _ _ _ eq_refl). by apply IH.
Qed.

Lemma parseNlriLink_terminates data data_len id p d : bytes_ok data → terminates (parseNlriLink data data_len id p d).
Proof.
  intros Hb. unfold parseNlriLink. zif; [done|].
  destruct (link_nodes_total 2 data data_len {| le_local := None; le_remote := None |} Hb) as [H1 H2].
  term. subst. eapply H2 in H. apply link_loop_total; [done|lia..].
Qed.

Lemma parseNlriPrefix_terminates data data_len id p v4 d :
  bytes_ok data → terminates (parseNlriPrefix data data_len id p v4 d).
Proof.
  intros Hb. unfold parseNlriPrefix. zif; [done|]. apply terminates_bind; [term|]. intros [[[[t q] len] k]|] Ht; [|done].
  apply node_tlv_inv in Ht as (H1 & H2 & ->); [|done]. destruct (negb _); [done|].
  destruct (node_contents_total q len (data_len - 4)) as [H3 H4]; [done..|].
  term. subst. match goal with H : node_contents _ _ _ = _ |- _ => apply H4 in H as [? ?] end.
  apply prefix_descr_loop_total; [done|lia..].
Qed.
#[export] Hint Resolve parseNlriNode_terminates parseNlriLink_terminates parseNlriPrefix_terminates : bmp.

Lemma nlri_loop_total fuel data k len d :
  bytes_ok data → (length data < fuel)%nat → terminates (nlri_loop fuel data k len d).
Proof.
  revert data k d. induction fuel as [|fuel IH]; intros data k d Hb Hf; [lia|].
  cbn [nlri_loop]. zif; [|done]. apply terminates_bind; [term|]. intros t Ht.
  apply terminates_bind; [term|]. intros nl Hnl. zif; [done|]. apply terminates_bind; [term|]. intros [pr q] Hq.
  assert (length (adv 2 (adv 2 data)) < length data)%nat as Hlt.
  { rewrite !length_adv_nat. unfold get_u16 in Ht. inv_ok.
    match goal with H : memcpy 2 data = _ |- _ => apply memcpy_inv in H as [? _] end. lia. }
  assert (∀ n d', terminates (nlri_loop fuel (adv n (adv 9 (adv 2 (adv 2 data))))
                    (u16 (u16 (u16 (k + 4) + 9) + n)) len d')) as Hnext.
  { intros n d'. apply IH; [eauto 6 with bmp|]. rewrite (length_adv_nat n), (length_adv_nat 9). lia. }
  term; eauto 6 with bmp.
Qed.

Lemma reachLinkState_terminates nlri d : bytes_ok (nlri_data nlri) → terminates (reachLinkState nlri d).
Proof.
  intros Hb. unfold reachLinkState, ls_next_hop, parseLinkStateNlriData.
  term; apply nlri_loop_total; [done|lia].
Qed.
Lemma unReachLinkState_terminates nlri d : bytes_ok (un_nlri_data nlri) → terminates (unReachLinkState nlri d).
Proof.
  intros Hb. unfold unReachLinkState, parseLinkStateNlriData. term; apply nlri_loop_total; [done|lia].
Qed.

Lemma memcpy_into_def dst n p :
  n ≤ Z.of_nat (length dst) → n ≤ Z.of_nat (length p) → ∃ bs, memcpy_into dst n p = Ok bs.
Proof. intros. unfold memcpy_into, memcpy. zif; [|lia]. zif; [|lia]. run. eauto. Qed.

Lemma sub_tlv_def {A} data data_len (info : A) parse :
  bytes_ok data → data_len ≤ Z.of_nat (length data) →
  (∀ t len, 0 ≤ len → len ≤ data_len - 4 → ∃ r, parse t len (adv 4 data) = Ok r) →
  ∃ r, sub_tlv data data_len info parse = Ok r.
Proof.
  intros Hb Hl Hp. unfold sub_tlv. zif; [eauto|].
  destruct (get_u16_def data) as [t ->]; [lia|]. run.
  destruct (get_u16_ok (adv 2 data)) as (l & -> & Hlen); [by apply adv_bytes|rewrite length_adv_nat; lia|]. run. zif; [eauto|].
  apply Hp; lia.
Qed.

Ltac value_read lem := cbv zeta; match goal with |- context [mbind _ ?m] =>
  let v := fresh "v" in let E := fresh "E" in
  assert (∃ r, m = Ok r) as [v E] by lem; rewrite E; run; eauto end.

Lemma node_sub_def data data_len info :
  bytes_ok data → data_len ≤ Z.of_nat (length data) →
  ∃ r, parseDescrLocalRemoteNode data data_len info = Ok r.
Proof.
  intros Hb Hl. apply sub_tlv_def; [done..|]. intros t len Hlen Hle.
  assert (data_len - 4 ≤ Z.of_nat (length (adv 4 data))) by (rewrite length_adv_nat; lia).
  assert (Hinto : ∀ dst n, n ≤ Z.of_nat (length dst) → n ≤ data_len - 4 →
    ∃ bs, memcpy_into dst n (adv 4 data) = Ok bs) by (intros; apply memcpy_into_def; lia).
  assert (4 ≤ data_len - 4 → ∃ bs, memcpy 4 (adv 4 data) = Ok bs) as Hcpy
    by (intros; destruct (memcpy_def 4 (adv 4 data)) as (bs & ? & _); [lia|eauto]).
  assert (4 ≤ data_len - 4 → ∃ v, get_u32 (adv 4 data) = Ok v) as Hu32 by (intros; apply get_u32_def; lia).
  repeat case_match; eauto;
    repeat match goal with H : negb (_ =? _) = false |- _ => apply negb_false_iff in H end;
    repeat match goal with H : (_ || _) = false |- _ => apply orb_false_elim in H as [? H] end; cmp; subst.
  - value_read ltac:(apply Hu32; lia).
  - value_read ltac:(apply Hu32; lia).
  - value_read ltac:(apply Hcpy; lia).
  - value_read ltac:(apply Hinto; [rewrite length_zeros; lia|lia]).
  - value_read ltac:(apply Hcpy; lia).
Qed.

Lemma link_sub_def data data_len info :
  bytes_ok data → data_len ≤ Z.of_nat (length data) →
  length (ld_intf_addr info) = 16%nat → length (ld_nei_addr info) = 16%nat →
  ∃ r, parseDescrLink data data_len info = Ok r.
Proof.
  intros Hb Hl Hi Hn. apply sub_tlv_def; [done..|]. intros t len Hlen Hle.
  assert (data_len - 4 ≤ Z.of_nat (length (adv 4 data))) by (rewrite length_adv_nat; lia).
  assert (Hinto : ∀ dst n, n ≤ Z.of_nat (length dst) → n ≤ data_len - 4 →
    ∃ bs, memcpy_into dst n (adv 4 data) = Ok bs) by (intros; apply memcpy_into_def; lia).
  repeat case_match; eauto;
    repeat match goal with H : negb (_ =? _) = false |- _ => apply negb_false_iff in H end; cmp; subst.
  - value_read ltac:(apply get_u32_def; lia). value_read ltac:(apply get_u32_def; rewrite length_adv_nat; lia).
  - value_read ltac:(unfold read_mt_id; value_read ltac:(apply Hinto; [rewrite length_le_bytes; lia|lia])).
  - value_read ltac:(apply Hinto; [cbn [ld_intf_addr ld_set_v4]; lia|lia]).
  - value_read ltac:(apply Hinto; [cbn [ld_intf_addr ld_set_v4]; lia|lia]).
  - value_read ltac:(apply Hinto; [cbn [ld_nei_addr ld_set_v4]; lia|lia]).
  - value_read ltac:(apply Hinto; [cbn [ld_nei_addr ld_set_v4]; lia|lia]).
Qed.

(** the sub-TLVs of a prefix that are read within their data: not an address of more
    than 16 octets, and not an OSPF route type without its octet at the end *)
Definition prefix_sub_safe (data : ptr) (data_len : Z) : Prop :=
  let type := ntoh (take 2 data) in
  let len := ntoh (take 2 (drop 2 data)) in
  data_len < 4 ∨ data_len - 4 < len
  ∨ ¬ (type = PREFIX_DESCR_IP_REACH_INFO ∧ 17 < len) ∧ ¬ (type = PREFIX_DESCR_OSPF_ROUTE_TYPE ∧ len = 0 ∧ data_len = 4).

Lemma get_u16_take p : (2 ≤ length p)%nat → get_u16 p = Ok (ntoh (take 2 p)).
Proof. intros Hp. unfold get_u16, memcpy. by zif; [|lia]. Qed.

Lemma prefix_sub_iff data data_len info v4 :
  bytes_ok data → 0 < data_len ≤ Z.of_nat (length data) →
  prefix_sub_safe data data_len ↔ ∃ n i', parseDescrPrefix data data_len info v4 = Ok (n, i') ∧ 1 ≤ n ≤ data_len.
Proof.
  intros Hb Hl. unfold prefix_sub_safe, parseDescrPrefix, sub_tlv. zif; [naive_solver eauto with lia|].
  rewrite (get_u16_take data) by lia. rewrite (get_u16_take (adv 2 data)) by (rewrite length_adv_nat; lia). rewrite !bind_Ok_l.
  change (adv 2 data) with (drop 2 data). set (t := ntoh (take 2 data)). set (len := ntoh (take 2 (drop 2 data))).
  assert (0 ≤ len < 65536) as Hlen.
  { pose proof (ntoh_bound (take 2 (drop 2 data)) ltac:(by apply Forall_take, Forall_drop)) as H'.
    by rewrite length_take, length_drop, Nat.min_l in H' by lia. }
  clearbody t len. zif; [naive_solver eauto with lia|].
  assert (Z.of_nat (length (adv 4 data)) = Z.of_nat (length data) - 4) as Ha by (rewrite length_adv_nat; lia).
  destruct (Z.eqb_spec t PREFIX_DESCR_IP_REACH_INFO) as [->|Hr].
  { zif; [split; [intros; eexists _, _; split; [done|lia]|intros _; right; right; split; [lia|by intros [[=] _]]]|].
    destruct (rd_def (adv 4 data)) as (b & p & -> & Hp); [lia|]. run. zif.
    - unfold memcpy_into. rewrite length_zeros. zif.
      + unfold memcpy. zif; [|lia]. run. split; [intros; eexists _, _; split; [done|lia]|intros _; right; right; split; [lia|by intros [[=] _]]].
      + split; [lia|]. intros (? & ? & [=] & _).
    - run. split; [intros; eexists _, _; split; [done|lia]|intros _; right; right; split; [lia|by intros [[=] _]]]. }
  destruct (Z.eqb_spec t PREFIX_DESCR_MT_ID) as [->|Hm].
  { assert (data_len < 4 ∨ data_len - 4 < len ∨ ¬ (PREFIX_DESCR_MT_ID = PREFIX_DESCR_IP_REACH_INFO ∧ 17 < len)
      ∧ ¬ (PREFIX_DESCR_MT_ID = PREFIX_DESCR_OSPF_ROUTE_TYPE ∧ len = 0 ∧ data_len = 4)) as HT by (right; right; split; by intros [[=] _]).
    split; [intros _|done]. zif; [eexists _, _; split; [done|lia]|]. zif; [eexists _, _; split; [done|lia]|].
    unfold read_mt_id. destruct (memcpy_into_def (le_bytes 4 (pd_mt_id info)) len (adv 4 data)) as [bs ->];
      [rewrite length_le_bytes; lia|lia|]. run. eexists _, _. split; [done|lia]. }
  destruct (Z.eqb_spec t PREFIX_DESCR_OSPF_ROUTE_TYPE) as [->|Ho].
  { split.
    - intros H. destruct (rd_def (adv 4 data)) as (b & p & -> & Hp); [lia|]. run. eexists _, _. split; [done|lia].
    - intros (n & i' & H & Hn). right. right. split; [by intros [[=] _]|]. intros (_ & -> & ->). inv_ok. lia. }
  split; [intros _; eexists _, _; split; [done|lia]|]. intros _. right. right. split; by intros [? _].
Qed.

(** C29: descriptors stay inside their data, with two exceptions.  For any octets and any
    length that the buffer holds, reading a sub-TLV of a node or a link descriptor is
    defined, and consumes at least one octet and at most the octets left, so that the
    loops over these descriptors never leave them.  For the descriptor of a prefix the
    same holds exactly when the sub-TLV is neither an address of more than 16 octets,
    which overruns its array, nor an OSPF route type of length zero at the end of the
    data, whose octet lies past it. *)
Theorem descriptors_in_bounds (data : ptr) (data_len : Z) (ni : node_descriptor) (li : link_descriptor)
    (pi : prefix_descriptor) (v4 : bool) :
  bytes_ok data → 0 < data_len ≤ Z.of_nat (length data) →
  length (ld_intf_addr li) = 16%nat → length (ld_nei_addr li) = 16%nat →
  (∃ n i', parseDescrLocalRemoteNode data data_len ni = Ok (n, i') ∧ 1 ≤ n ≤ data_len)
  ∧ (∃ n i', parseDescrLink data data_len li = Ok (n, i') ∧ 1 ≤ n ≤ data_len)
  ∧ (prefix_sub_safe data data_len
     ↔ ∃ n i', parseDescrPrefix data data_len pi v4 = Ok (n, i') ∧ 1 ≤ n ≤ data_len).
Proof.
  intros Hb Hl Hi Hn. split_and!.
  - destruct (node_sub_def data data_len ni) as [[n i'] E]; [done|lia|]. eauto using node_read with lia.
  - destruct (link_sub_def data data_len li) as [[n i'] E]; [done|lia|done..|]. eauto using link_read with lia.
  - by apply prefix_sub_iff.
Qed.

(** The last address of a link-state prefix.  The reachability sub-TLV of a prefix
    of any length of its family stores the prefix, padded with zeros, and as the
    last address the prefix with every host bit set. *)
Theorem reach_info_last_address (v4 : bool) (len : Z) (bs rest : list Z) (data_len : Z) (info : prefix_descriptor) :
  let w := (if v4 then 4 else 16)%nat in
  let padded := bs ++ zeros (16 - length bs) in
  bytes_ok bs → (length bs ≤ w)%nat → 0 ≤ len ≤ 8 * Z.of_nat w →
  4 + 1 + Z.of_nat (length bs) ≤ data_len →
  ∃ info', parseDescrPrefix (ls_tlv PREFIX_DESCR_IP_REACH_INFO (len :: bs) ++ rest) data_len info v4
           = Ok (4 + 1 + Z.of_nat (length bs), info')
    ∧ pd_prefix_len info' = len ∧ pd_prefix info' = padded
    ∧ ntoh (take w (pd_prefix_bcast info')) = Z.lor (ntoh (take w padded)) (2 ^ (8 * Z.of_nat w - len) - 1).
Proof.
  intros w padded Hb Hw Hlen Hl. exists (prefix_effect v4 info (PS_Reach len bs)).
  assert (bytes_ok padded ∧ length padded = 16%nat) as [Hp Hpl].
  { split; [apply Forall_app; split; [done|apply zeros_octets]|].
    subst padded. rewrite length_app, length_zeros. destruct v4; subst w; lia. }
  split_and!; [|done|done|].
  - pose proof (parse_prefix_sub_app v4 (PS_Reach len bs) rest data_len info) as E.
    cbn [enc_prefix_sub] in E. rewrite length_ls_tlv in E. cbn [length] in E. rewrite E.
    + do 2 f_equal. lia.
    + split_and!; [unfold is_byte|done|]; destruct v4; subst w; lia.
    + lia.
  - cbn [prefix_effect pd_set_reach pd_prefix_bcast]. fold padded. unfold prefix_bcast. destruct v4; subst w.
    + zif.
      * destruct (last_address4_correct len padded) as [H1 H2]; [done|lia..|].
        by rewrite take_app_le, take_ge, H2 by lia.
      * replace len with 32 by lia. cbn -[padded take]. by rewrite Z.lor_0_r.
    + destruct (last_address6_correct len padded) as [H1 H2]; [done|lia..|]. by rewrite !take_ge, H2 by lia.
Qed.

(** A short NLRI makes the parser leave the attribute.  An attribute of four octets
    that announces a node NLRI of length zero is accepted: the length wraps to
    65527 when the nine octets of protocol and identifier are subtracted, and the
    node is built from the octets that follow the attribute in the buffer. *)
Theorem short_nlri_reads_past_attribute (proto id : Z) (xs : list node_sub) (beyond : list Z) (d : parsed_data_ls) :
  is_byte proto → 0 ≤ id < 2 ^ 64 → Forall wf_node_sub xs →
  Z.of_nat (length (node_part NODE_DESCR_LOCAL_DESCR xs)) ≤ 65527 →
  let attribute := hton 2 NLRI_TYPE_NODE ++ hton 2 0 in
  parseLinkStateNlriData
    (attribute ++ proto :: hton 8 id ++ node_part NODE_DESCR_LOCAL_DESCR xs ++ beyond)
    (Z.of_nat (length attribute)) d
  = Ok (push_node (ls_node id proto (node_of xs)) d).
Proof.
  intros Hp Hi Hxs Hl. unfold parseLinkStateNlriData. cbv zeta.
  change (Z.of_nat (length (hton 2 NLRI_TYPE_NODE ++ hton 2 0))) with 4.
  set (data := _ ++ _). assert (2 < S (length data))%nat as Hf.
  { subst data. rewrite !length_app. cbn [length]. rewrite !length_app, !length_hton.
    pose proof (length_node_part NODE_DESCR_LOCAL_DESCR xs). lia. }
  set (fuel := length data) in *. clearbody fuel. subst data. rewrite <-app_assoc.
  cbn [nlri_loop]. zif; [|lia]. rewrite get_u16_hton by done. run.
  rewrite ?(adv_app (hton 2 NLRI_TYPE_NODE) _ 2) by (rewrite length_hton; done).
  rewrite get_u16_hton by lia. run. rewrite ?(adv_app (hton 2 0) _ 2) by (rewrite length_hton; done).
  zif; [lia|]. run.
  rewrite ntoh_hton by (simpl; lia). rewrite app_comm_cons, adv_app by (cbn [length]; rewrite length_hton; done).
  cbn [Z.eqb Pos.eqb NLRI_TYPE_NODE]. change (u16 (0 - 9)) with 65527.
  unfold parseNlriNode. zif; [lia|]. rewrite node_tlv_app by (lia || done). run. cbn [negb Z.eqb Pos.eqb].
  rewrite (node_contents_in NODE_DESCR_LOCAL_DESCR) by (done || lia). run.
  destruct fuel as [|fuel]; [lia|]. cbn [nlri_loop].
  change (u16 (u16 (u16 (0 + 4) + 9) + 65527)) with 4. zif; [lia|done].
Qed.

(** The next hop of a link-state MP_REACH is stored for 4 and 16 octets; any
    other length is undefined: more than 16 octets, for instance the 32 of a
    global and a link-local address, overrun the array. *)
Lemma ls_next_hop_lengths nh_len nh :
  0 ≤ nh_len ≤ Z.of_nat (length nh) →
  (nh_len = 4 ∨ nh_len = 16 → ∃ s, ls_next_hop nh_len nh = Ok s)
  ∧ (nh_len ≠ 4 → nh_len ≤ 15 → ls_next_hop nh_len nh = Undef Uninit)
  ∧ (17 ≤ nh_len → ls_next_hop nh_len nh = Undef OobWrite).
Proof.
  intros H. unfold ls_next_hop. split_and!.
  - intros [-> | ->]; cbn [Z.eqb Z.ltb Z.compare Pos.eqb Pos.compare Pos.compare_cont];
      destruct (memcpy_ok _ nh H) as (bs & -> & _); run; eauto.
  - intros. zif; [done|]. zif; [|done]. zif; [lia|].
    destruct (memcpy_ok _ nh H) as (bs & -> & _). run. zif; [done|lia].
  - intros. repeat (zif; try lia). done.
Qed.

(** A prefix of more than 16 octets in a reachability sub-TLV overruns the
    array, for both families. *)
Lemma reach_info_overruns v4 len bs rest data_len info :
  (17 ≤ length bs)%nat → Z.of_nat (length bs) < 65535 → 4 + 1 + Z.of_nat (length bs) ≤ data_len →
  parseDescrPrefix (ls_tlv PREFIX_DESCR_IP_REACH_INFO (len :: bs) ++ rest) data_len info v4 = Undef OobWrite.
Proof.
  intros H1 H2 H3. unfold parseDescrPrefix.
  rewrite sub_tlv_app by (rewrite ?length_ls_tlv; cbn [length]; done || lia).
  cbn [length]. known. rewrite (proj2 (Z.ltb_ge _ 1)) by lia. run. zif; [|lia].
  unfold memcpy_into. rewrite length_zeros. zif; [lia|done].
Qed.

(** ** Examples *)

Definition sample_node : list node_sub :=
  [NS_As 65001; NS_Other 999 [1; 2]; NS_LsId 0; NS_Area [0; 0; 0; 1]; NS_Igp [10; 0; 0; 1]; NS_Bgp [10; 0; 0; 9]].
Definition sample_ls_nlris : list ls_nlri :=
  [LN_Node 3 7 sample_node;
   LN_Link 3 7 sample_node [NS_As 65002; NS_Igp [10; 0; 0; 2]]
     [LS_Id 5 6; LS_Intf true [192; 0; 2; 1]; LS_Nei true [192; 0; 2; 2]; LS_Mt 2 []];
   LN_Prefix true 3 7 sample_node [PS_Mt 2 [0; 3]; PS_Route 2; PS_Reach 20 [172; 16; 16]];
   LN_Prefix false 2 7 [NS_Igp [0; 0; 0; 0; 0; 1]] [PS_Reach 0 []]].

(** well-formedness of explicit data *)
Ltac wf_step := match goal with
  | |- Forall _ _ => constructor
  | |- _ ∧ _ => split
  | |- _ ∉ _ => by apply (bool_decide_unpack _)
  | |- _ => first [done | lia | progress cbn | progress unfold u32_ok, mt_ok, octets, other_ok, is_byte]
  end.

Lemma sample_ls_nlris_wf : Forall wf_ls_nlri sample_ls_nlris.
Proof. unfold sample_ls_nlris, sample_node, wf_ls_nlri. repeat wf_step. Qed.

Lemma link_state_roundtrip_witness :
  let ns := sample_ls_nlris in let nh := [192; 0; 2; 9] in
  reachLinkState {| afi := 16388; safi := 71; nh_len := 4; next_hop := nh ++ [1]; reserved := 0;
                    nlri_data := enc_ls_nlris ns ++ [1]; nlri_len := Z.of_nat (length (enc_ls_nlris ns)) |} no_update
    = Ok (set_ls (foldl nlri_effect no_ls ns) (set_attr ATTR_TYPE_NEXT_HOP (inet_ntop true nh) no_update))
  ∧ unReachLinkState {| un_afi := 16388; un_safi := 71; un_nlri_data := enc_ls_nlris ns ++ [1];
                        un_nlri_len := Z.of_nat (length (enc_ls_nlris ns)) |} no_update
    = Ok (set_ls_withdrawn (foldl nlri_effect no_ls ns) no_update).
Proof.
  apply (link_state_roundtrip sample_ls_nlris true [192; 0; 2; 9] [1] 16388 0 no_update).
  - apply sample_ls_nlris_wf.
  - vm_compute. reflexivity.
  - reflexivity.
Defined.

Lemma descriptors_in_bounds_witness :
  (∃ n i', parseDescrLocalRemoteNode [1; 8; 0; 0] 4 no_node = Ok (n, i') ∧ 1 ≤ n ≤ 4)
  ∧ (∃ n i', parseDescrLink [1; 8; 0; 0] 4 no_link = Ok (n, i') ∧ 1 ≤ n ≤ 4)
  ∧ (prefix_sub_safe [1; 8; 0; 0] 4
     ↔ ∃ n i', parseDescrPrefix [1; 8; 0; 0] 4 no_prefix true = Ok (n, i') ∧ 1 ≤ n ≤ 4).
Proof.
  apply (descriptors_in_bounds [1; 8; 0; 0] 4 no_node no_link no_prefix true); [|simpl; lia|reflexivity|reflexivity].
  repeat constructor; lia.
Defined.

(** the octet of an OSPF route type of length zero is read from behind the data *)
Lemma route_type_overread : parseDescrPrefix [1; 8; 0; 0] 4 no_prefix true = Undef OobRead.
Proof. reflexivity. Qed.

Lemma reach_info_last_address_witness :
  ∃ info', parseDescrPrefix (ls_tlv PREFIX_DESCR_IP_REACH_INFO (20 :: [172; 16; 16]) ++ [9]) 8 no_prefix true
           = Ok (4 + 1 + 3, info')
    ∧ pd_prefix_len info' = 20 ∧ pd_prefix info' = [172; 16; 16] ++ zeros 13
    ∧ ntoh (take 4 (pd_prefix_bcast info')) = Z.lor (ntoh (take 4 ([172; 16; 16] ++ zeros 13))) (2 ^ (8 * 4 - 20) - 1).
Proof.
  apply (reach_info_last_address true 20 [172; 16; 16] [9] 8 no_prefix); [|simpl; lia..].
  repeat constructor; lia.
Defined.

Lemma short_nlri_reads_past_attribute_witness :
  parseLinkStateNlriData
    ((hton 2 1 ++ hton 2 0) ++ 3 :: hton 8 0 ++ node_part NODE_DESCR_LOCAL_DESCR [NS_As 65001] ++ []) 4 no_ls
  = Ok (push_node (ls_node 0 3 (node_of [NS_As 65001])) no_ls).
Proof.
  apply (short_nlri_reads_past_attribute 3 0 [NS_As 65001] [] no_ls).
  - split; lia.
  - lia.
  - repeat constructor; cbn; lia.
  - vm_compute. discriminate.
Defined.
