(* ===== verification/LinkStateAttr.v ===== *)
(** * The BGP-LS attribute ([bgp/linkstate/MPLinkStateAttr.cpp])

    The TLVs of path attribute 29: node, link and prefix attributes, which are
    kept in a map from the attribute type to an array of 255 octets; the
    conversion of IEEE 754 bandwidths; and the link-state component as the
    UPDATE parsers use it. *)

From S2P Require Import Prelude Inet BgpCommon UpdateTypes MPReach LinkStateNlri.

(** ** Attribute types ([bgp/linkstate/MPLinkStateAttr.h]) *)

Definition ATTR_NODE_MT_ID : Z := 263.
Definition ATTR_NODE_FLAG : Z := 1024.
Definition ATTR_NODE_NAME : Z := 1026.
Definition ATTR_NODE_ISIS_AREA_ID : Z := 1027.
Definition ATTR_NODE_IPV4_ROUTER_ID_LOCAL : Z := 1028.
Definition ATTR_NODE_IPV6_ROUTER_ID_LOCAL : Z := 1029.
Definition ATTR_NODE_SR_CAPABILITIES : Z := 1034.
Definition ATTR_LINK_IPV4_ROUTER_ID_REMOTE : Z := 1030.
Definition ATTR_LINK_IPV6_ROUTER_ID_REMOTE : Z := 1031.
Definition ATTR_LINK_ADMIN_GROUP : Z := 1088.
Definition ATTR_LINK_MAX_LINK_BW : Z := 1089.
Definition ATTR_LINK_MAX_RESV_BW : Z := 1090.
Definition ATTR_LINK_UNRESV_BW : Z := 1091.
Definition ATTR_LINK_TE_DEF_METRIC : Z := 1092.
Definition ATTR_LINK_PROTECTION_TYPE : Z := 1093.
Definition ATTR_LINK_MPLS_PROTO_MASK : Z := 1094.
Definition ATTR_LINK_IGP_METRIC : Z := 1095.
Definition ATTR_LINK_SRLG : Z := 1096.
Definition ATTR_LINK_NAME : Z := 1098.
Definition ATTR_LINK_ADJACENCY_SID : Z := 1099.
Definition ATTR_LINK_PEER_EPE_NODE_SID : Z := 1101.
Definition ATTR_PREFIX_IGP_FLAGS : Z := 1152.
Definition ATTR_PREFIX_ROUTE_TAG : Z := 1153.
Definition ATTR_PREFIX_EXTEND_TAG : Z := 1154.
Definition ATTR_PREFIX_PREFIX_METRIC : Z := 1155.
Definition ATTR_PREFIX_OSPF_FWD_ADDR : Z := 1156.
Definition ATTR_PREFIX_SID : Z := 1158.

Definition SUB_TLV_SID_LABEL : Z := 1161.

(** ** Flag names *)

Definition LS_FLAGS_NODE_NLRI : list string := ["O"; "T"; "E"; "B"; "R"; "V"].
Definition LS_FLAGS_PEER_ADJ_SID_ISIS : list string := ["F"; "B"; "V"; "L"; "S"].
Definition LS_FLAGS_PEER_ADJ_SID_OSPF : list string := ["B"; "V"; "L"; "G"].
Definition LS_FLAGS_SR_CAP_ISIS : list string := ["I"; "V"; "H"].
Definition LS_FLAGS_PREFIX_SID_ISIS : list string := ["R"; "N"; "P"; "E"; "V"; "L"].
Definition LS_FLAGS_PREFIX_SID_OSPF : list string := [""; "NP"; "M"; "E"; "V"; "L"].

(** [for (int i=0; ...) { ...; current_mask >>= 1; }] *)
Fixpoint flags_loop (data current_mask : Z) (flags_array : list string) (flags_string : string) : string :=
  match flags_array with
  | [] => flags_string
  | f :: fs =>
      flags_loop data (Z.shiftr current_mask 1) fs
        (if negb (Z.land current_mask data =? 0) then flags_string +:+ f else flags_string)
  end.
Definition parse_flags_to_string (data : Z) (flags_array : list string) : string :=
  flags_loop data 0x80 flags_array "".

(** ** Segment identifiers *)

Definition parse_sid_value (data : ptr) (len : Z) : outcome string :=
  if len =? 3 then bs ← memcpy 3 data; Ok (dec (ntoh bs))
  else if 16 <=? len then bs ← memcpy 16 data; Ok (inet_ntop6 bs)
  else if len =? 4 then v ← get_u32 data; Ok (dec v)
  else Ok "".

(** ** Bandwidths *)

Definition IEEE_SIGN_MASK : Z := 0x80000000.
Definition IEEE_EXPONENT_MASK : Z := 0x7F800000.
Definition IEEE_MANTISSA_MASK : Z := 0x007FFFFF.
Definition IEEE_INFINITY : Z := 0x7F800000.
Definition IEEE_MANTISSA_WIDTH : Z := 23.
Definition IEEE_BIAS : Z := 127.

(** 64-bit signed arithmetic of C++14: the shift converts a result below 2^64
    to the signed type, the product must not overflow *)
Definition i64 (z : Z) : Z := (z + 2 ^ 63) mod 2 ^ 64 - 2 ^ 63.
Definition shl64 (x k : Z) : outcome Z :=
  if (k <? 64) && (Z.shiftl x k <? 2 ^ 64) then Ok (i64 (Z.shiftl x k)) else Undef Overflow.
Definition mul64 (x y : Z) : outcome Z :=
  if (- 2 ^ 63 <=? x * y) && (x * y <? 2 ^ 63) then Ok (x * y) else Undef Overflow.

(** [float_val] is given by its 32 bits *)
Definition ieee_float_to_kbps (float_val : Z) : outcome Z :=
  let sign := Z.land float_val IEEE_SIGN_MASK in
  let exponent := Z.land float_val IEEE_EXPONENT_MASK in
  let mantissa := Z.land float_val IEEE_MANTISSA_MASK in
  if Z.land float_val 0x7FFFFFFF =? 0 then Ok 0
  else if exponent =? IEEE_INFINITY then Ok (if negb (sign =? 0) then 0x80000000 else 0x7FFFFFFF)
  else
    let exponent := Z.shiftr exponent IEEE_MANTISSA_WIDTH - IEEE_BIAS in
    if exponent <? 0 then Ok 0
    else
      let bits_value := Z.lor mantissa (Z.shiftl 1 IEEE_MANTISSA_WIDTH) in
      bits_value ← (if exponent <=? IEEE_MANTISSA_WIDTH
                    then Ok (Z.shiftr bits_value (IEEE_MANTISSA_WIDTH - exponent))
                    else shl64 bits_value (exponent - IEEE_MANTISSA_WIDTH));
      bits_value ← (if negb (sign =? 0) then mul64 bits_value (-1) else Ok bits_value);
      bits_value ← mul64 bits_value 8;
      Ok (u32 (Z.quot bits_value 1000)).

(** ** The arrays of the attribute map *)

(** [ls_attrs[t]], created with zeros when it is missing *)
Definition arr (m : ls_attrs_map) (t : Z) : list Z := default (zeros 255) (m !! t).

(** [memcpy(ls_attrs[t].data(), src, n)] *)
Definition put (t n : Z) (src : list Z) (m : ls_attrs_map) : outcome ls_attrs_map :=
  a ← memcpy_into (arr m t) n src; Ok (<[t := a]> m).
Definition put_text (t : Z) (s : string) (m : ls_attrs_map) : outcome ls_attrs_map :=
  put t (Z.of_nat (String.length s)) (bytes_of_string s) m.

(** the [n] octets that [strncpy(dst, p, n)] writes *)
Fixpoint strncpy_octets (n : nat) (p : ptr) : outcome (list Z) :=
  match n with
  | O => Ok []
  | S n' =>
      match p with
      | [] => Undef OobRead
      | b :: p' => if b =? 0 then Ok (zeros n) else l ← strncpy_octets n' p'; Ok (b :: l)
      end
  end.

(** [ls_attrs[t].fill(0); strncpy(ls_attrs[t].data(), p, len);] *)
Definition put_name (t len : Z) (p : ptr) (m : ls_attrs_map) : outcome ls_attrs_map :=
  if 255 <? len then Undef OobWrite
  else bs ← strncpy_octets (Z.to_nat len) p; put t len bs (<[t := zeros 255]> m).

Fixpoint strlen (a : list Z) : outcome nat :=
  match a with
  | [] => Undef OobRead
  | b :: a' => if b =? 0 then Ok O else n ← strlen a'; Ok (S n)
  end.

(** [strncat(a, s, 255 - strlen(a))]: at most that many characters of [s], and
    a terminator after them *)
Definition strncat (a : list Z) (s : string) : outcome (list Z) :=
  k ← strlen a;
  let src := take (length a - k) (bytes_of_string s) in
  if Nat.ltb (length a) (k + length src + 1) then Undef OobWrite
  else Ok (take k a ++ src ++ 0 :: drop (k + length src + 1) a).

(** ** Values *)

(** a metric of at most four octets: [memcpy(&v, data, len); SWAP_BYTES(&v, len)]
    over a zeroed word, as the octets of the word *)
Definition metric_octets (len : Z) (data : ptr) : outcome (list Z) :=
  bs ← memcpy len data; Ok (SWAP_BYTES bs ++ zeros (4 - length bs)).

(** [for (int i=0; i < len; i += 2)] of the multi-topology identifiers *)
Fixpoint mt_loop (fuel : nat) (i len : Z) (data : ptr) (val_ss : string) : outcome string :=
  match fuel with
  | O => NoFuel
  | S fuel =>
      if i <? len then
        v ← get_u16 data;
        mt_loop fuel (i + 2) len (adv 2 data) (val_ss +:+ (if i =? 0 then "" else ", ") +:+ dec v)
      else Ok val_ss
  end.

(** [strcmp(s, t) >= 0] *)
Definition strcmp_ge (s t : string) : bool :=
  match String.compare s t with Lt => false | _ => true end.

(** the protocol of the first object; the list may be empty *)
Definition front {A} (f : A → string) (l : list A) : outcome string :=
  match l with [] => Undef OobRead | x :: _ => Ok (f x) end.

(** the flags, decoded by the protocol of the object *)
Definition flags_by_protocol (protocol : string) (data : ptr) (isis ospf : Z → string) : outcome string :=
  if strcmp_ge protocol "IS-IS" then '(b, _) ← rd data; Ok (isis b)
  else if strcmp_ge protocol "OSPF" then '(b, _) ← rd data; Ok (ospf b)
  else Ok "".

(** [for (int l=2; l < len; l += 10)] over the ranges of the SR capabilities;
    [data] is not moved past the label. *)
Fixpoint sr_loop (fuel : nat) (l len : Z) (data : ptr) (val_ss : string) : outcome string :=
  match fuel with
  | O => NoFuel
  | S fuel =>
      if l <? len then
        let val_ss := if 12 <=? l then val_ss +:+ ", " else val_ss in
        bs ← memcpy 3 data;
        let value_32bit := Z.shiftr (ntoh (bs ++ [0])) 8 in
        let data := adv 3 data in
        let val_ss := val_ss +:+ dec value_32bit in
        type ← get_u16 data;
        let data := adv 2 data in
        sid_label_size ← get_u16 data;
        let data := adv 2 data in
        if type =? SUB_TLV_SID_LABEL then
          if (sid_label_size =? 3) || (sid_label_size =? 4) then
            w ← memcpy_into (le_bytes 4 value_32bit) sid_label_size data;
            let (value_32bit, l) := if sid_label_size =? 3 then (Z.shiftr (ntoh w) 8, l) else (ntoh w, l + 1) in
            sr_loop fuel (l + 10) len data (val_ss +:+ " " +:+ dec value_32bit)
          else Ok val_ss
        else Ok val_ss
      else Ok val_ss
  end.

(** [for (int i=0; i < 32; i += 4)] over the unreserved bandwidths *)
Fixpoint bw_loop (i : nat) (first : bool) (data : ptr) (val_ss : string) : outcome string :=
  match i with
  | O => Ok val_ss
  | S i =>
      v ← get_u32 data;
      kbps ← ieee_float_to_kbps v;
      bw_loop i false (adv 4 data) (val_ss +:+ (if first then "" else ", ") +:+ dec (i32 kbps))
  end.

Definition alg_text (alg : Z) : string :=
  match alg with 0 => "SPF " | 1 => "strict-SPF " | _ => "" end.

(** ** A TLV *)

Definition adjacency_sid (len : Z) (data : ptr) (d : parsed_update_data) : outcome ls_attrs_map :=
  let a := arr (ls_attrs d) ATTR_LINK_ADJACENCY_SID in
  k ← strlen a;
  let val_ss := if Nat.ltb 0 k then ", " else "" in
  protocol ← front lk_protocol (links (ls d));
  flags ← flags_by_protocol protocol data (λ b, parse_flags_to_string b LS_FLAGS_PEER_ADJ_SID_ISIS)
            (λ b, parse_flags_to_string b LS_FLAGS_PEER_ADJ_SID_OSPF);
  '(weight, _) ← rd (adv 1 data);
  sid ← parse_sid_value (adv 3 (adv 1 data)) (len - 4);
  a ← strncat a (val_ss +:+ flags +:+ " " +:+ dec weight +:+ " " +:+ sid);
  Ok (<[ATTR_LINK_ADJACENCY_SID := a]> (ls_attrs d)).

Definition prefix_sid (len : Z) (data : ptr) (d : parsed_update_data) : outcome ls_attrs_map :=
  let a := arr (ls_attrs d) ATTR_PREFIX_SID in
  k ← strlen a;
  let val_ss := if Nat.ltb 0 k then ", " else "" in
  protocol ← front lp_protocol (prefixes (ls d));
  flags ← flags_by_protocol protocol data (λ b, parse_flags_to_string b LS_FLAGS_PREFIX_SID_ISIS)
            (λ b, parse_flags_to_string b LS_FLAGS_PREFIX_SID_OSPF);
  '(alg, _) ← rd (adv 1 data);
  sid ← parse_sid_value (adv 2 (adv 1 (adv 1 data))) (len - 4);
  a ← strncat a (val_ss +:+ flags +:+ " " +:+ alg_text alg +:+ sid);
  Ok (<[ATTR_PREFIX_SID := a]> (ls_attrs d)).

Definition sr_capabilities (len : Z) (data : ptr) (d : parsed_update_data) : outcome ls_attrs_map :=
  protocol ← front ln_protocol (nodes (ls d));
  flags ← flags_by_protocol protocol data (λ b, parse_flags_to_string b LS_FLAGS_SR_CAP_ISIS) dec;
  s ← sr_loop (S (Z.to_nat len)) 2 len (adv 2 data) (flags +:+ " ");
  put_text ATTR_NODE_SR_CAPABILITIES s (ls_attrs d).

Definition epe_node_sid (len : Z) (data : ptr) (m : ls_attrs_map) : outcome ls_attrs_map :=
  '(b, _) ← rd data;
  '(w, _) ← rd (adv 1 data);
  sid ← parse_sid_value (adv 4 data) (len - 4);
  put_text ATTR_LINK_PEER_EPE_NODE_SID
    ((if negb (Z.land b 0x80 =? 0) then "V" else "") +:+ (if negb (Z.land b 0x40 =? 0) then "L" else "")
     +:+ " " +:+ dec w +:+ " " +:+ sid) m.

Definition bandwidth (t len : Z) (data : ptr) (m : ls_attrs_map) : outcome ls_attrs_map :=
  if negb (len =? 4) then Ok m
  else v ← get_u32 data; kbps ← ieee_float_to_kbps v; put t 4 (le_bytes 4 kbps) m.

(** [if (len == n) memcpy(ls_attrs[t].data(), data, n)] *)
Definition address (t n len : Z) (data : ptr) (m : ls_attrs_map) : outcome ls_attrs_map :=
  if negb (len =? n) then Ok m else put t n data m.

(** the value of a TLV; the types without a branch here are only logged *)
Definition tlv_value (type len : Z) (data : ptr) (d : parsed_update_data) : outcome ls_attrs_map :=
  let m := ls_attrs d in
  if type =? ATTR_NODE_FLAG then
    '(b, _) ← rd data;
    put_text ATTR_NODE_FLAG (parse_flags_to_string b LS_FLAGS_NODE_NLRI) (<[ATTR_NODE_FLAG := zeros 255]> m)
  else if type =? ATTR_NODE_IPV4_ROUTER_ID_LOCAL then address ATTR_NODE_IPV4_ROUTER_ID_LOCAL 4 len data m
  else if type =? ATTR_NODE_IPV6_ROUTER_ID_LOCAL then address ATTR_NODE_IPV6_ROUTER_ID_LOCAL 16 len data m
  else if type =? ATTR_NODE_ISIS_AREA_ID then
    m ← (if len <=? 8 then put ATTR_NODE_ISIS_AREA_ID len data m else Ok m);
    Ok (<[ATTR_NODE_ISIS_AREA_ID := <[8%nat := u8 len]> (arr m ATTR_NODE_ISIS_AREA_ID)]> m)
  else if type =? ATTR_NODE_MT_ID then
    s ← mt_loop (S (Z.to_nat len)) 0 len data "";
    put ATTR_NODE_MT_ID (Z.of_nat (String.length s) + 1) (bytes_of_string s ++ [0]) m
  else if type =? ATTR_NODE_NAME then put_name ATTR_NODE_NAME len data m
  else if type =? ATTR_NODE_SR_CAPABILITIES then sr_capabilities len data d
  else if type =? ATTR_LINK_ADMIN_GROUP then
    if negb (len =? 4) then Ok m else bs ← metric_octets len data; put ATTR_LINK_ADMIN_GROUP 4 bs m
  else if type =? ATTR_LINK_IGP_METRIC then
    if len <=? 4 then bs ← metric_octets len data; put ATTR_LINK_IGP_METRIC 4 bs m else Ok m
  else if type =? ATTR_LINK_IPV4_ROUTER_ID_REMOTE then address ATTR_LINK_IPV4_ROUTER_ID_REMOTE 4 len data m
  else if type =? ATTR_LINK_IPV6_ROUTER_ID_REMOTE then address ATTR_LINK_IPV6_ROUTER_ID_REMOTE 16 len data m
  else if type =? ATTR_LINK_MAX_LINK_BW then bandwidth ATTR_LINK_MAX_LINK_BW len data m
  else if type =? ATTR_LINK_MAX_RESV_BW then bandwidth ATTR_LINK_MAX_RESV_BW len data m
  else if type =? ATTR_LINK_NAME then put_name ATTR_LINK_NAME len data m
  else if type =? ATTR_LINK_ADJACENCY_SID then adjacency_sid len data d
  else if type =? ATTR_LINK_TE_DEF_METRIC then
    if len =? 0 then put ATTR_LINK_TE_DEF_METRIC 0 [] m
    else if 4 <? len then Ok m
    else bs ← metric_octets len data; put ATTR_LINK_TE_DEF_METRIC len bs m
  else if type =? ATTR_LINK_UNRESV_BW then
    if negb (len =? 32) then Ok m else s ← bw_loop 8 true data ""; put_text ATTR_LINK_UNRESV_BW s m
  else if type =? ATTR_LINK_PEER_EPE_NODE_SID then epe_node_sid len data m
  else if type =? ATTR_PREFIX_PREFIX_METRIC then
    bs ← (if len <=? 4 then metric_octets len data else Ok (zeros 4)); put ATTR_PREFIX_PREFIX_METRIC 4 bs m
  else if type =? ATTR_PREFIX_ROUTE_TAG then
    if len =? 4 then bs ← metric_octets len data; put ATTR_PREFIX_ROUTE_TAG 4 bs m else Ok m
  else if type =? ATTR_PREFIX_SID then prefix_sid len data d
  else Ok m.

(** The length of a TLV is not compared with the octets left. *)
Definition parseAttrLinkStateTLV (attr_len : Z) (data : ptr) (d : parsed_update_data)
  : outcome (Z * parsed_update_data) :=
  if attr_len <? 4 then Ok (attr_len, d)
  else
    type ← get_u16 data;
    len ← get_u16 (adv 2 data);
    m ← tlv_value type len (adv 4 data) d;
    Ok (len + 4, set_ls_attrs m d).

(** [while (attr_len > 0)] *)
Fixpoint ls_attr_loop (fuel : nat) (attr_len : Z) (data : ptr) (d : parsed_update_data)
  : outcome parsed_update_data :=
  match fuel with
  | O => NoFuel
  | S fuel =>
      if 0 <? attr_len then
        '(tlv_len, d) ← parseAttrLinkStateTLV attr_len data d;
        let attr_len := attr_len - tlv_len in
        ls_attr_loop fuel attr_len (if 0 <? attr_len then adv tlv_len data else data) d
      else Ok d
  end.

Definition attrLinkState (attr_len : Z) (data : ptr) (d : parsed_update_data) : outcome parsed_update_data :=
  ls_attr_loop (S (Z.to_nat attr_len)) attr_len data d.

(** ** The link-state component *)

#[global] Instance link_state : LinkState :=
  {| parseReachLinkState := reachLinkState; parseUnReachLinkState := unReachLinkState;
     parseAttrLinkState := attrLinkState |}.

(** ** Bandwidths: correctness *)

(** biased exponent and fraction of a number of 32 bits *)
Definition ieee_E (b : Z) : Z := (b / 2 ^ 23) mod 256.
Definition ieee_M (b : Z) : Z := b mod 2 ^ 23.
(** A finite number is [significand * 2 ^ (E - 150)] octets per second; a number
    with exponent zero has no implied bit and the scale of exponent one. *)
Definition ieee_significand (b : Z) : Z := if ieee_E b =? 0 then 2 * ieee_M b else 2 ^ 23 + ieee_M b.
(** the rate in kilobits per second: eight bits per octet, rounded down *)
Definition ieee_kbps (b : Z) : Z := ieee_significand b * 2 ^ ieee_E b * 8 / (1000 * 2 ^ 150).

Lemma land_field b k n : 0 ≤ n → 0 ≤ k → Z.land b (Z.ones n * 2 ^ k) = (b / 2 ^ k) mod 2 ^ n * 2 ^ k.
Proof.
  intros Hn Hk. rewrite <-!Z.shiftl_mul_pow2, <-Z.land_ones, <-Z.shiftr_div_pow2 by lia.
  apply Z.bits_inj'. intros i Hi. rewrite Z.land_spec, !Z.shiftl_spec by lia.
  destruct (decide (i < k)).
  - rewrite (Z.testbit_neg_r _ (i - k)) by lia. rewrite andb_false_r. by rewrite Z.testbit_neg_r by lia.
  - rewrite Z.land_spec, Z.shiftr_spec by lia. by replace (i - k + k) with i by lia.
Qed.

Lemma ieee_sign b : 0 ≤ b < 2 ^ 32 → (Z.land b IEEE_SIGN_MASK =? 0) = (b <? 2 ^ 31).
Proof.
  intros. change IEEE_SIGN_MASK with (Z.ones 1 * 2 ^ 31). rewrite land_field by lia.
  rewrite (Z.mod_small (b / 2 ^ 31)) by (split; [apply Z.div_pos; lia|apply Z.div_lt_upper_bound; lia]).
  destruct (Z.ltb_spec b (2 ^ 31)).
  - rewrite Z.div_small by lia. done.
  - assert (1 ≤ b / 2 ^ 31) by (apply Z.div_le_lower_bound; lia). apply Z.eqb_neq. lia.
Qed.

Lemma ieee_parts b : 0 ≤ b < 2 ^ 32 → b mod 2 ^ 31 = ieee_E b * 2 ^ 23 + ieee_M b ∧ 0 ≤ ieee_E b < 256 ∧ 0 ≤ ieee_M b < 2 ^ 23.
Proof.
  intros. unfold ieee_E, ieee_M. change (2 ^ 31) with (2 ^ 23 * 256).
  rewrite Z.rem_mul_r by lia.
  pose proof (Z.mod_pos_bound (b / 2 ^ 23) 256). pose proof (Z.mod_pos_bound b (2 ^ 23)). lia.
Qed.

(** scaling by the exponent, the two shifts of the code *)
Lemma scale_down s E : 0 ≤ s → 0 ≤ E ≤ 150 → s * 2 ^ E * 8 / (1000 * 2 ^ 150) = s / 2 ^ (150 - E) * 8 / 1000.
Proof.
  intros Hs HE. replace 150 with (150 - E + E) at 1 by lia. rewrite Z.pow_add_r by lia.
  pose proof (Z.pow_pos_nonneg 2 E). pose proof (Z.pow_pos_nonneg 2 (150 - E)).
  replace (s * 2 ^ E * 8) with (s * (8 * 2 ^ E)) by lia.
  replace (1000 * (2 ^ (150 - E) * 2 ^ E)) with (2 ^ (150 - E) * 125 * (8 * 2 ^ E)) by lia.
  rewrite Z.div_mul_cancel_r, <-Z.div_div by lia.
  replace 1000 with (125 * 8) by lia. by rewrite Z.div_mul_cancel_r by lia.
Qed.

Lemma scale_up s E : 0 ≤ s → 150 ≤ E → s * 2 ^ E * 8 / (1000 * 2 ^ 150) = s * 2 ^ (E - 150) * 8 / 1000.
Proof.
  intros Hs HE. replace E with (E - 150 + 150) at 1 by lia. rewrite Z.pow_add_r by lia.
  replace (s * (2 ^ (E - 150) * 2 ^ 150) * 8) with (s * 2 ^ (E - 150) * 8 * 2 ^ 150) by lia.
  by rewrite Z.div_mul_cancel_r by lia.
Qed.

Lemma quot_opp_div x : 0 ≤ x → Z.quot x 1000 = x / 1000 ∧ Z.quot (- x) 1000 = - (x / 1000).
Proof. intros. rewrite Z.quot_opp_l, Z.quot_div_nonneg by lia. done. Qed.

Lemma mul64_ok x y : - 2 ^ 63 ≤ x * y < 2 ^ 63 → mul64 x y = Ok (x * y).
Proof. intros. unfold mul64. by rewrite (proj2 (Z.leb_le _ _)), (proj2 (Z.ltb_lt _ _)) by lia. Qed.

(** the end of the function: sign, bits, kilobits *)
Lemma to_kbps (neg : bool) v : 0 ≤ v < 2 ^ 60 →
  ((v ← (if neg then mul64 v (-1) else Ok v); v ← mul64 v 8; Ok (u32 (Z.quot v 1000))) : outcome Z)
  = Ok (u32 (if neg then - (v * 8 / 1000) else v * 8 / 1000)).
Proof.
  intros Hv. destruct (quot_opp_div (v * 8)) as [E1 E2]; [lia|].
  destruct neg; rewrite ?mul64_ok, ?bind_Ok_l, ?mul64_ok, ?bind_Ok_l by lia.
  - replace (v * -1 * 8) with (- (v * 8)) by lia. by rewrite E2.
  - by rewrite E1.
Qed.

Lemma ieee_kbps_ok b :
  0 ≤ b < 2 ^ 32 → ieee_E b < 127 + 60 →
  ieee_float_to_kbps b = Ok (u32 (if b <? 2 ^ 31 then ieee_kbps b else - ieee_kbps b)).
Proof.
  intros Hb HE. destruct (ieee_parts b Hb) as (Hm & [HE0 _] & HM).
  unfold ieee_float_to_kbps. cbv zeta. rewrite !ieee_sign by done.
  change 0x7FFFFFFF with (Z.ones 31). rewrite Z.land_ones, Hm by lia.
  change IEEE_EXPONENT_MASK with (Z.ones 8 * 2 ^ 23). rewrite land_field by lia.
  change ((b / 2 ^ 23) mod 2 ^ 8) with (ieee_E b). change IEEE_INFINITY with (255 * 2 ^ 23).
  change IEEE_MANTISSA_MASK with (Z.ones 23). rewrite Z.land_ones by lia. fold (ieee_M b).
  change IEEE_MANTISSA_WIDTH with 23. change IEEE_BIAS with 127.
  rewrite Z.shiftr_div_pow2, Z.div_mul by lia. unfold ieee_kbps, ieee_significand.
  assert (Hsmall : ∀ s, 0 ≤ s < 2 ^ 24 → ieee_E b < 127 → s * 2 ^ ieee_E b * 8 / (1000 * 2 ^ 150) = 0).
  { intros s Hs Hlt. rewrite scale_down by lia. rewrite (Z.div_small s), Z.mul_0_l by
      (pose proof (Z.pow_le_mono_r 2 24 (150 - ieee_E b)); lia). done. }
  set (pos := b <? 2 ^ 31). clearbody pos. repeat zif; try lia.
  all: try (rewrite Hsmall by lia; by destruct pos).
  all: rewrite Z.lor_comm, <-(shiftl_lor_add 1 (ieee_M b) 23), Z.mul_1_l by lia.
  - rewrite bind_Ok_l, Z.shiftr_div_pow2, scale_down by lia.
    replace (23 - (ieee_E b - 127)) with (150 - ieee_E b) by lia.
    assert (0 ≤ (2 ^ 23 + ieee_M b) / 2 ^ (150 - ieee_E b) < 2 ^ 60).
    { pose proof (Z.pow_pos_nonneg 2 (150 - ieee_E b)).
      split; [apply Z.div_pos; lia|apply Z.div_lt_upper_bound; nia]. }
    rewrite (to_kbps (negb pos)) by done. by destruct pos.
  - rewrite scale_up by lia. replace (ieee_E b - 127 - 23) with (ieee_E b - 150) by lia.
    assert (0 < 2 ^ (ieee_E b - 150) ≤ 2 ^ 36) by
      (split; [apply Z.pow_pos_nonneg; lia|apply Z.pow_le_mono_r; lia]).
    unfold shl64. rewrite Z.shiftl_mul_pow2 by lia.
    rewrite (proj2 (Z.ltb_lt _ 64)), (proj2 (Z.ltb_lt _ _)) by nia. cbn [andb]. rewrite bind_Ok_l.
    assert (i64 ((2 ^ 23 + ieee_M b) * 2 ^ (ieee_E b - 150)) = (2 ^ 23 + ieee_M b) * 2 ^ (ieee_E b - 150)) as ->.
    { unfold i64. rewrite Z.mod_small by nia. lia. }
    rewrite (to_kbps (negb pos)) by nia. by destruct pos.
Qed.

(** C28: bandwidths are converted exactly.  For every 32-bit IEEE 754 number below
    2^60 octets per second in magnitude (zero, denormal numbers and negative ones
    included) the integer code computes the rate in kilobits per second, rounded
    towards zero, modulo 2^32: a rate of 2^32 kilobits per second (about 4.29 terabits
    per second) or more wraps, and so does a negative one. *)
Theorem ieee_float_exact (b : Z) :
  0 ≤ b < 2 ^ 32 → ieee_E b < 127 + 60 →
  ieee_float_to_kbps b = Ok (u32 (if b <? 2 ^ 31 then ieee_kbps b else - ieee_kbps b)).
Proof. apply ieee_kbps_ok. Qed.

(** ** Flags *)

(** the flag at position [i] is printed when the bit [7 - i] is set *)
Fixpoint flag_names (data : Z) (i : Z) (flags : list string) : string :=
  match flags with
  | [] => ""
  | f :: fs => (if Z.testbit data (7 - i) then f else "") +:+ flag_names data (i + 1) fs
  end.

Lemma land_pow2 x k : 0 ≤ k → (Z.land (2 ^ k) x =? 0) = negb (Z.testbit x k).
Proof.
  intros Hk. replace (Z.land (2 ^ k) x) with (if Z.testbit x k then 2 ^ k else 0).
  - destruct (Z.testbit x k); cbn [negb]; [|done]. apply Z.eqb_neq. pose proof (Z.pow_pos_nonneg 2 k). lia.
  - apply Z.bits_inj'. intros n Hn. rewrite Z.land_spec, Z.pow2_bits_eqb by lia.
    destruct (Z.eqb_spec k n) as [->|Hne]; destruct (Z.testbit x _) eqn:E;
      rewrite ?Z.pow2_bits_eqb, ?Z.eqb_refl, ?Z.bits_0 by lia; try done; by rewrite ?(proj2 (Z.eqb_neq k n)).
Qed.

Lemma flags_loop_names data flags : ∀ i s, 0 ≤ i → i + Z.of_nat (length flags) ≤ 8 →
  flags_loop data (2 ^ (7 - i)) flags s = s +:+ flag_names data i flags.
Proof.
  induction flags as [|f fs IH]; intros i s Hi Hl; cbn [flags_loop flag_names length] in *; [by rewrite string_app_nil_r|].
  rewrite land_pow2 by lia. rewrite negb_involutive. rewrite Z.shiftr_div_pow2 by lia.
  destruct fs as [|f' fs].
  - cbn. destruct (Z.testbit data (7 - i)); by rewrite ?string_app_nil_r.
  - cbn [length] in Hl. replace (2 ^ (7 - i) / 2 ^ 1) with (2 ^ (7 - (i + 1))).
    + rewrite IH by (cbn [length]; lia). destruct (Z.testbit data (7 - i)); [by rewrite string_app_assoc|done].
    + replace (7 - i) with (7 - (i + 1) + 1) by lia. by rewrite Z.pow_add_r, Z.div_mul by lia.
Qed.

Lemma strcmp_ospf p : strcmp_ge p "OSPF" = true → strcmp_ge p "IS-IS" = true.
Proof.
  unfold strcmp_ge. destruct p as [|c p]; [done|]. cbn [String.compare].
  unfold Ascii.compare. change (Ascii.N_of_ascii "O") with 79%N. change (Ascii.N_of_ascii "I") with 73%N.
  destruct (N.compare_spec (Ascii.N_of_ascii c) 79), (N.compare_spec (Ascii.N_of_ascii c) 73); try done; lia.
Qed.

(** OSPF flags are read with the names of IS-IS.  The comparison with "IS-IS"
    asks for an order and not for equality, and every text from "OSPF" on follows
    "IS-IS": whatever the object's protocol, the flag names of OSPF are never
    used, and the two OSPF protocols take those of IS-IS. *)
Theorem ospf_flags_never_used (p : string) (data : ptr) (isis ospf ospf' : Z → string) :
  flags_by_protocol p data isis ospf = flags_by_protocol p data isis ospf'
  ∧ (p = "OSPFv2" ∨ p = "OSPFv3" → flags_by_protocol p data isis ospf = ('(b, _) ← rd data; Ok (isis b))).
Proof.
  unfold flags_by_protocol. split.
  - destruct (strcmp_ge p "IS-IS") eqn:E; [done|]. destruct (strcmp_ge p "OSPF") eqn:E'; [|done].
    apply strcmp_ospf in E'. congruence.
  - by intros [-> | ->].
Qed.

(** ** Appended texts *)

Lemma strlen_inv a k : strlen a = Ok k → (k < length a)%nat ∧ a !! k = Some 0 ∧ Forall (λ b, b ≠ 0) (take k a).
Proof.
  revert k. induction a as [|b a IH]; intros k H; cbn in H; [done|]. zcase.
  - simplify_eq. cbn. split_and!; [lia|done|constructor].
  - inv_ok. destruct (IH _ H1) as (H4 & H2 & H3). cbn. split_and!; [lia|done|by constructor].
Qed.

(** A list of segment identifiers overruns its array by one octet.  While the
    list and the new text stay below 255 characters, the text is appended to the
    one the array holds; as soon as they reach 255, the bound of the copy leaves
    no room for the terminator, which is written behind the array. *)
Theorem strncat_off_by_one (a : list Z) (k : nat) (s : string) :
  length a = 255%nat → strlen a = Ok k → Forall (λ b, b ≠ 0) (bytes_of_string s) →
  ((k + String.length s < 255)%nat →
     ∃ a', strncat a s = Ok a' ∧ length a' = 255%nat ∧ cstr a' = cstr a +:+ s)
  ∧ ((255 ≤ k + String.length s)%nat → strncat a s = Undef OobWrite).
Proof.
  intros Ha Hk Hs. destruct (strlen_inv a k Hk) as (Hlt & Hz & Hnz).
  unfold strncat. rewrite Hk, bind_Ok_l, Ha. split; intros Hn.
  - rewrite take_ge by (rewrite length_bytes_of_string; lia). rewrite length_bytes_of_string.
    destruct (Nat.ltb_spec 255 (k + String.length s + 1)); [lia|]. eexists; split_and!; [done| |].
    + rewrite !length_app, length_take. cbn [length]. rewrite length_drop, length_bytes_of_string. lia.
    + rewrite app_assoc, cstr_text by by apply Forall_app. rewrite text_app, text_bytes.
      f_equal. rewrite <-(take_drop_middle a k 0 Hz) at 2. by rewrite cstr_text.
  - rewrite length_take, length_bytes_of_string. destruct (Nat.ltb_spec 255 (k + Nat.min (255 - k) (String.length s) + 1)); [done|lia].
Qed.

(** ** SR capabilities *)

(** a range of labels: its size and the first label, of three octets *)
Definition enc_range (size label : Z) : list Z :=
  hton 3 size ++ ls_tlv SUB_TLV_SID_LABEL (hton 3 label).

(** 24-bit values read through a 32-bit word *)
Lemma shift_24 bs t : bytes_ok bs → length bs = 3%nat → is_byte t → Z.shiftr (ntoh (bs ++ [t])) 8 = ntoh bs.
Proof.
  intros Hb Hl Ht. rewrite ntoh_app. cbn [length]. change (256 ^ Z.of_nat 1) with 256.
  assert (ntoh [t] = t) as -> by (unfold ntoh; cbn; lia). unfold is_byte in Ht.
  rewrite Z.shiftr_div_pow2 by lia. change (2 ^ 8) with 256. rewrite Z.div_add_l, Z.div_small by lia. lia.
Qed.

Lemma word_24 v bs : 0 ≤ v < 2 ^ 24 → length bs = 3%nat → bytes_ok bs →
  Z.shiftr (ntoh (bs ++ drop 3 (le_bytes 4 v))) 8 = ntoh bs.
Proof.
  intros Hv Hl Hb. cbn [le_bytes drop]. apply shift_24; [done..|]. unfold is_byte. apply Z.mod_pos_bound. lia.
Qed.

Lemma sr_step_ok fuel l len size label rest s :
  0 ≤ size < 2 ^ 24 → 0 ≤ label < 2 ^ 24 → l < len →
  sr_loop (S fuel) l len (enc_range size label ++ rest) s
  = sr_loop fuel (l + 10) len (hton 3 label ++ rest)
      ((if 12 <=? l then s +:+ ", " else s) +:+ dec size +:+ " " +:+ dec label).
Proof.
  intros Hs Hb Hl. unfold enc_range, ls_tlv. rewrite length_hton, <-!app_assoc.
  cbn [sr_loop]. rewrite (proj2 (Z.ltb_lt l len)) by done. cbv zeta.
  rewrite memcpy_app by by rewrite length_hton. run.
  rewrite shift_24 by (try apply hton_ok; try apply length_hton; unfold is_byte; lia).
  rewrite ntoh_hton by (simpl; lia).
  rewrite ?(adv_app (hton 3 size) _ 3) by (rewrite length_hton; done).
  rewrite (get_u16_hton SUB_TLV_SID_LABEL) by (split; by vm_compute). run.
  rewrite ?(adv_app (hton 2 SUB_TLV_SID_LABEL) _ 2) by (rewrite length_hton; done).
  rewrite ?(get_u16_hton (Z.of_nat 3)) by lia. run. rewrite ?(adv_app (hton 2 _) _ 2) by (rewrite length_hton; done).
  cbn [Z.eqb Pos.eqb SUB_TLV_SID_LABEL orb]. change (Z.of_nat 3) with 3. cbn [Z.eqb Pos.eqb orb].
  rewrite (memcpy_into_app (le_bytes 4 size) (hton 3 label)) by (rewrite ?length_le_bytes, ?length_hton; lia). run.
  rewrite length_hton, word_24 by (try apply hton_ok; try apply length_hton; lia).
  rewrite ntoh_hton by (simpl; lia). by rewrite !string_app_assoc.
Qed.

(** SR capabilities with two ranges lose the second one.  The decoder does not
    move past the label, so that a single range is printed as size and label, but
    of two ranges the second is read from the label of the first: the text repeats
    the first label as the size of a range and ends there. *)
Theorem sr_second_range_lost (size label size2 label2 : Z) (rest : list Z) (s : string) :
  0 ≤ size < 2 ^ 24 → 0 ≤ label < 2 ^ 24 → 0 ≤ size2 < 2 ^ 24 → size2 / 256 ≠ SUB_TLV_SID_LABEL →
  let one := enc_range size label in let two := one ++ enc_range size2 label2 in
  let fuel (bs : list Z) := S (Z.to_nat (2 + Z.of_nat (length bs))) in
  sr_loop (fuel one) 2 (2 + Z.of_nat (length one)) (one ++ rest) s = Ok (s +:+ dec size +:+ " " +:+ dec label)
  ∧ sr_loop (fuel two) 2 (2 + Z.of_nat (length two)) (two ++ rest) s
    = Ok (s +:+ dec size +:+ " " +:+ dec label +:+ ", " +:+ dec label).
Proof.
  intros H1 H2 H3 H4 one two fuel. assert (length one = 10%nat ∧ length two = 20%nat) as [L1 L2].
  { subst one two. unfold enc_range, ls_tlv. by autorewrite with bmp_len. }
  subst fuel. cbv beta. rewrite L1, L2. change (Z.to_nat (2 + Z.of_nat 10)) with 12%nat.
  change (Z.to_nat (2 + Z.of_nat 20)) with (S 21). subst one two. rewrite <-!app_assoc. split.
  - rewrite sr_step_ok by lia. done.
  - generalize 21%nat as f. intros f. rewrite sr_step_ok by lia. change (12 <=? 2) with false. cbn [sr_loop]. change (2 + 10 <? 2 + Z.of_nat 20) with true.
    change (12 <=? 2 + 10) with true. cbv beta iota zeta.
    rewrite memcpy_app by by rewrite length_hton. run.
    rewrite shift_24 by (try apply hton_ok; try apply length_hton; unfold is_byte; lia).
    rewrite ntoh_hton by (simpl; lia). rewrite ?(adv_app (hton 3 label) _ 3) by (rewrite length_hton; done).
    unfold enc_range. rewrite <-app_assoc.
    assert (∃ t c, hton 3 size2 = hton 2 (size2 / 256) ++ [c] ∧ t = 0) as (_ & c & -> & _).
    { exists 0, (size2 mod 256). split; [|done]. by unfold hton. }
    rewrite <-app_assoc, get_u16_hton by (split; [apply Z.div_pos; lia|apply Z.div_lt_upper_bound; lia]). run.
    rewrite ?(adv_app (hton 2 _) _ 2) by (rewrite length_hton; done). unfold ls_tlv.
    destruct (get_u16_def ([c] ++ (hton 2 SUB_TLV_SID_LABEL ++ hton 2 (Z.of_nat (length (hton 3 label2))) ++ hton 3 label2) ++ rest))
      as [w ->]; [rewrite !length_app, !length_hton; cbn [length]; lia|]. run.
    rewrite (proj2 (Z.eqb_neq _ _)) by done. by rewrite !string_app_assoc.
Qed.

(** ** The TLV loop *)

Lemma put_name_app t bs tail m :
  Forall (λ b, b ≠ 0) bs → (length bs ≤ 255)%nat →
  put_name t (Z.of_nat (length bs)) (bs ++ tail) m = Ok (<[t := bs ++ zeros (255 - length bs)]> m).
Proof.
  intros Hb Hl. unfold put_name. zif; [lia|]. rewrite Nat2Z.id.
  assert (strncpy_octets (length bs) (bs ++ tail) = Ok bs) as ->.
  { clear Hl E. induction Hb as [|b bs Hb _ IH]; [done|]. cbn [length app strncpy_octets].
    rewrite (proj2 (Z.eqb_neq b 0)) by done. by rewrite IH. }
  run. unfold put, arr. rewrite lookup_insert_eq. change (default (zeros 255) (Some (zeros 255))) with (zeros 255).
  pose proof (memcpy_into_app (zeros 255) bs [] _ eq_refl ltac:(rewrite length_zeros; lia)) as Hm.
  rewrite app_nil_r in Hm. rewrite Hm. run. unfold zeros. by rewrite insert_insert_eq, drop_replicate.
Qed.

Lemma parse_tlv_app t v tail attr_len d :
  0 ≤ t < 65536 → Z.of_nat (length v) < 65536 → 4 ≤ attr_len →
  parseAttrLinkStateTLV attr_len (ls_tlv t v ++ tail) d
  = (m ← tlv_value t (Z.of_nat (length v)) (v ++ tail) d; Ok (Z.of_nat (length v) + 4, set_ls_attrs m d)).
Proof.
  intros Ht Hv Hl. unfold parseAttrLinkStateTLV, ls_tlv. rewrite <-!app_assoc. zif; [lia|].
  rewrite get_u16_hton by lia. run.
  rewrite ?(adv_app (hton 2 t) _ 2) by (rewrite length_hton; done).
  rewrite get_u16_hton by lia. run.
  by rewrite app_assoc, adv_app by by autorewrite with bmp_len.
Qed.

(** The length of an attribute TLV is not checked.  An attribute of four octets,
    the header of a node name, takes the name from the octets that follow the
    attribute in the buffer. *)
Theorem attribute_tlv_reads_past (bs beyond : list Z) (d : parsed_update_data) :
  Forall (λ b, b ≠ 0) bs → (length bs ≤ 255)%nat →
  let attribute := hton 2 ATTR_NODE_NAME ++ hton 2 (Z.of_nat (length bs)) in
  attrLinkState (Z.of_nat (length attribute)) (attribute ++ bs ++ beyond) d
  = Ok (set_ls_attrs (<[ATTR_NODE_NAME := bs ++ zeros (255 - length bs)]> (ls_attrs d)) d).
Proof.
  intros Hb Hl attribute. assert (length attribute = 4%nat) as L by by subst attribute; autorewrite with bmp_len.
  unfold attrLinkState. rewrite L. change (Z.to_nat (Z.of_nat 4)) with 4%nat. change (Z.of_nat 4) with 4.
  subst attribute. rewrite <-app_assoc. cbn [ls_attr_loop]. change (0 <? 4) with true. cbv iota.
  pose proof (parse_tlv_app ATTR_NODE_NAME bs beyond 4 d ltac:(split; by vm_compute) ltac:(lia) ltac:(lia)) as E.
  unfold ls_tlv in E. rewrite <-!app_assoc in E. rewrite E. unfold tlv_value.
  change (ATTR_NODE_NAME =? ATTR_NODE_NAME) with true. cbn -[zeros put_name Z.of_nat].
  rewrite put_name_app by done. run. by rewrite (proj2 (Z.ltb_ge 0 _)) by lia.
Qed.

(** ** Attributes as data *)

Inductive ls_attr : Type :=
| LA_NodeFlags (b : Z)
| LA_NodeName (bs : list Z)
| LA_LinkName (bs : list Z)
| LA_Area (bs : list Z)
| LA_RouterId (remote v4 : bool) (bs : list Z)
| LA_Admin (v : Z)
| LA_Igp (n : nat) (v : Z)
| LA_Te (n : nat) (v : Z)
| LA_Metric (n : nat) (v : Z)
| LA_Tag (v : Z)
| LA_Bw (reserved : bool) (b : Z)
| LA_MtIds (l : list Z)
| LA_Other (t : Z) (bs : list Z).

Definition router_id_type (remote v4 : bool) : Z :=
  match remote, v4 with
  | false, true => ATTR_NODE_IPV4_ROUTER_ID_LOCAL
  | false, false => ATTR_NODE_IPV6_ROUTER_ID_LOCAL
  | true, true => ATTR_LINK_IPV4_ROUTER_ID_REMOTE
  | true, false => ATTR_LINK_IPV6_ROUTER_ID_REMOTE
  end.

Definition attr_type (a : ls_attr) : Z :=
  match a with
  | LA_NodeFlags _ => ATTR_NODE_FLAG
  | LA_NodeName _ => ATTR_NODE_NAME
  | LA_LinkName _ => ATTR_LINK_NAME
  | LA_Area _ => ATTR_NODE_ISIS_AREA_ID
  | LA_RouterId remote v4 _ => router_id_type remote v4
  | LA_Admin _ => ATTR_LINK_ADMIN_GROUP
  | LA_Igp _ _ => ATTR_LINK_IGP_METRIC
  | LA_Te _ _ => ATTR_LINK_TE_DEF_METRIC
  | LA_Metric _ _ => ATTR_PREFIX_PREFIX_METRIC
  | LA_Tag _ => ATTR_PREFIX_ROUTE_TAG
  | LA_Bw r _ => if r then ATTR_LINK_MAX_RESV_BW else ATTR_LINK_MAX_LINK_BW
  | LA_MtIds _ => ATTR_NODE_MT_ID
  | LA_Other t _ => t
  end.
Definition attr_octets (a : ls_attr) : list Z :=
  match a with
  | LA_NodeFlags b => [b]
  | LA_NodeName bs | LA_LinkName bs | LA_Area bs | LA_RouterId _ _ bs | LA_Other _ bs => bs
  | LA_Admin v | LA_Tag v => hton 4 v
  | LA_Igp n v | LA_Te n v | LA_Metric n v => hton n v
  | LA_Bw _ b => hton 4 b
  | LA_MtIds l => concat (hton 2 <$> l)
  end.
Definition enc_attr (a : ls_attr) : list Z := ls_tlv (attr_type a) (attr_octets a).
Definition enc_ls_attrs (l : list ls_attr) : list Z := concat (enc_attr <$> l).

(** the rate a bandwidth stands for, as a 32-bit value *)
Definition bw_kbps (b : Z) : Z := u32 (if b <? 2 ^ 31 then ieee_kbps b else - ieee_kbps b).

(** the octets an attribute puts at the start of a new array *)
Definition attr_content (a : ls_attr) : option (list Z) :=
  match a with
  | LA_NodeFlags b => Some (bytes_of_string (flag_names b 0 LS_FLAGS_NODE_NLRI))
  | LA_NodeName bs | LA_LinkName bs | LA_RouterId _ _ bs => Some bs
  | LA_Area bs => Some (bs ++ zeros (8 - length bs) ++ [Z.of_nat (length bs)])
  | LA_Admin v | LA_Tag v | LA_Igp _ v | LA_Te _ v | LA_Metric _ v => Some (le_bytes 4 v)
  | LA_Bw _ b => Some (le_bytes 4 (bw_kbps b))
  | LA_MtIds l => Some (bytes_of_string (join ", " (dec <$> l)))
  | LA_Other _ _ => None
  end.
Definition fresh_array (bs : list Z) : list Z := bs ++ zeros (255 - length bs).
Definition attr_effect (m : ls_attrs_map) (a : ls_attr) : ls_attrs_map :=
  match attr_content a with Some bs => <[attr_type a := fresh_array bs]> m | None => m end.

(** the types the parser stores *)
Definition stored_types : list Z :=
  [263; 1024; 1026; 1027; 1028; 1029; 1030; 1031; 1034; 1088; 1089; 1090; 1091; 1092; 1095; 1098; 1099; 1101;
   1153; 1155; 1158].

Definition name_ok (bs : list Z) : Prop := Forall (λ b, b ≠ 0) bs ∧ (length bs ≤ 254)%nat.
Definition metric_ok (n : nat) (v : Z) : Prop := (1 ≤ n ≤ 4)%nat ∧ 0 ≤ v < 256 ^ Z.of_nat n.
Definition wf_ls_attr (a : ls_attr) : Prop :=
  match a with
  | LA_NodeFlags b => is_byte b
  | LA_NodeName bs | LA_LinkName bs => name_ok bs
  | LA_Area bs => (length bs ≤ 8)%nat
  | LA_RouterId _ v4 bs => length bs = (if v4 then 4 else 16)%nat
  | LA_Admin v | LA_Tag v => metric_ok 4 v
  | LA_Igp n v | LA_Te n v | LA_Metric n v => metric_ok n v
  | LA_Bw _ b => 0 ≤ b < 2 ^ 32 ∧ ieee_E b < 127 + 60
  | LA_MtIds l => Forall (λ v, 0 ≤ v < 65536) l ∧ l ≠ [] ∧ (String.length (join ", " (dec <$> l)) ≤ 254)%nat
                  ∧ Z.of_nat (length l) < 30000
  | LA_Other t bs => other_ok stored_types t bs
  end.

(** *** Stored values *)

Lemma zeros_app n k : zeros n ++ zeros k = zeros (n + k).
Proof. unfold zeros. by rewrite replicate_add. Qed.

Lemma put_fresh t n bs tail m :
  n = Z.of_nat (length bs) → (length bs ≤ 255)%nat → m !! t = None →
  put t n (bs ++ tail) m = Ok (<[t := fresh_array bs]> m).
Proof.
  intros -> Hl Hm. unfold put, arr. rewrite Hm. change (default (zeros 255) None) with (zeros 255).
  rewrite memcpy_into_app by (rewrite ?length_zeros; lia). run.
  unfold zeros. by rewrite drop_replicate.
Qed.

Lemma put_fresh_all t n bs m :
  n = Z.of_nat (length bs) → (length bs ≤ 255)%nat → m !! t = None → put t n bs m = Ok (<[t := fresh_array bs]> m).
Proof. intros. rewrite <-(app_nil_r bs) at 1. by apply put_fresh. Qed.

Lemma le_bytes_0 k : le_bytes k 0 = zeros k.
Proof. induction k as [|k IH]; [done|]. cbn [le_bytes]. change (0 / 256) with 0. by rewrite IH. Qed.

Lemma le_bytes_pad n v : (n ≤ 4)%nat → 0 ≤ v < 256 ^ Z.of_nat n → le_bytes n v ++ zeros (4 - n) = le_bytes 4 v.
Proof.
  intros Hn Hv. replace 4%nat with (n + (4 - n))%nat at 2 by lia. rewrite le_bytes_add, Z.div_small by done.
  by rewrite le_bytes_0.
Qed.

Lemma metric_octets_app n v tail : metric_ok n v → metric_octets (Z.of_nat n) (hton n v ++ tail) = Ok (le_bytes 4 v).
Proof.
  intros [Hn Hv]. unfold metric_octets. rewrite memcpy_app by by rewrite length_hton. run.
  rewrite SWAP_BYTES_rev, length_hton. unfold hton. by rewrite rev_involutive, le_bytes_pad by lia.
Qed.

Lemma fresh_te n v : metric_ok n v → fresh_array (le_bytes n v) = fresh_array (le_bytes 4 v).
Proof.
  intros [Hn Hv]. unfold fresh_array. rewrite !length_le_bytes, <-(le_bytes_pad n v) by lia.
  rewrite <-app_assoc, zeros_app. do 2 f_equal. lia.
Qed.

Lemma flags_node b : parse_flags_to_string b LS_FLAGS_NODE_NLRI = flag_names b 0 LS_FLAGS_NODE_NLRI.
Proof. unfold parse_flags_to_string. change 0x80 with (2 ^ (7 - 0)). by rewrite flags_loop_names by (simpl; lia). Qed.

Lemma flag_names_length b i l : Forall (λ s, (String.length s ≤ 1)%nat) l → (String.length (flag_names b i l) ≤ length l)%nat.
Proof.
  intros H. revert i. induction H as [|f l Hf _ IH]; intros i; cbn [flag_names length]; [done|].
  rewrite length_append. specialize (IH (i + 1)). destruct (Z.testbit b (7 - i)); simpl; lia.
Qed.

(** the text of the identifiers, by the position in the list *)
Lemma mt_loop_app fuel l i tail s :
  Forall (λ v, 0 ≤ v < 65536) l → (length l < fuel)%nat → 0 ≤ i →
  mt_loop fuel i (i + Z.of_nat (length (concat (hton 2 <$> l)))) (concat (hton 2 <$> l) ++ tail) s
  = Ok (s +:+ (match l with [] => "" | _ => (if i =? 0 then "" else ", ") +:+ join ", " (dec <$> l) end)).
Proof.
  intros Hl. revert fuel i s. induction Hl as [|v l Hv Hl IH]; intros fuel i s Hf Hi;
    (destruct fuel as [|fuel]; [simpl in Hf; lia|]); cbn [mt_loop fmap list_fmap concat].
  { zif; [simpl in *; lia|]. by rewrite string_app_nil_r. }
  rewrite length_app, length_hton. zif; [|lia]. rewrite <-app_assoc, get_u16_hton by lia. run.
  rewrite ?(adv_app (hton 2 v) _ 2) by (rewrite length_hton; done).
  replace (i + Z.of_nat (2 + length (concat (hton 2 <$> l))))
    with (i + 2 + Z.of_nat (length (concat (hton 2 <$> l)))) by lia.
  rewrite IH by (simpl in Hf; lia). rewrite (proj2 (Z.eqb_neq (i + 2) 0)) by lia. f_equal.
  rewrite !string_app_assoc. do 2 f_equal. destruct l as [|w l]; cbn [fmap list_fmap join];
    [by rewrite string_app_nil_r|done].
Qed.

Lemma length_concat_hton2 l : length (concat (hton 2 <$> l)) = (2 * length l)%nat.
Proof. induction l as [|v l IH]; [done|]. cbn [fmap list_fmap concat length]. rewrite length_app, length_hton, IH. lia. Qed.

Lemma area_array bs :
  (length bs ≤ 8)%nat →
  <[8%nat := u8 (Z.of_nat (length bs))]> (fresh_array bs)
  = fresh_array (bs ++ zeros (8 - length bs) ++ [Z.of_nat (length bs)]).
Proof.
  intros Hl. rewrite u8_small by lia. unfold fresh_array.
  replace (zeros (255 - length bs)) with (zeros (8 - length bs) ++ 0 :: zeros 246).
  2: { change (0 :: zeros 246) with (zeros 247). rewrite zeros_app. f_equal. lia. }
  rewrite (app_assoc bs), insert_app_r_alt by (rewrite length_app, length_zeros; lia).
  rewrite length_app, length_zeros. replace (8 - (_ + _))%nat with 0%nat by lia. cbn [list_insert].
  rewrite !length_app, length_zeros. cbn [length]. replace (255 - _)%nat with 246%nat by lia.
  by rewrite <-!app_assoc.
Qed.

Ltac typed := unfold tlv_value, attr_type; cbv zeta;
  cbn [Z.eqb Pos.eqb ATTR_NODE_FLAG ATTR_NODE_IPV4_ROUTER_ID_LOCAL ATTR_NODE_IPV6_ROUTER_ID_LOCAL
       ATTR_NODE_ISIS_AREA_ID ATTR_NODE_MT_ID ATTR_NODE_NAME ATTR_NODE_SR_CAPABILITIES ATTR_LINK_ADMIN_GROUP
       ATTR_LINK_IGP_METRIC ATTR_LINK_IPV4_ROUTER_ID_REMOTE ATTR_LINK_IPV6_ROUTER_ID_REMOTE ATTR_LINK_MAX_LINK_BW
       ATTR_LINK_MAX_RESV_BW ATTR_LINK_NAME ATTR_LINK_ADJACENCY_SID ATTR_LINK_TE_DEF_METRIC ATTR_LINK_UNRESV_BW
       ATTR_LINK_PEER_EPE_NODE_SID ATTR_PREFIX_PREFIX_METRIC ATTR_PREFIX_ROUTE_TAG ATTR_PREFIX_SID router_id_type].

(** An attribute of a type that was not seen before is stored. *)
Lemma tlv_value_fresh a tail d :
  wf_ls_attr a → ls_attrs d !! attr_type a = None →
  tlv_value (attr_type a) (Z.of_nat (length (attr_octets a))) (attr_octets a ++ tail) d
  = Ok (attr_effect (ls_attrs d) a).
Proof.
  intros Hw Hm.
  destruct a as [b|bs|bs|bs|remote v4 bs|v|n v|n v|n v|v|r b|l|t bs]; cbn [wf_ls_attr attr_octets] in *;
    unfold attr_effect; cbn [attr_content]; rewrite ?length_hton.
  - typed. cbn [app]. run. rewrite flags_node. unfold put_text. unfold put, arr. rewrite lookup_insert_eq.
    pose proof (flag_names_length b 0 LS_FLAGS_NODE_NLRI ltac:(repeat constructor)) as Hf. cbn [length LS_FLAGS_NODE_NLRI] in Hf.
    change (default (zeros 255) (Some (zeros 255))) with (zeros 255).
    pose proof (memcpy_into_app (zeros 255) (bytes_of_string (flag_names b 0 LS_FLAGS_NODE_NLRI)) [] _ eq_refl
      ltac:(rewrite length_zeros, length_bytes_of_string; lia)) as E.
    rewrite app_nil_r in E. rewrite length_bytes_of_string in E. rewrite E. run. unfold fresh_array, zeros.
    by rewrite insert_insert_eq, drop_replicate, length_bytes_of_string.
  - typed. destruct Hw. by rewrite put_name_app by (done || lia).
  - typed. destruct Hw. by rewrite put_name_app by (done || lia).
  - typed. zif; [|lia]. rewrite put_fresh by (done || lia). run. unfold arr. rewrite lookup_insert_eq.
    change (default (zeros 255) (Some (fresh_array bs))) with (fresh_array bs).
    by rewrite insert_insert_eq, area_array by done.
  - destruct remote, v4; typed; unfold address; rewrite Hw; cbn [Z.of_nat Pos.of_succ_nat Pos.succ Z.eqb Pos.eqb negb];
      by rewrite put_fresh by (rewrite ?Hw; done || lia).
  - typed. cbn [Z.of_nat Pos.of_succ_nat Pos.succ Z.eqb Pos.eqb negb].
    rewrite (metric_octets_app 4) by done. run. by rewrite put_fresh_all by (rewrite ?length_le_bytes; done || lia).
  - typed. destruct Hw as [? ?]. zif; [|lia]. rewrite metric_octets_app by done. run.
    by rewrite put_fresh_all by (rewrite ?length_le_bytes; done || lia).
  - typed. destruct Hw as [Hn Hv]. zif; [lia|]. zif; [lia|]. rewrite metric_octets_app by done. run.
    rewrite <-(le_bytes_pad n v) at 1 by lia. rewrite put_fresh by (rewrite ?length_le_bytes; done || lia).
    by rewrite fresh_te by done.
  - typed. destruct Hw as [? ?]. zif; [|lia]. rewrite metric_octets_app by done. run.
    by rewrite put_fresh_all by (rewrite ?length_le_bytes; done || lia).
  - typed. cbn [Z.of_nat Pos.of_succ_nat Pos.succ Z.eqb Pos.eqb negb].
    rewrite (metric_octets_app 4) by done. run. by rewrite put_fresh_all by (rewrite ?length_le_bytes; done || lia).
  - destruct r; typed; unfold bandwidth; cbn [Z.of_nat Pos.of_succ_nat Pos.succ Z.eqb Pos.eqb negb];
      rewrite get_u32_hton by lia; run; rewrite ieee_kbps_ok by lia; run;
      by rewrite put_fresh_all by (rewrite ?length_le_bytes; done || lia).
  - typed. destruct Hw as (Hl & Hne & Hs & Hk).
    pose proof (mt_loop_app (S (Z.to_nat (Z.of_nat (length (concat (hton 2 <$> l)))))) l 0 tail "" Hl) as E.
    rewrite Z.add_0_l in E. rewrite E by (rewrite ?length_concat_hton2; lia). run.
    destruct l as [|v l]; [done|]. rewrite !append_nil_l.
    set (s := join ", " (dec <$> v :: l)) in *.
    rewrite put_fresh_all by (rewrite ?length_app, ?length_bytes_of_string; simpl; done || lia).
    do 2 f_equal. unfold fresh_array. rewrite length_app, length_bytes_of_string. cbn [length].
    replace (255 - String.length s)%nat with (1 + (255 - (String.length s + 1)))%nat by lia.
    by rewrite <-zeros_app, app_assoc.
  - unfold tlv_value, attr_type. destruct Hw as (? & ? & ?). cbv zeta. by unknown.
Qed.

Lemma attr_type_bound a : wf_ls_attr a → 0 ≤ attr_type a < 65536.
Proof.
  destruct a as [| | | |[] []| | | | | |[]| |t bs]; cbn [wf_ls_attr attr_type router_id_type];
    first [by intros (? & _) | by intros _; split; vm_compute].
Qed.

Lemma attr_octets_bound a : wf_ls_attr a → Z.of_nat (length (attr_octets a)) < 65536.
Proof.
  destruct a as [| | | |? []| | | | | | | |]; cbn [wf_ls_attr attr_octets];
    unfold name_ok, metric_ok, other_ok; rewrite ?length_hton, ?length_concat_hton2; intros; destruct_and?;
    cbn [length]; lia.
Qed.

Lemma set_ls_attrs_twice m1 m2 d : set_ls_attrs m2 (set_ls_attrs m1 d) = set_ls_attrs m2 d.
Proof. done. Qed.
Lemma set_ls_attrs_same d : set_ls_attrs (ls_attrs d) d = d.
Proof. by destruct d. Qed.

Lemma attr_effect_other m a t : t ≠ attr_type a → attr_effect m a !! t = m !! t.
Proof. intros. unfold attr_effect. destruct (attr_content a); [by rewrite lookup_insert_ne|done]. Qed.

Lemma ls_attr_loop_app fuel l rest d :
  Forall wf_ls_attr l → NoDup (attr_type <$> l) → (∀ a, a ∈ l → ls_attrs d !! attr_type a = None) →
  (length l < fuel)%nat →
  ls_attr_loop fuel (Z.of_nat (length (enc_ls_attrs l))) (enc_ls_attrs l ++ rest) d
  = Ok (set_ls_attrs (foldl attr_effect (ls_attrs d) l) d).
Proof.
  intros Hl. revert fuel d. induction Hl as [|a l Ha Hl IH]; intros fuel d Hnd Hfr Hf;
    (destruct fuel as [|fuel]; [simpl in Hf; lia|]); cbn [ls_attr_loop].
  { cbn [enc_ls_attrs fmap list_fmap concat length foldl]. by rewrite set_ls_attrs_same. }
  change (enc_ls_attrs (a :: l)) with (enc_attr a ++ enc_ls_attrs l). rewrite length_app.
  unfold enc_attr. pose proof (length_ls_tlv (attr_type a) (attr_octets a)) as HL. zif; [|lia].
  rewrite <-app_assoc, parse_tlv_app by auto using attr_type_bound, attr_octets_bound with lia.
  rewrite tlv_value_fresh by (try apply Hfr; try done; constructor). run.
  replace (Z.of_nat (_ + _) - _) with (Z.of_nat (length (enc_ls_attrs l))) by lia.
  cbn [fmap list_fmap] in Hnd. apply NoDup_cons in Hnd as [Hni Hnd].
  assert (∀ x, x ∈ l → ls_attrs (set_ls_attrs (attr_effect (ls_attrs d) a) d) !! attr_type x = None) as Hfr'.
  { intros x Hx. cbn [ls_attrs set_ls_attrs]. rewrite attr_effect_other; [apply Hfr; by constructor|].
    intros Ht. apply Hni. rewrite <-Ht. by apply list_elem_of_fmap_2. }
  zif.
  - rewrite ?adv_app by lia. rewrite IH by (done || simpl in Hf; lia). done.
  - destruct l as [|a' l]; [|exfalso; change (enc_ls_attrs (a' :: l)) with (enc_attr a' ++ enc_ls_attrs l) in *;
      rewrite length_app in *; unfold enc_attr in *; pose proof (length_ls_tlv (attr_type a') (attr_octets a')); lia].
    cbn [enc_ls_attrs fmap list_fmap concat length]. destruct fuel; [simpl in Hf; lia|]. done.
Qed.

Lemma enc_ls_attrs_count l : (length l ≤ length (enc_ls_attrs l))%nat.
Proof.
  induction l as [|a l IH]; [done|]. change (enc_ls_attrs (a :: l)) with (enc_attr a ++ enc_ls_attrs l).
  rewrite length_app. unfold enc_attr. pose proof (length_ls_tlv (attr_type a) (attr_octets a)). cbn [length]. lia.
Qed.

Lemma attrLinkState_app l rest d :
  Forall wf_ls_attr l → NoDup (attr_type <$> l) → (∀ a, a ∈ l → ls_attrs d !! attr_type a = None) →
  attrLinkState (Z.of_nat (length (enc_ls_attrs l))) (enc_ls_attrs l ++ rest) d
  = Ok (set_ls_attrs (foldl attr_effect (ls_attrs d) l) d).
Proof.
  intros. unfold attrLinkState. pose proof (enc_ls_attrs_count l). apply ls_attr_loop_app; [done..|lia].
Qed.

(** the array an attribute leaves in the map *)
Lemma attr_effects_lookup l m a bs :
  NoDup (attr_type <$> l) → a ∈ l → attr_content a = Some bs →
  foldl attr_effect m l !! attr_type a = Some (fresh_array bs).
Proof.
  revert m. induction l as [|x l IH]; intros m Hnd Hin Hc; [by apply elem_of_nil in Hin|].
  cbn [fmap list_fmap foldl] in *. apply NoDup_cons in Hnd as [Hni Hnd]. apply elem_of_cons in Hin as [<-|Hin]; [|by apply IH].
  assert (∀ m', foldl attr_effect m' l !! attr_type a = m' !! attr_type a) as ->.
  { clear IH. induction l as [|y l IHl]; intros m'; [done|]. cbn [fmap list_fmap foldl] in *.
    rewrite not_elem_of_cons in Hni. destruct Hni. apply NoDup_cons in Hnd as [_ Hnd].
    rewrite IHl by done. by rewrite attr_effect_other. }
  unfold attr_effect. by rewrite Hc, lookup_insert_eq.
Qed.

(** ** Termination *)

Lemma mt_loop_terminates fuel i len data s :
  0 < Z.of_nat fuel → len - i < Z.of_nat fuel → terminates (mt_loop fuel i len data s).
Proof.
  revert i data s. induction fuel as [|fuel IH]; intros i data s H1 H2; [lia|]. cbn [mt_loop].
  term. cmp. apply IH; lia.
Qed.

Lemma sr_loop_terminates fuel l len data s :
  0 < Z.of_nat fuel → len - l < Z.of_nat fuel → terminates (sr_loop fuel l len data s).
Proof.
  revert l data s. induction fuel as [|fuel IH]; intros l data s H1 H2; [lia|]. cbn [sr_loop].
  term; cmp; repeat case_match; simplify_eq; apply IH; lia.
Qed.

Lemma ieee_terminates v : terminates (ieee_float_to_kbps v).
Proof. unfold ieee_float_to_kbps, shl64, mul64. term. Qed.
Lemma bw_loop_terminates i first data s : terminates (bw_loop i first data s).
Proof. revert first data s. induction i as [|i IH]; intros; cbn [bw_loop]; [done|]. term. apply ieee_terminates. Qed.
Lemma strlen_terminates a : terminates (strlen a).
Proof. induction a; cbn [strlen]; term. Qed.
Lemma strncpy_octets_terminates n p : terminates (strncpy_octets n p).
Proof. revert p. induction n; intros; cbn [strncpy_octets]; term. Qed.
Lemma parse_sid_value_terminates data len : terminates (parse_sid_value data len).
Proof. unfold parse_sid_value. term. Qed.
Lemma flags_by_protocol_terminates p data f g : terminates (flags_by_protocol p data f g).
Proof. unfold flags_by_protocol. term. Qed.
Lemma strncat_terminates a s : terminates (strncat a s).
Proof. unfold strncat. term. apply strlen_terminates. Qed.
Lemma front_terminates {A} (f : A → string) l : terminates (front f l).
Proof. by destruct l. Qed.
Lemma put_terminates t n src m : terminates (put t n src m).
Proof. unfold put. term. Qed.
#[export] Hint Resolve ieee_terminates bw_loop_terminates strlen_terminates strncpy_octets_terminates
  parse_sid_value_terminates flags_by_protocol_terminates strncat_terminates front_terminates put_terminates : bmp.

Lemma tlv_value_terminates t len data d : terminates (tlv_value t len data d).
Proof.
  unfold tlv_value, put_name, put_text, address, bandwidth, sr_capabilities, adjacency_sid, prefix_sid, epe_node_sid,
    metric_octets.
  term; first [apply mt_loop_terminates; lia | apply sr_loop_terminates; lia | apply put_terminates].
Qed.
#[export] Hint Resolve tlv_value_terminates : bmp.

Lemma attr_tlv_read attr_len data d n d' :
  bytes_ok data → 0 < attr_len → parseAttrLinkStateTLV attr_len data d = Ok (n, d') → 1 ≤ n.
Proof.
  intros Hb Ha. unfold parseAttrLinkStateTLV. zif; [intros [= <- <-]; lia|]. intros H.
  apply bind_Ok_inv in H as (t & _ & H). apply bind_Ok_inv in H as (len & Hlen & H).
  apply get_u16_bound in Hlen; [|by apply adv_bytes]. inv_ok. lia.
Qed.

Lemma attrLinkState_terminates attr_len data d : bytes_ok data → terminates (attrLinkState attr_len data d).
Proof.
  unfold attrLinkState. set (fuel := S (Z.to_nat attr_len)).
  assert (0 < Z.of_nat fuel ∧ attr_len < Z.of_nat fuel) as [H1 H2] by lia. clearbody fuel. revert attr_len data d H1 H2.
  induction fuel as [|fuel IH]; intros attr_len data d H1 H2 Hb; [lia|]. cbn [ls_attr_loop]. zif; [|done].
  apply terminates_bind; [unfold parseAttrLinkStateTLV; term|]. intros [n d'] H. apply attr_tlv_read in H; [|done|lia].
  apply IH; [lia..|]. zif; [by apply adv_bytes|done].
Qed.

(** ** Witnesses *)

Lemma ieee_float_exact_witness :
  (* 1.25e9 octets per second, 10 Gbit/s *)
  ieee_float_to_kbps 0x4E9502F9 = Ok (u32 (if 0x4E9502F9 <? 2 ^ 31 then ieee_kbps 0x4E9502F9 else - ieee_kbps 0x4E9502F9))
  ∧ ieee_kbps 0x4E9502F9 = 10000000.
Proof. split; [apply (ieee_float_exact 0x4E9502F9); [lia|vm_compute; reflexivity]|vm_compute; reflexivity]. Defined.

(** from 2^60 octets per second on the conversion overflows *)
Example ieee_float_overflow : ieee_float_to_kbps 0x5D800000 = Undef Overflow ∧ ieee_E 0x5D800000 = 127 + 60.
Proof. by vm_compute. Qed.

Lemma strncat_off_by_one_witness :
  (∃ a', strncat (65 :: zeros 254) "BC" = Ok a' ∧ length a' = 255%nat ∧ cstr a' = cstr (65 :: zeros 254) +:+ "BC")
  ∧ strncat (replicate 253 65 ++ zeros 2) "BC" = Undef OobWrite.
Proof.
  split.
  - apply (strncat_off_by_one (65 :: zeros 254) 1 "BC"); [reflexivity|reflexivity| |simpl; lia].
    cbn. repeat constructor; discriminate.
  - apply (strncat_off_by_one (replicate 253 65 ++ zeros 2) 253 "BC"); [reflexivity|vm_compute; reflexivity| |simpl; lia].
    cbn. repeat constructor; discriminate.
Defined.

Lemma sr_second_range_lost_witness :
  sr_loop 13 2 12 (enc_range 8000 16000 ++ []) "I " = Ok ("I " +:+ dec 8000 +:+ " " +:+ dec 16000)
  ∧ sr_loop 23 2 22 ((enc_range 8000 16000 ++ enc_range 1000 5000) ++ []) "I "
    = Ok ("I " +:+ dec 8000 +:+ " " +:+ dec 16000 +:+ ", " +:+ dec 16000).
Proof.
  apply (sr_second_range_lost 8000 16000 1000 5000 [] "I "); [lia..|]. vm_compute. discriminate.
Defined.

Lemma attribute_tlv_reads_past_witness :
  attrLinkState 4 ((hton 2 ATTR_NODE_NAME ++ hton 2 2) ++ [72; 105] ++ [0]) no_update
  = Ok (set_ls_attrs (<[ATTR_NODE_NAME := [72; 105] ++ zeros 253]> ∅) no_update).
Proof.
  apply (attribute_tlv_reads_past [72; 105] [0] no_update); [|simpl; lia]. repeat constructor; discriminate.
Defined.

Lemma ospf_flags_never_used_witness :
  flags_by_protocol "OSPFv2" [0x40] (λ b, parse_flags_to_string b LS_FLAGS_PREFIX_SID_ISIS)
    (λ b, parse_flags_to_string b LS_FLAGS_PREFIX_SID_OSPF) = Ok "N".
Proof.
  destruct (ospf_flags_never_used "OSPFv2" [0x40] (λ b, parse_flags_to_string b LS_FLAGS_PREFIX_SID_ISIS)
    (λ b, parse_flags_to_string b LS_FLAGS_PREFIX_SID_OSPF) dec) as [_ H].
  rewrite H; [reflexivity|left; reflexivity].
Defined.
