(* ===== verification/ExtCommunity.v ===== *)
(** * Extended communities ([bgp/ExtCommunity.cpp])

    The 8-octet extended communities of RFC 4360, printed by type and subtype,
    and the 20-octet IPv6 ones of RFC 5701. *)

From S2P Require Import Prelude Inet BgpCommon UpdateTypes EVPN.

(** ** Types and subtypes *)

Definition EXT_TYPE_2OCTET_AS : Z := 0.
Definition EXT_TYPE_IPV4 : Z := 1.
Definition EXT_TYPE_4OCTET_AS : Z := 2.
Definition EXT_TYPE_OPAQUE : Z := 3.
Definition EXT_TYPE_EVPN : Z := 6.
Definition EXT_TYPE_GENERIC : Z := 128.
Definition EXT_TYPE_GENERIC_IPV4 : Z := 129.
Definition EXT_TYPE_GENERIC_4OCTET_AS : Z := 130.

(** [stream << (u_char)b] writes the character itself *)
Definition raw_char (b : Z) : string := String (ascii_of_byte b) "".

(** ** The administrator fields

    A 4-octet administrator that is an IPv4 address is printed from its octets
    and the integer variable keeps them in memory order. *)
Record admin : Type := { a_16 : Z; a_32 : Z; a_ip : string }.

Definition read_admin (isGlobal4Bytes isGlobalIPv4 : bool) (v : ptr) : outcome admin :=
  if isGlobal4Bytes then
    b4 ← memcpy 4 v;
    s ← get_u16 (adv 4 v);
    Ok {| a_16 := s; a_32 := if isGlobalIPv4 then le_val b4 else ntoh b4;
          a_ip := if isGlobalIPv4 then inet_ntop4 b4 else "" |}
  else
    s ← get_u16 v;
    n ← get_u32 (adv 2 v);
    Ok {| a_16 := s; a_32 := n; a_ip := "" |}.

(** global:local as the code prints them: by width, and by width or address *)
Definition pair_num (g4 : bool) (a : admin) : string :=
  if g4 then dec (a_32 a) +:+ ":" +:+ dec (a_16 a) else dec (a_16 a) +:+ ":" +:+ dec (a_32 a).
Definition pair_ip (g4 ip4 : bool) (a : admin) : string :=
  if ip4 then a_ip a +:+ ":" +:+ dec (a_16 a) else pair_num g4 a.
Definition pair_hex (g4 ip4 : bool) (a : admin) : string :=
  if ip4 then a_ip a +:+ ":0x" +:+ hex (a_16 a)
  else if g4 then dec (a_32 a) +:+ ":0x" +:+ hex (a_16 a)
  else dec (a_16 a) +:+ ":0x" +:+ hex (a_32 a).

(** [decodeType_common]: subtypes shared by the AS and IPv4 specific types *)
Definition decodeType_common (low : Z) (v : ptr) (g4 ip4 : bool) : outcome string :=
  a ← read_admin g4 ip4 v;
  Ok (match low with
      | 8 => "colc=" +:+ pair_num g4 a
      | 3 => "soo=" +:+ pair_ip g4 ip4 a
      | 2 => "rt=" +:+ pair_ip g4 ip4 a
      | 9 => "sas=" +:+ pair_num g4 a
      | 16 => "vpn-id=" +:+ pair_hex g4 ip4 a
      | 10 => "vpn-id=" +:+ pair_hex g4 ip4 a
      | 4 => "link-bw=" +:+ pair_num g4 a
      | 5 => "ospf-did=" +:+ pair_ip g4 ip4 a
      | 11 => "import=" +:+ (if ip4 then a_ip a +:+ ":" +:+ dec (a_16 a)
                            else dec (a_16 a) +:+ ":" +:+ dec (a_32 a))
      | 18 => "p2mp-nh=" +:+ (if ip4 then a_ip a +:+ ":" +:+ dec (a_16 a)
                             else dec (a_16 a) +:+ ":" +:+ dec (a_32 a))
      | 7 => "ospf-rid=" +:+ pair_ip g4 ip4 a
      | _ => ""
      end).

(** [decodeType_EVPN] *)
Definition decodeType_EVPN (low : Z) (v : ptr) : outcome string :=
  if low =? 0 then
    '(flags, _) ← rd v;
    n ← get_u32 (adv 2 v);
    Ok ("mac_mob_flags=" +:+ raw_char flags +:+ " mac_mob_seq_num=" +:+ dec n)
  else if low =? 1 then
    '(flags, _) ← rd v;
    n ← get_u24 (adv 3 v);
    Ok ("esi_label_flags=" +:+ raw_char flags +:+ " esi_label=" +:+ dec n)
  else if low =? 2 then m ← parse_mac v; Ok ("es_import=" +:+ m)
  else if low =? 3 then m ← parse_mac v; Ok ("router_mac=" +:+ m)
  else Ok "".

Definition cost_poi (poi : Z) : string :=
  match poi with
  | 128 => "abs:" | 129 => "igp:" | 130 => "ext:" | 131 => "bgp_id:" | _ => "unkn"
  end.
Definition ospf_route_type (t : Z) : string :=
  match t with 1 | 2 => "O:" | 3 => "IA:" | 5 => "E:" | 7 => "N:" | _ => "unkn:" end.

(** [decodeType_Opaque] *)
Definition decodeType_Opaque (low : Z) (v : ptr) : outcome string :=
  if low =? 1 then
    '(poi, p) ← rd v;
    '(cid, _) ← rd p;
    n ← get_u32 (adv 2 v);
    Ok ("cost=" +:+ cost_poi poi +:+ dec cid +:+ ":" +:+ dec n)
  else if low =? 3 then Ok "cp-orf"
  else if low =? 6 then
    n ← get_u32 v;
    '(t, p) ← rd (adv 4 v);
    '(opts, _) ← rd p;
    Ok ("ospf-rt=area-" +:+ dec n +:+ ":" +:+ ospf_route_type t +:+ dec opts)
  else if low =? 11 then n ← get_u32 (adv 2 v); Ok ("color=" +:+ dec n)
  else if low =? 12 then '(e, _) ← rd (adv 5 v); Ok ("encap=" +:+ dec e)
  else if low =? 13 then Ok "default-gw"
  else Ok "".

(** ** [stream << (float)n] for an unsigned 32-bit [n]

    The conversion rounds to 24 significant bits, ties to even; the default
    stream format prints six significant digits. *)

Definition round_even (n d : Z) : Z :=
  let q := n / d in
  let r := n mod d in
  if (d <? 2 * r) || ((2 * r =? d) && Z.odd q) then q + 1 else q.

Definition to_float (n : Z) : Z :=
  if n <? 2 ^ 24 then n
  else let s := 2 ^ (Z.log2 n - 23) in round_even n s * s.

(** decimal digits after the point, trailing zeros removed *)
Fixpoint strip_zeros (digits : nat) (z : Z) : string :=
  match digits with
  | O => ""
  | S k => if z mod 10 =? 0 then strip_zeros k (z / 10) else setw (S k) "0" (dec z)
  end.

Definition float_text (n : Z) : string :=
  let f := to_float n in
  if f <? 10 ^ 6 then dec f
  else
    let x := Z.of_nat (String.length (dec f)) - 1 in
    let m := round_even f (10 ^ (x - 5)) in
    let (m, x) := if m =? 10 ^ 6 then (10 ^ 5, x + 1) else (m, x) in
    let frac := strip_zeros 5 (m mod 10 ^ 5) in
    dec (m / 10 ^ 5) +:+ (if String.eqb frac "" then "" else "." +:+ frac) +:+ "e+" +:+ setw 2 "0" (dec x).

(** [decodeType_Generic] *)
Definition decodeType_Generic (low : Z) (v : ptr) (g4 ip4 : bool) : outcome string :=
  a ← read_admin g4 ip4 v;
  if low =? 10 then
    '(encap, p) ← rd v;
    '(flags, p) ← rd p;
    mtu ← get_u16 p;
    Ok ("l2info=" +:+ (if encap =? 19 then "vpls:" else dec encap +:+ ":") +:+ raw_char flags
        +:+ ":mtu:" +:+ dec mtu)
  else if low =? 6 then Ok ("flow-rate=" +:+ dec (a_16 a) +:+ ":" +:+ float_text (a_32 a))
  else if low =? 7 then
    '(f, _) ← rd (adv 5 v);
    Ok ("flow-act=" +:+ (if Z.testbit f 1 then "S" else "") +:+ (if Z.testbit f 0 then "T" else ""))
  else if low =? 8 then Ok ("flow-redir=" +:+ pair_ip g4 ip4 a)
  else if low =? 9 then '(f, _) ← rd (adv 5 v); Ok ("flow-remark=" +:+ dec f)
  else Ok "".

(** ** One community *)

(** [switch (ec_hdr.high_type << 2 >> 2)]: the operand is promoted to [int]
    before the shifts *)
Definition ext_type (high : Z) : Z := Z.shiftr (Z.shiftl high 2) 2.

Definition decode_ext (high low : Z) (v : ptr) : outcome string :=
  let t := ext_type high in
  if t =? EXT_TYPE_IPV4 then decodeType_common low v true true
  else if t =? EXT_TYPE_2OCTET_AS then decodeType_common low v false false
  else if t =? EXT_TYPE_4OCTET_AS then decodeType_common low v true false
  else if t =? EXT_TYPE_GENERIC then decodeType_Generic low v false false
  else if t =? EXT_TYPE_GENERIC_4OCTET_AS then decodeType_Generic low v true false
  else if t =? EXT_TYPE_GENERIC_IPV4 then decodeType_Generic low v true true
  else if t =? EXT_TYPE_OPAQUE then decodeType_Opaque low v
  else if t =? EXT_TYPE_EVPN then decodeType_EVPN low v
  else Ok "".

(** ** The attribute *)

(** [for (int i = 0; i < attr_len; i += 8)] *)
Fixpoint ext_loop (fuel : nat) (i attr_len : Z) (p : ptr) (decodeStr : string) : outcome string :=
  match fuel with
  | O => NoFuel
  | S fuel =>
      if i <? attr_len then
        '(high, p1) ← rd p;
        '(low, v) ← rd p1;
        s ← decode_ext high low v;
        ext_loop fuel (i + 8) attr_len (adv 8 p)
          (decodeStr +:+ s +:+ (if i + 8 <? attr_len then " " else ""))
      else Ok decodeStr
  end.

Definition parseExtCommunities (attr_len : Z) (data : ptr) (d : parsed_update_data)
  : outcome parsed_update_data :=
  if negb (attr_len mod 8 =? 0) then Ok d
  else s ← ext_loop (S (Z.to_nat attr_len)) 0 attr_len data "";
       Ok (set_attr ATTR_TYPE_EXT_COMMUNITY s d).

(** [decodeType_IPv6Specific] returns the empty string when [inet_ntop]
    succeeds, which it does for every 16 octets and the 40-byte buffer. *)
Definition decodeType_IPv6Specific (v : ptr) : outcome string := _ ← memcpy 16 v; Ok "".

(** The pointer does not advance and the decoded text is not stored. *)
Fixpoint ext6_loop (fuel : nat) (i attr_len : Z) (p : ptr) (decodeStr : string) : outcome string :=
  match fuel with
  | O => NoFuel
  | S fuel =>
      if i <? attr_len then
        '(high, p1) ← rd p;
        '(low, v) ← rd p1;
        s ← (if ext_type high =? 0 then decodeType_IPv6Specific v else Ok "");
        ext6_loop fuel (i + 20) attr_len p (decodeStr +:+ s)
      else Ok decodeStr
  end.

Definition parsev6ExtCommunities (attr_len : Z) (data : ptr) (d : parsed_update_data)
  : outcome parsed_update_data :=
  if negb (attr_len mod 20 =? 0) then Ok d
  else _ ← ext6_loop (S (Z.to_nat attr_len)) 0 attr_len data ""; Ok d.

Example float_a : map float_text [0; 1000; 999999; 1000000; 16777217; 4294967295; 123456789]
  = ["0"; "1000"; "999999"; "1e+06"; "1.67772e+07"; "4.29497e+09"; "1.23457e+08"].
Proof. vm_compute. reflexivity. Qed.

(** ** Community lists as data *)

(** the text of one community of eight octets *)
Definition ext_text (c : list Z) : string :=
  match decode_ext (nth 0 c 0) (nth 1 c 0) (drop 2 c) with Ok s => s | _ => "" end.

Lemma read_admin_app g4 ip4 v rest : length v = 6%nat → read_admin g4 ip4 (v ++ rest) = read_admin g4 ip4 v.
Proof. intros H. unfold read_admin. explode v 6 H. cbn [app]. by destruct g4; rrun. Qed.

(** A community is decoded from its own eight octets. *)
Lemma decode_ext_app high low v rest :
  length v = 6%nat → ∃ s, decode_ext high low v = Ok s ∧ decode_ext high low (v ++ rest) = Ok s.
Proof.
  intros H. assert (∀ g4 ip4, ∃ a, read_admin g4 ip4 v = Ok a ∧ read_admin g4 ip4 (v ++ rest) = Ok a) as Hadm.
  { intros g4 ip4. rewrite read_admin_app by done. unfold read_admin. destruct g4; do 2 rstep; eauto. }
  unfold decode_ext, decodeType_common, decodeType_Generic, decodeType_Opaque, decodeType_EVPN, get_u24.
  repeat (case_match; [first
    [ match goal with |- context [read_admin ?g ?i v] => destruct (Hadm g i) as (a & -> & ->) end
    | clear Hadm ]; rewrite ?bind_Ok_l; cbn beta; try (by eauto);
    explode v 6 H; cbn [app]; change (adv 5 (?a :: ?b :: ?c :: ?d :: ?e :: ?l)) with l;
    repeat case_match; rrun; eauto|]).
  eauto.
Qed.

Lemma ext_loop_app fuel cs rest i acc :
  Forall (λ c, length c = 8%nat) cs → (length cs < fuel)%nat →
  ext_loop fuel i (i + Z.of_nat (length (concat cs))) (concat cs ++ rest) acc
  = Ok (acc +:+ join " " (ext_text <$> cs)).
Proof.
  revert fuel i acc. induction cs as [|c cs IH]; intros fuel i acc Hc Hf;
    (destruct fuel as [|fuel]; [simpl in Hf; lia|]); cbn [ext_loop].
  { zif; [simpl in *; lia|]. by rewrite string_app_nil_r. }
  inversion_clear Hc as [|? ? H8 Hcs]. cbn [concat]. rewrite length_app, <-app_assoc, H8.
  zif; [|lia]. unfold ext_text. pose proof H8 as H8'.
  destruct c as [|h [|l v]]; [done..|]. cbn [length] in H8'. injection H8' as H6. cbn [app]. run.
  destruct (decode_ext_app h l v (concat cs ++ rest) H6) as (s & E1 & E2).
  rewrite E2. run. rewrite fmap_cons. cbn [nth]. change (drop 2 (h :: l :: v)) with v. rewrite E1.
  change (adv 8 (h :: l :: v ++ concat cs ++ rest)) with (adv 6 (v ++ concat cs ++ rest)).
  rewrite adv_app by lia.
  replace (i + Z.of_nat (8 + length (concat cs))) with (i + 8 + Z.of_nat (length (concat cs))) by lia.
  rewrite IH by (done || simpl in Hf; lia). f_equal. rewrite string_app_assoc. f_equal.
  destruct cs as [|c' cs].
  - cbn [concat length]. zif; [lia|]. cbn. by rewrite !string_app_nil_r.
  - inversion_clear Hcs as [|? ? H8' _]. cbn [concat]. rewrite length_app, H8'. zif; [|lia].
    by rewrite string_app_assoc.
Qed.

Lemma parseExtCommunities_app (cs : list (list Z)) (rest : ptr) (d : parsed_update_data) :
  Forall (λ c, length c = 8%nat) cs →
  parseExtCommunities (Z.of_nat (length (concat cs))) (concat cs ++ rest) d
  = Ok (set_attr ATTR_TYPE_EXT_COMMUNITY (join " " (ext_text <$> cs)) d).
Proof.
  intros Hc.
  assert (length (concat cs) = 8 * length cs)%nat as Hl
    by (induction Hc as [|c cs H8 _ IH]; cbn [concat length]; rewrite ?length_app; lia).
  unfold parseExtCommunities.
  replace (Z.of_nat (length (concat cs)) mod 8) with 0
    by (rewrite Hl, Nat2Z.inj_mul, Z.mul_comm, Z.mod_mul; lia).
  cbn [Z.eqb negb].
  pose proof (ext_loop_app (S (Z.to_nat (Z.of_nat (length (concat cs))))) cs rest 0 "" Hc) as E.
  rewrite Z.add_0_l in E. by rewrite E by lia.
Qed.

(** The extended communities attribute is decoded community by community.
    For any list of 8-octet communities the stored text is the texts of the
    single communities, each decoded from its own octets only, separated by one
    blank; the octets that follow the attribute have no influence, and the loop
    terminates. *)
Theorem parseExtCommunities_join (cs : list (list Z)) (rest : ptr) (d : parsed_update_data) :
  Forall (λ c, length c = 8%nat) cs →
  parseExtCommunities (Z.of_nat (length (concat cs))) (concat cs ++ rest) d
  = Ok (set_attr ATTR_TYPE_EXT_COMMUNITY (join " " (ext_text <$> cs)) d).
Proof. apply parseExtCommunities_app. Qed.

(** a route target and a site of origin, an EVPN router MAC *)
Definition sample_communities : list (list Z) :=
  [[0; 2; 253; 232; 0; 0; 0; 100]; [1; 3; 10; 0; 0; 1; 0; 7]; [6; 3; 2; 0; 0; 170; 187; 204]].

Lemma parseExtCommunities_join_witness :
  parseExtCommunities (Z.of_nat (length (concat sample_communities))) (concat sample_communities ++ []) no_update
  = Ok (set_attr ATTR_TYPE_EXT_COMMUNITY (join " " (ext_text <$> sample_communities)) no_update)
  ∧ join " " (ext_text <$> sample_communities) = "rt=65000:100 soo=10.0.0.1:7 router_mac=02:00:00:aa:bb:cc".
Proof.
  split; [|vm_compute; reflexivity].
  apply (parseExtCommunities_join sample_communities [] no_update). repeat constructor.
Defined.

(** A route target is printed as administrator:number in each of its three
    encodings: a 2-octet AS with a 4-octet number, an IPv4 address with a
    2-octet number, and a 4-octet AS with a 2-octet number; the printed
    numbers are exactly the encoded ones. *)
Theorem route_target_text (a16 a32 : Z) (addr : list Z) :
  0 ≤ a16 < 65536 → 0 ≤ a32 < 4294967296 → length addr = 4%nat →
  ext_text ([0; 2] ++ hton 2 a16 ++ hton 4 a32) = "rt=" +:+ dec a16 +:+ ":" +:+ dec a32
  ∧ ext_text ([1; 2] ++ addr ++ hton 2 a16) = "rt=" +:+ inet_ntop4 addr +:+ ":" +:+ dec a16
  ∧ ext_text ([2; 2] ++ hton 4 a32 ++ hton 2 a16) = "rt=" +:+ dec a32 +:+ ":" +:+ dec a16.
Proof.
  intros H16 H32 Hl.
  assert (get_u16 (hton 2 a16) = Ok a16) as E16
    by (rewrite <-(app_nil_r (hton 2 a16)); by apply get_u16_hton).
  assert (get_u32 (hton 4 a32) = Ok a32) as E32
    by (rewrite <-(app_nil_r (hton 4 a32)); by apply get_u32_hton).
  unfold ext_text. cbn [app nth]. change (drop 2 (?a :: ?b :: ?l)) with l.
  change (decode_ext 0 2) with (λ v, decodeType_common 2 v false false).
  change (decode_ext 1 2) with (λ v, decodeType_common 2 v true true).
  change (decode_ext 2 2) with (λ v, decodeType_common 2 v true false).
  unfold decodeType_common, read_admin. cbn beta iota. split_and!.
  - rewrite get_u16_hton, bind_Ok_l, adv_app by (done || by rewrite length_hton). by rewrite E32.
  - rewrite memcpy_app, bind_Ok_l, adv_app by lia. by rewrite E16.
  - rewrite memcpy_app, bind_Ok_l, adv_app by (by rewrite length_hton).
    rewrite E16, bind_Ok_l. cbn beta iota. by rewrite ntoh_hton.
Qed.

Lemma route_target_text_witness :
  ext_text ([0; 2] ++ hton 2 65000 ++ hton 4 100000) = "rt=65000:100000"
  ∧ ext_text ([1; 2] ++ [192; 0; 2; 1] ++ hton 2 65000) = "rt=192.0.2.1:65000"
  ∧ ext_text ([2; 2] ++ hton 4 100000 ++ hton 2 65000) = "rt=100000:65000".
Proof. apply (route_target_text 65000 100000 [192; 0; 2; 1]); lia || reflexivity. Defined.

Lemma ext6_loop_bounded fuel i n p s :
  (18 ≤ length p)%nat → (Z.to_nat (n - i) < fuel)%nat → ∃ s', ext6_loop fuel i n p s = Ok s'.
Proof.
  intros Hp. revert i s. induction fuel as [|fuel IH]; intros i s Hf; [lia|]. cbn [ext6_loop].
  zif; [|eauto]. do 2 rstep. unfold decodeType_IPv6Specific.
  destruct (ext_type x =? 0); [rstep|rewrite bind_Ok_l]; apply IH; lia.
Qed.

(** IPv6 extended communities leave no trace.  Whatever the attribute
    holds and however long it claims to be, [parsev6ExtCommunities] terminates
    after reading at most the first 18 octets, since its read pointer never
    advances, and returns the parse result it was given: no text is stored for
    the attribute. *)
Theorem v6_communities_never_stored (attr_len : Z) (p : ptr) (d : parsed_update_data) :
  (18 ≤ length p)%nat → parsev6ExtCommunities attr_len p d = Ok d.
Proof.
  intros Hp. unfold parsev6ExtCommunities. destruct (negb _); [done|].
  destruct (ext6_loop_bounded (S (Z.to_nat attr_len)) 0 attr_len p "") as (s & ->); [done|lia|done].
Qed.

Lemma v6_communities_never_stored_witness :
  parsev6ExtCommunities 40 ([0; 2; 32; 1; 13; 184] ++ zeros 12 ++ [0; 100] ++ [0; 2; 32; 1; 13; 184] ++ zeros 14)
    no_update = Ok no_update.
Proof. apply v6_communities_never_stored. simpl. lia. Defined.

(** The transitivity bit is not masked out of the type.  The octet is
    promoted to [int] before [<< 2 >> 2], so that the shifts change nothing, and
    a community of a non-transitive type (0x40 set) is decoded to the empty
    text whatever its subtype and value. *)
Theorem non_transitive_not_decoded (high low : Z) (v : ptr) :
  64 ≤ high < 128 → decode_ext high low v = Ok "".
Proof.
  intros H. unfold decode_ext, ext_type. rewrite Z.shiftr_shiftl_l by lia.
  change (2 - 2) with 0. rewrite Z.shiftl_0_r.
  unfold EXT_TYPE_IPV4, EXT_TYPE_2OCTET_AS, EXT_TYPE_4OCTET_AS, EXT_TYPE_GENERIC,
    EXT_TYPE_GENERIC_4OCTET_AS, EXT_TYPE_GENERIC_IPV4, EXT_TYPE_OPAQUE, EXT_TYPE_EVPN.
  do 8 (zif; [lia|]). done.
Qed.

Lemma non_transitive_not_decoded_witness : decode_ext 64 4 (hton 2 65000 ++ hton 4 1000) = Ok "".
Proof. apply non_transitive_not_decoded. lia. Defined.
