(* ===== verification/UpdateMsg.v ===== *)
(** * BGP UPDATE messages ([bgp/UpdateMsg.cpp])

    The message framing (withdrawn routes, path attributes, NLRI), the IPv4
    prefix decoder, the attribute TLV loop and the decoders of the path
    attributes.  The handlers thread the persistent peer state, which the
    AS_PATH decoder and the End-of-RIB marker change, and the parse result. *)

From S2P Require Import Prelude Inet BgpCommon AddPath UpdateTypes EVPN MPReach ExtCommunity.

(** ** IPv4 prefixes *)

(** [for (size_t read_size=0; read_size < len; read_size++)] *)
Fixpoint v4_loop (fuel : nat) (info : peer_info) (p : ptr) (read_size len : Z)
    (prefixes : list prefix_tuple) : outcome (list prefix_tuple) :=
  match fuel with
  | O => NoFuel
  | S fuel =>
      if read_size <? len then
        add_path ← isAddPathEnabled BGP_AFI_IPV4 BGP_SAFI_UNICAST (add_path_capability info);
        '(path_id, n) ← path_id_step add_path (len - read_size) p;
        '(plen, p) ← rd (adv n p);
        let nb := addr_bytes plen in
        if nb <=? 4 then
          ipv4_raw ← memcpy_into (zeros 4) nb p;
          let t := {| pt_type := PREFIX_UNICAST_V4; pt_len := plen; pt_prefix := inet_ntop4 ipv4_raw;
                      pt_prefix_bin := Some (ipv4_raw ++ zeros 12); pt_path_id := path_id;
                      pt_isIPv4 := true; pt_labels := "" |} in
          v4_loop fuel info (adv nb p) (read_size + n + nb + 1) len (prefixes ++ [t])
        else v4_loop fuel info p (read_size + n + 1) len prefixes
      else Ok prefixes
  end.

(** [len] is a [uint16_t] parameter *)
Definition parseNlriData_v4 (data : ptr) (len : Z) (info : peer_info) (prefixes : list prefix_tuple)
  : outcome (list prefix_tuple) :=
  let len := u16 len in
  if len <=? 0 then Ok prefixes else v4_loop (S (Z.to_nat len)) info data 0 len prefixes.

(** ** Attribute values *)

(** [for (int i=0; i < attr_len; i += 4)] of CLUSTER_LIST *)
Fixpoint cluster_loop (fuel : nat) (i attr_len : Z) (p : ptr) (decodeStr : string) : outcome string :=
  match fuel with
  | O => NoFuel
  | S fuel =>
      if i <? attr_len then
        ipv4_raw ← memcpy 4 p;
        cluster_loop fuel (i + 4) attr_len (adv 4 p) (decodeStr +:+ inet_ntop4 ipv4_raw +:+ " ")
      else Ok decodeStr
  end.

(** the same loop of COMMUNITIES *)
Fixpoint community_loop (fuel : nat) (i attr_len : Z) (p : ptr) (decodeStr : string) : outcome string :=
  match fuel with
  | O => NoFuel
  | S fuel =>
      if i <? attr_len then
        let decodeStr := if i =? 0 then decodeStr else decodeStr +:+ " " in
        a ← get_u16 p;
        b ← get_u16 (adv 2 p);
        community_loop fuel (i + 4) attr_len (adv 2 (adv 2 p)) (decodeStr +:+ (dec a +:+ ":" +:+ dec b))
      else Ok decodeStr
  end.

(** [for (int i = 0; i < attr_len; i += 12)] of LARGE_COMMUNITY *)
Fixpoint large_loop (fuel : nat) (i attr_len : Z) (p : ptr) (decodeStr : string) : outcome string :=
  match fuel with
  | O => NoFuel
  | S fuel =>
      if i <? attr_len then
        let decodeStr := if i =? 0 then decodeStr else decodeStr +:+ " " in
        a ← get_u32 p;
        b ← get_u32 (adv 4 p);
        c ← get_u32 (adv 4 (adv 4 p));
        large_loop fuel (i + 12) attr_len (adv 4 (adv 4 (adv 4 p)))
          (decodeStr +:+ (dec a +:+ ":" +:+ dec b +:+ ":" +:+ dec c))
      else Ok decodeStr
  end.

Definition loop_fuel (attr_len : Z) : nat := S (Z.to_nat attr_len).

Definition origin_text (b : Z) : string :=
  match b with 0 => "igp" | 1 => "egp" | 2 => "incomplete" | _ => "" end.

Definition parseAttr_Aggegator (attr_len : Z) (data : ptr) (m : attrs_map) : outcome attrs_map :=
  let finish (asn : Z) (p : ptr) :=
    ipv4_raw ← memcpy 4 p;
    Ok (<[ATTR_TYPE_AGGEGATOR := dec asn +:+ " " +:+ inet_ntop4 ipv4_raw]> m) in
  if attr_len =? 8 then asn ← get_u32 data; finish asn (adv 4 data)
  else if attr_len =? 6 then asn ← get_u16 data; finish asn (adv 2 data)
  else Ok m.

(** ** AS_PATH *)

(** progress of the decoder: the read pointer, the octets left, the text, the
    [uint16_t] count and the last AS number *)
Record as_state : Type := {
  as_data : ptr; as_path_len : Z; decoded_path : string; as_path_cnt : Z; seg_asn : Z }.

(** [for (; seg_len > 0; seg_len--)]; [SWAP_BYTES] of the first [size] octets
    of a zeroed word *)
Fixpoint asn_loop (seg_len : nat) (size : Z) (st : as_state) : outcome as_state :=
  match seg_len with
  | O => Ok st
  | S k =>
      bs ← memcpy size (as_data st);
      asn_loop k size
        {| as_data := adv size (as_data st); as_path_len := as_path_len st - size;
           decoded_path := decoded_path st +:+ " " +:+ dec (ntoh bs);
           as_path_cnt := u16 (as_path_cnt st + 1); seg_asn := ntoh bs |}
  end.

Definition append_path (s : string) (st : as_state) : as_state :=
  {| as_data := as_data st; as_path_len := as_path_len st; decoded_path := decoded_path st +:+ s;
     as_path_cnt := as_path_cnt st; seg_asn := seg_asn st |}.

(** [while (path_len > 0)]; [None] when a segment is longer than the octets left *)
Fixpoint seg_loop (fuel : nat) (size : Z) (st : as_state) : outcome (option as_state) :=
  match fuel with
  | O => NoFuel
  | S fuel =>
      if 0 <? as_path_len st then
        '(seg_type, p) ← rd (as_data st);
        '(seg_len, p) ← rd p;
        let st := {| as_data := p; as_path_len := as_path_len st - 2;
                     decoded_path := decoded_path st +:+ (if seg_type =? 1 then " {" else "");
                     as_path_cnt := as_path_cnt st; seg_asn := seg_asn st |} in
        if as_path_len st <? seg_len * size then Ok None
        else
          st ← asn_loop (Z.to_nat seg_len) size st;
          seg_loop fuel size (append_path (if seg_type =? 1 then " }" else "") st)
      else Ok (Some st)
  end.

Definition store_path (st : as_state) (m : attrs_map) : attrs_map :=
  <[ATTR_TYPE_INTERNAL_AS_ORIGIN := dec (seg_asn st)]>
    (<[ATTR_TYPE_INTERNAL_AS_COUNT := dec (as_path_cnt st)]>
      (<[ATTR_TYPE_AS_PATH := decoded_path st]> m)).

(** The function calls itself once more after it has switched the peer to
    2-octet AS numbers. *)
Fixpoint as_path_rec (calls : nat) (attr_len : Z) (data : ptr) (info : peer_info) (m : attrs_map)
  : outcome (peer_info * attrs_map) :=
  match calls with
  | O => NoFuel
  | S calls =>
      let size := if using_2_octet_asn info then 2 else 4 in
      if attr_len <? size then Ok (info, m)
      else
        r ← seg_loop (loop_fuel attr_len) size
              {| as_data := data; as_path_len := attr_len; decoded_path := "";
                 as_path_cnt := 0; seg_asn := 0 |};
        match r with
        | Some st => Ok (info, store_path st m)
        | None =>
            if negb (using_2_octet_asn info)
            then as_path_rec calls attr_len data (set_using_2_octet true info) m
            else Ok (info, m)
        end
  end.

Definition parseAttr_AsPath (attr_len : Z) (data : ptr) (info : peer_info) (m : attrs_map)
  : outcome (peer_info * attrs_map) := as_path_rec 2 attr_len data info m.

(** ** [parseAttrData] *)

Section update.
Context {LS : LinkState}.

Definition parseAttrData (attr_type attr_len : Z) (data : ptr) (info : peer_info)
    (d : parsed_update_data) : outcome (peer_info * parsed_update_data) :=
  let store (t : Z) (m : outcome string) := s ← m; Ok (info, set_attr t s d) in
  let keep (m : outcome parsed_update_data) := d ← m; Ok (info, d) in
  if attr_type =? ATTR_TYPE_ORIGIN then
    store ATTR_TYPE_ORIGIN ('(b, _) ← rd data; Ok (origin_text b))
  else if attr_type =? ATTR_TYPE_AS_PATH then
    '(info, m) ← parseAttr_AsPath attr_len data info (attrs d); Ok (info, set_attrs m d)
  else if attr_type =? ATTR_TYPE_NEXT_HOP then
    store ATTR_TYPE_NEXT_HOP (ipv4_raw ← memcpy 4 data; Ok (inet_ntop4 ipv4_raw))
  else if attr_type =? ATTR_TYPE_MED then
    store ATTR_TYPE_MED (v ← get_u32 data; Ok (dec v))
  else if attr_type =? ATTR_TYPE_LOCAL_PREF then
    store ATTR_TYPE_LOCAL_PREF (v ← get_u32 data; Ok (dec v))
  else if attr_type =? ATTR_TYPE_ATOMIC_AGGREGATE then
    store ATTR_TYPE_ATOMIC_AGGREGATE (Ok "1")
  else if attr_type =? ATTR_TYPE_AGGEGATOR then
    m ← parseAttr_Aggegator attr_len data (attrs d); Ok (info, set_attrs m d)
  else if attr_type =? ATTR_TYPE_ORIGINATOR_ID then
    store ATTR_TYPE_ORIGINATOR_ID (ipv4_raw ← memcpy 4 data; Ok (inet_ntop4 ipv4_raw))
  else if attr_type =? ATTR_TYPE_CLUSTER_LIST then
    store ATTR_TYPE_CLUSTER_LIST (cluster_loop (loop_fuel attr_len) 0 attr_len data "")
  else if attr_type =? ATTR_TYPE_COMMUNITIES then
    store ATTR_TYPE_COMMUNITIES (community_loop (loop_fuel attr_len) 0 attr_len data "")
  else if attr_type =? ATTR_TYPE_EXT_COMMUNITY then keep (parseExtCommunities attr_len data d)
  else if attr_type =? ATTR_TYPE_IPV6_EXT_COMMUNITY then keep (parsev6ExtCommunities attr_len data d)
  else if attr_type =? ATTR_TYPE_MP_REACH_NLRI then keep (parseReachNlriAttr attr_len data info d)
  else if attr_type =? ATTR_TYPE_MP_UNREACH_NLRI then parseUnReachNlriAttr attr_len data info d
  else if attr_type =? ATTR_TYPE_BGP_LS then keep (parseAttrLinkState attr_len data d)
  else if attr_type =? ATTR_TYPE_LARGE_COMMUNITY then
    if 12 <=? attr_len
    then store ATTR_TYPE_LARGE_COMMUNITY (large_loop (loop_fuel attr_len) 0 attr_len data "")
    else Ok (info, d)
  else Ok (info, d).

(** the length field: one octet, or two when the flag is set; with the octets read *)
Definition attr_length (attr_flags : Z) (p : ptr) : outcome (Z * Z) :=
  if ATTR_FLAG_EXTENDED attr_flags
  then l ← get_u16 p; Ok (l, 2)
  else '(l, _) ← rd p; Ok (l, 1).

(** [for (int read_size=0; read_size < len; read_size += 2)] *)
Fixpoint attr_loop (fuel : nat) (p : ptr) (read_size len : Z) (info : peer_info)
    (d : parsed_update_data) : outcome (peer_info * parsed_update_data) :=
  match fuel with
  | O => NoFuel
  | S fuel =>
      if read_size <? len then
        '(attr_flags, p) ← rd p;
        '(attr_type, p) ← rd p;
        '(attr_len, n) ← attr_length attr_flags p;
        let p := adv n p in
        let read_size := read_size + n in
        if (0 <? attr_len) && (read_size + attr_len <=? len) then
          '(info, d) ← parseAttrData attr_type attr_len p info d;
          attr_loop fuel (adv attr_len p) (read_size + attr_len + 2) len info d
        else if negb (attr_len =? 0) then Ok (info, d)
        else attr_loop fuel p (read_size + 2) len info d
      else Ok (info, d)
  end.

Definition parseAttributes (data : ptr) (len : Z) (info : peer_info) (d : parsed_update_data)
  : outcome (peer_info * parsed_update_data) :=
  if len =? 0 then Ok (info, d)
  else if len <? 3 then Ok (info, d)
  else attr_loop (loop_fuel len) data 0 len info d.

(** ** The message

    The result is the number of octets read, 0 for an error.  Sizes are
    [size_t]: the differences wrap. *)
Definition parseUpdateMsg (data : ptr) (size : Z) (info : peer_info) (d : parsed_update_data)
  : outcome (Z * peer_info * parsed_update_data) :=
  let d := set_withdrawn [] (set_attrs ∅ (set_advertised [] d)) in
  if size <? 2 then Ok (0, info, d)
  else
    withdrawn_len ← get_u16 data;
    let p := adv 2 data in
    let read_size := 2 in
    if u64 (size - read_size) <? withdrawn_len then Ok (0, info, d)
    else
      let withdrawnPtr := p in
      let p := adv withdrawn_len p in
      let read_size := read_size + withdrawn_len in
      attr_len ← get_u16 p;
      let p := adv 2 p in
      let read_size := read_size + 2 in
      if u64 (size - read_size) <? attr_len then Ok (0, info, d)
      else
        let attrPtr := p in
        let nlriPtr := adv attr_len p in
        let read_size := read_size + attr_len in
        if (withdrawn_len =? 0) && (u64 (size - read_size) <=? 0) && (attr_len =? 0)
        then Ok (read_size, set_endOfRIB true info, d)
        else
          w ← (if 0 <? withdrawn_len then parseNlriData_v4 withdrawnPtr withdrawn_len info (withdrawn d)
               else Ok (withdrawn d));
          let d := set_withdrawn w d in
          '(info, d) ← (if 0 <? attr_len then parseAttributes attrPtr attr_len info d else Ok (info, d));
          if 0 <? u64 (size - read_size) then
            a ← parseNlriData_v4 nlriPtr (u64 (size - read_size)) info (advertised d);
            Ok (size, info, set_advertised a d)
          else Ok (read_size, info, d).
End update.

(** ** IPv4 prefixes: round trip *)

Lemma addr_bytes_32 len : 0 ≤ len ≤ 32 → 0 ≤ addr_bytes len ≤ 4.
Proof.
  intros. pose proof (addr_bytes_bound len). lia.
Qed.

(** a prefix of at most 32 bits in the 4-octet buffer and in the tuple *)
Lemma pad4_pad16 bs : (length bs ≤ 4)%nat →
  (bs ++ drop (length bs) (zeros 4)) ++ zeros 12 = pad16 bs
  ∧ inet_ntop4 (bs ++ drop (length bs) (zeros 4)) = inet_ntop4 (pad16 bs).
Proof. intros H. do 5 (destruct bs as [|? bs]; [done|]). simpl in H. lia. Qed.

Lemma v4_loop_app fuel info ap xs rest n acc :
  isAddPathEnabled BGP_AFI_IPV4 BGP_SAFI_UNICAST (add_path_capability info) = Ok ap →
  Forall (wf_nlri 32) xs → (length xs < fuel)%nat →
  v4_loop fuel info (enc_nlris ap xs ++ rest) n (n + Z.of_nat (length (enc_nlris ap xs))) acc
  = Ok (acc ++ (dec_nlri true ap <$> xs)).
Proof.
  intros Hap. revert fuel n acc. induction xs as [|x xs IH]; intros fuel n acc Hwf Hf;
    (destruct fuel as [|fuel]; [simpl in Hf; lia|]); cbn [v4_loop].
  { zif; [simpl in *; lia|]. by rewrite app_nil_r. }
  inversion_clear Hwf as [|? ? (Hl & Ha & Hp) Hxs].
  change (enc_nlris ap (x :: xs)) with (enc_nlri ap x ++ enc_nlris ap xs).
  rewrite length_app, <-app_assoc. set (L := length (enc_nlris ap xs)).
  pose proof (addr_bytes_32 (n_len x)).
  destruct (path_id_step_nlri ap x
    (n + Z.of_nat (length (enc_nlri ap x) + L) - n) (enc_nlris ap xs ++ rest)) as (k & E1 & E2 & E3); [lia..|].
  zif; [|unfold enc_nlri in *; rewrite length_app in *; simpl in *; lia].
  rewrite Hap. run. rewrite E1. run. rewrite E2. run. zif; [|lia].
  rewrite (memcpy_into_app _ (n_addr x)) by (rewrite ?length_zeros; lia). run.
  rewrite ?adv_app by lia.
  replace (n + k + addr_bytes (n_len x) + 1) with (n + Z.of_nat (length (enc_nlri ap x))) by lia.
  rewrite Nat2Z.inj_add, Z.add_assoc, IH by (done || simpl in Hf; lia).
  destruct (pad4_pad16 (n_addr x)) as [-> ->]; [lia|]. by rewrite <-app_assoc.
Qed.

Lemma v4_prefixes_app (ap : bool) (xs : list nlri) (rest : ptr) (info : peer_info) (acc : list prefix_tuple) :
  isAddPathEnabled BGP_AFI_IPV4 BGP_SAFI_UNICAST (add_path_capability info) = Ok ap →
  Forall (wf_nlri 32) xs → Z.of_nat (length (enc_nlris ap xs)) < 65536 →
  parseNlriData_v4 (enc_nlris ap xs ++ rest) (Z.of_nat (length (enc_nlris ap xs))) info acc
  = Ok (acc ++ (dec_nlri true ap <$> xs)).
Proof.
  intros Hap Hxs Hl. unfold parseNlriData_v4. rewrite u16_small by lia.
  pose proof (length_enc_nlris_ge ap xs).
  zif. { destruct xs; [by rewrite app_nil_r|simpl in *; lia]. }
  pose proof (v4_loop_app (S (Z.to_nat (Z.of_nat (length (enc_nlris ap xs))))) info ap xs rest 0 acc Hap Hxs) as EL.
  rewrite Z.add_0_l in EL. apply EL. lia.
Qed.

(** ** AS_PATH as data *)

(** a segment: its type (1 is AS_SET, 2 AS_SEQUENCE) and its AS numbers *)
Record segment : Type := { s_type : Z; s_asns : list Z }.

Definition enc_asns (size : nat) (l : list Z) : list Z := concat (hton size <$> l).
Definition enc_segment (size : nat) (s : segment) : list Z :=
  s_type s :: Z.of_nat (length (s_asns s)) :: enc_asns size (s_asns s).
Definition enc_path (size : nat) (ss : list segment) : list Z := concat (enc_segment size <$> ss).

Definition asns_text (l : list Z) : string := foldr (λ a s, " " +:+ dec a +:+ s) "" l.
Definition segment_text (s : segment) : string :=
  if s_type s =? 1 then " {" +:+ asns_text (s_asns s) +:+ " }" else asns_text (s_asns s).
Definition path_text (ss : list segment) : string := foldr (λ s t, segment_text s +:+ t) "" ss.
Definition path_asns (ss : list segment) : list Z := concat (s_asns <$> ss).

Definition wf_segment (size : nat) (s : segment) : Prop :=
  (length (s_asns s) < 256)%nat ∧ Forall (λ a, 0 ≤ a < 256 ^ Z.of_nat size) (s_asns s).

(** What the decoder promises to store for a path *)
Definition path_attrs (ss : list segment) (m : attrs_map) : attrs_map :=
  <[ATTR_TYPE_INTERNAL_AS_ORIGIN := dec (List.last (path_asns ss) 0)]>
    (<[ATTR_TYPE_INTERNAL_AS_COUNT := dec (Z.of_nat (length (path_asns ss)))]>
      (<[ATTR_TYPE_AS_PATH := path_text ss]> m)).

Lemma length_enc_asns size l : length (enc_asns size l) = (size * length l)%nat.
Proof.
  unfold enc_asns. induction l as [|a l IH]; [simpl; lia|].
  rewrite fmap_cons. cbn [concat length]. rewrite length_app, length_hton, IH. lia.
Qed.

Lemma length_enc_path size ss :
  length (enc_path size ss) = (2 * length ss + size * length (path_asns ss))%nat.
Proof.
  unfold enc_path, path_asns. induction ss as [|s ss IH]; [simpl; lia|].
  rewrite !fmap_cons. cbn [concat length]. rewrite !length_app, IH.
  unfold enc_segment. cbn [length]. rewrite length_enc_asns. lia.
Qed.

(** the state after decoding AS numbers and after a whole path *)
Definition after_asns (size : nat) (l : list Z) (p : ptr) (st : as_state) : as_state :=
  {| as_data := p; as_path_len := as_path_len st - Z.of_nat (length (enc_asns size l));
     decoded_path := decoded_path st +:+ asns_text l;
     as_path_cnt := as_path_cnt st + Z.of_nat (length l); seg_asn := List.last l (seg_asn st) |}.

Lemma last_cons {A} (a : A) l d : List.last (a :: l) d = List.last l a.
Proof.
  revert a d; induction l as [|b l IH]; intros a d; [done|].
  change (List.last (a :: b :: l) d) with (List.last (b :: l) d). by rewrite !IH.
Qed.

Lemma asn_loop_app size l rest st :
  Forall (λ a, 0 ≤ a < 256 ^ Z.of_nat size) l → as_data st = enc_asns size l ++ rest →
  0 ≤ as_path_cnt st → as_path_cnt st + Z.of_nat (length l) < 65536 →
  asn_loop (length l) (Z.of_nat size) st = Ok (after_asns size l rest st).
Proof.
  intros Hl. revert st. induction Hl as [|a l Ha Hl IH]; intros st Hd H0 Hc; cbn [asn_loop length].
  { unfold after_asns. destruct st; simpl in *. rewrite string_app_nil_r, Z.add_0_r, Z.sub_0_r. by subst. }
  rewrite Hd. unfold enc_asns. rewrite fmap_cons. cbn [concat]. rewrite <-app_assoc.
  rewrite memcpy_app, bind_Ok_l by (by rewrite length_hton). rewrite adv_app by (by rewrite length_hton).
  rewrite ntoh_hton by done. cbn [length] in Hc.
  rewrite u16_small by lia. rewrite IH by (cbn; done || lia).
  unfold after_asns. cbn [as_path_len decoded_path as_path_cnt seg_asn].
  rewrite last_cons. unfold enc_asns. rewrite fmap_cons. cbn [concat length asns_text foldr].
  rewrite length_app, length_hton, !string_app_assoc. f_equal. f_equal; (lia || done).
Qed.

Lemma path_asns_cons s ss : path_asns (s :: ss) = s_asns s ++ path_asns ss.
Proof. done. Qed.

Lemma last_app {A} (l1 l2 : list A) d : List.last (l1 ++ l2) d = List.last l2 (List.last l1 d).
Proof. revert d; induction l1 as [|a l1 IH]; intros d; [done|]. cbn [app]. by rewrite !last_cons, IH. Qed.

Lemma seg_loop_app fuel size ss rest st :
  Forall (wf_segment size) ss → as_data st = enc_path size ss ++ rest → (length ss < fuel)%nat →
  as_path_len st = Z.of_nat (length (enc_path size ss)) →
  0 ≤ as_path_cnt st → as_path_cnt st + Z.of_nat (length (path_asns ss)) < 65536 →
  seg_loop fuel (Z.of_nat size) st
  = Ok (Some {| as_data := rest; as_path_len := 0; decoded_path := decoded_path st +:+ path_text ss;
                as_path_cnt := as_path_cnt st + Z.of_nat (length (path_asns ss));
                seg_asn := List.last (path_asns ss) (seg_asn st) |}).
Proof.
  intros Hss. revert fuel st. induction Hss as [|s ss (H8 & Ha) Hss IH]; intros fuel st Hd Hf Hl H0 Hc;
    (destruct fuel as [|fuel]; [simpl in Hf; lia|]); cbn [seg_loop].
  { rewrite Hl. cbn [length Z.of_nat Z.ltb Z.compare]. destruct st; simpl in *.
    rewrite string_app_nil_r, Z.add_0_r. by subst. }
  rewrite path_asns_cons, length_app in *.
  change (enc_path size (s :: ss)) with (enc_segment size s ++ enc_path size ss) in *.
  rewrite length_app in Hl. unfold enc_segment in Hl. cbn [length] in Hl. zif; [|lia].
  rewrite Hd, <-app_assoc. unfold enc_segment. cbn [app]. run. cbn [as_path_len].
  rewrite length_enc_asns in Hl. zif; [lia|]. rewrite Nat2Z.id.
  rewrite (asn_loop_app size (s_asns s) (enc_path size ss ++ rest)) by (cbn; done || lia). run.
  rewrite IH; cbn [after_asns append_path as_data as_path_len as_path_cnt decoded_path seg_asn];
    [|done|simpl in Hf; lia|rewrite length_enc_asns; lia|lia|lia].
  rewrite last_app, Nat2Z.inj_add, Z.add_assoc. do 3 f_equal.
  cbn [path_text foldr]. unfold segment_text.
  destruct (s_type s =? 1); rewrite !string_app_assoc; by rewrite ?append_nil_l.
Qed.

Definition asn_size (two : bool) : nat := if two then 2 else 4.

(** One pass of the decoder over a path in the encoding it expects *)
Lemma seg_loop_path (two : bool) ss rest attr_len :
  Forall (wf_segment (asn_size two)) ss → attr_len = Z.of_nat (length (enc_path (asn_size two) ss)) →
  attr_len < 65536 →
  seg_loop (loop_fuel attr_len) (if two then 2 else 4)
    {| as_data := enc_path (asn_size two) ss ++ rest; as_path_len := attr_len; decoded_path := "";
       as_path_cnt := 0; seg_asn := 0 |}
  = Ok (Some {| as_data := rest; as_path_len := 0; decoded_path := path_text ss;
                as_path_cnt := Z.of_nat (length (path_asns ss)); seg_asn := List.last (path_asns ss) 0 |}).
Proof.
  intros Hss -> Hl. rewrite length_enc_path in *.
  replace (if two then 2 else 4) with (Z.of_nat (asn_size two)) by by destruct two.
  unfold loop_fuel. rewrite (seg_loop_app _ _ ss rest); cbn [as_data as_path_len decoded_path as_path_cnt seg_asn];
    rewrite ?length_enc_path; try done; destruct two; simpl in *; lia.
Qed.

Lemma as_path_app ss rest attr_len info m :
  let size := asn_size (using_2_octet_asn info) in
  Forall (wf_segment size) ss → attr_len = Z.of_nat (length (enc_path size ss)) →
  Z.of_nat size ≤ attr_len < 65536 →
  parseAttr_AsPath attr_len (enc_path size ss ++ rest) info m = Ok (info, path_attrs ss m).
Proof.
  intros size Hss Hn Hl. unfold parseAttr_AsPath, as_path_rec.
  zif; [subst size; destruct (using_2_octet_asn info); simpl in *; lia|].
  rewrite seg_loop_path by (done || lia). done.
Qed.

(** C33: an AS_PATH is decoded completely.  A path in the encoding the peer uses
    (2 or 4 octets per AS number) of at least one AS number's size is stored as
    its text (AS numbers in order, AS_SETs in braces), the number of AS numbers
    in it and its last AS number as the origin; nothing else changes, and the
    octets after the attribute do not matter. *)
Theorem as_path_decoded (ss : list segment) (rest : ptr) (info : peer_info) (m : attrs_map) :
  let size := asn_size (using_2_octet_asn info) in
  Forall (wf_segment size) ss →
  Z.of_nat size ≤ Z.of_nat (length (enc_path size ss)) < 65536 →
  parseAttr_AsPath (Z.of_nat (length (enc_path size ss))) (enc_path size ss ++ rest) info m
  = Ok (info, path_attrs ss m).
Proof. intros size ? ?. by apply as_path_app. Qed.

Definition sample_path : list segment :=
  [{| s_type := 2; s_asns := [65001; 4200000000] |}; {| s_type := 1; s_asns := [64512; 64513] |}].

Lemma as_path_decoded_witness :
  parseAttr_AsPath (Z.of_nat (length (enc_path 4 sample_path))) (enc_path 4 sample_path ++ [255]) new_peer_info ∅
  = Ok (new_peer_info, path_attrs sample_path ∅)
  ∧ path_text sample_path = " 65001 4200000000 { 64512 64513 }".
Proof.
  split; [|vm_compute; reflexivity].
  apply (as_path_decoded sample_path [255] new_peer_info ∅);
    [unfold sample_path; repeat constructor; simpl; lia|vm_compute; split; congruence].
Defined.

(** A first segment that is too long for 4-octet AS numbers stops the decoder. *)
Lemma seg_loop_short fuel s ss rest attr_len :
  (length (enc_path 2 ss) < 2 * length (s_asns s))%nat →
  attr_len = Z.of_nat (length (enc_path 2 (s :: ss))) →
  seg_loop (S fuel) 4
    {| as_data := enc_path 2 (s :: ss) ++ rest; as_path_len := attr_len; decoded_path := "";
       as_path_cnt := 0; seg_asn := 0 |} = Ok None.
Proof.
  intros Hs ->. change (enc_path 2 (s :: ss)) with (enc_segment 2 s ++ enc_path 2 ss).
  rewrite length_app, <-app_assoc. unfold enc_segment. cbn [length app]. rewrite length_enc_asns.
  cbn [seg_loop as_path_len as_data]. zif; [|lia]. run. cbn [as_path_len]. zif; [done|lia].
Qed.

(** A 2-octet path from a peer that is decoded with 4 octets switches the
    peer.  When the first segment, read with 4-octet AS numbers, does not fit
    into the attribute (always the case for a path of one segment), the peer is
    marked as using 2-octet AS numbers and the path is stored as if it had been
    all along. *)
Theorem as_path_fallback (s : segment) (ss : list segment) (rest : ptr) (info : peer_info) (m : attrs_map) :
  using_2_octet_asn info = false →
  Forall (wf_segment 2) (s :: ss) → Z.of_nat (length (enc_path 2 (s :: ss))) < 65536 →
  (length (enc_path 2 ss) < 2 * length (s_asns s))%nat →
  parseAttr_AsPath (Z.of_nat (length (enc_path 2 (s :: ss)))) (enc_path 2 (s :: ss) ++ rest) info m
  = Ok (set_using_2_octet true info, path_attrs (s :: ss) m).
Proof.
  intros Hi Hss Hl Hs. unfold parseAttr_AsPath, as_path_rec. rewrite Hi.
  cbn [negb set_using_2_octet using_2_octet_asn].
  pose proof (seg_loop_path true (s :: ss) rest (Z.of_nat (length (enc_path 2 (s :: ss)))) Hss eq_refl Hl) as E2.
  change (asn_size true) with 2%nat in E2. rewrite E2. unfold loop_fuel.
  rewrite seg_loop_short by done. run.
  assert (4 ≤ length (enc_path 2 (s :: ss)))%nat
    by (rewrite length_enc_path, path_asns_cons, length_app; cbn [length]; lia).
  repeat (zif; [lia|]). done.
Qed.

Lemma as_path_fallback_witness :
  parseAttr_AsPath 8 ([2; 3] ++ [0; 100; 1; 44; 255; 0]) new_peer_info ∅
  = Ok (set_using_2_octet true new_peer_info, path_attrs [{| s_type := 2; s_asns := [100; 300; 65280] |}] ∅).
Proof.
  apply (as_path_fallback {| s_type := 2; s_asns := [100; 300; 65280] |} [] [] new_peer_info ∅);
    [reflexivity| |reflexivity|simpl; lia].
  repeat constructor; simpl; lia.
Defined.

(** The fallback cannot recognise every 2-octet path.  The path "100 512" of
    two 2-octet segments is also a well-formed 4-octet path, and a peer not yet
    marked gets the single AS number 6554113 stored for it, as the origin too. *)
Theorem two_octet_path_misread :
  parseAttr_AsPath 8 (enc_path 2 [{| s_type := 2; s_asns := [100] |}; {| s_type := 2; s_asns := [512] |}])
    new_peer_info ∅
  = Ok (new_peer_info, path_attrs [{| s_type := 2; s_asns := [6554113] |}; {| s_type := 2; s_asns := [] |}] ∅).
Proof. vm_compute. reflexivity. Qed.

(** *** Bounds of the decoder *)

Lemma asn_loop_def k (size : nat) st :
  bytes_ok (as_data st) → (size * k ≤ length (as_data st))%nat →
  ∃ st', asn_loop k (Z.of_nat size) st = Ok st' ∧ bytes_ok (as_data st')
    ∧ as_path_len st' = as_path_len st - Z.of_nat (size * k)
    ∧ length (as_data st') = (length (as_data st) - size * k)%nat.
Proof.
  revert st. induction k as [|k IH]; intros st Hb Hk; cbn [asn_loop].
  { exists st. rewrite Nat.mul_0_r. split_and!; (done || lia). }
  rstep. edestruct IH as (st' & E & H1 & H2 & H3).
  3: { rewrite E. exists st'. cbn [as_path_len as_data] in *. rewrite length_adv_nat in H3.
       split_and!; [done..|lia|lia]. }
  - cbn [as_data]. by apply Forall_drop.
  - cbn [as_data]. rewrite length_adv_nat. lia.
Qed.

Lemma seg_loop_def fuel (size : nat) st :
  (2 ≤ size)%nat → bytes_ok (as_data st) → as_path_len st < Z.of_nat (length (as_data st)) →
  (Z.to_nat (as_path_len st) < fuel)%nat →
  ∃ r, seg_loop fuel (Z.of_nat size) st = Ok r.
Proof.
  intros Hsz. revert st. induction fuel as [|fuel IH]; intros st Hb Hl Hf; [lia|]. cbn [seg_loop].
  zif; [|eauto].
  destruct (as_data st) as [|ty [|n p]] eqn:Ed; [cbn [length] in Hl; lia..|].
  inversion_clear Hb as [|? ? _ Hb']. inversion_clear Hb' as [|? ? Hn Hp]. unfold is_byte in Hn.
  cbn [length] in Hl. run. cbn [as_path_len]. zif; [eauto|].
  edestruct (asn_loop_def (Z.to_nat n) size) as (st' & -> & H1 & H2 & H3);
    [done|cbn [as_data]; lia|]. run. cbn [as_data as_path_len] in *.
  apply IH; cbn [append_path as_data as_path_len]; [done|lia|lia].
Qed.

(** The AS_PATH decoder is total and reads at most one octet past the
    attribute.  On arbitrary octets it returns, with at most one retry; it marks
    the peer as a 2-octet one or leaves it alone, and changes no attribute but
    the path, its length and its origin. *)
Theorem as_path_total (attr_len : Z) (data : ptr) (info : peer_info) (m : attrs_map) :
  bytes_ok data → attr_len < Z.of_nat (length data) →
  ∃ info' m', parseAttr_AsPath attr_len data info m = Ok (info', m')
    ∧ (info' = info ∨ info' = set_using_2_octet true info)
    ∧ ∀ t, t ≠ ATTR_TYPE_AS_PATH → t ≠ ATTR_TYPE_INTERNAL_AS_COUNT → t ≠ ATTR_TYPE_INTERNAL_AS_ORIGIN →
        m' !! t = m !! t.
Proof.
  intros Hb Hl.
  assert (∀ two : bool, ∃ r, seg_loop (loop_fuel attr_len) (if two then 2 else 4)
            {| as_data := data; as_path_len := attr_len; decoded_path := ""; as_path_cnt := 0; seg_asn := 0 |}
            = Ok r) as Hseg.
  { intros two. destruct (seg_loop_def (loop_fuel attr_len) (asn_size two)
      {| as_data := data; as_path_len := attr_len; decoded_path := ""; as_path_cnt := 0; seg_asn := 0 |})
      as (r & E); [destruct two; simpl; lia|done..|simpl; unfold loop_fuel; lia|].
    exists r. by destruct two. }
  assert (∀ st t, t ≠ ATTR_TYPE_AS_PATH → t ≠ ATTR_TYPE_INTERNAL_AS_COUNT → t ≠ ATTR_TYPE_INTERNAL_AS_ORIGIN →
            store_path st m !! t = m !! t) as Hst
    by (intros; unfold store_path; by rewrite !lookup_insert_ne by congruence).
  destruct (Hseg true) as [r2 E2]. destruct (Hseg false) as [r4 E4].
  unfold parseAttr_AsPath, as_path_rec. cbn [set_using_2_octet using_2_octet_asn].
  destruct (using_2_octet_asn info); rewrite E2, ?E4; run.
  - zif; [eauto 10|]. destruct r2; cbn; eauto 10.
  - zif; [eauto 10|]. destruct r4; [cbn; eauto 10|]. cbn [negb]. zif; [eauto 10|].
    destruct r2; cbn; eauto 10.
Qed.

Lemma as_path_total_witness :
  ∃ info' m', parseAttr_AsPath 3 [2; 1; 7; 9] new_peer_info ∅ = Ok (info', m')
    ∧ (info' = new_peer_info ∨ info' = set_using_2_octet true new_peer_info)
    ∧ ∀ t, t ≠ ATTR_TYPE_AS_PATH → t ≠ ATTR_TYPE_INTERNAL_AS_COUNT → t ≠ ATTR_TYPE_INTERNAL_AS_ORIGIN →
        m' !! t = (∅ : attrs_map) !! t.
Proof.
  apply (as_path_total 3 [2; 1; 7; 9] new_peer_info ∅); [|simpl; lia].
  unfold is_byte. repeat constructor; lia.
Defined.

(** ** Lists of fixed-size entries *)

(** entries separated by blanks, the first one with a blank in front unless it
    starts the text *)
Fixpoint spaced (start : bool) (l : list string) : string :=
  match l with
  | [] => ""
  | s :: l' => (if start then "" else " ") +:+ s +:+ spaced false l'
  end.

Lemma spaced_join l : spaced true l = join " " l.
Proof.
  assert (∀ s l, spaced true (s :: l) = join " " (s :: l)) as H; [|destruct l; [done|apply H]].
  clear l. intros s l. revert s. induction l as [|t l IH]; intros s.
  { cbn [spaced join]. by rewrite append_nil_l, string_app_nil_r. }
  change (join " " (s :: t :: l)) with (s +:+ " " +:+ join " " (t :: l)). rewrite <-IH. cbn [spaced].
  by rewrite !append_nil_l.
Qed.

Definition enc_community (c : Z * Z) : list Z := hton 2 c.1 ++ hton 2 c.2.
Definition community_text (c : Z * Z) : string := dec c.1 +:+ ":" +:+ dec c.2.
Definition wf_community (c : Z * Z) : Prop := 0 ≤ c.1 < 65536 ∧ 0 ≤ c.2 < 65536.
Definition enc_communities (l : list (Z * Z)) : list Z := concat (enc_community <$> l).

Definition enc_large (c : Z * Z * Z) : list Z := hton 4 c.1.1 ++ hton 4 c.1.2 ++ hton 4 c.2.
Definition large_text (c : Z * Z * Z) : string := dec c.1.1 +:+ ":" +:+ dec c.1.2 +:+ ":" +:+ dec c.2.
Definition wf_large (c : Z * Z * Z) : Prop :=
  0 ≤ c.1.1 < 2 ^ 32 ∧ 0 ≤ c.1.2 < 2 ^ 32 ∧ 0 ≤ c.2 < 2 ^ 32.
Definition enc_larges (l : list (Z * Z * Z)) : list Z := concat (enc_large <$> l).

Definition cluster_text (l : list (list Z)) : string := foldr (λ a s, inet_ntop4 a +:+ " " +:+ s) "" l.

Lemma length_concat_fmap {A} (f : A → list Z) k l :
  (∀ x, length (f x) = k) → length (concat (f <$> l)) = (k * length l)%nat.
Proof.
  intros Hf. induction l as [|x l IH]; [simpl; lia|].
  rewrite fmap_cons. cbn [concat length]. rewrite length_app, Hf, IH. lia.
Qed.

Lemma length_enc_community c : length (enc_community c) = 4%nat.
Proof. unfold enc_community. by rewrite length_app, !length_hton. Qed.
Lemma length_enc_large c : length (enc_large c) = 12%nat.
Proof. unfold enc_large. by rewrite !length_app, !length_hton. Qed.

Lemma community_loop_app fuel l rest i acc :
  Forall wf_community l → (length l < fuel)%nat → 0 ≤ i →
  community_loop fuel i (i + Z.of_nat (length (enc_communities l))) (enc_communities l ++ rest) acc
  = Ok (acc +:+ spaced (i =? 0) (community_text <$> l)).
Proof.
  intros Hl. revert fuel i acc. induction Hl as [|c l [H1 H2] Hl IH]; intros fuel i acc Hf Hi;
    (destruct fuel as [|fuel]; [simpl in Hf; lia|]); cbn [community_loop].
  { zif; [simpl in *; lia|]. by rewrite string_app_nil_r. }
  change (enc_communities (c :: l)) with (enc_community c ++ enc_communities l).
  rewrite length_app, length_enc_community. rewrite <-app_assoc. unfold enc_community.
  rewrite <-app_assoc. rewrite (proj2 (Z.ltb_lt i _)) by lia.
  rewrite get_u16_hton, bind_Ok_l, adv_app, get_u16_hton, bind_Ok_l, adv_app
    by (done || by rewrite length_hton).
  replace (i + Z.of_nat (4 + length (enc_communities l)))
    with (i + 4 + Z.of_nat (length (enc_communities l))) by lia.
  cbn [length] in Hf. rewrite IH by lia. f_equal. rewrite fmap_cons. cbn [spaced].
  rewrite (proj2 (Z.eqb_neq (i + 4) 0)) by lia. unfold community_text at 2.
  destruct (i =? 0); rewrite !string_app_assoc; by rewrite ?append_nil_l.
Qed.

Lemma large_loop_app fuel l rest i acc :
  Forall wf_large l → (length l < fuel)%nat → 0 ≤ i →
  large_loop fuel i (i + Z.of_nat (length (enc_larges l))) (enc_larges l ++ rest) acc
  = Ok (acc +:+ spaced (i =? 0) (large_text <$> l)).
Proof.
  intros Hl. revert fuel i acc. induction Hl as [|c l (H1 & H2 & H3) Hl IH]; intros fuel i acc Hf Hi;
    (destruct fuel as [|fuel]; [simpl in Hf; lia|]); cbn [large_loop].
  { zif; [simpl in *; lia|]. by rewrite string_app_nil_r. }
  change (enc_larges (c :: l)) with (enc_large c ++ enc_larges l).
  rewrite length_app, length_enc_large. rewrite <-app_assoc. unfold enc_large.
  rewrite <-!app_assoc. rewrite (proj2 (Z.ltb_lt i _)) by lia.
  rewrite get_u32_hton, bind_Ok_l, adv_app, get_u32_hton, bind_Ok_l, adv_app, get_u32_hton, bind_Ok_l, adv_app
    by (done || by rewrite length_hton).
  replace (i + Z.of_nat (12 + length (enc_larges l)))
    with (i + 12 + Z.of_nat (length (enc_larges l))) by lia.
  cbn [length] in Hf. rewrite IH by lia. f_equal. rewrite fmap_cons. cbn [spaced].
  rewrite (proj2 (Z.eqb_neq (i + 12) 0)) by lia. unfold large_text at 2.
  destruct (i =? 0); rewrite !string_app_assoc; by rewrite ?append_nil_l.
Qed.

Lemma cluster_loop_app fuel l rest i acc :
  Forall (λ a, length a = 4%nat) l → (length l < fuel)%nat →
  cluster_loop fuel i (i + Z.of_nat (length (concat l))) (concat l ++ rest) acc = Ok (acc +:+ cluster_text l).
Proof.
  intros Hl. revert fuel i acc. induction Hl as [|a l Ha Hl IH]; intros fuel i acc Hf;
    (destruct fuel as [|fuel]; [simpl in Hf; lia|]); cbn [cluster_loop].
  { zif; [simpl in *; lia|]. by rewrite string_app_nil_r. }
  cbn [concat length] in *. rewrite length_app, <-app_assoc, Ha. zif; [|lia]. run.
  rewrite ?adv_app by lia.
  replace (i + Z.of_nat (4 + length (concat l))) with (i + 4 + Z.of_nat (length (concat l))) by lia.
  rewrite IH by lia. unfold cluster_text. cbn [foldr]. by rewrite !string_app_assoc.
Qed.

(** ** Path attributes as data *)

(** how the session encodes: 2-octet AS numbers, and add-path per family *)
Record session : Type := { two_octet : bool; add_path_on : bool → bool }.

Definition session_ok (s : session) (info : peer_info) : Prop :=
  using_2_octet_asn info = two_octet s
  ∧ ∀ isIPv4, isAddPathEnabled (unicast_afi isIPv4) BGP_SAFI_UNICAST (add_path_capability info)
              = Ok (add_path_on s isIPv4).

Inductive path_attr : Type :=
| Origin (o : Z)
| AsPath (ss : list segment)
| NextHop (addr : list Z)
| Med (v : Z)
| LocalPref (v : Z)
| Aggregator (asn_octets : nat) (asn : Z) (addr : list Z)
| Communities (l : list (Z * Z))
| OriginatorId (addr : list Z)
| ClusterList (l : list (list Z))
| ExtCommunities (l : list (list Z))
| LargeCommunities (l : list (Z * Z * Z))
| MpReach (isIPv4 : bool) (nh : list Z) (xs : list nlri)
| MpUnreach (isIPv4 : bool) (xs : list nlri)
| Ignored (t : Z) (v : list Z)    (** a type the collector does not decode *)
| Empty (t : Z).                  (** any type, without a value *)

Definition attr_code (a : path_attr) : Z :=
  match a with
  | Origin _ => 1 | AsPath _ => 2 | NextHop _ => 3 | Med _ => 4 | LocalPref _ => 5
  | Aggregator _ _ _ => 7 | Communities _ => 8 | OriginatorId _ => 9 | ClusterList _ => 10
  | ExtCommunities _ => 16 | LargeCommunities _ => 32
  | MpReach _ _ _ => 14 | MpUnreach _ _ => 15 | Ignored t _ => t | Empty t => t
  end.

Definition attr_value (s : session) (a : path_attr) : list Z :=
  match a with
  | Origin o => [o]
  | AsPath ss => enc_path (asn_size (two_octet s)) ss
  | NextHop addr | OriginatorId addr => addr
  | Med v | LocalPref v => hton 4 v
  | Aggregator n asn addr => hton n asn ++ addr
  | Communities l => enc_communities l
  | ClusterList l | ExtCommunities l => concat l
  | LargeCommunities l => enc_larges l
  | MpReach b nh xs => enc_reach (unicast_afi b) 1 nh (enc_nlris (add_path_on s b) xs)
  | MpUnreach b xs => enc_unreach (unicast_afi b) 1 (enc_nlris (add_path_on s b) xs)
  | Ignored _ v => v
  | Empty _ => []
  end.

(** what the attribute means for the parse result *)
Definition attr_apply (s : session) (a : path_attr) (d : parsed_update_data) : parsed_update_data :=
  match a with
  | Origin o => set_attr ATTR_TYPE_ORIGIN (origin_text o) d
  | AsPath ss => set_attrs (path_attrs ss (attrs d)) d
  | NextHop addr => set_attr ATTR_TYPE_NEXT_HOP (inet_ntop4 addr) d
  | Med v => set_attr ATTR_TYPE_MED (dec v) d
  | LocalPref v => set_attr ATTR_TYPE_LOCAL_PREF (dec v) d
  | Aggregator _ asn addr => set_attr ATTR_TYPE_AGGEGATOR (dec asn +:+ " " +:+ inet_ntop4 addr) d
  | Communities l => set_attr ATTR_TYPE_COMMUNITIES (join " " (community_text <$> l)) d
  | OriginatorId addr => set_attr ATTR_TYPE_ORIGINATOR_ID (inet_ntop4 addr) d
  | ClusterList l => set_attr ATTR_TYPE_CLUSTER_LIST (cluster_text l) d
  | ExtCommunities l => set_attr ATTR_TYPE_EXT_COMMUNITY (join " " (ext_text <$> l)) d
  | LargeCommunities l => set_attr ATTR_TYPE_LARGE_COMMUNITY (join " " (large_text <$> l)) d
  | MpReach b nh xs =>
      set_advertised (advertised d ++ (dec_nlri b (add_path_on s b) <$> xs))
        (set_attr ATTR_TYPE_NEXT_HOP (inet_ntop b nh) d)
  | MpUnreach b xs => set_withdrawn (withdrawn d ++ (dec_nlri b (add_path_on s b) <$> xs)) d
  | Ignored _ _ | Empty _ => d
  end.

Definition decoded_types : list Z := [1; 2; 3; 4; 5; 6; 7; 8; 9; 10; 14; 15; 16; 25; 29; 32].

Definition wf_attr (s : session) (a : path_attr) : Prop :=
  Z.of_nat (length (attr_value s a)) < 65536 ∧
  match a with
  | Origin _ | Empty _ => True
  | AsPath ss =>
      Forall (wf_segment (asn_size (two_octet s))) ss
      ∧ (asn_size (two_octet s) ≤ length (enc_path (asn_size (two_octet s)) ss))%nat
  | NextHop addr | OriginatorId addr => length addr = 4%nat
  | Med v | LocalPref v => 0 ≤ v < 2 ^ 32
  | Aggregator n asn addr => n ∈ [2%nat; 4%nat] ∧ 0 ≤ asn < 256 ^ Z.of_nat n ∧ length addr = 4%nat
  | Communities l => Forall wf_community l ∧ l ≠ []
  | ClusterList l => Forall (λ a, length a = 4%nat) l ∧ l ≠ []
  | ExtCommunities l => Forall (λ a, length a = 8%nat) l ∧ l ≠ []
  | LargeCommunities l => Forall wf_large l ∧ l ≠ []
  | MpReach b nh xs => length nh = nh_octets b ∧ Forall (wf_nlri 128) xs
  | MpUnreach b xs => Forall (wf_nlri 128) xs ∧ xs ≠ []
  | Ignored t v => (t ∉ decoded_types) ∧ v ≠ []
  end.

Definition enc_attr (s : session) (fa : Z * path_attr) : list Z :=
  let v := attr_value s fa.2 in
  fa.1 :: attr_code fa.2
    :: (if ATTR_FLAG_EXTENDED fa.1 then hton 2 (Z.of_nat (length v)) else [Z.of_nat (length v)]) ++ v.
Definition enc_attrs (s : session) (l : list (Z * path_attr)) : list Z := concat (enc_attr s <$> l).

(** the one-octet length field holds the length unless the flag is set *)
Definition wf_flagged (s : session) (fa : Z * path_attr) : Prop :=
  wf_attr s fa.2 ∧ (ATTR_FLAG_EXTENDED fa.1 = false → Z.of_nat (length (attr_value s fa.2)) < 256).

Section update_properties.
Context {LS : LinkState}.

Lemma get_u32_exact v : 0 ≤ v < 2 ^ 32 → get_u32 (hton 4 v) = Ok v.
Proof. intros. rewrite <-(app_nil_r (hton 4 v)). by apply get_u32_hton. Qed.

Lemma parseAttr_Aggegator_app n asn addr rest m :
  n ∈ [2%nat; 4%nat] → 0 ≤ asn < 256 ^ Z.of_nat n → length addr = 4%nat →
  parseAttr_Aggegator (Z.of_nat (length (hton n asn ++ addr))) ((hton n asn ++ addr) ++ rest) m
  = Ok (<[ATTR_TYPE_AGGEGATOR := dec asn +:+ " " +:+ inet_ntop4 addr]> m).
Proof.
  intros Hn Ha Hl. unfold parseAttr_Aggegator. rewrite length_app, length_hton, Hl, <-app_assoc.
  set_unfold in Hn. destruct Hn as [->|[->|[]]]; repeat (zif; try lia).
  - rewrite get_u16_hton, bind_Ok_l by done. rewrite adv_app by (by rewrite length_hton). by run.
  - rewrite get_u32_hton, bind_Ok_l by done. rewrite adv_app by (by rewrite length_hton). by run.
Qed.

(** Every attribute value is decoded to its meaning, whatever follows it. *)
Lemma parseAttrData_enc s info a rest d :
  session_ok s info → wf_attr s a → attr_value s a ≠ [] →
  parseAttrData (attr_code a) (Z.of_nat (length (attr_value s a))) (attr_value s a ++ rest) info d
  = Ok (info, attr_apply s a d).
Proof.
  intros [H2 Hap] [Hlen Hwf] Hne. destruct a; cbn [attr_code attr_value attr_apply] in *;
    unfold parseAttrData;
    cbn [Z.eqb Pos.eqb ATTR_TYPE_ORIGIN ATTR_TYPE_AS_PATH ATTR_TYPE_NEXT_HOP ATTR_TYPE_MED
      ATTR_TYPE_LOCAL_PREF ATTR_TYPE_ATOMIC_AGGREGATE ATTR_TYPE_AGGEGATOR ATTR_TYPE_ORIGINATOR_ID
      ATTR_TYPE_CLUSTER_LIST ATTR_TYPE_COMMUNITIES ATTR_TYPE_EXT_COMMUNITY ATTR_TYPE_IPV6_EXT_COMMUNITY
      ATTR_TYPE_MP_REACH_NLRI ATTR_TYPE_MP_UNREACH_NLRI ATTR_TYPE_BGP_LS ATTR_TYPE_LARGE_COMMUNITY].
  - done.
  - rewrite <-H2 in *. destruct Hwf as [Hss Hsz]. rewrite as_path_app by (done || lia). done.
  - by rewrite memcpy_app by lia.
  - by rewrite get_u32_hton.
  - by rewrite get_u32_hton.
  - destruct Hwf as (Hn & Ha & Hl). by rewrite parseAttr_Aggegator_app.
  - destruct Hwf as [Hl _]. unfold loop_fuel, enc_communities in *.
    pose proof (community_loop_app (S (Z.to_nat (Z.of_nat (length (enc_communities l))))) l rest 0 "" Hl) as E.
    unfold enc_communities in E. rewrite Z.add_0_l in E. rewrite E, append_nil_l, spaced_join; [done| |lia].
    rewrite (length_concat_fmap _ 4) by apply length_enc_community. lia.
  - by rewrite memcpy_app by lia.
  - destruct Hwf as [Hl _]. unfold loop_fuel.
    pose proof (cluster_loop_app (S (Z.to_nat (Z.of_nat (length (concat l))))) l rest 0 "" Hl) as E.
    rewrite Z.add_0_l in E. rewrite E, append_nil_l; [done|].
    clear -Hl. induction Hl as [|a l Ha _ IH]; cbn [concat length]; rewrite ?length_app; lia.
  - destruct Hwf as [Hl _]. by rewrite parseExtCommunities_app.
  - destruct Hwf as [Hl Hl0]. unfold loop_fuel, enc_larges in *.
    pose proof (large_loop_app (S (Z.to_nat (Z.of_nat (length (enc_larges l))))) l rest 0 "" Hl) as E.
    unfold enc_larges in E. rewrite Z.add_0_l in E.
    rewrite E, append_nil_l, spaced_join by (rewrite ?(length_concat_fmap _ 12) by apply length_enc_large; lia).
    rewrite (length_concat_fmap _ 12) by apply length_enc_large.
    destruct l; [done|]. cbn [length]. by zif; [|lia].
  - destruct Hwf as [Hn Hxs]. rewrite (mp_reach_unicast_app isIPv4 (add_path_on s isIPv4)); try done.
    unfold enc_reach in Hlen. rewrite !length_app in Hlen. cbn [length] in Hlen. rewrite length_app in Hlen.
    cbn [length] in Hlen. lia.
  - destruct Hwf as [Hxs Hx0]. rewrite (mp_unreach_unicast_app isIPv4 (add_path_on s isIPv4)); try done.
    unfold enc_unreach in Hlen. rewrite length_app in Hlen. cbn [length] in Hlen.
    pose proof (length_enc_nlris_ge (add_path_on s isIPv4) xs). destruct xs; [done|]. simpl in *. lia.
  - destruct Hwf as [Ht _]. unfold decoded_types in Ht. set_unfold in Ht.
    repeat (rewrite (proj2 (Z.eqb_neq t _)) by (compute; intuition)). done.
  - done.
Qed.

(** ** The attribute loop *)

Definition apply_attrs (s : session) (l : list (Z * path_attr)) (d : parsed_update_data) : parsed_update_data :=
  foldl (λ d fa, attr_apply s fa.2 d) d l.

(** the octets of the header *)
Definition len_octets (flags : Z) : Z := if ATTR_FLAG_EXTENDED flags then 2 else 1.

Lemma length_enc_attr s fa :
  Z.of_nat (length (enc_attr s fa)) = 2 + len_octets fa.1 + Z.of_nat (length (attr_value s fa.2)).
Proof.
  unfold enc_attr, len_octets. cbn [length]. rewrite length_app.
  destruct (ATTR_FLAG_EXTENDED fa.1); rewrite ?length_hton; cbn [length]; lia.
Qed.

Lemma attr_length_enc s fa rest :
  wf_flagged s fa →
  ∃ p, enc_attr s fa ++ rest = fa.1 :: attr_code fa.2 :: p
    ∧ attr_length fa.1 p = Ok (Z.of_nat (length (attr_value s fa.2)), len_octets fa.1)
    ∧ adv (len_octets fa.1) p = attr_value s fa.2 ++ rest.
Proof.
  intros [[Hl _] H8]. unfold enc_attr, attr_length, len_octets.
  eexists; split; [cbn [app]; rewrite <-app_assoc; reflexivity|].
  destruct (ATTR_FLAG_EXTENDED fa.1).
  - rewrite get_u16_hton by lia. split; [done|]. by rewrite adv_app by (by rewrite length_hton).
  - by split.
Qed.

Lemma attr_apply_empty s a d : wf_attr s a → attr_value s a = [] → attr_apply s a d = d.
Proof.
  intros [_ Hwf] Hv. assert (length (attr_value s a) = 0%nat) as H0 by by rewrite Hv.
  destruct a; cbn [attr_value attr_apply] in *; unfold enc_reach, enc_unreach, enc_communities, enc_larges in *;
    rewrite ?length_app, ?length_hton in H0; try (simpl in *; lia); try done.
  - destruct Hwf as [_ Hsz]. rewrite H0 in Hsz. destruct (two_octet s); simpl in Hsz; lia.
  - destruct Hwf as (_ & Hl). rewrite (length_concat_fmap _ 4) in H0 by apply length_enc_community.
    destruct l; simpl in *; [done|lia].
  - destruct Hwf as [Hl ?]. destruct l as [|a l]; [done|]. apply Forall_cons in Hl as [Ha _].
    cbn [concat] in H0. rewrite length_app in H0. lia.
  - destruct Hwf as [Hl ?]. destruct l as [|a l]; [done|]. apply Forall_cons in Hl as [Ha _].
    cbn [concat] in H0. rewrite length_app in H0. lia.
  - destruct Hwf as (_ & Hl). rewrite (length_concat_fmap _ 12) in H0 by apply length_enc_large.
    destruct l; simpl in *; [done|lia].
Qed.

Lemma enc_attrs_cons s fa l : enc_attrs s (fa :: l) = enc_attr s fa ++ enc_attrs s l.
Proof. done. Qed.

Lemma attr_loop_app s info fuel l rest n d :
  session_ok s info → Forall (wf_flagged s) l → (length l < fuel)%nat →
  attr_loop fuel (enc_attrs s l ++ rest) n (n + Z.of_nat (length (enc_attrs s l))) info d
  = Ok (info, apply_attrs s l d).
Proof.
  intros Hs Hl. revert fuel n d. induction Hl as [|fa l Hfa Hl IH]; intros fuel n d Hf;
    (destruct fuel as [|fuel]; [simpl in Hf; lia|]); cbn [attr_loop].
  { by zif; [simpl in *; lia|]. }
  rewrite enc_attrs_cons, length_app, Nat2Z.inj_add, length_enc_attr, <-app_assoc.
  set (v := attr_value s fa.2) in *. set (L := Z.of_nat (length (enc_attrs s l))).
  destruct (attr_length_enc s fa (enc_attrs s l ++ rest) Hfa) as (p & -> & E2 & E3). fold v in E2, E3.
  assert (1 ≤ len_octets fa.1) by (unfold len_octets; case_match; lia).
  rewrite (proj2 (Z.ltb_lt n _)) by lia. run. rewrite E2. run. rewrite E3.
  rewrite (proj2 (Z.leb_le (n + len_octets fa.1 + Z.of_nat (length v)) _)) by lia. rewrite andb_true_r.
  cbn [length] in Hf. unfold apply_attrs. cbn [foldl].
  replace (n + (2 + len_octets fa.1 + Z.of_nat (length v) + L))
    with (n + len_octets fa.1 + Z.of_nat (length v) + 2 + L) by lia.
  zif.
  - subst v. rewrite parseAttrData_enc; [|done|apply Hfa|intros Hv; rewrite Hv in *; simpl in *; lia].
    run. rewrite ?adv_app by done. by apply IH; lia.
  - assert (v = []) as Hv by (destruct v; simpl in *; [done|lia]).
    rewrite attr_apply_empty by (done || apply Hfa). rewrite Hv. cbn [length Z.of_nat Z.eqb negb app].
    rewrite Z.add_0_r. by apply IH; lia.
Qed.

Lemma length_enc_attrs_ge s l : (3 * length l ≤ length (enc_attrs s l))%nat.
Proof.
  induction l as [|fa l IH]; [done|]. rewrite enc_attrs_cons, length_app.
  pose proof (length_enc_attr s fa). assert (1 ≤ len_octets fa.1) by (unfold len_octets; case_match; lia).
  cbn [length]. lia.
Qed.

Lemma parseAttributes_app s info l rest d :
  session_ok s info → Forall (wf_flagged s) l →
  parseAttributes (enc_attrs s l ++ rest) (Z.of_nat (length (enc_attrs s l))) info d
  = Ok (info, apply_attrs s l d).
Proof.
  intros Hs Hl. unfold parseAttributes. pose proof (length_enc_attrs_ge s l).
  zif; [by destruct l; simpl in *; [|lia]|]. zif; [destruct l; simpl in *; lia|].
  pose proof (attr_loop_app s info (loop_fuel (Z.of_nat (length (enc_attrs s l)))) l rest 0 d Hs Hl) as EL.
  rewrite Z.add_0_l in EL. apply EL. unfold loop_fuel. lia.
Qed.

(** ** The message *)

Definition enc_update (s : session) (ws : list nlri) (l : list (Z * path_attr)) (ns : list nlri) : list Z :=
  let w := enc_nlris (add_path_on s true) ws in
  let a := enc_attrs s l in
  hton 2 (Z.of_nat (length w)) ++ w ++ hton 2 (Z.of_nat (length a)) ++ a ++ enc_nlris (add_path_on s true) ns.

Lemma length_enc_update s ws l ns :
  length (enc_update s ws l ns)
  = (4 + length (enc_nlris (add_path_on s true) ws) + length (enc_attrs s l)
     + length (enc_nlris (add_path_on s true) ns))%nat.
Proof. unfold enc_update. rewrite !length_app, !length_hton. lia. Qed.

(** The sections are skipped when they are empty. *)
Lemma v4_section_app ap xs rest info acc :
  isAddPathEnabled BGP_AFI_IPV4 BGP_SAFI_UNICAST (add_path_capability info) = Ok ap →
  Forall (wf_nlri 32) xs → Z.of_nat (length (enc_nlris ap xs)) < 65536 →
  (if 0 <? Z.of_nat (length (enc_nlris ap xs))
   then parseNlriData_v4 (enc_nlris ap xs ++ rest) (Z.of_nat (length (enc_nlris ap xs))) info acc
   else Ok acc) = Ok (acc ++ (dec_nlri true ap <$> xs)).
Proof.
  intros. rewrite (v4_prefixes_app ap) by (done || lia). zif; [done|].
  pose proof (length_enc_nlris_ge ap xs). destruct xs; [by rewrite app_nil_r|simpl in *; lia].
Qed.

Lemma attr_section_app s info l rest d :
  session_ok s info → Forall (wf_flagged s) l →
  (if 0 <? Z.of_nat (length (enc_attrs s l))
   then parseAttributes (enc_attrs s l ++ rest) (Z.of_nat (length (enc_attrs s l))) info d
   else Ok (info, d)) = Ok (info, apply_attrs s l d).
Proof.
  intros. rewrite parseAttributes_app by done. zif; [done|].
  pose proof (length_enc_attrs_ge s l). destruct l; [done|simpl in *; lia].
Qed.

Lemma parseUpdateMsg_app (s : session) (ws : list nlri) (l : list (Z * path_attr)) (ns : list nlri)
    (rest : ptr) (info : peer_info) :
  session_ok s info → Forall (wf_nlri 32) ws → Forall (wf_flagged s) l → Forall (wf_nlri 32) ns →
  4 < Z.of_nat (length (enc_update s ws l ns)) < 65536 →
  let d := apply_attrs s l (set_withdrawn (dec_nlri true (add_path_on s true) <$> ws) no_update) in
  parseUpdateMsg (enc_update s ws l ns ++ rest) (Z.of_nat (length (enc_update s ws l ns))) info no_update
  = Ok (Z.of_nat (length (enc_update s ws l ns)), info,
        set_advertised (advertised d ++ (dec_nlri true (add_path_on s true) <$> ns)) d).
Proof.
  intros Hs Hws Hl Hns Hlen d. rewrite length_enc_update in *. unfold parseUpdateMsg, enc_update.
  set (ap := add_path_on s true) in *.
  assert (isAddPathEnabled BGP_AFI_IPV4 BGP_SAFI_UNICAST (add_path_capability info) = Ok ap) as Hap by apply (proj2 Hs true).
  set (w := enc_nlris ap ws) in *. set (a := enc_attrs s l) in *. set (n := enc_nlris ap ns) in *.
  set (tot := Z.of_nat (4 + length w + length a + length n)) in *.
  rewrite <-!app_assoc, (proj2 (Z.ltb_ge tot 2)) by lia.
  rewrite get_u16_hton, bind_Ok_l by lia. rewrite adv_app by (by rewrite length_hton).
  rewrite u64_small by lia. rewrite (proj2 (Z.ltb_ge (tot - 2) _)) by lia. rewrite adv_app by done.
  rewrite get_u16_hton, bind_Ok_l by lia. rewrite adv_app by (by rewrite length_hton).
  rewrite u64_small by lia. rewrite (proj2 (Z.ltb_ge (tot - _) _)) by lia. rewrite adv_app by done.
  replace (tot - (2 + Z.of_nat (length w) + 2 + Z.of_nat (length a))) with (Z.of_nat (length n)) by lia.
  rewrite u64_small by lia.
  destruct ((Z.of_nat (length w) =? 0) && (Z.of_nat (length n) <=? 0) && (Z.of_nat (length a) =? 0)) eqn:E0.
  { rewrite !andb_true_iff, !Z.eqb_eq, Z.leb_le in E0. lia. }
  subst w. rewrite (v4_section_app ap) by (done || lia). run.
  subst a. rewrite attr_section_app by done. run.
  change (set_withdrawn _ _) with (set_withdrawn (dec_nlri true ap <$> ws) no_update). fold d.
  subst n. rewrite (v4_prefixes_app ap) by (done || lia). run.
  pose proof (length_enc_nlris_ge ap ns). zif; [done|].
  assert (ns = []) as -> by (destruct ns; [done|simpl in *; lia]).
  cbn [length] in *. rewrite app_nil_r.
  do 2 f_equal; [|by destruct d]. f_equal. subst tot. simpl. lia.
Qed.

(** C5: an UPDATE message is parsed completely.  For any IPv4 prefixes to
    withdraw and to announce and any list of well-formed path attributes
    (zero-length ones included, which are skipped), encoded as the session
    negotiated, the parser consumes exactly the message, leaves the peer state
    alone and returns the withdrawn prefixes, the attributes applied in order,
    and the announced prefixes after those of the attributes.  The octets
    behind the message have no influence. *)
Theorem parseUpdateMsg_roundtrip (s : session) (ws : list nlri) (l : list (Z * path_attr)) (ns : list nlri)
    (rest : ptr) (info : peer_info) :
  session_ok s info → Forall (wf_nlri 32) ws → Forall (wf_flagged s) l → Forall (wf_nlri 32) ns →
  4 < Z.of_nat (length (enc_update s ws l ns)) < 65536 →
  let d := apply_attrs s l (set_withdrawn (dec_nlri true (add_path_on s true) <$> ws) no_update) in
  parseUpdateMsg (enc_update s ws l ns ++ rest) (Z.of_nat (length (enc_update s ws l ns))) info no_update
  = Ok (Z.of_nat (length (enc_update s ws l ns)), info,
        set_advertised (advertised d ++ (dec_nlri true (add_path_on s true) <$> ns)) d).
Proof. apply parseUpdateMsg_app. Qed.

(** the parse result the parser starts from *)
Definition cleared (d : parsed_update_data) : parsed_update_data :=
  set_withdrawn [] (set_attrs ∅ (set_advertised [] d)).

(** The End-of-RIB marker.  The empty UPDATE of four octets sets the peer's
    flag, reports four octets read and yields no prefix and no attribute. *)
Theorem end_of_rib_marker (rest : ptr) (info : peer_info) (d : parsed_update_data) :
  parseUpdateMsg (hton 2 0 ++ hton 2 0 ++ rest) 4 info d = Ok (4, set_endOfRIB true info, cleared d).
Proof.
  unfold parseUpdateMsg. change (4 <? 2) with false. cbn iota.
  rewrite get_u16_hton, bind_Ok_l by lia. rewrite adv_app by (by rewrite length_hton).
  change (u64 (4 - 2) <? 0) with false. cbn iota. change (adv 0 ?p) with p.
  by rewrite get_u16_hton, bind_Ok_l by lia.
Qed.

(** A message whose length fields point past its end is refused.  When the
    withdrawn routes or the attributes are announced longer than the octets
    left, the parser returns 0 before it decodes anything: the peer state is
    unchanged and the parse result is empty. *)
Theorem update_length_errors (size wl al : Z) (w rest : list Z) (info : peer_info) (d : parsed_update_data) :
  2 ≤ size < 2 ^ 64 → 0 ≤ wl < 65536 → size - 2 < wl →
  Z.of_nat (length w) + 4 ≤ size → Z.of_nat (length w) < 65536 → 0 ≤ al < 65536 →
  size - 4 - Z.of_nat (length w) < al →
  parseUpdateMsg (hton 2 wl ++ rest) size info d = Ok (0, info, cleared d)
  ∧ parseUpdateMsg (hton 2 (Z.of_nat (length w)) ++ w ++ hton 2 al ++ rest) size info d
    = Ok (0, info, cleared d).
Proof.
  intros Hs Hwl Hlt Hw Hw16 Hal Hlt2. unfold parseUpdateMsg. split.
  - zif; [lia|]. rewrite get_u16_hton, bind_Ok_l, u64_small by lia. by zif; [|lia].
  - zif; [lia|]. rewrite get_u16_hton, bind_Ok_l, u64_small by lia. zif; [lia|].
    rewrite adv_app by (by rewrite length_hton). rewrite adv_app by done.
    rewrite get_u16_hton, bind_Ok_l, u64_small by lia. by zif; [|lia].
Qed.

(** An UPDATE body of two octets makes the length arithmetic wrap.  With no
    withdrawn routes the attribute length is read past the announced size; the
    [size_t] difference becomes 2^64 - 2, passes the length check, and the
    65534 octets that follow are decoded as announced prefixes of a message that
    is reported as read successfully. *)
Theorem short_update_underflow (rest : ptr) (info : peer_info) (d : parsed_update_data) :
  parseUpdateMsg (hton 2 0 ++ hton 2 0 ++ rest) 2 info d
  = (l ← parseNlriData_v4 rest 65534 info []; Ok (2, info, set_advertised l (cleared d))).
Proof.
  unfold parseUpdateMsg. change (2 <? 2) with false. cbn iota.
  rewrite get_u16_hton, bind_Ok_l by lia. rewrite adv_app by (by rewrite length_hton).
  change (u64 (2 - 2) <? 0) with false. cbn iota. change (adv 0 ?p) with p.
  rewrite get_u16_hton, bind_Ok_l by lia. rewrite adv_app by (by rewrite length_hton).
  change (adv 0 ?p) with p. by change (parseNlriData_v4 rest 65534) with (parseNlriData_v4 rest (2 ^ 64 - 2)).
Qed.

(** The ATOMIC_AGGREGATE attribute, whose value is empty by definition, is
    never recorded: the loop decodes only attributes with a value, so that the
    decoder's case for it is reached by malformed attributes only. *)
Theorem atomic_aggregate_lost (s : session) (l : list (Z * path_attr)) (flags : Z) (rest : ptr)
    (info : peer_info) (d : parsed_update_data) :
  session_ok s info → Forall (wf_flagged s) l →
  let atomic := (flags, Empty ATTR_TYPE_ATOMIC_AGGREGATE) in
  parseAttributes (enc_attrs s (atomic :: l) ++ rest) (Z.of_nat (length (enc_attrs s (atomic :: l)))) info d
  = Ok (info, apply_attrs s l d).
Proof.
  intros Hs Hl atomic. rewrite (parseAttributes_app s); [done|done|].
  constructor; [|done]. by repeat split; simpl.
Qed.
End update_properties.

(** a peer with add-path for IPv6 only, and the session that goes with it *)
Definition sample_session : session := {| two_octet := false; add_path_on := negb |}.

Lemma sample_session_ok : session_ok sample_session add_path_peer.
Proof. split; [done|]. intros []; vm_compute; reflexivity. Qed.

Definition sample_attrs : list (Z * path_attr) :=
  [(64, Origin 0); (80, AsPath sample_path); (64, NextHop [192; 0; 2; 1]);
   (64, Empty ATTR_TYPE_ATOMIC_AGGREGATE); (192, Communities [(65001, 100); (65535, 65281)]);
   (192, LargeCommunities [(4200000000, 1, 2)]); (144, MpReach false (zeros 15 ++ [1]) sample_v6)].

Lemma sample_attrs_wf : Forall (wf_flagged sample_session) sample_attrs.
Proof.
  unfold sample_attrs. repeat apply Forall_cons_2; [..|constructor];
    (split; [split; [vm_compute; reflexivity|]|intros _; vm_compute; reflexivity]); cbn;
    repeat (split || constructor || apply sample_v6_wf); simpl; try lia; done.
Qed.

Definition sample_withdrawn : list nlri := [{| n_path := 0; n_len := 20; n_addr := [10; 1; 240] |}].
Definition sample_announced : list nlri :=
  [{| n_path := 0; n_len := 0; n_addr := [] |}; {| n_path := 0; n_len := 32; n_addr := [198; 51; 100; 7] |}].

Lemma sample_v4_wf : Forall (wf_nlri 32) sample_withdrawn ∧ Forall (wf_nlri 32) sample_announced.
Proof. unfold sample_withdrawn, sample_announced. split; repeat constructor; simpl; (reflexivity || lia). Qed.

Lemma parseUpdateMsg_roundtrip_witness :
  let m := enc_update sample_session sample_withdrawn sample_attrs sample_announced in
  let d := apply_attrs sample_session sample_attrs
             (set_withdrawn (dec_nlri true false <$> sample_withdrawn) no_update) in
  @parseUpdateMsg null_link_state (m ++ [1; 2; 3]) (Z.of_nat (length m)) add_path_peer no_update
  = Ok (Z.of_nat (length m), add_path_peer,
        set_advertised (advertised d ++ (dec_nlri true false <$> sample_announced)) d)
  ∧ attrs d !! ATTR_TYPE_COMMUNITIES = Some "65001:100 65535:65281"
  ∧ attrs d !! ATTR_TYPE_INTERNAL_AS_ORIGIN = Some "64513".
Proof.
  split; [|split; vm_compute; reflexivity].
  apply (@parseUpdateMsg_roundtrip null_link_state sample_session sample_withdrawn sample_attrs
           sample_announced [1; 2; 3] add_path_peer).
  - apply sample_session_ok.
  - apply sample_v4_wf.
  - apply sample_attrs_wf.
  - apply sample_v4_wf.
  - vm_compute. split; reflexivity.
Defined.

Lemma update_length_errors_witness :
  @parseUpdateMsg null_link_state (hton 2 9 ++ []) 6 new_peer_info no_update
  = Ok (0, new_peer_info, cleared no_update)
  ∧ @parseUpdateMsg null_link_state (hton 2 (Z.of_nat (length [8; 10])) ++ [8; 10] ++ hton 2 1 ++ []) 6
      new_peer_info no_update = Ok (0, new_peer_info, cleared no_update).
Proof.
  apply (@update_length_errors null_link_state 6 9 1 [8; 10] [] new_peer_info no_update); simpl; lia.
Defined.

Lemma atomic_aggregate_lost_witness :
  let atomic := (64, Empty ATTR_TYPE_ATOMIC_AGGREGATE) in
  @parseAttributes null_link_state (enc_attrs sample_session (atomic :: sample_attrs) ++ [])
    (Z.of_nat (length (enc_attrs sample_session (atomic :: sample_attrs)))) add_path_peer no_update
  = Ok (add_path_peer, apply_attrs sample_session sample_attrs no_update).
Proof.
  apply (@atomic_aggregate_lost null_link_state sample_session sample_attrs 64 [] add_path_peer no_update).
  - apply sample_session_ok.
  - apply sample_attrs_wf.
Defined.
