(* ===== verification/MsgBus.v ===== *)
(** * The message bus interface ([MsgBusInterface.hpp])

    The objects the parsers hand to a message bus, the action codes, and the
    interface itself as a type class: a bus is a state with one operation per
    virtual method.  [trace_bus] records the calls; [Redis.v] is the
    implementation that fills the SONiC state database. *)

From S2P Require Import Prelude Inet BgpCommon UpdateTypes.

(** ** Objects

    Text arrays are the C string they hold, except those that the BMP parser
    fills octet by octet, which are the octets.  A member without
    initialisation is an [option], [None] while it is indeterminate. *)

Record obj_router : Type := {
  ro_hash_id : list Z; ro_hash_type : Z; ro_name : list Z; ro_descr : list Z; ro_ip_addr : string;
  ro_bgp_id : string; ro_asn : Z; ro_term_reason_code : Z; ro_term_reason_text : string;
  ro_term_data : list Z; ro_initiate_data : list Z; ro_timestamp_secs : Z; ro_timestamp_us : Z }.

(** [bzero(&r_object, sizeof(r_object))] *)
Definition zero_router : obj_router :=
  {| ro_hash_id := zeros 16; ro_hash_type := 0; ro_name := zeros 255; ro_descr := zeros 255; ro_ip_addr := "";
     ro_bgp_id := ""; ro_asn := 0; ro_term_reason_code := 0; ro_term_reason_text := "";
     ro_term_data := zeros 4096; ro_initiate_data := zeros 4096; ro_timestamp_secs := 0; ro_timestamp_us := 0 |}.

Record obj_bgp_peer : Type := {
  pe_hash_id : list Z; pe_router_hash_id : list Z; pe_table_name : list Z;
  pe_rd : string; pe_addr : string; pe_bgp_id : string; pe_as : Z;
  pe_isL3VPN : bool; pe_isPrePolicy : bool; pe_isAdjIn : bool; pe_isLocRib : bool;
  pe_isLocRibFiltered : bool; pe_isIPv4 : bool; pe_isTwoOctet : bool;
  pe_timestamp_secs : Z; pe_timestamp_us : Z }.

Definition zero_peer : obj_bgp_peer :=
  {| pe_hash_id := zeros 16; pe_router_hash_id := zeros 16; pe_table_name := zeros 255; pe_rd := "";
     pe_addr := ""; pe_bgp_id := ""; pe_as := 0; pe_isL3VPN := false; pe_isPrePolicy := false;
     pe_isAdjIn := false; pe_isLocRib := false; pe_isLocRibFiltered := false; pe_isIPv4 := false;
     pe_isTwoOctet := false; pe_timestamp_secs := 0; pe_timestamp_us := 0 |}.

Record obj_peer_down_event : Type := {
  de_bmp_reason : Z; de_bgp_err_code : Z; de_bgp_err_subcode : Z; de_error_text : string }.

Definition zero_down_event : obj_peer_down_event :=
  {| de_bmp_reason := 0; de_bgp_err_code := 0; de_bgp_err_subcode := 0; de_error_text := "" |}.

Record obj_peer_up_event : Type := {
  ue_info_data : string; ue_local_ip : string; ue_local_port : Z; ue_local_asn : Z; ue_local_hold_time : Z;
  ue_local_bgp_id : string; ue_remote_asn : Z; ue_remote_port : Z; ue_remote_hold_time : Z;
  ue_remote_bgp_id : string; ue_sent_cap : string; ue_recv_cap : string }.

Definition zero_up_event : obj_peer_up_event :=
  {| ue_info_data := ""; ue_local_ip := ""; ue_local_port := 0; ue_local_asn := 0; ue_local_hold_time := 0;
     ue_local_bgp_id := ""; ue_remote_asn := 0; ue_remote_port := 0; ue_remote_hold_time := 0;
     ue_remote_bgp_id := ""; ue_sent_cap := ""; ue_recv_cap := "" |}.

(** The [std::string] members are constructed empty. *)
Record obj_path_attr : Type := {
  at_hash_id : option (list Z); at_origin : option string; at_as_path : string;
  at_as_path_count : option Z; at_origin_as : option Z; at_nexthop_isIPv4 : option bool;
  at_next_hop : option string; at_aggregator : option string; at_atomic_agg : option bool;
  at_med : option Z; at_local_pref : option Z; at_community_list : string;
  at_ext_community_list : string; at_large_community_list : string; at_cluster_list : string;
  at_originator_id : option string }.

Definition uninit_path_attr : obj_path_attr :=
  {| at_hash_id := None; at_origin := None; at_as_path := ""; at_as_path_count := None;
     at_origin_as := None; at_nexthop_isIPv4 := None; at_next_hop := None; at_aggregator := None;
     at_atomic_agg := None; at_med := None; at_local_pref := None; at_community_list := "";
     at_ext_community_list := ""; at_large_community_list := ""; at_cluster_list := "";
     at_originator_id := None |}.

(** [ri_prefix_bcast_bin] is filled octet by octet. *)
Record obj_rib : Type := {
  ri_path_attr_hash_id : option (list Z); ri_peer_hash_id : list Z; ri_isIPv4 : bool;
  ri_prefix : string; ri_prefix_len : Z; ri_prefix_bin : option (list Z);
  ri_prefix_bcast_bin : list (option Z); ri_path_id : Z; ri_labels : string }.

Record obj_vpn : Type := { vp_rib : obj_rib; vp_rd : rd_tuple }.

Record obj_evpn : Type := {
  eo_path_attr_hash_id : option (list Z); eo_peer_hash_id : list Z; eo_path_id : Z; eo_rd : rd_tuple;
  eo_originating_router_ip_len : Z; eo_originating_router_ip : string;
  eo_ethernet_segment_identifier : string; eo_ethernet_tag_id_hex : string; eo_mac_len : Z;
  eo_mac : string; eo_ip_len : Z; eo_ip : string; eo_mpls_label_1 : Z; eo_mpls_label_2 : Z }.

Record obj_stats_report : Type := {
  sr_prefixes_rej : Z; sr_known_dup_prefixes : Z; sr_known_dup_withdraws : Z;
  sr_invalid_cluster_list : Z; sr_invalid_as_path_loop : Z; sr_invalid_originator_id : Z;
  sr_invalid_as_confed_loop : Z; sr_routes_adj_rib_in : Z; sr_routes_loc_rib : Z }.

Definition zero_stats : obj_stats_report :=
  {| sr_prefixes_rej := 0; sr_known_dup_prefixes := 0; sr_known_dup_withdraws := 0;
     sr_invalid_cluster_list := 0; sr_invalid_as_path_loop := 0; sr_invalid_originator_id := 0;
     sr_invalid_as_confed_loop := 0; sr_routes_adj_rib_in := 0; sr_routes_loc_rib := 0 |}.

(** ** Action codes *)

Inductive router_action_code : Set := ROUTER_ACTION_FIRST | ROUTER_ACTION_INIT | ROUTER_ACTION_TERM.
Inductive peer_action_code : Set := PEER_ACTION_FIRST | PEER_ACTION_UP | PEER_ACTION_DOWN.
Inductive unicast_prefix_action_code : Set := UNICAST_PREFIX_ACTION_ADD | UNICAST_PREFIX_ACTION_DEL.
Inductive vpn_action_code : Set := VPN_ACTION_ADD | VPN_ACTION_DEL.
Inductive ls_action_code : Set := LS_ACTION_ADD | LS_ACTION_DEL.

(** ** The interface

    The methods take their objects by reference; an implementation may write
    the hash identifiers it computes into the router, peer and attribute.

    A method that throws a text leaves it in [thrown], with the state the exception
    left behind; until a handler catches it nothing else is called ([and_then]). *)
Class MsgBus (bus : Type) : Type := {
  update_Router : obj_router → router_action_code → bus → outcome (obj_router * bus);
  update_Peer : obj_bgp_peer → option obj_peer_up_event → option obj_peer_down_event →
    peer_action_code → bus → outcome (obj_bgp_peer * bus);
  update_baseAttribute : obj_bgp_peer → obj_path_attr → bus → outcome (obj_path_attr * bus);
  update_unicastPrefix : obj_bgp_peer → list obj_rib → option obj_path_attr →
    unicast_prefix_action_code → bus → outcome bus;
  update_L3Vpn : obj_bgp_peer → list obj_vpn → obj_path_attr → vpn_action_code → bus → outcome bus;
  update_eVPN : obj_bgp_peer → list obj_evpn → obj_path_attr → vpn_action_code → bus → outcome bus;
  update_LsNode : obj_bgp_peer → obj_path_attr → list obj_ls_node → ls_action_code → bus → outcome bus;
  update_LsLink : obj_bgp_peer → obj_path_attr → list obj_ls_link → ls_action_code → bus → outcome bus;
  update_LsPrefix : obj_bgp_peer → obj_path_attr → list obj_ls_prefix → ls_action_code → bus → outcome bus;
  add_StatReport : obj_bgp_peer → obj_stats_report → bus → outcome bus;
  send_bmp_raw : list Z → obj_bgp_peer → list Z → bus → outcome bus;
  (** the public member [ribSeq], [None] while it is indeterminate *)
  ribSeq : bus → option Z;
  (** the exception that is on its way, and its end *)
  thrown : bus → option string;
  caught : bus → bus }.

(** what follows a call, unless it threw *)
Definition and_then {bus : Type} {MB : MsgBus bus} (f : bus → outcome bus) (b : bus) : outcome bus :=
  match thrown b with Some _ => Ok b | None => f b end.

(** ** Calls *)

(** one call of the interface, whether it returns or throws; and the end of an
    exception *)
Inductive bus_op {bus : Type} (MB : MsgBus bus) : bus → bus → Prop :=
| op_Router r code r' s s' : update_Router r code s = Ok (r', s') → bus_op MB s s'
| op_Peer p u d code p' s s' : update_Peer p u d code s = Ok (p', s') → bus_op MB s s'
| op_baseAttribute p a a' s s' : update_baseAttribute p a s = Ok (a', s') → bus_op MB s s'
| op_unicastPrefix p l a code s s' : update_unicastPrefix p l a code s = Ok s' → bus_op MB s s'
| op_L3Vpn p l a code s s' : update_L3Vpn p l a code s = Ok s' → bus_op MB s s'
| op_eVPN p l a code s s' : update_eVPN p l a code s = Ok s' → bus_op MB s s'
| op_LsNode p a l code s s' : update_LsNode p a l code s = Ok s' → bus_op MB s s'
| op_LsLink p a l code s s' : update_LsLink p a l code s = Ok s' → bus_op MB s s'
| op_LsPrefix p a l code s s' : update_LsPrefix p a l code s = Ok s' → bus_op MB s s'
| op_StatReport p st s s' : add_StatReport p st s = Ok s' → bus_op MB s s'
| op_raw h p data s s' : send_bmp_raw h p data s = Ok s' → bus_op MB s s'
| op_caught s : bus_op MB s (caught s).

(** a call as the handlers make it: a withdrawal of prefixes has no attributes *)
Inductive handler_op {bus : Type} (MB : MsgBus bus) : bus → bus → Prop :=
| hop_Router r code r' s s' : update_Router r code s = Ok (r', s') → handler_op MB s s'
| hop_Peer p u d code p' s s' : update_Peer p u d code s = Ok (p', s') → handler_op MB s s'
| hop_baseAttribute p a a' s s' : update_baseAttribute p a s = Ok (a', s') → handler_op MB s s'
| hop_announce p l a s s' : update_unicastPrefix p l (Some a) UNICAST_PREFIX_ACTION_ADD s = Ok s' → handler_op MB s s'
| hop_withdraw p l s s' : update_unicastPrefix p l None UNICAST_PREFIX_ACTION_DEL s = Ok s' → handler_op MB s s'
| hop_L3Vpn p l a code s s' : update_L3Vpn p l a code s = Ok s' → handler_op MB s s'
| hop_eVPN p l a code s s' : update_eVPN p l a code s = Ok s' → handler_op MB s s'
| hop_LsNode p a l code s s' : update_LsNode p a l code s = Ok s' → handler_op MB s s'
| hop_LsLink p a l code s s' : update_LsLink p a l code s = Ok s' → handler_op MB s s'
| hop_LsPrefix p a l code s s' : update_LsPrefix p a l code s = Ok s' → handler_op MB s s'
| hop_StatReport p st s s' : add_StatReport p st s = Ok s' → handler_op MB s s'
| hop_raw h p data s s' : send_bmp_raw h p data s = Ok s' → handler_op MB s s'
| hop_caught s : handler_op MB s (caught s).

Lemma handler_bus_op {bus : Type} (MB : MsgBus bus) s s' : handler_op MB s s' → bus_op MB s s'.
Proof.
  destruct 1; [eapply op_Router|eapply op_Peer|eapply op_baseAttribute|eapply op_unicastPrefix|eapply op_unicastPrefix|eapply op_L3Vpn
    |eapply op_eVPN|eapply op_LsNode|eapply op_LsLink|eapply op_LsPrefix|eapply op_StatReport|eapply op_raw|eapply op_caught]; done.
Qed.

(** ** A bus that records the calls *)

Inductive bus_call : Type :=
| CallRouter (r : obj_router) (c : router_action_code)
| CallPeer (p : obj_bgp_peer) (u : option obj_peer_up_event) (d : option obj_peer_down_event)
    (c : peer_action_code)
| CallBaseAttribute (p : obj_bgp_peer) (a : obj_path_attr)
| CallUnicast (p : obj_bgp_peer) (l : list obj_rib) (a : option obj_path_attr)
    (c : unicast_prefix_action_code)
| CallL3Vpn (p : obj_bgp_peer) (l : list obj_vpn) (a : obj_path_attr) (c : vpn_action_code)
| CallEVPN (p : obj_bgp_peer) (l : list obj_evpn) (a : obj_path_attr) (c : vpn_action_code)
| CallLsNode (p : obj_bgp_peer) (a : obj_path_attr) (l : list obj_ls_node) (c : ls_action_code)
| CallLsLink (p : obj_bgp_peer) (a : obj_path_attr) (l : list obj_ls_link) (c : ls_action_code)
| CallLsPrefix (p : obj_bgp_peer) (a : obj_path_attr) (l : list obj_ls_prefix) (c : ls_action_code)
| CallStats (p : obj_bgp_peer) (s : obj_stats_report)
| CallRaw (h : list Z) (p : obj_bgp_peer) (data : list Z).

#[global] Instance trace_bus : MsgBus (list bus_call) := {|
  update_Router r c t := Ok (r, t ++ [CallRouter r c]);
  update_Peer p u d c t := Ok (p, t ++ [CallPeer p u d c]);
  update_baseAttribute p a t := Ok (a, t ++ [CallBaseAttribute p a]);
  update_unicastPrefix p l a c t := Ok (t ++ [CallUnicast p l a c]);
  update_L3Vpn p l a c t := Ok (t ++ [CallL3Vpn p l a c]);
  update_eVPN p l a c t := Ok (t ++ [CallEVPN p l a c]);
  update_LsNode p a l c t := Ok (t ++ [CallLsNode p a l c]);
  update_LsLink p a l c t := Ok (t ++ [CallLsLink p a l c]);
  update_LsPrefix p a l c t := Ok (t ++ [CallLsPrefix p a l c]);
  add_StatReport p s t := Ok (t ++ [CallStats p s]);
  send_bmp_raw h p d t := Ok (t ++ [CallRaw h p d]);
  ribSeq _ := Some 0;
  thrown _ := None;
  caught t := t |}.

(** [hash_toStr]: ["%02x"] of the 16 octets *)
Definition hash_toStr (hash_bin : list Z) : string :=
  String.concat "" ((λ b, setw 2 "0" (hex b)) <$> take 16 hash_bin).

Lemma hex2_length b : is_byte b → String.length (setw 2 "0" (hex b)) = 2%nat.
Proof.
  intros Hb. assert (Forall (λ x, String.length (setw 2 "0" (hex x)) = 2%nat) (seqZ 0 256)) as H
    by (apply (bool_decide_unpack _); vm_compute; done).
  rewrite Forall_forall in H. apply H. apply elem_of_seqZ. unfold is_byte in Hb. lia.
Qed.

Lemma concat_length_le k l : Forall (λ s, String.length s = k) l → String.length (String.concat "" l) = (k * length l)%nat.
Proof.
  induction 1 as [|s l Hs Hl IH]; [simpl; lia|]. destruct l as [|s' l]; cbn [String.concat length] in *; [lia|].
  rewrite !length_append, IH. simpl. lia.
Qed.

Lemma hash_toStr_length h : bytes_ok h → (String.length (hash_toStr h) ≤ 32)%nat.
Proof.
  intros Hh. unfold hash_toStr. rewrite (concat_length_le 2).
  - rewrite length_fmap, length_take. lia.
  - apply Forall_fmap, Forall_take. apply (Forall_impl _ _ _ Hh). apply hex2_length.
Qed.
