(* ===== verification/Md5Stream.v ===== *)
(** * Digests of files and streams ([md5.cpp], [md5.h])

    The updates and the constructors over a [FILE] and over input streams, which
    read pieces of 1024 octets into a buffer on the stack, and the digest as
    text.  A file or stream is the octets that are still to be read with the
    state flags of its library. *)

From S2P Require Import Prelude Inet MD5 BgpCommon MsgBus.

Import Md5 (md5, finalized, digest).

(** ** Sources of octets *)

(** a stdio file: what is left of it, and whether it is open *)
Record FILE : Type := { f_rest : list Z; f_open : bool }.

(** [fread(buffer, 1, 1024, file)] into the front of the buffer; it returns less
    than 1024 only at the end of the file *)
Definition fread (buffer : list Z) (f : FILE) : Z * list Z * FILE :=
  let data := take 1024 (f_rest f) in
  (Z.of_nat (length data), data ++ drop (length data) buffer, {| f_rest := drop 1024 (f_rest f); f_open := f_open f |}).

Definition fclose (f : FILE) : FILE := {| f_rest := f_rest f; f_open := false |}.

(** an [istream] with its state bits *)
Record istream : Type := { is_rest : list Z; is_eof : bool; is_fail : bool; is_gcount : Z }.

Definition good (s : istream) : bool := negb (is_eof s || is_fail s).

(** [stream.read(buffer, 1024)]: a read that does not fill the buffer sets the end
    and failure bits; a stream that is not good is not read *)
Definition stream_read (buffer : list Z) (s : istream) : list Z * istream :=
  if good s then
    let data := take 1024 (is_rest s) in
    let short := Z.of_nat (length data) <? 1024 in
    (data ++ drop (length data) buffer,
     {| is_rest := drop 1024 (is_rest s); is_eof := short; is_fail := short; is_gcount := Z.of_nat (length data) |})
  else (buffer, {| is_rest := is_rest s; is_eof := is_eof s; is_fail := true; is_gcount := 0 |}).

(** ** Updates *)

(** [while ((len = fread(buffer, 1, 1024, file)))] *)
Fixpoint file_loop (fuel : nat) (buffer : list Z) (f : FILE) (m : md5) : outcome (md5 * FILE) :=
  match fuel with
  | O => NoFuel
  | S fuel =>
      let '(len, buffer, f) := fread buffer f in
      if len =? 0 then Ok (m, f)
      else m ← Md5.update buffer len m; file_loop fuel buffer f m
  end.

(** [junk] is the uninitialised buffer; the file is closed at the end *)
Definition update_file (junk : list Z) (file : option FILE) (m : md5) : outcome (md5 * FILE) :=
  match file with
  | None => Undef NullDeref
  | Some f => '(m, f) ← file_loop (S (length (f_rest f))) junk f m; Ok (m, fclose f)
  end.

(** [while (stream.good())] *)
Fixpoint stream_loop (fuel : nat) (buffer : list Z) (s : istream) (m : md5) : outcome (md5 * istream) :=
  if good s then
    match fuel with
    | O => NoFuel
    | S fuel =>
        let '(buffer, s) := stream_read buffer s in
        m ← Md5.update buffer (is_gcount s) m;
        stream_loop fuel buffer s m
    end
  else Ok (m, s).

Definition update_istream (junk : list Z) (s : istream) (m : md5) : outcome (md5 * istream) :=
  stream_loop (S (length (is_rest s))) junk s m.

(** an [ifstream] has the same body; nothing closes it *)
Definition update_ifstream (junk : list Z) (s : istream) (m : md5) : outcome (md5 * istream) :=
  stream_loop (S (length (is_rest s))) junk s m.

(** ** Constructors *)

(** The members start with arbitrary contents, [junk64] and [junk16]. *)
Definition MD5_new (junk64 junk16 : list Z) : md5 := Md5.init junk64 junk16.

Definition MD5_file (junk64 junk16 junk : list Z) (file : option FILE) : outcome (md5 * FILE) :=
  '(m, f) ← update_file junk file (Md5.init junk64 junk16);
  m ← Md5.finalize m;
  Ok (m, f).

Definition MD5_istream (junk64 junk16 junk : list Z) (s : istream) : outcome (md5 * istream) :=
  '(m, s) ← update_istream junk s (Md5.init junk64 junk16);
  m ← Md5.finalize m;
  Ok (m, s).

Definition MD5_ifstream (junk64 junk16 junk : list Z) (s : istream) : outcome (md5 * istream) :=
  '(m, s) ← update_ifstream junk s (Md5.init junk64 junk16);
  m ← Md5.finalize m;
  Ok (m, s).

(** ** The digest as text *)

(** [for (i=0; i<16; i++) sprintf(s+i*2, "%02x", digest[i])] *)
Definition hex_digest (m : md5) : string :=
  if finalized m then foldr (λ b t, hex2 b +:+ t) "" (digest m) else "".

(** [stream << context], a copy of the context *)
Definition put_md5 (stream : string) (context : md5) : string := stream +:+ hex_digest context.

(** ** Correctness *)

(** one piece of a message enters the context *)
Lemma update_piece m x l extra :
  Md5.absorbed m x → bytes_ok l →
  ∃ x', Md5.update (take 1024 l ++ extra) (Z.of_nat (length (take 1024 l))) x = Ok x' ∧ Md5.absorbed (m ++ take 1024 l) x'.
Proof.
  intros Hx Hl. apply Md5.update_absorbed; [done|by apply Forall_take|]. rewrite length_take. lia.
Qed.

Lemma file_loop_absorbed fuel buffer f m x :
  (length (f_rest f) < fuel)%nat → bytes_ok (f_rest f) → Md5.absorbed m x →
  ∃ x', file_loop fuel buffer f x = Ok (x', {| f_rest := []; f_open := f_open f |}) ∧ Md5.absorbed (m ++ f_rest f) x'.
Proof.
  revert buffer f m x. induction fuel as [|fuel IH]; intros buffer f m x Hf Hb Hx; [lia|]. cbn [file_loop fread].
  destruct (decide (f_rest f = [])) as [E|E].
  { rewrite E. rewrite take_nil, drop_nil. cbn [length Z.of_nat Z.eqb]. exists x. by rewrite app_nil_r. }
  assert (0 < length (f_rest f))%nat by (destruct (f_rest f); [done|cbn; lia]).
  rewrite (proj2 (Z.eqb_neq _ _)) by (rewrite length_take; lia).
  destruct (update_piece m x (f_rest f) (drop (length (take 1024 (f_rest f))) buffer)) as (x1 & -> & H1); [done..|].
  rewrite bind_Ok_l. destruct (IH (take 1024 (f_rest f) ++ drop (length (take 1024 (f_rest f))) buffer)
    {| f_rest := drop 1024 (f_rest f); f_open := f_open f |} (m ++ take 1024 (f_rest f)) x1) as (x2 & -> & H2).
  { cbn [f_rest]. rewrite length_drop. lia. }
  { by apply Forall_drop. }
  { done. }
  exists x2. split; [done|]. cbn [f_rest] in H2. by rewrite <-app_assoc, take_drop in H2.
Qed.

(** what a stream that was read to its end looks like *)
Lemma stream_loop_absorbed fuel buffer s m x :
  good s = true → (length (is_rest s) < fuel)%nat → bytes_ok (is_rest s) → Md5.absorbed m x →
  ∃ x' s', stream_loop fuel buffer s x = Ok (x', s') ∧ Md5.absorbed (m ++ is_rest s) x' ∧ is_rest s' = [] ∧ is_eof s' = true.
Proof.
  revert buffer s m x. induction fuel as [|fuel IH]; intros buffer s m x Hg Hf Hb Hx; [lia|].
  cbn [stream_loop]. unfold stream_read. rewrite Hg. cbn [is_gcount].
  destruct (update_piece m x (is_rest s) (drop (length (take 1024 (is_rest s))) buffer)) as (x1 & -> & H1); [done..|].
  rewrite bind_Ok_l. set (piece := take 1024 (is_rest s)) in *.
  assert (is_rest s = piece ++ drop 1024 (is_rest s)) as Er by (symmetry; apply take_drop).
  destruct (Z.ltb_spec (Z.of_nat (length piece)) 1024) as [Hs|Hs].
  - assert (drop 1024 (is_rest s) = []) as Ed by (apply drop_ge; subst piece; rewrite length_take in Hs; lia).
    rewrite Ed, app_nil_r in Er. eexists x1, _. rewrite Ed. split; [by destruct fuel|]. rewrite Er. by split_and!.
  - destruct (IH (piece ++ drop (length piece) buffer)
      {| is_rest := drop 1024 (is_rest s); is_eof := false; is_fail := false; is_gcount := Z.of_nat (length piece) |}
      (m ++ piece) x1) as (x2 & s2 & -> & H2 & H3 & H4); [done| |by apply Forall_drop|done|].
    { cbn [is_rest]. subst piece. rewrite length_take, length_drop in *. lia. }
    exists x2, s2. cbn [is_rest] in H2. rewrite <-app_assoc, <-Er in H2. by split_and!.
Qed.

(** Digest of a file.  Read in pieces of 1024 octets, whatever the buffers hold
    before, the constructor over a [FILE] terminates with the digest of RFC 1321 of
    the contents, and closes the file. *)
Theorem md5_of_file (junk64 junk16 junk contents : list Z) :
  length junk64 = 64%nat → bytes_ok contents →
  ∃ m f, MD5_file junk64 junk16 junk (Some {| f_rest := contents; f_open := true |}) = Ok (m, f)
    ∧ finalized m = true ∧ Md5.raw_digest m = Md5.md5_rfc contents ∧ f_open f = false.
Proof.
  intros Hj Hb. unfold MD5_file, update_file. cbn [f_rest].
  destruct (file_loop_absorbed (S (length contents)) junk {| f_rest := contents; f_open := true |} []
    (Md5.init junk64 junk16)) as (x & -> & Hx); [cbn [f_rest]; lia|done|by apply Md5.absorbed_init|].
  rewrite !bind_Ok_l. cbn [app f_rest] in Hx. destruct (Md5.finalize_absorbed _ _ Hx) as (x' & -> & Hf & Hd).
  rewrite bind_Ok_l. eexists x', _. unfold Md5.raw_digest. rewrite Hf. by split_and!.
Qed.

(** Digest of a stream.  A stream that is good is read to its end, and its digest
    is that of its contents; one that could not be opened silently has the digest
    of the empty message. *)
Theorem md5_of_stream (junk64 junk16 junk contents : list Z) (failed : bool) :
  length junk64 = 64%nat → bytes_ok contents →
  ∃ m s, MD5_istream junk64 junk16 junk {| is_rest := contents; is_eof := false; is_fail := failed; is_gcount := 0 |} = Ok (m, s)
    ∧ finalized m = true ∧ Md5.raw_digest m = Md5.md5_rfc (if failed then [] else contents).
Proof.
  intros Hj Hb. unfold MD5_istream, update_istream. cbn [is_rest].
  assert (∃ x s, stream_loop (S (length contents)) junk
      {| is_rest := contents; is_eof := false; is_fail := failed; is_gcount := 0 |} (Md5.init junk64 junk16) = Ok (x, s)
    ∧ Md5.absorbed (if failed then [] else contents) x) as (x & s & -> & Hx).
  { pose proof (Md5.absorbed_init junk64 junk16 Hj) as Hi. destruct failed; [by eexists _, _|].
    destruct (stream_loop_absorbed (S (length contents)) junk
      {| is_rest := contents; is_eof := false; is_fail := false; is_gcount := 0 |} []
      (Md5.init junk64 junk16) eq_refl) as (x & s & E & Hx & _);
      [cbn [is_rest]; lia|done..|]. by exists x, s. }
  rewrite bind_Ok_l. destruct (Md5.finalize_absorbed _ _ Hx) as (x' & -> & Hf & Hd).
  rewrite bind_Ok_l. eexists x', _. unfold Md5.raw_digest. rewrite Hf. by split_and!.
Qed.


(** two hexadecimal digits, read back *)
Fixpoint unhex (s : string) : option (list Z) :=
  match s with
  | "" => Some []
  | String c1 (String c2 s) =>
      h ← hex_value c1; l ← hex_value c2; bs ← unhex s; Some (16 * h + l :: bs)
  | _ => None
  end.

Lemma unhex_hex2 b s : is_byte b → unhex (hex2 b +:+ s) = bs ← unhex s; Some (b :: bs).
Proof.
  intros Hb. assert (Forall (λ x, hex2 x = String (hexdigit (x / 16)) (String (hexdigit (x mod 16)) "")) (seqZ 0 256)) as H
    by (apply (bool_decide_unpack _); vm_compute; done).
  rewrite Forall_forall in H. rewrite H by (apply elem_of_seqZ; unfold is_byte in Hb; lia).
  rewrite !append_cons, append_nil_l. cbn [unhex]. unfold is_byte in Hb. pose proof (Z.mod_pos_bound b 16 ltac:(lia)).
  rewrite !hex_value_digit by (done || (split; [apply Z.div_pos; lia|apply Z.div_lt_upper_bound; lia])).
  cbn. destruct (unhex s); [|done]. cbn. do 2 f_equal. pose proof (Z.div_mod b 16). lia.
Qed.

Lemma concat_hex l : String.concat "" (hex2 <$> l) = foldr (λ b t, hex2 b +:+ t) "" l.
Proof.
  induction l as [|b l IH]; [done|]. cbn [fmap list_fmap foldr]. rewrite <-IH.
  destruct (hex2 <$> l); cbn [String.concat]; [by rewrite string_app_nil_r|done].
Qed.

(** The digest as text.  It is the text the message bus prints for the octets of
    the digest, and reading its digits back gives these octets; of a context that is
    not finalized it is empty. *)
Theorem hex_digest_text (m : md5) :
  bytes_ok (digest m) → length (digest m) = 16%nat →
  hex_digest m = (if finalized m then hash_toStr (Md5.raw_digest m) else "")
  ∧ (finalized m = true → unhex (hex_digest m) = Some (Md5.raw_digest m) ∧ String.length (hex_digest m) = 32%nat).
Proof.
  intros Hb Hl. unfold hex_digest, Md5.raw_digest. destruct (finalized m); [|done].
  assert (foldr (λ b t, hex2 b +:+ t) "" (digest m) = hash_toStr (digest m)) as E
    by (unfold hash_toStr; rewrite take_ge by lia; by rewrite <-concat_hex).
  split; [done|]. intros _. split.
  - clear E Hl. induction Hb as [|b l Hb _ IH]; [done|]. cbn [foldr]. by rewrite unhex_hex2, IH.
  - rewrite E. unfold hash_toStr. rewrite (concat_length_le 2); [rewrite length_fmap, take_ge; lia|].
    apply Forall_fmap, Forall_take. apply (Forall_impl _ _ _ Hb). apply hex2_length.
Qed.

(** the digests of files and streams have the octets [hex_digest_text] asks for *)
Lemma md5_rfc_bytes l : bytes_ok (Md5.md5_rfc l).
Proof.
  unfold Md5.md5_rfc, Md5.regs_list. cbn [fmap list_fmap concat]. rewrite !Forall_app.
  split_and!; auto with bmp.
Qed.

(** A finalized context is final: later updates, from any source, and another
    finalization leave the digest as it is. *)
Theorem finalized_is_final (m : md5) (input junk : list Z) (n : Z) (f : FILE) :
  finalized m = true →
  Md5.update input n m = Ok m ∧ Md5.finalize m = Ok m
  ∧ update_file junk (Some f) m = Ok (m, {| f_rest := []; f_open := false |}).
Proof.
  intros Hm. assert (∀ p k, Md5.update p k m = Ok m) as Hu by (intros; unfold Md5.update; by rewrite Hm).
  split_and!; [done|unfold Md5.finalize; by rewrite Hm|]. unfold update_file.
  assert (∀ fuel buffer f, (length (f_rest f) < fuel)%nat →
    file_loop fuel buffer f m = Ok (m, {| f_rest := []; f_open := f_open f |})) as Hl.
  2: { rewrite Hl by lia. done. }
  induction fuel as [|fuel IH]; intros buffer g Hg; [lia|]. cbn [file_loop fread].
  zif.
  - assert (f_rest g = []) as -> by (destruct (f_rest g); [done|rewrite length_take in *; cbn [length] in *; lia]). by rewrite drop_nil.
  - rewrite Hu, bind_Ok_l, IH; [done|]. cbn [f_rest]. rewrite length_take, length_drop in *. lia.
Qed.

(** three sources of the message [abc], and its text *)
Example digest_of_sources :
  let abc := bytes_of_string "abc" in
  (match MD5_file (zeros 64) [] (zeros 1024) (Some {| f_rest := abc; f_open := true |}) with
   | Ok (m, _) => hex_digest m | _ => "" end) = "900150983cd24fb0d6963f7d28e17f72"
  ∧ (match MD5_ifstream (zeros 64) [] [] {| is_rest := abc; is_eof := false; is_fail := false; is_gcount := 0 |} with
     | Ok (m, _) => put_md5 "md5: " m | _ => "" end) = "md5: 900150983cd24fb0d6963f7d28e17f72"
  ∧ hex_digest (MD5_new (zeros 64) []) = "".
Proof. by vm_compute. Qed.
