(* ===== verification/LsMerge.v ===== *)
(** * Link-state updates ([parseBGP::UpdateDbBgpLs] of [bgp/parseBGP.cpp])

    The attributes of a BGP-LS UPDATE are kept in a map from the attribute
    type to an array of 255 octets; before the parsed nodes, links and prefixes
    go to the message bus, each of them receives the values the map holds. *)

From S2P Require Import Prelude Inet BgpCommon UpdateTypes LinkStateNlri LinkStateAttr MsgBus.

(** ** Members that are overwritten when the map has the attribute *)

Section merge.
Context (m : ls_attrs_map).

(** a [char] array of [n] octets *)
Definition text_or (t : Z) (n : nat) (old : string) : string :=
  match m !! t with Some a => cstr (take n a) | None => old end.
(** the first [n] octets of an octet array *)
Definition octets_or (t : Z) (n : nat) (old : list Z) : list Z :=
  match m !! t with Some a => take n a ++ drop n old | None => old end.
(** an integer of [n] octets, copied in host order *)
Definition int_or (t : Z) (n : nat) (old : Z) : Z :=
  match m !! t with Some a => le_val (take n a) | None => old end.

Definition has (t : Z) : bool := bool_decide (is_Some (m !! t)).

Definition merge_node (x : obj_ls_node) : obj_ls_node :=
  {| ln_id := ln_id x;
     ln_isIPv4 := if has ATTR_NODE_IPV6_ROUTER_ID_LOCAL then false else ln_isIPv4 x;
     ln_asn := ln_asn x; ln_bgp_ls_id := ln_bgp_ls_id x; ln_igp_router_id := ln_igp_router_id x;
     ln_ospf_area_Id := ln_ospf_area_Id x; ln_protocol := ln_protocol x;
     ln_router_id := octets_or ATTR_NODE_IPV6_ROUTER_ID_LOCAL 16
                       (octets_or ATTR_NODE_IPV4_ROUTER_ID_LOCAL 4 (ln_router_id x));
     ln_isis_area_id := octets_or ATTR_NODE_ISIS_AREA_ID 9 (ln_isis_area_id x);
     ln_flags := text_or ATTR_NODE_FLAG 32 (ln_flags x);
     ln_name := text_or ATTR_NODE_NAME 255 (ln_name x);
     ln_mt_id := text_or ATTR_NODE_MT_ID 255 (ln_mt_id x);
     ln_sr_capabilities_tlv := text_or ATTR_NODE_SR_CAPABILITIES 255 (ln_sr_capabilities_tlv x);
     ln_hash_id := ln_hash_id x |}.

(** The router identifier: the IPv6 one for an IPv6 object when the map has it,
    else the IPv4 one, which makes the object an IPv4 one. *)
Definition router_id_or (v4 : bool) (old : list Z) : list Z * bool :=
  if negb v4 && has ATTR_NODE_IPV6_ROUTER_ID_LOCAL
  then (octets_or ATTR_NODE_IPV6_ROUTER_ID_LOCAL 16 old, v4)
  else if has ATTR_NODE_IPV4_ROUTER_ID_LOCAL
  then (octets_or ATTR_NODE_IPV4_ROUTER_ID_LOCAL 4 old, true)
  else (old, v4).

Definition remote_router_id_or (v4 : bool) (old : list Z) : list Z :=
  if negb v4 && has ATTR_LINK_IPV6_ROUTER_ID_REMOTE
  then octets_or ATTR_LINK_IPV6_ROUTER_ID_REMOTE 16 old
  else octets_or ATTR_LINK_IPV4_ROUTER_ID_REMOTE 4 old.

Definition merge_link (x : obj_ls_link) : obj_ls_link :=
  let (rid, v4) := router_id_or (lk_isIPv4 x) (lk_router_id x) in
  {| lk_id := lk_id x; lk_mt_id := lk_mt_id x; lk_bgp_ls_id := lk_bgp_ls_id x;
     lk_igp_router_id := lk_igp_router_id x; lk_remote_igp_router_id := lk_remote_igp_router_id x;
     lk_ospf_area_Id := lk_ospf_area_Id x; lk_router_id := rid;
     lk_remote_router_id := remote_router_id_or v4 (lk_remote_router_id x);
     lk_local_node_asn := lk_local_node_asn x; lk_remote_node_asn := lk_remote_node_asn x;
     lk_local_bgp_router_id := lk_local_bgp_router_id x; lk_remote_bgp_router_id := lk_remote_bgp_router_id x;
     lk_isis_area_id := octets_or ATTR_NODE_ISIS_AREA_ID 9 (lk_isis_area_id x);
     lk_protocol := lk_protocol x; lk_intf_addr := lk_intf_addr x; lk_nei_addr := lk_nei_addr x;
     lk_local_link_id := lk_local_link_id x; lk_remote_link_id := lk_remote_link_id x; lk_isIPv4 := v4;
     lk_local_node_hash_id := lk_local_node_hash_id x; lk_remote_node_hash_id := lk_remote_node_hash_id x;
     lk_hash_id := lk_hash_id x;
     lk_admin_group := int_or ATTR_LINK_ADMIN_GROUP 4 (lk_admin_group x);
     lk_max_link_bw := int_or ATTR_LINK_MAX_LINK_BW 4 (lk_max_link_bw x);
     lk_max_resv_bw := int_or ATTR_LINK_MAX_RESV_BW 4 (lk_max_resv_bw x);
     lk_unreserved_bw := text_or ATTR_LINK_UNRESV_BW 100 (lk_unreserved_bw x);
     lk_te_def_metric := int_or ATTR_LINK_TE_DEF_METRIC 4 (lk_te_def_metric x);
     lk_protection_type := text_or ATTR_LINK_PROTECTION_TYPE 60 (lk_protection_type x);
     lk_mpls_proto_mask := text_or ATTR_LINK_MPLS_PROTO_MASK 32 (lk_mpls_proto_mask x);
     lk_igp_metric := int_or ATTR_LINK_IGP_METRIC 4 (lk_igp_metric x);
     lk_srlg := text_or ATTR_LINK_SRLG 128 (lk_srlg x);
     lk_name := text_or ATTR_LINK_NAME 255 (lk_name x);
     lk_peer_node_sid := text_or ATTR_LINK_PEER_EPE_NODE_SID 128 (lk_peer_node_sid x);
     lk_peer_adj_sid := text_or ATTR_LINK_ADJACENCY_SID 128 (lk_peer_adj_sid x) |}.

Definition merge_prefix (x : obj_ls_prefix) : obj_ls_prefix :=
  let (rid, v4) := router_id_or (lp_isIPv4 x) (lp_router_id x) in
  {| lp_id := lp_id x; lp_protocol := lp_protocol x; lp_bgp_ls_id := lp_bgp_ls_id x;
     lp_igp_router_id := lp_igp_router_id x; lp_ospf_area_Id := lp_ospf_area_Id x; lp_router_id := rid;
     lp_isis_area_id := octets_or ATTR_NODE_ISIS_AREA_ID 9 (lp_isis_area_id x);
     lp_intf_addr := lp_intf_addr x; lp_nei_addr := lp_nei_addr x;
     lp_local_node_hash_id := lp_local_node_hash_id x; lp_hash_id := lp_hash_id x; lp_mt_id := lp_mt_id x;
     lp_metric := int_or ATTR_PREFIX_PREFIX_METRIC 4 (lp_metric x); lp_isIPv4 := v4;
     lp_prefix_len := lp_prefix_len x; lp_ospf_route_type := lp_ospf_route_type x;
     lp_prefix_bin := lp_prefix_bin x; lp_prefix_bcast_bin := lp_prefix_bcast_bin x;
     lp_igp_flags := text_or ATTR_PREFIX_IGP_FLAGS 32 (lp_igp_flags x);
     lp_route_tag := int_or ATTR_PREFIX_ROUTE_TAG 4 (lp_route_tag x);
     lp_ext_route_tag := int_or ATTR_PREFIX_EXTEND_TAG 8 (lp_ext_route_tag x);
     lp_ospf_fwd_addr := octets_or ATTR_PREFIX_OSPF_FWD_ADDR 16 (lp_ospf_fwd_addr x);
     lp_sid_tlv := text_or ATTR_PREFIX_SID 128 (lp_sid_tlv x) |}.
End merge.

(** ** [UpdateDbBgpLs]

    [ls_data] is passed by value, [ls_attrs] by reference: the caller's map is
    empty afterwards. *)
Section update.
Context {bus : Type} {MB : MsgBus bus}.

Definition ls_code (remove : bool) : ls_action_code := if remove then LS_ACTION_DEL else LS_ACTION_ADD.

Definition UpdateDbBgpLs (remove : bool) (p_entry : obj_bgp_peer) (base_attr : obj_path_attr)
    (ls_data : parsed_data_ls) (m : ls_attrs_map) (b : bus) : outcome (ls_attrs_map * bus) :=
  b ← (match nodes ls_data with
       | [] => Ok b
       | l => update_LsNode p_entry base_attr (merge_node m <$> l) (ls_code remove) b
       end);
  b ← and_then (λ b, match links ls_data with
                     | [] => Ok b
                     | l => update_LsLink p_entry base_attr (merge_link m <$> l) (ls_code remove) b
                     end) b;
  b ← and_then (λ b, match prefixes ls_data with
                     | [] => Ok b
                     | l => update_LsPrefix p_entry base_attr (merge_prefix m <$> l) (ls_code remove) b
                     end) b;
  Ok (∅, b).
End update.

(** ** Attributes of an UPDATE in its objects *)

(** texts without a terminator inside *)
Definition no_nul (c : Ascii.ascii) : bool := negb (Ascii.eqb c Ascii.zero).

Lemma no_nul_bytes s : str_all no_nul s = true → Forall (λ b, b ≠ 0) (bytes_of_string s).
Proof.
  unfold bytes_of_string. induction s as [|c s IH]; [constructor|]. cbn. intros H. apply andb_prop in H as [Hc Hs].
  constructor; [|by apply IH]. intros E. unfold byte_of_ascii in E.
  assert (Ascii.N_of_ascii c = 0%N) as E' by lia. rewrite <-(Ascii.ascii_N_embedding c), E' in Hc. done.
Qed.

Lemma dec_no_nul v : 0 ≤ v → str_all no_nul (dec v) = true.
Proof.
  intros Hv. eapply str_all_impl; [|by apply dec_digits]. intros c Hc. unfold no_nul.
  destruct (Ascii.eqb_spec c Ascii.zero) as [->|]; done.
Qed.

Lemma join_no_nul l : Forall (λ v, 0 ≤ v < 65536) l → str_all no_nul (join ", " (dec <$> l)) = true.
Proof.
  induction 1 as [|v l Hv _ IH]; [done|]. destruct l as [|w l]; cbn [fmap list_fmap join] in *;
    [apply dec_no_nul; lia|]. rewrite !str_all_app, IH, dec_no_nul by lia. done.
Qed.

Lemma flag_names_no_nul b i l : Forall (λ s, str_all no_nul s = true) l → str_all no_nul (flag_names b i l) = true.
Proof.
  intros H. revert i. induction H as [|s l Hs _ IH]; intros i; [done|]. cbn [flag_names].
  rewrite str_all_app, IH. destruct (Z.testbit b (7 - i)); [by rewrite Hs|done].
Qed.

Lemma fresh_array_text n bs : Forall (λ b, b ≠ 0) bs → (length bs < n ≤ 255)%nat → cstr (take n (fresh_array bs)) = text bs.
Proof.
  intros Hb Hl. unfold fresh_array, zeros. rewrite take_app_ge, take_replicate, Nat.min_l by lia.
  destruct (n - length bs)%nat as [|k] eqn:E; [lia|]. by apply cstr_text.
Qed.

Lemma fresh_array_int v : 0 ≤ v < 2 ^ 32 → le_val (take 4 (fresh_array (le_bytes 4 v))) = v.
Proof.
  intros Hv. unfold fresh_array. rewrite take_app_le, take_ge by (rewrite length_le_bytes; lia).
  rewrite le_val_le_bytes. by apply Z.mod_small.
Qed.

Lemma metric_bound n v : metric_ok n v → 0 ≤ v < 2 ^ 32.
Proof. intros [Hn Hv]. pose proof (Z.pow_le_mono_r 256 (Z.of_nat n) 4). change (2 ^ 32) with (256 ^ 4). lia. Qed.

(** *** The objects that are meant *)

(** the first value among the attributes *)
Definition sent {A : Type} (f : ls_attr → option A) (l : list ls_attr) : option A := head (omap f l).

Definition sent_flags := sent (λ a, match a with LA_NodeFlags b => Some b | _ => None end).
Definition sent_node_name := sent (λ a, match a with LA_NodeName bs => Some bs | _ => None end).
Definition sent_link_name := sent (λ a, match a with LA_LinkName bs => Some bs | _ => None end).
Definition sent_area := sent (λ a, match a with LA_Area bs => Some bs | _ => None end).
Definition sent_router (remote v4 : bool) :=
  sent (λ a, match a with LA_RouterId r v bs => if Bool.eqb r remote && Bool.eqb v v4 then Some bs else None | _ => None end).
Definition sent_admin := sent (λ a, match a with LA_Admin v => Some v | _ => None end).
Definition sent_igp := sent (λ a, match a with LA_Igp _ v => Some v | _ => None end).
Definition sent_te := sent (λ a, match a with LA_Te _ v => Some v | _ => None end).
Definition sent_metric := sent (λ a, match a with LA_Metric _ v => Some v | _ => None end).
Definition sent_tag := sent (λ a, match a with LA_Tag v => Some v | _ => None end).
Definition sent_bw (reserved : bool) := sent (λ a, match a with LA_Bw r b => if Bool.eqb r reserved then Some b else None | _ => None end).
Definition sent_mt_ids := sent (λ a, match a with LA_MtIds ids => Some ids | _ => None end).

Definition area_meant (bs : list Z) : list Z := bs ++ zeros (8 - length bs) ++ [Z.of_nat (length bs)].
Definition area_or (l : list ls_attr) (old : list Z) : list Z := from_option area_meant old (sent_area l).
(** an IPv4 identifier takes the first four octets of the member *)
Definition v4_or (id : option (list Z)) (old : list Z) : list Z := from_option (λ bs, bs ++ drop 4 old) old id.

(** a node shows the IPv6 identifier when there is one *)
Definition node_meant (l : list ls_attr) (x : obj_ls_node) : obj_ls_node :=
  {| ln_id := ln_id x; ln_isIPv4 := match sent_router false false l with Some _ => false | None => ln_isIPv4 x end;
     ln_asn := ln_asn x; ln_bgp_ls_id := ln_bgp_ls_id x; ln_igp_router_id := ln_igp_router_id x;
     ln_ospf_area_Id := ln_ospf_area_Id x; ln_protocol := ln_protocol x;
     ln_router_id := match sent_router false false l with
                     | Some bs => bs
                     | None => v4_or (sent_router false true l) (ln_router_id x)
                     end;
     ln_isis_area_id := area_or l (ln_isis_area_id x);
     ln_flags := from_option (λ b, flag_names b 0 LS_FLAGS_NODE_NLRI) (ln_flags x) (sent_flags l);
     ln_name := from_option text (ln_name x) (sent_node_name l);
     ln_mt_id := from_option (λ ids, join ", " (dec <$> ids)) (ln_mt_id x) (sent_mt_ids l);
     ln_sr_capabilities_tlv := ln_sr_capabilities_tlv x; ln_hash_id := ln_hash_id x |}.

(** links and prefixes show the IPv6 identifier when they are IPv6 objects, else the
    IPv4 one, which makes them IPv4 objects *)
Definition router_meant (l : list ls_attr) (v4 : bool) (old : list Z) : list Z * bool :=
  match v4, sent_router false false l, sent_router false true l with
  | false, Some bs, _ => (bs, false)
  | _, _, Some bs => (bs ++ drop 4 old, true)
  | _, _, None => (old, v4)
  end.
Definition remote_meant (l : list ls_attr) (v4 : bool) (old : list Z) : list Z :=
  match v4, sent_router true false l with
  | false, Some bs => bs
  | _, _ => v4_or (sent_router true true l) old
  end.

Definition link_meant (l : list ls_attr) (x : obj_ls_link) : obj_ls_link :=
  let (rid, v4) := router_meant l (lk_isIPv4 x) (lk_router_id x) in
  {| lk_id := lk_id x; lk_mt_id := lk_mt_id x; lk_bgp_ls_id := lk_bgp_ls_id x;
     lk_igp_router_id := lk_igp_router_id x; lk_remote_igp_router_id := lk_remote_igp_router_id x;
     lk_ospf_area_Id := lk_ospf_area_Id x; lk_router_id := rid;
     lk_remote_router_id := remote_meant l v4 (lk_remote_router_id x);
     lk_local_node_asn := lk_local_node_asn x; lk_remote_node_asn := lk_remote_node_asn x;
     lk_local_bgp_router_id := lk_local_bgp_router_id x; lk_remote_bgp_router_id := lk_remote_bgp_router_id x;
     lk_isis_area_id := area_or l (lk_isis_area_id x);
     lk_protocol := lk_protocol x; lk_intf_addr := lk_intf_addr x; lk_nei_addr := lk_nei_addr x;
     lk_local_link_id := lk_local_link_id x; lk_remote_link_id := lk_remote_link_id x; lk_isIPv4 := v4;
     lk_local_node_hash_id := lk_local_node_hash_id x; lk_remote_node_hash_id := lk_remote_node_hash_id x;
     lk_hash_id := lk_hash_id x;
     lk_admin_group := default (lk_admin_group x) (sent_admin l);
     lk_max_link_bw := from_option bw_kbps (lk_max_link_bw x) (sent_bw false l);
     lk_max_resv_bw := from_option bw_kbps (lk_max_resv_bw x) (sent_bw true l);
     lk_unreserved_bw := lk_unreserved_bw x;
     lk_te_def_metric := default (lk_te_def_metric x) (sent_te l);
     lk_protection_type := lk_protection_type x; lk_mpls_proto_mask := lk_mpls_proto_mask x;
     lk_igp_metric := default (lk_igp_metric x) (sent_igp l);
     lk_srlg := lk_srlg x; lk_name := from_option text (lk_name x) (sent_link_name l);
     lk_peer_node_sid := lk_peer_node_sid x; lk_peer_adj_sid := lk_peer_adj_sid x |}.

Definition prefix_meant (l : list ls_attr) (x : obj_ls_prefix) : obj_ls_prefix :=
  let (rid, v4) := router_meant l (lp_isIPv4 x) (lp_router_id x) in
  {| lp_id := lp_id x; lp_protocol := lp_protocol x; lp_bgp_ls_id := lp_bgp_ls_id x;
     lp_igp_router_id := lp_igp_router_id x; lp_ospf_area_Id := lp_ospf_area_Id x; lp_router_id := rid;
     lp_isis_area_id := area_or l (lp_isis_area_id x);
     lp_intf_addr := lp_intf_addr x; lp_nei_addr := lp_nei_addr x;
     lp_local_node_hash_id := lp_local_node_hash_id x; lp_hash_id := lp_hash_id x; lp_mt_id := lp_mt_id x;
     lp_metric := default (lp_metric x) (sent_metric l); lp_isIPv4 := v4;
     lp_prefix_len := lp_prefix_len x; lp_ospf_route_type := lp_ospf_route_type x;
     lp_prefix_bin := lp_prefix_bin x; lp_prefix_bcast_bin := lp_prefix_bcast_bin x;
     lp_igp_flags := lp_igp_flags x; lp_route_tag := default (lp_route_tag x) (sent_tag l);
     lp_ext_route_tag := lp_ext_route_tag x; lp_ospf_fwd_addr := lp_ospf_fwd_addr x; lp_sid_tlv := lp_sid_tlv x |}.

Lemma bw_bound b : 0 ≤ bw_kbps b < 2 ^ 32.
Proof. unfold bw_kbps, u32. apply Z.mod_pos_bound. lia. Qed.

(** the array of a type, from the attribute that was sent *)
Definition content_of (t : Z) (a : ls_attr) : option (list Z) := if attr_type a =? t then attr_content a else None.

Lemma sent_cases {A} (f : ls_attr → option A) l :
  (sent f l = None ∧ ∀ a, a ∈ l → f a = None) ∨ ∃ a v, a ∈ l ∧ f a = Some v ∧ sent f l = Some v.
Proof.
  unfold sent. induction l as [|a l IH]; [left; split; [done|by intros ? ?%elem_of_nil]|]. cbn [omap list_omap].
  destruct (f a) as [v|] eqn:E; [right; exists a, v; set_solver|].
  destruct IH as [[-> H]|(b & v & ? & ? & ->)]; [left; set_solver|right; exists b, v; set_solver].
Qed.

Lemma effects_sent {A} (t : Z) (f : ls_attr → option A) (enc : A → list Z) l :
  NoDup (attr_type <$> l) → Forall (λ a, content_of t a = enc <$> f a) l →
  foldl attr_effect ∅ l !! t = fresh_array ∘ enc <$> sent f l.
Proof.
  intros Hnd Hl. rewrite Forall_forall in Hl. destruct (sent_cases f l) as [[-> Hn]|(a & v & Ha & Hf & ->)].
  - assert (∀ m : ls_attrs_map, m !! t = None → foldl attr_effect m l !! t = None) as H; [|by apply H].
    clear Hnd. induction l as [|a l IH]; intros m Hm; [done|]. cbn [foldl]. apply IH; [set_solver..|].
    specialize (Hl a ltac:(set_solver)). rewrite (Hn a) in Hl by set_solver. unfold content_of in Hl. unfold attr_effect.
    destruct (attr_content a); [|done]. destruct (Z.eqb_spec (attr_type a) t); [done|]. by rewrite lookup_insert_ne.
  - specialize (Hl a Ha). unfold content_of in Hl. destruct (Z.eqb_spec (attr_type a) t) as [<-|]; [|by rewrite Hf in Hl].
    rewrite Hf in Hl. by erewrite attr_effects_lookup.
Qed.

(** types that no attribute of the list has *)
Lemma effects_unsent (t : Z) l : Forall (λ a, content_of t a = None) l → foldl attr_effect ∅ l !! t = None.
Proof.
  intros Hl. assert (∀ m : ls_attrs_map, m !! t = None → foldl attr_effect m l !! t = None) as H; [|by apply H].
  induction Hl as [|a l Ha Hl IH]; intros m Hm; [done|]. cbn [foldl]. apply IH. unfold attr_effect, content_of in *.
  destruct (attr_content a); [|done]. destruct (Z.eqb_spec (attr_type a) t); [done|]. by rewrite lookup_insert_ne.
Qed.

Ltac content_solve :=
  apply Forall_forall; intros [b|cs|cs|cs|[] [] cs|v|n v|n v|n v|v|[] b|ids|t cs] _; unfold content_of; cbn [attr_type];
  try done; cbn [attr_content]; by destruct (_ =? _).

Lemma sent_wf {A} (f : ls_attr → option A) (P : A → Prop) l :
  Forall wf_ls_attr l → (∀ a v, wf_ls_attr a → f a = Some v → P v) → from_option P True (sent f l).
Proof.
  intros Hl Hf. rewrite Forall_forall in Hl. destruct (sent_cases f l) as [[-> _]|(a & v & Ha & E & ->)]; [done|].
  cbn. eauto.
Qed.

Section meant.
Context (l : list ls_attr) (Hwf : Forall wf_ls_attr l) (Hnd : NoDup (attr_type <$> l)).
Let m : ls_attrs_map := foldl attr_effect ∅ l.

Lemma sent_int t n f old :
  (n = 4)%nat → Forall (λ a, content_of t a = le_bytes 4 <$> f a) l → (∀ a v, wf_ls_attr a → f a = Some v → 0 ≤ v < 2 ^ 32) →
  int_or m t n old = default old (sent f l).
Proof.
  intros -> Hc Hb. unfold int_or. unfold m. rewrite (effects_sent t f (le_bytes 4) l Hnd Hc).
  pose proof (sent_wf f (λ v, 0 ≤ v < 2 ^ 32) l Hwf Hb). destruct (sent f l) as [v|]; [|done]. by apply fresh_array_int.
Qed.

Lemma sent_text {A} t n f (enc : A → list Z) (show : A → string) old :
  (n ≤ 255)%nat → Forall (λ a, content_of t a = enc <$> f a) l →
  (∀ a v, wf_ls_attr a → f a = Some v → Forall (λ b, b ≠ 0) (enc v) ∧ (length (enc v) < n)%nat ∧ text (enc v) = show v) →
  text_or m t n old = from_option show old (sent f l).
Proof.
  intros Hn Hc Hb. unfold text_or. unfold m. rewrite (effects_sent t f enc l Hnd Hc).
  pose proof (sent_wf f _ l Hwf Hb) as H. destruct (sent f l) as [v|]; [|done]. cbn in *. destruct H as (? & ? & <-).
  apply fresh_array_text; [done|lia].
Qed.

Lemma sent_octets {A} t n f (enc : A → list Z) old :
  Forall (λ a, content_of t a = enc <$> f a) l → (∀ a v, wf_ls_attr a → f a = Some v → length (enc v) = n) →
  octets_or m t n old = from_option (λ v, enc v ++ drop n old) old (sent f l).
Proof.
  intros Hc Hb. unfold octets_or. unfold m. rewrite (effects_sent t f enc l Hnd Hc).
  pose proof (sent_wf f _ l Hwf Hb) as H. destruct (sent f l) as [v|]; [|done]. cbn in *. unfold fresh_array.
  by rewrite take_app_le, take_ge by lia.
Qed.

Lemma unsent_none t : Forall (λ a, content_of t a = None) l → m !! t = None.
Proof. apply effects_unsent. Qed.
Lemma unsent_text t n old : Forall (λ a, content_of t a = None) l → text_or m t n old = old.
Proof. intros H. unfold text_or. by rewrite unsent_none. Qed.
Lemma unsent_int t n old : Forall (λ a, content_of t a = None) l → int_or m t n old = old.
Proof. intros H. unfold int_or. by rewrite unsent_none. Qed.
Lemma unsent_octets t n old : Forall (λ a, content_of t a = None) l → octets_or m t n old = old.
Proof. intros H. unfold octets_or. by rewrite unsent_none. Qed.

Lemma area_sent old : length old = 9%nat → octets_or m ATTR_NODE_ISIS_AREA_ID 9 old = area_or l old.
Proof.
  intros Ho. unfold area_or, sent_area. rewrite (sent_octets _ 9 (λ a, match a with LA_Area bs => Some bs | _ => None end) area_meant); [|content_solve|].
  - destruct (sent _ _); [|done]. cbn. by rewrite drop_ge, app_nil_r by lia.
  - intros a v Ha Hv. destruct a; simplify_eq. cbn in Ha. unfold area_meant. rewrite !length_app, length_zeros. cbn. lia.
Qed.

Lemma sent_router_length (remote v4 : bool) bs : sent_router remote v4 l = Some bs → length bs = (if v4 then 4 else 16)%nat.
Proof.
  unfold sent_router. destruct (sent_cases (λ a, match a with LA_RouterId r v bs => if Bool.eqb r remote && Bool.eqb v v4
    then Some bs else None | _ => None end) l) as [[-> _]|(a & v & Ha & Hv & ->)]; [done|]. intros [= <-].
  rewrite Forall_forall in Hwf. specialize (Hwf a Ha). destruct a as [| | | |r w cs| | | | | | | |]; try done.
  destruct (Bool.eqb r remote && Bool.eqb w v4) eqn:E; [|done]. apply andb_prop in E as [_ E%Bool.eqb_prop]. by simplify_eq.
Qed.

Lemma router_sent (remote v4 : bool) old :
  octets_or m (router_id_type remote v4) (if v4 then 4 else 16) old
  = from_option (λ bs, bs ++ drop (if v4 then 4 else 16) old) old (sent_router remote v4 l).
Proof.
  unfold sent_router. apply (sent_octets _ _ _ id).
  - destruct remote, v4; content_solve.
  - intros a v Ha Hv. destruct a as [| | | |r w bs| | | | | | | |]; try done. destruct (Bool.eqb r remote && Bool.eqb w v4) eqn:E; [|done].
    apply andb_prop in E as [_ E%Bool.eqb_prop]. simplify_eq. exact Ha.
Qed.

Lemma has_router (remote v4 : bool) :
  has m (router_id_type remote v4) = match sent_router remote v4 l with Some _ => true | None => false end.
Proof.
  unfold has, sent_router. unfold m. match goal with |- context [sent ?f l] => rewrite (effects_sent _ f id l Hnd) end; [by destruct (sent _ _)|].
  destruct remote, v4; content_solve.
Qed.

Lemma router_id_meant v4 old : length old = 16%nat → router_id_or m v4 old = router_meant l v4 old.
Proof.
  intros Ho. unfold router_id_or, router_meant.
  pose proof (has_router false false) as H1. pose proof (has_router false true) as H2.
  pose proof (router_sent false false old) as R1. pose proof (router_sent false true old) as R2.
  cbn [router_id_type] in *. rewrite H1, H2, R1, R2.
  destruct v4, (sent_router false false l), (sent_router false true l); cbn; rewrite ?(drop_ge old 16), ?app_nil_r by lia; done.
Qed.

Lemma remote_id_meant v4 old : length old = 16%nat → remote_router_id_or m v4 old = remote_meant l v4 old.
Proof.
  intros Ho. unfold remote_router_id_or, remote_meant, v4_or.
  pose proof (has_router true false) as H1. pose proof (router_sent true false old) as R1.
  pose proof (router_sent true true old) as R2. cbn [router_id_type] in *. rewrite H1, R1, R2.
  destruct v4, (sent_router true false l); cbn; rewrite ?(drop_ge old 16), ?app_nil_r by lia; done.
Qed.

Ltac int_wf :=
  intros [b|cs|cs|cs|[] [] cs|v0|n0 v0|n0 v0|n0 v0|v0|[] b|ids|t cs] v Ha Hv; try done; simplify_eq; eauto using metric_bound.

Lemma bw_sent t (reserved : bool) old :
  t = (if reserved then ATTR_LINK_MAX_RESV_BW else ATTR_LINK_MAX_LINK_BW) →
  int_or m t 4 old = from_option bw_kbps old (sent_bw reserved l).
Proof.
  intros ->. unfold int_or, sent_bw. unfold m. match goal with |- context [sent ?f l] => rewrite (effects_sent _ f (le_bytes 4 ∘ bw_kbps) l Hnd) end.
  - destruct (sent _ _); [|done]. apply fresh_array_int, bw_bound.
  - destruct reserved; content_solve.
Qed.

Lemma merge_node_meant x :
  length (ln_isis_area_id x) = 9%nat → length (ln_router_id x) = 16%nat → merge_node m x = node_meant l x.
Proof.
  intros H1 H2. unfold merge_node, node_meant.
  pose proof (has_router false false) as R1. pose proof (router_sent false true (ln_router_id x)) as R2.
  pose proof (router_sent false false (octets_or m ATTR_NODE_IPV4_ROUTER_ID_LOCAL 4 (ln_router_id x))) as R3.
  cbn [router_id_type] in *. rewrite R1, R3, R2, area_sent by done.
  rewrite (unsent_text ATTR_NODE_SR_CAPABILITIES) by content_solve.
  f_equal.
  - by destruct (sent_router false false l).
  - unfold v4_or. destruct (sent_router false false l) as [bs|]; cbn; [|done]. rewrite drop_ge, app_nil_r; [done|].
    destruct (sent_router false true l) as [cs|] eqn:E; cbn; [|lia].
    apply sent_router_length in E. rewrite length_app, length_drop. lia.
  - apply (sent_text _ _ _ (λ b, bytes_of_string (flag_names b 0 LS_FLAGS_NODE_NLRI))); [lia|content_solve|].
    intros a b Ha Hv. pose proof (flag_names_length b 0 LS_FLAGS_NODE_NLRI ltac:(repeat constructor)) as Hf.
    change (length LS_FLAGS_NODE_NLRI) with 6%nat in Hf. rewrite length_bytes_of_string. split_and!; [|lia|apply text_bytes].
    apply no_nul_bytes, flag_names_no_nul. by repeat constructor.
  - apply (sent_text _ _ _ id); [lia|content_solve|]. intros a v Ha Hv; destruct a; simplify_eq. destruct Ha. split_and!; [done|cbn; lia|done].
  - apply (sent_text _ _ _ (λ ids, bytes_of_string (join ", " (dec <$> ids)))); [lia|content_solve|].
    intros a v Ha Hv; destruct a; simplify_eq. destruct Ha as (Hi & _ & Hs & _). rewrite length_bytes_of_string.
    split_and!; [by apply no_nul_bytes, join_no_nul|lia|apply text_bytes].
Qed.


Lemma merge_link_meant x :
  length (lk_isis_area_id x) = 9%nat → length (lk_router_id x) = 16%nat → length (lk_remote_router_id x) = 16%nat →
  merge_link m x = link_meant l x.
Proof.
  intros H1 H2 H3. unfold merge_link, link_meant. rewrite router_id_meant by done.
  destruct (router_meant l _ _) as [rid v4]. rewrite remote_id_meant, area_sent by done.
  rewrite (unsent_text ATTR_LINK_UNRESV_BW), (unsent_text ATTR_LINK_PROTECTION_TYPE), (unsent_text ATTR_LINK_MPLS_PROTO_MASK),
    (unsent_text ATTR_LINK_SRLG), (unsent_text ATTR_LINK_PEER_EPE_NODE_SID), (unsent_text ATTR_LINK_ADJACENCY_SID) by content_solve.
  rewrite (bw_sent ATTR_LINK_MAX_LINK_BW false), (bw_sent ATTR_LINK_MAX_RESV_BW true) by done.
  f_equal; [solve [eapply sent_int; [reflexivity|content_solve|int_wf]]..|].
  apply (sent_text _ _ _ id); [lia|content_solve|]. intros a v Ha Hv; destruct a; simplify_eq. destruct Ha.
  split_and!; [done|cbn; lia|done].
Qed.

Lemma merge_prefix_meant x :
  length (lp_isis_area_id x) = 9%nat → length (lp_router_id x) = 16%nat → merge_prefix m x = prefix_meant l x.
Proof.
  intros H1 H2. unfold merge_prefix, prefix_meant. rewrite router_id_meant by done.
  destruct (router_meant l _ _) as [rid v4]. rewrite area_sent by done.
  rewrite (unsent_text ATTR_PREFIX_IGP_FLAGS), (unsent_text ATTR_PREFIX_SID), (unsent_int ATTR_PREFIX_EXTEND_TAG),
    (unsent_octets ATTR_PREFIX_OSPF_FWD_ADDR) by content_solve.
  f_equal; (eapply sent_int; [reflexivity|content_solve|int_wf]).
Qed.
End meant.

(** the calls for the objects of an UPDATE *)
Definition ls_calls (remove : bool) (p : obj_bgp_peer) (a : obj_path_attr) (ls : parsed_data_ls) : list bus_call :=
  match nodes ls with [] => [] | ns => [CallLsNode p a ns (ls_code remove)] end
  ++ match links ls with [] => [] | ks => [CallLsLink p a ks (ls_code remove)] end
  ++ match prefixes ls with [] => [] | ps => [CallLsPrefix p a ps (ls_code remove)] end.

Definition ls_meant (l : list ls_attr) (ls : parsed_data_ls) : parsed_data_ls :=
  {| nodes := node_meant l <$> nodes ls; links := link_meant l <$> links ls; prefixes := prefix_meant l <$> prefixes ls |}.

(** the octet arrays of the objects have their sizes *)
Definition ls_objects_ok (ls : parsed_data_ls) : Prop :=
  Forall (λ x, length (ln_isis_area_id x) = 9%nat ∧ length (ln_router_id x) = 16%nat) (nodes ls)
  ∧ Forall (λ x, length (lk_isis_area_id x) = 9%nat ∧ length (lk_router_id x) = 16%nat ∧ length (lk_remote_router_id x) = 16%nat)
      (links ls)
  ∧ Forall (λ x, length (lp_isis_area_id x) = 9%nat ∧ length (lp_router_id x) = 16%nat) (prefixes ls).

Lemma UpdateDbBgpLs_calls remove p a ls m t :
  UpdateDbBgpLs remove p a ls m t
  = Ok (∅, t ++ ls_calls remove p a {| nodes := merge_node m <$> nodes ls; links := merge_link m <$> links ls;
                                       prefixes := merge_prefix m <$> prefixes ls |}).
Proof.
  unfold UpdateDbBgpLs, ls_calls, and_then. cbn [nodes links prefixes thrown trace_bus].
  destruct (nodes ls), (links ls), (prefixes ls); cbn; rewrite <-?app_assoc, ?app_nil_r; done.
Qed.

Lemma merge_meant l ls :
  Forall wf_ls_attr l → NoDup (attr_type <$> l) → ls_objects_ok ls →
  let m := foldl attr_effect ∅ l in
  {| nodes := merge_node m <$> nodes ls; links := merge_link m <$> links ls; prefixes := merge_prefix m <$> prefixes ls |}
  = ls_meant l ls.
Proof.
  intros Hl Hnd (Hn & Hk & Hp) m. unfold ls_meant. f_equal; apply list_fmap_ext; intros i x Hx.
  - destruct (Forall_lookup_1 _ _ _ _ Hn Hx). by apply merge_node_meant.
  - destruct (Forall_lookup_1 _ _ _ _ Hk Hx) as (? & ? & ?). by apply merge_link_meant.
  - destruct (Forall_lookup_1 _ _ _ _ Hp Hx). by apply merge_prefix_meant.
Qed.

(** C9: link-state attributes reach the bus.  Take TLVs with the node flags and name, the
    link name, the IS-IS area, local and remote router identifiers of both families,
    administrative group, IGP, TE and prefix metrics of one to four octets, route tag,
    maximum and reservable bandwidth and topology identifiers, each type at most once, in
    any order and with unknown types among them.  Encoded as a BGP-LS attribute they are
    parsed into a map with which [UpdateDbBgpLs] sends the nodes, links and prefixes of
    the UPDATE to the bus, each with exactly the values that were sent in the members the
    attributes are for, and with its other members unchanged.  Bandwidths are in kilobits
    per second modulo 2^32, of floats below 2^60.  The segment routing and unreserved
    bandwidth TLVs are not among the attributes. *)
Theorem ls_attributes_decoded (l : list ls_attr) (rest : list Z) (d : parsed_update_data) (ls : parsed_data_ls) :
  Forall wf_ls_attr l → NoDup (attr_type <$> l) → ls_attrs d = ∅ → ls_objects_ok ls →
  ∃ m, attrLinkState (Z.of_nat (length (enc_ls_attrs l))) (enc_ls_attrs l ++ rest) d = Ok (set_ls_attrs m d)
    ∧ ∀ remove p a calls, UpdateDbBgpLs remove p a ls m calls = Ok (∅, calls ++ ls_calls remove p a (ls_meant l ls)).
Proof.
  intros Hl Hnd Hd Hok. exists (foldl attr_effect ∅ l). split.
  - rewrite <-Hd. apply attrLinkState_app; [done..|]. intros. by rewrite Hd, lookup_empty.
  - intros. by rewrite UpdateDbBgpLs_calls, merge_meant.
Qed.

(** The second call of an UPDATE, for the withdrawn objects, finds the map empty
    and leaves every object as it was parsed. *)
Lemma merge_empty x y z : merge_node ∅ x = x ∧ merge_link ∅ y = y ∧ merge_prefix ∅ z = z.
Proof.
  split_and!; [destruct x|destruct y|destruct z]; unfold merge_node, merge_link, merge_prefix, remote_router_id_or,
    router_id_or, has, octets_or, text_or, int_or; rewrite ?lookup_empty;
    by rewrite ?bool_decide_false, ?andb_false_r by (intros [? ?]; done).
Qed.

Definition sample_ls_attrs : list ls_attr :=
  [LA_NodeFlags 0x50; LA_NodeName [114; 49]; LA_LinkName [108; 49]; LA_Area [0x49; 0; 1]; LA_Igp 3 10; LA_Te 4 20;
   LA_RouterId false true [192; 0; 2; 1]; LA_RouterId true true [192; 0; 2; 2];
   LA_Other 999 [1]; LA_Metric 2 30; LA_Tag 40; LA_Bw false 0x4E9502F9; LA_MtIds [0; 2]].

Lemma sample_ls_attrs_wf : Forall wf_ls_attr sample_ls_attrs ∧ NoDup (attr_type <$> sample_ls_attrs).
Proof.
  split; [|by apply (bool_decide_unpack _); vm_compute].
  unfold sample_ls_attrs. repeat (apply Forall_cons; split); try apply Forall_nil;
    cbn [wf_ls_attr]; unfold name_ok, metric_ok; repeat first [split | wf_step]. vm_compute. lia.
Qed.

Definition sample_ls_objects : parsed_data_ls :=
  {| nodes := [ls_node 0 3 no_node]; links := [ls_link 0 3 {| le_local := None; le_remote := None |} no_link];
     prefixes := [ls_prefix 0 3 true no_node no_prefix] |}.

Lemma ls_attributes_decoded_witness :
  ls_calls false zero_peer uninit_path_attr (ls_meant sample_ls_attrs sample_ls_objects) ≠ []
  ∧ ∃ m, attrLinkState (Z.of_nat (length (enc_ls_attrs sample_ls_attrs))) (enc_ls_attrs sample_ls_attrs ++ [9]) no_update
         = Ok (set_ls_attrs m no_update)
      ∧ ∀ remove p a calls, UpdateDbBgpLs remove p a sample_ls_objects m calls
        = Ok (∅, calls ++ ls_calls remove p a (ls_meant sample_ls_attrs sample_ls_objects)).
Proof.
  split; [done|]. apply (ls_attributes_decoded sample_ls_attrs [9] no_update sample_ls_objects);
    [apply sample_ls_attrs_wf|apply sample_ls_attrs_wf|reflexivity|].
  unfold ls_objects_ok. repeat (constructor; try done).
Defined.
