(* ===== verification/ParseBGP.v ===== *)
(** * The BGP message handlers ([bgp/parseBGP.cpp])

    The common header, the handlers of UPDATE, NOTIFICATION and OPEN messages,
    and the translation of a parsed UPDATE into message bus objects.  The
    handlers thread the parser object, the persistent peer state and the bus. *)

From S2P Require Import Prelude Inet BgpCommon AddPath NotificationMsg OpenMsg UpdateTypes EVPN MPReach ExtCommunity UpdateMsg MsgBus LsMerge.

(** ** Message types *)

Definition BGP_MSG_OPEN : Z := 1.
Definition BGP_MSG_UPDATE : Z := 2.
Definition BGP_MSG_NOTIFICATION : Z := 3.

(** ** The parser object

    The constructor leaves [base_attr] and [path_hash_id] uninitialised. *)
Record parser : Type := {
  data_bytes_remaining : Z;            (** [unsigned int] *)
  common_hdr_len : Z;
  common_hdr_type : Z;
  base_attr : obj_path_attr;
  path_hash_id : option (list Z) }.

Definition new_parser : parser :=
  {| data_bytes_remaining := 0; common_hdr_len := 0; common_hdr_type := 0;
     base_attr := uninit_path_attr; path_hash_id := None |}.

Definition set_hdr (remaining len type : Z) (s : parser) : parser :=
  {| data_bytes_remaining := remaining; common_hdr_len := len; common_hdr_type := type;
     base_attr := base_attr s; path_hash_id := path_hash_id s |}.
Definition set_remaining (n : Z) (s : parser) : parser :=
  set_hdr n (common_hdr_len s) (common_hdr_type s) s.
Definition set_base (a : obj_path_attr) (h : option (list Z)) (s : parser) : parser :=
  {| data_bytes_remaining := data_bytes_remaining s; common_hdr_len := common_hdr_len s;
     common_hdr_type := common_hdr_type s; base_attr := a; path_hash_id := h |}.

(** A length beyond the buffer is only logged. *)
Definition parseBgpHeader (data : ptr) (size : Z) (s : parser) : outcome (Z * parser) :=
  if size <? BGP_MSG_HDR_LEN then Ok (0, set_hdr (data_bytes_remaining s) 0 0 s)
  else
    hdr ← memcpy BGP_MSG_HDR_LEN data;
    let len := ntoh (take 2 (drop 16 hdr)) in
    let type := nth 18 hdr 0 in
    Ok (type, set_hdr (u32 (len - BGP_MSG_HDR_LEN)) len type s).

(** ** Library functions *)

(** [strncpy(dst, s, n)] into an array of [n] characters *)
Definition strncpy (n : nat) (s : string) : string := str_take n s.

(** [strcpy(dst, s)] into an array of [n] characters *)
Definition strcpy (n : nat) (s : string) : outcome string :=
  if Nat.ltb (String.length s) n then Ok s else Undef OobWrite.

(** [std::stoul], [std::stoi]: the leading decimal digits *)
Fixpoint read_digits (s : string) (acc : Z) : Z :=
  match s with
  | String c s' => if is_digit c then read_digits s' (10 * acc + (byte_of_ascii c - 48)) else acc
  | EmptyString => acc
  end.
Definition starts_digit (s : string) : bool :=
  match s with String c _ => is_digit c | EmptyString => false end.
Definition stoul (s : string) : outcome Z :=
  if starts_digit s && (read_digits s 0 <? 2 ^ 64) then Ok (read_digits s 0) else Throw "stoul".
Definition stoi (s : string) : outcome Z :=
  if starts_digit s && (read_digits s 0 <? 2 ^ 31) then Ok (read_digits s 0) else Throw "stoi".

(** ** Path attributes *)

Definition get_attr (m : attrs_map) (t : Z) : string := default "" (m !! t).

(** a number when the attribute is present, else 0 *)
Definition num_attr (conv : string → outcome Z) (m : attrs_map) (t : Z) : outcome Z :=
  let s := get_attr m t in if is_empty s then Ok 0 else conv s.
(** a text array of [n] characters, zeroed when the attribute is absent *)
Definition text_attr (n : nat) (m : attrs_map) (t : Z) : string :=
  let s := get_attr m t in if is_empty s then "" else strncpy n s.

Definition fill_base_attr (m : attrs_map) (a : obj_path_attr) : outcome obj_path_attr :=
  local_pref ← num_attr stoul m ATTR_TYPE_LOCAL_PREF;
  med ← num_attr stoul m ATTR_TYPE_MED;
  count ← num_attr stoi m ATTR_TYPE_INTERNAL_AS_COUNT;
  origin_as ← num_attr stoul m ATTR_TYPE_INTERNAL_AS_ORIGIN;
  Ok {| at_hash_id := at_hash_id a;
        at_origin := Some (text_attr 16 m ATTR_TYPE_ORIGIN);
        at_as_path := get_attr m ATTR_TYPE_AS_PATH;
        at_as_path_count := Some (u16 count);
        at_origin_as := Some (u32 origin_as);
        at_nexthop_isIPv4 := Some (negb (contains ":" (get_attr m ATTR_TYPE_NEXT_HOP)));
        at_next_hop := Some (text_attr 40 m ATTR_TYPE_NEXT_HOP);
        at_aggregator := Some (text_attr 40 m ATTR_TYPE_AGGEGATOR);
        at_atomic_agg := Some (String.eqb (get_attr m ATTR_TYPE_ATOMIC_AGGREGATE) "1");
        at_med := Some (u32 med);
        at_local_pref := Some (u32 local_pref);
        at_community_list := get_attr m ATTR_TYPE_COMMUNITIES;
        at_ext_community_list := get_attr m ATTR_TYPE_EXT_COMMUNITY;
        at_large_community_list := get_attr m ATTR_TYPE_LARGE_COMMUNITY;
        at_cluster_list := get_attr m ATTR_TYPE_CLUSTER_LIST;
        at_originator_id := Some (text_attr 16 m ATTR_TYPE_ORIGINATOR_ID) |}.

(** ** Last address of a prefix *)

Definition last_address (isIPv4 : bool) (len : Z) (bin : option (list Z)) (old : list (option Z))
  : outcome (list (option Z)) :=
  match bin with
  | None =>
      (* an indeterminate address may be copied but not computed with *)
      if len <? (if isIPv4 then 32 else 128) then Undef Uninit else Ok (replicate 16 None)
  | Some bin =>
      Ok (if isIPv4 then
            if len <? 32
            then (Some <$> last_address4 len bin) ++ drop 4 old
            else Some <$> bin
          else
            Some <$> last_address6 len bin)
  end.

(** ** RIB entries

    [rib_entry] is one variable for the whole loop; the octets of the last
    address that an iteration does not write keep their value. *)
Definition rib_entry (p_entry : obj_bgp_peer) (h : option (list Z)) (t : prefix_tuple)
    (bcast : list (option Z)) : obj_rib :=
  {| ri_path_attr_hash_id := h; ri_peer_hash_id := pe_hash_id p_entry; ri_isIPv4 := pt_isIPv4 t;
     ri_prefix := strncpy 46 (pt_prefix t); ri_prefix_len := pt_len t; ri_prefix_bin := pt_prefix_bin t;
     ri_prefix_bcast_bin := bcast; ri_path_id := pt_path_id t; ri_labels := snprintf 255 (pt_labels t) |}.

Definition no_bcast : list (option Z) := replicate 16 None.

Fixpoint rib_entries (p_entry : obj_bgp_peer) (h : option (list Z)) (l : list prefix_tuple)
    (bcast : list (option Z)) : outcome (list obj_rib) :=
  match l with
  | [] => Ok []
  | t :: l' =>
      bcast ← last_address (pt_isIPv4 t) (pt_len t) (pt_prefix_bin t) bcast;
      rest ← rib_entries p_entry h l' bcast;
      Ok (rib_entry p_entry h t bcast :: rest)
  end.

Fixpoint vpn_entries (p_entry : obj_bgp_peer) (h : option (list Z)) (l : list vpn_tuple)
    (bcast : list (option Z)) : outcome (list obj_vpn) :=
  match l with
  | [] => Ok []
  | v :: l' =>
      let t := vt_prefix v in
      bcast ← last_address (pt_isIPv4 t) (pt_len t) (pt_prefix_bin t) bcast;
      rest ← vpn_entries p_entry h l' bcast;
      Ok ({| vp_rib := rib_entry p_entry h t bcast; vp_rd := vt_rd v |} :: rest)
  end.

Definition evpn_entry (p_entry : obj_bgp_peer) (h : option (list Z)) (t : evpn_tuple) : outcome obj_evpn :=
  tag ← strcpy 16 (ethernet_tag_id_hex t);
  m ← strcpy 255 (mac t);
  i ← strcpy 46 (ip t);
  o ← strcpy 46 (originating_router_ip t);
  esi ← strcpy 255 (ethernet_segment_identifier t);
  Ok {| eo_path_attr_hash_id := h; eo_peer_hash_id := pe_hash_id p_entry; eo_path_id := ev_path_id t;
        eo_rd := ev_rd t; eo_originating_router_ip_len := originating_router_ip_len t;
        eo_originating_router_ip := o; eo_ethernet_segment_identifier := esi;
        eo_ethernet_tag_id_hex := tag; eo_mac_len := mac_len t; eo_mac := m; eo_ip_len := ip_len t;
        eo_ip := i; eo_mpls_label_1 := mpls_label_1 t; eo_mpls_label_2 := mpls_label_2 t |}.

Fixpoint evpn_entries (p_entry : obj_bgp_peer) (h : option (list Z)) (l : list evpn_tuple)
  : outcome (list obj_evpn) :=
  match l with
  | [] => Ok []
  | t :: l' => e ← evpn_entry p_entry h t; rest ← evpn_entries p_entry h l'; Ok (e :: rest)
  end.

(** ** Updating the message bus *)

Section handlers.
Context {LS : LinkState} {bus : Type} {MB : MsgBus bus}.
(** the build option [REDIS_ENABLED] *)
Context (redis_enabled : bool).
Context (p_entry : obj_bgp_peer).

Definition UpdateDBAttrs (m : attrs_map) (s : parser) (b : bus) : outcome (parser * bus) :=
  a ← fill_base_attr m (base_attr s);
  if is_empty (get_attr m ATTR_TYPE_NEXT_HOP)
  then Ok (set_base a (Some (zeros 16)) s, b)
  else
    '(a, b) ← update_baseAttribute p_entry a b;
    Ok (set_base a (at_hash_id a) s, b).

Definition UpdateDBAdvPrefixes (l : list prefix_tuple) (s : parser) (b : bus) : outcome bus :=
  rib_list ← rib_entries p_entry (path_hash_id s) l no_bcast;
  match rib_list with
  | [] => Ok b
  | _ => update_unicastPrefix p_entry rib_list (Some (base_attr s)) UNICAST_PREFIX_ACTION_ADD b
  end.

(** the attribute pointer of a withdrawal is [NULL] *)
Definition UpdateDBWdrawnPrefixes (l : list prefix_tuple) (s : parser) (b : bus) : outcome bus :=
  match (λ t, rib_entry p_entry (path_hash_id s) t no_bcast) <$> l with
  | [] => Ok b
  | rib_list => update_unicastPrefix p_entry rib_list None UNICAST_PREFIX_ACTION_DEL b
  end.

Definition vpn_code (remove : bool) : vpn_action_code := if remove then VPN_ACTION_DEL else VPN_ACTION_ADD.

Definition UpdateDBL3Vpn (remove : bool) (l : list vpn_tuple) (s : parser) (b : bus) : outcome bus :=
  rib_list ← vpn_entries p_entry (path_hash_id s) l no_bcast;
  match rib_list with
  | [] => Ok b
  | _ => update_L3Vpn p_entry rib_list (base_attr s) (vpn_code remove) b
  end.

Definition UpdateDBeVPN (remove : bool) (l : list evpn_tuple) (s : parser) (b : bus) : outcome bus :=
  rib_list ← evpn_entries p_entry (path_hash_id s) l;
  match rib_list with
  | [] => Ok b
  | _ => update_eVPN p_entry rib_list (base_attr s) (vpn_code remove) b
  end.

Definition UpdateDB (d : parsed_update_data) (s : parser) (b : bus) : outcome (parser * bus) :=
  '(s, b) ← (if redis_enabled then Ok (s, b) else UpdateDBAttrs (attrs d) s b);
  b ← (if redis_enabled then Ok b
       else
         and_then (λ b,
           '(m, b) ← UpdateDbBgpLs false p_entry (base_attr s) (ls d) (ls_attrs d) b;
           and_then (λ b, '(_, b) ← UpdateDbBgpLs true p_entry (base_attr s) (ls_withdrawn d) m b; Ok b) b) b);
  b ← and_then (UpdateDBAdvPrefixes (advertised d) s) b;
  b ← (if redis_enabled then Ok b
       else
         b ← and_then (UpdateDBL3Vpn false (vpn d) s) b;
         b ← and_then (UpdateDBL3Vpn true (vpn_withdrawn d) s) b;
         b ← and_then (UpdateDBeVPN false (evpn d) s) b;
         and_then (UpdateDBeVPN true (evpn_withdrawn d) s) b);
  b ← and_then (UpdateDBWdrawnPrefixes (withdrawn d) s) b;
  Ok (s, b).

(** ** UPDATE

    The octets read are stored in an [int] and compared as [size_t]. *)
Definition handleUpdate (data : ptr) (size : Z) (s : parser) (info : peer_info) (b : bus)
  : outcome (bool * parser * peer_info * bus) :=
  '(type, s) ← parseBgpHeader data size s;
  if type =? BGP_MSG_UPDATE then
    '(n, info, d) ← parseUpdateMsg (adv BGP_MSG_HDR_LEN data) (data_bytes_remaining s) info no_update;
    let read_size := i32 n in
    if negb (u64 read_size =? u64 (size - BGP_MSG_HDR_LEN)) then Ok (true, s, info, b)
    else
      let s := set_remaining (u32 (data_bytes_remaining s - read_size)) s in
      '(s, b) ← UpdateDB d s b;
      Ok (false, s, info, b)
  else Ok (false, s, info, b).

(** ** NOTIFICATION *)

Definition handleDownEvent (data : ptr) (size : Z) (s : parser) (down_event : obj_peer_down_event)
  : outcome (bool * parser * obj_peer_down_event) :=
  '(type, s) ← parseBgpHeader data size s;
  if type =? BGP_MSG_NOTIFICATION then
    '(rval, msg) ← parseNotify (adv BGP_MSG_HDR_LEN data) (data_bytes_remaining s);
    if (rval : bool) then Ok (true, s, down_event)
    else Ok (false, set_remaining (u32 (data_bytes_remaining s - 2)) s,
             {| de_bmp_reason := de_bmp_reason down_event; de_bgp_err_code := error_code msg;
                de_bgp_err_subcode := error_subcode msg; de_error_text := strncpy 255 (error_text msg) |})
  else Throw "ERROR: Invalid BGP MSG for BMP down event, expected NOTIFICATION message.".

(** ** OPEN *)

(** one of the two OPEN messages: its out parameters, and where the next
    message starts *)
Definition handleOpen (sent : bool) (data : ptr) (size : Z) (s : parser) (asn hold : Z) (info : peer_info)
    (wrong_type : string) : outcome (open_out * ptr * parser) :=
  '(type, s) ← parseBgpHeader data size s;
  if type =? BGP_MSG_OPEN then
    let data := adv BGP_MSG_HDR_LEN data in
    '(read_size, o) ← parseOpenMsg sent data (data_bytes_remaining s)
      {| oo_hold := hold; oo_bgp_id := "";
         oo_state := {| cs_asn := asn; cs_caps := []; cs_add_path := add_path_capability info |} |};
    if read_size =? 0 then Throw "Failed to read open message"
    else Ok (o, adv read_size data, set_remaining (u32 (data_bytes_remaining s - read_size)) s)
  else Throw wrong_type.

Definition has_4octet (caps : list string) : bool := existsb (contains "4 Octet ASN") caps.

Definition handleUpEvent (data : ptr) (size : Z) (s : parser) (info : peer_info) (up : obj_peer_up_event)
  : outcome (Z * parser * peer_info * obj_peer_up_event) :=
  let info := set_using_2_octet false (set_sent_four false (set_recv_four false info)) in
  '(o, data, s) ← handleOpen true data size s (ue_local_asn up) (ue_local_hold_time up) info
    "ERROR: Invalid BGP MSG for BMP Sent OPEN message, expected OPEN message.";
  let total := common_hdr_len s in
  let caps := cs_caps (oo_state o) in
  let info := set_peer_add_path (cs_add_path (oo_state o)) info in
  let info := if has_4octet caps then set_sent_four true info else info in
  '(o2, _, s) ← handleOpen false data size s (ue_remote_asn up) (ue_remote_hold_time up) info
    "ERROR: Invalid BGP MSG for BMP Received OPEN message, expected OPEN message.";
  let caps2 := cs_caps (oo_state o2) in
  let info := set_peer_add_path (cs_add_path (oo_state o2)) info in
  let info := if has_4octet caps2 then set_recv_four true info else info in
  Ok (total + common_hdr_len s, s, info,
      {| ue_info_data := ue_info_data up; ue_local_ip := ue_local_ip up; ue_local_port := ue_local_port up;
         ue_local_asn := cs_asn (oo_state o); ue_local_hold_time := oo_hold o;
         ue_local_bgp_id := strncpy 16 (oo_bgp_id o);
         ue_remote_asn := cs_asn (oo_state o2); ue_remote_port := ue_remote_port up;
         ue_remote_hold_time := oo_hold o2; ue_remote_bgp_id := strncpy 16 (oo_bgp_id o2);
         ue_sent_cap := strncpy 4096 (join ", " caps); ue_recv_cap := strncpy 4096 (join ", " caps2) |}).
End handlers.

(** ** Last address: correctness *)

(** octets of the address family *)
Definition family_octets (isIPv4 : bool) : nat := if isIPv4 then 4%nat else 16%nat.

Lemma last_address_v4 len bin old :
  bytes_ok bin → length bin = 16%nat → 0 ≤ len ≤ 32 →
  ∃ res r, last_address true len (Some bin) old = Ok res ∧ take 4 res = Some <$> r ∧ length r = 4%nat
    ∧ ntoh r = Z.lor (ntoh (take 4 bin)) (2 ^ (32 - len) - 1).
Proof.
  intros Hb Hl Hlen. unfold last_address. zif.
  - destruct (last_address4_correct len bin) as (H1 & H3); [done|lia..|].
    eexists _, _; split_and!; [done| |done|done].
    rewrite take_app_le by (rewrite length_fmap; lia). by rewrite take_ge by (rewrite length_fmap; lia).
  - eexists _, (take 4 bin). rewrite length_take, Hl. split_and!; [done|by rewrite fmap_take|done|].
    replace len with 32 by lia. cbn. by rewrite Z.lor_0_r.
Qed.

Lemma last_address_v6 len bin old :
  bytes_ok bin → length bin = 16%nat → 0 ≤ len ≤ 128 →
  ∃ r, last_address false len (Some bin) old = Ok (Some <$> r) ∧ length r = 16%nat
    ∧ ntoh r = Z.lor (ntoh bin) (2 ^ (128 - len) - 1).
Proof.
  intros Hb Hl Hlen. exists (last_address6 len bin). by destruct (last_address6_correct len bin).
Qed.

(** The last address of a prefix.  For every prefix of the family's width,
    the first octets stored as the broadcast address are the address with all
    host bits set: the bitwise or of the prefix and [2^(width - length) - 1].
    For IPv6 this covers the two halves the code computes separately and the
    boundary lengths 0, 64 and 128. *)
Theorem last_address_correct (isIPv4 : bool) (len : Z) (bin : list Z) (old : list (option Z)) :
  let w := family_octets isIPv4 in
  bytes_ok bin → length bin = 16%nat → 0 ≤ len ≤ 8 * Z.of_nat w →
  ∃ res r, last_address isIPv4 len (Some bin) old = Ok res ∧ take w res = Some <$> r ∧ length r = w
    ∧ ntoh r = Z.lor (ntoh (take w bin)) (2 ^ (8 * Z.of_nat w - len) - 1).
Proof.
  intros w Hb Hl Hlen. destruct isIPv4; subst w; cbn [family_octets] in *.
  - by apply last_address_v4.
  - destruct (last_address_v6 len bin old) as (r & -> & H2 & H3); [done..|].
    exists (Some <$> r), r. rewrite (take_ge bin) by lia.
    rewrite take_ge by (rewrite length_fmap; lia). by split_and!.
Qed.

Lemma last_address_correct_witness :
  ∃ res r, last_address false 62 (Some (zeros 16)) no_bcast = Ok res ∧ take 16 res = Some <$> r
    ∧ length r = 16%nat ∧ ntoh r = Z.lor (ntoh (take 16 (zeros 16))) (2 ^ (8 * Z.of_nat 16 - 62) - 1).
Proof.
  apply (last_address_correct false 62 (zeros 16) no_bcast); [|reflexivity|simpl; lia].
  apply Forall_replicate. split; lia.
Defined.

(** ** Numbers through text *)

Lemma read_digits_go (x : N) s :
  ∃ k, 0 ≤ k ∧ ∀ acc, read_digits (pretty_N_go x s) acc = read_digits s (acc * 10 ^ k + Z.of_N x).
Proof.
  revert s. induction (N.lt_wf_0 x) as [x _ IH]; intros s.
  destruct (decide (0 < x)%N) as [Hx|Hx].
  - rewrite pretty_N_go_step by done.
    destruct (IH (x `div` 10)%N (N.div_lt x 10 Hx ltac:(lia)) (String (pretty_N_char (x mod 10)) s)) as (k & Hk & E).
    exists (k + 1). split; [lia|]. intros acc. rewrite E. cbn [read_digits].
    assert (is_digit (pretty_N_char (x mod 10)) = true
            ∧ byte_of_ascii (pretty_N_char (x mod 10)) - 48 = Z.of_N (x mod 10)) as [-> ->].
    { pose proof (N.mod_lt x 10 ltac:(done)). generalize dependent (x mod 10)%N. intros y Hy.
      destruct y as [|p]; [done|]. do 4 (destruct p as [p|p|]; try (by vm_compute); try lia). }
    f_equal. rewrite N2Z.inj_div, N2Z.inj_mod, Z.pow_add_r by lia.
    pose proof (Z.div_mod (Z.of_N x) 10). lia.
  - assert (x = 0%N) as -> by lia. exists 0. split; [lia|]. intros acc. rewrite pretty_N_go_0.
    f_equal. lia.
Qed.

Lemma read_digits_dec z : 0 ≤ z → read_digits (dec z) 0 = z.
Proof.
  intros Hz. destruct z as [|p|p]; [done| |lia].
  change (dec (Zpos p)) with (pretty_N_go (Npos p) "").
  destruct (read_digits_go (Npos p) "") as (k & _ & ->). cbn [read_digits]. lia.
Qed.

Lemma starts_digit_dec z : 0 ≤ z → starts_digit (dec z) = true ∧ is_empty (dec z) = false.
Proof.
  intros Hz. pose proof (dec_digits z Hz) as Hd. pose proof (read_digits_dec z Hz) as Hr.
  destruct (dec z) as [|c s] eqn:E; cbn in *.
  - subst z. discriminate E.
  - by apply andb_prop in Hd as [-> _].
Qed.

Lemma stoul_dec z : 0 ≤ z < 2 ^ 64 → stoul (dec z) = Ok z.
Proof.
  intros. unfold stoul. rewrite (proj1 (starts_digit_dec z ltac:(lia))), read_digits_dec by lia.
  cbn [andb]. by zif; [|lia].
Qed.
Lemma stoi_dec z : 0 ≤ z < 2 ^ 31 → stoi (dec z) = Ok z.
Proof.
  intros. unfold stoi. rewrite (proj1 (starts_digit_dec z ltac:(lia))), read_digits_dec by lia.
  cbn [andb]. by zif; [|lia].
Qed.

(** The attributes that are read back as numbers are printed numbers. *)
Definition num_bound (t : Z) : option Z :=
  if t =? ATTR_TYPE_INTERNAL_AS_COUNT then Some (2 ^ 16)
  else if bool_decide (t ∈ [ATTR_TYPE_LOCAL_PREF; ATTR_TYPE_MED; ATTR_TYPE_INTERNAL_AS_ORIGIN])
  then Some (2 ^ 32) else None.

Definition numeric (m : attrs_map) : Prop :=
  ∀ t bnd v, num_bound t = Some bnd → m !! t = Some v → ∃ z, 0 ≤ z < bnd ∧ v = dec z.

Lemma numeric_empty : numeric ∅.
Proof. intros t bnd v _. by rewrite lookup_empty. Qed.

Lemma numeric_insert t v m :
  numeric m → (∀ bnd, num_bound t = Some bnd → ∃ z, 0 ≤ z < bnd ∧ v = dec z) → numeric (<[t := v]> m).
Proof.
  intros Hm Hv t' bnd v' Hb. destruct (decide (t = t')) as [->|Hne].
  - rewrite lookup_insert_eq. intros [= <-]. by apply Hv.
  - rewrite lookup_insert_ne by done. by apply Hm.
Qed.

Lemma num_attr_ok conv m t bnd :
  numeric m → num_bound t = Some bnd → (∀ z, 0 ≤ z < bnd → conv (dec z) = Ok z) →
  ∃ z, num_attr conv m t = Ok z ∧ z = match m !! t with Some v => read_digits v 0 | None => 0 end.
Proof.
  intros Hm Hb Hc. unfold num_attr, get_attr. destruct (m !! t) as [v|] eqn:E; cbn -[is_empty dec read_digits]; [|eauto].
  destruct (Hm t bnd v Hb E) as (z & Hz & ->). exists z.
  rewrite (proj2 (starts_digit_dec z ltac:(lia))), Hc, read_digits_dec by lia. done.
Qed.

(** With printed numbers the attribute record is filled without an exception. *)
Lemma fill_base_attr_ok m a : numeric m → ∃ a', fill_base_attr m a = Ok a' ∧ at_hash_id a' = at_hash_id a.
Proof.
  intros Hm. unfold fill_base_attr.
  destruct (num_attr_ok stoul m ATTR_TYPE_LOCAL_PREF _ Hm eq_refl) as (? & -> & _); [intros; apply stoul_dec; lia|].
  destruct (num_attr_ok stoul m ATTR_TYPE_MED _ Hm eq_refl) as (? & -> & _); [intros; apply stoul_dec; lia|].
  destruct (num_attr_ok stoi m ATTR_TYPE_INTERNAL_AS_COUNT _ Hm eq_refl) as (? & -> & _);
    [intros; apply stoi_dec; lia|].
  destruct (num_attr_ok stoul m ATTR_TYPE_INTERNAL_AS_ORIGIN _ Hm eq_refl) as (? & -> & _);
    [intros; apply stoul_dec; lia|].
  eexists. by split.
Qed.

Lemma path_asns_bound n ss : Forall (wf_segment n) ss → Forall (λ a, 0 ≤ a < 256 ^ Z.of_nat n) (path_asns ss).
Proof.
  unfold path_asns. induction 1 as [|s ss [_ Ha] _ IH]; [constructor|]. rewrite fmap_cons.
  cbn [concat]. by apply Forall_app.
Qed.

Lemma Forall_last {A} (P : A → Prop) l d : P d → Forall P l → P (List.last l d).
Proof. intros Hd Hl. revert d Hd. induction Hl; intros d Hd; [done|]. rewrite last_cons. auto. Qed.

Lemma attr_apply_numeric s a d : wf_attr s a → numeric (attrs d) → numeric (attrs (attr_apply s a d)).
Proof.
  intros [Hlen Hwf] Hd. destruct a; cbn [attr_apply]; try done;
    try (apply numeric_insert; [done|]; intros bnd Hb; vm_compute in Hb; simplify_eq; eauto; done).
  destruct Hwf as [Hss _]. cbn [attr_value] in Hlen. rewrite length_enc_path in Hlen.
  unfold path_attrs. cbn [attrs set_attrs].
  apply numeric_insert; [apply numeric_insert; [apply numeric_insert; [done|]|]|];
    intros bnd Hb; vm_compute in Hb; simplify_eq; eexists; (split; [|done]).
  - destruct (two_octet s); cbn [asn_size] in *; lia.
  - apply (Forall_last (λ z, 0 ≤ z < 4294967296)); [lia|].
    eapply Forall_impl; [by eapply path_asns_bound|]. intros z. destruct (two_octet s); cbn; lia.
Qed.

Lemma apply_attrs_numeric s l d :
  Forall (wf_flagged s) l → numeric (attrs d) → numeric (attrs (apply_attrs s l d)).
Proof.
  unfold apply_attrs. intros Hl. revert d. induction Hl as [|fa l [Hfa _] _ IH]; intros d Hd; [done|].
  cbn [foldl]. apply IH. by apply attr_apply_numeric.
Qed.

(** ** BGP messages as data *)

Definition enc_bgp (type : Z) (body : list Z) : list Z :=
  replicate 16 255 ++ hton 2 (19 + Z.of_nat (length body)) ++ type :: body.

Lemma length_enc_bgp type body : length (enc_bgp type body) = (19 + length body)%nat.
Proof. unfold enc_bgp. rewrite !length_app, length_replicate, length_hton. cbn [length]. lia. Qed.

Lemma parseBgpHeader_enc type body rest size s :
  19 ≤ size → 19 + Z.of_nat (length body) < 65536 →
  parseBgpHeader (enc_bgp type body ++ rest) size s
  = Ok (type, set_hdr (Z.of_nat (length body)) (19 + Z.of_nat (length body)) type s)
  ∧ adv BGP_MSG_HDR_LEN (enc_bgp type body ++ rest) = body ++ rest.
Proof.
  intros Hs Hl. unfold parseBgpHeader, enc_bgp, BGP_MSG_HDR_LEN. rewrite (proj2 (Z.ltb_ge size 19)) by lia.
  set (n := 19 + Z.of_nat (length body)) in *.
  assert (length (hton 2 n) = 2%nat) as H2 by apply length_hton.
  destruct (hton 2 n) as [|x [|y [|]]] eqn:E; [done..| |done].
  change (memcpy 19 _) with (memcpy 19 ((replicate 16 255 ++ [x; y; type]) ++ body ++ rest)).
  rewrite memcpy_app, bind_Ok_l by done.
  split; [|done]. change (take 2 (drop 16 _)) with [x; y]. change (nth 18 _ 0) with type.
  rewrite <-E, ntoh_hton by (simpl; lia). rewrite u32_small by lia. do 3 f_equal. lia.
Qed.

(** ** Publishing an UPDATE *)

(** The parse results of UPDATE messages without link-state and VPN routes *)
Definition unicast_only (d : parsed_update_data) : Prop :=
  ls d = no_ls ∧ ls_withdrawn d = no_ls ∧ vpn d = [] ∧ vpn_withdrawn d = [] ∧ evpn d = []
  ∧ evpn_withdrawn d = [] ∧ Forall (λ t, is_Some (pt_prefix_bin t)) (advertised d).

Lemma dec_nlri_bin b ap xs : Forall (λ t, is_Some (pt_prefix_bin t)) (dec_nlri b ap <$> xs).
Proof. apply Forall_fmap, Forall_true. intros x. by eexists. Qed.

Lemma apply_attrs_unicast s l d : unicast_only d → unicast_only (apply_attrs s l d).
Proof.
  unfold apply_attrs. revert d. induction l as [|fa l IH]; intros d Hd; [done|]. cbn [foldl]. apply IH.
  unfold unicast_only in *. destruct fa as [f []]; cbn; try done.
  destruct Hd as (? & ? & ? & ? & ? & ? & ?). split_and!; try done. apply Forall_app. auto using dec_nlri_bin.
Qed.

Lemma rib_entries_ok p h l bc :
  Forall (λ t, is_Some (pt_prefix_bin t)) l →
  ∃ ribs, rib_entries p h l bc = Ok ribs ∧ Forall2 (λ t e, ∃ bc, e = rib_entry p h t bc) l ribs.
Proof.
  intros Hl. revert bc. induction Hl as [|t l [bin Ht] _ IH]; intros bc; cbn [rib_entries]; [eauto|].
  rewrite Ht. unfold last_address. run. destruct (IH (if pt_isIPv4 t then
    if pt_len t <? 32 then (Some <$> last_address4 (pt_len t) bin) ++ drop 4 bc else Some <$> bin
    else Some <$> last_address6 (pt_len t) bin)) as (ribs & E & H). rewrite E. run. eauto.
Qed.

(** the bus calls for an UPDATE: attributes, announcements, withdrawals *)
Definition update_calls (p : obj_bgp_peer) (a : obj_path_attr) (ribs : list obj_rib) (wd : list obj_rib)
    (with_attrs : bool) : list bus_call :=
  (if with_attrs then [CallBaseAttribute p a] else [])
  ++ (match ribs with [] => [] | _ => [CallUnicast p ribs (Some a) UNICAST_PREFIX_ACTION_ADD] end)
  ++ (match wd with [] => [] | _ => [CallUnicast p wd None UNICAST_PREFIX_ACTION_DEL] end).

Lemma UpdateDB_unicast p d s t a h :
  unicast_only d → fill_base_attr (attrs d) (base_attr s) = Ok a →
  h = (if is_empty (get_attr (attrs d) ATTR_TYPE_NEXT_HOP) then Some (zeros 16) else at_hash_id a) →
  ∃ ribs, Forall2 (λ t e, ∃ bc, e = rib_entry p h t bc) (advertised d) ribs
    ∧ UpdateDB false p d s t
      = Ok (set_base a h s,
            t ++ update_calls p a ribs ((λ x, rib_entry p h x no_bcast) <$> withdrawn d)
                   (negb (is_empty (get_attr (attrs d) ATTR_TYPE_NEXT_HOP)))).
Proof.
  intros (H1 & H2 & H3 & H4 & H5 & H6 & Hb) Ha ->. unfold UpdateDB, UpdateDBAttrs. rewrite Ha, bind_Ok_l.
  set (e := is_empty _). set (h := if e then _ else _).
  destruct (rib_entries_ok p h (advertised d) no_bcast Hb) as (ribs & Er & Hr).
  exists ribs. split; [done|].
  replace (if e then _ else _) with (Ok (set_base a h s, t ++ if e then [] else [CallBaseAttribute p a]))
    by (subst h; destruct e; [by rewrite app_nil_r|done]).
  run. rewrite H1, H2, H3, H4, H5, H6. unfold UpdateDbBgpLs. cbn [nodes links prefixes no_ls]. run.
  unfold UpdateDBAdvPrefixes, UpdateDBWdrawnPrefixes. cbn [path_hash_id set_base base_attr].
  rewrite Er. run. unfold UpdateDBL3Vpn, UpdateDBeVPN, update_calls. cbn [vpn_entries evpn_entries].
  destruct e, ribs, ((λ x, rib_entry p h x no_bcast) <$> withdrawn d); cbn; rewrite ?app_nil_r, <-?app_assoc; done.
Qed.


Section update_handler.
Context {LS : LinkState}.

(** what an UPDATE with the given parts parses to *)
Definition update_result (s : session) (ws : list nlri) (l : list (Z * path_attr)) (ns : list nlri)
  : parsed_update_data :=
  let d := apply_attrs s l (set_withdrawn (dec_nlri true (add_path_on s true) <$> ws) no_update) in
  set_advertised (advertised d ++ (dec_nlri true (add_path_on s true) <$> ns)) d.

Lemma update_result_ok s ws l ns :
  Forall (wf_flagged s) l → numeric (attrs (update_result s ws l ns)) ∧ unicast_only (update_result s ws l ns).
Proof.
  intros Hl. split; [apply apply_attrs_numeric; [done|apply numeric_empty]|].
  destruct (apply_attrs_unicast s l (set_withdrawn (dec_nlri true (add_path_on s true) <$> ws) no_update))
    as (? & ? & ? & ? & ? & ? & ?); [by split_and!|].
  split_and!; try done. apply Forall_app. auto using dec_nlri_bin.
Qed.

Lemma handleUpdate_app (s : session) (ws : list nlri) (l : list (Z * path_attr)) (ns : list nlri)
    (rest : ptr) (info : peer_info) (p : obj_bgp_peer) (t : list bus_call) :
  let msg := enc_bgp BGP_MSG_UPDATE (enc_update s ws l ns) in
  let d := update_result s ws l ns in
  session_ok s info → Forall (wf_nlri 32) ws → Forall (wf_flagged s) l → Forall (wf_nlri 32) ns →
  23 < Z.of_nat (length msg) < 65536 →
  ∃ a h ribs st,
    fill_base_attr (attrs d) uninit_path_attr = Ok a
    ∧ Forall2 (λ t e, ∃ bc, e = rib_entry p h t bc) (advertised d) ribs
    ∧ handleUpdate false p (msg ++ rest) (Z.of_nat (length msg)) new_parser info t
      = Ok (false, st, info,
            t ++ update_calls p a ribs ((λ x, rib_entry p h x no_bcast) <$> withdrawn d)
                   (negb (is_empty (get_attr (attrs d) ATTR_TYPE_NEXT_HOP)))).
Proof.
  intros msg d Hs Hws Hl Hns Hlen. subst msg. rewrite length_enc_bgp in *.
  set (body := enc_update s ws l ns) in *. unfold handleUpdate.
  destruct (parseBgpHeader_enc BGP_MSG_UPDATE body rest (Z.of_nat (19 + length body)) new_parser)
    as [-> ->]; [lia..|]. rewrite bind_Ok_l. cbn beta iota.
  change (BGP_MSG_UPDATE =? BGP_MSG_UPDATE) with true. cbn [data_bytes_remaining set_hdr].
  assert (parseUpdateMsg (body ++ rest) (Z.of_nat (length body)) info no_update
          = Ok (Z.of_nat (length body), info, d)) as ->
    by (apply (parseUpdateMsg_app s ws l ns rest info); done || fold body; lia).
  rewrite bind_Ok_l. cbn beta iota. rewrite i32_small, !u64_small by (unfold BGP_MSG_HDR_LEN; lia).
  rewrite (proj2 (Z.eqb_eq _ _)) by (unfold BGP_MSG_HDR_LEN; lia). cbn [negb].
  destruct (update_result_ok s ws l ns Hl) as [Hn Hu]. fold d in Hn, Hu.
  destruct (fill_base_attr_ok (attrs d) uninit_path_attr Hn) as (a & Ha & _).
  set (st := set_remaining _ _).
  destruct (UpdateDB_unicast p d st t a _ Hu Ha eq_refl) as (ribs & Hr & ->).
  eexists a, _, ribs, _. split_and!; [done|exact Hr|done].
Qed.

(** C3: a well-formed UPDATE reaches the message bus.  For a BGP message that
    holds exactly the UPDATE, the handler reports no error, keeps the peer state
    and calls the bus in this order: the path attributes (when there is a next
    hop), one ADD with an entry per announced prefix and the attributes, one
    DEL with an entry per withdrawn prefix and no attributes; empty lists make
    no call. *)
Theorem handleUpdate_publishes (s : session) (ws : list nlri) (l : list (Z * path_attr)) (ns : list nlri)
    (rest : ptr) (info : peer_info) (p : obj_bgp_peer) (t : list bus_call) :
  let msg := enc_bgp BGP_MSG_UPDATE (enc_update s ws l ns) in
  let d := update_result s ws l ns in
  session_ok s info → Forall (wf_nlri 32) ws → Forall (wf_flagged s) l → Forall (wf_nlri 32) ns →
  23 < Z.of_nat (length msg) < 65536 →
  ∃ a h ribs st,
    fill_base_attr (attrs d) uninit_path_attr = Ok a
    ∧ Forall2 (λ t e, ∃ bc, e = rib_entry p h t bc) (advertised d) ribs
    ∧ handleUpdate false p (msg ++ rest) (Z.of_nat (length msg)) new_parser info t
      = Ok (false, st, info,
            t ++ update_calls p a ribs ((λ x, rib_entry p h x no_bcast) <$> withdrawn d)
                   (negb (is_empty (get_attr (attrs d) ATTR_TYPE_NEXT_HOP)))).
Proof. apply handleUpdate_app. Qed.

(** UPDATE messages that do not fit: withdrawn routes or attributes that are announced
    longer than what is left of the message, and octets behind a valid message *)
Inductive bad_update : Type :=
| WithdrawnTooLong (len : Z) (tail : list Z)
| AttrsTooLong (w : list Z) (len : Z) (tail : list Z)
| Trailing (s : session) (ws : list nlri) (l : list (Z * path_attr)) (ns : list nlri) (extra : list Z).

Definition enc_bad_update (u : bad_update) : list Z :=
  match u with
  | WithdrawnTooLong len tail => enc_bgp BGP_MSG_UPDATE (hton 2 len ++ tail)
  | AttrsTooLong w len tail => enc_bgp BGP_MSG_UPDATE (hton 2 (Z.of_nat (length w)) ++ w ++ hton 2 len ++ tail)
  | Trailing s ws l ns extra => enc_bgp BGP_MSG_UPDATE (enc_update s ws l ns) ++ extra
  end.
Definition wf_bad_update (info : peer_info) (u : bad_update) : Prop :=
  Z.of_nat (length (enc_bad_update u)) < 65536
  ∧ match u with
    | WithdrawnTooLong len tail => Z.of_nat (length tail) < len < 65536
    | AttrsTooLong _ len tail => Z.of_nat (length tail) < len < 65536
    | Trailing s ws l ns extra =>
        session_ok s info ∧ Forall (wf_nlri 32) ws ∧ Forall (wf_flagged s) l ∧ Forall (wf_nlri 32) ns
        ∧ 4 < Z.of_nat (length (enc_update s ws l ns)) ∧ extra ≠ []
    end.

(** C39: an UPDATE that does not fit its message is refused.  When the announced length of
    the withdrawn routes or of the attributes exceeds what is left of the message, and
    when octets follow a valid UPDATE in the body of the BMP message, the handler reports
    an error, for every bus, and has not called the bus. *)
Theorem handleUpdate_refuses {bus : Type} {MB : MsgBus bus} (redis : bool) (p : obj_bgp_peer) (u : bad_update)
    (rest : ptr) (info : peer_info) (b : bus) :
  wf_bad_update info u →
  ∃ s', handleUpdate redis p (enc_bad_update u ++ rest) (Z.of_nat (length (enc_bad_update u))) new_parser info b
        = Ok (true, s', info, b).
Proof.
  intros [Hlen Hu]. unfold handleUpdate. destruct u as [len tail|w len tail|s ws l ns extra]; cbn [enc_bad_update] in *.
  - rewrite length_enc_bgp in *. set (body := hton 2 len ++ tail) in *.
    assert (length body = (2 + length tail)%nat) as Hb by (unfold body; by rewrite length_app, length_hton).
    destruct (parseBgpHeader_enc BGP_MSG_UPDATE body rest (Z.of_nat (19 + length body)) new_parser) as [-> ->]; [lia..|].
    rewrite bind_Ok_l. cbn beta iota. change (BGP_MSG_UPDATE =? BGP_MSG_UPDATE) with true. cbn [data_bytes_remaining set_hdr].
    unfold parseUpdateMsg, body. rewrite <-app_assoc. fold body. zif; [lia|]. rewrite get_u16_hton, bind_Ok_l by lia. cbv zeta.
    rewrite (u64_small (_ - 2)) by lia. zif; [|lia]. rewrite bind_Ok_l. cbn beta iota. cbv zeta. change (u64 (i32 0)) with 0. rewrite u64_small by (unfold BGP_MSG_HDR_LEN; lia).
    rewrite (proj2 (Z.eqb_neq 0 _)) by (unfold BGP_MSG_HDR_LEN; lia). by eexists.
  - rewrite length_enc_bgp in *. set (body := hton 2 (Z.of_nat (length w)) ++ w ++ hton 2 len ++ tail) in *.
    assert (length body = (4 + length w + length tail)%nat) as Hb by (unfold body; rewrite !length_app, !length_hton; lia).
    destruct (parseBgpHeader_enc BGP_MSG_UPDATE body rest (Z.of_nat (19 + length body)) new_parser) as [-> ->]; [lia..|].
    rewrite bind_Ok_l. cbn beta iota. change (BGP_MSG_UPDATE =? BGP_MSG_UPDATE) with true. cbn [data_bytes_remaining set_hdr].
    unfold parseUpdateMsg, body. rewrite <-!app_assoc. fold body. zif; [lia|]. rewrite get_u16_hton, bind_Ok_l by lia. cbv zeta.
    rewrite (u64_small (_ - 2)) by lia. zif; [lia|]. rewrite adv_app by (by rewrite length_hton). rewrite adv_app by done.
    rewrite get_u16_hton, bind_Ok_l by lia. cbv zeta. rewrite (u64_small (_ - (2 + _ + 2))) by lia. zif; [|lia]. rewrite bind_Ok_l. cbn beta iota.
    cbv zeta. change (u64 (i32 0)) with 0. rewrite u64_small by (unfold BGP_MSG_HDR_LEN; lia).
    rewrite (proj2 (Z.eqb_neq 0 _)) by (unfold BGP_MSG_HDR_LEN; lia). by eexists.
  - destruct Hu as (Hs & Hws & Hl & Hns & Hn & Hx). rewrite length_app, length_enc_bgp in *. rewrite <-app_assoc.
    assert (0 < length extra)%nat by (destruct extra; [done|cbn; lia]).
    set (body := enc_update s ws l ns) in *.
    destruct (parseBgpHeader_enc BGP_MSG_UPDATE body (extra ++ rest) (Z.of_nat (19 + length body + length extra)) new_parser)
      as [-> ->]; [lia..|].
    rewrite bind_Ok_l. cbn beta iota. change (BGP_MSG_UPDATE =? BGP_MSG_UPDATE) with true. cbn [data_bytes_remaining set_hdr].
    rewrite (parseUpdateMsg_app s ws l ns (extra ++ rest) info) by (done || fold body; lia). rewrite bind_Ok_l. cbn beta iota.
    fold body. rewrite i32_small, !u64_small by (unfold BGP_MSG_HDR_LEN; lia).
    rewrite (proj2 (Z.eqb_neq _ _)) by (unfold BGP_MSG_HDR_LEN; lia). by eexists.
Qed.

(** A BGP header that announces fewer than its own 19 octets defeats the
    bounds checks of the body: the remaining length wraps to more than 4
    billion octets, and the UPDATE parser runs with that size. *)
Theorem short_header_unbounded (marker : list Z) (len type : Z) (rest : ptr) (size : Z) (s : parser) :
  length marker = 16%nat → 0 ≤ len < 19 → 19 ≤ size →
  parseBgpHeader (marker ++ hton 2 len ++ type :: rest) size s
  = Ok (type, set_hdr (2 ^ 32 + len - 19) len type s).
Proof.
  intros Hm Hl Hs. unfold parseBgpHeader, BGP_MSG_HDR_LEN. zif; [lia|].
  replace (marker ++ hton 2 len ++ type :: rest) with ((marker ++ hton 2 len ++ [type]) ++ rest)
    by (by rewrite <-!app_assoc).
  rewrite memcpy_app, bind_Ok_l by (rewrite !length_app, length_hton, Hm; done).
  rewrite drop_app_length' by done. rewrite take_app_length' by (by rewrite length_hton).
  rewrite ntoh_hton by (simpl; lia). rewrite app_assoc.
  rewrite app_nth2 by (rewrite length_app, length_hton, Hm; simpl; lia).
  rewrite length_app, length_hton, Hm. cbn [Nat.sub Nat.add nth].
  unfold u32. rewrite <-(Z.mod_add _ 1), Z.mod_small by lia. do 3 f_equal; lia.
Qed.
End update_handler.

Lemma handleUpdate_publishes_witness :
  let msg := enc_bgp BGP_MSG_UPDATE (enc_update sample_session sample_withdrawn sample_attrs sample_announced) in
  let d := update_result sample_session sample_withdrawn sample_attrs sample_announced in
  ∃ a h ribs st,
    fill_base_attr (attrs d) uninit_path_attr = Ok a
    ∧ Forall2 (λ t e, ∃ bc, e = rib_entry zero_peer h t bc) (advertised d) ribs
    ∧ @handleUpdate null_link_state _ _ false zero_peer (msg ++ []) (Z.of_nat (length msg)) new_parser
        add_path_peer []
      = Ok (false, st, add_path_peer,
            [] ++ update_calls zero_peer a ribs ((λ x, rib_entry zero_peer h x no_bcast) <$> withdrawn d)
                   (negb (is_empty (get_attr (attrs d) ATTR_TYPE_NEXT_HOP)))).
Proof.
  apply (@handleUpdate_publishes null_link_state sample_session sample_withdrawn sample_attrs
           sample_announced [] add_path_peer zero_peer []).
  - apply sample_session_ok.
  - apply sample_v4_wf.
  - apply sample_attrs_wf.
  - apply sample_v4_wf.
  - vm_compute. split; reflexivity.
Defined.

Lemma handleUpdate_refuses_witness :
  Forall (λ u, ∃ s', handleUpdate (LS := null_link_state) false zero_peer (enc_bad_update u ++ [7]) (Z.of_nat (length (enc_bad_update u)))
                       new_parser add_path_peer ([] : list bus_call) = Ok (true, s', add_path_peer, []))
    [WithdrawnTooLong 9 [0; 0]; AttrsTooLong [8; 10] 5 [0; 1]; Trailing sample_session sample_withdrawn sample_attrs sample_announced [0]].
Proof.
  apply Forall_cons_2; [|apply Forall_cons_2; [|apply Forall_singleton]];
    apply (@handleUpdate_refuses null_link_state _ _ false zero_peer _ [7] add_path_peer []).
  - split; [vm_compute; reflexivity|cbn; lia].
  - split; [vm_compute; reflexivity|cbn; lia].
  - split; [vm_compute; reflexivity|]. split; [apply sample_session_ok|]. split; [apply sample_v4_wf|]. split; [apply sample_attrs_wf|].
    split; [apply sample_v4_wf|]. split; [vm_compute; reflexivity|discriminate].
Defined.

Lemma short_header_unbounded_witness :
  parseBgpHeader (replicate 16 255 ++ hton 2 0 ++ 2 :: []) 19 new_parser
  = Ok (2, set_hdr (2 ^ 32 + 0 - 19) 0 2 new_parser).
Proof. apply (short_header_unbounded (replicate 16 255) 0 2 [] 19 new_parser); reflexivity || lia. Defined.

(** ** Peer up: two OPEN messages *)

Record open_msg : Type := { om_ver : Z; om_asn : Z; om_hold : Z; om_id : list Z; om_params : list (list tlv) }.

Definition enc_open_msg (o : open_msg) : list Z :=
  enc_bgp BGP_MSG_OPEN (enc_open (om_ver o) (om_asn o) (om_hold o) (om_id o) (om_params o)).

Definition wf_open (o : open_msg) : Prop :=
  0 ≤ om_asn o < 65536 ∧ 0 ≤ om_hold o < 65536 ∧ length (om_id o) = 4%nat
  ∧ Forall wf_param (om_params o) ∧ om_params o ≠ [] ∧ Z.of_nat (length (enc_open_msg o)) < 65536.

(** the effect of the capabilities of an OPEN message *)
Definition open_effect (sent : bool) (o : open_msg) (m : AddPathMap) : cap_state :=
  foldl (λ st p, foldl (cap_effect sent) st p) {| cs_asn := om_asn o; cs_caps := []; cs_add_path := m |}
    (om_params o).

Lemma length_enc_open ver asn hold id ps :
  length id = 4%nat → Z.of_nat (length (enc_open ver asn hold id ps)) = 10 + Z.of_nat (length (enc_params ps)).
Proof. intros H. unfold enc_open. rewrite !length_app, !length_hton. cbn [length]. lia. Qed.

Lemma handleOpen_app sent o rest size s asn hold info err :
  wf_open o → 19 ≤ size →
  handleOpen sent (enc_open_msg o ++ rest) size s asn hold info err
  = Ok ({| oo_hold := om_hold o; oo_bgp_id := inet_ntop4 (om_id o);
           oo_state := open_effect sent o (add_path_capability info) |}, rest,
        set_hdr 0 (Z.of_nat (length (enc_open_msg o))) BGP_MSG_OPEN s).
Proof.
  intros (Ha & Hh & Hi & Hp & Hne & Hl) Hs. unfold handleOpen, enc_open_msg in *. rewrite length_enc_bgp in *.
  set (body := enc_open _ _ _ _ _) in *.
  destruct (parseBgpHeader_enc BGP_MSG_OPEN body rest size s) as [-> ->]; [lia..|].
  rewrite bind_Ok_l. cbn beta iota. change (BGP_MSG_OPEN =? BGP_MSG_OPEN) with true. cbn [data_bytes_remaining set_hdr].
  assert (Z.of_nat (length body) = 10 + Z.of_nat (length (enc_params (om_params o)))) as Hb by by apply length_enc_open.
  rewrite Hb at 1. subst body. rewrite parseOpenMsg_app by done. rewrite bind_Ok_l. cbn beta iota.
  zif; [lia|]. rewrite <-Hb, adv_app by done. unfold set_remaining, set_hdr.
  cbn [data_bytes_remaining common_hdr_len common_hdr_type base_attr path_hash_id].
  rewrite Z.sub_diag, Nat2Z.inj_add. done.
Qed.

Lemma handleUpEvent_app (o1 o2 : open_msg) (rest : ptr) (size : Z) (s : parser) (info : peer_info)
    (up : obj_peer_up_event) :
  wf_open o1 → wf_open o2 → 19 ≤ size →
  let st1 := open_effect true o1 (add_path_capability info) in
  let st2 := open_effect false o2 (cs_add_path st1) in
  ∃ s', handleUpEvent (enc_open_msg o1 ++ enc_open_msg o2 ++ rest) size s info up
    = Ok (Z.of_nat (length (enc_open_msg o1)) + Z.of_nat (length (enc_open_msg o2)), s',
          {| sent_four_octet_asn := has_4octet (cs_caps st1); recv_four_octet_asn := has_4octet (cs_caps st2);
             using_2_octet_asn := false; add_path_capability := cs_add_path st2;
             peer_group := peer_group info; endOfRIB := endOfRIB info |},
          {| ue_info_data := ue_info_data up; ue_local_ip := ue_local_ip up; ue_local_port := ue_local_port up;
             ue_local_asn := cs_asn st1; ue_local_hold_time := om_hold o1;
             ue_local_bgp_id := strncpy 16 (inet_ntop4 (om_id o1));
             ue_remote_asn := cs_asn st2; ue_remote_port := ue_remote_port up;
             ue_remote_hold_time := om_hold o2; ue_remote_bgp_id := strncpy 16 (inet_ntop4 (om_id o2));
             ue_sent_cap := strncpy 4096 (join ", " (cs_caps st1));
             ue_recv_cap := strncpy 4096 (join ", " (cs_caps st2)) |}).
Proof.
  intros H1 H2 Hs st1 st2. eexists. unfold handleUpEvent.
  rewrite handleOpen_app, bind_Ok_l by done. cbn beta iota. cbn [oo_state oo_hold oo_bgp_id].
  rewrite handleOpen_app, bind_Ok_l by done. cbn beta iota. cbn [oo_state oo_hold oo_bgp_id common_hdr_len set_hdr].
  change (open_effect true o1 _) with st1.
  replace (add_path_capability (if has_4octet (cs_caps st1) then _ else _)) with (cs_add_path st1)
    by (by destruct (has_4octet _)).
  fold st2. do 3 f_equal. by destruct (has_4octet (cs_caps st1)), (has_4octet (cs_caps st2)).
Qed.

(** C23: a Peer Up with two OPEN messages.  The handler returns the octets of both
    messages; the event carries AS number, hold time, BGP identifier and the
    joined capability texts of each; the peer state has the 4-octet flags of the
    two capability lists, is reset to 4-octet AS numbers, and holds the add-path
    container after both messages, so that the answer for a family depends on
    what both sides announced. *)
Theorem handleUpEvent_roundtrip (o1 o2 : open_msg) (rest : ptr) (size : Z) (s : parser) (info : peer_info)
    (up : obj_peer_up_event) :
  wf_open o1 → wf_open o2 → 19 ≤ size →
  let st1 := open_effect true o1 (add_path_capability info) in
  let st2 := open_effect false o2 (cs_add_path st1) in
  ∃ s', handleUpEvent (enc_open_msg o1 ++ enc_open_msg o2 ++ rest) size s info up
    = Ok (Z.of_nat (length (enc_open_msg o1)) + Z.of_nat (length (enc_open_msg o2)), s',
          {| sent_four_octet_asn := has_4octet (cs_caps st1); recv_four_octet_asn := has_4octet (cs_caps st2);
             using_2_octet_asn := false; add_path_capability := cs_add_path st2;
             peer_group := peer_group info; endOfRIB := endOfRIB info |},
          {| ue_info_data := ue_info_data up; ue_local_ip := ue_local_ip up; ue_local_port := ue_local_port up;
             ue_local_asn := cs_asn st1; ue_local_hold_time := om_hold o1;
             ue_local_bgp_id := strncpy 16 (inet_ntop4 (om_id o1));
             ue_remote_asn := cs_asn st2; ue_remote_port := ue_remote_port up;
             ue_remote_hold_time := om_hold o2; ue_remote_bgp_id := strncpy 16 (inet_ntop4 (om_id o2));
             ue_sent_cap := strncpy 4096 (join ", " (cs_caps st1));
             ue_recv_cap := strncpy 4096 (join ", " (cs_caps st2)) |}).
Proof. apply handleUpEvent_app. Qed.

Definition sample_open (asn : Z) : open_msg :=
  {| om_ver := 4; om_asn := asn; om_hold := 180; om_id := [10; 0; 0; 1];
     om_params := [[(1, [0; 1; 0; 1]); (65, hton 4 asn); (69, [0; 1; 1; 3])]] |}.

Lemma sample_open_wf : wf_open (sample_open 65001) ∧ wf_open (sample_open 65002).
Proof.
  split; (split_and!; [simpl; lia..|reflexivity| |done|vm_compute; reflexivity]);
    (apply Forall_singleton; split; [|done]); repeat split; cbn; try done; intros _; exists 1%nat; done.
Qed.

Lemma handleUpEvent_roundtrip_witness :
  ∃ s', handleUpEvent (enc_open_msg (sample_open 65001) ++ enc_open_msg (sample_open 65002) ++ []) 98 new_parser
          new_peer_info zero_up_event
    = Ok (98, s',
          {| sent_four_octet_asn := true; recv_four_octet_asn := true; using_2_octet_asn := false;
             add_path_capability := addAddPath 1 1 3 false (addAddPath 1 1 3 true ∅);
             peer_group := ""; endOfRIB := false |},
          {| ue_info_data := ""; ue_local_ip := ""; ue_local_port := 0; ue_local_asn := 65001; ue_local_hold_time := 180;
             ue_local_bgp_id := "10.0.0.1"; ue_remote_asn := 65002; ue_remote_port := 0;
             ue_remote_hold_time := 180; ue_remote_bgp_id := "10.0.0.1";
             ue_sent_cap := "MPBGP (1) : afi=1 safi=1 : Unicast IPv4, 4 Octet ASN (65), ADD Path (69) : afi=1 safi=1 send/receive=3 : Unicast IPv4 Send/Receive";
             ue_recv_cap := "MPBGP (1) : afi=1 safi=1 : Unicast IPv4, 4 Octet ASN (65), ADD Path (69) : afi=1 safi=1 send/receive=3 : Unicast IPv4 Send/Receive" |}).
Proof.
  destruct sample_open_wf as [W1 W2].
  destruct (handleUpEvent_roundtrip (sample_open 65001) (sample_open 65002) [] 98 new_parser new_peer_info
              zero_up_event W1 W2) as [s' E]; [lia|].
  exists s'. rewrite E. vm_compute. reflexivity.
Defined.

(** ** Peer down: a NOTIFICATION message *)

(** A Peer Down with a BGP message.  A NOTIFICATION sets the event's code and
    subcode to its first two octets and replaces the event's text by the text of
    that code, which fits the field; the reason stays.  Any other message type
    is refused with an exception. *)
Theorem handleDownEvent_cases (type code sub : Z) (more rest : list Z) (size : Z) (s : parser)
    (de : obj_peer_down_event) :
  is_byte code → 19 ≤ size → Z.of_nat (length more) < 65000 →
  let msg := enc_bgp type (code :: sub :: more) ++ rest in
  (type = BGP_MSG_NOTIFICATION →
   ∃ s', handleDownEvent msg size s de
     = Ok (false, s', {| de_bmp_reason := de_bmp_reason de; de_bgp_err_code := code;
                         de_bgp_err_subcode := sub; de_error_text := notify_text code sub |}))
  ∧ (type ≠ BGP_MSG_NOTIFICATION →
     handleDownEvent msg size s de
     = Throw "ERROR: Invalid BGP MSG for BMP down event, expected NOTIFICATION message.").
Proof.
  intros Hc Hs Hl msg. subst msg. unfold handleDownEvent.
  destruct (parseBgpHeader_enc type (code :: sub :: more) rest size s) as [-> ->]; [done|cbn [length]; lia|].
  rewrite bind_Ok_l. cbn beta iota. split; intros Ht.
  - subst type. change (BGP_MSG_NOTIFICATION =? BGP_MSG_NOTIFICATION) with true.
    cbn [data_bytes_remaining set_hdr]. unfold parseNotify. cbn [length app].
    zif; [|lia]. run. rewrite u64_small by lia. zif; [|lia]. run. eexists.
    cbn [error_code error_subcode error_text]. unfold strncpy.
    rewrite str_take_all by (pose proof (length_notify_text code sub Hc); lia). done.
  - by rewrite (proj2 (Z.eqb_neq _ _) Ht).
Qed.

Lemma handleDownEvent_cases_witness :
  (∃ s', handleDownEvent (enc_bgp 3 [6; 2] ++ []) 21 new_parser zero_down_event
     = Ok (false, s', {| de_bmp_reason := 0; de_bgp_err_code := 6; de_bgp_err_subcode := 2;
                         de_error_text := "Administrative shutdown" |}))
  ∧ handleDownEvent (enc_bgp 1 [6; 2] ++ []) 21 new_parser zero_down_event
    = Throw "ERROR: Invalid BGP MSG for BMP down event, expected NOTIFICATION message.".
Proof.
  split.
  - apply (handleDownEvent_cases 3 6 2 [] [] 21 new_parser zero_down_event); [split; lia|lia|simpl; lia|done].
  - apply (handleDownEvent_cases 1 6 2 [] [] 21 new_parser zero_down_event); [split; lia|lia|simpl; lia|done].
Defined.

(** In the build for the SONiC state database the path attributes of an
    announcement are uninitialised.  With [REDIS_ENABLED] the attributes are not
    transferred, so that the attribute object of a fresh parser is the one the
    constructor left behind, and every call that the handling of any parsed
    UPDATE makes is a unicast update with this object or, for withdrawals, with
    none. *)
Theorem redis_build_attributes_uninitialised (p : obj_bgp_peer) (d : parsed_update_data) (s' : parser)
    (t : list bus_call) :
  UpdateDB true p d new_parser [] = Ok (s', t) →
  base_attr s' = uninit_path_attr
  ∧ Forall (λ c, ∃ ribs, c = CallUnicast p ribs (Some uninit_path_attr) UNICAST_PREFIX_ACTION_ADD
                       ∨ c = CallUnicast p ribs None UNICAST_PREFIX_ACTION_DEL) t.
Proof.
  intros H. unfold UpdateDB in H. cbn [mbind outcome_bind] in H.
  apply bind_Ok_inv in H as (b1 & H1 & H). apply bind_Ok_inv in H as (b2 & H2 & H).
  injection H as <- <-. split; [done|].
  assert (Forall (λ c, ∃ ribs, c = CallUnicast p ribs (Some uninit_path_attr) UNICAST_PREFIX_ACTION_ADD
                       ∨ c = CallUnicast p ribs None UNICAST_PREFIX_ACTION_DEL) b1) as Hb1.
  { unfold UpdateDBAdvPrefixes in H1. apply bind_Ok_inv in H1 as (ribs & _ & H1).
    destruct ribs; injection H1 as <-; [constructor|]. repeat constructor. eauto. }
  unfold UpdateDBWdrawnPrefixes in H2.
  destruct (_ <$> _); injection H2 as <-; [done|]. apply Forall_app. split; [done|]. repeat constructor. eauto.
Qed.

Lemma redis_build_attributes_uninitialised_witness :
  let d := set_advertised (dec_nlri true false <$> sample_announced) no_update in
  ∃ s' t, UpdateDB true zero_peer d new_parser [] = Ok (s', t) ∧ t ≠ []
    ∧ base_attr s' = uninit_path_attr
    ∧ Forall (λ c, ∃ ribs, c = CallUnicast zero_peer ribs (Some uninit_path_attr) UNICAST_PREFIX_ACTION_ADD
                         ∨ c = CallUnicast zero_peer ribs None UNICAST_PREFIX_ACTION_DEL) t.
Proof.
  intros d. eexists _, _. split; [vm_compute; reflexivity|]. split; [done|].
  apply (redis_build_attributes_uninitialised zero_peer d). vm_compute. reflexivity.
Defined.
