(* ===== verification/ParseBMP.v ===== *)
(** * The BMP parser ([bmp/parseBMP.cpp])

    Reads one BMP message from a socket: the common header of versions 1 to 3,
    the per-peer header, and the bodies that are not BGP messages (statistics,
    initiation, termination, the peer up and down headers).  The parser object
    keeps a copy of the packet, the buffered body and the peer entry. *)

From S2P Require Import Prelude Inet BgpCommon UpdateTypes MsgBus ParseBGP.

(** ** Constants *)

Definition BMP_HDRv3_LEN : Z := 5.
Definition BMP_HDRv1v2_LEN : Z := 43.
Definition BMP_PEER_HDR_LEN : Z := 42.
Definition BMP_INFO_TLV_HDR_LEN : Z := 4.
Definition BMP_TERM_MSG_LEN : Z := 4.
Definition BMP_PACKET_BUF_SIZE : Z := 68000.
(** [sizeof(bmp_data)] *)
Definition BMP_DATA_SIZE : Z := BMP_PACKET_BUF_SIZE + 1.

Definition TYPE_ROUTE_MON : Z := 0.
Definition TYPE_STATS_REPORT : Z := 1.
Definition TYPE_PEER_DOWN : Z := 2.
Definition TYPE_PEER_UP : Z := 3.
Definition TYPE_INIT_MSG : Z := 4.
Definition TYPE_TERM_MSG : Z := 5.

(** ** The parser object and its socket

    The socket is the octets that arrive until it is closed, or fails when
    [sock_err] is set.  Reads block until the requested octets are there. *)
Record bmp : Type := {
  sock : list Z; sock_err : bool;
  bmp_packet : list Z;                (** [bmp_packet_len] octets *)
  bmp_type : Z; bmp_len : Z;          (** [uint32_t] *)
  bmp_data : list Z; bmp_data_len : Z;
  entry : obj_bgp_peer }.

(** [bzero(bmp_data, sizeof(bmp_data))] *)
Definition zero_data : list Z := zeros (Z.to_nat BMP_DATA_SIZE).

Lemma length_zero_data : length zero_data = Z.to_nat BMP_DATA_SIZE.
Proof. unfold zero_data. apply length_zeros. Qed.
Lemma zero_data_bytes : bytes_ok zero_data.
Proof. unfold zero_data. apply Forall_replicate. done. Qed.
#[global] Strategy opaque [zero_data].

Definition new_bmp (stream : list Z) (err : bool) : bmp :=
  {| sock := stream; sock_err := err; bmp_packet := []; bmp_type := -1; bmp_len := 0;
     bmp_data := zero_data; bmp_data_len := 0; entry := zero_peer |}.

Definition set_sock (l : list Z) (pk : list Z) (b : bmp) : bmp :=
  {| sock := l; sock_err := sock_err b; bmp_packet := pk; bmp_type := bmp_type b; bmp_len := bmp_len b;
     bmp_data := bmp_data b; bmp_data_len := bmp_data_len b; entry := entry b |}.
Definition set_type (t : Z) (b : bmp) : bmp :=
  {| sock := sock b; sock_err := sock_err b; bmp_packet := bmp_packet b; bmp_type := t; bmp_len := bmp_len b;
     bmp_data := bmp_data b; bmp_data_len := bmp_data_len b; entry := entry b |}.
Definition set_len (n : Z) (b : bmp) : bmp :=
  {| sock := sock b; sock_err := sock_err b; bmp_packet := bmp_packet b; bmp_type := bmp_type b; bmp_len := n;
     bmp_data := bmp_data b; bmp_data_len := bmp_data_len b; entry := entry b |}.
Definition set_data (l : list Z) (n : Z) (b : bmp) : bmp :=
  {| sock := sock b; sock_err := sock_err b; bmp_packet := bmp_packet b; bmp_type := bmp_type b;
     bmp_len := bmp_len b; bmp_data := l; bmp_data_len := n; entry := entry b |}.
Definition set_entry (p : obj_bgp_peer) (b : bmp) : bmp :=
  {| sock := sock b; sock_err := sock_err b; bmp_packet := bmp_packet b; bmp_type := bmp_type b;
     bmp_len := bmp_len b; bmp_data := bmp_data b; bmp_data_len := bmp_data_len b; entry := p |}.

(** ** State and errors *)

Definition M (A : Type) : Type := bmp → outcome (A * bmp).
#[global] Instance M_ret : MRet M := λ A a b, Ok (a, b).
#[global] Instance M_bind : MBind M := λ A B f m b, '(a, b) ← m b; f a b.

Definition throw {A} (s : string) : M A := λ _, Throw s.
Definition lift {A} (m : outcome A) : M A := λ b, a ← m; Ok (a, b).
Definition get {A} (f : bmp → A) : M A := λ b, Ok (f b, b).
Definition modify (f : bmp → bmp) : M unit := λ b, Ok (tt, f b).

(** ** [Recv]

    The number of octets received (0 at the end of the stream, -1 for an error)
    and the octets; they are copied to the packet buffer unless it would fill. *)
Definition copy_packet (pk got : list Z) : list Z :=
  if Z.of_nat (length pk) + Z.of_nat (length got) <? BMP_PACKET_BUF_SIZE then pk ++ got else pk.

Definition Recv (n : Z) (peek : bool) : M (Z * list Z) := λ b,
  let got := take (Z.to_nat n) (sock b) in
  let r := Z.of_nat (length got) in
  if r =? 0 then Ok ((if sock_err b then -1 else 0, []), b)
  else
    Ok ((r, got), set_sock (if peek then sock b else drop (Z.to_nat n) (sock b))
                    (copy_packet (bmp_packet b) got) b).

(** a structure of [n] zeroed octets after a read of at most [n] *)
Definition into_zeros (n : nat) (got : list Z) : list Z := got ++ drop (length got) (zeros n).

(** ** Printed peer fields *)

Definition be16 (a b : Z) : Z := Z.lor (Z.shiftl a 8) b.
(** an [int] expression, converted to [unsigned long] *)
Definition be32_ulong (a b c d : Z) : Z :=
  u64 (i32 (Z.lor (Z.lor (Z.lor (Z.shiftl a 24) (Z.shiftl b 16)) (Z.shiftl c 8)) d)).

(** ["0x%04x%04x"] *)
Definition as_text (l : list Z) : string :=
  "0x" +:+ setw 4 "0" (hex (be16 (nth 0 l 0) (nth 1 l 0))) +:+ setw 4 "0" (hex (be16 (nth 2 l 0) (nth 3 l 0))).

Fixpoint read_hex (s : string) (acc : Z) : Z :=
  match s with
  | String c s' => match hex_value c with Some v => read_hex s' (16 * acc + v) | None => acc end
  | EmptyString => acc
  end.
(** [strtoll(s, NULL, 16)] of a text with the prefix [0x] *)
Definition strtoll16 (s : string) : Z :=
  match s with String _ (String _ s') => read_hex s' 0 | _ => 0 end.

(** ["%d.%d.%d.%d"] of the last four octets of an address *)
Definition v4_text (addr : list Z) : string := inet_ntop4 (drop 12 addr).

(** the route distinguisher, by its type *)
Definition rd_text (type : Z) (d : list Z) : string :=
  let x i := nth i d 0 in
  match type with
  | 1 => inet_ntop4 (drop 2 d) +:+ ":" +:+ dec (be16 (x 6%nat) (x 7%nat))
  | 2 => dec (be32_ulong (x 2%nat) (x 3%nat) (x 4%nat) (x 5%nat)) +:+ ":" +:+ dec (be16 (x 6%nat) (x 7%nat))
  | _ => dec (be16 (x 2%nat) (x 3%nat)) +:+ ":" +:+ dec (be32_ulong (x 4%nat) (x 5%nat) (x 6%nat) (x 7%nat))
  end.

(** ** Peer flags *)

Definition flag (bit : Z) (flags : Z) : bool := negb (Z.land flags bit =? 0).

Definition parsePeerFlags (peer_type peer_flags : Z) (p : obj_bgp_peer) : obj_bgp_peer :=
  let mk l3 pre adj loc locf v4 two :=
    {| pe_hash_id := pe_hash_id p; pe_router_hash_id := pe_router_hash_id p; pe_table_name := pe_table_name p;
       pe_rd := pe_rd p; pe_addr := pe_addr p; pe_bgp_id := pe_bgp_id p; pe_as := pe_as p;
       pe_isL3VPN := l3; pe_isPrePolicy := pre; pe_isAdjIn := adj; pe_isLocRib := loc;
       pe_isLocRibFiltered := locf; pe_isIPv4 := v4; pe_isTwoOctet := two;
       pe_timestamp_secs := pe_timestamp_secs p; pe_timestamp_us := pe_timestamp_us p |} in
  if peer_type =? 3 then
    mk (pe_isL3VPN p) (pe_isPrePolicy p) (pe_isAdjIn p) true
       (if flag 128 peer_flags then true else pe_isLocRibFiltered p) (pe_isIPv4 p) (pe_isTwoOctet p)
  else
    let adj := if flag 16 peer_flags then false else pe_isAdjIn p in
    let two := if flag 32 peer_flags then true else pe_isTwoOctet p in
    let pre := negb (flag 64 peer_flags) in
    mk (peer_type =? 1) pre (if flag 64 peer_flags then adj else true) false
       (pe_isLocRibFiltered p) (negb (flag 128 peer_flags)) two.

(** ** Headers *)

Section parser.
(** the time of day, seconds and microseconds *)
Context (now : Z * Z).

Definition set_peer (p : obj_bgp_peer) (rd addr id : string) (asn secs us : Z) : obj_bgp_peer :=
  {| pe_hash_id := pe_hash_id p; pe_router_hash_id := pe_router_hash_id p; pe_table_name := pe_table_name p;
     pe_rd := rd; pe_addr := addr; pe_bgp_id := id; pe_as := asn; pe_isL3VPN := pe_isL3VPN p;
     pe_isPrePolicy := pe_isPrePolicy p; pe_isAdjIn := pe_isAdjIn p; pe_isLocRib := pe_isLocRib p;
     pe_isLocRibFiltered := pe_isLocRibFiltered p; pe_isIPv4 := pe_isIPv4 p; pe_isTwoOctet := pe_isTwoOctet p;
     pe_timestamp_secs := secs; pe_timestamp_us := us |}.

(** the peer entry of a header of 42 octets *)
Definition peer_of_hdr (h : list Z) (p : obj_bgp_peer) : obj_bgp_peer :=
  let p := parsePeerFlags (nth 0 h 0) (nth 1 h 0) p in
  let rd := take 8 (drop 2 h) in
  let addr := take 16 (drop 10 h) in
  let secs := ntoh (take 4 (drop 34 h)) in
  let us := ntoh (take 4 (drop 38 h)) in
  set_peer p (strncpy 32 (snprintf 32 (rd_text (nth 1 rd 0) rd)))
    (strncpy 46 (snprintf 40 (if pe_isIPv4 p then v4_text addr else inet_ntop6 addr)))
    (strncpy 16 (snprintf 16 (inet_ntop4 (take 4 (drop 30 h)))))
    (u32 (strtoll16 (as_text (take 4 (drop 26 h)))))
    (if secs =? 0 then now.1 else secs)
    (if secs =? 0 then now.2 else if us <? 1000000 then us else us mod 1000000).

(** A short read is only logged: the missing octets are zeros. *)
Definition parsePeerHdr : M unit :=
  '(_, got) ← Recv BMP_PEER_HDR_LEN false;
  len ← get bmp_len;
  _ ← modify (set_len (u32 (len - BMP_PEER_HDR_LEN)));
  p ← get entry;
  modify (set_entry (peer_of_hdr (into_zeros 42 got) p)).

Definition parseBMPv3 : M unit :=
  '(r, got) ← Recv BMP_HDRv3_LEN false;
  if negb (r =? BMP_HDRv3_LEN) then throw "ERROR: Cannot read v3 BMP common header."
  else
    let len := u32 (ntoh (take 4 got) - (1 + BMP_HDRv3_LEN)) in
    let type := nth 4 got 0 in
    if BGP_MAX_MSG_SIZE <? len then throw "ERROR: BMP length is larger than max possible BGP size"
    else
      _ ← modify (set_type type);
      _ ← modify (set_len len);
      if (type =? TYPE_ROUTE_MON) || (type =? TYPE_STATS_REPORT) || (type =? TYPE_PEER_UP)
         || (type =? TYPE_PEER_DOWN)
      then parsePeerHdr
      else if (type =? TYPE_INIT_MSG) || (type =? TYPE_TERM_MSG) then mret tt
      else throw "ERROR: BMP message type is not supported".

(** *** Versions 1 and 2: 43 octets after the version *)

Definition rd_text_v2 (d : list Z) : string :=
  let x i := nth i d 0 in
  match be16 (x 0%nat) (x 1%nat) with
  | 1 => inet_ntop4 (drop 2 d) +:+ ":" +:+ dec (be16 (x 6%nat) (x 7%nat))
  | 2 => dec (be32_ulong (x 2%nat) (x 3%nat) (x 4%nat) (x 5%nat)) +:+ ":" +:+ dec (be16 (x 6%nat) (x 7%nat))
  | _ => dec (be16 (x 1%nat) (x 2%nat)) +:+ ":"
         +:+ dec (u64 (i32 (Z.lor (Z.lor (Z.lor (Z.lor (Z.shiftl (x 3%nat) 24) (Z.shiftl (x 4%nat) 16))
                                          (Z.shiftl (x 5%nat) 8)) (x 6%nat)) (x 7%nat))))
  end.

Definition peer_of_hdr_v2 (h : list Z) (p : obj_bgp_peer) : obj_bgp_peer :=
  let v6 := flag 128 (nth 2 h 0) in
  let addr := take 16 (drop 11 h) in
  let secs := ntoh (take 4 (drop 35 h)) in
  {| pe_hash_id := pe_hash_id p; pe_router_hash_id := pe_router_hash_id p; pe_table_name := pe_table_name p;
     pe_rd := strncpy 32 (snprintf 32 (rd_text_v2 (take 8 (drop 3 h))));
     pe_addr := strncpy 40 (snprintf 40 (if v6 then inet_ntop6 addr else v4_text addr));
     pe_bgp_id := strncpy 16 (snprintf 16 (inet_ntop4 (take 4 (drop 31 h))));
     pe_as := u32 (strtoll16 (as_text (take 4 (drop 27 h))));
     pe_isL3VPN := nth 0 h 0 =? 1;
     pe_isPrePolicy := pe_isPrePolicy p; pe_isAdjIn := pe_isAdjIn p; pe_isLocRib := pe_isLocRib p;
     pe_isLocRibFiltered := pe_isLocRibFiltered p; pe_isIPv4 := negb v6; pe_isTwoOctet := pe_isTwoOctet p;
     pe_timestamp_secs := if secs =? 0 then now.1 else secs; pe_timestamp_us := pe_timestamp_us p |}.

(** the length of the BGP message that follows, from its header *)
Definition peek_bgp_len : M unit :=
  '(i, buf) ← Recv 18 true;
  if i =? 18 then modify (set_len (ntoh (take 2 (drop 16 buf))))
  else throw "Failed to read BGP message for BMP length".

(** For a peer down the test of the peeked octet is inverted, so that the branch
    that looks at the reason runs with the zeroed buffer. *)
Definition parseBMPv2 : M unit :=
  _ ← modify (set_len 0);
  '(i, h) ← Recv BMP_HDRv1v2_LEN false;
  if negb (i =? BMP_HDRv1v2_LEN) then throw "ERROR: Cannot read v1/v2 BMP common header."
  else
    let type := nth 0 h 0 in
    _ ← modify (set_type (if type <? 128 then type else type - 256));
    _ ← (if type =? 0 then peek_bgp_len
         else if type =? 2 then
           '(i, _) ← Recv 1 true;
           if negb (i =? 1) then mret tt else throw "Failed to read BMP peer down reason"
         else if type =? 3 then throw "ERROR: Will need to add support for peer up if it's really used."
         else mret tt);
    p ← get entry;
    modify (set_entry (peer_of_hdr_v2 h p)).

Definition handleMessage : M Z :=
  '(r, got) ← Recv 1 false;
  if r <? 0 then throw "(1) Failed to read from socket."
  else if r =? 0 then throw "(2) Connection closed"
  else
    let ver := nth 0 got 0 in
    _ ← (if ver =? 3 then parseBMPv3
         else if (ver =? 1) || (ver =? 2) then parseBMPv2
         else throw "ERROR: Unsupported BMP message version");
    get bmp_type.
End parser.

(** ** Bodies *)

Definition parsePeerDownEventHdr (e : obj_peer_down_event) : M (bool * obj_peer_down_event) :=
  '(r, got) ← Recv 1 false;
  if r =? 1 then
    len ← get bmp_len;
    _ ← modify (set_len (u32 (len - 1)));
    mret (true, {| de_bmp_reason := nth 0 got 0; de_bgp_err_code := de_bgp_err_code e;
                   de_bgp_err_subcode := de_bgp_err_subcode e; de_error_text := de_error_text e |})
  else mret (false, e).

(** The result of [Recv] goes to the [size_t] length before it is checked. *)
Definition bufferBMPMessage : M unit :=
  len ← get bmp_len;
  if len <=? 0 then mret tt
  else if BMP_DATA_SIZE <? len
  then throw "BMP message length is too large for buffer, invalid BMP sender"
  else
    '(r, got) ← Recv len false;
    old ← get bmp_data;
    _ ← modify (set_data (got ++ drop (length got) old) (u64 r));
    if negb (u64 r =? len) then throw "Error while reading BMP data into buffer"
    else modify (set_len 0).

(** *** Information TLVs *)

(** type, length, and the octets of the information in a zeroed buffer of
    [cap] octets, [None] for a null pointer; with the octets consumed *)
Definition read_tlv (cap : nat) (p : ptr) : outcome (Z * Z * option (list Z) * Z) :=
  hdr ← memcpy 4 p;
  let type := ntoh (take 2 hdr) in
  let len := ntoh (drop 2 hdr) in
  if 0 <? len then
    let infoLen := if Z.of_nat cap <? len then Z.of_nat cap else len in
    buf ← memcpy_into (zeros cap) infoLen (adv 4 p);
    Ok (type, len, Some buf, 4 + infoLen)
  else Ok (type, len, None, 4).

(** [for (int i = 0; i < len; i += BMP_INFO_TLV_HDR_LEN)]: the loop over the TLVs
    that the peer up, initiation and termination handlers share; [f] is the
    [switch] on the type *)
Fixpoint tlv_loop {S : Type} (cap : nat) (f : Z → Z → option (list Z) → S → outcome S)
    (fuel : nat) (i len : Z) (p : ptr) (s : S) : outcome S :=
  match fuel with
  | O => NoFuel
  | Datatypes.S fuel =>
      if i <? len then
        '(type, ilen, info, n) ← read_tlv cap p;
        s ← f type ilen info s;
        tlv_loop cap f fuel (i + n) len (adv n p) s
      else Ok s
  end.

(** [sizeof(dst) < (len - 1) ? sizeof(dst) - 1 : len], with [len - 1] as [size_t] *)
Definition clip (size : nat) (len : Z) : Z :=
  if Z.of_nat size <? u64 (len - 1) then Z.of_nat size - 1 else len.

(** [memcpy(dst, info, n)] through a pointer that may be null *)
Definition copy_info (dst : list Z) (n : Z) (info : option (list Z)) : outcome (list Z) :=
  match info with
  | Some buf => memcpy_into dst n buf
  | None => if n =? 0 then Ok dst else Undef NullDeref
  end.

(** [strncpy(dst, src, n)]: up to the terminator, the rest of [n] zeroed *)
Fixpoint until_nul (l : list Z) : list Z :=
  match l with
  | [] => []
  | b :: l' => if b =? 0 then [] else b :: until_nul l'
  end.
Definition strncpy_into (dst : list Z) (n : Z) (src : list Z) : outcome (list Z) :=
  if n <=? Z.of_nat (length dst) then
    let t := until_nul (take (Z.to_nat n) src) in
    Ok (t ++ zeros (Z.to_nat n - length t) ++ drop (Z.to_nat n) dst)
  else Undef OobWrite.

Definition set_table_name (l : list Z) (p : obj_bgp_peer) : obj_bgp_peer :=
  {| pe_hash_id := pe_hash_id p; pe_router_hash_id := pe_router_hash_id p; pe_table_name := l;
     pe_rd := pe_rd p; pe_addr := pe_addr p; pe_bgp_id := pe_bgp_id p; pe_as := pe_as p;
     pe_isL3VPN := pe_isL3VPN p; pe_isPrePolicy := pe_isPrePolicy p; pe_isAdjIn := pe_isAdjIn p;
     pe_isLocRib := pe_isLocRib p; pe_isLocRibFiltered := pe_isLocRibFiltered p; pe_isIPv4 := pe_isIPv4 p;
     pe_isTwoOctet := pe_isTwoOctet p; pe_timestamp_secs := pe_timestamp_secs p;
     pe_timestamp_us := pe_timestamp_us p |}.

Definition INFO_TLV_PEER_VRF_TABLE : Z := 3.

Definition up_info (type len : Z) (info : option (list Z)) (e : obj_bgp_peer) : outcome obj_bgp_peer :=
  if type =? INFO_TLV_PEER_VRF_TABLE
  then t ← copy_info (pe_table_name e) (clip 255 len) info; Ok (set_table_name t e)
  else Ok e.

Definition parsePeerUpInfo (data : ptr) (len : Z) (e : obj_bgp_peer) : outcome obj_bgp_peer :=
  tlv_loop 255 up_info (S (Z.to_nat len)) 0 len data e.

(** *** Peer up *)

Definition set_local (ip : string) (lp rp : Z) (u : obj_peer_up_event) : obj_peer_up_event :=
  {| ue_info_data := ue_info_data u; ue_local_ip := ip; ue_local_port := lp; ue_local_asn := ue_local_asn u;
     ue_local_hold_time := ue_local_hold_time u; ue_local_bgp_id := ue_local_bgp_id u;
     ue_remote_asn := ue_remote_asn u; ue_remote_port := rp; ue_remote_hold_time := ue_remote_hold_time u;
     ue_remote_bgp_id := ue_remote_bgp_id u; ue_sent_cap := ue_sent_cap u; ue_recv_cap := ue_recv_cap u |}.

(** a read that continues only while the header parses *)
Definition recv_exact (good : bool) (n : Z) : M (option (list Z)) :=
  if good then
    '(r, got) ← Recv n false;
    mret (if r =? n then Some got else None)
  else mret None.

Definition parsePeerUpEventHdr (u : obj_peer_up_event) : M (bool * obj_peer_up_event) :=
  addr ← recv_exact true 16;
  e ← get entry;
  let ip := match addr with
            | Some a => snprintf 40 (if pe_isIPv4 e then v4_text a else inet_ntop6 a)
            | None => ue_local_ip u
            end in
  lport ← recv_exact (bool_decide (is_Some addr)) 2;
  rport ← recv_exact (bool_decide (is_Some lport)) 2;
  let count {A} (o : option A) (n : Z) : Z := match o with Some _ => n | None => 0 end in
  let bytes_read := count addr 16 + count lport 2 + count rport 2 in
  let port (o : option (list Z)) (old : Z) : Z := match o with Some b => ntoh b | None => old end in
  len ← get bmp_len;
  _ ← modify (set_len (u32 (len - bytes_read)));
  _ ← bufferBMPMessage;
  let good := bool_decide (is_Some rport) in
  _ ← (if good then mret tt else bufferBMPMessage);
  mret (good, set_local ip (port lport (ue_local_port u)) (port rport (ue_remote_port u)) u).

(** *** Statistics *)

(** [memcpy(&field, b, len)] of a host-order counter of 4 or 8 octets into a
    field of [width] octets *)
Definition store_stat (width : Z) (old : Z) (b : list Z) : outcome Z :=
  if Z.of_nat (length b) <=? width
  then Ok (le_val (b ++ drop (length b) (le_bytes (Z.to_nat width) old)))
  else Undef OobWrite.

Definition set_stat (type : Z) (b : list Z) (s : obj_stats_report) : outcome obj_stats_report :=
  let mk a0 a1 a2 a3 a4 a5 a6 a7 a8 :=
    {| sr_prefixes_rej := a0; sr_known_dup_prefixes := a1; sr_known_dup_withdraws := a2;
       sr_invalid_cluster_list := a3; sr_invalid_as_path_loop := a4; sr_invalid_originator_id := a5;
       sr_invalid_as_confed_loop := a6; sr_routes_adj_rib_in := a7; sr_routes_loc_rib := a8 |} in
  let w t width old := if type =? t then store_stat width old b else Ok old in
  a0 ← w 0 4 (sr_prefixes_rej s);
  a1 ← w 1 4 (sr_known_dup_prefixes s);
  a2 ← w 2 4 (sr_known_dup_withdraws s);
  a3 ← w 3 4 (sr_invalid_cluster_list s);
  a4 ← w 4 4 (sr_invalid_as_path_loop s);
  a5 ← w 5 4 (sr_invalid_originator_id s);
  a6 ← w 6 4 (sr_invalid_as_confed_loop s);
  a7 ← w 7 8 (sr_routes_adj_rib_in s);
  a8 ← w 8 8 (sr_routes_loc_rib s);
  Ok (mk a0 a1 a2 a3 a4 a5 a6 a7 a8).

(** [while (stat_len-- > 0) Recv(sock, &b[0], 1, 0);] *)
Fixpoint skip_octets (n : nat) : M unit :=
  match n with
  | O => mret tt
  | S n => _ ← Recv 1 false; skip_octets n
  end.

(** [for (unsigned long i = 0; i < stats_cnt; i++)]; a counter that cannot be
    read completely is ignored *)
Fixpoint stats_loop (cnt : nat) (s : obj_stats_report) : M obj_stats_report :=
  match cnt with
  | O => mret s
  | S cnt =>
      '(r, ty) ← Recv 2 false;
      if negb (r =? 2) then throw "ERROR: Cannot proceed since we cannot read the stats type."
      else
        '(r, ln) ← Recv 2 false;
        if negb (r =? 2) then throw "ERROR: Cannot proceed since we cannot read the stats len."
        else
          blen ← get bmp_len;
          _ ← modify (set_len (u32 (blen - 4)));
          let type := ntoh ty in
          let len := ntoh ln in
          if (len =? 4) || (len =? 8) then
            '(r, b) ← Recv len false;
            if r =? len then
              blen ← get bmp_len;
              _ ← modify (set_len (u32 (blen - len)));
              s ← lift (set_stat type (SWAP_BYTES b) s);
              stats_loop cnt s
            else stats_loop cnt s
          else _ ← skip_octets (Z.to_nat len); stats_loop cnt s
  end.

Definition handleStatsReport (s : obj_stats_report) : M (bool * obj_stats_report) :=
  '(r, b) ← Recv 4 false;
  if negb (r =? 4) then throw "ERROR:  Cannot proceed since we cannot read the stats mon counter"
  else
    len ← get bmp_len;
    _ ← modify (set_len (u32 (len - 4)));
    s ← stats_loop (Z.to_nat (ntoh b)) s;
    mret (false, s).

(** *** Initiation *)

Definition set_router (h : Z) (name descr init : list Z) (id : string) (r : obj_router) : obj_router :=
  {| ro_hash_id := ro_hash_id r; ro_hash_type := h; ro_name := name; ro_descr := descr;
     ro_ip_addr := ro_ip_addr r; ro_bgp_id := id; ro_asn := ro_asn r;
     ro_term_reason_code := ro_term_reason_code r; ro_term_reason_text := ro_term_reason_text r;
     ro_term_data := ro_term_data r; ro_initiate_data := init;
     ro_timestamp_secs := ro_timestamp_secs r; ro_timestamp_us := ro_timestamp_us r |}.

Definition INIT_TYPE_FREE_FORM_STRING : Z := 0.
Definition INIT_TYPE_SYSDESCR : Z := 1.
Definition INIT_TYPE_SYSNAME : Z := 2.
Definition INIT_TYPE_ROUTER_BGP_ID : Z := 65531.

(** [switch (info.type)]; an information of length zero is skipped *)
Definition init_info (type len : Z) (info : option (list Z)) (r : obj_router) : outcome obj_router :=
  match info with None => Ok r | Some buf =>
  if type =? INIT_TYPE_FREE_FORM_STRING then
    l ← memcpy_into (ro_initiate_data r) (clip 4096 len) buf;
    Ok (set_router (ro_hash_type r) (ro_name r) (ro_descr r) l (ro_bgp_id r) r)
  else if type =? INIT_TYPE_SYSNAME then
    l ← strncpy_into (ro_name r) (clip 255 len) buf;
    Ok (set_router (if ro_hash_type r <? 2 then 1 else ro_hash_type r) l (ro_descr r) (ro_initiate_data r)
          (ro_bgp_id r) r)
  else if type =? INIT_TYPE_SYSDESCR then
    l ← strncpy_into (ro_descr r) (clip 255 len) buf;
    Ok (set_router (ro_hash_type r) (ro_name r) l (ro_initiate_data r) (ro_bgp_id r) r)
  else if type =? INIT_TYPE_ROUTER_BGP_ID then
    if negb (len =? 4) then Ok r
    else Ok (set_router 2 (ro_name r) (ro_descr r) (ro_initiate_data r) (snprintf 16 (inet_ntop4 buf)) r)
  else Ok r
  end.

Definition handleInitMsg (r : obj_router) : M obj_router :=
  let r := set_router 0 (ro_name r) (ro_descr r) (ro_initiate_data r) (ro_bgp_id r) r in
  _ ← bufferBMPMessage;
  data ← get bmp_data;
  len ← get bmp_data_len;
  lift (tlv_loop 4096 init_info (S (Z.to_nat len)) 0 len data r).

(** *** Termination *)

Definition TERM_TYPE_FREE_FORM_STRING : Z := 0.
Definition TERM_TYPE_REASON : Z := 1.

Definition term_text (reason : Z) : string :=
  match reason with
  | 0 => "Remote session administratively closed"
  | 2 => "Remote out of resources"
  | 3 => "Remote considers connection redundant"
  | 1 => "Remote closed with unspecified reason"
  | _ => "Unknown " +:+ dec reason +:+ " termination reason, which is not part of draft."
  end.

Definition set_term (code : Z) (text : string) (data : list Z) (r : obj_router) : obj_router :=
  {| ro_hash_id := ro_hash_id r; ro_hash_type := ro_hash_type r; ro_name := ro_name r; ro_descr := ro_descr r;
     ro_ip_addr := ro_ip_addr r; ro_bgp_id := ro_bgp_id r; ro_asn := ro_asn r;
     ro_term_reason_code := code; ro_term_reason_text := text; ro_term_data := data;
     ro_initiate_data := ro_initiate_data r; ro_timestamp_secs := ro_timestamp_secs r;
     ro_timestamp_us := ro_timestamp_us r |}.

Definition term_info (type len : Z) (info : option (list Z)) (r : obj_router) : outcome obj_router :=
  if type =? TERM_TYPE_FREE_FORM_STRING then
    l ← copy_info (ro_term_data r) len info;
    Ok (set_term (ro_term_reason_code r) (ro_term_reason_text r) l r)
  else if type =? TERM_TYPE_REASON then
    b ← copy_info (zeros 2) 2 info;
    let reason := ntoh b in
    Ok (set_term reason (snprintf 255 (term_text reason)) (ro_term_data r) r)
  else Ok r.

Definition handleTermMsg (r : obj_router) : M obj_router :=
  _ ← bufferBMPMessage;
  data ← get bmp_data;
  len ← get bmp_data_len;
  lift (tlv_loop 4096 term_info (S (Z.to_nat len)) 0 len data r).

(** ** Running the parser *)

Lemma M_bind_Ok {A B} (m : M A) (f : A → M B) b a b' : m b = Ok (a, b') → (m ≫= f) b = f a b'.
Proof. intros E. unfold mbind, M_bind. by rewrite E. Qed.
Lemma M_bind_Throw {A B} (m : M A) (f : A → M B) b s : m b = Throw s → (m ≫= f) b = Throw s.
Proof. intros E. unfold mbind, M_bind. by rewrite E. Qed.

Lemma get_bind {A B} (g : bmp → A) (f : A → M B) b : (get g ≫= f) b = f (g b) b.
Proof. done. Qed.
Lemma modify_bind {B} (g : bmp → bmp) (f : unit → M B) b : (modify g ≫= f) b = f tt (g b).
Proof. done. Qed.
Lemma mret_bind {A B} (a : A) (f : A → M B) b : (mret a ≫= f) b = f a b.
Proof. done. Qed.

(** a read that the socket can serve *)
Lemma Recv_app bs rest n b :
  sock b = bs ++ rest → n = Z.of_nat (length bs) → 0 < n →
  Recv n false b = Ok ((n, bs), set_sock rest (copy_packet (bmp_packet b) bs) b).
Proof.
  intros Hs -> Hn. unfold Recv. rewrite Hs, Nat2Z.id, take_app_length, drop_app_length. by zif; [lia|].
Qed.

(** a read that it cannot serve returns fewer octets *)
Lemma Recv_short n b :
  Z.of_nat (length (sock b)) < n → ∃ r got b', Recv n false b = Ok ((r, got), b') ∧ r < n ∧ -1 ≤ r
    ∧ length got = Z.to_nat r ∧ (length (bmp_packet b') < Z.to_nat BMP_PACKET_BUF_SIZE ∨ bmp_packet b' = bmp_packet b)%nat.
Proof.
  intros Hn. unfold Recv. rewrite take_ge by lia. zif.
  - destruct (sock_err b); eexists _, _, _; split_and!; try done; try lia; by right.
  - eexists _, _, _; split_and!; try done; try lia.
    cbn [bmp_packet set_sock]. unfold copy_packet. zif; [left; rewrite length_app; lia|by right].
Qed.

Ltac mstep := first
  [ rewrite get_bind | rewrite modify_bind | rewrite mret_bind
  | erewrite M_bind_Ok by (apply Recv_app; [cbn [sock set_sock set_len set_type set_entry set_data]; done|done|done])
  ]; cbn beta iota.

(** ** Message framing, version 3 *)

Definition enc_v3 (type : Z) (body : list Z) : list Z :=
  3 :: hton 4 (6 + Z.of_nat (length body)) ++ type :: body.

(** the packet copy grows by a read of [bs] *)
Definition consumed (bs : list Z) (rest : list Z) (b : bmp) : bmp :=
  set_sock rest (copy_packet (bmp_packet b) bs) b.

Section framing.
Context (now : Z * Z).

Lemma handleMessage_v3_hdr len type rest b :
  sock b = 3 :: hton 4 len ++ type :: rest → 6 ≤ len ≤ 65541 →
  handleMessage now b
  = ((if (type =? TYPE_ROUTE_MON) || (type =? TYPE_STATS_REPORT) || (type =? TYPE_PEER_UP)
         || (type =? TYPE_PEER_DOWN)
      then parsePeerHdr now
      else if (type =? TYPE_INIT_MSG) || (type =? TYPE_TERM_MSG) then mret tt
      else throw "ERROR: BMP message type is not supported") ≫= λ _, get bmp_type)
    (set_len (len - 6) (set_type type (consumed (hton 4 len ++ [type]) rest (consumed [3] (hton 4 len ++ type :: rest) b)))).
Proof.
  intros Hs Hl. unfold handleMessage. 
  erewrite M_bind_Ok by (apply (Recv_app [3]); [exact Hs|done|lia]). cbn beta iota.
  change (1 <? 0) with false. change (1 =? 0) with false. change (nth 0 [3] 0 =? 3) with true. cbn iota.
  unfold parseBMPv3. unfold mbind at 1, M_bind at 1.
  assert (length (hton 4 len ++ [type]) = 5%nat) as H5 by (rewrite length_app, length_hton; done).
  erewrite M_bind_Ok by (apply (Recv_app (hton 4 len ++ [type]) rest);
    [cbn [sock set_sock]; by rewrite <-app_assoc|by rewrite H5|done]).
  cbn beta iota. change (negb (BMP_HDRv3_LEN =? BMP_HDRv3_LEN)) with false. cbn iota.
  rewrite take_app_length' by (by rewrite length_hton). rewrite ntoh_hton by (simpl; lia).
  unfold BMP_HDRv3_LEN. rewrite u32_small by lia. unfold BGP_MAX_MSG_SIZE. zif; [lia|].
  rewrite !modify_bind. rewrite app_nth2 by (rewrite length_hton; lia). rewrite length_hton.
  cbn [nth Nat.sub]. replace (len - (1 + 5)) with (len - 6) by lia. done.
Qed.
End framing.

(** ** Whole messages *)

Definition peer_type_msg (type : Z) : bool :=
  (type =? TYPE_ROUTE_MON) || (type =? TYPE_STATS_REPORT) || (type =? TYPE_PEER_UP) || (type =? TYPE_PEER_DOWN).

Lemma copy_packet_app pk bs :
  Z.of_nat (length pk + length bs) < BMP_PACKET_BUF_SIZE → copy_packet pk bs = pk ++ bs.
Proof. intros H. unfold copy_packet. zif; [done|lia]. Qed.

(** a fresh parser reads the headers of a per-peer message *)
Lemma handleMessage_peer now type hdr body rest err :
  peer_type_msg type = true → length hdr = 42%nat → Z.of_nat (length body) ≤ 65493 →
  ∃ b, handleMessage now (new_bmp (enc_v3 type (hdr ++ body) ++ rest) err) = Ok (type, b)
    ∧ sock b = body ++ rest ∧ bmp_len b = Z.of_nat (length body)
    ∧ entry b = peer_of_hdr now hdr zero_peer ∧ bmp_data b = zero_data ∧ bmp_data_len b = 0
    ∧ bmp_packet b ++ body = enc_v3 type (hdr ++ body).
Proof.
  intros Ht Hh Hb. set (n := 48 + Z.of_nat (length body)).
  assert (enc_v3 type (hdr ++ body) = 3 :: hton 4 n ++ type :: hdr ++ body) as Ee.
  { unfold enc_v3. rewrite length_app, Hh. by replace (6 + Z.of_nat (42 + length body)) with n by lia. }
  assert (enc_v3 type (hdr ++ body) ++ rest = 3 :: hton 4 n ++ type :: hdr ++ body ++ rest) as Es.
  { rewrite Ee. cbn [app]. rewrite <-!app_assoc. cbn [app]. by rewrite <-!app_assoc. }
  rewrite (handleMessage_v3_hdr now n type (hdr ++ body ++ rest)) by (done || lia).
  unfold peer_type_msg in Ht. rewrite Ht, Ee. set (b0 := set_len _ _).
  assert (length (hton 4 n) = 4%nat) as H4 by apply length_hton.
  assert (bmp_packet b0 = 3 :: hton 4 n ++ [type]) as Hp.
  { cbn [b0 bmp_packet set_len set_type consumed set_sock new_bmp].
    rewrite !copy_packet_app; rewrite ?length_app, ?H4; done. }
  eexists. split.
  { unfold parsePeerHdr. unfold mbind at 1, M_bind at 1.
    erewrite M_bind_Ok by (apply (Recv_app hdr (body ++ rest)); [done|by rewrite Hh|done]).
    cbn beta iota. rewrite get_bind, modify_bind, get_bind. reflexivity. }
  cbn [sock bmp_len entry bmp_data bmp_data_len bmp_packet set_entry set_len set_sock]. rewrite Hp.
  unfold BMP_PEER_HDR_LEN, into_zeros. rewrite Hh. change (drop 42 (zeros 42)) with (@nil Z).
  cbn [b0 bmp_len set_len]. rewrite u32_small by lia. rewrite app_nil_r.
  rewrite copy_packet_app by (cbn [length]; rewrite length_app, H4, Hh; done).
  split_and!; [done|lia|done..|]. cbn [app]. by rewrite <-!app_assoc.
Qed.

(** *** Messages that are not valid *)

Lemma handleMessage_bad_length now len type rest err :
  0 ≤ len < 2 ^ 32 → (len < 6 ∨ 65541 < len) →
  handleMessage now (new_bmp (3 :: hton 4 len ++ type :: rest) err) = Throw "ERROR: BMP length is larger than max possible BGP size".
Proof.
  intros Hl Hb. unfold handleMessage. erewrite M_bind_Ok by (apply (Recv_app [3]); [reflexivity|done|lia]). cbn beta iota.
  change (1 <? 0) with false. change (1 =? 0) with false. change (nth 0 [3] 0 =? 3) with true. cbn iota.
  apply M_bind_Throw. unfold parseBMPv3.
  erewrite M_bind_Ok by (apply (Recv_app (hton 4 len ++ [type]) rest);
    [cbn [sock set_sock]; by rewrite <-app_assoc|by rewrite length_app, length_hton|done]).
  cbn beta iota. change (negb (BMP_HDRv3_LEN =? BMP_HDRv3_LEN)) with false. cbn iota.
  rewrite take_app_length' by (by rewrite length_hton). rewrite ntoh_hton by (simpl; lia).
  unfold BMP_HDRv3_LEN, BGP_MAX_MSG_SIZE. zif; [done|]. exfalso.
  destruct Hb as [Hb|Hb]; unfold u32 in *; [|rewrite Z.mod_small in E by lia; lia].
  rewrite <-(Z.mod_add _ 1), Z.mod_small in E by lia. lia.
Qed.

Lemma handleMessage_unknown_type now len type rest err :
  6 ≤ len ≤ 65541 → 6 ≤ type < 256 →
  handleMessage now (new_bmp (3 :: hton 4 len ++ type :: rest) err) = Throw "ERROR: BMP message type is not supported".
Proof.
  intros Hl Ht. rewrite (handleMessage_v3_hdr now len type rest) by done.
  unfold TYPE_ROUTE_MON, TYPE_STATS_REPORT, TYPE_PEER_UP, TYPE_PEER_DOWN, TYPE_INIT_MSG, TYPE_TERM_MSG.
  do 6 (rewrite (proj2 (Z.eqb_neq type _)) by lia). done.
Qed.

Lemma handleMessage_unknown_version now ver rest err :
  ver ∉ [1; 2; 3] → handleMessage now (new_bmp (ver :: rest) err) = Throw "ERROR: Unsupported BMP message version".
Proof.
  intros Hv. unfold handleMessage. erewrite M_bind_Ok by (apply (Recv_app [ver]); [reflexivity|done|lia]). cbn beta iota.
  change (1 <? 0) with false. change (1 =? 0) with false. cbn [nth]. cbn iota. set_unfold in Hv.
  do 3 (rewrite (proj2 (Z.eqb_neq ver _)) by naive_solver). done.
Qed.

Lemma handleMessage_cut_header now some err :
  (length some < 5)%nat → handleMessage now (new_bmp (3 :: some) err) = Throw "ERROR: Cannot read v3 BMP common header.".
Proof.
  intros Hl. unfold handleMessage. erewrite M_bind_Ok by (apply (Recv_app [3]); [reflexivity|done|lia]). cbn beta iota.
  change (1 <? 0) with false. change (1 =? 0) with false. change (nth 0 [3] 0 =? 3) with true. cbn iota.
  apply M_bind_Throw. unfold parseBMPv3. match goal with |- (Recv _ _ ≫= _) ?b0 = _ => set (b := b0) end.
  assert (sock b = some) as Hb by done. destruct (Recv_short BMP_HDRv3_LEN b) as (r & got & b' & E1 & Hr1 & Hr2 & _); [rewrite Hb; unfold BMP_HDRv3_LEN; lia|].
  rewrite (M_bind_Ok _ _ _ _ _ E1). cbn beta iota. unfold BMP_HDRv3_LEN in *. by rewrite (proj2 (Z.eqb_neq r 5)) by lia.
Qed.

(** the headers of a per-peer message that announces [n] octets after them *)
Lemma handleMessage_announced now type hdr n tail err :
  peer_type_msg type = true → length hdr = 42%nat → -42 ≤ n ≤ 65493 →
  ∃ b, handleMessage now (new_bmp (3 :: hton 4 (48 + n) ++ type :: hdr ++ tail) err) = Ok (type, b)
    ∧ sock b = tail ∧ bmp_len b = u32 n ∧ entry b = peer_of_hdr now hdr zero_peer ∧ bmp_data b = zero_data.
Proof.
  intros Ht Hh Hn. rewrite (handleMessage_v3_hdr now (48 + n) type (hdr ++ tail)) by (done || lia).
  unfold peer_type_msg in Ht. rewrite Ht. set (b0 := set_len _ _). eexists. split.
  { unfold parsePeerHdr. unfold mbind at 1, M_bind at 1.
    erewrite M_bind_Ok by (apply (Recv_app hdr tail); [done|by rewrite Hh|done]).
    cbn beta iota. rewrite get_bind, modify_bind, get_bind. reflexivity. }
  cbn [sock bmp_len entry bmp_data set_entry set_len set_sock consumed].
  unfold BMP_PEER_HDR_LEN, into_zeros. rewrite Hh. change (drop 42 (zeros 42)) with (@nil Z). rewrite app_nil_r.
  split_and!; [done| |done..]. cbn [b0 bmp_len set_len]. f_equal. lia.
Qed.

(** ** The body buffer *)

Lemma bufferBMPMessage_app b body rest :
  length (bmp_data b) = Z.to_nat BMP_DATA_SIZE → sock b = body ++ rest →
  bmp_len b = Z.of_nat (length body) → 0 < bmp_len b ≤ BMP_DATA_SIZE →
  bufferBMPMessage b
  = Ok (tt, set_len 0 (set_data (body ++ drop (length body) (bmp_data b)) (Z.of_nat (length body))
                         (consumed body rest b))).
Proof.
  intros Hd Hs Hl Hb. unfold bufferBMPMessage. rewrite get_bind. zif; [lia|]. zif; [lia|].
  erewrite M_bind_Ok by (apply (Recv_app body rest); [done|done|lia]). cbn beta iota.
  rewrite get_bind, modify_bind. rewrite u64_small by (unfold BMP_DATA_SIZE, BMP_PACKET_BUF_SIZE in *; lia).
  rewrite Z.eqb_refl. cbn [negb]. unfold modify. by rewrite Hl.
Qed.

Lemma recv_exact_app good bs rest n b :
  good = true → sock b = bs ++ rest → n = Z.of_nat (length bs) → 0 < n →
  recv_exact good n b = Ok (Some bs, consumed bs rest b).
Proof.
  intros -> Hs Hn Hp. unfold recv_exact. erewrite M_bind_Ok by (apply (Recv_app bs rest); done). cbn beta iota.
  by rewrite Z.eqb_refl.
Qed.

(** the Peer Up header, and the buffering of the OPEN messages after it *)
Lemma parsePeerUpEventHdr_app addr lp rp body rest u b :
  length addr = 16%nat → 0 ≤ lp < 65536 → 0 ≤ rp < 65536 → length (bmp_data b) = Z.to_nat BMP_DATA_SIZE →
  sock b = addr ++ hton 2 lp ++ hton 2 rp ++ body ++ rest →
  bmp_len b = 20 + Z.of_nat (length body) → 20 < bmp_len b ≤ BMP_DATA_SIZE →
  Z.of_nat (length (bmp_packet b)) + bmp_len b < BMP_PACKET_BUF_SIZE →
  parsePeerUpEventHdr u b
  = Ok ((true, set_local (snprintf 40 (if pe_isIPv4 (entry b) then v4_text addr else inet_ntop6 addr)) lp rp u),
        set_len 0 (set_data (body ++ drop (length body) (bmp_data b)) (Z.of_nat (length body))
          (set_sock rest (bmp_packet b ++ addr ++ hton 2 lp ++ hton 2 rp ++ body) b))).
Proof.
  intros Ha Hl Hr Hd Hs Hlen Hmax Hpk. unfold parsePeerUpEventHdr.
  assert (∀ z, length (hton 2 z) = 2%nat) as H2 by (intros; apply length_hton).
  erewrite M_bind_Ok by (apply (recv_exact_app _ addr); [done|exact Hs|by rewrite Ha|done]).
  rewrite get_bind. cbn beta iota.
  erewrite M_bind_Ok by (apply (recv_exact_app _ (hton 2 lp)); [done|reflexivity|by rewrite H2|done]).
  erewrite M_bind_Ok by (apply (recv_exact_app _ (hton 2 rp)); [done|reflexivity|by rewrite H2|done]).
  cbn beta iota. rewrite get_bind, modify_bind. cbn beta.
  erewrite M_bind_Ok.
  2: { apply (bufferBMPMessage_app _ body rest); [exact Hd|reflexivity|..];
       cbn [bmp_len set_len consumed set_sock]; rewrite u32_small; unfold BMP_DATA_SIZE, BMP_PACKET_BUF_SIZE in *; lia. }
  rewrite !bool_decide_eq_true_2 by done. rewrite mret_bind, !ntoh_hton by (simpl; lia).
  unfold BMP_PACKET_BUF_SIZE in Hpk. clear Hmax Hd.
  assert (bmp_packet b ++ addr ++ hton 2 lp ++ hton 2 rp ++ body
    = copy_packet (copy_packet (copy_packet (copy_packet (bmp_packet b) addr) (hton 2 lp)) (hton 2 rp)) body) as ->.
  { rewrite (copy_packet_app (bmp_packet b) addr) by (rewrite Ha; unfold BMP_PACKET_BUF_SIZE; lia).
    do 3 rewrite (copy_packet_app (_ ++ _)) by (rewrite ?length_app, ?H2, ?Ha; unfold BMP_PACKET_BUF_SIZE; lia).
    by rewrite <-!app_assoc. }
  by destruct b.
Qed.

(** C25: buffering a body is safe and complete.  For any parser state with the
    buffer of the class, a body that fits and is there is copied to the front of
    the buffer, which keeps its size, its length is recorded, and nothing is left
    to read; a body longer than the buffer or than the stream raises an
    exception; the buffer is never overrun. *)
Theorem bufferBMPMessage_spec (b : bmp) (body rest : list Z) :
  length (bmp_data b) = Z.to_nat BMP_DATA_SIZE → sock b = body ++ rest → 0 ≤ bmp_len b < 2 ^ 32 →
  (bmp_len b = Z.of_nat (length body) → 0 < bmp_len b ≤ BMP_DATA_SIZE →
   ∃ data, bufferBMPMessage b
     = Ok (tt, set_len 0 (set_data data (Z.of_nat (length body)) (consumed body rest b)))
     ∧ length data = Z.to_nat BMP_DATA_SIZE ∧ take (length body) data = body)
  ∧ (BMP_DATA_SIZE < bmp_len b →
     bufferBMPMessage b = Throw "BMP message length is too large for buffer, invalid BMP sender")
  ∧ (Z.of_nat (length (sock b)) < bmp_len b ≤ BMP_DATA_SIZE →
     bufferBMPMessage b = Throw "Error while reading BMP data into buffer").
Proof.
  intros Hd Hs Hr. split_and!.
  - intros Hl Hb. rewrite (bufferBMPMessage_app b body rest) by done. eexists. split; [done|].
    split; [rewrite length_app, length_drop; lia|by rewrite take_app_length].
  - intros Hb. unfold bufferBMPMessage, BMP_DATA_SIZE, BMP_PACKET_BUF_SIZE in *. rewrite get_bind.
    zif; [lia|]. by zif; [|lia].
  - intros Hb. unfold bufferBMPMessage, BMP_DATA_SIZE, BMP_PACKET_BUF_SIZE in *. rewrite get_bind.
    zif; [lia|]. zif; [lia|]. destruct (Recv_short (bmp_len b) b) as (r & got & b' & E1 & Hr1 & Hr2 & _); [lia|].
    rewrite (M_bind_Ok _ _ _ _ _ E1). cbn beta iota. rewrite get_bind, modify_bind.
    rewrite (proj2 (Z.eqb_neq (u64 r) (bmp_len b))); [done|].
    destruct (decide (0 ≤ r)); [rewrite u64_small by lia; lia|]. replace r with (-1) by lia.
    change (u64 (-1)) with (2 ^ 64 - 1). lia.
Qed.

(** ** The peer header *)

Lemma be16_eq a b : is_byte b → be16 a b = 256 * a + b.
Proof. intros H. unfold be16. rewrite <-shiftl_lor_add; unfold is_byte in H; lia. Qed.

Lemma be32_eq a b c d :
  is_byte b → is_byte c → is_byte d →
  Z.lor (Z.lor (Z.lor (Z.shiftl a 24) (Z.shiftl b 16)) (Z.shiftl c 8)) d
  = 16777216 * a + 65536 * b + 256 * c + d.
Proof.
  unfold is_byte. intros Hb Hc Hd.
  replace (Z.shiftl a 24) with (Z.shiftl (Z.shiftl (Z.shiftl a 8) 8) 8) by (rewrite !Z.shiftl_shiftl by lia; done).
  replace (Z.shiftl b 16) with (Z.shiftl (Z.shiftl b 8) 8) by (rewrite !Z.shiftl_shiftl by lia; done).
  rewrite <-!Z.shiftl_lor. rewrite <-!shiftl_lor_add by lia. lia.
Qed.

(** four hexadecimal digits *)
Lemma hex_go_S n z acc :
  hex_go (S n) z acc
  = let acc' := String (hexdigit (z mod 16)) acc in if z <? 16 then acc' else hex_go n (z / 16) acc'.
Proof. done. Qed.

Lemma hex4_text v :
  0 ≤ v < 65536 →
  setw 4 "0" (hex v) = String (hexdigit (v / 4096)) (String (hexdigit (v / 256 mod 16))
                        (String (hexdigit (v / 16 mod 16)) (String (hexdigit (v mod 16)) ""))).
Proof.
  intros Hv. unfold hex.
  assert (v / 16 / 16 = v / 256 ∧ v / 256 / 16 = v / 4096) as [E1 E2] by (rewrite !Z.div_div by lia; done).
  pose proof (Z.div_mod v 16) as D0. pose proof (Z.mod_pos_bound v 16) as B0.
  pose proof (Z.div_mod (v / 16) 16) as D1. pose proof (Z.mod_pos_bound (v / 16) 16) as B1.
  pose proof (Z.div_mod (v / 256) 16) as D2. pose proof (Z.mod_pos_bound (v / 256) 16) as B2.
  rewrite E1 in D1. rewrite E2 in D2.
  assert (0 ≤ v / 4096 < 16) as B3 by (split; [apply Z.div_pos; lia|apply Z.div_lt_upper_bound; lia]).
  do 4 (rewrite hex_go_S; cbn zeta; rewrite ?E1, ?E2; zif;
    [rewrite ?(Z.mod_small (v / 4096) 16) by lia;
     try (replace (v / 4096) with 0 by lia); try (replace (v / 256 mod 16) with 0 by lia);
     try (replace (v / 16 mod 16) with 0 by lia); done|]).
  lia.
Qed.

Lemma read_hex4 v s acc : 0 ≤ v < 65536 → read_hex (setw 4 "0" (hex v) +:+ s) acc = read_hex s (65536 * acc + v).
Proof.
  intros Hv. rewrite hex4_text by done. rewrite !append_cons, append_nil_l. cbn [read_hex].
  rewrite !hex_value_digit by (try apply Z.mod_pos_bound; lia || (split; [apply Z.div_pos; lia|apply Z.div_lt_upper_bound; lia])).
  f_equal. pose proof (Z.div_mod v 16). pose proof (Z.div_mod (v / 16) 16).
  rewrite Z.div_div in * by lia. change (16 * 16) with 256 in *.
  pose proof (Z.div_mod (v / 256) 16). rewrite Z.div_div in * by lia. change (256 * 16) with 4096 in *. lia.
Qed.

(** The AS number of a peer survives its detour through text: printed with
    eight hexadecimal digits and read back, it is the network-order integer of
    the four octets, over the whole 32-bit range. *)
Theorem peer_as_exact (a b c d : Z) :
  is_byte a → is_byte b → is_byte c → is_byte d →
  u32 (strtoll16 (as_text [a; b; c; d])) = ntoh [a; b; c; d].
Proof.
  intros Ha Hb Hc Hd. unfold as_text. cbn [nth]. rewrite append_cons, append_cons, append_nil_l.
  cbn [strtoll16]. rewrite !be16_eq by done. unfold is_byte in *.
  rewrite read_hex4 by lia. rewrite <-(string_app_nil_r (setw 4 "0" (hex (256 * c + d)))).
  rewrite read_hex4 by lia. cbn [read_hex]. unfold ntoh. cbn. rewrite u32_small by lia. lia.
Qed.

Lemma peer_as_exact_witness : u32 (strtoll16 (as_text [250; 86; 234; 1])) = 4199999999 + 2.
Proof.
  rewrite (peer_as_exact 250 86 234 1); [vm_compute; reflexivity|split; lia..].
Defined.

(** The meaning of the peer flags.  For Adj-RIB peers the entry tells the
    address family (V), the AS number size (A) and the policy side (L) as
    flagged, and the peer type selects L3VPN; for the Loc-RIB type only the filter
    flag is looked at.  Whether the routes are Adj-RIB-In is derived from the L
    flag alone: the O flag, which marks Adj-RIB-Out, has no influence. *)
Theorem peer_flags_meaning (type flags : Z) :
  let p := parsePeerFlags type flags zero_peer in
  (type ≠ 3 →
   pe_isIPv4 p = negb (flag 128 flags) ∧ pe_isTwoOctet p = flag 32 flags
   ∧ pe_isPrePolicy p = negb (flag 64 flags) ∧ pe_isAdjIn p = negb (flag 64 flags)
   ∧ pe_isL3VPN p = (type =? 1) ∧ pe_isLocRib p = false)
  ∧ (type = 3 →
     pe_isLocRib p = true ∧ pe_isLocRibFiltered p = flag 128 flags ∧ pe_isIPv4 p = false
     ∧ pe_isAdjIn p = false).
Proof.
  unfold parsePeerFlags. split; intros Ht.
  - rewrite (proj2 (Z.eqb_neq type 3)) by done. cbn.
    destruct (flag 16 flags), (flag 32 flags), (flag 64 flags); done.
  - subst type. cbn. by destruct (flag 128 flags).
Qed.

(** The printed route distinguisher of a 4-octet AS peer (type 2) is the AS
    number and the assigned number for AS numbers below 2^31; above, the [int]
    expression is negative and the conversion to [unsigned long] adds
    2^64 - 2^32 to the printed AS number. *)
Theorem peer_rd_type2 (asn num : Z) :
  0 ≤ asn < 2 ^ 32 → 0 ≤ num < 65536 →
  rd_text 2 ([0; 2] ++ hton 4 asn ++ hton 2 num)
  = dec (if asn <? 2 ^ 31 then asn else asn + (2 ^ 64 - 2 ^ 32)) +:+ ":" +:+ dec num.
Proof.
  intros Ha Hn. pose proof (hton_ok 4 asn) as B4. pose proof (hton_ok 2 num) as B2.
  pose proof (ntoh_hton 4 asn Ha) as N4. pose proof (ntoh_hton 2 num Hn) as N2.
  pose proof (length_hton 4 asn) as L4. pose proof (length_hton 2 num) as L2.
  destruct (hton 4 asn) as [|a [|b [|c [|d [|]]]]]; [done..| |done].
  destruct (hton 2 num) as [|e [|f [|]]]; [done..| |done].
  repeat (apply Forall_cons in B4 as [? B4]). repeat (apply Forall_cons in B2 as [? B2]).
  cbn in N4, N2. unfold rd_text, be32_ulong. cbn [app nth]. rewrite be32_eq, be16_eq by done.
  replace (16777216 * a + 65536 * b + 256 * c + d) with asn by lia. replace (256 * e + f) with num by lia.
  do 2 f_equal. unfold i32. zif.
  - rewrite Z.mod_small by lia. rewrite u64_small by lia. lia.
  - replace (asn + 2 ^ 31) with (asn - 2 ^ 31 + 1 * 2 ^ 32) by lia. rewrite Z.mod_add, Z.mod_small by lia.
    unfold u64. rewrite <-(Z.mod_add _ 1), Z.mod_small by lia. lia.
Qed.

Lemma peer_rd_type2_witness :
  rd_text 2 ([0; 2] ++ hton 4 4200000000 ++ hton 2 7) = "18446744073614584320:7".
Proof. rewrite (peer_rd_type2 4200000000 7); [vm_compute; reflexivity|lia|lia]. Defined.

(** *** The header as data *)

Definition print_peer_rd (r : route_distinguisher) : string :=
  match r with
  | RdAs asn num | RdAs4 asn num => dec asn +:+ ":" +:+ dec num
  | RdIp ip num => inet_ntop4 ip +:+ ":" +:+ dec num
  end.
(** the numbers of four octets are printed through an [int] *)
Definition wf_peer_rd (r : route_distinguisher) : Prop :=
  match r with
  | RdAs asn num => 0 ≤ asn < 2 ^ 16 ∧ 0 ≤ num < 2 ^ 31
  | RdIp ip num => bytes_ok ip ∧ length ip = 4%nat ∧ 0 ≤ num < 2 ^ 16
  | RdAs4 asn num => 0 ≤ asn < 2 ^ 31 ∧ 0 ≤ num < 2 ^ 16
  end.

(** the per-peer header of RFC 7854 and RFC 8671: the four flags are V, L, A and O *)
Record peer_header : Type := {
  ph_type : Z; ph_v6 : bool; ph_post : bool; ph_two : bool; ph_out : bool; ph_rd : route_distinguisher; ph_addr : list Z;
  ph_as : Z; ph_id : list Z; ph_secs : Z; ph_us : Z }.
Definition enc_peer_header (h : peer_header) : list Z :=
  [ph_type h; 128 * Z.b2z (ph_v6 h) + 64 * Z.b2z (ph_post h) + 32 * Z.b2z (ph_two h) + 16 * Z.b2z (ph_out h)]
  ++ enc_rd (ph_rd h) ++ (if ph_v6 h then ph_addr h else zeros 12 ++ ph_addr h)
  ++ hton 4 (ph_as h) ++ ph_id h ++ hton 4 (ph_secs h) ++ hton 4 (ph_us h).
(** the peers of an Adj-RIB: global, with a distinguisher, or local *)
Definition wf_peer_header (h : peer_header) : Prop :=
  0 ≤ ph_type h ≤ 2 ∧ wf_peer_rd (ph_rd h) ∧ length (ph_addr h) = (if ph_v6 h then 16%nat else 4%nat)
  ∧ 0 ≤ ph_as h < 2 ^ 32 ∧ bytes_ok (ph_id h) ∧ length (ph_id h) = 4%nat
  ∧ 0 ≤ ph_secs h < 2 ^ 32 ∧ 0 ≤ ph_us h < 2 ^ 32.

(** the peer it stands for; a header without a time gets the time of day, and routes
    before policy are taken for those of an Adj-RIB-In *)
Definition peer_meant (now : Z * Z) (h : peer_header) : obj_bgp_peer :=
  {| pe_hash_id := zeros 16; pe_router_hash_id := zeros 16; pe_table_name := zeros 255;
     pe_rd := print_peer_rd (ph_rd h);
     pe_addr := snprintf 40 (if ph_v6 h then inet_ntop6 (ph_addr h) else inet_ntop4 (ph_addr h));
     pe_bgp_id := inet_ntop4 (ph_id h); pe_as := ph_as h; pe_isL3VPN := ph_type h =? 1;
     pe_isPrePolicy := negb (ph_post h); pe_isAdjIn := negb (ph_post h); pe_isLocRib := false; pe_isLocRibFiltered := false;
     pe_isIPv4 := negb (ph_v6 h); pe_isTwoOctet := ph_two h;
     pe_timestamp_secs := if ph_secs h =? 0 then now.1 else ph_secs h;
     pe_timestamp_us := if ph_secs h =? 0 then now.2 else ph_us h mod 1000000 |}.

Lemma be32_small a b c d :
  is_byte a → is_byte b → is_byte c → is_byte d → 16777216 * a + 65536 * b + 256 * c + d < 2 ^ 31 →
  be32_ulong a b c d = 16777216 * a + 65536 * b + 256 * c + d.
Proof. unfold be32_ulong, is_byte. intros. rewrite be32_eq by done. rewrite i32_small, u64_small by lia. done. Qed.

Lemma wf_peer_rd_wf r : wf_peer_rd r → wf_rd r.
Proof. destruct r; cbn; lia || tauto. Qed.

Lemma rd_text_enc r : wf_peer_rd r → rd_text (nth 1 (enc_rd r) 0) (enc_rd r) = print_peer_rd r.
Proof.
  destruct r as [asn num|ip num|asn num]; cbn [wf_peer_rd enc_rd print_peer_rd].
  - intros [Ha Hn]. destruct (hton2_octets asn Ha) as (a & b & -> & ? & ? & Ea).
    destruct (hton4_octets num) as (c & d & e & f & -> & ? & ? & ? & ? & En); [lia|].
    change (hton 2 0) with [0; 0]. cbn [app nth rd_text]. rewrite be16_eq, be32_small by (done || lia). by rewrite Ea, En.
  - intros (Hi & Hl & Hn). destruct (hton2_octets num Hn) as (a & b & -> & ? & ? & En).
    destruct ip as [|i1 [|i2 [|i3 [|i4 [|]]]]]; try done. change (hton 2 1) with [0; 1]. cbn [app nth rd_text drop].
    rewrite be16_eq by done. by rewrite En.
  - intros [Ha Hn]. destruct (hton2_octets num Hn) as (a & b & -> & ? & ? & En).
    destruct (hton4_octets asn) as (c & d & e & f & -> & ? & ? & ? & ? & Ea); [lia|].
    change (hton 2 2) with [0; 2]. cbn [app nth rd_text]. rewrite be16_eq, be32_small by (done || lia). by rewrite Ea, En.
Qed.

Lemma print_peer_rd_length r : wf_peer_rd r → (String.length (print_peer_rd r) < 32)%nat.
Proof.
  destruct r as [asn num|ip num|asn num]; cbn [wf_peer_rd print_peer_rd]; rewrite !length_append.
  - intros [Ha Hn]. pose proof (dec_length 10 asn ltac:(lia) ltac:(lia)). pose proof (dec_length 10 num ltac:(lia) ltac:(lia)). cbn. lia.
  - intros (Hi & Hl & Hn). pose proof (inet_ntop4_length ip Hi Hl). pose proof (dec_length 10 num ltac:(lia) ltac:(lia)). cbn. lia.
  - intros [Ha Hn]. pose proof (dec_length 10 asn ltac:(lia) ltac:(lia)). pose proof (dec_length 10 num ltac:(lia) ltac:(lia)). cbn. lia.
Qed.

(** the fields of the header, one after the other *)
Lemma peer_of_hdr_fields now type flags rd addr asn id secs us :
  length rd = 8%nat → length addr = 16%nat → length asn = 4%nat → length id = 4%nat → length secs = 4%nat → length us = 4%nat →
  let p := parsePeerFlags type flags zero_peer in
  peer_of_hdr now ([type; flags] ++ rd ++ addr ++ asn ++ id ++ secs ++ us) zero_peer
  = set_peer p (strncpy 32 (snprintf 32 (rd_text (nth 1 rd 0) rd)))
      (strncpy 46 (snprintf 40 (if pe_isIPv4 p then v4_text addr else inet_ntop6 addr)))
      (strncpy 16 (snprintf 16 (inet_ntop4 id))) (u32 (strtoll16 (as_text asn)))
      (if ntoh secs =? 0 then now.1 else ntoh secs)
      (if ntoh secs =? 0 then now.2 else if ntoh us <? 1000000 then ntoh us else ntoh us mod 1000000).
Proof.
  intros H1 H2 H3 H4 H5 H6 p. unfold peer_of_hdr.
  assert (∀ (a b c : list Z) n m, length a = n → length b = m → take m (drop n (a ++ b ++ c)) = b) as F.
  { intros a b c n m <- <-. by rewrite drop_app_length, take_app_length. }
  set (fl := [type; flags]).
  rewrite (F fl rd _ 2%nat 8%nat) by done.
  replace (fl ++ rd ++ addr ++ asn ++ id ++ secs ++ us) with ((fl ++ rd) ++ addr ++ asn ++ id ++ secs ++ us) by by rewrite <-!app_assoc.
  rewrite (F (fl ++ rd) addr _ 10%nat 16%nat) by (rewrite ?length_app, ?H1; done). rewrite (app_assoc (fl ++ rd)).
  rewrite (F ((fl ++ rd) ++ addr) asn _ 26%nat 4%nat) by (rewrite ?length_app, ?H1, ?H2; done). rewrite (app_assoc ((fl ++ rd) ++ addr)).
  rewrite (F (((fl ++ rd) ++ addr) ++ asn) id _ 30%nat 4%nat) by (rewrite ?length_app, ?H1, ?H2, ?H3; done).
  rewrite (app_assoc (((fl ++ rd) ++ addr) ++ asn)).
  rewrite (F ((((fl ++ rd) ++ addr) ++ asn) ++ id) secs _ 34%nat 4%nat) by (rewrite ?length_app, ?H1, ?H2, ?H3, ?H4; done).
  rewrite (app_assoc ((((fl ++ rd) ++ addr) ++ asn) ++ id)), <-(app_nil_r us).
  rewrite (F (((((fl ++ rd) ++ addr) ++ asn) ++ id) ++ secs) us _ 38%nat 4%nat) by (rewrite ?length_app, ?H1, ?H2, ?H3, ?H4, ?H5; done).
  rewrite <-!app_assoc. cbn [nth app]. subst fl. cbn [nth app]. rewrite ?app_nil_r. reflexivity.
Qed.

Lemma flags_octet h :
  let f := 128 * Z.b2z (ph_v6 h) + 64 * Z.b2z (ph_post h) + 32 * Z.b2z (ph_two h) + 16 * Z.b2z (ph_out h) in
  flag 128 f = ph_v6 h ∧ flag 64 f = ph_post h ∧ flag 32 f = ph_two h.
Proof. cbv zeta. by destruct (ph_v6 h), (ph_post h), (ph_two h), (ph_out h). Qed.

Lemma peer_of_enc now h : wf_peer_header h → peer_of_hdr now (enc_peer_header h) zero_peer = peer_meant now h.
Proof.
  intros (Ht & Hrd & Ha & Has & Hib & Hil & Hs & Hu). unfold enc_peer_header.
  rewrite peer_of_hdr_fields; [|by apply length_enc_rd, wf_peer_rd_wf| |by rewrite ?length_hton..].
  2: { destruct (ph_v6 h); [done|]. by rewrite length_app, Ha. }
  set (f := 128 * _ + _ + _ + _). destruct (flags_octet h) as (F1 & F2 & F3). fold f in F1, F2, F3.
  destruct (proj1 (peer_flags_meaning (ph_type h) f)) as (E1 & E2 & E3 & E4 & E5 & E6); [lia|].
  rewrite F1 in E1. rewrite F3 in E2. rewrite F2 in E3, E4. rewrite rd_text_enc by done.
  destruct (hton4_octets (ph_as h) Has) as (a & b & c & d & -> & ? & ? & ? & ? & Eas).
  rewrite (peer_as_exact a b c d) by done. rewrite !ntoh_hton by (simpl; lia).
  unfold peer_meant, set_peer. rewrite E1, E2, E3, E4, E5, E6. rewrite !negb_involutive || idtac.
  pose proof (print_peer_rd_length _ Hrd). pose proof (inet_ntop4_length _ Hib Hil).
  rewrite (snprintf_fits 32), (snprintf_fits 16) by lia. unfold strncpy.
  rewrite (str_take_all 32), (str_take_all 16) by lia.
  rewrite (str_take_all 46) by (unfold snprintf; rewrite length_str_take; lia).
  assert (pe_isLocRibFiltered (parsePeerFlags (ph_type h) f zero_peer) = false) as -> by (unfold parsePeerFlags; by rewrite (proj2 (Z.eqb_neq _ 3)) by lia).
  assert (pe_hash_id (parsePeerFlags (ph_type h) f zero_peer) = zeros 16 ∧ pe_router_hash_id (parsePeerFlags (ph_type h) f zero_peer) = zeros 16
    ∧ pe_table_name (parsePeerFlags (ph_type h) f zero_peer) = zeros 255) as (-> & -> & ->) by (unfold parsePeerFlags; by rewrite (proj2 (Z.eqb_neq _ 3)) by lia).
  f_equal.
  - f_equal. destruct (ph_v6 h); [done|]. unfold v4_text. by rewrite drop_app_length' by done.
  - cbn. lia.
  - destruct (_ =? 0); [done|]. zif; [by rewrite Z.mod_small by lia|done].
Qed.


(** ** Statistics as data *)

(** a counter: its type, its width in octets, its value *)
Record stat : Type := { st_type : Z; st_width : nat; st_value : Z }.

Definition enc_stat (x : stat) : list Z :=
  hton 2 (st_type x) ++ hton 2 (Z.of_nat (st_width x)) ++ hton (st_width x) (st_value x).
Definition enc_stats (l : list stat) : list Z := hton 4 (Z.of_nat (length l)) ++ concat (enc_stat <$> l).

(** 32-bit counters for the types 0 to 6, 64-bit gauges for 7 and 8 *)
Definition wf_stat (x : stat) : Prop :=
  0 ≤ st_type x < 65536 ∧ st_width x ∈ [4%nat; 8%nat] ∧ 0 ≤ st_value x < 256 ^ Z.of_nat (st_width x)
  ∧ (0 ≤ st_type x ≤ 6 → st_width x = 4%nat) ∧ (7 ≤ st_type x ≤ 8 → st_width x = 8%nat).

Definition apply_stat (s : obj_stats_report) (x : stat) : obj_stats_report :=
  let w t old := if st_type x =? t then st_value x else old in
  {| sr_prefixes_rej := w 0 (sr_prefixes_rej s); sr_known_dup_prefixes := w 1 (sr_known_dup_prefixes s);
     sr_known_dup_withdraws := w 2 (sr_known_dup_withdraws s);
     sr_invalid_cluster_list := w 3 (sr_invalid_cluster_list s);
     sr_invalid_as_path_loop := w 4 (sr_invalid_as_path_loop s);
     sr_invalid_originator_id := w 5 (sr_invalid_originator_id s);
     sr_invalid_as_confed_loop := w 6 (sr_invalid_as_confed_loop s);
     sr_routes_adj_rib_in := w 7 (sr_routes_adj_rib_in s); sr_routes_loc_rib := w 8 (sr_routes_loc_rib s) |}.

Lemma store_stat_full n v old :
  0 ≤ v < 256 ^ Z.of_nat n → store_stat (Z.of_nat n) old (SWAP_BYTES (hton n v)) = Ok v.
Proof.
  intros Hv. unfold store_stat. rewrite length_swap, length_hton. zif; [|lia].
  rewrite Nat2Z.id, drop_ge, app_nil_r by (rewrite length_le_bytes; lia).
  f_equal. apply (ntoh_hton n v Hv).
Qed.

Lemma set_stat_wf x s : wf_stat x → set_stat (st_type x) (SWAP_BYTES (hton (st_width x) (st_value x))) s = Ok (apply_stat s x).
Proof.
  intros (Ht & _ & Hv & H4 & H8). unfold set_stat, apply_stat. destruct x as [t w v]. cbn in *.
  assert (t = 0 ∨ t = 1 ∨ t = 2 ∨ t = 3 ∨ t = 4 ∨ t = 5 ∨ t = 6 ∨ t = 7 ∨ t = 8 ∨ 8 < t) as Hc by lia.
  repeat destruct Hc as [->|Hc]; cbn [Z.eqb Pos.eqb];
    try (specialize (H4 ltac:(lia)); subst w; pose proof (λ o, store_stat_full 4 v o Hv) as E;
         change (Z.of_nat 4) with 4 in E; rewrite E; done);
    try (specialize (H8 ltac:(lia)); subst w; pose proof (λ o, store_stat_full 8 v o Hv) as E;
         change (Z.of_nat 8) with 8 in E; rewrite E; done).
  do 9 (rewrite (proj2 (Z.eqb_neq t _)) by lia). by destruct s.
Qed.

Lemma stats_loop_app l rest s b :
  Forall wf_stat l → sock b = concat (enc_stat <$> l) ++ rest →
  ∃ b', stats_loop (length l) s b = Ok (foldl apply_stat s l, b') ∧ sock b' = rest.
Proof.
  intros Hl. revert s b. induction Hl as [|x l Hx Hl IH]; intros s b Hs; [by exists b|].
  pose proof (set_stat_wf x s Hx) as E. destruct Hx as (Ht & Hw & Hv & Hx4 & Hx8). set (w := st_width x) in *.
  assert (Z.of_nat w = 4 ∨ Z.of_nat w = 8) as Hw' by (set_unfold in Hw; lia).
  rewrite fmap_cons in Hs. cbn [concat] in Hs. unfold enc_stat in Hs at 1. rewrite <-!app_assoc in Hs.
  cbn [length stats_loop].
  erewrite M_bind_Ok by (apply (Recv_app (hton 2 (st_type x))); [exact Hs|by rewrite length_hton|done]).
  cbn beta iota. change (negb (2 =? 2)) with false. cbn iota.
  erewrite M_bind_Ok by (apply (Recv_app (hton 2 (Z.of_nat w))); [reflexivity|by rewrite length_hton|done]).
  cbn beta iota. change (negb (2 =? 2)) with false. cbn iota. rewrite get_bind, modify_bind.
  rewrite !ntoh_hton by (simpl; lia).
  replace ((Z.of_nat w =? 4) || (Z.of_nat w =? 8)) with true
    by (symmetry; apply orb_true_iff; rewrite !Z.eqb_eq; lia).
  erewrite M_bind_Ok by (apply (Recv_app (hton w (st_value x))); [reflexivity|by rewrite length_hton|lia]).
  cbn beta iota. rewrite Z.eqb_refl, get_bind, modify_bind.
  erewrite M_bind_Ok by (unfold lift; rewrite E; reflexivity). by apply IH.
Qed.

(** C35: A statistics report is decoded counter by counter.  For any list of
    counters of the widths of RFC 7854 (and any type the collector does not know)
    the report holds the last value of each type, other fields keep their value,
    and exactly the octets of the report are consumed. *)
Theorem handleStatsReport_roundtrip (l : list stat) (rest : list Z) (s : obj_stats_report) (b : bmp) :
  Forall wf_stat l → Z.of_nat (length l) < 2 ^ 32 → sock b = enc_stats l ++ rest →
  ∃ b', handleStatsReport s b = Ok ((false, foldl apply_stat s l), b') ∧ sock b' = rest.
Proof.
  intros Hl Hn Hs. unfold handleStatsReport, enc_stats in *. rewrite <-app_assoc in Hs.
  erewrite M_bind_Ok by (apply (Recv_app (hton 4 (Z.of_nat (length l)))); [exact Hs|by rewrite length_hton|done]).
  cbn beta iota. change (negb (4 =? 4)) with false. cbn iota. rewrite get_bind, modify_bind.
  rewrite ntoh_hton, Nat2Z.id by (simpl; lia).
  set (b1 := set_len _ _).
  destruct (stats_loop_app l rest s b1 Hl eq_refl) as (b' & E & Hr).
  exists b'. by rewrite (M_bind_Ok _ _ _ _ _ E).
Qed.

Definition sample_stats : list stat :=
  [{| st_type := 0; st_width := 4; st_value := 5 |}; {| st_type := 7; st_width := 8; st_value := 2 ^ 40 |};
   {| st_type := 9; st_width := 8; st_value := 1 |}].

Lemma handleStatsReport_roundtrip_witness :
  ∃ b', handleStatsReport zero_stats (new_bmp (enc_stats sample_stats ++ [3]) false)
        = Ok ((false, foldl apply_stat zero_stats sample_stats), b') ∧ sock b' = [3].
Proof.
  apply (handleStatsReport_roundtrip sample_stats [3] zero_stats); [|simpl; lia|reflexivity].
  unfold sample_stats. repeat constructor; simpl; lia || set_solver.
Defined.

(** A 64-bit value for a 32-bit counter overruns the counter.  The length on
    the wire, 4 or 8, is also the length that is copied into the field. *)
Theorem stat_width_overrun (type : Z) (b : list Z) (s : obj_stats_report) :
  0 ≤ type ≤ 6 → length b = 8%nat → set_stat type b s = Undef OobWrite.
Proof.
  intros Ht Hb.
  assert (type = 0 ∨ type = 1 ∨ type = 2 ∨ type = 3 ∨ type = 4 ∨ type = 5 ∨ type = 6) as Hc by lia.
  repeat destruct Hc as [->|Hc]; [..|subst]; unfold set_stat, store_stat; rewrite Hb; done.
Qed.

Lemma stat_width_overrun_witness : set_stat 3 (zeros 8) zero_stats = Undef OobWrite.
Proof. apply (stat_width_overrun 3 (zeros 8) zero_stats); [lia|reflexivity]. Defined.

(** ** Information TLVs as data *)

Abbreviation info_tlv := (Z * list Z)%type.

Definition enc_tlv (x : info_tlv) : list Z := hton 2 x.1 ++ hton 2 (Z.of_nat (length x.2)) ++ x.2.
Definition enc_tlvs (l : list info_tlv) : list Z := concat (enc_tlv <$> l).

(** the information in the zeroed buffer, null when it is empty *)
Definition tlv_info (cap : nat) (v : list Z) : option (list Z) :=
  match v with [] => None | _ => Some (v ++ drop (length v) (zeros cap)) end.

(** the [switch] applied to one TLV after the other *)
Fixpoint tlv_fold {S : Type} (cap : nat) (f : Z → Z → option (list Z) → S → outcome S) (l : list info_tlv)
    (s : S) : outcome S :=
  match l with
  | [] => Ok s
  | x :: l' => s ← f x.1 (Z.of_nat (length x.2)) (tlv_info cap x.2) s; tlv_fold cap f l' s
  end.

Definition wf_tlv (cap : nat) (x : info_tlv) : Prop :=
  0 ≤ x.1 < 65536 ∧ (length x.2 ≤ cap)%nat ∧ Z.of_nat (length x.2) < 65536.

Lemma length_enc_tlv x : length (enc_tlv x) = (4 + length x.2)%nat.
Proof. unfold enc_tlv. rewrite !length_app, !length_hton. lia. Qed.

Lemma read_tlv_app cap x rest :
  wf_tlv cap x →
  read_tlv cap (enc_tlv x ++ rest)
  = Ok (x.1, Z.of_nat (length x.2), tlv_info cap x.2, 4 + Z.of_nat (length x.2)).
Proof.
  intros (Ht & Hc & Hl). unfold read_tlv, enc_tlv.
  replace ((hton 2 x.1 ++ hton 2 (Z.of_nat (length x.2)) ++ x.2) ++ rest)
    with ((hton 2 x.1 ++ hton 2 (Z.of_nat (length x.2))) ++ x.2 ++ rest) by (by rewrite <-!app_assoc).
  rewrite memcpy_app, bind_Ok_l, adv_app by (by rewrite length_app, !length_hton).
  rewrite take_app_length', drop_app_length' by (by rewrite length_hton).
  rewrite !ntoh_hton by (simpl; lia). destruct (x.2) as [|a v] eqn:E; [done|]. rewrite <-E in *.
  rewrite (proj2 (Z.ltb_lt 0 _)) by (rewrite E; cbn [length]; lia).
  rewrite (proj2 (Z.ltb_ge _ (Z.of_nat (length x.2)))) by lia.
  rewrite memcpy_into_app by (done || rewrite length_zeros; lia). rewrite bind_Ok_l.
  unfold tlv_info. rewrite E. done.
Qed.

Lemma tlv_loop_app {S} cap (f : Z → Z → option (list Z) → S → outcome S) fuel l rest i s :
  Forall (wf_tlv cap) l → (length l < fuel)%nat →
  tlv_loop cap f fuel i (i + Z.of_nat (length (enc_tlvs l))) (enc_tlvs l ++ rest) s = tlv_fold cap f l s.
Proof.
  intros Hl. revert fuel i s. induction Hl as [|x l Hx Hl IH]; intros fuel i s Hf;
    (destruct fuel as [|fuel]; [simpl in Hf; lia|]); cbn [tlv_loop tlv_fold].
  { by zif; [simpl in *; lia|]. }
  change (enc_tlvs (x :: l)) with (enc_tlv x ++ enc_tlvs l). rewrite length_app, length_enc_tlv, <-app_assoc.
  zif; [|lia]. rewrite read_tlv_app by done. rewrite bind_Ok_l. cbn beta iota.
  destruct (f x.1 _ _ s) as [s'| | |]; [|done..]. rewrite !bind_Ok_l.
  rewrite adv_app by (rewrite length_enc_tlv; lia). cbn [length] in Hf.
  replace (i + Z.of_nat (4 + length x.2 + length (enc_tlvs l)))
    with (i + (4 + Z.of_nat (length x.2)) + Z.of_nat (length (enc_tlvs l))) by lia.
  apply IH. lia.
Qed.

Lemma length_enc_tlvs_ge l : (4 * length l ≤ length (enc_tlvs l))%nat.
Proof.
  induction l as [|x l IH]; [done|]. change (enc_tlvs (x :: l)) with (enc_tlv x ++ enc_tlvs l).
  rewrite length_app, length_enc_tlv. cbn [length]. lia.
Qed.

(** the TLVs of a buffered message *)
Lemma tlv_message {S} cap (f : Z → Z → option (list Z) → S → outcome S) l rest b s :
  Forall (wf_tlv cap) l → length (bmp_data b) = Z.to_nat BMP_DATA_SIZE → sock b = enc_tlvs l ++ rest →
  bmp_len b = Z.of_nat (length (enc_tlvs l)) → 0 < bmp_len b ≤ BMP_DATA_SIZE →
  (_ ← bufferBMPMessage; data ← get bmp_data; len ← get bmp_data_len;
   lift (tlv_loop cap f (Datatypes.S (Z.to_nat len)) 0 len data s)) b
  = (s ← tlv_fold cap f l s;
     Ok (s, set_len 0 (set_data (enc_tlvs l ++ drop (length (enc_tlvs l)) (bmp_data b)) (bmp_len b)
              (consumed (enc_tlvs l) rest b)))).
Proof.
  intros Hl Hd Hs Hn Hb. unfold BMP_DATA_SIZE, BMP_PACKET_BUF_SIZE in *.
  erewrite M_bind_Ok.
  2: { unfold bufferBMPMessage, BMP_DATA_SIZE, BMP_PACKET_BUF_SIZE. rewrite get_bind. zif; [lia|]. zif; [lia|].
       erewrite M_bind_Ok by (apply (Recv_app (enc_tlvs l) rest); [done|done|lia]). cbn beta iota.
       rewrite get_bind, modify_bind, u64_small, Z.eqb_refl by lia. reflexivity. }
  rewrite !get_bind. cbn [bmp_data bmp_data_len set_len set_data consumed set_sock]. unfold lift.
  pose proof (tlv_loop_app cap f (Datatypes.S (Z.to_nat (bmp_len b))) l
    (drop (length (enc_tlvs l)) (bmp_data b)) 0 s Hl) as E.
  rewrite Z.add_0_l, <-Hn in E. rewrite E; [done|]. pose proof (length_enc_tlvs_ge l). lia.
Qed.

(** An initiation message is decoded TLV by TLV.  For any list of TLVs of at
    most 4096 octets the router entry is the result of handling the TLVs in
    order, each from exactly its own octets; empty ones are skipped, the hash
    type starts at 0, and exactly the message is consumed. *)
Theorem handleInitMsg_tlvs (l : list info_tlv) (rest : list Z) (r : obj_router) (b : bmp) :
  Forall (wf_tlv 4096) l → length (bmp_data b) = Z.to_nat BMP_DATA_SIZE → sock b = enc_tlvs l ++ rest →
  bmp_len b = Z.of_nat (length (enc_tlvs l)) → 0 < bmp_len b ≤ BMP_DATA_SIZE →
  ∃ b', sock b' = rest ∧ bmp_len b' = 0
    ∧ handleInitMsg r b
      = (r' ← tlv_fold 4096 init_info l
                (set_router 0 (ro_name r) (ro_descr r) (ro_initiate_data r) (ro_bgp_id r) r);
         Ok (r', b')).
Proof.
  intros. eexists. split_and!; [| |unfold handleInitMsg; by apply tlv_message]; done.
Qed.

(** the 255-octet members after a name or description that fits *)
Lemma init_sysname v r :
  (0 < length v ≤ 255)%nat → length (ro_name r) = 255%nat →
  init_info INIT_TYPE_SYSNAME (Z.of_nat (length v)) (tlv_info 4096 v) r
  = Ok (set_router (if ro_hash_type r <? 2 then 1 else ro_hash_type r)
          (until_nul v ++ zeros (length v - length (until_nul v)) ++ drop (length v) (ro_name r))
          (ro_descr r) (ro_initiate_data r) (ro_bgp_id r) r).
Proof.
  intros Hv Hr. unfold init_info, tlv_info. destruct v as [|a v'] eqn:Ev; [simpl in Hv; lia|]. rewrite <-Ev in *.
  cbn [INIT_TYPE_SYSNAME INIT_TYPE_FREE_FORM_STRING Z.eqb Pos.eqb].
  unfold clip. rewrite u64_small by lia. rewrite (proj2 (Z.ltb_ge (Z.of_nat 255) _)) by lia.
  unfold strncpy_into. rewrite Hr, (proj2 (Z.leb_le _ _)) by lia.
  by rewrite Nat2Z.id, take_app_length.
Qed.

(** The length that is copied for a name is one too large at one point.  For
    a destination of [size] octets the clipped length exceeds the destination
    exactly when the announced length is [size + 1]; in particular a system name
    of 256 octets overruns the 255-octet member. *)
Theorem name_length_off_by_one (size : nat) (len : Z) (buf : list Z) (r : obj_router) :
  (1 ≤ size)%nat → 0 < len < 65536 → length (ro_name r) = 255%nat →
  (Z.of_nat size < clip size len ↔ len = Z.of_nat size + 1)
  ∧ init_info INIT_TYPE_SYSNAME 256 (Some buf) r = Undef OobWrite.
Proof.
  intros Hs Hl Hr. split.
  - unfold clip. rewrite u64_small by lia. zif; lia.
  - unfold init_info, strncpy_into. rewrite Hr. reflexivity.
Qed.

(** Termination messages.  A reason TLV of at least two octets sets the
    reason code and its text; a free-form TLV that fits is stored; one longer
    than the 4096-octet member overruns it, and a reason TLV without a value
    reads through a null pointer. *)
Theorem term_info_cases (reason : Z) (more v : list Z) (len : Z) (buf : list Z) (r : obj_router) :
  0 ≤ reason < 65536 → (length more ≤ 4094)%nat → (0 < length v ≤ 4096)%nat →
  length (ro_term_data r) = 4096%nat → 4096 < len →
  term_info TERM_TYPE_REASON (2 + Z.of_nat (length more)) (tlv_info 4096 (hton 2 reason ++ more)) r
    = Ok (set_term reason (snprintf 255 (term_text reason)) (ro_term_data r) r)
  ∧ term_info TERM_TYPE_FREE_FORM_STRING (Z.of_nat (length v)) (tlv_info 4096 v) r
    = Ok (set_term (ro_term_reason_code r) (ro_term_reason_text r) (v ++ drop (length v) (ro_term_data r)) r)
  ∧ term_info TERM_TYPE_FREE_FORM_STRING len (Some buf) r = Undef OobWrite
  ∧ term_info TERM_TYPE_REASON 0 None r = Undef NullDeref.
Proof.
  intros Hr Hm Hv Hd Hl. split_and!; [| | |done].
  - unfold term_info. cbn [TERM_TYPE_REASON TERM_TYPE_FREE_FORM_STRING Z.eqb Pos.eqb].
    pose proof (length_hton 2 reason) as H2. pose proof (ntoh_hton 2 reason) as Hn.
    destruct (hton 2 reason) as [|x [|y [|]]]; [done..| |done]. cbn [app tlv_info copy_info].
    change (memcpy_into (zeros 2) 2 ?l) with (memcpy_into (zeros 2) 2 ([x; y] ++ drop 2 l)).
    rewrite memcpy_into_app, bind_Ok_l by done.
    change ([x; y] ++ drop (length [x; y]) (zeros 2)) with [x; y]. by rewrite Hn by (simpl; lia).
  - unfold term_info, tlv_info. destruct v as [|a v'] eqn:Ev; [simpl in Hv; lia|]. rewrite <-Ev in *.
    cbn [TERM_TYPE_FREE_FORM_STRING Z.eqb copy_info].
    by rewrite memcpy_into_app by (done || rewrite Hd; lia).
  - unfold term_info, copy_info, memcpy_into. rewrite Hd.
    by rewrite (proj2 (Z.leb_gt len (Z.of_nat 4096))) by lia.
Qed.

(** An empty VRF table TLV in a Peer Up dereferences a null pointer: the
    unsigned difference wraps, 254 octets are copied, and there is no information
    to copy them from. *)
Theorem empty_table_name_null (rest : ptr) (len : Z) (e : obj_bgp_peer) :
  0 < len →
  parsePeerUpInfo (enc_tlv (INFO_TLV_PEER_VRF_TABLE, []) ++ rest) len e = Undef NullDeref.
Proof.
  intros Hl. unfold parsePeerUpInfo. cbn [tlv_loop]. rewrite (proj2 (Z.ltb_lt 0 len)) by lia. cbn iota.
  rewrite read_tlv_app by (split_and!; cbn -[Z.of_nat]; unfold INFO_TLV_PEER_VRF_TABLE; lia). reflexivity.
Qed.

(** Version 1 and 2 Peer Down messages are never accepted.  The test of the
    peeked reason is inverted: when the octet is there, the parser throws. *)
Theorem v2_peer_down_refused (now : Z * Z) (ver : Z) (h rest : list Z) :
  ver ∈ [1; 2] → length h = 42%nat → rest ≠ [] →
  handleMessage now (new_bmp (ver :: 2 :: h ++ rest) false) = Throw "Failed to read BMP peer down reason".
Proof.
  intros Hv Hh Hr. unfold handleMessage.
  erewrite M_bind_Ok by (apply (Recv_app [ver]); [reflexivity|done|lia]). cbn beta iota.
  change (1 <? 0) with false. change (1 =? 0) with false. cbn [nth]. cbn iota.
  replace (ver =? 3) with false by (symmetry; apply Z.eqb_neq; set_unfold in Hv; lia).
  replace ((ver =? 1) || (ver =? 2)) with true
    by (symmetry; apply orb_true_iff; rewrite !Z.eqb_eq; set_unfold in Hv; lia).
  apply M_bind_Throw. unfold parseBMPv2. rewrite modify_bind.
  erewrite M_bind_Ok by (apply (Recv_app (2 :: h) rest); [done|by cbn [length]; rewrite Hh|done]).
  cbn beta iota. change (negb (BMP_HDRv1v2_LEN =? BMP_HDRv1v2_LEN)) with false. cbn [nth]. cbn iota.
  rewrite modify_bind. change (2 =? 0) with false. change (2 =? 2) with true. cbn iota.
  apply M_bind_Throw. destruct rest as [|x rest]; [done|].
  unfold mbind, M_bind, Recv. cbn. reflexivity.
Qed.

(** ** Witnesses *)

Definition sample_peer_header : peer_header :=
  {| ph_type := 1; ph_v6 := false; ph_post := false; ph_two := true; ph_out := false; ph_rd := RdIp [192; 0; 2; 1] 7;
     ph_addr := [10; 0; 0; 1]; ph_as := 65001; ph_id := [10; 0; 0; 9]; ph_secs := 1700000000; ph_us := 1000005 |}.


Lemma bufferBMPMessage_spec_witness :
  ∃ data, bufferBMPMessage (set_len 3 (new_bmp ([7; 8; 9] ++ [3]) false))
     = Ok (tt, set_len 0 (set_data data 3 (consumed [7; 8; 9] [3] (set_len 3 (new_bmp ([7; 8; 9] ++ [3]) false)))))
     ∧ length data = Z.to_nat BMP_DATA_SIZE ∧ take 3 data = [7; 8; 9].
Proof.
  apply (bufferBMPMessage_spec (set_len 3 (new_bmp ([7; 8; 9] ++ [3]) false)) [7; 8; 9] [3]).
  - exact length_zero_data.
  - reflexivity.
  - simpl. lia.
  - reflexivity.
  - unfold BMP_DATA_SIZE, BMP_PACKET_BUF_SIZE. simpl. lia.
Defined.

Definition sample_init : list info_tlv := [(2, [114; 49]); (1, []); (65531, [10; 0; 0; 1])].

Lemma handleInitMsg_tlvs_witness :
  ∃ b', sock b' = [3] ∧ bmp_len b' = 0
    ∧ handleInitMsg zero_router (set_len 18 (new_bmp (enc_tlvs sample_init ++ [3]) false))
      = (r' ← tlv_fold 4096 init_info sample_init
                (set_router 0 (ro_name zero_router) (ro_descr zero_router) (ro_initiate_data zero_router)
                   (ro_bgp_id zero_router) zero_router);
         Ok (r', b')).
Proof.
  apply (handleInitMsg_tlvs sample_init [3] zero_router (set_len 18 (new_bmp (enc_tlvs sample_init ++ [3]) false))).
  - unfold sample_init. repeat (apply Forall_cons_2; [split_and!; cbn [length fst snd]; lia|]). apply Forall_nil_2.
  - exact length_zero_data.
  - reflexivity.
  - reflexivity.
  - unfold BMP_DATA_SIZE, BMP_PACKET_BUF_SIZE. simpl. lia.
Defined.

Lemma name_length_off_by_one_witness :
  (Z.of_nat 255 < clip 255 256 ↔ 256 = Z.of_nat 255 + 1)
  ∧ init_info INIT_TYPE_SYSNAME 256 (Some (zeros 4096)) zero_router = Undef OobWrite.
Proof. apply (name_length_off_by_one 255 256 (zeros 4096) zero_router); lia || reflexivity. Defined.

Lemma term_info_cases_witness :
  term_info TERM_TYPE_REASON (2 + Z.of_nat (length (@nil Z))) (tlv_info 4096 (hton 2 3 ++ [])) zero_router
    = Ok (set_term 3 (snprintf 255 (term_text 3)) (ro_term_data zero_router) zero_router)
  ∧ term_info TERM_TYPE_FREE_FORM_STRING (Z.of_nat (length [98; 121; 101])) (tlv_info 4096 [98; 121; 101]) zero_router
    = Ok (set_term (ro_term_reason_code zero_router) (ro_term_reason_text zero_router)
            ([98; 121; 101] ++ drop (length [98; 121; 101]) (ro_term_data zero_router)) zero_router)
  ∧ term_info TERM_TYPE_FREE_FORM_STRING 5000 (Some (zeros 4096)) zero_router = Undef OobWrite
  ∧ term_info TERM_TYPE_REASON 0 None zero_router = Undef NullDeref.
Proof.
  apply (term_info_cases 3 [] [98; 121; 101] 5000 (zeros 4096) zero_router); simpl; lia.
Defined.

Lemma empty_table_name_null_witness :
  parsePeerUpInfo (enc_tlv (INFO_TLV_PEER_VRF_TABLE, []) ++ []) 4 zero_peer = Undef NullDeref.
Proof. apply (empty_table_name_null [] 4 zero_peer). lia. Defined.

Lemma v2_peer_down_refused_witness :
  handleMessage (0, 0) (new_bmp (1 :: 2 :: zeros 42 ++ [3]) false) = Throw "Failed to read BMP peer down reason".
Proof. apply (v2_peer_down_refused (0, 0) 1 (zeros 42) [3]); [set_solver|reflexivity|done]. Defined.
