(* ===== verification/BMPReader.v ===== *)
(** * Reading a router's BMP stream ([bmp/BMPReader.cpp])

    One message at a time: the BMP parser frames it, the router and the peer are
    published, the BGP parser handles the body, the results go to the message
    bus, and the packet is passed on.  An exception of a parser or of the bus is
    caught once, turned into a disconnect of the router, and raised again. *)

From S2P Require Import Prelude Inet MD5 BgpCommon AddPath OpenMsg UpdateTypes MPReach ExtCommunity UpdateMsg MsgBus ParseBGP ParseBMP.

(** ** State *)

(** [BMPListener::ClientInfo]; the stream stands for the socket that is read *)
Record ClientInfo : Type := {
  hash_id : list Z; initRec : bool; c_ip : string; startTime : Z;
  stream : list Z; stream_err : bool; c_open : bool }.

(** the members of the rate check; the constructor sets the first and the
    last *)
Record dump_rate : Type := {
  hasPrevRIBdumpTime : bool;
  prevRIBdumpTime : option Z;             (** [int32_t] *)
  isBelowThresholdDumpRate : option bool;
  belowThresholdInitTime : option Z;      (** [int32_t] *)
  maxRIBdumpRate : Z }.

Definition new_rate : dump_rate :=
  {| hasPrevRIBdumpTime := false; prevRIBdumpTime := None; isBelowThresholdDumpRate := None;
     belowThresholdInitTime := None; maxRIBdumpRate := 0 |}.

Record Config : Type := { pat_enabled : bool; c_hash_id : list Z }.

(** [router_baseline_time] holds the seconds since the connection; the code
    stores 1.2 times this number as a [float]. *)
Record reader (bus : Type) : Type := {
  router_hash_id : list Z;
  rate : dump_rate;
  peer_info_map : gmap string peer_info;
  client : ClientInfo;
  router_baseline_time : gmap (list Z) Z;
  mbus : bus }.
Arguments router_hash_id {_} _.
Arguments rate {_} _.
Arguments peer_info_map {_} _.
Arguments client {_} _.
Arguments router_baseline_time {_} _.
Arguments mbus {_} _.

(** what one call works on: the reader, the BMP parser with [p_entry], and
    [r_object] *)
Record frame (bus : Type) : Type := { fr_reader : reader bus; fr_bmp : bmp; r_object : obj_router }.
Arguments fr_reader {_} _.
Arguments fr_bmp {_} _.
Arguments r_object {_} _.

(** ** The RIB dump rate

    [currRate < maxRIBdumpRate * 0.15] compares an [int] with a [double]; the
    product of 0.15 and a non-negative [int] rounds to the exact value when that
    is an integer, so that the comparison is the one of the rationals. *)
Definition checkRIBdumpRate (timeStamp ribSeq : Z) (r : dump_rate) : outcome (bool * dump_rate) :=
  let set prev below init mx :=
    {| hasPrevRIBdumpTime := true; prevRIBdumpTime := prev; isBelowThresholdDumpRate := below;
       belowThresholdInitTime := init; maxRIBdumpRate := mx |} in
  let now := Some (i32 timeStamp) in
  if negb (hasPrevRIBdumpTime r)
  then Ok (false, set now (isBelowThresholdDumpRate r) (belowThresholdInitTime r) (maxRIBdumpRate r))
  else
    match prevRIBdumpTime r with
    | None => Undef Uninit
    | Some prev =>
        let time := i32 (timeStamp - prev) in
        if 0 <? time then
          let currRate := Z.quot (i32 ribSeq) time in
          let mx := Z.max currRate (maxRIBdumpRate r) in
          if 20 * currRate <? 3 * mx then
            match isBelowThresholdDumpRate r with
            | None => Undef Uninit
            | Some below =>
                match (if below then belowThresholdInitTime r else now) with
                | None => Undef Uninit
                | Some init =>
                    if 3 <=? u32 (timeStamp - init)
                    then Ok (true, set (Some prev) (Some true) (Some init) mx)
                    else Ok (false, set now (Some true) (Some init) mx)
                end
            end
          else Ok (false, set now (Some false) (belowThresholdInitTime r) mx)
        else Ok (false, set now (isBelowThresholdDumpRate r) (belowThresholdInitTime r) (maxRIBdumpRate r))
    end.

(** ** The router hash *)

(** the octets of a C string in an array *)
Definition c_string (l : list Z) : outcome (list Z) :=
  if bool_decide (0 ∈ l) then Ok (until_nul l) else Undef OobRead.

(** [BMPListener::hashRouter], for an accepted connection *)
Definition listener_hash (cfg : Config) (ip : string) : outcome (list Z) :=
  Md5.md5_digest [bytes_of_string ip; bytes_of_string (hash_toStr (c_hash_id cfg))].

(** [BMPReader::hashRouter] *)
Definition router_hash (cfg : Config) (r : obj_router) : outcome (list Z) :=
  hash_val ← (if ro_hash_type r =? 2 then Ok (bytes_of_string (ro_bgp_id r))
              else if ro_hash_type r =? 1 then c_string (ro_name r)
              else Ok (bytes_of_string (ro_ip_addr r)));
  Md5.md5_digest [hash_val; bytes_of_string (hash_toStr (c_hash_id cfg))].

(** ** State updates *)

Definition set_hash_ip (h : list Z) (ip : string) (r : obj_router) : obj_router :=
  {| ro_hash_id := h; ro_hash_type := ro_hash_type r; ro_name := ro_name r; ro_descr := ro_descr r;
     ro_ip_addr := ip; ro_bgp_id := ro_bgp_id r; ro_asn := ro_asn r;
     ro_term_reason_code := ro_term_reason_code r; ro_term_reason_text := ro_term_reason_text r;
     ro_term_data := ro_term_data r; ro_initiate_data := ro_initiate_data r;
     ro_timestamp_secs := ro_timestamp_secs r; ro_timestamp_us := ro_timestamp_us r |}.

Definition set_router_hash (h : list Z) (p : obj_bgp_peer) : obj_bgp_peer :=
  {| pe_hash_id := pe_hash_id p; pe_router_hash_id := h; pe_table_name := pe_table_name p;
     pe_rd := pe_rd p; pe_addr := pe_addr p; pe_bgp_id := pe_bgp_id p; pe_as := pe_as p;
     pe_isL3VPN := pe_isL3VPN p; pe_isPrePolicy := pe_isPrePolicy p; pe_isAdjIn := pe_isAdjIn p;
     pe_isLocRib := pe_isLocRib p; pe_isLocRibFiltered := pe_isLocRibFiltered p; pe_isIPv4 := pe_isIPv4 p;
     pe_isTwoOctet := pe_isTwoOctet p; pe_timestamp_secs := pe_timestamp_secs p;
     pe_timestamp_us := pe_timestamp_us p |}.

Definition set_client (hash : list Z) (init : bool) (s : list Z) (opened : bool) (c : ClientInfo) : ClientInfo :=
  {| hash_id := hash; initRec := init; c_ip := c_ip c; startTime := startTime c; stream := s;
     stream_err := stream_err c; c_open := opened |}.

Definition set_error_text (t : string) (d : obj_peer_down_event) : obj_peer_down_event :=
  {| de_bmp_reason := de_bmp_reason d; de_bgp_err_code := de_bgp_err_code d;
     de_bgp_err_subcode := de_bgp_err_subcode d; de_error_text := t |}.

(** the key of [peer_info_map]: address and route distinguisher *)
Definition peer_info_key (p : obj_bgp_peer) : string := pe_addr p +:+ pe_rd p.

Section reading.
Context {LS : LinkState} {bus : Type} {MB : MsgBus bus}.
Context (redis_enabled : bool) (cfg : Config).

Definition with_bus (b : bus) (r : reader bus) : reader bus :=
  {| router_hash_id := router_hash_id r; rate := rate r; peer_info_map := peer_info_map r; client := client r;
     router_baseline_time := router_baseline_time r; mbus := b |}.
Definition with_peer_info (k : string) (i : peer_info) (r : reader bus) : reader bus :=
  {| router_hash_id := router_hash_id r; rate := rate r; peer_info_map := <[k := i]> (peer_info_map r);
     client := client r; router_baseline_time := router_baseline_time r; mbus := mbus r |}.
Definition with_client (h : list Z) (c : ClientInfo) (r : reader bus) : reader bus :=
  {| router_hash_id := h; rate := rate r; peer_info_map := peer_info_map r; client := c;
     router_baseline_time := router_baseline_time r; mbus := mbus r |}.
Definition with_rate (d : dump_rate) (t : gmap (list Z) Z) (r : reader bus) : reader bus :=
  {| router_hash_id := router_hash_id r; rate := d; peer_info_map := peer_info_map r; client := client r;
     router_baseline_time := t; mbus := mbus r |}.

(** ** Exceptions

    Inside the [try] block a computation returns a value or the text of a
    caught exception, and the frame.  After an exception the parser and the peer
    information are not used any more; their state is the one before the call
    that raised it, while the bus is as the exception left it. *)
Definition R (A : Type) : Type := frame bus → outcome ((A + string) * frame bus).

#[global] Instance R_ret : MRet R := λ A a fr, Ok (inl a, fr).
#[global] Instance R_bind : MBind R := λ A B f m fr,
  '(x, fr) ← m fr;
  match x with inl a => f a fr | inr e => Ok (inr e, fr) end.

Definition raise {A} (e : string) : R A := λ fr, Ok (inr e, fr).
Definition ask {A} (f : frame bus → A) : R A := λ fr, Ok (inl (f fr), fr).
Definition upd (f : reader bus → reader bus) : R unit := λ fr,
  Ok (inl tt, {| fr_reader := f (fr_reader fr); fr_bmp := fr_bmp fr; r_object := r_object fr |}).
Definition put_entry (p : obj_bgp_peer) : R unit := λ fr,
  Ok (inl tt, {| fr_reader := fr_reader fr; fr_bmp := set_entry p (fr_bmp fr); r_object := r_object fr |}).
Definition put_router (r : obj_router) : R unit := λ fr,
  Ok (inl tt, {| fr_reader := fr_reader fr; fr_bmp := fr_bmp fr; r_object := r |}).

(** a call of the BMP parser *)
Definition bmp_call {A} (m : M A) : R A := λ fr,
  match m (fr_bmp fr) with
  | Ok (a, b) => Ok (inl a, {| fr_reader := fr_reader fr; fr_bmp := b; r_object := r_object fr |})
  | Throw e => Ok (inr e, fr)
  | Undef u => Undef u
  | NoFuel => NoFuel
  end.
(** a call of the BGP parser that may throw a text *)
Definition bgp_call {A} (m : outcome A) : R A := λ fr,
  match m with
  | Ok a => Ok (inl a, fr)
  | Throw e => Ok (inr e, fr)
  | Undef u => Undef u
  | NoFuel => NoFuel
  end.
(** a call whose exceptions, if it has any, are not texts, so that the handler does
    not catch them ([std::stoul]) *)
Definition uncaught {A} (m : outcome A) : R A := λ fr, a ← m; Ok (inl a, fr).
(** the bus after a call: an exception of the bus is caught like the others *)
Definition put_bus (b : bus) : R unit :=
  match thrown b with
  | None => upd (with_bus b)
  | Some e => _ ← upd (with_bus (caught b)); raise e
  end.

Definition p_entry : R obj_bgp_peer := ask (λ fr, entry (fr_bmp fr)).
Definition body : R (list Z * Z) := ask (λ fr, (bmp_data (fr_bmp fr), bmp_data_len (fr_bmp fr))).

(** ** Bus calls *)

Definition publish_router (c : router_action_code) : R unit :=
  r ← ask r_object;
  b ← ask (λ fr, mbus (fr_reader fr));
  '(r, b) ← uncaught (update_Router r c b);
  _ ← put_router r;
  put_bus b.

Definition publish_peer (u : option obj_peer_up_event) (d : option obj_peer_down_event) (c : peer_action_code)
  : R unit :=
  p ← p_entry;
  b ← ask (λ fr, mbus (fr_reader fr));
  '(p, b) ← uncaught (update_Peer p u d c b);
  _ ← put_entry p;
  put_bus b.

(** [peer_info_map[key]] *)
Definition peer_info_of (key : string) : R peer_info :=
  ask (λ fr, default new_peer_info (peer_info_map (fr_reader fr) !! key)).

(** ** The peer of a message *)

Definition note_peer (type : Z) : R string :=
  p ← p_entry;
  r ← ask r_object;
  _ ← put_entry (set_router_hash (ro_hash_id r) p);
  let key := peer_info_key p in
  _ ← (if negb (type =? TYPE_PEER_UP) then publish_peer None None PEER_ACTION_FIRST else mret tt);
  p ← p_entry;
  i ← peer_info_of key;
  _ ← upd (with_peer_info key
             (if negb (using_2_octet_asn i) && pe_isTwoOctet p then set_using_2_octet true i else i));
  mret key.

(** ** Message types *)

Definition peer_down (key : string) : R unit :=
  '(good, down_event) ← bmp_call (parsePeerDownEventHdr zero_down_event);
  if (good : bool) then
    _ ← bmp_call bufferBMPMessage;
    '(data, len) ← body;
    p ← p_entry;
    r ← ask r_object;
    let notify t :=
      '(_, _, e) ← bgp_call (handleDownEvent data len new_parser (set_error_text (snprintf 255 t) down_event));
      mret e in
    e ← match de_bmp_reason down_event with
        | 1 => notify ("Local close by (" +:+ ro_ip_addr r +:+ ") for peer (" +:+ pe_addr p +:+ ") : ")
        | 2 =>
            ev ← uncaught (memcpy 2 data);
            mret (set_error_text (snprintf 255 ("Local (" +:+ ro_ip_addr r +:+ ") closed peer (" +:+ pe_addr p
                    +:+ ") session: fsm_event=" +:+ dec (ntoh ev) +:+ ", No BGP notify message.")) down_event)
        | 3 => notify ("Remote peer (" +:+ ro_ip_addr r +:+ ") closed local (" +:+ pe_addr p +:+ ") session: ")
        | _ => mret down_event
        end;
    publish_peer None (Some e) PEER_ACTION_DOWN
  else raise "BMPReader: Unable to read from client socket".

Definition peer_up (key : string) : R unit :=
  '(good, up_event) ← bmp_call (parsePeerUpEventHdr zero_up_event);
  if (good : bool) then
    _ ← bmp_call bufferBMPMessage;
    '(data, len) ← body;
    i ← peer_info_of key;
    '(read, _, i, up_event) ← bgp_call (handleUpEvent data len new_parser i up_event);
    _ ← upd (with_peer_info key i);
    p ← p_entry;
    let rest := i32 len - read in
    _ ← (if 0 <? rest
         then p ← uncaught (parsePeerUpInfo (adv read data) rest p); put_entry p
         else mret tt);
    publish_peer (Some up_event) None PEER_ACTION_UP
  else mret tt.

(** all peers have sent their End-of-RIB *)
Definition all_end_of_rib (m : gmap string peer_info) : bool :=
  forallb (λ kv, endOfRIB kv.2) (map_to_list m).

(** the baseline of a router that has sent its initiation message; [tod] is the
    time of day in seconds *)
Definition note_baseline (tod : Z) : R unit :=
  rd ← ask fr_reader;
  p ← p_entry;
  let c := client rd in
  if initRec c && bool_decide (router_baseline_time rd !! hash_id c = None) then
    '(hit, d) ← uncaught
      (if all_end_of_rib (peer_info_map rd) then Ok (true, rate rd)
       else match ribSeq (mbus rd) with
            | None => Undef Uninit
            | Some n => checkRIBdumpRate (pe_timestamp_secs p) n (rate rd)
            end);
    upd (with_rate d (if (hit : bool) then <[hash_id c := tod - startTime c]> (router_baseline_time rd)
                      else router_baseline_time rd))
  else mret tt.

Definition route_monitoring (tod : Z) (key : string) : R unit :=
  _ ← bmp_call bufferBMPMessage;
  '(data, len) ← body;
  p ← p_entry;
  i ← peer_info_of key;
  b ← ask (λ fr, mbus (fr_reader fr));
  '(_, _, i, b) ← uncaught (handleUpdate redis_enabled p data len new_parser i b);
  _ ← upd (with_peer_info key i);
  _ ← put_bus b;
  note_baseline tod.

Definition stats_report : R unit :=
  '(err, stats) ← bmp_call (handleStatsReport zero_stats);
  if (err : bool) then mret tt
  else
    p ← p_entry;
    b ← ask (λ fr, mbus (fr_reader fr));
    b ← uncaught (add_StatReport p stats b);
    put_bus b.

Definition initiation : R unit :=
  _ ← upd (λ rd, with_client (router_hash_id rd)
              (set_client (hash_id (client rd)) true (stream (client rd)) (c_open (client rd)) (client rd)) rd);
  r ← ask r_object;
  r ← bmp_call (handleInitMsg r);
  _ ← put_router r;
  _ ← (if pat_enabled cfg && negb (ro_hash_type r =? 0) then
         h ← uncaught (router_hash cfg r);
         _ ← upd (λ rd, with_client h
                    (set_client h (initRec (client rd)) (stream (client rd)) (c_open (client rd)) (client rd)) rd);
         put_router (set_hash_ip h (ro_ip_addr r) r)
       else mret tt);
  publish_router ROUTER_ACTION_INIT.

(** closing the socket *)
Definition close (rd : reader bus) : reader bus :=
  with_client (router_hash_id rd)
    (set_client (hash_id (client rd)) (initRec (client rd)) (stream (client rd)) false (client rd)) rd.

Definition termination : R unit :=
  r ← ask r_object;
  r ← bmp_call (handleTermMsg r);
  _ ← put_router r;
  _ ← publish_router ROUTER_ACTION_TERM;
  upd close.

(** ** [ReadIncomingMsg] *)

(** the [try] block: whether the connection stays open *)
Definition try_block (now : Z * Z) (tod : Z) : R bool :=
  type ← bmp_call (handleMessage now);
  _ ← (if negb (type =? TYPE_INIT_MSG) then publish_router ROUTER_ACTION_FIRST else mret tt);
  key ← (if type <? 4 then note_peer type else mret "");
  if type =? TYPE_PEER_DOWN then _ ← peer_down key; mret true
  else if type =? TYPE_PEER_UP then _ ← peer_up key; mret true
  else if type =? TYPE_ROUTE_MON then _ ← route_monitoring tod key; mret true
  else if type =? TYPE_STATS_REPORT then _ ← stats_report; mret true
  else if type =? TYPE_INIT_MSG then _ ← initiation; mret true
  else if type =? TYPE_TERM_MSG then _ ← termination; mret false
  else mret true.

Definition TERM_REASON_OPENBMP_CONN_ERR : Z := 65534.

(** with the exception, if the bus threw one before the socket is closed *)
Definition disconnect (reason_code : Z) (reason_text : string) (rd : reader bus) : outcome (option string * reader bus) :=
  let r := set_hash_ip (router_hash_id rd) (c_ip (client rd)) zero_router in
  let r := set_term reason_code (snprintf 255 reason_text) (ro_term_data r) r in
  '(_, b) ← update_Router r ROUTER_ACTION_TERM (mbus rd);
  match thrown b with
  | Some e => Ok (Some e, with_bus (caught b) rd)
  | None => Ok (None, close (with_bus b rd))
  end.

(** a message was read and more may follow, the router terminated the session,
    or an exception was raised *)
Inductive read_result : Type := ReadMore | ReadClosed | ReadRaised (e : string).

Definition start_frame (rd : reader bus) : frame bus :=
  let h := hash_id (client rd) in
  {| fr_reader := with_client h (client rd) rd;
     fr_bmp := new_bmp (stream (client rd)) (stream_err (client rd));
     r_object := set_hash_ip h (c_ip (client rd)) zero_router |}.

(** the socket where the parser left it *)
Definition end_frame (fr : frame bus) : reader bus :=
  let rd := fr_reader fr in
  with_client (router_hash_id rd)
    (set_client (hash_id (client rd)) (initRec (client rd)) (sock (fr_bmp fr)) (c_open (client rd)) (client rd)) rd.

(** An exception of the bus in the handler, or after the [try] block, goes to the
    caller as it is. *)
Definition ReadIncomingMsg (now : Z * Z) (tod : Z) (rd : reader bus) : outcome (read_result * reader bus) :=
  '(x, fr) ← try_block now tod (start_frame rd);
  match x with
  | inr e => '(e', rd) ← disconnect TERM_REASON_OPENBMP_CONN_ERR e (fr_reader fr); Ok (ReadRaised (default e e'), rd)
  | inl rval =>
      let rd := end_frame fr in
      b ← send_bmp_raw (router_hash_id rd) (entry (fr_bmp fr)) (bmp_packet (fr_bmp fr)) (mbus rd);
      match thrown b with
      | Some e => Ok (ReadRaised e, with_bus (caught b) rd)
      | None => Ok (if (rval : bool) then ReadMore else ReadClosed, with_bus b rd)
      end
  end.

(** [while (run)]: the clock readings, one per message, bound the iterations;
    the result is the value of [run] *)
Fixpoint readerThreadLoop (clock : list (Z * Z * Z)) (rd : reader bus) : outcome (bool * reader bus) :=
  match clock with
  | [] => NoFuel
  | (now, tod) :: clock =>
      '(x, rd) ← ReadIncomingMsg now tod rd;
      match x with
      | ReadMore => readerThreadLoop clock rd
      | ReadClosed => Ok (true, rd)
      | ReadRaised _ => Ok (false, rd)
      end
  end.
End reading.

(** ** Running the reader *)

Section run.
Context {bus : Type}.
Implicit Types (fr : frame bus).

Lemma R_bind_inl {A B} (m : R A) (f : A → R B) fr a fr' : m fr = Ok (inl a, fr') → (m ≫= f) fr = f a fr'.
Proof. intros E. unfold mbind, R_bind. by rewrite E. Qed.
Lemma R_bind_inr {A B} (m : R A) (f : A → R B) fr e fr' : m fr = Ok (inr e, fr') → (m ≫= f) fr = Ok (inr e, fr').
Proof. intros E. unfold mbind, R_bind. by rewrite E. Qed.

Lemma bmp_call_Ok {A} (m : M A) fr a b :
  m (fr_bmp fr) = Ok (a, b) →
  bmp_call m fr = Ok (inl a, {| fr_reader := fr_reader fr; fr_bmp := b; r_object := r_object fr |}).
Proof. intros E. unfold bmp_call. by rewrite E. Qed.
Lemma bmp_call_Throw {A} (m : M A) fr e : m (fr_bmp fr) = Throw e → bmp_call m fr = Ok (inr e, fr).
Proof. intros E. unfold bmp_call. by rewrite E. Qed.
Lemma bgp_call_Ok {A} (m : outcome A) fr a : m = Ok a → bgp_call m fr = Ok (inl a, fr).
Proof. intros ->. done. Qed.
Lemma uncaught_Ok {A} (m : outcome A) fr a : m = Ok a → uncaught m fr = Ok (inl a, fr).
Proof. intros ->. done. Qed.
End run.

(** what a message does to the information about its peer: the A flag selects
    2-octet AS numbers *)
Definition noted_info (p : obj_bgp_peer) (m : gmap string peer_info) : peer_info :=
  let i := default new_peer_info (m !! peer_info_key p) in
  if negb (using_2_octet_asn i) && pe_isTwoOctet p then set_using_2_octet true i else i.

Section end_to_end.
Context {LS : LinkState} (cfg : Config) (now : Z * Z) (tod : Z).

(** the peer of a message *)
Definition msg_peer (hdr : list Z) (rd : reader (list bus_call)) : obj_bgp_peer :=
  set_router_hash (hash_id (client rd)) (peer_of_hdr now hdr zero_peer).
Definition msg_router (rd : reader (list bus_call)) : obj_router :=
  set_hash_ip (hash_id (client rd)) (c_ip (client rd)) zero_router.

Definition peer_calls (hdr : list Z) (rd : reader (list bus_call)) : list bus_call :=
  [CallRouter (msg_router rd) ROUTER_ACTION_FIRST; CallPeer (msg_peer hdr rd) None None PEER_ACTION_FIRST].

(** the reader after a message of the peer [p] that left the stream at [rest],
    the peer information [i] and the bus [b] *)
Definition after_message (p : obj_bgp_peer) (rest : list Z) (i : peer_info) (b : list bus_call)
    (rd : reader (list bus_call)) : reader (list bus_call) :=
  let c := client rd in
  {| router_hash_id := hash_id c; rate := rate rd;
     peer_info_map := <[peer_info_key p := i]> (peer_info_map rd);
     client := set_client (hash_id c) (initRec c) rest (c_open c) c;
     router_baseline_time := router_baseline_time rd; mbus := b |}.

(** what follows the headers of a message *)
Definition dispatch (type : Z) (key : string) : R bool :=
  if type =? TYPE_PEER_DOWN then _ ← peer_down key; mret true
  else if type =? TYPE_PEER_UP then _ ← peer_up key; mret true
  else if type =? TYPE_ROUTE_MON then _ ← route_monitoring false tod key; mret true
  else if type =? TYPE_STATS_REPORT then _ ← stats_report; mret true
  else if type =? TYPE_INIT_MSG then _ ← initiation cfg; mret true
  else if type =? TYPE_TERM_MSG then _ ← termination; mret false
  else mret true.

(** headers and peer of a message that is not a Peer Up *)
Lemma read_peer type hdr b rd :
  type ∈ [TYPE_ROUTE_MON; TYPE_STATS_REPORT; TYPE_PEER_DOWN] →
  handleMessage now (new_bmp (stream (client rd)) (stream_err (client rd))) = Ok (type, b) →
  entry b = peer_of_hdr now hdr zero_peer →
  let p := msg_peer hdr rd in
  try_block false cfg now tod (start_frame rd)
  = dispatch type (peer_info_key p)
      {| fr_reader := after_message p (stream (client rd)) (noted_info p (peer_info_map rd)) (mbus rd ++ peer_calls hdr rd) rd;
         fr_bmp := set_entry p b; r_object := msg_router rd |}.
Proof.
  intros Ht E Hent p. unfold try_block, start_frame.
  assert (0 ≤ type < 3) as Hr by (rewrite !elem_of_cons, elem_of_nil in Ht; destruct Ht as [->|[->|[->|[]]]]; done).
  erewrite R_bind_inl by (apply bmp_call_Ok; exact E).
  rewrite (proj2 (Z.eqb_neq type TYPE_INIT_MSG)) by (unfold TYPE_INIT_MSG; lia).
  rewrite (proj2 (Z.ltb_lt type 4)) by lia.
  cbn [negb]. erewrite R_bind_inl by reflexivity. cbn beta iota.
  unfold note_peer. rewrite (proj2 (Z.eqb_neq type TYPE_PEER_UP)) by (unfold TYPE_PEER_UP; lia).
  erewrite R_bind_inl by reflexivity. cbn [r_object fr_reader fr_bmp entry set_entry].
  rewrite Hent. fold (msg_router rd). unfold dispatch, TYPE_INIT_MSG.
  rewrite (proj2 (Z.eqb_neq type 4)), (proj2 (Z.eqb_neq type TYPE_PEER_UP)) by (unfold TYPE_PEER_UP; lia).
  f_equal. unfold p, after_message, peer_calls. f_equal. cbn. rewrite <-app_assoc. by destruct rd as [? ? ? [] ? ?].
Qed.

Lemma read_header type hdr body rest rd :
  type ∈ [TYPE_ROUTE_MON; TYPE_STATS_REPORT; TYPE_PEER_DOWN] → length hdr = 42%nat →
  Z.of_nat (length body) ≤ 65493 → stream (client rd) = enc_v3 type (hdr ++ body) ++ rest →
  ∃ fr, try_block false cfg now tod (start_frame rd) = dispatch type (peer_info_key (msg_peer hdr rd)) fr
    ∧ sock (fr_bmp fr) = body ++ rest ∧ bmp_len (fr_bmp fr) = Z.of_nat (length body)
    ∧ entry (fr_bmp fr) = msg_peer hdr rd
    ∧ bmp_data (fr_bmp fr) = zero_data ∧ bmp_data_len (fr_bmp fr) = 0
    ∧ bmp_packet (fr_bmp fr) ++ body = enc_v3 type (hdr ++ body)
    ∧ r_object fr = msg_router rd
    ∧ fr_reader fr = after_message (msg_peer hdr rd) (stream (client rd))
        (noted_info (msg_peer hdr rd) (peer_info_map rd)) (mbus rd ++ peer_calls hdr rd) rd.
Proof.
  intros Ht Hh Hb Hs. destruct (handleMessage_peer now type hdr body rest (stream_err (client rd)))
    as (b & E & Hsock & Hlen & Hent & Hdata & Hdl & Hpk); [|done|done|].
  { rewrite !elem_of_cons, elem_of_nil in Ht. by destruct Ht as [->|[->|[->|[]]]]. }
  rewrite <-Hs in E. eexists. split; [by apply (read_peer type hdr b rd)|]. by split_and!.
Qed.

(** no baseline is due: the router has sent no initiation message, or its
    baseline is known *)
Definition no_baseline (rd : reader (list bus_call)) : bool :=
  negb (initRec (client rd)) || bool_decide (router_baseline_time rd !! hash_id (client rd) ≠ None).

Lemma note_baseline_skip (fr : frame (list bus_call)) :
  no_baseline (fr_reader fr) = true → note_baseline tod fr = Ok (inl tt, fr).
Proof.
  intros H. unfold note_baseline. erewrite R_bind_inl by reflexivity. erewrite R_bind_inl by reflexivity.
  unfold no_baseline in H. destruct (initRec _); [|done]. cbn [negb orb andb] in *.
  rewrite bool_decide_eq_true in H. by rewrite bool_decide_eq_false_2.
Qed.

(** a message read to its end *)
Lemma finish_message p rest i t pk rd (fr : frame (list bus_call)) :
  sock (fr_bmp fr) = rest → entry (fr_bmp fr) = p → bmp_packet (fr_bmp fr) = pk →
  fr_reader fr = after_message p (stream (client rd)) i t rd →
  try_block false cfg now tod (start_frame rd) = Ok (inl true, fr) →
  ReadIncomingMsg false cfg now tod rd
  = Ok (ReadMore, after_message p rest i (t ++ [CallRaw (hash_id (client rd)) p pk]) rd).
Proof.
  intros Hs He Hp Hr E. unfold ReadIncomingMsg. rewrite E, bind_Ok_l. unfold end_frame. by rewrite Hr, Hs, He, Hp.
Qed.

Lemma route_monitoring_app s ws l ns hdr rest rd :
  let msg := enc_bgp BGP_MSG_UPDATE (enc_update s ws l ns) in
  let d := update_result s ws l ns in
  let p := msg_peer hdr rd in
  let i := noted_info p (peer_info_map rd) in
  length hdr = 42%nat → session_ok s i →
  Forall (wf_nlri 32) ws → Forall (wf_flagged s) l → Forall (wf_nlri 32) ns →
  23 < Z.of_nat (length msg) ≤ 65493 → no_baseline rd = true →
  stream (client rd) = enc_v3 TYPE_ROUTE_MON (hdr ++ msg) ++ rest →
  ∃ a h ribs,
    fill_base_attr (attrs d) uninit_path_attr = Ok a
    ∧ Forall2 (λ t e, ∃ bc, e = rib_entry p h t bc) (advertised d) ribs
    ∧ ReadIncomingMsg false cfg now tod rd
      = Ok (ReadMore, after_message p rest i
              (mbus rd ++ peer_calls hdr rd
               ++ update_calls p a ribs ((λ x, rib_entry p h x no_bcast) <$> withdrawn d)
                    (negb (is_empty (get_attr (attrs d) ATTR_TYPE_NEXT_HOP)))
               ++ [CallRaw (hash_id (client rd)) p (enc_v3 TYPE_ROUTE_MON (hdr ++ msg))]) rd).
Proof.
  intros msg d p i Hh Hses Hws Hl Hns Hlen Hnb Hs.
  destruct (read_header TYPE_ROUTE_MON hdr msg rest rd)
    as (fr & Et & Hsock & Hbl & Hent & Hdata & Hdl & Hpk & Hro & Hrd); [set_solver|done|lia|done|].
  destruct fr as [rd1 b ro]. cbn [fr_reader fr_bmp r_object] in *.
  set (t := mbus rd ++ peer_calls hdr rd) in *.
  destruct (handleUpdate_app s ws l ns (drop (length msg) zero_data) i p t)
    as (a & h & ribs & st & Ha & Hr & Eu); [done..|fold msg; lia|].
  exists a, h, ribs. split_and!; [done..|].
  rewrite !app_assoc. fold t. set (t' := t ++ update_calls _ _ _ _ _) in *.
  assert (bufferBMPMessage b = Ok (tt, set_len 0 (set_data (msg ++ drop (length msg) zero_data)
            (Z.of_nat (length msg)) (consumed msg rest b)))) as Eb.
  { rewrite <-Hdata. apply bufferBMPMessage_app; rewrite ?Hdata, ?Hbl; [apply length_zero_data|done|done|].
    unfold BMP_DATA_SIZE, BMP_PACKET_BUF_SIZE. lia. }
  set (key := peer_info_key p). set (b2 := set_len 0 _) in Eb.
  assert (route_monitoring false tod key {| fr_reader := rd1; fr_bmp := b; r_object := ro |}
    = Ok (inl tt, {| fr_reader := after_message p (stream (client rd)) i t' rd; fr_bmp := b2; r_object := ro |})) as Er.
  { unfold route_monitoring. erewrite R_bind_inl by (apply bmp_call_Ok; exact Eb).
    do 3 (erewrite R_bind_inl by reflexivity; cbn beta iota).
    cbn [fr_reader fr_bmp bmp_data bmp_data_len b2 set_len set_data entry consumed set_sock].
    rewrite Hrd, Hent. cbn [peer_info_map after_message]. unfold key at 1. rewrite lookup_insert_eq. cbn [default].
    erewrite R_bind_inl by reflexivity. cbn [fr_reader mbus after_message].
    erewrite R_bind_inl by (apply uncaught_Ok; exact Eu). cbn beta iota.
    do 2 erewrite R_bind_inl by reflexivity. rewrite note_baseline_skip by exact Hnb.
    cbn [fr_reader]. unfold with_bus, with_peer_info, after_message. cbn. by rewrite insert_insert_eq. }
  eapply finish_message with (fr := {| fr_reader := _; fr_bmp := b2; r_object := ro |}); [done|done| |reflexivity|].
  - cbn [b2 fr_bmp bmp_packet set_len set_data consumed set_sock].
    rewrite copy_packet_app; [done|]. rewrite <-length_app, Hpk. unfold enc_v3, BMP_PACKET_BUF_SIZE.
    rewrite length_cons, !length_app, length_hton, length_cons, length_app. lia.
  - rewrite Et. exact (R_bind_inl _ (λ _, mret true) _ _ _ Er).
Qed.

(** *** Exceptions *)

Definition term_router (e : string) (c : ClientInfo) (h : list Z) : obj_router :=
  set_term TERM_REASON_OPENBMP_CONN_ERR (snprintf 255 e) (zeros 4096) (set_hash_ip h (c_ip c) zero_router).

Lemma read_throw rd e :
  handleMessage now (new_bmp (stream (client rd)) (stream_err (client rd))) = Throw e →
  ReadIncomingMsg false cfg now tod rd
  = Ok (ReadRaised e,
        close (with_bus (mbus rd ++ [CallRouter (term_router e (client rd) (hash_id (client rd))) ROUTER_ACTION_TERM])
                 (with_client (hash_id (client rd)) (client rd) rd))).
Proof.
  intros E. unfold ReadIncomingMsg, try_block.
  by erewrite R_bind_inr by (apply bmp_call_Throw; exact E).
Qed.
End end_to_end.

(** *** A stream of UPDATE messages *)

Record rm_msg : Type := {
  rm_hdr : list Z; rm_withdrawn : list nlri; rm_attrs : list (Z * path_attr); rm_announced : list nlri }.

Section stream.
Context {LS : LinkState} (cfg : Config) (s : session).

Definition rm_update (m : rm_msg) : list Z :=
  enc_bgp BGP_MSG_UPDATE (enc_update s (rm_withdrawn m) (rm_attrs m) (rm_announced m)).
Definition rm_octets (m : rm_msg) : list Z := enc_v3 TYPE_ROUTE_MON (rm_hdr m ++ rm_update m).

(** a Route Monitoring message whose header has the A flag clear *)
Definition wf_rm (m : rm_msg) : Prop :=
  length (rm_hdr m) = 42%nat ∧ (∀ now, pe_isTwoOctet (peer_of_hdr now (rm_hdr m) zero_peer) = false)
  ∧ Forall (wf_nlri 32) (rm_withdrawn m) ∧ Forall (wf_flagged s) (rm_attrs m)
  ∧ Forall (wf_nlri 32) (rm_announced m) ∧ 23 < Z.of_nat (length (rm_update m)) ≤ 65493.

(** the calls that publish one message *)
Definition rm_published (rd : reader (list bus_call)) (cm : (Z * Z * Z) * rm_msg) (calls : list bus_call) : Prop :=
  let '(now, _, m) := cm in
  let d := update_result s (rm_withdrawn m) (rm_attrs m) (rm_announced m) in
  let p := msg_peer now (rm_hdr m) rd in
  ∃ a h ribs,
    fill_base_attr (attrs d) uninit_path_attr = Ok a
    ∧ Forall2 (λ t e, ∃ bc, e = rib_entry p h t bc) (advertised d) ribs
    ∧ calls = peer_calls now (rm_hdr m) rd
         ++ update_calls p a ribs ((λ x, rib_entry p h x no_bcast) <$> withdrawn d)
              (negb (is_empty (get_attr (attrs d) ATTR_TYPE_NEXT_HOP)))
         ++ [CallRaw (hash_id (client rd)) p (rm_octets m)].

(** every peer the reader knows, and every new one, follows the session *)
Definition uniform (rd : reader (list bus_call)) : Prop :=
  ∀ k, session_ok s (default new_peer_info (peer_info_map rd !! k)).

Lemma noted_uniform p rd :
  uniform rd → pe_isTwoOctet p = false →
  noted_info p (peer_info_map rd) = default new_peer_info (peer_info_map rd !! peer_info_key p).
Proof. intros _ Hp. unfold noted_info. by rewrite Hp, andb_false_r. Qed.

Lemma uniform_after p rest b rd :
  uniform rd →
  uniform (after_message p rest (default new_peer_info (peer_info_map rd !! peer_info_key p)) b rd).
Proof.
  intros Hu k. cbn [peer_info_map after_message]. destruct (decide (peer_info_key p = k)) as [<-|Hne].
  - rewrite lookup_insert_eq. apply Hu.
  - rewrite lookup_insert_ne by done. apply Hu.
Qed.

(** what stays the same of a connection while messages are read *)
Definition same_client (rd rd' : reader (list bus_call)) : Prop :=
  hash_id (client rd') = hash_id (client rd) ∧ c_ip (client rd') = c_ip (client rd)
  ∧ stream_err (client rd') = stream_err (client rd).

(** the messages in front of a stream *)
Lemma stream_loop (cms : list ((Z * Z * Z) * rm_msg)) (clock : list (Z * Z * Z)) (tail : list Z) (rd : reader (list bus_call)) :
  uniform rd → no_baseline rd = true → Forall (λ cm, wf_rm cm.2) cms →
  stream (client rd) = concat ((λ cm, rm_octets cm.2) <$> cms) ++ tail →
  ∃ traces rd1,
    Forall2 (rm_published rd) cms traces
    ∧ readerThreadLoop false cfg ((fst <$> cms) ++ clock) rd = readerThreadLoop false cfg clock rd1
    ∧ mbus rd1 = mbus rd ++ concat traces ∧ stream (client rd1) = tail ∧ same_client rd rd1.
Proof.
  intros Hu Hnb Hwf. revert rd Hu Hnb. induction Hwf as [|[[now' tod'] m] cms (Hh & H2 & Hws & Hl & Hns & Hlen) _ IH];
    intros rd Hu Hnb Hs.
  - exists [], rd. cbn in *. by rewrite app_nil_r.
  - cbn [snd] in *. rewrite fmap_cons in Hs. cbn [concat snd] in Hs. rewrite <-app_assoc in Hs.
    set (p := msg_peer now' (rm_hdr m) rd). assert (pe_isTwoOctet p = false) as Hp by apply (H2 now').
    pose proof (noted_uniform p rd Hu Hp) as Hi.
    destruct (route_monitoring_app cfg now' tod' s (rm_withdrawn m) (rm_attrs m) (rm_announced m) (rm_hdr m)
                (concat ((λ cm, rm_octets cm.2) <$> cms) ++ tail) rd) as (a & h & ribs & Ha & Hr & E); try done.
    { fold p. rewrite Hi. apply Hu. }
    fold p in E, Hr. rewrite Hi in E.
    match type of E with _ = Ok (_, ?r) => set (rd1 := r) in E end.
    destruct (IH rd1) as (traces & rd' & Ht & Eloop & Hb & Hst & Hsame); [by apply uniform_after|exact Hnb|done|].
    eexists (_ :: traces), rd'. split_and!; [constructor; [|exact Ht]| | |done|done].
    + exists a, h, ribs. split_and!; [done|done|reflexivity].
    + cbn [fmap list_fmap fst app readerThreadLoop]. rewrite E, bind_Ok_l. exact Eloop.
    + rewrite Hb. cbn [rd1 mbus after_message concat]. rewrite <-!app_assoc. reflexivity.
Qed.

(** C1: a stream of UPDATE messages reaches the bus completely and in order.
    For any number of Route Monitoring messages, possibly of different peers,
    the loop publishes for each message the router, the peer, the attributes,
    the announcements, the withdrawals and the octets of the message, in the
    order of the stream; when the stream ends it reports the router as
    disconnected, closes the connection and stops. *)
Theorem reader_stream (cms : list ((Z * Z * Z) * rm_msg)) (now : Z * Z) (tod : Z) (rd : reader (list bus_call)) :
  uniform rd → no_baseline rd = true → Forall (λ cm, wf_rm cm.2) cms →
  stream (client rd) = concat ((λ cm, rm_octets cm.2) <$> cms) → stream_err (client rd) = false →
  ∃ traces rd',
    Forall2 (rm_published rd) cms traces
    ∧ readerThreadLoop false cfg ((fst <$> cms) ++ [(now, tod)]) rd = Ok (false, rd')
    ∧ mbus rd' = mbus rd ++ concat traces
        ++ [CallRouter (term_router "(2) Connection closed" (client rd) (hash_id (client rd))) ROUTER_ACTION_TERM]
    ∧ c_open (client rd') = false.
Proof.
  intros Hu Hnb Hwf Hs He. destruct (stream_loop cms [(now, tod)] [] rd) as (traces & rd1 & Ht & El & Hb & Hst & Hh & Hip & Herr);
    [done..|by rewrite app_nil_r|].
  eexists traces, _. split_and!; [done| | |].
  - rewrite El. cbn [readerThreadLoop]. erewrite read_throw by (rewrite Hst, Herr, He; reflexivity). by rewrite bind_Ok_l.
  - cbn [mbus close with_client with_bus]. unfold term_router. by rewrite Hh, Hip, Hb, <-app_assoc.
  - done.
Qed.

(** *** Messages that are not valid *)

Inductive malformed : Type :=
| UnknownVersion (ver : Z) (rest : list Z)
| WrongLength (len type : Z) (rest : list Z)     (** below the common header or above the largest message *)
| UnknownType (len type : Z) (rest : list Z)
| CutHeader (some : list Z)                      (** the stream ends in the common header *)
| ShortMessage (len : Z) (hdr rest : list Z)     (** less than the headers *)
| CutBody (n : Z) (hdr some : list Z).           (** the stream ends before the [n] octets of the body *)

Definition enc_malformed (m : malformed) : list Z :=
  match m with
  | UnknownVersion ver rest => ver :: rest
  | WrongLength len type rest | UnknownType len type rest => 3 :: hton 4 len ++ type :: rest
  | CutHeader some => 3 :: some
  | ShortMessage len hdr rest => 3 :: hton 4 len ++ TYPE_ROUTE_MON :: hdr ++ rest
  | CutBody n hdr some => 3 :: hton 4 (48 + n) ++ TYPE_ROUTE_MON :: hdr ++ some
  end.
Definition wf_malformed (m : malformed) : Prop :=
  match m with
  | UnknownVersion ver _ => ver ∉ [1; 2; 3]
  | WrongLength len _ _ => 0 ≤ len < 2 ^ 32 ∧ (len < 6 ∨ 65541 < len)
  | UnknownType len type _ => 6 ≤ len ≤ 65541 ∧ 6 ≤ type < 256
  | CutHeader some => (length some < 5)%nat
  | ShortMessage len hdr _ => length hdr = 42%nat ∧ 6 ≤ len < 48
  | CutBody n hdr some => length hdr = 42%nat ∧ Z.of_nat (length some) < n ≤ 65493
  end.
Definition malformed_text (m : malformed) : string :=
  match m with
  | UnknownVersion _ _ => "ERROR: Unsupported BMP message version"
  | WrongLength _ _ _ => "ERROR: BMP length is larger than max possible BGP size"
  | UnknownType _ _ _ => "ERROR: BMP message type is not supported"
  | CutHeader _ => "ERROR: Cannot read v3 BMP common header."
  | ShortMessage _ _ _ => "BMP message length is too large for buffer, invalid BMP sender"
  | CutBody _ _ _ => "Error while reading BMP data into buffer"
  end.
(** a message with a peer announces the router and the peer before its body is read *)
Definition malformed_calls (now : Z * Z) (m : malformed) (rd : reader (list bus_call)) : list bus_call :=
  match m with ShortMessage _ hdr _ | CutBody _ hdr _ => peer_calls now hdr rd | _ => [] end.

(** the body of a Route Monitoring message that cannot be buffered *)
Lemma read_bad_body now tod hdr b e rd :
  handleMessage now (new_bmp (stream (client rd)) (stream_err (client rd))) = Ok (TYPE_ROUTE_MON, b) →
  entry b = peer_of_hdr now hdr zero_peer → bufferBMPMessage (set_entry (msg_peer now hdr rd) b) = Throw e →
  ∃ rd', ReadIncomingMsg false cfg now tod rd = Ok (ReadRaised e, rd') ∧ c_open (client rd') = false
    ∧ mbus rd' = mbus rd ++ peer_calls now hdr rd ++ [CallRouter (term_router e (client rd) (hash_id (client rd))) ROUTER_ACTION_TERM].
Proof.
  intros E Hent Eb. unfold ReadIncomingMsg. rewrite (read_peer cfg now tod TYPE_ROUTE_MON hdr b rd) by (done || set_solver).
  unfold dispatch. change (TYPE_ROUTE_MON =? TYPE_PEER_DOWN) with false. change (TYPE_ROUTE_MON =? TYPE_PEER_UP) with false.
  change (TYPE_ROUTE_MON =? TYPE_ROUTE_MON) with true. cbn iota. unfold route_monitoring.
  erewrite R_bind_inr by (eapply R_bind_inr; apply bmp_call_Throw; exact Eb). rewrite bind_Ok_l. cbn beta iota.
  eexists. split; [reflexivity|]. split; [done|]. cbn. unfold term_router. by rewrite <-app_assoc.
Qed.

Lemma read_malformed m now tod rd :
  wf_malformed m → stream (client rd) = enc_malformed m →
  ∃ rd', ReadIncomingMsg false cfg now tod rd = Ok (ReadRaised (malformed_text m), rd') ∧ c_open (client rd') = false
    ∧ mbus rd' = mbus rd ++ malformed_calls now m rd
                 ++ [CallRouter (term_router (malformed_text m) (client rd) (hash_id (client rd))) ROUTER_ACTION_TERM].
Proof.
  intros Hm Hs. destruct m as [ver rest|len type rest|len type rest|some|len hdr rest|n hdr some];
    cbn [wf_malformed enc_malformed malformed_text malformed_calls] in *.
  - eexists. split; [apply read_throw; rewrite Hs; by apply handleMessage_unknown_version|done].
  - destruct Hm. eexists. split; [apply read_throw; rewrite Hs; by apply handleMessage_bad_length|done].
  - destruct Hm. eexists. split; [apply read_throw; rewrite Hs; by apply handleMessage_unknown_type|done].
  - eexists. split; [apply read_throw; rewrite Hs; by apply handleMessage_cut_header|done].
  - destruct Hm as [Hh Hl]. replace len with (48 + (len - 48)) in Hs by lia.
    destruct (handleMessage_announced now TYPE_ROUTE_MON hdr (len - 48) rest (stream_err (client rd))) as (b & E & Hsk & Hbl & Hent & Hd);
      [done|done|lia|]. rewrite <-Hs in E. apply (read_bad_body now tod hdr b); [done|done|].
    destruct (bufferBMPMessage_spec (set_entry (msg_peer now hdr rd) b) [] rest) as (_ & H & _); cbn;
      [rewrite Hd; apply length_zero_data|done|rewrite Hbl; apply Z.mod_pos_bound; lia|]. apply H. cbn. rewrite Hbl.
    unfold u32. rewrite <-(Z.mod_add _ 1), Z.mod_small by lia. unfold BMP_DATA_SIZE, BMP_PACKET_BUF_SIZE. lia.
  - destruct Hm as [Hh Hn].
    destruct (handleMessage_announced now TYPE_ROUTE_MON hdr n some (stream_err (client rd))) as (b & E & Hsk & Hbl & Hent & Hd);
      [done|done|lia|]. rewrite <-Hs in E. apply (read_bad_body now tod hdr b); [done|done|].
    rewrite u32_small in Hbl by lia.
    destruct (bufferBMPMessage_spec (set_entry (msg_peer now hdr rd) b) [] some) as (_ & _ & H); cbn;
      [rewrite Hd; apply length_zero_data|done|lia|]. apply H. cbn. rewrite Hsk. unfold BMP_DATA_SIZE, BMP_PACKET_BUF_SIZE. lia.
Qed.

End stream.

(** *** Peer Up *)

Section peer_up.
Context {LS : LinkState} (cfg : Config) (now : Z * Z) (tod : Z).

(** the information a Peer Up leaves about its peer *)
Definition up_peer_info (o1 o2 : open_msg) (i : peer_info) : peer_info :=
  let st1 := open_effect true o1 (add_path_capability i) in
  let st2 := open_effect false o2 (cs_add_path st1) in
  {| sent_four_octet_asn := has_4octet (cs_caps st1); recv_four_octet_asn := has_4octet (cs_caps st2);
     using_2_octet_asn := false; add_path_capability := cs_add_path st2;
     peer_group := peer_group i; endOfRIB := endOfRIB i |}.

(** and the event it publishes *)
Definition up_event_of (ip : string) (lp rp : Z) (o1 o2 : open_msg) (i : peer_info) : obj_peer_up_event :=
  let st1 := open_effect true o1 (add_path_capability i) in
  let st2 := open_effect false o2 (cs_add_path st1) in
  {| ue_info_data := ""; ue_local_ip := ip; ue_local_port := lp; ue_local_asn := cs_asn st1; ue_local_hold_time := om_hold o1;
     ue_local_bgp_id := strncpy 16 (inet_ntop4 (om_id o1));
     ue_remote_asn := cs_asn st2; ue_remote_port := rp; ue_remote_hold_time := om_hold o2;
     ue_remote_bgp_id := strncpy 16 (inet_ntop4 (om_id o2));
     ue_sent_cap := strncpy 4096 (join ", " (cs_caps st1));
     ue_recv_cap := strncpy 4096 (join ", " (cs_caps st2)) |}.

Definition up_body (addr : list Z) (lp rp : Z) (o1 o2 : open_msg) : list Z :=
  addr ++ hton 2 lp ++ hton 2 rp ++ enc_open_msg o1 ++ enc_open_msg o2.

Lemma publish_peer_trace u d c (fr : frame (list bus_call)) :
  publish_peer u d c fr
  = Ok (inl tt, {| fr_reader := with_bus (mbus (fr_reader fr) ++ [CallPeer (entry (fr_bmp fr)) u d c]) (fr_reader fr);
                   fr_bmp := fr_bmp fr; r_object := r_object fr |}).
Proof. by destruct fr as [? [] ?]. Qed.

Lemma read_header_up hdr body rest rd :
  length hdr = 42%nat → Z.of_nat (length body) ≤ 65493 →
  stream (client rd) = enc_v3 TYPE_PEER_UP (hdr ++ body) ++ rest →
  ∃ fr, try_block false cfg now tod (start_frame rd)
    = (_ ← peer_up (peer_info_key (msg_peer now hdr rd)); mret true) fr
    ∧ sock (fr_bmp fr) = body ++ rest ∧ bmp_len (fr_bmp fr) = Z.of_nat (length body)
    ∧ entry (fr_bmp fr) = msg_peer now hdr rd
    ∧ bmp_data (fr_bmp fr) = zero_data ∧ bmp_data_len (fr_bmp fr) = 0
    ∧ bmp_packet (fr_bmp fr) ++ body = enc_v3 TYPE_PEER_UP (hdr ++ body)
    ∧ fr_reader fr = after_message (msg_peer now hdr rd) (stream (client rd))
        (noted_info (msg_peer now hdr rd) (peer_info_map rd))
        (mbus rd ++ [CallRouter (msg_router rd) ROUTER_ACTION_FIRST]) rd.
Proof.
  intros Hh Hb Hs. unfold try_block, start_frame.
  destruct (handleMessage_peer now TYPE_PEER_UP hdr body rest (stream_err (client rd)))
    as (b & E & Hsock & Hlen & Hent & Hdata & Hdl & Hpk); [done..|].
  erewrite R_bind_inl by (apply bmp_call_Ok; cbn [fr_bmp]; rewrite Hs; exact E).
  change (negb (TYPE_PEER_UP =? TYPE_INIT_MSG)) with true. change (TYPE_PEER_UP <? 4) with true. cbn iota.
  erewrite R_bind_inl by reflexivity. unfold note_peer. change (negb (TYPE_PEER_UP =? TYPE_PEER_UP)) with false.
  eexists. split.
  { erewrite R_bind_inl by reflexivity. cbn [r_object fr_reader fr_bmp entry set_entry].
    unfold msg_peer. rewrite Hent. reflexivity. }
  cbn [fr_bmp fr_reader r_object sock bmp_len entry bmp_data bmp_data_len bmp_packet set_entry].
  rewrite ?Hent. split_and!; try done. unfold after_message. cbn. by destruct rd as [? ? ? [] ? ?].
Qed.

Lemma peer_up_app hdr addr lp rp o1 o2 rest rd :
  let p := msg_peer now hdr rd in
  let i := noted_info p (peer_info_map rd) in
  let body := up_body addr lp rp o1 o2 in
  let ip := snprintf 40 (if pe_isIPv4 p then v4_text addr else inet_ntop6 addr) in
  length hdr = 42%nat → length addr = 16%nat → 0 ≤ lp < 65536 → 0 ≤ rp < 65536 →
  wf_open o1 → wf_open o2 → Z.of_nat (length body) ≤ 65493 →
  stream (client rd) = enc_v3 TYPE_PEER_UP (hdr ++ body) ++ rest →
  ReadIncomingMsg false cfg now tod rd
  = Ok (ReadMore, after_message p rest (up_peer_info o1 o2 i)
          (mbus rd ++ [CallRouter (msg_router rd) ROUTER_ACTION_FIRST;
                       CallPeer p (Some (up_event_of ip lp rp o1 o2 i)) None PEER_ACTION_UP;
                       CallRaw (hash_id (client rd)) p (enc_v3 TYPE_PEER_UP (hdr ++ body))]) rd).
Proof.
  intros p i body ip Hh Ha Hlp Hrp H1 H2 Hl Hs.
  destruct (read_header_up hdr body rest rd Hh Hl Hs)
    as ([rd1 b ro] & Et & Hsock & Hbl & Hent & Hdata & Hdl & Hpk & Hrd). cbn [fr_reader fr_bmp r_object] in *.
  set (opens := enc_open_msg o1 ++ enc_open_msg o2) in *.
  assert (length body = (20 + length opens)%nat) as Hbody.
  { subst body opens. unfold up_body. rewrite !length_app, !length_hton. lia. }
  assert (0 < length opens)%nat as Hpos.
  { subst opens. rewrite length_app. unfold enc_open_msg. rewrite !length_enc_bgp. lia. }
  assert (Z.of_nat (length (bmp_packet b)) + bmp_len b < BMP_PACKET_BUF_SIZE) as Hpkl.
  { rewrite Hbl. assert (length (bmp_packet b ++ body) = length (enc_v3 TYPE_PEER_UP (hdr ++ body))) as E by by rewrite Hpk.
    unfold enc_v3 in E. cbn [length] in E. rewrite !length_app, length_hton in E. cbn [length] in E.
    rewrite length_app in E. unfold BMP_PACKET_BUF_SIZE. lia. }
  set (b2 := set_len 0 (set_data (opens ++ drop (length opens) zero_data) (Z.of_nat (length opens))
               (set_sock rest (bmp_packet b ++ body) b))).
  assert (parsePeerUpEventHdr zero_up_event b = Ok ((true, set_local ip lp rp zero_up_event), b2)) as Eh.
  { rewrite (parsePeerUpEventHdr_app addr lp rp opens rest); rewrite ?Hdata, ?Hent; try done; try apply length_zero_data.
    - rewrite Hsock. unfold body, up_body, opens. by rewrite <-!app_assoc.
    - lia.
    - unfold BMP_DATA_SIZE, BMP_PACKET_BUF_SIZE in *. lia. }
  set (key := peer_info_key p).
  set (ev := up_event_of ip lp rp o1 o2 i). set (i2 := up_peer_info o1 o2 i).
  assert (∃ s', handleUpEvent (opens ++ drop (length opens) zero_data) (Z.of_nat (length opens)) new_parser i
                  (set_local ip lp rp zero_up_event) = Ok (Z.of_nat (length opens), s', i2, ev)) as [s' Eu].
  { destruct (handleUpEvent_app o1 o2 (drop (length opens) zero_data) (Z.of_nat (length opens)) new_parser i
                (set_local ip lp rp zero_up_event)) as [s' E]; [done|done| |].
    - subst opens. rewrite length_app. unfold enc_open_msg. rewrite length_enc_bgp. lia.
    - exists s'. rewrite app_assoc in E. fold opens in E. rewrite E.
      replace (Z.of_nat (length (enc_open_msg o1)) + _) with (Z.of_nat (length opens)); [done|].
      subst opens. rewrite length_app. lia. }
  set (t := mbus rd ++ [CallRouter (msg_router rd) ROUTER_ACTION_FIRST]) in *.
  assert (peer_up key {| fr_reader := rd1; fr_bmp := b; r_object := ro |}
    = Ok (inl tt, {| fr_reader := after_message p (stream (client rd)) i2 (t ++ [CallPeer p (Some ev) None PEER_ACTION_UP]) rd;
                     fr_bmp := b2; r_object := ro |})) as Er.
  { unfold peer_up. erewrite R_bind_inl by (apply bmp_call_Ok; exact Eh). cbn beta iota.
    erewrite R_bind_inl by (apply bmp_call_Ok; reflexivity).
    do 2 (erewrite R_bind_inl by reflexivity; cbn beta iota).
    cbn [fr_reader fr_bmp bmp_data bmp_data_len b2 set_len set_data]. rewrite Hrd. cbn [peer_info_map after_message].
    unfold key at 1. rewrite lookup_insert_eq. cbn [default].
    erewrite R_bind_inl by (apply bgp_call_Ok; exact Eu). cbn beta iota.
    do 2 (erewrite R_bind_inl by reflexivity). rewrite i32_small by lia. rewrite Z.sub_diag. cbn [Z.ltb Z.compare].
    erewrite R_bind_inl by reflexivity. rewrite publish_peer_trace. cbn [fr_reader fr_bmp r_object].
    cbn [b2 entry set_len set_data set_sock]. rewrite Hent.
    unfold with_bus, with_peer_info, after_message. cbn. by rewrite insert_insert_eq. }
  replace (mbus rd ++ _) with ((t ++ [CallPeer p (Some ev) None PEER_ACTION_UP])
     ++ [CallRaw (hash_id (client rd)) p (enc_v3 TYPE_PEER_UP (hdr ++ body))]) by (subst t; by rewrite <-!app_assoc).
  eapply finish_message with (fr := {| fr_reader := _; fr_bmp := b2; r_object := ro |}); [done|done|done|reflexivity|].
  rewrite Et. exact (R_bind_inl _ (λ _, mret true) _ _ _ Er).
Qed.

(** C7: the capabilities of a Peer Up decide how later UPDATE messages are read.
    A Peer Up with the OPEN messages [o1] and [o2] stores the negotiated state
    under the peer's key and publishes the event with both sides' numbers and
    capability texts; an UPDATE of the same peer that follows is then decoded
    with the negotiated session, whatever that is: path identifiers exactly for
    the families both sides agreed on, and 4-octet AS numbers even if the peer
    was read with 2-octet numbers before. *)
Theorem negotiated_session (s : session) (hdr hdr2 addr : list Z) (lp rp : Z) (o1 o2 : open_msg)
    (ws : list nlri) (l : list (Z * path_attr)) (ns : list nlri) (rest : list Z) (rd : reader (list bus_call)) :
  let p := msg_peer now hdr rd in
  let q := msg_peer now hdr2 rd in
  let i := noted_info p (peer_info_map rd) in
  let body := up_body addr lp rp o1 o2 in
  let ip := snprintf 40 (if pe_isIPv4 p then v4_text addr else inet_ntop6 addr) in
  let msg := enc_bgp BGP_MSG_UPDATE (enc_update s ws l ns) in
  let d := update_result s ws l ns in
  length hdr = 42%nat → length hdr2 = 42%nat → peer_info_key q = peer_info_key p → pe_isTwoOctet q = false →
  length addr = 16%nat → 0 ≤ lp < 65536 → 0 ≤ rp < 65536 → wf_open o1 → wf_open o2 →
  session_ok s (up_peer_info o1 o2 i) →
  Forall (wf_nlri 32) ws → Forall (wf_flagged s) l → Forall (wf_nlri 32) ns →
  Z.of_nat (length body) ≤ 65493 → 23 < Z.of_nat (length msg) ≤ 65493 → no_baseline rd = true →
  stream (client rd) = enc_v3 TYPE_PEER_UP (hdr ++ body) ++ enc_v3 TYPE_ROUTE_MON (hdr2 ++ msg) ++ rest →
  ∃ a h ribs rd',
    fill_base_attr (attrs d) uninit_path_attr = Ok a
    ∧ Forall2 (λ t e, ∃ bc, e = rib_entry q h t bc) (advertised d) ribs
    ∧ ('(_, rd1) ← ReadIncomingMsg false cfg now tod rd; ReadIncomingMsg false cfg now tod rd1) = Ok (ReadMore, rd')
    ∧ stream (client rd') = rest
    ∧ peer_info_map rd' = <[peer_info_key p := up_peer_info o1 o2 i]> (peer_info_map rd)
    ∧ mbus rd' = mbus rd
        ++ [CallRouter (msg_router rd) ROUTER_ACTION_FIRST;
            CallPeer p (Some (up_event_of ip lp rp o1 o2 i)) None PEER_ACTION_UP;
            CallRaw (hash_id (client rd)) p (enc_v3 TYPE_PEER_UP (hdr ++ body))]
        ++ peer_calls now hdr2 rd
        ++ update_calls q a ribs ((λ x, rib_entry q h x no_bcast) <$> withdrawn d)
             (negb (is_empty (get_attr (attrs d) ATTR_TYPE_NEXT_HOP)))
        ++ [CallRaw (hash_id (client rd)) q (enc_v3 TYPE_ROUTE_MON (hdr2 ++ msg))].
Proof.
  intros p q i body ip msg d Hh Hh2 Hk H2 Ha Hlp Hrp Ho1 Ho2 Hses Hws Hl Hns Hlb Hlm Hnb Hs.
  rewrite (peer_up_app hdr addr lp rp o1 o2 (enc_v3 TYPE_ROUTE_MON (hdr2 ++ msg) ++ rest)) by done.
  rewrite bind_Ok_l. cbn beta iota. fold p i body ip. set (rd1 := after_message _ _ _ _ _).
  assert (noted_info (msg_peer now hdr2 rd1) (peer_info_map rd1) = up_peer_info o1 o2 i) as Hi.
  { unfold noted_info. change (msg_peer now hdr2 rd1) with q. rewrite H2, andb_false_r, Hk.
    cbn [rd1 peer_info_map after_message]. fold p. by rewrite lookup_insert_eq. }
  destruct (route_monitoring_app cfg now tod s ws l ns hdr2 rest rd1) as (a & h & ribs & Ea & Hr & E);
    [done|by rewrite Hi|done..|].
  rewrite Hi in E. change (msg_peer now hdr2 rd1) with q in *. eexists a, h, ribs, _. split_and!; [done..|exact E|done| |].
  - cbn [peer_info_map after_message rd1]. rewrite Hk. fold p. by rewrite insert_insert_eq.
  - cbn [mbus after_message rd1]. rewrite <-!app_assoc. reflexivity.
Qed.
End peer_up.

(** Two peers share one state.  The key of the peer information is the
    address followed directly by the route distinguisher: the peer 10.0.0.1
    with distinguisher 11:2 and the peer 10.0.0.11 with distinguisher 1:2 have
    the same key, so that the AS number size and the add-path state of one are
    used for the other. *)
Theorem peer_key_collision :
  let hdr rd addr := [1; 0] ++ rd ++ zeros 12 ++ addr ++ zeros 16 in
  let p1 := peer_of_hdr (0, 0) (hdr [0; 0; 0; 11; 0; 0; 0; 2] [10; 0; 0; 1]) zero_peer in
  let p2 := peer_of_hdr (0, 0) (hdr [0; 0; 0; 1; 0; 0; 0; 2] [10; 0; 0; 11]) zero_peer in
  pe_addr p1 = "10.0.0.1" ∧ pe_rd p1 = "11:2" ∧ pe_addr p2 = "10.0.0.11" ∧ pe_rd p2 = "1:2"
  ∧ peer_info_key p1 = peer_info_key p2.
Proof. by vm_compute. Qed.

(** ** The RIB dump rate *)

(** what one call observes: nothing for the first message and when no time has
    passed, else whether the rate is below the threshold *)
Definition observe (timeStamp ribSeq : Z) (r : dump_rate) : option bool :=
  match hasPrevRIBdumpTime r, prevRIBdumpTime r with
  | true, Some prev =>
      let time := timeStamp - prev in
      if 0 <? time then
        let rate := Z.quot (i32 ribSeq) time in
        Some (20 * rate <? 3 * Z.max rate (maxRIBdumpRate r))
      else None
  | _, _ => None
  end.

(** calls that do not end the dump, from the state the constructor leaves, with
    their observations; the time stamps do not decrease and the counter fits an
    [int] *)
Inductive rate_steps : list (Z * option bool) → dump_rate → Prop :=
| rate_nil : rate_steps [] new_rate
| rate_snoc evs r1 r2 t n :
    rate_steps evs r1 → 0 ≤ t → default 0 (prevRIBdumpTime r1) ≤ t < 2 ^ 31 → 0 ≤ n < 2 ^ 31 →
    checkRIBdumpRate t n r1 = Ok (false, r2) → rate_steps (evs ++ [(t, observe t n r1)]) r2.

(** since the drop at [t0] no observation was above the threshold *)
Definition dropped_at (t0 : Z) (evs : list (Z * option bool)) : Prop :=
  ∃ e1 e2, evs = e1 ++ (t0, Some true) :: e2 ∧ Forall (λ e, e.2 ≠ Some false) e2.

Definition rate_inv (evs : list (Z * option bool)) (r : dump_rate) : Prop :=
  match isBelowThresholdDumpRate r with
  | None => maxRIBdumpRate r = 0
  | Some false => True
  | Some true => ∃ t0 prev, belowThresholdInitTime r = Some t0 ∧ prevRIBdumpTime r = Some prev
                   ∧ 0 ≤ t0 ≤ prev ∧ dropped_at t0 evs
  end ∧ (hasPrevRIBdumpTime r = true → ∃ prev, prevRIBdumpTime r = Some prev ∧ 0 ≤ prev < 2 ^ 31).

Lemma dropped_snoc t0 evs e : dropped_at t0 evs → e.2 ≠ Some false → dropped_at t0 (evs ++ [e]).
Proof.
  intros (e1 & e2 & -> & H) He. exists e1, (e2 ++ [e]). rewrite <-app_assoc. split; [done|].
  apply Forall_app. by rewrite Forall_singleton.
Qed.

Lemma dropped_now t evs : dropped_at t (evs ++ [(t, Some true)]).
Proof. by exists evs, []. Qed.

Lemma i32_time t : 0 ≤ t < 2 ^ 31 → i32 t = t.
Proof. intros. unfold i32. rewrite Z.mod_small by lia. lia. Qed.

Lemma rate_inv_check evs r t n :
  rate_inv evs r → 0 ≤ t → default 0 (prevRIBdumpTime r) ≤ t < 2 ^ 31 → 0 ≤ n < 2 ^ 31 →
  ∃ fire r', checkRIBdumpRate t n r = Ok (fire, r')
    ∧ (fire = false → rate_inv (evs ++ [(t, observe t n r)]) r')
    ∧ (fire = true → ∃ t0, t0 + 3 ≤ t ∧ dropped_at t0 (evs ++ [(t, observe t n r)])).
Proof.
  intros [Hb Hp] H0 Ht Hn. unfold checkRIBdumpRate, observe.
  destruct (hasPrevRIBdumpTime r); cbn [negb].
  2: { eexists _, _. split_and!; [done| |done]. intros _. rewrite i32_time by lia. split; [|intros _; eexists; split; [reflexivity|lia]].
       cbn [isBelowThresholdDumpRate]. destruct (isBelowThresholdDumpRate r) as [[]|]; try done.
       destruct Hb as (t0 & prev & E1 & E2 & Hle & Hd). rewrite E2 in Ht. change (default 0 (Some prev)) with prev in Ht.
       exists t0, t. split_and!; [done|done|lia|lia|]. by apply dropped_snoc. }
  destruct Hp as (prev & Ep & Hprev); [done|]. rewrite Ep in *. change (default 0 (Some prev)) with prev in Ht.
  rewrite !(i32_time t) by lia. rewrite (i32_time (t - prev)) by lia. zif.
  2: { eexists _, _. split_and!; [done| |done]. intros _. split; [|intros _; eexists; split; [reflexivity|lia]].
       cbn [isBelowThresholdDumpRate]. destruct (isBelowThresholdDumpRate r) as [[]|]; try done.
       destruct Hb as (t0 & ? & E1 & [= <-] & Hle & Hd). exists t0, t. split_and!; [done|done|lia|lia|]. by apply dropped_snoc. }
  assert (0 ≤ Z.quot (i32 n) (t - prev)) as Hq by (rewrite i32_time by lia; apply Z.quot_pos; lia).
  destruct (20 * _ <? _) eqn:Er; cmp.
  2: { eexists _, _. split_and!; [done| |done]. intros _. split; [done|]. intros _. eexists. split; [reflexivity|lia]. }
  destruct (isBelowThresholdDumpRate r) as [[]|]; [| |rewrite Hb in Er; lia].
  - destruct Hb as (t0 & ? & -> & [= <-] & Hle & Hd). unfold u32. rewrite Z.mod_small by lia. zif.
    + eexists _, _. split_and!; [done|done|]. intros _. exists t0. split; [lia|]. by apply dropped_snoc.
    + eexists _, _. split_and!; [done| |done]. intros _. split; [|intros _; eexists; split; [reflexivity|lia]].
      exists t0, t. split_and!; [done|done|lia|lia|]. by apply dropped_snoc.
  - rewrite Z.sub_diag. cbn. eexists _, _. split_and!; [done| |done]. intros _. split; [|intros _; eexists; split; [reflexivity|lia]].
    exists t, t. split_and!; [done|done|lia|lia|]. apply dropped_now.
Qed.


Definition rate_after (l : list (Z * Z)) : dump_rate :=
  foldl (λ r tn, match checkRIBdumpRate tn.1 tn.2 r with Ok (_, r') => r' | _ => r end) new_rate l.


(** ** Witnesses *)

Definition sample_client (octets : list Z) : ClientInfo :=
  {| hash_id := zeros 16; initRec := false; c_ip := "192.0.2.9"; startTime := 0; stream := octets;
     stream_err := false; c_open := true |}.
Definition sample_reader (octets : list Z) : reader (list bus_call) :=
  {| router_hash_id := zeros 16; rate := new_rate; peer_info_map := ∅; client := sample_client octets;
     router_baseline_time := ∅; mbus := [] |}.
Definition sample_config : Config := {| pat_enabled := false; c_hash_id := zeros 16 |}.

Definition plain_session : session := {| two_octet := false; add_path_on := λ _, false |}.
Definition plain_attrs : list (Z * path_attr) := [(64, Origin 0); (80, AsPath sample_path); (64, NextHop [192; 0; 2; 1])].

Lemma plain_attrs_wf : Forall (wf_flagged plain_session) plain_attrs.
Proof. repeat constructor; cbn; try done; try lia. Qed.

Definition sample_rm (addr : list Z) : rm_msg :=
  {| rm_hdr := zeros 22 ++ addr ++ zeros 16; rm_withdrawn := sample_withdrawn; rm_attrs := plain_attrs;
     rm_announced := sample_announced |}.

Lemma sample_rm_wf addr : length addr = 4%nat → wf_rm plain_session (sample_rm addr).
Proof.
  intros Ha. split_and!; [cbn [sample_rm rm_hdr]; by rewrite !length_app, Ha| |apply sample_v4_wf|apply plain_attrs_wf|apply sample_v4_wf|..].
  - intros now. reflexivity.
  - vm_compute. done.
  - vm_compute. done.
Qed.

Lemma plain_uniform octets : uniform plain_session (sample_reader octets).
Proof. intros k. cbn [peer_info_map sample_reader]. rewrite lookup_empty. split; [done|]. intros []; vm_compute; reflexivity. Qed.

Lemma reader_stream_witness :
  let cms := [((0, 0, 0), sample_rm [10; 0; 0; 1]); ((5, 0, 5), sample_rm [10; 0; 0; 2])] in
  let rd := sample_reader (concat ((λ cm, rm_octets plain_session cm.2) <$> cms)) in
  ∃ traces rd',
    Forall2 (rm_published plain_session rd) cms traces
    ∧ readerThreadLoop (LS := null_link_state) false sample_config ((fst <$> cms) ++ [(9, 0, 9)]) rd = Ok (false, rd')
    ∧ mbus rd' = mbus rd ++ concat traces
        ++ [CallRouter (term_router "(2) Connection closed" (client rd) (hash_id (client rd))) ROUTER_ACTION_TERM]
    ∧ c_open (client rd') = false.
Proof.
  intros cms rd.
  apply (@reader_stream null_link_state sample_config plain_session cms (9, 0) 9 rd).
  - apply plain_uniform.
  - reflexivity.
  - apply Forall_cons_2; [|apply Forall_singleton]; apply sample_rm_wf; reflexivity.
  - reflexivity.
  - reflexivity.
Defined.


Definition up_session : session := {| two_octet := false; add_path_on := id |}.
Definition sample_hdr : list Z := zeros 22 ++ [10; 0; 0; 1] ++ zeros 16.

Lemma up_attrs_wf : Forall (wf_flagged up_session) plain_attrs.
Proof. repeat constructor; cbn; try done; try lia. Qed.

Lemma negotiated_session_witness :
  let up := enc_v3 TYPE_PEER_UP (sample_hdr ++ up_body (zeros 16) 179 50000 (sample_open 65001) (sample_open 65002)) in
  let msg := enc_bgp BGP_MSG_UPDATE (enc_update up_session sample_withdrawn plain_attrs sample_announced) in
  let rd := sample_reader (up ++ enc_v3 TYPE_ROUTE_MON (sample_hdr ++ msg) ++ []) in
  ∃ rd', ('(_, rd1) ← ReadIncomingMsg (LS := null_link_state) false sample_config (7, 0) 7 rd;
          ReadIncomingMsg (LS := null_link_state) false sample_config (7, 0) 7 rd1) = Ok (ReadMore, rd')
    ∧ stream (client rd') = [].
Proof.
  intros up msg rd. destruct sample_open_wf as [W1 W2].
  destruct (@negotiated_session null_link_state sample_config (7, 0) 7 up_session sample_hdr sample_hdr (zeros 16)
              179 50000 (sample_open 65001) (sample_open 65002) sample_withdrawn plain_attrs sample_announced [] rd)
    as (a & h & ribs & rd' & _ & _ & E & Hs & _).
  1,2,5: reflexivity.
  1,2: reflexivity.
  1,2: lia.
  1: exact W1.
  1: exact W2.
  - split; [reflexivity|]. intros []; vm_compute; reflexivity.
  - apply sample_v4_wf.
  - apply up_attrs_wf.
  - apply sample_v4_wf.
  - vm_compute. discriminate.
  - vm_compute. split; [reflexivity|discriminate].
  - reflexivity.
  - reflexivity.
  - exists rd'. split; [exact E|exact Hs].
Defined.
