(* ===== verification/BusFrame.v ===== *)
(** * What a connection can do to its message bus

    The handlers and the reader touch the bus only through its interface: from the
    octets of any router to the bus they leave behind there is a sequence of calls.
    Whatever the calls of an implementation preserve is thereby an invariant of
    every connection. *)

From S2P Require Import Prelude Inet BgpCommon UpdateTypes MPReach UpdateMsg MsgBus LsMerge ParseBGP ParseBMP BMPReader.

Section frame.
Context {LS : LinkState} {bus : Type} {MB : MsgBus bus}.

Abbreviation calls := (rtc (handler_op MB)).

#[local] Hint Constructors handler_op : core.

(** one call, or none *)
Ltac one := first [apply rtc_refl | apply rtc_once; by eauto].
(** splits the steps of a computation that succeeded *)
Ltac steps := repeat (match goal with
  | H : mbind _ _ = Ok _ |- _ => apply bind_Ok_inv in H as (? & ? & H)
  | H : Ok _ = Ok _ |- _ => injection H as H; subst
  | x : (_ * _)%type |- _ => destruct x
  | H : (if ?b then _ else _) = Ok _ |- _ => destruct b eqn:?
  | H : (match ?l with [] => _ | _ :: _ => _ end) = Ok _ |- _ => destruct l eqn:?
  | H : (match ?o with Some _ => _ | None => _ end) = Ok _ |- _ => destruct o eqn:?
  end; simplify_eq/=).

(** ** UPDATE handlers *)

Lemma attrs_calls p m s b s' b' : UpdateDBAttrs p m s b = Ok (s', b') → calls b b'.
Proof. unfold UpdateDBAttrs. intros H. steps; one. Qed.
Lemma adv_calls p l s b b' : UpdateDBAdvPrefixes p l s b = Ok b' → calls b b'.
Proof. unfold UpdateDBAdvPrefixes. intros H. steps; one. Qed.
Lemma withdraw_calls p l s b b' : UpdateDBWdrawnPrefixes p l s b = Ok b' → calls b b'.
Proof. unfold UpdateDBWdrawnPrefixes. intros H. steps; one. Qed.
Lemma l3vpn_calls p r l s b b' : UpdateDBL3Vpn p r l s b = Ok b' → calls b b'.
Proof. unfold UpdateDBL3Vpn. intros H. steps; one. Qed.
Lemma evpn_calls p r l s b b' : UpdateDBeVPN p r l s b = Ok b' → calls b b'.
Proof. unfold UpdateDBeVPN. intros H. steps; one. Qed.
Lemma ls_calls r p a l m b m' b' : UpdateDbBgpLs r p a l m b = Ok (m', b') → calls b b'.
Proof.
  unfold UpdateDbBgpLs, and_then. intros (b1 & H1 & H)%bind_Ok_inv. apply bind_Ok_inv in H as (b2 & H2 & H).
  apply bind_Ok_inv in H as (b3 & H3 & [= _ <-]). transitivity b1; [|transitivity b2]; steps; one.
Qed.
(** what follows a call is left out after an exception *)
Lemma and_then_calls f b b' : (∀ b b', f b = Ok b' → calls b b') → and_then f b = Ok b' → calls b b'.
Proof. unfold and_then. intros Hf. case_match; [|apply Hf]. intros [= <-]. apply rtc_refl. Qed.
#[local] Hint Resolve attrs_calls adv_calls withdraw_calls l3vpn_calls evpn_calls ls_calls : bmp.

Lemma update_calls_bus redis p d s b s' b' : UpdateDB redis p d s b = Ok (s', b') → calls b b'.
Proof.
  unfold UpdateDB. intros H. apply bind_Ok_inv in H as ([s1 b1] & H1 & H). apply bind_Ok_inv in H as (b2 & H2 & H).
  apply bind_Ok_inv in H as (b3 & H3 & H). apply bind_Ok_inv in H as (b4 & H4 & H). apply bind_Ok_inv in H as (b5 & H5 & [= _ <-]).
  transitivity b1; [|transitivity b2; [|transitivity b3; [|transitivity b4]]].
  - destruct redis; steps; [apply rtc_refl|]. eauto with bmp.
  - destruct redis; steps; [apply rtc_refl|]. revert H2. apply and_then_calls. intros b0 b0' H2.
    apply bind_Ok_inv in H2 as ([m bm] & H2 & H7). etrans; [by eapply ls_calls|]. revert H7. apply and_then_calls.
    intros. steps. eauto with bmp.
  - revert H3. apply and_then_calls. eauto with bmp.
  - destruct redis; [injection H4 as <-; apply rtc_refl|]. apply bind_Ok_inv in H4 as (c1 & G1 & H4).
    apply bind_Ok_inv in H4 as (c2 & G2 & H4). apply bind_Ok_inv in H4 as (c3 & G3 & H4).
    transitivity c1; [|transitivity c2; [|transitivity c3]]; (eapply and_then_calls; [|eassumption]); eauto with bmp.
  - revert H5. apply and_then_calls. eauto with bmp.
Qed.

Lemma handle_update_calls redis p data size s info b r s' info' b' :
  handleUpdate redis p data size s info b = Ok (r, s', info', b') → calls b b'.
Proof. unfold handleUpdate. intros H. steps; eauto using update_calls_bus; apply rtc_refl. Qed.

(** ** The reader *)

Abbreviation bus_of := (λ fr : frame bus, mbus (fr_reader fr)).

(** a computation of the reader that changes the bus by calls only, whether it ends
    with a value or with an exception *)
Definition framed {A} (m : R A) : Prop := ∀ fr x fr', m fr = Ok (x, fr') → calls (bus_of fr) (bus_of fr').

Lemma framed_ret {A} (a : A) : framed (mret a : R A).
Proof. intros fr x fr' [= _ <-]. apply rtc_refl. Qed.
Lemma framed_bind {A B} (m : R A) (f : A → R B) : framed m → (∀ a, framed (f a)) → framed (m ≫= f).
Proof.
  intros Hm Hf fr x fr' H. unfold mbind, R_bind in H. apply bind_Ok_inv in H as ([[a|e] fr1] & H1 & H).
  - etrans; [by eapply Hm|by eapply Hf].
  - injection H as _ <-. by eapply Hm.
Qed.
Lemma framed_raise {A} e : framed (raise e : R A).
Proof. intros fr x fr' [= _ <-]. apply rtc_refl. Qed.
Lemma framed_ask {A} (f : frame bus → A) : framed (ask f).
Proof. intros fr x fr' [= _ <-]. apply rtc_refl. Qed.
Lemma framed_upd f : (∀ rd, mbus (f rd) = mbus rd) → framed (upd f : R unit).
Proof. intros Hf fr x fr' [= _ <-]. cbn. rewrite Hf. apply rtc_refl. Qed.
Lemma framed_put_entry p : framed (put_entry p : R unit).
Proof. intros fr x fr' [= _ <-]. apply rtc_refl. Qed.
Lemma framed_put_router r : framed (put_router r : R unit).
Proof. intros fr x fr' [= _ <-]. apply rtc_refl. Qed.
Lemma framed_bmp_call {A} (m : M A) : framed (bmp_call m).
Proof.
  intros fr x fr' H. unfold bmp_call in H. destruct (m (fr_bmp fr)) as [[a b]|e|u|]; try done; injection H as _ <-; apply rtc_refl.
Qed.
Lemma framed_bgp_call {A} (m : outcome A) : framed (bgp_call m).
Proof. intros fr x fr' H. unfold bgp_call in H. destruct m; try done; injection H as _ <-; apply rtc_refl. Qed.
Lemma framed_uncaught {A} (m : outcome A) : framed (uncaught m).
Proof. intros fr x fr' H. unfold uncaught in H. destruct m; [|done..]. injection H as _ <-. apply rtc_refl. Qed.

Lemma framed_put_bus b fr x fr' : put_bus b fr = Ok (x, fr') → calls (bus_of fr) b → calls (bus_of fr) (bus_of fr').
Proof.
  unfold put_bus. intros H Hb. destruct (thrown b); injection H as _ <-; cbn; [|done]. etrans; [exact Hb|]. one.
Qed.

(** a call of the bus: the state is read, used and put back *)
Lemma framed_call {A} (m : bus → outcome (A * bus)) (f : A → R unit) :
  (∀ b a b', m b = Ok (a, b') → calls b b') → (∀ a fr x fr', f a fr = Ok (x, fr') → x = inl tt ∧ bus_of fr' = bus_of fr) →
  framed (b ← ask bus_of; '(a, b) ← uncaught (m b); _ ← f a; put_bus b).
Proof.
  intros Hm Hf fr x fr' H. unfold mbind, R_bind, ask, uncaught in H. cbn in H.
  destruct (m (bus_of fr)) as [[a b]| | |] eqn:E; try done. cbn in H.
  destruct (f a fr) as [[x1 fr1]| | |] eqn:Ef; try done. cbn in H. apply Hf in Ef as [-> Eb].
  apply framed_put_bus in H; [by rewrite <-Eb|]. rewrite Eb. by eapply Hm.
Qed.

#[local] Hint Resolve framed_ret framed_raise framed_ask framed_put_entry framed_put_router framed_bmp_call framed_bgp_call
  framed_uncaught : bmp.
(** splits a reader computation; what is left are the updates of the reader *)
Ltac framed_step := match goal with
  | |- framed (mbind _ _) => apply framed_bind; [|intros ?]
  | |- framed (upd _) => apply framed_upd; by intros ?
  | |- framed (let '(_, _) := ?x in _) => destruct x
  | |- framed (if ?b then _ else _) => destruct b
  | |- framed (match ?x with _ => _ end) => destruct x
  end; cbv beta zeta.
Ltac framed := repeat (first [solve [eauto 2 with bmp] | framed_step]).

Lemma framed_publish_router c : framed (publish_router c : R unit).
Proof.
  unfold publish_router. apply framed_bind; [framed|intros r].
  apply (framed_call (update_Router r c)); [intros; one|]. intros a fr x fr' [= <- <-]. done.
Qed.
Lemma framed_publish_peer u d c : framed (publish_peer u d c : R unit).
Proof.
  unfold publish_peer. apply framed_bind; [framed|intros p].
  apply (framed_call (update_Peer p u d c)); [intros; one|]. intros a fr x fr' [= <- <-]. done.
Qed.
#[local] Hint Resolve framed_publish_router framed_publish_peer : bmp.

Lemma framed_note_peer t : framed (note_peer t : R string).
Proof. unfold note_peer, p_entry, peer_info_of. framed. Qed.
Lemma framed_peer_down key : framed (peer_down key : R unit).
Proof. unfold peer_down, p_entry, body. framed. Qed.
Lemma framed_peer_up key : framed (peer_up key : R unit).
Proof. unfold peer_up, p_entry, body, peer_info_of. framed. Qed.
Lemma framed_note_baseline tod : framed (note_baseline tod : R unit).
Proof. unfold note_baseline, p_entry. framed. Qed.
Lemma framed_initiation cfg : framed (initiation cfg : R unit).
Proof. unfold initiation. framed. Qed.
Lemma framed_termination : framed (termination : R unit).
Proof. unfold termination. framed. Qed.

Lemma framed_route_monitoring redis tod key : framed (route_monitoring redis tod key : R unit).
Proof.
  unfold route_monitoring, p_entry, body, peer_info_of. do 2 (apply framed_bind; [framed|intros ?]). destruct a0 as [data len].
  do 2 (apply framed_bind; [framed|intros ?]). intros fr x fr' H. unfold mbind, R_bind, ask, uncaught in H. cbn in H.
  destruct (handleUpdate redis _ data len new_parser _ (bus_of fr)) as [[[[r s'] i'] b']| | |] eqn:E; try done. cbn in H.
  destruct (put_bus b' _) as [[x1 fr1]| | |] eqn:Ep; try done. apply framed_put_bus in Ep; [|by eapply handle_update_calls].
  cbn in Ep, H. etrans; [exact Ep|]. destruct x1; [by eapply framed_note_baseline|by injection H as _ <-].
Qed.
Lemma framed_stats_report : framed (stats_report : R unit).
Proof.
  unfold stats_report, p_entry. apply framed_bind; [framed|]. intros [err stats]. destruct err; [framed|].
  apply framed_bind; [framed|intros p]. intros fr x fr' H. unfold mbind, R_bind, ask, uncaught in H. cbn in H.
  destruct (add_StatReport p stats (bus_of fr)) as [b| | |] eqn:E; try done. apply framed_put_bus in H; [done|]. one.
Qed.
#[local] Hint Resolve framed_note_peer framed_peer_down framed_peer_up framed_route_monitoring framed_stats_report
  framed_initiation framed_termination : bmp.

Lemma framed_try_block redis cfg now tod : framed (try_block redis cfg now tod : R bool).
Proof. unfold try_block. framed. Qed.

Lemma read_incoming_calls redis cfg now tod rd x rd' :
  ReadIncomingMsg redis cfg now tod rd = Ok (x, rd') → calls (mbus rd) (mbus rd').
Proof.
  unfold ReadIncomingMsg. intros H. apply bind_Ok_inv in H as ([y fr] & H1 & H). apply framed_try_block in H1. cbn in H1.
  etrans; [exact H1|]. destruct y as [rval|e].
  - apply bind_Ok_inv in H as (b & H & H'). cbn in *. transitivity b; [one|]. destruct (thrown b); injection H' as _ <-; one.
  - apply bind_Ok_inv in H as ([e' rd1] & H & [= _ <-]). unfold disconnect in H. apply bind_Ok_inv in H as ([r b] & H & H').
    transitivity b; [one|]. destruct (thrown b); injection H' as _ <-; cbn; one.
Qed.

Lemma reader_calls redis cfg clock rd run rd' :
  readerThreadLoop redis cfg clock rd = Ok (run, rd') → calls (mbus rd) (mbus rd').
Proof.
  revert rd. induction clock as [|[now tod] clock IH]; intros rd H; [done|]. cbn [readerThreadLoop] in H.
  apply bind_Ok_inv in H as ([x rd1] & H1 & H). apply read_incoming_calls in H1. etrans; [exact H1|].
  destruct x; [by apply IH|injection H as _ <-; apply rtc_refl..].
Qed.
End frame.

(** Whatever the octets a router sends, the reader of its connection changes the bus
    by calls of the interface only, in which withdrawn prefixes come without
    attributes.  So what the calls of an implementation preserve holds after every
    connection. *)
Theorem reader_uses_interface {LS : LinkState} {bus : Type} {MB : MsgBus bus} (redis : bool) (cfg : Config)
    (clock : list (Z * Z * Z)) (rd rd' : reader bus) (run : bool) (P : bus → Prop) :
  (∀ b b', handler_op MB b b' → P b → P b') → P (mbus rd) → readerThreadLoop redis cfg clock rd = Ok (run, rd') → P (mbus rd').
Proof. intros Hop Hp H%reader_calls. induction H; eauto. Qed.
