(* ===== verification/Kafka.v ===== *)
(** * The Kafka message bus ([kafka/MsgBusImpl_kafka.cpp])

    The state of the bus, the connection to the brokers, and the operations of
    the interface for routers, peers, attributes, prefixes, statistics and raw
    messages: each builds rows of columns separated by tabs and produces them
    to a topic.  The link-state operations are in [KafkaLs.v].  The outside
    world is a parameter: the broker library, the resolver and the clock. *)

From S2P Require Import Prelude Inet MD5 BgpCommon TopicSelector UpdateTypes MPReach MsgBus ParseBMP BMPReader.

(** [gettimeofday] gives seconds and microseconds; [kw_resolve] is
    [getaddrinfo] followed by [getnameinfo], [None] when either fails. *)
Class KafkaWorld (kc : Type) : Type := {
  kw_rdkafka :: RdKafka kc;
  kw_gettimeofday : kc → (Z * Z) * kc;
  kw_resolve : string → kc → option string * kc }.

(** ** Timestamps *)

(** [strftime "%Y-%m-%d %H:%M:%S"] and [".%06u"] *)
Definition print_time (secs us : Z) : string :=
  let '(y, m, d) := civil_from_days (secs / 86400) in
  let t := secs mod 86400 in
  dec y +:+ "-" +:+ setw 2 "0" (dec m) +:+ "-" +:+ setw 2 "0" (dec d) +:+ " "
  +:+ setw 2 "0" (dec (t / 3600)) +:+ ":" +:+ setw 2 "0" (dec (t / 60 mod 60)) +:+ ":" +:+ setw 2 "0" (dec (t mod 60))
  +:+ "." +:+ setw 6 "0" (dec us).

Definition getTimestamp `{KafkaWorld kc} (time_secs time_us : Z) (k : kc) : string * kc :=
  if time_secs <=? 1000 then
    let '((secs, us), k) := kw_gettimeofday k in (print_time secs us, k)
  else (print_time time_secs time_us, k).

(** ** State *)

(** the sequence counters *)
Inductive counter : Set :=
| router_seq | collector_seq | peer_seq | base_attr_seq | unicast_prefix_seq | bmp_stat_seq
| ls_node_seq | ls_link_seq | ls_prefix_seq | l3vpn_seq | evpn_seq.
#[global] Instance counter_eq_dec : EqDecision counter.
Proof. solve_decision. Defined.

Record msgBus_kafka (kc : Type) : Type := {
  kb_collector_hash : string;
  kb_seq : counter → Z;
  kb_isConnected : bool;
  kb_producer : bool;                           (** whether [producer] is not null *)
  kb_topicSel : option KafkaTopicSelector;
  kb_peer_list : gmap string string;            (** peer hash to peer group *)
  kb_router_ip : string;
  kb_router_hash : list Z;
  kb_router_group_name : string;
  kb_ribSeq : option Z;
  kb_thrown : option string;                    (** an exception on its way to the caller *)
  kb_world : kc }.
Arguments kb_collector_hash {_} _.
Arguments kb_seq {_} _ _.
Arguments kb_isConnected {_} _.
Arguments kb_producer {_} _.
Arguments kb_topicSel {_} _.
Arguments kb_peer_list {_} _.
Arguments kb_router_ip {_} _.
Arguments kb_router_hash {_} _.
Arguments kb_router_group_name {_} _.
Arguments kb_ribSeq {_} _.
Arguments kb_thrown {_} _.
Arguments kb_world {_} _.

Section setters.
Context {kc : Type}.
Implicit Type s : msgBus_kafka kc.

Definition set_link (c p : bool) (t : option KafkaTopicSelector) (k : kc) s : msgBus_kafka kc :=
  {| kb_collector_hash := kb_collector_hash s; kb_seq := kb_seq s; kb_isConnected := c; kb_producer := p;
     kb_topicSel := t; kb_peer_list := kb_peer_list s; kb_router_ip := kb_router_ip s;
     kb_router_hash := kb_router_hash s; kb_router_group_name := kb_router_group_name s;
     kb_ribSeq := kb_ribSeq s; kb_thrown := kb_thrown s; kb_world := k |}.
Definition set_world (k : kc) s : msgBus_kafka kc := set_link (kb_isConnected s) (kb_producer s) (kb_topicSel s) k s.
Definition set_router (ip : string) (hash : list Z) (group : string) s : msgBus_kafka kc :=
  {| kb_collector_hash := kb_collector_hash s; kb_seq := kb_seq s; kb_isConnected := kb_isConnected s;
     kb_producer := kb_producer s; kb_topicSel := kb_topicSel s; kb_peer_list := kb_peer_list s; kb_router_ip := ip;
     kb_router_hash := hash; kb_router_group_name := group; kb_ribSeq := kb_ribSeq s; kb_thrown := kb_thrown s;
     kb_world := kb_world s |}.
Definition set_peer_list (l : gmap string string) s : msgBus_kafka kc :=
  {| kb_collector_hash := kb_collector_hash s; kb_seq := kb_seq s; kb_isConnected := kb_isConnected s;
     kb_producer := kb_producer s; kb_topicSel := kb_topicSel s; kb_peer_list := l; kb_router_ip := kb_router_ip s;
     kb_router_hash := kb_router_hash s; kb_router_group_name := kb_router_group_name s;
     kb_ribSeq := kb_ribSeq s; kb_thrown := kb_thrown s; kb_world := kb_world s |}.
Definition set_counts (f : counter → Z) (rib : option Z) s : msgBus_kafka kc :=
  {| kb_collector_hash := kb_collector_hash s; kb_seq := f; kb_isConnected := kb_isConnected s;
     kb_producer := kb_producer s; kb_topicSel := kb_topicSel s; kb_peer_list := kb_peer_list s; kb_router_ip := kb_router_ip s;
     kb_router_hash := kb_router_hash s; kb_router_group_name := kb_router_group_name s;
     kb_ribSeq := rib; kb_thrown := kb_thrown s; kb_world := kb_world s |}.
Definition set_thrown (e : option string) s : msgBus_kafka kc :=
  {| kb_collector_hash := kb_collector_hash s; kb_seq := kb_seq s; kb_isConnected := kb_isConnected s;
     kb_producer := kb_producer s; kb_topicSel := kb_topicSel s; kb_peer_list := kb_peer_list s; kb_router_ip := kb_router_ip s;
     kb_router_hash := kb_router_hash s; kb_router_group_name := kb_router_group_name s;
     kb_ribSeq := kb_ribSeq s; kb_thrown := e; kb_world := kb_world s |}.

(** whether an exception is on its way *)
Definition raised s : bool := bool_decide (is_Some (kb_thrown s)).
(** an exception that leaves the bus for good *)
Definition surface s : outcome (msgBus_kafka kc) := match kb_thrown s with Some e => Throw e | None => Ok s end.

(** [seq += n] of an [uint64_t] *)
Definition seq_add (c : counter) (n : Z) s : msgBus_kafka kc :=
  set_counts (λ c', if decide (c' = c) then u64 (kb_seq s c + n) else kb_seq s c') (kb_ribSeq s) s.
(** [seq++] after a message, which an exception skips *)
Definition count_one (c : counter) s : msgBus_kafka kc := if raised s then s else seq_add c 1 s.
Lemma count_one_fields c s :
  kb_peer_list (count_one c s) = kb_peer_list s ∧ kb_router_hash (count_one c s) = kb_router_hash s
  ∧ kb_thrown (count_one c s) = kb_thrown s.
Proof. unfold count_one. by destruct (raised s). Qed.
(** [ribSeq] stays indeterminate when it is. *)
Definition rib_add (n : Z) s : msgBus_kafka kc :=
  set_counts (kb_seq s) ((λ v, u64 (v + n)) <$> kb_ribSeq s) s.

(** [peer_list[hash]] makes an entry when there is none. *)
Definition peer_group_of (hash : string) s : string * msgBus_kafka kc :=
  match kb_peer_list s !! hash with
  | Some g => (g, s)
  | None => ("", set_peer_list (<[hash := ""]> (kb_peer_list s)) s)
  end.
End setters.

(** ** Connection *)

Record KafkaConfig (regex : Type) : Type := {
  kf_groups : GroupConfig regex;
  kf_q_buf_max_ms : Z; kf_compression : string; kf_brokers : string; kf_tx_max_bytes : Z; kf_rx_max_bytes : Z;
  kf_session_timeout : Z; kf_socket_timeout : Z; kf_q_buf_max_msgs : Z; kf_q_buf_max_kbytes : Z;
  kf_msg_send_max_retry : Z; kf_retry_backoff_ms : Z }.
Arguments kf_groups {_} _.
Arguments kf_q_buf_max_ms {_} _.
Arguments kf_compression {_} _.
Arguments kf_brokers {_} _.
Arguments kf_tx_max_bytes {_} _.
Arguments kf_rx_max_bytes {_} _.
Arguments kf_session_timeout {_} _.
Arguments kf_socket_timeout {_} _.
Arguments kf_q_buf_max_msgs {_} _.
Arguments kf_q_buf_max_kbytes {_} _.
Arguments kf_msg_send_max_retry {_} _.
Arguments kf_retry_backoff_ms {_} _.

Definition MSGBUS_WORKING_BUF_SIZE : Z := 1800000.
Definition MSGBUS_API_VERSION : string := "1.7".

(** name, value, and what is thrown when the setting is refused *)
Definition settings {regex} (cfg : KafkaConfig regex) : list (string * string * option string) :=
  [("log.connection.close", "false", None);
   ("api.version.request", "true", None);
   ("batch.num.messages", "100", Some "ERROR: Failed to configure kafka batch.num.messages");
   ("queue.buffering.max.ms", dec (kf_q_buf_max_ms cfg), Some "ERROR: Failed to configure kafka queue.buffer.max.ms");
   ("compression.codec", kf_compression cfg, Some "ERROR: Failed to configure kafka compression");
   ("metadata.broker.list", kf_brokers cfg, Some "ERROR: Failed to configure kafka broker list");
   ("message.max.bytes", dec (kf_tx_max_bytes cfg), Some "ERROR: Failed to configure transmit max message size");
   ("receive.message.max.bytes", dec (kf_rx_max_bytes cfg), Some "ERROR: Failed to configure receive max message size");
   ("session.timeout.ms", dec (kf_session_timeout cfg), Some "ERROR: Failed to configure session timeout ");
   ("socket.timeout.ms", dec (kf_socket_timeout cfg), Some "ERROR: Failed to configure socket timeout ");
   ("queue.buffering.max.messages", dec (kf_q_buf_max_msgs cfg), Some "ERROR: Failed to configure max messages in buffer ");
   ("queue.buffering.max.kbytes", dec (kf_q_buf_max_kbytes cfg), Some "ERROR: Failed to configure max kbytes in buffer ");
   ("message.send.max.retries", dec (kf_msg_send_max_retry cfg),
     Some "ERROR: Failed to configure max retries for sending failed message");
   ("retry.backoff.ms", dec (kf_retry_backoff_ms cfg),
     Some "ERROR: Failed to configure backoff time before resending failed messages ");
   ("event_cb", "KafkaEventCallback", Some "ERROR: Failed to configure kafka event callback")].

Section bus.
Context {kc : Type} {W : KafkaWorld kc} {regex : Type} (regex_search : string → regex → bool).
Context (cfg : KafkaConfig regex).
(** how often a lost connection is tried again *)
Context (attempts : nat).
Abbreviation bus := (msgBus_kafka kc).

Fixpoint apply_settings (l : list (string * string * option string)) (k : kc) : option string * kc :=
  match l with
  | [] => (None, k)
  | (name, value, err) :: l =>
      let '(ok, k) := rk_conf_set name value k in
      match (ok : bool), err with
      | false, Some e => (Some e, k)
      | _, _ => apply_settings l k
      end
  end.

(** [KafkaEventCallback::event_cb] runs in the poll. *)
Definition poll (ms : Z) (s : bus) : bus :=
  let '(down, k) := rk_poll ms (kb_world s) in
  set_link (kb_isConnected s && negb down) (kb_producer s) (kb_topicSel s) k s.

Fixpoint drain (n : nat) (k : kc) : kc :=
  match n with
  | O => k
  | S n => if 0 <? rk_outq_len k then drain n (rk_poll 500 k).2 else k
  end.

Definition disconnect (s : bus) : bus :=
  let k := if kb_isConnected s then drain 8 (kb_world s) else kb_world s in
  let k := if kb_producer s then rk_producer_delete k else k in
  set_link false false None k s.

Definition connect (s : bus) : bus :=
  let s := disconnect s in
  let '(err, k) := apply_settings (settings cfg) (kb_world s) in
  match err with
  | Some e => set_thrown (Some e) (set_world k s)
  | None =>
      let '(ok, k) := rk_producer_create k in
      if negb ok then set_thrown (Some "ERROR: Failed to create producer") (set_world k s)
      else
        let s := poll 1000 (set_link true true None k s) in
        if negb (kb_isConnected s) then s
        else poll 100 (set_link (kb_isConnected s) (kb_producer s) (Some new_selector) (kb_world s) s)
  end.

(** the constructor *)
Definition new_bus (c_hash_id : list Z) (rib : option Z) (k : kc) : outcome bus :=
  let k := (rk_conf_set "debug" "" k).2 in
  surface (connect
    {| kb_collector_hash := hash_toStr c_hash_id; kb_seq := λ _, 0; kb_isConnected := false;
       kb_producer := false; kb_topicSel := None; kb_peer_list := ∅; kb_router_ip := "";
       kb_router_hash := zeros 16; kb_router_group_name := ""; kb_ribSeq := rib; kb_thrown := None; kb_world := k |}).

(** [enableDebug]: the connection is made again *)
Definition k_enableDebug (s : bus) : outcome bus :=
  let s := disconnect s in surface (connect (set_world (rk_conf_set "debug" "all" (kb_world s)).2 s)).

(** the loop that reconnects; [send_bmp_raw] does not look at the selector *)
Fixpoint ensure_connected (n : nat) (need_selector : bool) (s : bus) : outcome bus :=
  if (kb_isConnected s && (negb need_selector || bool_decide (is_Some (kb_topicSel s)))) || raised s then Ok s
  else match n with
       | O => NoFuel
       | S n => ensure_connected n need_selector (connect s)
       end.

(** ** Producing *)

Definition TAB : string := String "009" "".

(** A header of more than 256 octets would be read past its array. *)
Definition send (topic_var header : string) (msg : ptr) (msg_size : Z) (key peer_group : string) (peer_asn : Z) (s : bus)
  : outcome bus :=
  let len := Z.of_nat (String.length header) in
  hdr ← memcpy len (bytes_of_string (snprintf 256 header) ++ [0]);
  if MSGBUS_WORKING_BUF_SIZE <? len + msg_size then Undef OobWrite
  else
    data ← memcpy msg_size msg;
    sel ← init_read (kb_topicSel s);
    let '(topic, sel, k) := getTopic (topic_names_map (kf_groups cfg)) topic_var (kb_router_group_name s) peer_group peer_asn
                              sel (kb_world s) in
    let s := set_link (kb_isConnected s) (kb_producer s) (Some sel) k s in
    match topic with
    | inr e => Ok (set_thrown (Some e) s)
    | inl (Some t) =>
        let '(ok, k) := rk_produce t (hdr ++ data) key (kb_world s) in
        Ok (poll 0 (if (ok : bool) then set_world k s else poll 100 (set_world k s)))
    | inl None => Ok (poll 0 s)
    end.

Definition produce (topic_var : string) (msg : ptr) (msg_size rows : Z) (key peer_group : string) (peer_asn : Z) (s : bus)
  : outcome bus :=
  s ← ensure_connected attempts true s;
  if raised s then Ok s
  else if negb (topicEnabled (topic_names_map (kf_groups cfg)) topic_var) then Ok s
  else
    send topic_var
      ("V: " +:+ MSGBUS_API_VERSION +:+ NL +:+ "C_HASH_ID: " +:+ kb_collector_hash s +:+ NL +:+ "T: " +:+ topic_var +:+ NL
       +:+ "L: " +:+ dec msg_size +:+ NL +:+ "R: " +:+ dec rows +:+ NL +:+ NL)
      msg msg_size key peer_group peer_asn s.

(** A null selector would be dereferenced. *)
Definition send_raw (r_hash : list Z) (peer : obj_bgp_peer) (data : list Z) (s : bus) : outcome bus :=
  let data_len := Z.of_nat (length data) in
  if data_len =? 0 then Ok s
  else
    s ← ensure_connected attempts false s;
    if raised s then Ok s
    else match kb_topicSel s with
    | None => Undef NullDeref
    | Some _ =>
        if negb (topicEnabled (topic_names_map (kf_groups cfg)) MSGBUS_TOPIC_VAR_BMP_RAW) then Ok s
        else
          let '(group, s) := peer_group_of (hash_toStr (pe_hash_id peer)) s in
          send MSGBUS_TOPIC_VAR_BMP_RAW
            ("V: " +:+ MSGBUS_API_VERSION +:+ NL +:+ "C_HASH_ID: " +:+ kb_collector_hash s +:+ NL
             +:+ "R_HASH: " +:+ hash_toStr r_hash +:+ NL +:+ "R_IP: " +:+ kb_router_ip s +:+ NL
             +:+ "L: " +:+ dec data_len +:+ NL +:+ NL)
            data data_len (hash_toStr r_hash) group (pe_as peer) s
    end.

(** ** Rows *)

(** columns separated by tabs, closed by a newline *)
Definition row (cols : list string) : string := join TAB cols +:+ NL.

Definition flag (b : bool) : string := dec (Z.b2z b).

(** [snprintf] into a [char] array of [n] octets that is sent by [strlen] *)
Definition produce_text (n : nat) (topic_var text key peer_group : string) (peer_asn : Z) (s : bus) : outcome bus :=
  let buf := bytes_of_string (snprintf n text) in
  produce topic_var (buf ++ [0]) (Z.of_nat (length buf)) 1 key peer_group peer_asn s.

(** the C string of an octet array *)
Definition c_text (l : list Z) : outcome string := t ← c_string l; Ok (text t).

(** a text without newlines and tabs *)
Definition one_line (t : string) : string := replace_all TAB " " (replace_all NL "\n" t).

Definition resolveIp (name : string) (s : bus) : string * bus :=
  let '(h, k) := kw_resolve name (kb_world s) in (default "" h, set_world k s).

Definition timestamp (secs us : Z) (s : bus) : string * bus :=
  let '(ts, k) := getTimestamp secs us (kb_world s) in (ts, set_world k s).

(** ** Collector *)

Inductive collector_action_code : Set :=
| COLLECTOR_ACTION_STARTED | COLLECTOR_ACTION_CHANGE | COLLECTOR_ACTION_HEARTBEAT | COLLECTOR_ACTION_STOPPED.
Record obj_collector : Type := {
  co_admin_id : string; co_routers : string; co_router_count : Z; co_timestamp_secs : Z; co_timestamp_us : Z }.

Definition collector_action (c : collector_action_code) : string :=
  match c with
  | COLLECTOR_ACTION_STARTED => "started"
  | COLLECTOR_ACTION_CHANGE => "change"
  | COLLECTOR_ACTION_HEARTBEAT => "heartbeat"
  | COLLECTOR_ACTION_STOPPED => "stopped"
  end.

Definition k_update_Collector (c : obj_collector) (code : collector_action_code) (s : bus) : outcome bus :=
  let '(ts, s) := timestamp (co_timestamp_secs c) (co_timestamp_us c) s in
  s ← produce_text 4096 MSGBUS_TOPIC_VAR_COLLECTOR
        (row [collector_action code; dec (kb_seq s collector_seq); co_admin_id c; kb_collector_hash s;
              co_routers c; dec (co_router_count c); ts])
        (kb_collector_hash s) "" 0 s;
  Ok (count_one collector_seq s).

(** ** Router *)

Definition router_action (c : router_action_code) : string :=
  match c with ROUTER_ACTION_FIRST => "first" | ROUTER_ACTION_INIT => "init" | ROUTER_ACTION_TERM => "term" end.

Definition hash_defined (h : list Z) : bool := existsb (λ b, negb (b =? 0)) h.

Definition set_ro_name (n : list Z) (r : obj_router) : obj_router :=
  {| ro_hash_id := ro_hash_id r; ro_hash_type := ro_hash_type r; ro_name := n; ro_descr := ro_descr r;
     ro_ip_addr := ro_ip_addr r; ro_bgp_id := ro_bgp_id r; ro_asn := ro_asn r;
     ro_term_reason_code := ro_term_reason_code r; ro_term_reason_text := ro_term_reason_text r;
     ro_term_data := ro_term_data r; ro_initiate_data := ro_initiate_data r;
     ro_timestamp_secs := ro_timestamp_secs r; ro_timestamp_us := ro_timestamp_us r |}.

(** [snprintf(name, sizeof(name)-1, "%s", hostname)] *)
Definition print_name (hostname : string) (name : list Z) : list Z :=
  let h := bytes_of_string (snprintf 254 hostname) ++ [0] in h ++ drop (length h) name.

(** The row of a router.  It is sent with the length [snprintf] returns, which may
    exceed the array. *)
Definition publish_router (r : obj_router) (code : router_action_code) (s : bus) : outcome (obj_router * bus) :=
  descr ← c_text (ro_descr r);
  initData ← c_text (ro_initiate_data r);
  termData ← c_text (ro_term_data r);
  let '(ts, s) := timestamp (ro_timestamp_secs r) (ro_timestamp_us r) s in
  name ← c_text (ro_name r);
  let '(r, s) := if is_empty name then
                   let '(hostname, s) := resolveIp (ro_ip_addr r) s in
                   (set_ro_name (print_name hostname (ro_name r)) r, s)
                 else (r, s) in
  name ← c_text (ro_name r);
  s ← match kb_topicSel s with
      | Some _ =>
          g ← lookupRouterGroup regex_search (kf_groups cfg) name (ro_ip_addr r);
          Ok (set_router (kb_router_ip s) (kb_router_hash s) g s)
      | None => Ok s
      end;
  let r_hash_str := hash_toStr (ro_hash_id r) in
  let text := row [router_action code; dec (kb_seq s router_seq); name; r_hash_str; ro_ip_addr r; one_line descr;
                   dec (ro_term_reason_code r); ro_term_reason_text r; one_line initData; one_line termData; ts;
                   ro_bgp_id r] in
  s ← produce MSGBUS_TOPIC_VAR_ROUTER (bytes_of_string (snprintf 4096 text) ++ [0])
        (Z.of_nat (String.length text)) 1 r_hash_str "" 0 s;
  Ok (r, count_one router_seq s).

Definition k_update_Router (r : obj_router) (code : router_action_code) (s : bus) : outcome (obj_router * bus) :=
  match code with
  | ROUTER_ACTION_TERM => publish_router r code (set_router (ro_ip_addr r) (zeros 16) (kb_router_group_name s) s)
  | ROUTER_ACTION_INIT => publish_router r code (set_router (ro_ip_addr r) (ro_hash_id r) (kb_router_group_name s) s)
  | ROUTER_ACTION_FIRST =>
      if hash_defined (kb_router_hash s) then Ok (r, s)
      else publish_router r code (set_router (ro_ip_addr r) (ro_hash_id r) (kb_router_group_name s) s)
  end.

(** ** Peer *)

Definition set_pe_hash (h : list Z) (p : obj_bgp_peer) : obj_bgp_peer :=
  {| pe_hash_id := h; pe_router_hash_id := pe_router_hash_id p; pe_table_name := pe_table_name p;
     pe_rd := pe_rd p; pe_addr := pe_addr p; pe_bgp_id := pe_bgp_id p; pe_as := pe_as p;
     pe_isL3VPN := pe_isL3VPN p; pe_isPrePolicy := pe_isPrePolicy p; pe_isAdjIn := pe_isAdjIn p;
     pe_isLocRib := pe_isLocRib p; pe_isLocRibFiltered := pe_isLocRibFiltered p; pe_isIPv4 := pe_isIPv4 p;
     pe_isTwoOctet := pe_isTwoOctet p; pe_timestamp_secs := pe_timestamp_secs p; pe_timestamp_us := pe_timestamp_us p |}.

Definition peer_hash (p : obj_bgp_peer) : outcome (list Z) :=
  Md5.md5_digest [bytes_of_string (pe_addr p); bytes_of_string (pe_rd p);
                  bytes_of_string (hash_toStr (pe_router_hash_id p))].

Definition peer_action (c : peer_action_code) : string :=
  match c with PEER_ACTION_FIRST => "first" | PEER_ACTION_UP => "up" | PEER_ACTION_DOWN => "down" end.

Definition blanks (n : nat) : list string := replicate n "".

(** The columns of the event: none for the first sight of a peer; [None] when
    the event is missing. *)
Definition peer_event_cols (up : option obj_peer_up_event) (down : option obj_peer_down_event) (code : peer_action_code)
  : option (list string) :=
  match code with
  | PEER_ACTION_FIRST => Some (blanks 14)
  | PEER_ACTION_UP =>
      up ← up;
      Some ([dec (ue_remote_port up); dec (ue_local_asn up); ue_local_ip up; dec (ue_local_port up);
             ue_local_bgp_id up; one_line (ue_info_data up); ue_sent_cap up; ue_recv_cap up;
             dec (ue_remote_hold_time up); dec (ue_local_hold_time up)] ++ blanks 4)
  | PEER_ACTION_DOWN =>
      down ← down;
      Some (blanks 10 ++ [dec (de_bmp_reason down); dec (de_bgp_err_code down); dec (de_bgp_err_subcode down);
                          de_error_text down])
  end.

(** the row of a peer; the table name is not printed when it goes down *)
Definition peer_row (p : obj_bgp_peer) (code : peer_action_code) (events : list string)
    (p_hash r_hash hostname ts : string) (s : bus) : outcome string :=
  table ← match code with PEER_ACTION_DOWN => Ok "" | _ => c_text (pe_table_name p) end;
  Ok (row ([peer_action code; dec (kb_seq s peer_seq); p_hash; r_hash; hostname; pe_bgp_id p; kb_router_ip s; ts;
            dec (pe_as p); pe_addr p; pe_rd p] ++ events
           ++ [flag (pe_isL3VPN p); flag (pe_isPrePolicy p); flag (pe_isIPv4 p); flag (pe_isLocRib p);
               flag (pe_isLocRibFiltered p); table])).

Definition erase_peer (p_hash_str : string) (s : bus) : bus := set_peer_list (delete p_hash_str (kb_peer_list s)) s.

(** a peer that is seen or comes up is listed with its group *)
Definition list_peer (p : obj_bgp_peer) (p_hash_str hostname : string) (code : peer_action_code) (s : bus) : outcome bus :=
  match code, kb_topicSel s with
  | PEER_ACTION_DOWN, _ | _, None => Ok s
  | _, Some _ =>
      g ← lookupPeerGroup regex_search (kf_groups cfg) hostname (pe_addr p) (pe_as p);
      Ok (set_peer_list (<[p_hash_str := g]> (kb_peer_list s)) s)
  end.

Definition announce_peer (p : obj_bgp_peer) (up : option obj_peer_up_event) (down : option obj_peer_down_event)
    (code : peer_action_code) (p_hash_str : string) (s : bus) : outcome (obj_bgp_peer * bus) :=
  let '(hostname, s) := resolveIp (pe_addr p) s in
  let '(ts, s) := timestamp (pe_timestamp_secs p) (pe_timestamp_us p) s in
  s ← list_peer p p_hash_str hostname code s;
  match peer_event_cols up down code with
  | None => Ok (p, s)
  | Some events =>
      text ← peer_row p code events p_hash_str (hash_toStr (pe_router_hash_id p)) hostname ts s;
      let s := match code with PEER_ACTION_DOWN => erase_peer p_hash_str s | _ => s end in
      let '(group, s) := peer_group_of p_hash_str s in
      s ← produce_text 4096 MSGBUS_TOPIC_VAR_PEER text p_hash_str group (pe_as p) s;
      Ok (p, count_one peer_seq s)
  end.

Definition k_update_Peer (p : obj_bgp_peer) (up : option obj_peer_up_event) (down : option obj_peer_down_event)
    (code : peer_action_code) (s : bus) : outcome (obj_bgp_peer * bus) :=
  hash ← peer_hash p;
  let p := set_pe_hash hash p in
  let p_hash_str := hash_toStr hash in
  match code with
  | PEER_ACTION_FIRST =>
      if bool_decide (is_Some (kb_peer_list s !! p_hash_str)) then Ok (p, s)
      else announce_peer p up down code p_hash_str s
  | PEER_ACTION_UP => announce_peer p up down code p_hash_str s
  | PEER_ACTION_DOWN => announce_peer p up down code p_hash_str (erase_peer p_hash_str s)
  end.

(** ** Attributes *)

Definition set_at_hash (h : list Z) (a : obj_path_attr) : obj_path_attr :=
  {| at_hash_id := Some h; at_origin := at_origin a; at_as_path := at_as_path a;
     at_as_path_count := at_as_path_count a; at_origin_as := at_origin_as a;
     at_nexthop_isIPv4 := at_nexthop_isIPv4 a; at_next_hop := at_next_hop a; at_aggregator := at_aggregator a;
     at_atomic_agg := at_atomic_agg a; at_med := at_med a; at_local_pref := at_local_pref a;
     at_community_list := at_community_list a; at_ext_community_list := at_ext_community_list a;
     at_large_community_list := at_large_community_list a; at_cluster_list := at_cluster_list a;
     at_originator_id := at_originator_id a |}.

(** the fourteen columns from the origin to the originator *)
Definition attr_cols (a : obj_path_attr) : outcome (list string) :=
  origin ← init_read (at_origin a);
  count ← init_read (at_as_path_count a);
  origin_as ← init_read (at_origin_as a);
  nh ← init_read (at_next_hop a);
  med ← init_read (at_med a);
  lp ← init_read (at_local_pref a);
  agg ← init_read (at_aggregator a);
  atomic ← init_read (at_atomic_agg a);
  v4 ← init_read (at_nexthop_isIPv4 a);
  oid ← init_read (at_originator_id a);
  Ok [origin; at_as_path a; dec count; dec origin_as; nh; dec med; dec lp; agg; at_community_list a;
      at_ext_community_list a; at_cluster_list a; flag atomic; flag v4; oid].

Definition attr_hash (p_hash_str : string) (a : obj_path_attr) : outcome (list Z) :=
  nh ← init_read (at_next_hop a);
  agg ← init_read (at_aggregator a);
  origin ← init_read (at_origin a);
  med ← init_read (at_med a);
  lp ← init_read (at_local_pref a);
  Md5.md5_digest [bytes_of_string (at_as_path a); bytes_of_string nh; bytes_of_string agg; bytes_of_string origin;
                  le_bytes 4 med; le_bytes 4 lp; bytes_of_string (at_community_list a);
                  bytes_of_string (at_ext_community_list a); bytes_of_string p_hash_str].

Definition k_update_baseAttribute (p : obj_bgp_peer) (a : obj_path_attr) (s : bus) : outcome (obj_path_attr * bus) :=
  let p_hash_str := hash_toStr (pe_hash_id p) in
  hash ← attr_hash p_hash_str a;
  let a := set_at_hash hash a in
  let '(ts, s) := timestamp (pe_timestamp_secs p) (pe_timestamp_us p) s in
  cols ← attr_cols a;
  let text := row (["add"; dec (kb_seq s base_attr_seq); hash_toStr hash; hash_toStr (pe_router_hash_id p);
                    kb_router_ip s; p_hash_str; pe_addr p; dec (pe_as p); ts] ++ cols ++ [at_large_community_list a]) in
  let '(group, s) := peer_group_of p_hash_str s in
  s ← produce MSGBUS_TOPIC_VAR_BASE_ATTRIBUTE
        (bytes_of_string (snprintf (Z.to_nat MSGBUS_WORKING_BUF_SIZE) text) ++ [0])
        (Z.of_nat (String.length text)) 1 p_hash_str group (pe_as p) s;
  Ok (a, count_one base_attr_seq s).

(** ** Batches of rows *)

(** One row is cut to the size of [buf2]; it is appended while the sum of the
    full lengths stays below the size of [prep_buf]. *)
Definition append_row (buf2_size : Z) (acc : string * Z) (text : string) : string * Z :=
  let '(prep, buf_len) := acc in
  let buf_len := buf_len + Z.of_nat (String.length text) in
  ((if buf_len <? MSGBUS_WORKING_BUF_SIZE then prep +:+ snprintf (Z.to_nat buf2_size) text else prep), buf_len).

Section batch.
Context {A : Type} (row_of : A → Z → outcome string).

(** the texts of the rows, with their sequence numbers *)
Fixpoint batch (entries : list A) (seq : Z) : outcome (list string) :=
  match entries with
  | [] => Ok []
  | e :: entries => t ← row_of e seq; l ← batch entries (u64 (seq + 1)); Ok (t :: l)
  end.
End batch.

(** [vector] updates: the rows go out in one message *)
Definition produce_rows (topic_var : string) (c : counter) (rows : list string) (p : obj_bgp_peer) (s : bus) : outcome bus :=
  let n := Z.of_nat (length rows) in
  let prep := bytes_of_string (foldl (append_row 80000) ("", 0) rows).1 in
  let s := seq_add c n s in
  let p_hash_str := hash_toStr (pe_hash_id p) in
  let '(group, s) := peer_group_of p_hash_str s in
  produce topic_var (prep ++ [0]) (Z.of_nat (length prep)) n p_hash_str group (pe_as p) s.

(** the first columns of a row: identifiers, peer and time *)
Definition id_cols (action : string) (seq : Z) (hash path_hash : string) (p : obj_bgp_peer) (ts : string) (s : bus)
  : list string :=
  [action; dec seq; hash; hash_toStr (pe_router_hash_id p); kb_router_ip s; path_hash; hash_toStr (pe_hash_id p);
   pe_addr p; dec (pe_as p); ts].

(** the octet that stands for the labels, which withdrawals do not carry *)
Definition label_mark (labels : string) : list (list Z) := if is_empty labels then [] else [[1]].
Definition path_id_chunk (path_id : Z) : list (list Z) := if 0 <? path_id then [le_bytes 4 path_id] else [].

Definition rib_hash (p : obj_bgp_peer) (r : obj_rib) : outcome (list Z) :=
  Md5.md5_digest ([bytes_of_string (ri_prefix r); [ri_prefix_len r]; bytes_of_string (hash_toStr (pe_hash_id p))]
                  ++ path_id_chunk (ri_path_id r) ++ label_mark (ri_labels r)).

Definition unicast_row (p : obj_bgp_peer) (a : option obj_path_attr) (code : unicast_prefix_action_code)
    (ts : string) (s : bus) (r : obj_rib) (seq : Z) : outcome string :=
  hash ← rib_hash p r;
  let place := [ri_prefix r; dec (ri_prefix_len r); flag (ri_isIPv4 r)] in
  let path := [dec (ri_path_id r); ri_labels r; flag (pe_isPrePolicy p); flag (pe_isAdjIn p)] in
  match code, a with
  | UNICAST_PREFIX_ACTION_ADD, Some a =>
      path_hash ← init_read (at_hash_id a);
      cols ← attr_cols a;
      Ok (row (id_cols "add" seq (hash_toStr hash) (hash_toStr path_hash) p ts s ++ place ++ cols ++ path
               ++ [at_large_community_list a]))
  | _, _ => Ok (row (id_cols "del" seq (hash_toStr hash) "" p ts s ++ place ++ blanks 14 ++ path ++ [""]))
  end.

(** Without attributes an announcement ends at its first prefix. *)
Definition k_update_unicastPrefix (p : obj_bgp_peer) (rib : list obj_rib) (a : option obj_path_attr)
    (code : unicast_prefix_action_code) (s : bus) : outcome bus :=
  _ ← match a with Some a => _ ← init_read (at_hash_id a); Ok tt | None => Ok tt end;
  let '(ts, s) := timestamp (pe_timestamp_secs p) (pe_timestamp_us p) s in
  match code, a, rib with
  | UNICAST_PREFIX_ACTION_ADD, None, r :: _ => _ ← rib_hash p r; Ok s
  | _, _, _ =>
      rows ← batch (unicast_row p a code ts s) rib (kb_seq s unicast_prefix_seq);
      produce_rows MSGBUS_TOPIC_VAR_UNICAST_PREFIX unicast_prefix_seq rows p (rib_add (Z.of_nat (length rib)) s)
  end.

Definition rd_text (rd : rd_tuple) : string := rd_administrator_subfield rd +:+ ":" +:+ rd_assigned_number rd.

Definition vpn_hash (p : obj_bgp_peer) (v : obj_vpn) : outcome (list Z) :=
  let r := vp_rib v in
  Md5.md5_digest ([bytes_of_string (ri_prefix r); [ri_prefix_len r];
                   bytes_of_string (rd_administrator_subfield (vp_rd v)); bytes_of_string (rd_assigned_number (vp_rd v));
                   bytes_of_string (hash_toStr (pe_hash_id p))]
                  ++ path_id_chunk (ri_path_id r) ++ label_mark (ri_labels r)).

Definition l3vpn_row (p : obj_bgp_peer) (a : obj_path_attr) (code : vpn_action_code) (ts : string) (s : bus)
    (v : obj_vpn) (seq : Z) : outcome string :=
  let r := vp_rib v in
  hash ← vpn_hash p v;
  type ← init_read (rd_type (vp_rd v));
  let place := [ri_prefix r; dec (ri_prefix_len r); flag (ri_isIPv4 r)] in
  let path := [dec (ri_path_id r); ri_labels r; flag (pe_isPrePolicy p); flag (pe_isAdjIn p); rd_text (vp_rd v);
               dec type] in
  match code with
  | VPN_ACTION_ADD =>
      path_hash ← init_read (at_hash_id a);
      cols ← attr_cols a;
      Ok (row (id_cols "add" seq (hash_toStr hash) (hash_toStr path_hash) p ts s ++ place ++ cols ++ path
               ++ [at_large_community_list a]))
  | VPN_ACTION_DEL => Ok (row (id_cols "del" seq (hash_toStr hash) "" p ts s ++ place ++ blanks 14 ++ path ++ [""]))
  end.

(** The hash of the attributes is read first, for withdrawals too. *)
Definition k_update_L3Vpn (p : obj_bgp_peer) (vpn : list obj_vpn) (a : obj_path_attr) (code : vpn_action_code) (s : bus)
  : outcome bus :=
  _ ← init_read (at_hash_id a);
  let '(ts, s) := timestamp (pe_timestamp_secs p) (pe_timestamp_us p) s in
  rows ← batch (l3vpn_row p a code ts s) vpn (kb_seq s l3vpn_seq);
  produce_rows MSGBUS_TOPIC_VAR_L3VPN l3vpn_seq rows p s.

Definition evpn_hash (p : obj_bgp_peer) (v : obj_evpn) : outcome (list Z) :=
  Md5.md5_digest ([bytes_of_string (hash_toStr (pe_hash_id p)); bytes_of_string (eo_mac v); bytes_of_string (eo_ip v);
                   [eo_ip_len v]; bytes_of_string (eo_ethernet_segment_identifier v);
                   bytes_of_string (rd_administrator_subfield (eo_rd v)); bytes_of_string (rd_assigned_number (eo_rd v))]
                  ++ path_id_chunk (eo_path_id v)).

Definition evpn_row (p : obj_bgp_peer) (a : obj_path_attr) (code : vpn_action_code) (ts : string) (s : bus)
    (v : obj_evpn) (seq : Z) : outcome string :=
  hash ← evpn_hash p v;
  path_hash ← init_read (at_hash_id a);
  type ← init_read (rd_type (eo_rd v));
  let place := [dec (eo_path_id v); flag (pe_isPrePolicy p); flag (pe_isAdjIn p); rd_text (eo_rd v); dec type;
                dec (eo_originating_router_ip_len v); eo_originating_router_ip v; eo_ethernet_tag_id_hex v;
                eo_ethernet_segment_identifier v; dec (eo_mac_len v); eo_mac v; dec (eo_ip_len v); eo_ip v;
                dec (eo_mpls_label_1 v); dec (eo_mpls_label_2 v)] in
  match code with
  | VPN_ACTION_ADD =>
      cols ← attr_cols a;
      Ok (row (id_cols "add" seq (hash_toStr hash) (hash_toStr path_hash) p ts s ++ cols ++ place))
  | VPN_ACTION_DEL => Ok (row (id_cols "del" seq (hash_toStr hash) (hash_toStr path_hash) p ts s ++ blanks 14 ++ place))
  end.

Definition k_update_eVPN (p : obj_bgp_peer) (vpn : list obj_evpn) (a : obj_path_attr) (code : vpn_action_code) (s : bus)
  : outcome bus :=
  _ ← init_read (at_hash_id a);
  let '(ts, s) := timestamp (pe_timestamp_secs p) (pe_timestamp_us p) s in
  rows ← batch (evpn_row p a code ts s) vpn (kb_seq s evpn_seq);
  produce_rows MSGBUS_TOPIC_VAR_EVPN evpn_seq rows p s.

(** ** Statistics *)

Definition k_add_StatReport (p : obj_bgp_peer) (st : obj_stats_report) (s : bus) : outcome bus :=
  let p_hash_str := hash_toStr (pe_hash_id p) in
  let '(ts, s) := timestamp (pe_timestamp_secs p) (pe_timestamp_us p) s in
  let text := row ["add"; dec (kb_seq s bmp_stat_seq); hash_toStr (pe_router_hash_id p); kb_router_ip s; p_hash_str;
                   pe_addr p; dec (pe_as p); ts; dec (sr_prefixes_rej st); dec (sr_known_dup_prefixes st);
                   dec (sr_known_dup_withdraws st); dec (sr_invalid_cluster_list st); dec (sr_invalid_as_path_loop st);
                   dec (sr_invalid_originator_id st); dec (sr_invalid_as_confed_loop st);
                   dec (sr_routes_adj_rib_in st); dec (sr_routes_loc_rib st)] in
  let '(group, s) := peer_group_of p_hash_str s in
  s ← produce_text 4096 MSGBUS_TOPIC_VAR_BMP_STAT text p_hash_str group (pe_as p) s;
  Ok (count_one bmp_stat_seq s).

(** ** Closing *)

(** the destructor; an exception may not leave it, and ends the program *)
Definition close_bus (s : bus) : outcome bus :=
  s ← (if hash_defined (kb_router_hash s) then
         let r := zero_router in
         let r := {| ro_hash_id := kb_router_hash s; ro_hash_type := 0; ro_name := ro_name r; ro_descr := ro_descr r;
                     ro_ip_addr := snprintf 46 (kb_router_ip s); ro_bgp_id := ""; ro_asn := 0;
                     ro_term_reason_code := 65533; ro_term_reason_text := "Connection closed";
                     ro_term_data := ro_term_data r; ro_initiate_data := ro_initiate_data r;
                     ro_timestamp_secs := 0; ro_timestamp_us := 0 |} in
         '(_, s) ← k_update_Router r ROUTER_ACTION_TERM s; surface s
       else Ok s);
  Ok (disconnect (set_peer_list ∅ s)).
End bus.

(** ** Messages as a consumer reads them *)

(** the parts of a text between separators *)
Fixpoint split_on (c : Ascii.ascii) (s : string) : list string :=
  match s with
  | EmptyString => [""]
  | String x s' =>
      if Ascii.eqb x c then "" :: split_on c s'
      else match split_on c s' with t :: l => String x t :: l | [] => [String x ""] end
  end.

(** A message is a header of lines, an empty line, and rows that all end with a
    newline. *)
Fixpoint split_header (lines : list string) : option (list string * list string) :=
  match lines with
  | [] => None
  | l :: lines => if is_empty l then Some ([], lines) else '(h, rest) ← split_header lines; Some (l :: h, rest)
  end.
Definition decode_message (payload : list Z) : option (list string * list (list string)) :=
  '(h, lines) ← split_header (split_on "010" (text payload));
  match last lines with
  | Some "" => Some (h, split_on "009" <$> removelast lines)
  | _ => None
  end.

Definition clean_char (c : Ascii.ascii) : bool := negb (Ascii.eqb c "009") && negb (Ascii.eqb c "010").
(** a text that fits in one column *)
Definition clean (s : string) : Prop := str_all clean_char s = true.
#[global] Instance clean_dec s : Decision (clean s).
Proof. unfold clean. apply _. Defined.

Lemma split_app c s t : str_all (λ x, negb (Ascii.eqb x c)) s = true → split_on c (s +:+ String c t) = s :: split_on c t.
Proof.
  induction s as [|x s IH]; intros H; cbn [split_on].
  - change ("" +:+ String c t) with (String c t). cbn [split_on]. by rewrite Ascii.eqb_refl.
  - cbn in H. apply andb_prop in H as [Hx H]. rewrite append_cons. cbn [split_on].
    apply negb_true_iff in Hx. by rewrite Hx, IH.
Qed.
Lemma split_plain c s : str_all (λ x, negb (Ascii.eqb x c)) s = true → split_on c s = [s].
Proof.
  induction s as [|x s IH]; intros H; [done|]. cbn in H. apply andb_prop in H as [Hx H]. cbn [split_on].
  apply negb_true_iff in Hx. by rewrite Hx, IH.
Qed.

Lemma clean_no_tab s : clean s → str_all (λ x, negb (Ascii.eqb x "009")) s = true.
Proof. apply str_all_impl. intros c H. by apply andb_prop in H as [? _]. Qed.
Lemma clean_no_nl s : clean s → str_all (λ x, negb (Ascii.eqb x "010")) s = true.
Proof. apply str_all_impl. intros c H. by apply andb_prop in H as [_ ?]. Qed.

Lemma clean_app s t : clean s → clean t → clean (s +:+ t).
Proof. unfold clean. rewrite str_all_app. by intros -> ->. Qed.

(** the columns of a row *)
Lemma split_join cols : cols ≠ [] → Forall clean cols → split_on "009" (join TAB cols) = cols.
Proof.
  intros Hn. induction 1 as [|c cols Hc H IH]; [done|]. destruct cols as [|d cols].
  - apply split_plain, clean_no_tab, Hc.
  - change (join TAB (c :: d :: cols)) with (c +:+ String "009" (join TAB (d :: cols))).
    rewrite split_app by (by apply clean_no_tab). by rewrite IH.
Qed.

Lemma join_no_nl cols : Forall clean cols → str_all (λ x, negb (Ascii.eqb x "010")) (join TAB cols) = true.
Proof.
  induction 1 as [|c cols Hc H IH]; [done|]. destruct cols as [|d cols]; [by apply clean_no_nl|].
  change (join TAB (c :: d :: cols)) with (c +:+ String "009" (join TAB (d :: cols))).
  rewrite str_all_app. cbn [str_all]. by rewrite IH, clean_no_nl.
Qed.

Definition texts (l : list string) : string := foldr String.append "" l.

Lemma split_rows rows :
  Forall (Forall clean) rows → split_on "010" (texts (row <$> rows)) = (join TAB <$> rows) ++ [""].
Proof.
  induction 1 as [|cols rows Hc H IH]; [done|]. cbn [fmap list_fmap texts foldr]. fold (texts (row <$> rows)).
  unfold row at 1. rewrite string_app_assoc. change (NL +:+ texts (row <$> rows)) with (String "010" (texts (row <$> rows))).
  rewrite split_app by (by apply join_no_nl). by rewrite IH.
Qed.

(** the rows of a message are those that were put in *)
Lemma decode_encode header rows :
  Forall (λ l, l ≠ "" ∧ clean l) header → Forall (λ cols, cols ≠ [] ∧ Forall clean cols) rows →
  decode_message (bytes_of_string (texts ((λ l, l +:+ NL) <$> header) +:+ NL +:+ texts (row <$> rows))) = Some (header, rows).
Proof.
  intros Hh Hr. unfold decode_message. rewrite text_bytes.
  assert (Forall (Forall clean) rows) as Hr' by (apply (Forall_impl _ _ _ Hr); naive_solver).
  assert (split_header (split_on "010" (texts ((λ l, l +:+ NL) <$> header) +:+ NL +:+ texts (row <$> rows)))
          = Some (header, (join TAB <$> rows) ++ [""])) as ->.
  { induction Hh as [|l header [Hl Hc] Hh IH].
    - cbn [fmap list_fmap texts foldr]. rewrite append_nil_l.
      change (NL +:+ texts (row <$> rows)) with (String "010" (texts (row <$> rows))). cbn [split_on split_header Ascii.eqb].
      rewrite split_rows by done. done.
    - cbn [fmap list_fmap texts foldr]. fold (texts ((λ l, l +:+ NL) <$> header)). rewrite !string_app_assoc.
      change (NL +:+ ?x) with (String "010" x) at 1. rewrite split_app by (by apply clean_no_nl).
      cbn [split_header]. rewrite IH. by destruct l. }
  cbn. rewrite last_snoc, removelast_last, <-list_fmap_compose. do 2 f_equal.
  clear Hr'. induction Hr as [|cols rows [Hn Hc] Hr IH]; [done|]. cbn [fmap list_fmap]. f_equal; [by apply split_join|done].
Qed.

(** ** A healthy broker

    [sent] are the messages handed over so far: topic, payload and key.  The
    library accepts settings, topics and messages, and no poll reports that the
    brokers are down. *)
Class KafkaUp (kc : Type) {W : KafkaWorld kc} : Type := {
  sent : kc → list (string * list Z * string);
  up_accepts :: RdKafkaAccepts kc;
  up_conf name value k : sent (rk_conf_set name value k).2 = sent k;
  up_topic name k : sent (rk_topic_create name k).2 = sent k;
  up_poll ms k : (rk_poll ms k).1 = false ∧ sent (rk_poll ms k).2 = sent k;
  up_produce t m key k : (rk_produce t m key k).1 = true ∧ sent (rk_produce t m key k).2 = sent k ++ [(t, m, key)];
  up_time k : sent (kw_gettimeofday k).2 = sent k;
  up_resolve name k : sent (kw_resolve name k).2 = sent k }.

(** connected, with a topic selector, and no exception on its way *)
Definition linked {kc} (s : msgBus_kafka kc) : Prop :=
  kb_isConnected s = true ∧ is_Some (kb_topicSel s) ∧ kb_thrown s = None.

Lemma raised_false {kc} (s : msgBus_kafka kc) : kb_thrown s = None → raised s = false.
Proof. unfold raised. by intros ->. Qed.

(** the parts of the bus that sending a message does not change *)
Definition same_books {kc} (s s' : msgBus_kafka kc) : Prop :=
  kb_collector_hash s' = kb_collector_hash s ∧ (∀ c, kb_seq s' c = kb_seq s c) ∧ kb_peer_list s' = kb_peer_list s
  ∧ kb_router_ip s' = kb_router_ip s ∧ kb_router_hash s' = kb_router_hash s
  ∧ kb_router_group_name s' = kb_router_group_name s ∧ kb_ribSeq s' = kb_ribSeq s.
#[global] Instance same_books_preorder kc : PreOrder (@same_books kc).
Proof. unfold same_books. split; [intros ?|intros ??? H1 H2]; naive_solver congruence. Qed.

Lemma set_link_books {kc} c p t k (s : msgBus_kafka kc) : same_books s (set_link c p t k s).
Proof. by unfold same_books. Qed.

Section books.
Context {kc : Type} {W : KafkaWorld kc} {regex : Type} (regex_search : string → regex → bool).
Context (cfg : KafkaConfig regex) (attempts : nat).
Implicit Type s : msgBus_kafka kc.

Lemma poll_books ms s : same_books s (poll ms s).
Proof. unfold poll. destruct (rk_poll _ _). apply set_link_books. Qed.

Lemma connect_books s : same_books s (connect cfg s).
Proof.
  unfold connect. destruct (apply_settings _ _) as [[e|] k]; [done|]. destruct (rk_producer_create k) as [[|] k1]; [|done].
  cbn [negb]. case_match; repeat (etransitivity; [|apply poll_books]; etransitivity; [|apply set_link_books]); done.
Qed.

Lemma ensure_books n b s s' : ensure_connected cfg n b s = Ok s' → same_books s s'.
Proof.
  revert s. induction n as [|n IH]; intros s; cbn [ensure_connected]; destruct (_ || _); intros H; simplify_eq; try done.
  etransitivity; [apply connect_books|by apply IH].
Qed.

Lemma send_books tv h m n key g asn s s' : send cfg tv h m n key g asn s = Ok s' → same_books s s'.
Proof.
  unfold send. intros H. apply bind_Ok_inv in H as (hdr & _ & H). destruct (_ <? _); [done|].
  apply bind_Ok_inv in H as (d & _ & H). apply bind_Ok_inv in H as (sel & _ & H).
  destruct (getTopic _ _ _ _ _ _ _) as [[[[t|]|e] sel'] k]; [destruct (rk_produce _ _ _ _) as [[|] k']| |]; injection H as <-;
    repeat (etransitivity; [|apply poll_books || apply set_link_books]); done.
Qed.

Lemma produce_books tv m n rows key g asn s s' : produce cfg attempts tv m n rows key g asn s = Ok s' → same_books s s'.
Proof.
  unfold produce. intros H. apply bind_Ok_inv in H as (s1 & H1 & H). apply ensure_books in H1.
  destruct (raised _); [by simplify_eq|]. destruct (negb _); [by simplify_eq|]. etransitivity; [done|by eapply send_books].
Qed.
End books.

(** ** The header *)

Definition header_lines (collector_hash topic_var : string) (msg_size rows : Z) : list string :=
  ["V: " +:+ MSGBUS_API_VERSION; "C_HASH_ID: " +:+ collector_hash; "T: " +:+ topic_var;
   "L: " +:+ dec msg_size; "R: " +:+ dec rows].

Definition header_text (lines : list string) : string := texts ((λ l, l +:+ NL) <$> lines) +:+ NL.

Lemma var_short tv : tv ∈ topic_vars → (String.length tv ≤ 14)%nat ∧ clean tv.
Proof.
  intros H. unfold topic_vars in H. rewrite !elem_of_cons, elem_of_nil in H.
  repeat destruct H as [-> | H]; try done; (split; [cbn; lia|reflexivity]).
Qed.

Lemma header_short hash tv size rows :
  String.length hash = 32%nat → tv ∈ topic_vars → 0 ≤ size < 10 ^ 19 → 0 ≤ rows < 10 ^ 10 →
  (String.length (header_text (header_lines hash tv size rows)) < 256)%nat.
Proof.
  intros Hh Ht Hs Hr. apply var_short in Ht as [Ht _].
  pose proof (dec_length 19 size ltac:(lia) ltac:(lia)). pose proof (dec_length 10 rows ltac:(lia) ltac:(lia)).
  unfold header_text, header_lines. cbn [fmap list_fmap texts foldr]. rewrite !length_append, Hh. cbn [String.length]. cbn. lia.
Qed.

Lemma digits_clean s : str_all is_digit s = true → clean s.
Proof.
  apply str_all_impl. intros c H. unfold clean_char. destruct (Ascii.eqb_spec c "009") as [->|]; [done|].
  by destruct (Ascii.eqb_spec c "010") as [->|].
Qed.
Lemma dec_clean z : 0 ≤ z → clean (dec z).
Proof. intros. by apply digits_clean, dec_digits. Qed.

Lemma header_clean hash tv size rows :
  clean hash → tv ∈ topic_vars → 0 ≤ size → 0 ≤ rows → Forall (λ l, l ≠ "" ∧ clean l) (header_lines hash tv size rows).
Proof.
  intros Hh Ht Hs Hr. apply var_short in Ht as [_ Ht]. unfold header_lines.
  repeat (apply Forall_cons_2; [split; [done|]|]); [..|by apply Forall_nil_2]; (apply clean_app; first [assumption|by apply dec_clean|reflexivity]).
Qed.

Lemma memcpy_prefix s rest : memcpy (Z.of_nat (String.length s)) (bytes_of_string s ++ rest) = Ok (bytes_of_string s).
Proof. apply memcpy_app. by rewrite length_bytes_of_string. Qed.

Lemma bytes_of_string_app s t : bytes_of_string (s +:+ t) = bytes_of_string s ++ bytes_of_string t.
Proof. 
  induction s as [|c s IH]; [done|]. rewrite append_cons. unfold bytes_of_string in *.
  cbn [String.list_ascii_of_string fmap list_fmap app]. by rewrite IH.
Qed.

(** ** Producing to a healthy broker *)

Section up.
Context {kc : Type} {W : KafkaWorld kc} {U : KafkaUp kc} {regex : Type} (regex_search : string → regex → bool).
Context (cfg : KafkaConfig regex) (attempts : nat) (templates : string → list segment).
Implicit Type s : msgBus_kafka kc.
Abbreviation names := (topic_names_map (kf_groups cfg)).
Context (HT : templates_of names templates).

Definition up_bus s : Prop :=
  kb_thrown s = None ∧ kb_isConnected s = true ∧ String.length (kb_collector_hash s) = 32%nat ∧ clean (kb_collector_hash s)
  ∧ group_name (kb_router_group_name s) ∧ clean (kb_router_ip s)
  ∧ ∃ sel, kb_topicSel s = Some sel ∧ cache_ok names templates sel.

Lemma getTopic_sent tv rg pg asn sel (k k' : kc) sel' t :
  getTopic names tv rg pg asn sel k = (t, sel', k') → sent k' = sent k.
Proof.
  unfold getTopic, initTopic. case_match; [by intros [=]; subst|].
  pose proof (up_conf "partitioner_cb" "KafkaPeerPartitionerCallback" k) as H1.
  destruct (rk_conf_set _ _ _) as [[|] k1]; cbn [negb snd] in *; [|intros [=]; congruence].
  set (name := topic_name _ _ _ _ _). pose proof (up_topic name k1) as H2. destruct (rk_topic_create name k1) as [ok k2].
  cbn [snd] in *. intros [=]. subst. congruence.
Qed.

Lemma poll_up ms s : up_bus s → up_bus (poll ms s) ∧ sent (kb_world (poll ms s)) = sent (kb_world s).
Proof.
  intros H. unfold poll. pose proof (up_poll ms (kb_world s)) as [H1 H2]. destruct (rk_poll _ _) as [down k]. cbn in H1, H2.
  subst. split; [|exact H2]. destruct H as (? & Hc & ?). unfold up_bus. cbn. by rewrite Hc.
Qed.

(** the topic of a message, by its template *)
Definition topic_for s (tv group : string) (asn : Z) : string := expand tv (kb_router_group_name s) group asn (templates tv).

Lemma send_up tv header body key group asn s :
  up_bus s → tv ∈ topic_vars → group_name group → 0 ≤ asn → (String.length header < 256)%nat →
  Z.of_nat (String.length header) + Z.of_nat (String.length body) ≤ MSGBUS_WORKING_BUF_SIZE →
  ∃ s', send cfg tv header (bytes_of_string body ++ [0]) (Z.of_nat (String.length body)) key group asn s = Ok s'
    ∧ up_bus s' ∧ sent (kb_world s') = sent (kb_world s) ++ [(topic_for s tv group asn, bytes_of_string (header +:+ body), key)].
Proof.
  intros Hs Ht Hg Ha Hh Hb. unfold send. cbv zeta. rewrite snprintf_fits by lia. rewrite (memcpy_prefix header), bind_Ok_l.
  rewrite (proj2 (Z.ltb_ge _ _)) by lia. rewrite (memcpy_prefix body), bind_Ok_l.
  destruct Hs as (Hx & Hc & Hl & Hcl & Hr & Hip & sel & Hsel & Hok). rewrite Hsel. cbn [init_read]. rewrite bind_Ok_l.
  destruct (getTopic_spec names templates HT sel (kb_world s)
    {| r_var := tv; r_router := kb_router_group_name s; r_peer := group; r_asn := asn |} Hok ltac:(done)) as (sel' & k' & E & Hok').
  cbn [r_var r_router r_peer r_asn] in E. rewrite E. apply getTopic_sent in E. cbn beta iota.
  set (s1 := set_link _ _ (Some sel') k' s). change (kb_world s1) with k'.
  pose proof (up_produce (topic_for s tv group asn) (bytes_of_string header ++ bytes_of_string body) key k') as [H1 H2].
  fold (topic_for s tv group asn). destruct (rk_produce _ _ _ _) as [ok k2]. cbn in H1, H2. subst ok.
  destruct (poll_up 0 (set_world k2 s1)) as [Hu He].
  { unfold up_bus. cbn. eauto 10. }
  eexists. split; [done|]. split; [exact Hu|]. rewrite He. cbn. by rewrite H2, E, bytes_of_string_app.
Qed.

Lemma produce_up tv body rows key group asn s :
  up_bus s → tv ∈ topic_vars → topicEnabled names tv = true → group_name group → 0 ≤ asn → 0 ≤ rows < 10 ^ 10 →
  256 + Z.of_nat (String.length body) ≤ MSGBUS_WORKING_BUF_SIZE →
  ∃ s', produce cfg attempts tv (bytes_of_string body ++ [0]) (Z.of_nat (String.length body)) rows key group asn s = Ok s'
    ∧ up_bus s' ∧ same_books s s'
    ∧ sent (kb_world s') = sent (kb_world s)
        ++ [(topic_for s tv group asn,
             bytes_of_string (header_text (header_lines (kb_collector_hash s) tv (Z.of_nat (String.length body)) rows) +:+ body),
             key)].
Proof.
  intros Hs Ht He Hg Ha Hr Hb. unfold MSGBUS_WORKING_BUF_SIZE in Hb.
  pose proof Hs as (Hx & Hc & Hl & Hcl & _ & _ & sel & Hsel & _).
  pose proof (header_short (kb_collector_hash s) tv (Z.of_nat (String.length body)) rows Hl Ht ltac:(lia) Hr) as Hh.
  edestruct (send_up tv (header_text (header_lines (kb_collector_hash s) tv (Z.of_nat (String.length body)) rows)) body key group asn s)
    as (s' & E & Hu & Hse); [done..|unfold MSGBUS_WORKING_BUF_SIZE; lia|].
  exists s'. split; [|split; [done|split; [by eapply send_books|done]]].
  unfold produce.
  assert (ensure_connected cfg attempts true s = Ok s) as ->
    by (destruct attempts; cbn [ensure_connected]; rewrite Hc, Hsel; by rewrite bool_decide_true by (by eexists)).
  rewrite bind_Ok_l, raised_false, He by done. cbn [negb]. rewrite <-E. f_equal. unfold header_text, header_lines. cbn [fmap list_fmap texts foldr].
  by rewrite !string_app_assoc, append_nil_l.
Qed.
End up.

(** ** Clean columns *)

Lemma dec_clean_all z : clean (dec z).
Proof. apply str_all_dec; [|done]. intros c Hc. unfold clean_char. by destruct c as [[] [] [] [] [] [] [] []]. Qed.
Lemma flag_clean b : clean (flag b).
Proof. by destruct b. Qed.
Lemma setw_clean n s : clean s → clean (setw n "0" s).
Proof. by apply str_all_fill. Qed.
Lemma hexdigit_clean d : clean_char (hexdigit d) = true.
Proof. unfold hexdigit. by repeat case_match. Qed.
Lemma hex_go_clean n z acc : clean acc → clean (hex_go n z acc).
Proof.
  revert z acc. induction n as [|n IH]; intros z acc H; cbn [hex_go]; [done|].
  assert (clean (String (hexdigit (z mod 16)) acc)) by (unfold clean; cbn [str_all]; by rewrite hexdigit_clean).
  destruct (_ <? _); auto.
Qed.
Lemma hex_clean z : clean (hex z).
Proof. by apply hex_go_clean. Qed.
Lemma hash_clean h : clean (hash_toStr h).
Proof.
  unfold hash_toStr. induction (take 16 h) as [|b l IH]; [done|]. cbn [fmap list_fmap].
  destruct l as [|b' l]; [apply setw_clean, hex_clean|]. cbn [fmap list_fmap String.concat] in *.
  apply clean_app; [apply setw_clean, hex_clean|]. by apply clean_app.
Qed.
Lemma print_time_clean secs us : clean (print_time secs us).
Proof.
  unfold print_time. destruct (civil_from_days _) as [[y m] d].
  repeat (apply clean_app; [first [done|apply dec_clean_all|apply setw_clean, dec_clean_all]|]). apply setw_clean, dec_clean_all.
Qed.
Lemma blanks_clean n : Forall clean (blanks n).
Proof. unfold blanks. by apply Forall_replicate. Qed.
#[export] Hint Resolve dec_clean_all flag_clean hash_clean print_time_clean blanks_clean setw_clean : bmp.

(** ** Batches *)

Lemma texts_app l1 l2 : texts (l1 ++ l2) = texts l1 +:+ texts l2.
Proof. induction l1 as [|t l1 IH]; [done|]. cbn. fold (texts (l1 ++ l2)) (texts l1). by rewrite IH, string_app_assoc. Qed.

(** rows that fit are all in the buffer *)
Lemma append_rows_fit size prep n rows :
  Forall (λ t, Z.of_nat (String.length t) < size) rows → n + Z.of_nat (String.length (texts rows)) < MSGBUS_WORKING_BUF_SIZE →
  foldl (append_row size) (prep, n) rows = (prep +:+ texts rows, n + Z.of_nat (String.length (texts rows))).
Proof.
  intros H. revert prep n. induction H as [|t rows Ht H IH]; intros prep n Hn; cbn [foldl].
  { cbn. rewrite string_app_nil_r. f_equal. lia. }
  cbn [texts foldr] in *. fold (texts rows) in *. rewrite length_append, Nat2Z.inj_add in *. cbn [append_row].
  rewrite (proj2 (Z.ltb_lt _ _)) by lia. rewrite snprintf_fits by lia. rewrite IH by lia. f_equal; [|lia].
  by rewrite string_app_assoc.
Qed.

(** whatever the rows, the buffer holds the text and its terminator *)
Lemma append_rows_bound size prep n rows :
  Z.of_nat (String.length prep) ≤ n → Z.of_nat (String.length prep) < MSGBUS_WORKING_BUF_SIZE →
  Z.of_nat (String.length (foldl (append_row size) (prep, n) rows).1) < MSGBUS_WORKING_BUF_SIZE.
Proof.
  revert prep n. induction rows as [|t rows IH]; intros prep n Hn Hp; [done|]. cbn [foldl append_row]. destruct (_ <? _) eqn:E.
  - apply Z.ltb_lt in E. assert (String.length (snprintf (Z.to_nat size) t) ≤ String.length t)%nat
      by (unfold snprintf; rewrite length_str_take; lia).
    apply IH; rewrite length_append; lia.
  - apply IH; lia.
Qed.

(** the rows of a batch carry consecutive sequence numbers *)
Lemma batch_rows {A} (f : A → Z → outcome string) (cols : A → Z → list string) l seq :
  (∀ e q, e ∈ l → f e q = Ok (row (cols e q))) → 0 ≤ seq < 2 ^ 64 →
  batch f l seq = Ok (row <$> imap (λ i e, cols e (u64 (seq + Z.of_nat i))) l).
Proof.
  intros H. revert seq H. induction l as [|e l IH]; intros seq H Hs; [done|]. cbn [batch]. rewrite H by set_solver. rewrite bind_Ok_l.
  rewrite IH; [|set_solver|unfold u64; apply Z.mod_pos_bound; lia]. rewrite bind_Ok_l. cbn [imap fmap list_fmap].
  f_equal. f_equal; [by rewrite Z.add_0_r, u64_small|]. f_equal. apply imap_ext. intros i e' _. cbn.
  f_equal. unfold u64. rewrite Zplus_mod_idemp_l. f_equal. lia.
Qed.

(** ** Publication of rows *)

Section published.
Context {kc : Type} {W : KafkaWorld kc} {U : KafkaUp kc} {regex : Type}.
Context (cfg : KafkaConfig regex) (attempts : nat) (templates : string → list segment).
Implicit Type s : msgBus_kafka kc.
Abbreviation names := (topic_names_map (kf_groups cfg)).
Context (HT : templates_of names templates).

(** the group recorded for a peer *)
Definition group_of (p : obj_bgp_peer) s : string := default "" (kb_peer_list s !! hash_toStr (pe_hash_id p)).

(** rows small enough for the buffers of a batch *)
Definition rows_fit (rows : list (list string)) : Prop :=
  Forall (λ cols, cols ≠ [] ∧ Forall clean cols ∧ Z.of_nat (String.length (row cols)) < 80000) rows
  ∧ 256 + Z.of_nat (String.length (texts (row <$> rows))) ≤ MSGBUS_WORKING_BUF_SIZE
  ∧ Z.of_nat (length rows) < 10 ^ 10.

(** one message on the topic of the template, which reads back as the rows *)
Definition published (tv key group : string) (asn : Z) (rows : list (list string)) s s' : Prop :=
  ∃ payload, sent (kb_world s') = sent (kb_world s) ++ [(topic_for templates s tv group asn, payload, key)]
    ∧ decode_message payload
      = Some (header_lines (kb_collector_hash s) tv (Z.of_nat (String.length (texts (row <$> rows)))) (Z.of_nat (length rows)), rows).

Lemma peer_group_up p s :
  up_bus cfg templates s →
  ∃ s', peer_group_of (hash_toStr (pe_hash_id p)) s = (group_of p s, s') ∧ up_bus cfg templates s'
    ∧ kb_world s' = kb_world s ∧ kb_collector_hash s' = kb_collector_hash s ∧ kb_seq s' = kb_seq s
    ∧ kb_router_group_name s' = kb_router_group_name s.
Proof. intros H. unfold peer_group_of, group_of. destruct (_ !! _); eexists; split_and!; done. Qed.

Lemma produce_rows_up tv c rows p s :
  up_bus cfg templates s → tv ∈ topic_vars → topicEnabled names tv = true → group_name (group_of p s) → 0 ≤ pe_as p →
  rows_fit rows →
  ∃ s', produce_rows cfg attempts tv c (row <$> rows) p s = Ok s' ∧ up_bus cfg templates s'
    ∧ kb_seq s' c = u64 (kb_seq s c + Z.of_nat (length rows))
    ∧ published tv (hash_toStr (pe_hash_id p)) (group_of p s) (pe_as p) rows s s'.
Proof.
  intros Hs Ht He Hg Ha (Hr & Hb & Hn). unfold produce_rows. cbv zeta. rewrite length_fmap.
  rewrite append_rows_fit; [|apply Forall_fmap; apply (Forall_impl _ _ _ Hr); cbn; tauto|unfold MSGBUS_WORKING_BUF_SIZE in *; lia].
  cbn [fst]. rewrite append_nil_l, length_bytes_of_string.
  destruct (peer_group_up p (seq_add c (Z.of_nat (length rows)) s)) as (s1 & -> & Hs1 & Ew & Ec & Eq & Er); [done|].
  cbn beta iota. change (group_of p (seq_add _ _ s)) with (group_of p s).
  destruct (produce_up cfg attempts templates HT tv (texts (row <$> rows)) (Z.of_nat (length rows))
    (hash_toStr (pe_hash_id p)) (group_of p s) (pe_as p) s1) as (s' & E & Hu & Hbk & Hse); [done..|lia|done|].
  exists s'. split_and!; [done..| |].
  - destruct Hbk as (_ & Hq & _). rewrite Hq, Eq. cbn. by rewrite decide_True by done.
  - eexists. split.
    + rewrite Hse, Ew. unfold topic_for. rewrite Er. done.
    + rewrite Ec. unfold header_text. rewrite string_app_assoc. change (kb_collector_hash (seq_add _ _ s)) with (kb_collector_hash s).
      apply decode_encode; [|apply (Forall_impl _ _ _ Hr); tauto]. apply header_clean; [by destruct Hs as (_&_&_&?&_)|done|lia|lia].
Qed.

(** ** Unicast prefixes *)

Definition rib_chunks (p : obj_bgp_peer) (r : obj_rib) : list (list Z) :=
  [bytes_of_string (ri_prefix r); [ri_prefix_len r]; bytes_of_string (hash_toStr (pe_hash_id p))]
  ++ path_id_chunk (ri_path_id r) ++ label_mark (ri_labels r).

(** an update of prefixes as the handlers make it: an announcement with its attributes,
    of which [h] is the hash and [cols] are the columns, or a withdrawal without *)
Inductive unicast_update : Type := Announce (a : obj_path_attr) (h : list Z) (cols : list string) | Withdraw.
Definition update_attr (u : unicast_update) : option obj_path_attr := match u with Announce a _ _ => Some a | Withdraw => None end.
Definition update_code (u : unicast_update) : unicast_prefix_action_code :=
  match u with Announce _ _ _ => UNICAST_PREFIX_ACTION_ADD | Withdraw => UNICAST_PREFIX_ACTION_DEL end.
Definition update_ok (u : unicast_update) : Prop :=
  match u with Announce a h cols => at_hash_id a = Some h ∧ attr_cols a = Ok cols | Withdraw => True end.

(** the columns meant for an announced or a withdrawn prefix *)
Definition unicast_cols (p : obj_bgp_peer) (u : unicast_update) (ts : string) s (r : obj_rib) (seq : Z) : list string :=
  let hash := hash_toStr (Md5.md5_rfc (concat (rib_chunks p r))) in
  let place := [ri_prefix r; dec (ri_prefix_len r); flag (ri_isIPv4 r)] in
  let path := [dec (ri_path_id r); ri_labels r; flag (pe_isPrePolicy p); flag (pe_isAdjIn p)] in
  match u with
  | Announce a h cols => id_cols "add" seq hash (hash_toStr h) p ts s ++ place ++ cols ++ path ++ [at_large_community_list a]
  | Withdraw => id_cols "del" seq hash "" p ts s ++ place ++ replicate 14 "" ++ path ++ [""]
  end.

Lemma attr_cols_length a cols : attr_cols a = Ok cols → length cols = 14%nat.
Proof. unfold attr_cols. intros H. repeat (apply bind_Ok_inv in H as (? & _ & H)). by injection H as <-. Qed.

Definition rib_ok (r : obj_rib) : Prop :=
  clean (ri_prefix r) ∧ clean (ri_labels r) ∧ is_byte (ri_prefix_len r) ∧ (String.length (ri_prefix r) < 46)%nat.

Lemma digest_ok chunks :
  Forall (λ bs, bytes_ok bs ∧ (length bs < 4096)%nat) chunks → Md5.md5_digest chunks = Ok (Md5.md5_rfc (concat chunks)).
Proof. intros H. apply Md5.md5_digest_rfc. apply (Forall_impl _ _ _ H). intros bs [? ?]. split; [done|lia]. Qed.

Definition peer_ok (p : obj_bgp_peer) : Prop :=
  bytes_ok (pe_hash_id p) ∧ clean (pe_addr p) ∧ 0 ≤ pe_as p.

Lemma Ok_inj {A} (a b : A) : Ok a = Ok b → a = b.
Proof. by intros [=]. Qed.

Lemma rib_hash_ok p r : peer_ok p → rib_ok r → rib_hash p r = Ok (Md5.md5_rfc (concat (rib_chunks p r))).
Proof.
  intros (Hp & _) (_ & _ & Hb & Hl). unfold rib_hash. apply digest_ok. pose proof (hash_toStr_length _ Hp).
  assert (∀ t, (String.length t < 46)%nat → bytes_ok (bytes_of_string t) ∧ (length (bytes_of_string t) < 4096)%nat) as Ht
    by (intros t ?; rewrite length_bytes_of_string; split; [apply bytes_of_string_ok|lia]).
  cbn [app]. apply Forall_cons_2; [by apply Ht|]. apply Forall_cons_2; [split; [by apply Forall_singleton|cbn; lia]|].
  apply Forall_cons_2; [apply Ht; lia|].
  unfold path_id_chunk, label_mark. apply Forall_app_2; [destruct (_ <? _)|destruct (is_empty _)]; try apply Forall_nil_2;
    apply Forall_singleton; (split; [|cbn; lia]); [apply le_bytes_ok|by apply Forall_singleton].
Qed.

Lemma unicast_row_ok p u ts s r q :
  peer_ok p → rib_ok r → update_ok u →
  unicast_row p (update_attr u) (update_code u) ts s r q = Ok (row (unicast_cols p u ts s r q)).
Proof.
  intros Hp Hr Hu. unfold unicast_row. rewrite (rib_hash_ok p r Hp Hr), bind_Ok_l. destruct u as [a h cols|]; [|done].
  destruct Hu as [Hh Hc]. cbn [update_attr update_code]. rewrite Hh. cbn [init_read]. by rewrite bind_Ok_l, Hc, bind_Ok_l.
Qed.

Lemma timestamp_up secs us s ts s' :
  up_bus cfg templates s → timestamp secs us s = (ts, s') →
  up_bus cfg templates s' ∧ clean ts ∧ sent (kb_world s') = sent (kb_world s) ∧ same_books s s'.
Proof.
  unfold timestamp, getTimestamp. intros H. pose proof (up_time (kb_world s)) as Ht.
  destruct (secs <=? 1000); [destruct (kw_gettimeofday _) as [[sec u] k]|]; intros [=]; subst;
    (split_and!; [exact H|auto with bmp|done|done]).
Qed.
End published.

(** C2: announced and withdrawn prefixes reach their consumers.  A connected bus and a
    healthy broker, groups without [_] and braces, texts without tabs and newlines, and
    rows that fit the buffers: the update hands over one message, on the topic its
    template gives for the groups of the router and the peer, keyed by the peer.  Its
    header has the length and the number of rows, and a consumer that splits it at
    newlines and tabs gets one row for each prefix, in order, with the 32 columns of the
    prefix, its MD5 hash and consecutive sequence numbers; an announcement has its
    attributes in the columns that a withdrawal leaves empty. *)
Theorem unicast_published {kc : Type} {W : KafkaWorld kc} {U : KafkaUp kc} {regex : Type} (cfg : KafkaConfig regex)
    (attempts : nat) (templates : string → list segment) (p : obj_bgp_peer) (rib : list obj_rib) (u : unicast_update)
    (s s1 : msgBus_kafka kc) (ts : string) :
  templates_of (topic_names_map (kf_groups cfg)) templates → up_bus cfg templates s →
  topicEnabled (topic_names_map (kf_groups cfg)) MSGBUS_TOPIC_VAR_UNICAST_PREFIX = true →
  peer_ok p → group_name (group_of p s) → Forall rib_ok rib → update_ok u →
  0 ≤ kb_seq s unicast_prefix_seq < 2 ^ 64 → timestamp (pe_timestamp_secs p) (pe_timestamp_us p) s = (ts, s1) →
  let rows := imap (λ i r, unicast_cols p u ts s1 r (u64 (kb_seq s unicast_prefix_seq + Z.of_nat i))) rib in
  rows_fit rows →
  ∃ s', k_update_unicastPrefix cfg attempts p rib (update_attr u) (update_code u) s = Ok s'
    ∧ up_bus cfg templates s'
    ∧ kb_seq s' unicast_prefix_seq = u64 (kb_seq s unicast_prefix_seq + Z.of_nat (length rib))
    ∧ Forall (λ cols, length cols = 32%nat) rows
    ∧ published templates MSGBUS_TOPIC_VAR_UNICAST_PREFIX (hash_toStr (pe_hash_id p)) (group_of p s) (pe_as p) rows s s'.
Proof.
  intros HT Hs He Hp Hg Hr Hu Hq Ht rows Hf.
  destruct (timestamp_up _ _ _ _ _ _ _ Hs Ht) as (Hs1 & _ & Esent & (Ec & Eq & El & _ & _ & Eg & _)).
  destruct (produce_rows_up cfg attempts templates HT MSGBUS_TOPIC_VAR_UNICAST_PREFIX unicast_prefix_seq rows p
    (rib_add (Z.of_nat (length rib)) s1)) as (s' & E & Hu' & Hs' & Hpub); [done|unfold topic_vars; set_solver|done| |by apply Hp|done|].
  { unfold group_of in *. cbn. by rewrite El. }
  exists s'. split_and!; [|done| | |].
  - unfold k_update_unicastPrefix. rewrite Ht.
    assert ((match update_attr u with Some a => _ ← init_read (at_hash_id a); Ok tt | None => Ok tt end) = Ok tt) as ->
      by (destruct u as [a h cols|]; [|done]; cbn; by rewrite (proj1 Hu)).
    rewrite bind_Ok_l, Eq. rewrite (batch_rows _ (unicast_cols p u ts s1)), bind_Ok_l; [| |done].
    + fold rows. rewrite E. by destruct u, rib.
    + intros r q Hin. rewrite Forall_forall in Hr. apply unicast_row_ok; auto.
  - rewrite Hs'. cbn. rewrite Eq. subst rows. by rewrite length_imap.
  - subst rows. apply Forall_lookup_2. intros i cols H. rewrite list_lookup_imap in H. destruct (rib !! i) as [r|]; [|done].
    injection H as <-. destruct u as [a h cols|]; [|done]. destruct Hu as [_ Hc]. cbn [unicast_cols].
    rewrite !length_app, (attr_cols_length a cols Hc). done.
  - unfold published, topic_for, group_of in *.
    cbn [kb_collector_hash kb_peer_list kb_router_group_name kb_world rib_add set_counts] in Hpub.
    by rewrite Ec, El, Eg, Esent in Hpub.
Qed.

(** A batch never leaves its buffer.  Whatever the rows and their number, the
    text collected in [prep_buf], with its terminator, stays within the buffer. *)
Theorem prep_buf_bound (buf2_size : Z) (rows : list string) :
  Z.of_nat (String.length (foldl (append_row buf2_size) ("", 0) rows).1) + 1 ≤ MSGBUS_WORKING_BUF_SIZE.
Proof. pose proof (append_rows_bound buf2_size "" 0 rows ltac:(done) ltac:(done)). lia. Qed.

(** The header is not accounted for.  The buffer of the producer has the size
    of [prep_buf], so that rows that fill the latter to within the length of the
    header are copied past its end. *)
Theorem full_batch_overruns {kc : Type} {W : KafkaWorld kc} {regex : Type} (cfg : KafkaConfig regex) (attempts : nat)
    (topic_var body key group : string) (rows asn : Z) (s : msgBus_kafka kc) :
  linked s → topicEnabled (topic_names_map (kf_groups cfg)) topic_var = true →
  String.length (kb_collector_hash s) = 32%nat → topic_var ∈ topic_vars → 0 ≤ rows < 10 ^ 10 →
  MSGBUS_WORKING_BUF_SIZE - 7 - 44 ≤ Z.of_nat (String.length body) < MSGBUS_WORKING_BUF_SIZE →
  produce cfg attempts topic_var (bytes_of_string body ++ [0]) (Z.of_nat (String.length body)) rows key group asn s
  = Undef OobWrite.
Proof.
  intros (Hc & Hsel & Hx) He Hl Ht Hr Hb. unfold produce, MSGBUS_WORKING_BUF_SIZE in *.
  assert (ensure_connected cfg attempts true s = Ok s) as ->
    by (destruct attempts; cbn [ensure_connected]; rewrite Hc; by rewrite bool_decide_true).
  rewrite bind_Ok_l, raised_false, He by done. cbn [negb]. set (header := _ +:+ _).
  assert (header = header_text (header_lines (kb_collector_hash s) topic_var (Z.of_nat (String.length body)) rows)) as Eh.
  { subst header. unfold header_text, header_lines. cbn [fmap list_fmap texts foldr]. by rewrite !string_app_assoc, append_nil_l. }
  pose proof (header_short (kb_collector_hash s) topic_var (Z.of_nat (String.length body)) rows Hl Ht ltac:(lia) Hr) as Hh.
  rewrite <-Eh in Hh. assert (52 ≤ String.length header)%nat as Hm.
  { rewrite Eh. unfold header_text, header_lines. cbn [fmap list_fmap texts foldr]. rewrite !length_append, Hl. cbn. lia. }
  unfold send. cbv zeta. rewrite snprintf_fits by lia. rewrite (memcpy_prefix header), bind_Ok_l.
  rewrite (proj2 (Z.ltb_lt _ _)); [done|]. unfold MSGBUS_WORKING_BUF_SIZE. lia.
Qed.

(** A peer that went down is not announced again.  The call that publishes the
    loss of a peer looks its group up by [peer_list[hash]], which puts the peer
    back into the list it was just taken from: the next first sight of the peer
    is taken for a repetition, and nothing is published. *)
Theorem peer_down_stays_listed {kc : Type} {W : KafkaWorld kc} {regex : Type} (regex_search : string → regex → bool)
    (cfg : KafkaConfig regex) (attempts : nat) (p p' : obj_bgp_peer) (u : option obj_peer_up_event) (d : obj_peer_down_event)
    (s s' : msgBus_kafka kc) :
  k_update_Peer regex_search cfg attempts p u (Some d) PEER_ACTION_DOWN s = Ok (p', s') →
  k_update_Peer regex_search cfg attempts p None None PEER_ACTION_FIRST s' = Ok (p', s').
Proof.
  unfold k_update_Peer. intros H. apply bind_Ok_inv in H as (h & Hh & H). rewrite Hh, bind_Ok_l. cbv zeta in *.
  unfold announce_peer in H. destruct (resolveIp _ _) as [hostname s1]. destruct (timestamp _ _ _) as [ts s2].
  cbn [list_peer] in H. rewrite bind_Ok_l in H.
  destruct (peer_event_cols u (Some d) PEER_ACTION_DOWN) as [ev|] eqn:Eev; [|done]. apply bind_Ok_inv in H as (t & _ & H).
  unfold peer_group_of, erase_peer in H. cbn [kb_peer_list set_peer_list] in H. rewrite lookup_delete_eq in H.
  apply bind_Ok_inv in H as (s3 & H3 & H). injection H as <- <-. unfold produce_text in H3. apply produce_books in H3 as (_ & _ & El & _).
  rewrite (proj1 (count_one_fields _ _)), El. cbn [kb_peer_list set_peer_list]. rewrite lookup_insert_eq.
  by rewrite bool_decide_true by (by eexists).
Qed.

Lemma timestamp_books `{KafkaWorld kc} secs us (s s' : msgBus_kafka kc) ts : timestamp secs us s = (ts, s') → same_books s s'.
Proof. unfold timestamp, getTimestamp. repeat case_match; intros [=]; subst; apply set_link_books. Qed.
Lemma resolve_books `{KafkaWorld kc} name (s s' : msgBus_kafka kc) h : resolveIp name s = (h, s') → same_books s s'.
Proof. unfold resolveIp. case_match; intros [=]; subst; apply set_link_books. Qed.

Lemma publish_router_hash `{W : KafkaWorld kc} {regex} (regex_search : string → regex → bool) (cfg : KafkaConfig regex)
    attempts r r' code (s s' : msgBus_kafka kc) :
  publish_router regex_search cfg attempts r code s = Ok (r', s') → kb_router_hash s' = kb_router_hash s.
Proof.
  unfold publish_router. intros H. apply bind_Ok_inv in H as (descr & _ & H). apply bind_Ok_inv in H as (idata & _ & H).
  apply bind_Ok_inv in H as (tdata & _ & H). destruct (timestamp _ _ s) as [ts s1] eqn:E1. apply timestamp_books in E1.
  apply bind_Ok_inv in H as (name & _ & H).
  destruct (if is_empty name then _ else _) as [r1 s2] eqn:E2. assert (same_books s1 s2) as Hb2.
  { destruct (is_empty name); [|by simplify_eq]. destruct (resolveIp _ s1) as [h s3] eqn:E. apply resolve_books in E. by simplify_eq. }
  apply bind_Ok_inv in H as (name' & _ & H). apply bind_Ok_inv in H as (s3 & H3 & H). cbv zeta in H.
  apply bind_Ok_inv in H as (s4 & H4 & H). injection H as <- <-. apply produce_books in H4 as (_ & _ & _ & _ & Eh & _).
  rewrite (proj1 (proj2 (count_one_fields _ _))), Eh. destruct E1 as (_&_&_&_&<-&_), Hb2 as (_&_&_&_&<-&_).
  destruct (kb_topicSel s2); [apply bind_Ok_inv in H3 as (g & _ & H3)|]; by injection H3 as <-.
Qed.

(** A router is announced once.  After a router with a hash has been published
    as first seen or initiated, further first sights change nothing; after its
    termination the bus is open for the next first sight. *)
Theorem router_first_once {kc : Type} {W : KafkaWorld kc} {regex : Type} (regex_search : string → regex → bool)
    (cfg : KafkaConfig regex) (attempts : nat) (r r' r2 : obj_router) (code : router_action_code) (s s' : msgBus_kafka kc) :
  hash_defined (ro_hash_id r) = true → k_update_Router regex_search cfg attempts r code s = Ok (r', s') →
  match code with
  | ROUTER_ACTION_TERM => hash_defined (kb_router_hash s') = false
  | _ => k_update_Router regex_search cfg attempts r2 ROUTER_ACTION_FIRST s' = Ok (r2, s')
  end.
Proof.
  intros Hd H. unfold k_update_Router in *. destruct code.
  - destruct (hash_defined (kb_router_hash s)) eqn:E; [injection H as <- <-; by rewrite E|].
    apply publish_router_hash in H. rewrite H. cbn [kb_router_hash set_router]. by rewrite Hd.
  - apply publish_router_hash in H. rewrite H. cbn [kb_router_hash set_router]. by rewrite Hd.
  - apply publish_router_hash in H. by rewrite H.
Qed.

(** ** The loop that reconnects *)

Section loop.
Context {kc : Type} {W : KafkaWorld kc} {regex : Type} (cfg : KafkaConfig regex).
Implicit Type s : msgBus_kafka kc.

(** the connection is made [n] times, as long as none of them throws *)
Fixpoint connect_times (n : nat) s : msgBus_kafka kc :=
  match n with O => s | S n => if raised s then s else connect_times n (connect cfg s) end.

Lemma ensure_linked_id n b s : linked s → ensure_connected cfg n b s = Ok s.
Proof.
  intros (Hc & Hs & _). destruct n; cbn [ensure_connected]; rewrite Hc, bool_decide_true by done; by rewrite orb_true_r.
Qed.

Lemma ensure_linked n s s' : ensure_connected cfg n true s = Ok s' → raised s' = false → linked s'.
Proof.
  revert s. induction n as [|n IH]; intros s; cbn [ensure_connected]; destruct (_ || raised s) eqn:E; try done; [| |apply IH].
  all: intros [= <-] Hr; rewrite Hr, orb_false_r in E; apply andb_prop in E as [? E%bool_decide_eq_true];
    split_and!; [done..|]; unfold raised in Hr; destruct (kb_thrown s); [|done]; by rewrite bool_decide_true in Hr.
Qed.

Lemma ensure_defined n b s u : ensure_connected cfg n b s ≠ Undef u.
Proof. revert s. induction n as [|n IH]; intros s; cbn [ensure_connected]; by destruct (_ || _). Qed.

(** the header the source prints is the lines of the header *)
Lemma header_eq hash tv size rows :
  "V: " +:+ MSGBUS_API_VERSION +:+ NL +:+ "C_HASH_ID: " +:+ hash +:+ NL +:+ "T: " +:+ tv +:+ NL
  +:+ "L: " +:+ dec size +:+ NL +:+ "R: " +:+ dec rows +:+ NL +:+ NL = header_text (header_lines hash tv size rows).
Proof. unfold header_text, header_lines. cbn [fmap list_fmap texts foldr]. by rewrite !string_app_assoc, append_nil_l. Qed.
End loop.

(** C34: producing is safe.  Whatever the broker library does, a message that leaves
    256 octets of the buffer for the header is copied within its bounds. *)
Theorem produce_safe {kc : Type} {W : KafkaWorld kc} {regex : Type} (cfg : KafkaConfig regex) (attempts : nat)
    (topic_var body key group : string) (rows asn : Z) (s : msgBus_kafka kc) (u : ub) :
  String.length (kb_collector_hash s) = 32%nat → topic_var ∈ topic_vars → 0 ≤ rows < 10 ^ 10 →
  256 + Z.of_nat (String.length body) ≤ MSGBUS_WORKING_BUF_SIZE →
  produce cfg attempts topic_var (bytes_of_string body ++ [0]) (Z.of_nat (String.length body)) rows key group asn s ≠ Undef u.
Proof.
  intros Hl Ht Hr Hb H. unfold produce in H. destruct (ensure_connected cfg attempts true s) as [s1| |u'|] eqn:E; try done.
  2: { by eapply ensure_defined. }
  rewrite bind_Ok_l in H. destruct (raised s1) eqn:Ex; [done|]. destruct (negb _); [done|].
  apply ensure_linked in E as Hk; [|done]. apply ensure_books in E as (Ec & _).
  rewrite <-Ec in Hl. rewrite header_eq in H.
  pose proof (header_short _ topic_var (Z.of_nat (String.length body)) rows Hl Ht
    ltac:(unfold MSGBUS_WORKING_BUF_SIZE in Hb; lia) Hr) as Hh.
  unfold send in H. cbv zeta in H. rewrite snprintf_fits in H by lia. rewrite (memcpy_prefix (header_text _)), bind_Ok_l in H.
  rewrite (proj2 (Z.ltb_ge _ _)) in H by lia. rewrite (memcpy_prefix body), bind_Ok_l in H.
  destruct Hk as (_ & [sel Hsel] & _). rewrite Hsel in H. cbn [init_read] in H. rewrite bind_Ok_l in H.
  repeat (case_match; try done).
Qed.

(** The loop that reconnects makes progress.  When some number of attempts brings
    the connection back, producing with that many attempts gets past the loop,
    connected and with a topic selector. *)
Theorem reconnect_progress {kc : Type} {W : KafkaWorld kc} {regex : Type} (cfg : KafkaConfig regex) (n : nat)
    (s : msgBus_kafka kc) :
  linked (connect_times cfg n s) → ∃ s', ensure_connected cfg n true s = Ok s' ∧ linked s'.
Proof.
  revert s. induction n as [|n IH]; intros s Hl; cbn [connect_times ensure_connected] in *.
  - destruct Hl as (Hc & Hs & Hx). rewrite Hc, bool_decide_true by done. exists s. by split_and!.
  - destruct (raised s) eqn:Er.
    + destruct Hl as (_ & _ & Hx). unfold raised in Er. rewrite Hx in Er. done.
    + rewrite orb_false_r. destruct (kb_isConnected s && _) eqn:E; [|by apply IH].
      exists s. split; [done|]. apply andb_prop in E as [E1 E2]. apply orb_prop in E2 as [|E2%bool_decide_eq_true]; [done|].
      split_and!; [done..|]. unfold raised in Er. destruct (kb_thrown s); [|done]. by rewrite bool_decide_true in Er.
Qed.

(** The text of an initiation may not fit.  The row of a router is sent with the
    length its full text would have: an information text of 4085 characters or
    more makes the bus read past the array that holds the row. *)
Theorem router_row_overread {kc : Type} {W : KafkaWorld kc} {regex : Type} (regex_search : string → regex → bool)
    (cfg : KafkaConfig regex) (attempts : nat) (r : obj_router) (code : router_action_code) (s : msgBus_kafka kc)
    (descr info term name g : string) :
  linked s → topicEnabled (topic_names_map (kf_groups cfg)) MSGBUS_TOPIC_VAR_ROUTER = true →
  c_text (ro_descr r) = Ok descr → c_text (ro_initiate_data r) = Ok info → c_text (ro_term_data r) = Ok term →
  c_text (ro_name r) = Ok name → name ≠ "" →
  lookupRouterGroup regex_search (kf_groups cfg) name (ro_ip_addr r) = Ok g →
  (4085 ≤ String.length (one_line info))%nat →
  ∃ u, publish_router regex_search cfg attempts r code s = Undef u.
Proof.
  intros (Hc & Hsel & Hx) He Hd Hi Ht Hn Hne Hg Hlen. unfold publish_router. rewrite Hd, Hi, Ht, !bind_Ok_l.
  destruct (timestamp _ _ s) as [ts s1] eqn:E1. rewrite Hn, bind_Ok_l. destruct name as [|c name]; [done|]. cbn [is_empty].
  cbn beta iota. rewrite Hn, bind_Ok_l.
  assert (linked s1) as (Hc1 & [sel1 Hsel1] & Hx1).
  { revert E1. unfold timestamp, getTimestamp. repeat case_match; intros [=]; subst; done. }
  rewrite Hsel1, Hg, !bind_Ok_l. cbv zeta. set (text := row _). unfold produce.
  rewrite ensure_linked_id by (split_and!; [done|by eexists|done]). rewrite bind_Ok_l, raised_false, He by done. cbn [negb].
  assert (4096 < String.length text)%nat as Hl.
  { subst text. unfold row. cbn [join]. rewrite !length_append. cbn [String.length TAB NL]. lia. }
  rewrite header_eq. unfold send. cbv zeta. destruct (memcpy (Z.of_nat (String.length (header_text _))) _) as [h| |u|] eqn:Em; [| |by eexists|]; [|by unfold memcpy in Em; case_match..].
  rewrite bind_Ok_l. destruct (_ <? _); [by eexists|]. unfold memcpy.
  rewrite length_app, length_bytes_of_string. unfold snprintf at 1. rewrite length_str_take. cbn [length].
  rewrite (proj2 (Z.leb_gt _ _)) by lia. by eexists.
Qed.

(** Withdrawn VPN routes need the hash of attributes that were never sent.  The
    VPN updates print the hash of the attribute object for withdrawals too; a
    message that only withdraws leaves it uninitialised. *)
Theorem vpn_withdraw_uninitialised {kc : Type} {W : KafkaWorld kc} {regex : Type} (cfg : KafkaConfig regex) (attempts : nat)
    (p : obj_bgp_peer) (vpns : list obj_vpn) (evpns : list obj_evpn) (s : msgBus_kafka kc) :
  k_update_L3Vpn cfg attempts p vpns uninit_path_attr VPN_ACTION_DEL s = Undef Uninit
  ∧ k_update_eVPN cfg attempts p evpns uninit_path_attr VPN_ACTION_DEL s = Undef Uninit.
Proof. done. Qed.

(** ** Witnesses *)

(** a world whose broker accepts everything and keeps the messages *)
Definition kafka_record : Type := list (string * list Z * string).
#[global] Instance record_client : RdKafka kafka_record := {
  rk_conf_set _ _ k := (true, k);
  rk_producer_create k := (true, k);
  rk_poll _ k := (false, k);
  rk_outq_len _ := 0;
  rk_producer_delete k := k;
  rk_topic_create _ k := (true, k);
  rk_produce t m key k := (true, k ++ [(t, m, key)]) }.
#[global] Instance record_world : KafkaWorld kafka_record := {
  kw_gettimeofday k := ((1700000000, 123), k);
  kw_resolve _ k := (None, k) }.
#[global] Instance record_accepts : RdKafkaAccepts kafka_record.
Proof. split; done. Qed.
#[global] Instance record_up : KafkaUp kafka_record.
Proof. by refine {| sent k := k |}. Defined.

Definition sample_kafka_config : KafkaConfig unit :=
  {| kf_groups := {| topic_names_map := sample_names; match_router_group_by_name := []; match_router_group_by_ip := [];
                     match_peer_group_by_name := []; match_peer_group_by_ip := []; match_peer_group_by_asn := [] |};
     kf_q_buf_max_ms := 1000; kf_compression := "snappy"; kf_brokers := "localhost:9092"; kf_tx_max_bytes := 1000000;
     kf_rx_max_bytes := 100000000; kf_session_timeout := 30000; kf_socket_timeout := 60000; kf_q_buf_max_msgs := 100000;
     kf_q_buf_max_kbytes := 1048576; kf_msg_send_max_retry := 2; kf_retry_backoff_ms := 100 |}.
Definition sample_search (_ : string) (_ : unit) : bool := false.

(** a new bus, connected *)
Definition sample_bus : msgBus_kafka kafka_record :=
  {| kb_collector_hash := hash_toStr (zeros 16); kb_seq := λ _, 0; kb_isConnected := true; kb_producer := true;
     kb_topicSel := Some new_selector; kb_peer_list := ∅; kb_router_ip := ""; kb_router_hash := zeros 16;
     kb_router_group_name := ""; kb_ribSeq := None; kb_thrown := None; kb_world := [] |}.
Example sample_bus_new : new_bus sample_kafka_config (zeros 16) None ([] : kafka_record) = Ok sample_bus.
Proof. reflexivity. Qed.

Lemma sample_templates_ok : templates_of (topic_names_map (kf_groups sample_kafka_config)) sample_templates.
Proof.
  intros tv H. unfold topic_vars in H. rewrite !elem_of_cons, elem_of_nil in H.
  repeat destruct H as [-> | H]; try done; (split; [repeat constructor|reflexivity]).
Qed.
Lemma sample_bus_up : up_bus sample_kafka_config sample_templates sample_bus.
Proof. split_and!; try reflexivity. exists new_selector. split; [done|apply cache_ok_new]. Qed.
Lemma sample_bus_linked : linked sample_bus.
Proof. split_and!; [done|by eexists|done]. Qed.

Definition sample_kafka_attr : obj_path_attr :=
  {| at_hash_id := Some (zeros 16); at_origin := Some "igp"; at_as_path := " 65001 65002"; at_as_path_count := Some 2;
     at_origin_as := Some 65002; at_nexthop_isIPv4 := Some true; at_next_hop := Some "10.0.0.1"; at_aggregator := Some "";
     at_atomic_agg := Some false; at_med := Some 0; at_local_pref := Some 100; at_community_list := "65001:1";
     at_ext_community_list := ""; at_large_community_list := ""; at_cluster_list := ""; at_originator_id := Some "" |}.
Definition sample_rib (prefix : string) (len : Z) : obj_rib :=
  {| ri_path_attr_hash_id := None; ri_peer_hash_id := zeros 16; ri_isIPv4 := true; ri_prefix := prefix; ri_prefix_len := len;
     ri_prefix_bin := None; ri_prefix_bcast_bin := []; ri_path_id := 0; ri_labels := "" |}.
Definition sample_attr_cols : list string :=
  ["igp"; " 65001 65002"; "2"; "65002"; "10.0.0.1"; "0"; "100"; ""; "65001:1"; ""; ""; "0"; "1"; ""].

(** what consumers read *)
Definition received (o : outcome (msgBus_kafka kafka_record)) : list (string * option (list string * list (list string))) :=
  match o with Ok s => map (λ m, (m.1.1, decode_message m.1.2)) (kb_world s) | _ => [] end.

(** the message of two prefixes *)
Example unicast_message :
  received (k_update_unicastPrefix sample_kafka_config 0 zero_peer [sample_rib "192.0.2.0" 24; sample_rib "10.0.0.0" 8]
              (Some sample_kafka_attr) UNICAST_PREFIX_ACTION_ADD sample_bus)
  = [("openbmp.parsed.unicast_prefix.default.default.default",
      Some (["V: 1.7"; "C_HASH_ID: 00000000000000000000000000000000"; "T: unicast_prefix"; "L: 494"; "R: 2"],
        (λ r : string * string * string * string,
           ["add"; r.1.1.1; r.1.1.2; hash_toStr (zeros 16); ""; hash_toStr (zeros 16); hash_toStr (zeros 16); ""; "0";
            "2023-11-14 22:13:20.000123"; r.1.2; r.2; "1"] ++ sample_attr_cols ++ ["0"; ""; "0"; "0"; ""])
        <$> [("0", "0c49b02c0c1bf96dc5495fb1d8068031", "192.0.2.0", "24");
             ("1", "5488b3dc9b1079850606685672b88df7", "10.0.0.0", "8")]))].
Proof. vm_compute. reflexivity. Qed.

(** the digests of the sample prefixes *)
Lemma sample_hash_24 :
  Md5.md5_rfc (concat (rib_chunks zero_peer (sample_rib "192.0.2.0" 24)))
  = [12; 73; 176; 44; 12; 27; 249; 109; 197; 73; 95; 177; 216; 6; 128; 49].
Proof.
  assert (peer_ok zero_peer) as Hp by (split_and!; [repeat constructor; done|done|done]).
  assert (rib_ok (sample_rib "192.0.2.0" 24)) as Hr by (repeat constructor; simpl; lia).
  apply Ok_inj. rewrite <-(rib_hash_ok _ _ Hp Hr). vm_compute. reflexivity.
Qed.
Lemma sample_hash_8 :
  Md5.md5_rfc (concat (rib_chunks zero_peer (sample_rib "10.0.0.0" 8)))
  = [84; 136; 179; 220; 155; 16; 121; 133; 6; 6; 104; 86; 114; 184; 141; 247].
Proof.
  assert (peer_ok zero_peer) as Hp by (split_and!; [repeat constructor; done|done|done]).
  assert (rib_ok (sample_rib "10.0.0.0" 8)) as Hr by (repeat constructor; simpl; lia).
  apply Ok_inj. rewrite <-(rib_hash_ok _ _ Hp Hr). vm_compute. reflexivity.
Qed.

Definition sample_announce : unicast_update := Announce sample_kafka_attr (zeros 16) sample_attr_cols.
Lemma unicast_published_witness :
  let rib := [sample_rib "192.0.2.0" 24; sample_rib "10.0.0.0" 8] in
  let rows u := imap (λ i r, unicast_cols zero_peer u "2023-11-14 22:13:20.000123" sample_bus r (u64 (0 + Z.of_nat i))) rib in
  Forall (λ u, ∃ s', k_update_unicastPrefix sample_kafka_config 0 zero_peer rib (update_attr u) (update_code u) sample_bus = Ok s'
    ∧ up_bus sample_kafka_config sample_templates s' ∧ kb_seq s' unicast_prefix_seq = 2
    ∧ Forall (λ cols, length cols = 32%nat) (rows u)
    ∧ published sample_templates MSGBUS_TOPIC_VAR_UNICAST_PREFIX (hash_toStr (zeros 16)) "" 0 (rows u) sample_bus s')
    [sample_announce; Withdraw].
Proof.
  intros rib rows. apply Forall_forall. intros u Hu. apply (unicast_published sample_kafka_config 0 sample_templates zero_peer
    [sample_rib "192.0.2.0" 24; sample_rib "10.0.0.0" 8] u sample_bus sample_bus "2023-11-14 22:13:20.000123").
  - apply sample_templates_ok.
  - apply sample_bus_up.
  - reflexivity.
  - split_and!; [repeat constructor; done|done|done].
  - reflexivity.
  - repeat constructor; simpl; lia.
  - rewrite !elem_of_cons, elem_of_nil in Hu. destruct Hu as [->|[->|[]]]; [split; reflexivity|exact I].
  - done.
  - vm_compute. reflexivity.
  - change (rows_fit [unicast_cols zero_peer u "2023-11-14 22:13:20.000123" sample_bus (sample_rib "192.0.2.0" 24) 0;
                      unicast_cols zero_peer u "2023-11-14 22:13:20.000123" sample_bus (sample_rib "10.0.0.0" 8) 1]).
    unfold unicast_cols. rewrite sample_hash_24, sample_hash_8.
    rewrite !elem_of_cons, elem_of_nil in Hu. destruct Hu as [->|[->|[]]];
      (split_and!; [apply (bool_decide_unpack _); vm_compute; done|vm_compute; done|vm_compute; done]).
Defined.

Lemma full_batch_overruns_witness :
  produce sample_kafka_config 0 MSGBUS_TOPIC_VAR_L3VPN (bytes_of_string (fill (Z.to_nat 1799990) "x" "") ++ [0])
    (Z.of_nat (String.length (fill (Z.to_nat 1799990) "x" ""))) 20 "" "" 0 sample_bus = Undef OobWrite.
Proof.
  apply (full_batch_overruns sample_kafka_config 0 MSGBUS_TOPIC_VAR_L3VPN (fill (Z.to_nat 1799990) "x" "") "" "" 20 0 sample_bus).
  - apply sample_bus_linked.
  - reflexivity.
  - reflexivity.
  - unfold topic_vars. set_solver.
  - lia.
  - rewrite fill_length. unfold MSGBUS_WORKING_BUF_SIZE. cbn [String.length]. lia.
Defined.

Lemma produce_safe_witness :
  produce sample_kafka_config 0 MSGBUS_TOPIC_VAR_PEER (bytes_of_string "row" ++ [0]) 3 1 "" "" 0 sample_bus ≠ Undef OobWrite.
Proof.
  apply (produce_safe sample_kafka_config 0 MSGBUS_TOPIC_VAR_PEER "row" "" "" 1 0 sample_bus OobWrite).
  - reflexivity.
  - unfold topic_vars. set_solver.
  - lia.
  - done.
Defined.

Lemma reconnect_progress_witness :
  ∃ s'', ensure_connected sample_kafka_config 1 true (set_link false false None [] sample_bus) = Ok s'' ∧ linked s''.
Proof.
  apply (reconnect_progress sample_kafka_config 1 (set_link false false None [] sample_bus)). exact sample_bus_linked.
Defined.

Definition sample_down : obj_peer_down_event :=
  {| de_bmp_reason := 4; de_bgp_err_code := 0; de_bgp_err_subcode := 0; de_error_text := "" |}.
Lemma peer_down_stays_listed_witness :
  ∃ p' s', k_update_Peer sample_search sample_kafka_config 0 zero_peer None (Some sample_down) PEER_ACTION_DOWN sample_bus = Ok (p', s')
    ∧ length (kb_world s') = 1%nat
    ∧ k_update_Peer sample_search sample_kafka_config 0 zero_peer None None PEER_ACTION_FIRST s' = Ok (p', s').
Proof.
  eexists _, _. split; [vm_compute; reflexivity|]. split; [reflexivity|].
  apply (peer_down_stays_listed sample_search sample_kafka_config 0 zero_peer _ None sample_down sample_bus).
  vm_compute. reflexivity.
Defined.

Definition sample_router : obj_router :=
  {| ro_hash_id := 1 :: zeros 15; ro_hash_type := 0; ro_name := bytes_of_string "rtr1" ++ zeros 251; ro_descr := zeros 255;
     ro_ip_addr := "10.0.0.9"; ro_bgp_id := ""; ro_asn := 0; ro_term_reason_code := 0; ro_term_reason_text := "";
     ro_term_data := zeros 4096; ro_initiate_data := replicate 4090 120 ++ zeros 6; ro_timestamp_secs := 0; ro_timestamp_us := 0 |}.
Definition short_router : obj_router := set_ro_name (zeros 255)
  {| ro_hash_id := 1 :: zeros 15; ro_hash_type := 0; ro_name := []; ro_descr := zeros 255;
     ro_ip_addr := "10.0.0.9"; ro_bgp_id := ""; ro_asn := 0; ro_term_reason_code := 0; ro_term_reason_text := "";
     ro_term_data := zeros 4096; ro_initiate_data := zeros 4096; ro_timestamp_secs := 0; ro_timestamp_us := 0 |}.

Lemma router_first_once_witness :
  ∃ r' s', k_update_Router sample_search sample_kafka_config 0 short_router ROUTER_ACTION_INIT sample_bus = Ok (r', s')
    ∧ k_update_Router sample_search sample_kafka_config 0 sample_router ROUTER_ACTION_FIRST s' = Ok (sample_router, s').
Proof.
  eexists _, _. split; [vm_compute; reflexivity|].
  eapply (router_first_once sample_search sample_kafka_config 0 short_router _ sample_router ROUTER_ACTION_INIT sample_bus).
  - reflexivity.
  - vm_compute. reflexivity.
Defined.

Lemma router_row_overread_witness :
  ∃ u, publish_router sample_search sample_kafka_config 0 sample_router ROUTER_ACTION_INIT sample_bus = Undef u.
Proof.
  apply (router_row_overread sample_search sample_kafka_config 0 sample_router ROUTER_ACTION_INIT sample_bus
    "" (text (replicate 4090 120)) "" "rtr1" "").
  - apply sample_bus_linked.
  - reflexivity.
  - vm_compute. reflexivity.
  - vm_compute. reflexivity.
  - vm_compute. reflexivity.
  - vm_compute. reflexivity.
  - done.
  - reflexivity.
  - apply Nat.leb_le. vm_compute. reflexivity.
Defined.
