(* ===== verification/KafkaLs.v ===== *)
(** * Link state on the Kafka bus, and the bus as a whole
      ([kafka/MsgBusImpl_kafka.cpp])

    The rows of nodes, links and prefixes, the instance of the bus interface,
    and what holds of every bus that the interface can reach. *)

From S2P Require Import Prelude Inet MD5 BgpCommon TopicSelector UpdateTypes MPReach MsgBus ParseBGP ParseBMP BMPReader Kafka.

(** ** Texts *)

(** ["%02hhX"] *)
Definition HEXDIGIT (d : Z) : Ascii.ascii :=
  match d with
  | 10 => "A" | 11 => "B" | 12 => "C" | 13 => "D" | 14 => "E" | 15 => "F" | d => hexdigit d
  end%char.
Definition HEX2 (b : Z) : string := String (HEXDIGIT (b / 16)) (String (HEXDIGIT (b mod 16)) "").

(** the identifier of an IS-IS router *)
Definition isis_router (id : list Z) : string :=
  let h i := HEX2 (nth i id 0) in
  h 0%nat +:+ h 1%nat +:+ "." +:+ h 2%nat +:+ h 3%nat +:+ "." +:+ h 4%nat +:+ h 5%nat +:+ "." +:+ h 6%nat +:+ h 7%nat.

(** [strcat] to a text in an array of [size] octets *)
Definition strcat (size : nat) (t u : string) : outcome string :=
  if Nat.ltb (String.length t + String.length u) size then Ok (t +:+ u) else Undef OobWrite.

(** The octets of the area are appended to what the array holds. *)
Fixpoint isis_octets (size : nat) (first : bool) (octets : list Z) (t : string) : outcome string :=
  match octets with
  | [] => Ok t
  | b :: octets =>
      t ← strcat size t (HEX2 b);
      t ← (if first then strcat size t "." else Ok t);
      isis_octets size false octets t
  end.
Definition isis_area (size : nat) (area : list Z) (t : string) : outcome string :=
  let len := nth 8 area 0 in
  if len <=? 9 then isis_octets size true (take (Z.to_nat len) area) t else Ok t.

(** The router and, when the fifth octet is not zero, the designated router. *)
Definition ospf_router (id : list Z) : string :=
  inet_ntop4 id +:+ (if nth 4 id 0 =? 0 then "" else "[" +:+ inet_ntop4 (drop 4 id) +:+ "]").

Definition is_ospf (protocol : string) : bool := String.eqb protocol "OSPFv3" || String.eqb protocol "OSPFv2".
Definition is_isis (protocol : string) : bool := String.eqb protocol "IS-IS_L1" || String.eqb protocol "IS-IS_L2".

Definition ls_action (c : ls_action_code) : string := match c with LS_ACTION_ADD => "add" | LS_ACTION_DEL => "del" end.

(** a text in its cleared array *)
Definition char_array (n : nat) (t : string) : list Z := take n (bytes_of_string t ++ zeros n).

Section ls.
Context {kc : Type} {W : KafkaWorld kc} {regex : Type} (regex_search : string → regex → bool).
Context (cfg : KafkaConfig regex) (attempts : nat).
Abbreviation bus := (msgBus_kafka kc).

(** the columns of the peer and the time *)
Definition ls_id_cols (action : string) (seq : Z) (hash path_hash : string) (p : obj_bgp_peer) (ts : string) (s : bus)
  : list string :=
  [action; dec seq; hash; path_hash; hash_toStr (pe_router_hash_id p); kb_router_ip s; hash_toStr (pe_hash_id p);
   pe_addr p; dec (pe_as p); ts].

(** ** Nodes *)

Definition node_row (p : obj_bgp_peer) (a : obj_path_attr) (code : ls_action_code) (ts path_hash : string)
    (n : obj_ls_node) (igp_router_id ospf_area isis name : string) (s : bus) : outcome string :=
  lp ← init_read (at_local_pref a);
  med ← init_read (at_med a);
  nh ← init_read (at_next_hop a);
  Ok (row (ls_id_cols (ls_action code) (kb_seq s ls_node_seq) (hash_toStr (ln_hash_id n)) path_hash p ts s
     ++ [igp_router_id; inet_ntop (ln_isIPv4 n) (ln_router_id n); hex (ln_id n); hex (ln_bgp_ls_id n); ln_mt_id n;
         ospf_area; isis; ln_protocol n; ln_flags n; at_as_path a; dec lp; dec med; nh; name;
         flag (pe_isPrePolicy p); flag (pe_isAdjIn p); ln_sr_capabilities_tlv n])).

(** One message for all the nodes.  The text of the area is carried from node to
    node; an OSPF node takes the name that the resolver gives for its router. *)
Fixpoint node_rows (p : obj_bgp_peer) (a : obj_path_attr) (code : ls_action_code) (ts path_hash : string)
    (nodes : list obj_ls_node) (isis : string) (acc : string * Z) (s : bus) : outcome (string * Z * bus) :=
  match nodes with
  | [] => Ok (acc, s)
  | n :: nodes =>
      '(text, isis, s) ←
        (if is_ospf (ln_protocol n) then
           let '(hostname, s) := resolveIp (inet_ntop4 (ln_igp_router_id n)) s in
           text ← node_row p a code ts path_hash n (ospf_router (ln_igp_router_id n)) (inet_ntop4 (ln_ospf_area_Id n)) ""
                    (strncpy 255 hostname) s;
           Ok (text, "", s)
         else
           isis ← isis_area 32 (ln_isis_area_id n) isis;
           text ← node_row p a code ts path_hash n (isis_router (ln_igp_router_id n)) "" isis (ln_name n) s;
           Ok (text, isis, s));
      node_rows p a code ts path_hash nodes isis (append_row 8192 acc text) (seq_add ls_node_seq 1 s)
  end.

(** The message has the length of all rows, printed in full or not; the buffer
    was cleared. *)
Definition k_update_LsNode (p : obj_bgp_peer) (a : obj_path_attr) (nodes : list obj_ls_node) (code : ls_action_code) (s : bus)
  : outcome bus :=
  path_hash ← init_read (at_hash_id a);
  let '(ts, s) := timestamp (pe_timestamp_secs p) (pe_timestamp_us p) s in
  '(prep, buf_len, s) ← node_rows p a code ts (hash_toStr path_hash) nodes "" ("", 0) s;
  let p_hash_str := hash_toStr (pe_hash_id p) in
  let '(group, s) := peer_group_of p_hash_str s in
  let text := bytes_of_string prep in
  let rest := zeros (Z.to_nat (Z.min buf_len MSGBUS_WORKING_BUF_SIZE) - length text) in
  produce cfg attempts MSGBUS_TOPIC_VAR_LS_NODE (text ++ rest) buf_len (Z.of_nat (length nodes)) p_hash_str group (pe_as p) s.

(** ** Links *)

Definition link_hash (p : obj_bgp_peer) (l : obj_ls_link) : outcome (list Z) :=
  Md5.md5_digest [lk_intf_addr l; lk_nei_addr l; le_bytes 8 (lk_id l); lk_local_node_hash_id l; lk_remote_node_hash_id l;
                  le_bytes 4 (lk_local_link_id l); le_bytes 4 (lk_remote_link_id l);
                  bytes_of_string (hash_toStr (pe_hash_id p)); le_bytes 4 (lk_mt_id l)].

(** router, remote router and area of a link: local and remote IGP identifiers,
    local and remote router identifiers, OSPF and IS-IS area *)
Definition link_texts (l : obj_ls_link) (isis : string) : outcome (string * string * string * string * string * string) :=
  let router_id := inet_ntop (lk_isIPv4 l) (lk_router_id l) in
  let remote_router_id := inet_ntop (lk_isIPv4 l) (lk_remote_router_id l) in
  if is_ospf (lk_protocol l) then
    Ok (ospf_router (lk_igp_router_id l), ospf_router (lk_remote_igp_router_id l), router_id, remote_router_id,
        inet_ntop4 (lk_ospf_area_Id l), "")
  else if is_isis (lk_protocol l) then
    isis ← isis_area 33 (lk_isis_area_id l) isis;
    Ok (isis_router (lk_igp_router_id l), isis_router (lk_remote_igp_router_id l), router_id, remote_router_id, "", isis)
  else
    Ok ("", "", inet_ntop4 (le_bytes 4 (lk_local_bgp_router_id l)), inet_ntop4 (le_bytes 4 (lk_remote_bgp_router_id l)), "", "").

Definition link_row (p : obj_bgp_peer) (a : obj_path_attr) (code : ls_action_code) (ts path_hash : string) (s : bus)
    (l : obj_ls_link) (seq : Z) (isis : string) : outcome (string * string) :=
  hash ← link_hash p l;
  '(igp, remote_igp, router_id, remote_router_id, ospf_area, isis) ← link_texts l isis;
  lp ← init_read (at_local_pref a);
  med ← init_read (at_med a);
  nh ← init_read (at_next_hop a);
  Ok (row (ls_id_cols (ls_action code) seq (hash_toStr hash) path_hash p ts s
     ++ [igp; router_id; hex (lk_id l); hex (lk_bgp_ls_id l); ospf_area; isis; lk_protocol l; at_as_path a; dec lp; dec med; nh;
         hex (lk_mt_id l); dec (lk_local_link_id l); dec (lk_remote_link_id l); inet_ntop (lk_isIPv4 l) (lk_intf_addr l);
         inet_ntop (lk_isIPv4 l) (lk_nei_addr l); dec (lk_igp_metric l); dec (lk_admin_group l); dec (lk_max_link_bw l);
         dec (lk_max_resv_bw l); lk_unreserved_bw l; dec (lk_te_def_metric l); lk_protection_type l; lk_mpls_proto_mask l;
         lk_srlg l; lk_name l; hash_toStr (lk_remote_node_hash_id l); hash_toStr (lk_local_node_hash_id l); remote_igp;
         remote_router_id; dec (lk_local_node_asn l); dec (lk_remote_node_asn l); lk_peer_node_sid l;
         flag (pe_isPrePolicy p); flag (pe_isAdjIn p); lk_peer_adj_sid l]), isis).

(** ** Prefixes *)

Definition prefix_hash (l : obj_ls_prefix) : outcome (list Z) :=
  Md5.md5_digest [lp_prefix_bin l; [lp_prefix_len l]; le_bytes 8 (lp_id l); lp_local_node_hash_id l;
                  char_array 32 (lp_ospf_route_type l); le_bytes 4 (lp_mt_id l)].

Definition prefix_row (p : obj_bgp_peer) (a : obj_path_attr) (code : ls_action_code) (ts path_hash : string) (s : bus)
    (l : obj_ls_prefix) (seq : Z) (isis : string) : outcome (string * string) :=
  hash ← prefix_hash l;
  '(igp, ospf_area, isis) ←
    (if is_ospf (lp_protocol l) then Ok (ospf_router (lp_igp_router_id l), inet_ntop4 (lp_ospf_area_Id l), "")
     else isis ← isis_area 32 (lp_isis_area_id l) isis; Ok (isis_router (lp_igp_router_id l), "", isis));
  lp ← init_read (at_local_pref a);
  med ← init_read (at_med a);
  nh ← init_read (at_next_hop a);
  Ok (row (ls_id_cols (ls_action code) seq (hash_toStr hash) path_hash p ts s
     ++ [igp; inet_ntop (lp_isIPv4 l) (lp_router_id l); hex (lp_id l); hex (lp_bgp_ls_id l); ospf_area; isis; lp_protocol l;
         at_as_path a; dec lp; dec med; nh; hash_toStr (lp_local_node_hash_id l); hex (lp_mt_id l); lp_ospf_route_type l;
         lp_igp_flags l; dec (lp_route_tag l); hex (lp_ext_route_tag l); inet_ntop (lp_isIPv4 l) (lp_ospf_fwd_addr l);
         dec (lp_metric l); inet_ntop (lp_isIPv4 l) (lp_prefix_bin l); dec (lp_prefix_len l);
         flag (pe_isPrePolicy p); flag (pe_isAdjIn p); lp_sid_tlv l]), isis).

(** ** Batches *)

Section rows.
Context {A : Type} (row_of : A → Z → string → outcome (string * string)).

(** the rows of links and prefixes; the text of the area is carried along *)
Fixpoint ls_rows (entries : list A) (seq : Z) (isis : string) (acc : string * Z) : outcome (string * Z) :=
  match entries with
  | [] => Ok acc
  | e :: entries =>
      '(text, isis) ← row_of e seq isis;
      ls_rows entries (u64 (seq + 1)) isis (append_row 8192 acc text)
  end.
End rows.

Definition produce_ls (topic_var : string) (c : counter) (prep : string) (n : Z) (p : obj_bgp_peer) (s : bus) : outcome bus :=
  let s := seq_add c n s in
  let p_hash_str := hash_toStr (pe_hash_id p) in
  let '(group, s) := peer_group_of p_hash_str s in
  let text := bytes_of_string prep in
  produce cfg attempts topic_var (text ++ [0]) (Z.of_nat (length text)) n p_hash_str group (pe_as p) s.

Definition k_update_LsLink (p : obj_bgp_peer) (a : obj_path_attr) (links : list obj_ls_link) (code : ls_action_code) (s : bus)
  : outcome bus :=
  path_hash ← init_read (at_hash_id a);
  let '(ts, s) := timestamp (pe_timestamp_secs p) (pe_timestamp_us p) s in
  '(prep, _) ← ls_rows (link_row p a code ts (hash_toStr path_hash) s) links (kb_seq s ls_link_seq) "" ("", 0);
  produce_ls MSGBUS_TOPIC_VAR_LS_LINK ls_link_seq prep (Z.of_nat (length links)) p s.

Definition k_update_LsPrefix (p : obj_bgp_peer) (a : obj_path_attr) (prefixes : list obj_ls_prefix) (code : ls_action_code) (s : bus)
  : outcome bus :=
  path_hash ← init_read (at_hash_id a);
  let '(ts, s) := timestamp (pe_timestamp_secs p) (pe_timestamp_us p) s in
  '(prep, _) ← ls_rows (prefix_row p a code ts (hash_toStr path_hash) s) prefixes (kb_seq s ls_prefix_seq) "" ("", 0);
  produce_ls MSGBUS_TOPIC_VAR_LS_PREFIX ls_prefix_seq prep (Z.of_nat (length prefixes)) p s.

(** ** The interface *)

Definition kafka_bus : MsgBus bus := {|
  update_Router := k_update_Router regex_search cfg attempts;
  update_Peer := k_update_Peer regex_search cfg attempts;
  update_baseAttribute := k_update_baseAttribute cfg attempts;
  update_unicastPrefix := k_update_unicastPrefix cfg attempts;
  update_L3Vpn := k_update_L3Vpn cfg attempts;
  update_eVPN := k_update_eVPN cfg attempts;
  update_LsNode := k_update_LsNode;
  update_LsLink := k_update_LsLink;
  update_LsPrefix := k_update_LsPrefix;
  add_StatReport := k_add_StatReport cfg attempts;
  send_bmp_raw := send_raw cfg attempts;
  ribSeq := kb_ribSeq;
  thrown := kb_thrown;
  caught := set_thrown None |}.
End ls.

(** ** Reachable buses *)

(** the shape of a bus: a connected bus has a producer and a topic selector, the
    counters are 64 bits wide, and the hash of the collector is 32 characters *)
Definition bus_wf {kc} (s : msgBus_kafka kc) : Prop :=
  (kb_isConnected s = true → kb_producer s = true ∧ is_Some (kb_topicSel s))
  ∧ (∀ c, 0 ≤ kb_seq s c < 2 ^ 64)
  ∧ String.length (kb_collector_hash s) = 32%nat.

Section wf.
Context {kc : Type} {W : KafkaWorld kc} {regex : Type} (regex_search : string → regex → bool).
Context (cfg : KafkaConfig regex) (attempts : nat).
Implicit Type s : msgBus_kafka kc.

Lemma wf_set_world k s : bus_wf s → bus_wf (set_world k s).
Proof. done. Qed.
Lemma wf_set_router ip h g s : bus_wf s → bus_wf (set_router ip h g s).
Proof. done. Qed.
Lemma wf_set_peer_list l s : bus_wf s → bus_wf (set_peer_list l s).
Proof. done. Qed.
Lemma wf_seq_add c n s : bus_wf s → bus_wf (seq_add c n s).
Proof.
  intros (H1 & H2 & H3). split_and!; [done| |done]. intros c'. cbn. case_decide; [|apply H2].
  unfold u64. apply Z.mod_pos_bound. lia.
Qed.
Lemma wf_rib_add n s : bus_wf s → bus_wf (rib_add n s).
Proof. done. Qed.
Lemma wf_peer_group h s g s' : peer_group_of h s = (g, s') → bus_wf s → bus_wf s'.
Proof. unfold peer_group_of. case_match; intros [=]; subst; done. Qed.
Lemma wf_timestamp a b s ts s' : timestamp a b s = (ts, s') → bus_wf s → bus_wf s'.
Proof. unfold timestamp. case_match. intros [=]; subst; done. Qed.
Lemma wf_resolve n s h s' : resolveIp n s = (h, s') → bus_wf s → bus_wf s'.
Proof. unfold resolveIp. case_match. intros [=]; subst; done. Qed.
Lemma wf_poll ms s : bus_wf s → bus_wf (poll ms s).
Proof.
  intros (H1 & H2 & H3). unfold poll. destruct (rk_poll _ _). split_and!; [|done..]. cbn. intros [H%H1 _]%andb_prop. done.
Qed.
Lemma wf_count_one c s : bus_wf s → bus_wf (count_one c s).
Proof. unfold count_one. destruct (raised s); [done|apply wf_seq_add]. Qed.
Lemma wf_set_thrown e s : bus_wf s → bus_wf (set_thrown e s).
Proof. done. Qed.
Lemma wf_connect s : bus_wf s → bus_wf (connect cfg s).
Proof.
  unfold connect. intros (H1 & H2 & H3). destruct (apply_settings _ _) as [[e|] k]; [done|].
  destruct (rk_producer_create k) as [[|] k1]; [|done]. cbn [negb]. set (s1 := poll 1000 _).
  assert (kb_producer s1 = true) as Hp by (subst s1; unfold poll; by destruct (rk_poll _ _)).
  assert (same_books s s1) as (E1 & E2 & _) by (subst s1; etransitivity; [|apply poll_books]; done).
  assert (∀ c, 0 ≤ kb_seq s1 c < 2 ^ 64) by (intros c; by rewrite E2). rewrite <-E1 in H3.
  destruct (kb_isConnected s1) eqn:Ec; cbn [negb].
  - apply wf_poll. split_and!; [|done..]. intros _. split; [done|by eexists].
  - split_and!; [by rewrite Ec|done..].
Qed.
Lemma wf_ensure n b s s' : ensure_connected cfg n b s = Ok s' → bus_wf s → bus_wf s'.
Proof.
  revert s. induction n as [|n IH]; intros s; cbn [ensure_connected]; destruct (_ || _); intros H Hs; simplify_eq; try done.
  eauto using wf_connect.
Qed.
Lemma wf_send tv h m n key g asn s s' : send cfg tv h m n key g asn s = Ok s' → bus_wf s → bus_wf s'.
Proof.
  unfold send. cbv zeta. intros H Hs. apply bind_Ok_inv in H as (hdr & _ & H). destruct (_ <? _); [done|].
  apply bind_Ok_inv in H as (d & _ & H). apply bind_Ok_inv in H as (sel & _ & H).
  destruct (getTopic _ _ _ _ _ _ _) as [[t sel'] k].
  assert (bus_wf (set_link (kb_isConnected s) (kb_producer s) (Some sel') k s)) as Hs1.
  { destruct Hs as (H1 & H2 & H3). split_and!; [|done..]. intros [? ?]%H1. split; [done|by eexists]. }
  destruct t as [[t|]|e]; [destruct (rk_produce _ _ _ _) as [[|] k']| |]; injection H as <-; [..|done]; auto using wf_poll.
Qed.
Lemma wf_produce tv m n rows key g asn s s' : produce cfg attempts tv m n rows key g asn s = Ok s' → bus_wf s → bus_wf s'.
Proof.
  unfold produce. intros H Hs. apply bind_Ok_inv in H as (s1 & H1 & H). apply wf_ensure in H1; [|done].
  destruct (raised _); [by simplify_eq|]. destruct (negb _); [by simplify_eq|by eapply wf_send].
Qed.
Lemma wf_surface s s' : surface s = Ok s' → bus_wf s → bus_wf s'.
Proof. unfold surface. case_match; [done|]. by intros [= <-]. Qed.
End wf.

(** Runs the steps of an operation that succeeded. *)
Ltac bus_steps := repeat match goal with
  | H : _ ≫= _ = Ok _ |- _ => let E := fresh "E" in apply bind_Ok_inv in H as (? & E & H)
  | H : (let '(_, _) := ?e in _) = _ |- _ => let E := fresh "E" in destruct e eqn:E
  | H : Ok _ = Ok _ |- _ => injection H as H; subst
  | H : (_, _) = (_, _) |- _ => injection H as H; subst
  end.
#[export] Hint Resolve wf_set_world wf_set_router wf_set_peer_list wf_seq_add wf_rib_add wf_peer_group wf_timestamp
  wf_resolve wf_produce wf_count_one wf_set_thrown : bmp.

Section ops.
Context {kc : Type} {W : KafkaWorld kc} {regex : Type} (regex_search : string → regex → bool).
Context (cfg : KafkaConfig regex) (attempts : nat).
Implicit Type s : msgBus_kafka kc.

Lemma wf_publish_router r code s r' s' : publish_router regex_search cfg attempts r code s = Ok (r', s') → bus_wf s → bus_wf s'.
Proof.
  unfold publish_router. cbv zeta. intros H Hs. bus_steps.
  match goal with H : produce _ _ _ _ _ _ _ _ _ ?x = Ok _ |- _ => assert (bus_wf x); [|by eapply wf_count_one, wf_produce] end.
  match goal with H : (match kb_topicSel ?x with _ => _ end) = Ok _ |- _ => assert (bus_wf x); [|destruct (kb_topicSel x); bus_steps; eauto with bmp] end.
  destruct (is_empty _); bus_steps; eauto with bmp.
Qed.

Lemma wf_update_Router r code s r' s' : k_update_Router regex_search cfg attempts r code s = Ok (r', s') → bus_wf s → bus_wf s'.
Proof.
  unfold k_update_Router. intros H Hs. destruct code; [destruct (hash_defined _); [by simplify_eq|]|..];
    eapply wf_publish_router; eauto with bmp.
Qed.

Lemma wf_announce_peer p u d code h s p' s' : announce_peer regex_search cfg attempts p u d code h s = Ok (p', s') → bus_wf s → bus_wf s'.
Proof.
  unfold announce_peer. cbv zeta. intros H Hs. bus_steps. assert (bus_wf x) as Hx.
  { match goal with H : list_peer _ _ _ _ _ _ _ = Ok _ |- _ => revert H end. unfold list_peer. intros H'.
    repeat case_match; bus_steps; eauto with bmp. }
  destruct (peer_event_cols _ _ _); bus_steps; [|done]. unfold produce_text in *.
  eapply wf_count_one, wf_produce; [done|]. eapply wf_peer_group; [done|]. by destruct code.
Qed.

Lemma wf_update_Peer p u d code s p' s' : k_update_Peer regex_search cfg attempts p u d code s = Ok (p', s') → bus_wf s → bus_wf s'.
Proof.
  unfold k_update_Peer. cbv zeta. intros H Hs. apply bind_Ok_inv in H as (h & _ & H).
  destruct code; [destruct (bool_decide _); [by simplify_eq|]|..]; by eapply wf_announce_peer.
Qed.

Lemma wf_produce_rows tv c rows p s s' : produce_rows cfg attempts tv c rows p s = Ok s' → bus_wf s → bus_wf s'.
Proof. unfold produce_rows. cbv zeta. intros. bus_steps. eapply wf_produce; [done|]. eapply wf_peer_group; [done|by apply wf_seq_add]. Qed.

Lemma wf_produce_ls tv c t n p s s' : produce_ls cfg attempts tv c t n p s = Ok s' → bus_wf s → bus_wf s'.
Proof. unfold produce_ls. cbv zeta. intros. bus_steps. eapply wf_produce; [done|]. eapply wf_peer_group; [done|by apply wf_seq_add]. Qed.

Lemma wf_node_rows p a code ts h nodes isis acc s acc' s' :
  node_rows p a code ts h nodes isis acc s = Ok (acc', s') → bus_wf s → bus_wf s'.
Proof.
  revert isis acc s. induction nodes as [|n nodes IH]; intros isis acc s H Hs; cbn [node_rows] in H; [by simplify_eq|].
  apply bind_Ok_inv in H as ([[t i] s1] & E & H). eapply IH; [exact H|]. apply wf_seq_add.
  destruct (is_ospf _); bus_steps; eauto with bmp.
Qed.
#[local] Hint Resolve wf_produce_rows wf_produce_ls wf_node_rows : bmp.

(** every call keeps the shape *)
Lemma wf_bus_op s s' : bus_op (kafka_bus regex_search cfg attempts) s s' → bus_wf s → bus_wf s'.
Proof.
  intros H Hs. destruct H as [? ? ? s s' H|? ? ? ? ? s s' H|? ? ? s s' H|? ? ? ? s s' H|? ? ? ? s s' H|? ? ? ? s s' H|? ? ? ? s s' H
    |? ? ? ? s s' H|? ? ? ? s s' H|? ? s s' H|? ? ? s s' H|s];
    try cbn [kafka_bus update_Router update_Peer update_baseAttribute update_unicastPrefix update_L3Vpn update_eVPN update_LsNode
      update_LsLink update_LsPrefix add_StatReport send_bmp_raw] in H.
  - by eapply wf_update_Router.
  - by eapply wf_update_Peer.
  - unfold k_update_baseAttribute in H. cbv zeta in H. bus_steps. eauto 10 with bmp.
  - unfold k_update_unicastPrefix in H. cbv zeta in H. bus_steps. repeat case_match; bus_steps; eauto 10 with bmp.
  - unfold k_update_L3Vpn in H. bus_steps. eauto 10 with bmp.
  - unfold k_update_eVPN in H. bus_steps. eauto 10 with bmp.
  - unfold k_update_LsNode in H. cbv zeta in H. bus_steps. repeat case_match; bus_steps. eauto 10 with bmp.
  - unfold k_update_LsLink in H. bus_steps. eauto 10 with bmp.
  - unfold k_update_LsPrefix in H. bus_steps. eauto 10 with bmp.
  - unfold k_add_StatReport, produce_text in H. cbv zeta in H. bus_steps. eauto 10 with bmp.
  - unfold send_raw in H. cbv zeta in H. destruct (_ =? _); [by simplify_eq|]. bus_steps.
    match goal with H : ensure_connected _ _ _ _ = _ |- _ => apply wf_ensure in H; [|done] end.
    destruct (raised _); [by simplify_eq|]. repeat case_match; bus_steps; try done. eapply wf_send; [done|by eapply wf_peer_group].
  - done.
Qed.
End ops.

(** ** Columns *)

Definition has_width (n : nat) (t : string) : Prop := ∃ cols, t = row cols ∧ length cols = n.

Lemma has_width_row n cols : length cols = n → has_width n (row cols).
Proof. intros. by exists cols. Qed.

(** Every topic has one format.  Whatever the action, the rows of peers have 31
    columns, those of prefixes 32, of L3VPN routes 34, of EVPN routes 39, of
    nodes 27, of links 46 and of link-state prefixes 34. *)
Theorem row_widths {kc : Type} {W : KafkaWorld kc} (s : msgBus_kafka kc) (p : obj_bgp_peer) (ts h r_hash hostname isis : string)
    (a : obj_path_attr) (oa : option obj_path_attr) (q : Z) (t : string) :
  (∀ u d code ev, peer_event_cols u d code = Some ev → peer_row p code ev h r_hash hostname ts s = Ok t → has_width 31 t)
  ∧ (∀ code r, unicast_row p oa code ts s r q = Ok t → has_width 32 t)
  ∧ (∀ code v, l3vpn_row p a code ts s v q = Ok t → has_width 34 t)
  ∧ (∀ code v, evpn_row p a code ts s v q = Ok t → has_width 39 t)
  ∧ (∀ code n igp area name, node_row p a code ts h n igp area isis name s = Ok t → has_width 27 t)
  ∧ (∀ code l isis', link_row p a code ts h s l q isis = Ok (t, isis') → has_width 46 t)
  ∧ (∀ code l isis', prefix_row p a code ts h s l q isis = Ok (t, isis') → has_width 34 t).
Proof.
  split_and!.
  - intros u d code ev Hev H. unfold peer_row in H. bus_steps. apply has_width_row.
    assert (length ev = 14%nat) as El; [|cbn [length app]; rewrite ?length_app, El; done]. clear -Hev. destruct code, u, d; try discriminate Hev; injection Hev as <-; reflexivity.
  - intros code r H. unfold unicast_row in H. cbv zeta in H. bus_steps. destruct code, oa; bus_steps;
      apply has_width_row; cbn [length app id_cols]; rewrite ?length_app; try erewrite attr_cols_length by done; done.
  - intros code v H. unfold l3vpn_row in H. cbv zeta in H. bus_steps. destruct code; bus_steps;
      apply has_width_row; cbn [length app id_cols]; rewrite ?length_app; try erewrite attr_cols_length by done; done.
  - intros code v H. unfold evpn_row in H. cbv zeta in H. bus_steps. destruct code; bus_steps;
      apply has_width_row; cbn [length app id_cols]; rewrite ?length_app; try erewrite attr_cols_length by done; done.
  - intros code n igp area name H. unfold node_row in H. bus_steps. by apply has_width_row.
  - intros code l isis' H. unfold link_row in H. apply bind_Ok_inv in H as (hash & _ & H).
    apply bind_Ok_inv in H as ([[[[[? ?] ?] ?] ?] ?] & _ & H). bus_steps. by apply has_width_row.
  - intros code l isis' H. unfold prefix_row in H. apply bind_Ok_inv in H as (hash & _ & H).
    apply bind_Ok_inv in H as ([[? ?] ?] & _ & H). bus_steps. by apply has_width_row.
Qed.

(** ** Reachable buses *)

Lemma hash_toStr_32 h : bytes_ok h → length h = 16%nat → String.length (hash_toStr h) = 32%nat.
Proof.
  intros Hb Hl. unfold hash_toStr. rewrite (concat_length_le 2).
  - rewrite length_fmap, length_take. lia.
  - apply Forall_fmap, Forall_take. apply (Forall_impl _ _ _ Hb). apply hex2_length.
Qed.

(** C11: the shape of the bus holds always.  After the constructor and any calls of the
    interface, with any broker, also after calls that threw, a connected bus has a
    producer and a topic selector, the counters have their width, and the loop of the
    raw messages, which only waits for the connection, never goes on with a null
    selector. *)
Theorem kafka_bus_invariant {kc : Type} {W : KafkaWorld kc} {regex : Type} (regex_search : string → regex → bool)
    (cfg : KafkaConfig regex) (attempts : nat) (c_hash_id : list Z) (rib : option Z) (k : kc) (s0 s : msgBus_kafka kc) :
  bytes_ok c_hash_id → length c_hash_id = 16%nat → new_bus cfg c_hash_id rib k = Ok s0 →
  rtc (bus_op (kafka_bus regex_search cfg attempts)) s0 s →
  bus_wf s ∧ ∀ n s', ensure_connected cfg n false s = Ok s' → raised s' = false → is_Some (kb_topicSel s').
Proof.
  intros Hb Hl H0 Hr. assert (bus_wf s) as Hs.
  { assert (bus_wf s0) as Hw; [|clear -Hr Hw; induction Hr; eauto using wf_bus_op].
    unfold new_bus in H0. eapply wf_surface; [exact H0|]. apply wf_connect. split_and!; [done|cbn; lia|by apply hash_toStr_32]. }
  split; [done|]. intros n s' He Hx. pose proof (wf_ensure cfg n false s s' He Hs) as (Hc & _). apply Hc. clear -He Hx.
  revert s He. induction n as [|n IH]; intros s He; cbn [ensure_connected] in He; destruct (_ || raised s) eqn:E; try done;
    [injection He as <-; rewrite Hx, orb_false_r in E; by apply andb_prop in E as [? _]..|]. by eapply IH.
Qed.

(** ** Areas *)

Fixpoint area_text (first : bool) (octets : list Z) : string :=
  match octets with
  | [] => ""
  | b :: octets => HEX2 b +:+ (if first then "." else "") +:+ area_text false octets
  end.

Lemma area_text_length first octets :
  String.length (area_text first octets) = (2 * length octets + (if first && negb (Nat.eqb (length octets) 0) then 1 else 0))%nat.
Proof.
  revert first. induction octets as [|b octets IH]; intros first; [by destruct first|]. cbn [area_text]. rewrite !length_append, IH.
  destruct first; cbn; lia.
Qed.

Lemma isis_octets_spec size first octets t :
  (String.length t < size)%nat →
  isis_octets size first octets t =
    if Nat.ltb (String.length t + String.length (area_text first octets)) size then Ok (t +:+ area_text first octets)
    else Undef OobWrite.
Proof.
  revert first t. induction octets as [|b octets IH]; intros first t Ht; cbn [isis_octets area_text].
  { cbn [String.length]. rewrite Nat.add_0_r, (proj2 (Nat.ltb_lt _ _)) by done. by rewrite string_app_nil_r. }
  change (strcat size t (HEX2 b)) with (if Nat.ltb (String.length t + 2) size then Ok (t +:+ HEX2 b) else Undef OobWrite).
  rewrite !length_append. change (String.length (HEX2 b)) with 2%nat. destruct (Nat.ltb_spec (String.length t + 2) size); [|by rewrite (proj2 (Nat.ltb_ge _ _)) by lia].
  rewrite bind_Ok_l. destruct first.
  - unfold strcat at 1. rewrite length_append. change (String.length (HEX2 b)) with 2%nat. change (String.length ".") with 1%nat.
    destruct (Nat.ltb_spec (String.length t + 2 + 1) size); [|by rewrite (proj2 (Nat.ltb_ge _ _)) by lia].
    rewrite bind_Ok_l, IH by (rewrite !length_append; cbn; lia). rewrite !length_append. cbn [String.length HEX2].
    replace (String.length t + 2 + 1 + String.length (area_text false octets))%nat
      with (String.length t + (2 + (1 + String.length (area_text false octets))))%nat by lia.
    by rewrite !string_app_assoc.
  - rewrite bind_Ok_l, IH by (rewrite !length_append; cbn; lia). rewrite !length_append. cbn [String.length HEX2].
    rewrite Nat.add_assoc, Nat.add_0_l. by rewrite !string_app_assoc, append_nil_l.
Qed.

(** a node of IS-IS with an area of [len] octets *)
Definition isis_node (len : nat) (n : obj_ls_node) : Prop :=
  is_ospf (ln_protocol n) = false ∧ length (ln_isis_area_id n) = 9%nat ∧ nth 8 (ln_isis_area_id n) 0 = Z.of_nat len.

Lemma isis_area_node size len n t :
  isis_node len n → (1 ≤ len ≤ 9)%nat → (String.length t < size)%nat →
  ∃ x, String.length x = (2 * len + 1)%nat ∧
    isis_area size (ln_isis_area_id n) t = if Nat.ltb (String.length t + (2 * len + 1)) size then Ok (t +:+ x) else Undef OobWrite.
Proof.
  intros (_ & Hl & Hn) Hlen Ht. unfold isis_area. rewrite Hn. cbv zeta. rewrite (proj2 (Z.leb_le _ _)) by lia. rewrite Nat2Z.id.
  exists (area_text true (take len (ln_isis_area_id n))).
  assert (String.length (area_text true (take len (ln_isis_area_id n))) = (2 * len + 1)%nat) as El.
  { rewrite area_text_length, length_take, Hl, Nat.min_l by lia. destruct len; [lia|done]. }
  split; [done|]. by rewrite isis_octets_spec, El.
Qed.

Lemma isis_node_rows {kc} {W : KafkaWorld kc} p a code ts h len nodes isis acc (s : msgBus_kafka kc) lp med nh :
  at_local_pref a = Some lp → at_med a = Some med → at_next_hop a = Some nh →
  Forall (isis_node len) nodes → (1 ≤ len ≤ 9)%nat → (String.length isis < 32)%nat →
  (32 ≤ String.length isis + length nodes * (2 * len + 1))%nat →
  node_rows p a code ts h nodes isis acc s = Undef OobWrite.
Proof.
  intros Hlp Hmed Hnh H Hlen. revert isis acc s. induction H as [|n nodes Hn H IH]; intros isis acc s Hi Hb; cbn [length] in Hb; [lia|].
  cbn [node_rows]. pose proof Hn as (-> & _ & _). destruct (isis_area_node 32 len n isis Hn Hlen Hi) as (x & Hx & ->).
  destruct (Nat.ltb_spec (String.length isis + (2 * len + 1)) 32) as [Hlt|]; [|done]. rewrite bind_Ok_l.
  unfold node_row. rewrite Hlp, Hmed, Hnh. cbn [init_read]. rewrite !bind_Ok_l. cbn beta iota. apply IH; rewrite length_append; lia.
Qed.

(** The areas of IS-IS nodes pile up.  The text of the area is appended to the one
    of the node before it and is never cleared: a list of nodes whose areas
    need 32 characters together writes past the array, however small each is. *)
Theorem isis_areas_overrun {kc : Type} {W : KafkaWorld kc} {regex : Type} (cfg : KafkaConfig regex) (attempts : nat)
    (p : obj_bgp_peer) (a : obj_path_attr) (h : list Z) (lp med : Z) (nh : string) (code : ls_action_code) (len : nat)
    (nodes : list obj_ls_node) (s : msgBus_kafka kc) :
  at_hash_id a = Some h → at_local_pref a = Some lp → at_med a = Some med → at_next_hop a = Some nh →
  (1 ≤ len ≤ 9)%nat → Forall (isis_node len) nodes → (32 ≤ length nodes * (2 * len + 1))%nat →
  k_update_LsNode cfg attempts p a nodes code s = Undef OobWrite.
Proof.
  intros Hh Hlp Hmed Hnh Hlen Hn Hb. unfold k_update_LsNode. rewrite Hh. cbn [init_read]. rewrite bind_Ok_l.
  destruct (timestamp _ _ _) as [ts s1]. rewrite (isis_node_rows p a code ts _ len nodes "" ("", 0) s1 lp med nh); [done..|cbn; lia|cbn; lia].
Qed.

(** ** Witnesses *)

Definition sample_node (area : list Z) : obj_ls_node :=
  {| ln_id := 0; ln_isIPv4 := true; ln_asn := 65001; ln_bgp_ls_id := 0; ln_igp_router_id := [1; 0; 0; 0; 0; 1; 0; 0];
     ln_ospf_area_Id := zeros 4; ln_protocol := "IS-IS_L2"; ln_router_id := [10; 0; 0; 1] ++ zeros 12; ln_isis_area_id := area;
     ln_flags := ""; ln_name := "r1"; ln_mt_id := ""; ln_sr_capabilities_tlv := ""; ln_hash_id := zeros 16 |}.

(** the area 49.0001 of the first node is repeated in the row of the second *)
Example isis_areas_pile_up :
  snd <$> received (k_update_LsNode sample_kafka_config 0 zero_peer sample_kafka_attr
    [sample_node [73; 0; 1; 0; 0; 0; 0; 0; 3]; sample_node [73; 0; 1; 0; 0; 0; 0; 0; 3]] LS_ACTION_ADD sample_bus)
  = [Some (header_lines (hash_toStr (zeros 16)) "ls_node" 523 2,
      (λ r : string * string,
         ["add"; r.1; hash_toStr (zeros 16); hash_toStr (zeros 16); hash_toStr (zeros 16); ""; hash_toStr (zeros 16); ""; "0";
          "2023-11-14 22:13:20.000123"; "0100.0000.0001.0000"; "10.0.0.1"; "0"; "0"; ""; ""; r.2; "IS-IS_L2"; "";
          " 65001 65002"; "100"; "0"; "10.0.0.1"; "r1"; "0"; "0"; ""])
      <$> [("0", "49.0001"); ("1", "49.000149.0001")])].
Proof. vm_compute. reflexivity. Qed.

Lemma isis_areas_overrun_witness :
  k_update_LsNode sample_kafka_config 0 zero_peer sample_kafka_attr
    (replicate 5 (sample_node [73; 0; 1; 0; 0; 0; 0; 0; 3])) LS_ACTION_ADD sample_bus = Undef OobWrite.
Proof.
  apply (isis_areas_overrun sample_kafka_config 0 zero_peer sample_kafka_attr (zeros 16) 100 0 "10.0.0.1" LS_ACTION_ADD 3
    (replicate 5 (sample_node [73; 0; 1; 0; 0; 0; 0; 0; 3])) sample_bus).
  - reflexivity.
  - reflexivity.
  - reflexivity.
  - reflexivity.
  - lia.
  - repeat constructor.
  - simpl. lia.
Defined.

Lemma kafka_bus_invariant_witness :
  ∃ s', send_bmp_raw (MsgBus := kafka_bus sample_search sample_kafka_config 0) (zeros 16) zero_peer [3; 0; 0; 0; 6; 4] sample_bus = Ok s'
    ∧ bus_wf s' ∧ ∀ n s'', ensure_connected sample_kafka_config n false s' = Ok s'' → raised s'' = false → is_Some (kb_topicSel s'').
Proof.
  eexists. split; [vm_compute; reflexivity|].
  apply (kafka_bus_invariant sample_search sample_kafka_config 0 (zeros 16) None [] sample_bus).
  - repeat constructor; done.
  - reflexivity.
  - reflexivity.
  - apply rtc_once. eapply (op_raw _ (zeros 16) zero_peer [3; 0; 0; 0; 6; 4]). vm_compute. reflexivity.
Defined.

(** ** From the octets of a router to the rows of the consumers *)

Definition sample_kafka_reader (octets : list Z) : reader (msgBus_kafka kafka_record) :=
  {| router_hash_id := zeros 16; rate := new_rate; peer_info_map := ∅; client := sample_client octets;
     router_baseline_time := ∅; mbus := sample_bus |}.

(** the topics of the messages and the first columns of their rows, with the
    prefixes, for one Route Monitoring message *)
Example route_monitoring_to_kafka :
  match ReadIncomingMsg (MB := kafka_bus sample_search sample_kafka_config 0) (LS := null_link_state) false sample_config
          (1700000000, 0) 0 (sample_kafka_reader (rm_octets plain_session (sample_rm [10; 0; 0; 1]))) with
  | Ok (ReadMore, rd) => map (λ m, (m.1, option_map (λ d, map (λ cols, (nth 0 cols "", nth 10 cols "", nth 11 cols "")) d.2) m.2))
                            (received (Ok (mbus rd)))
  | _ => []
  end
  = [("openbmp.parsed.router", Some [("first", "2023-11-14 22:13:20.000123", "")]);
     ("openbmp.parsed.peer.default.default.default", Some [("first", "0:0", "")]);
     ("openbmp.parsed.base_attribute.default.default.default", Some [("add", " 65001 4200000000 { 64512 64513 }", "4")]);
     ("openbmp.parsed.unicast_prefix.default.default.default", Some [("add", "0.0.0.0", "0"); ("add", "198.51.100.7", "32")]);
     ("openbmp.parsed.unicast_prefix.default.default.default", Some [("del", "10.1.240.0", "20")]);
     ("openbmp.parsed.bmp_raw.default.default.default", None)].
Proof. vm_compute. reflexivity. Qed.

Lemma row_widths_witness :
  ∃ t, unicast_row zero_peer (Some sample_kafka_attr) UNICAST_PREFIX_ACTION_ADD "" sample_bus (sample_rib "10.0.0.0" 8) 7 = Ok t
    ∧ has_width 32 t.
Proof.
  eexists. split; [vm_compute; reflexivity|].
  eapply (proj1 (proj2 (row_widths sample_bus zero_peer "" "" "" "" "" sample_kafka_attr (Some sample_kafka_attr) 7 _))
    UNICAST_PREFIX_ACTION_ADD (sample_rib "10.0.0.0" 8)).
  vm_compute. reflexivity.
Defined.
