(* ===== verification/KafkaEvents.v ===== *)
(** * The callbacks of the broker library ([kafka/KafkaEventCallback.cpp],
    [kafka/KafkaDeliveryReportCallback.cpp])

    Events come while the library is polled.  Each is logged; the loss of all
    brokers also clears the flag of the connection, which the bus shares with the
    callback by a pointer. *)

From S2P Require Import Prelude Inet Logger.

(** [RdKafka::Event]: type, error code, severity, facility and text *)
Record Event : Type := { ev_type : Z; ev_err : Z; ev_severity : Z; ev_fac : string; ev_str : string }.

Definition EVENT_ERROR : Z := 0.
Definition EVENT_STATS : Z := 1.
Definition EVENT_LOG : Z := 2.
Definition EVENT_SEVERITY_ERROR : Z := 3.
Definition EVENT_SEVERITY_WARNING : Z := 4.
Definition EVENT_SEVERITY_NOTICE : Z := 5.
(** [ERR__ALL_BROKERS_DOWN] *)
Definition ALL_BROKERS_DOWN : Z := -187.

Section events.
(** [RdKafka::err2str] *)
Context (err2str : Z → string).

(** severity, message and arguments of a call of the log *)
Abbreviation entry := (string * string * list arg)%type.

(** the severities up to [EVENT_SEVERITY_ERROR] are the four of the first label *)
Definition log_severity (severity : Z) : string :=
  if (0 <=? severity) && (severity <=? EVENT_SEVERITY_ERROR) then "ERROR"
  else if severity =? EVENT_SEVERITY_WARNING then "WARN"
  else if severity =? EVENT_SEVERITY_NOTICE then "NOTICE"
  else "INFO".

Definition event_entries (e : Event) : list entry :=
  if ev_type e =? EVENT_ERROR then
    ("ERROR", "Kafka error: %s", [AStr (err2str (ev_err e))])
    :: (if ev_err e =? ALL_BROKERS_DOWN then [("ERROR", "Kafka all brokers down: %s", [AStr (err2str (ev_err e))])] else [])
  else if ev_type e =? EVENT_STATS then [("INFO", "Kafka stats: %s", [AStr (ev_str e)])]
  else if ev_type e =? EVENT_LOG then
    [(log_severity (ev_severity e), "Kafka LOG-%i-%s: %s", [AInt (ev_severity e); AStr (ev_fac e); AStr (ev_str e)])]
  else [("INFO", "Kafka event type = %d (%s) %s", [AInt (ev_type e); AStr (err2str (ev_err e)); AStr (ev_str e)])].

Fixpoint log_entries (lg : Logger) (now : Z * Z) (func_name : string) (l : list entry) (io : stdio) : outcome stdio :=
  match l with
  | [] => Ok io
  | (sev, msg, args) :: l => io ← Print lg now sev func_name msg args io; log_entries lg now func_name l io
  end.

(** the new value of the flag of the connection, and the log *)
Definition event_cb (lg : Logger) (now : Z * Z) (e : Event) (isConnected : bool) (io : stdio) : outcome (bool * stdio) :=
  io ← log_entries lg now "event_cb" (event_entries e) io;
  Ok (isConnected && negb ((ev_type e =? EVENT_ERROR) && (ev_err e =? ALL_BROKERS_DOWN)), io).

(** nothing is done about the delivery of a message *)
Definition dr_cb (io : stdio) : stdio := io.

(** the events of one poll, with the times they are logged at *)
Fixpoint poll_events (lg : Logger) (evs : list ((Z * Z) * Event)) (isConnected : bool) (io : stdio) : outcome (bool * stdio) :=
  match evs with
  | [] => Ok (isConnected, io)
  | (now, e) :: evs => '(c, io) ← event_cb lg now e isConnected io; poll_events lg evs c io
  end.

(** ** Properties *)

Definition is_down (e : Event) : bool := (ev_type e =? EVENT_ERROR) && (ev_err e =? ALL_BROKERS_DOWN).

Definition entry_op (now : Z * Z) (x : entry) : log_op := OpPrint now x.1.1 "event_cb" x.1.2 x.2.

(** Texts of the library are arguments of the messages, so that they are neither
    read as formats nor cut. *)
Lemma event_entries_ok now e :
  clock_ok now → (String.length (time_str now.1) ≤ 3000)%nat → (String.length (dec now.2) ≤ 6)%nat →
  Forall (λ x, op_ok (entry_op now x)) (event_entries e).
Proof.
  intros Hn Ht Hu. assert (∀ sev msg args, sev ∈ ["ERROR"; "WARN"; "NOTICE"; "INFO"] → (String.length msg ≤ 40)%nat →
    is_Some (match printf msg args with Ok t => Some t | _ => None end) → op_ok (entry_op now (sev, msg, args))) as H.
  { intros sev msg args Hs Hm Hf. assert (plain sev ∧ (String.length sev ≤ 8)%nat) as [Hp Hl].
    { repeat (apply elem_of_cons in Hs as [->|Hs]; [split; [reflexivity|cbn; lia]|]). by apply elem_of_nil in Hs. }
    cbn [entry_op op_ok fst snd]. unfold message_ok, names_ok. split_and!; try done. unfold columns.
    rewrite !length_append, !length_pad_right, length_setw. cbn [widest width_function String.length]. lia. }
  unfold event_entries, log_severity.
  repeat match goal with |- context [if ?b then _ else _] => destruct b end;
    rewrite ?Forall_cons, ?Forall_nil; split_and!; try done;
    (apply H; [by repeat constructor|cbn; lia|cbn; by eexists]).
Qed.

Definition event_ops (ne : (Z * Z) * Event) : list log_op := entry_op ne.1 <$> event_entries ne.2.
(** a clock with a date of a sensible length *)
Definition event_time_ok (ne : (Z * Z) * Event) : Prop :=
  clock_ok ne.1 ∧ (String.length (time_str ne.1.1) ≤ 3000)%nat ∧ (String.length (dec ne.1.2) ≤ 6)%nat.

Lemma log_entries_ops lg now l io :
  log_entries lg now "event_cb" l io = '(_, io') ← run_ops (entry_op now <$> l) lg io; Ok io'.
Proof.
  revert io. induction l as [|[[sev msg] args] l IH]; intros io; [done|].
  cbn [log_entries fmap list_fmap run_ops entry_op run_op next_logger fst snd].
  destruct (Print lg now sev "event_cb" msg args io) as [io1| | |]; [|done..]. rewrite !bind_Ok_l. apply IH.
Qed.

(** Whatever the broker library reports, and whatever its texts contain, polling is
    defined: the connection is lost exactly when one of the events says that all
    brokers are down, and the log grows by one line for each event, and by one more
    for each loss of the brokers. *)
Theorem events_logged (lg : Logger) (base : gmap Z stream) (evs : list ((Z * Z) * Event)) (isConnected : bool) (io : stdio) :
  widths_ok lg → streams_ok lg base io → Forall event_time_ok evs →
  ∃ io', poll_events lg evs isConnected io = Ok (isConnected && negb (existsb (λ ne, is_down ne.2) evs), io')
    ∧ streams_ok lg base io'
    ∧ read_back (logFile lg) io' = read_back (logFile lg) io +:+ lines_for (shared lg) false (lines_of (evs ≫= event_ops) lg)
    ∧ length (lines_of (evs ≫= event_ops) lg) = (length evs + length (filter (λ ne, is_down ne.2 = true) evs))%nat.
Proof.
  intros Hw Hs Hev. revert isConnected io Hs. induction Hev as [|[now e] evs (Hn & Ht & Hu) _ IH]; intros c io Hs.
  { exists io. cbn. rewrite andb_true_r, string_app_nil_r. done. }
  cbn [fst snd] in Hn, Ht, Hu. cbn [poll_events]. unfold event_cb. rewrite log_entries_ops.
  assert (Forall op_ok (event_ops (now, e))) as Hops by (apply Forall_fmap; by apply event_entries_ok).
  assert (next_all : ∀ l, Forall (λ op, ∃ n s f m a, op = OpPrint n s f m a) l → ∀ lg l',
    lines_of (l ++ l') lg = lines_of l lg ++ lines_of l' lg).
  { induction 1 as [|op l (n & s & f & m & a & ->) _ IHl]; intros g l'; [done|]. cbn [app lines_of next_logger]. by rewrite IHl, app_assoc. }
  destruct (run_ops_lines (event_ops (now, e)) lg base io Hw Hops Hs) as (lg' & io1 & E & _ & Hs1 & _ & R1 & _).
  assert (lg' = lg) as ->.
  { clear -E. unfold event_ops in E. cbn [fst snd] in E. revert io E. induction (event_entries e) as [|x l IHl]; intros io E; [by injection E|].
    cbn [fmap list_fmap run_ops] in E. apply bind_Ok_inv in E as (io' & _ & E). by apply IHl in E. }
  unfold event_ops in E. cbn [fst snd] in E. rewrite E, !bind_Ok_l. cbn beta iota. fold (is_down e).
  destruct (IH (c && negb (is_down e)) io1 Hs1) as (io' & E' & Hs' & R' & L'). rewrite E'. exists io'.
  change (((now, e) :: evs) ≫= event_ops) with (event_ops (now, e) ++ (evs ≫= event_ops)).
  rewrite next_all by (apply Forall_fmap, Forall_true; intros x; by eexists _, _, _, _, _).
  rewrite lines_for_app, length_app, R', R1, string_app_assoc. split_and!; try done.
  - cbn [existsb snd]. by rewrite negb_orb, andb_assoc.
  - rewrite L', length_filter_cons. cbn [length snd].
    assert (length (lines_of (event_ops (now, e)) lg) = S (if decide (is_down e = true) then 1 else 0)) as ->; [|lia].
    clear. unfold event_ops, event_entries, is_down. cbn [fst snd].
    repeat match goal with |- context [Z.eqb ?a ?b] => destruct (Z.eqb a b) end; reflexivity.
Qed.
End events.

Lemma events_logged_witness :
  let e := {| ev_type := EVENT_ERROR; ev_err := ALL_BROKERS_DOWN; ev_severity := 0; ev_fac := ""; ev_str := "" |} in
  ∃ io', poll_events (λ _, "Local: 100% of the brokers are down") widest [((1700000000, 5), e)] true
           {| io_files := ∅; io_console := ""; io_streams := {[ 1 := {| st_file := None; st_append := true; st_pos := 0 |} ]} |}
         = Ok (false, io')
    ∧ length (lines_of ([((1700000000, 5), e)] ≫= event_ops (λ _, "Local: 100% of the brokers are down")) widest) = 2%nat.
Proof.
  intros e. destruct (events_logged (λ _, "Local: 100% of the brokers are down") widest
    {[ 1 := {| st_file := None; st_append := true; st_pos := 0 |} ]} [((1700000000, 5), e)] true
    {| io_files := ∅; io_console := ""; io_streams := {[ 1 := {| st_file := None; st_append := true; st_pos := 0 |} ]} |})
    as (io' & E & _ & _ & L).
  - split; split; cbn; lia.
  - split; try reflexivity; try exact I; try (left; reflexivity); try (right; reflexivity); discriminate.
  - apply Forall_singleton. split_and!; [split; cbn; lia|vm_compute; lia..].
  - exists io'. split; [exact E|exact L].
Defined.
