(* ===== verification/ClientThread.v ===== *)
(** * The buffer of a router connection ([client_thread.cpp])

    The thread of a connection moves the octets of the socket through a circular
    buffer into the pipe that the BMP reader reads.  The operating system is the
    sequence of the answers of [poll], [read] and [write]. *)

From S2P Require Import Prelude.

Definition CLIENT_WRITE_BUFFER_BLOCK_SIZE : Z := 8192.

(** ** State *)

(** The local variables of the loop; [sock_buf_read_ptr] and
    [sock_buf_write_ptr] always are [sock_buf] plus the positions.  [incoming] is
    what the socket will still deliver, [pipe] what was written to the reader. *)
Record ring : Type := {
  sock_buf : list Z; write_buf_pos : Z; read_buf_pos : Z; wrap_state : bool;
  incoming : list Z; pipe : list Z }.

Definition new_ring (buf : list Z) (octets : list Z) : ring :=
  {| sock_buf := buf; write_buf_pos := 0; read_buf_pos := 0; wrap_state := false; incoming := octets; pipe := [] |}.

(** an answer of [poll]: nothing, a hangup or an error, or ready, with the number
    of octets the call that follows can transfer *)
Inductive polled : Set := Idle | Hup | Ready (n : Z).

Section loop.
Context (bmp_buffer_size : Z).

(** [read(c_sock, sock_buf_write_ptr, count)]; a result of zero ends the loop *)
Definition read_sock (count n : Z) (s : ring) : outcome (bool * ring) :=
  let data := take (Z.to_nat (Z.min n count)) (incoming s) in
  let bytes_read := Z.of_nat (length data) in
  if bytes_read <=? 0 then Ok (false, s)
  else if bmp_buffer_size <? write_buf_pos s + bytes_read then Undef OobWrite
  else
    let pos := Z.to_nat (write_buf_pos s) in
    Ok (true, {| sock_buf := take pos (sock_buf s) ++ data ++ drop (pos + length data) (sock_buf s);
                 write_buf_pos := write_buf_pos s + bytes_read; read_buf_pos := read_buf_pos s;
                 wrap_state := wrap_state s; incoming := drop (length data) (incoming s); pipe := pipe s |}).

(** the first half of an iteration; the result is [bmp_run] *)
Definition fill_buffer (e : polled) (s : ring) : outcome (bool * ring) :=
  let w := write_buf_pos s in
  let r := read_buf_pos s in
  if (wrap_state s && (w + 1 <? r)) || (negb (wrap_state s) && (w <? bmp_buffer_size)) then
    match e with
    | Idle => Ok (true, s)
    | Hup => Ok (false, s)
    | Ready n => read_sock (if wrap_state s then r - w - 1 else bmp_buffer_size - w) n s
    end
  else if bmp_buffer_size <=? w then
    Ok (true, {| sock_buf := sock_buf s; write_buf_pos := 0; read_buf_pos := r; wrap_state := true;
                 incoming := incoming s; pipe := pipe s |})
  else Ok (true, s).

(** [write(bmp_write_end_sock, sock_buf_read_ptr, count)] of at most a block *)
Definition write_pipe (avail n : Z) (s : ring) : outcome ring :=
  let count := if CLIENT_WRITE_BUFFER_BLOCK_SIZE <? avail then CLIENT_WRITE_BUFFER_BLOCK_SIZE else avail in
  let bytes := Z.min n count in
  if bytes <=? 0 then Ok s
  else
    data ← memcpy bytes (adv (read_buf_pos s) (sock_buf s));
    Ok {| sock_buf := sock_buf s; write_buf_pos := write_buf_pos s; read_buf_pos := read_buf_pos s + bytes;
          wrap_state := wrap_state s; incoming := incoming s; pipe := pipe s ++ data |}.

(** the second half *)
Definition drain_buffer (e : polled) (s : ring) : outcome (bool * ring) :=
  let w := write_buf_pos s in
  let r := read_buf_pos s in
  if (negb (wrap_state s) && (r <? w)) || (wrap_state s && (r <? bmp_buffer_size)) then
    match e with
    | Idle => Ok (true, s)
    | Hup => Ok (false, s)
    | Ready n => s ← write_pipe (if wrap_state s then bmp_buffer_size - r else w - r) n s; Ok (true, s)
    end
  else if bmp_buffer_size <=? r then
    Ok (true, {| sock_buf := sock_buf s; write_buf_pos := w; read_buf_pos := 0; wrap_state := false;
                 incoming := incoming s; pipe := pipe s |})
  else Ok (true, s).

Definition iteration (e1 e2 : polled) (s : ring) : outcome (bool * ring) :=
  '(run, s) ← fill_buffer e1 s;
  if (run : bool) then drain_buffer e2 s else Ok (false, s).

(** [while (bmp_run)], for a sequence of answers *)
Fixpoint buffer_loop (events : list (polled * polled)) (s : ring) : outcome (bool * ring) :=
  match events with
  | [] => Ok (true, s)
  | (e1, e2) :: events =>
      '(run, s) ← iteration e1 e2 s;
      if (run : bool) then buffer_loop events s else Ok (false, s)
  end.

(** ** The queue that the buffer implements *)

(** the octets from position [i] to position [j] *)
Definition slice (i j : Z) (l : list Z) : list Z := take (Z.to_nat (j - i)) (drop (Z.to_nat i) l).

Definition pending (s : ring) : list Z :=
  if wrap_state s
  then slice (read_buf_pos s) bmp_buffer_size (sock_buf s) ++ slice 0 (write_buf_pos s) (sock_buf s)
  else slice (read_buf_pos s) (write_buf_pos s) (sock_buf s).

Definition ring_ok (s : ring) : Prop :=
  Z.of_nat (length (sock_buf s)) = bmp_buffer_size ∧ 0 ≤ read_buf_pos s ≤ bmp_buffer_size
  ∧ (if wrap_state s then 0 ≤ write_buf_pos s ∧ (write_buf_pos s = 0 ∨ write_buf_pos s < read_buf_pos s)
     else read_buf_pos s ≤ write_buf_pos s ≤ bmp_buffer_size).

Lemma slice_split i j k l : 0 ≤ i ≤ j → j ≤ k → slice i k l = slice i j l ++ slice j k l.
Proof.
  intros H1 H2. unfold slice. rewrite <-(take_drop (Z.to_nat (j - i)) (take (Z.to_nat (k - i)) _)).
  rewrite take_take, Nat.min_l by lia. f_equal. rewrite skipn_firstn_comm, drop_drop. f_equal; [lia|]. f_equal. lia.
Qed.
Lemma length_slice i j l : 0 ≤ i ≤ j → j ≤ Z.of_nat (length l) → Z.of_nat (length (slice i j l)) = j - i.
Proof. intros. unfold slice. rewrite length_take, length_drop. lia. Qed.

(** octets written at position [i] *)
Definition put (i : Z) (data l : list Z) : list Z :=
  take (Z.to_nat i) l ++ data ++ drop (Z.to_nat i + length data) l.
Lemma length_put i data l :
  0 ≤ i → i + Z.of_nat (length data) ≤ Z.of_nat (length l) → length (put i data l) = length l.
Proof. intros. unfold put. rewrite !length_app, length_take, length_drop. lia. Qed.
Lemma slice_put_at i data l :
  0 ≤ i → i + Z.of_nat (length data) ≤ Z.of_nat (length l) → slice i (i + Z.of_nat (length data)) (put i data l) = data.
Proof.
  intros. unfold slice, put. rewrite drop_app_ge by (rewrite length_take; lia). rewrite length_take, Nat.min_l by lia.
  rewrite Nat.sub_diag, drop_0. replace (Z.to_nat _) with (length data) by lia. by rewrite take_app_length.
Qed.
Lemma slice_put_before i j k data l :
  0 ≤ j ≤ k → k ≤ i → i ≤ Z.of_nat (length l) → slice j k (put i data l) = slice j k l.
Proof.
  intros. unfold slice, put. rewrite drop_app_le by (rewrite length_take; lia).
  rewrite take_app_le by (rewrite length_drop, length_take; lia).
  rewrite skipn_firstn_comm, take_take. f_equal. lia.
Qed.
Lemma slice_put_after i j k data l :
  0 ≤ i → i + Z.of_nat (length data) ≤ j → i ≤ Z.of_nat (length l) → slice j k (put i data l) = slice j k l.
Proof.
  intros. unfold slice, put. rewrite drop_app_ge by (rewrite length_take; lia).
  rewrite length_take, Nat.min_l by lia. rewrite drop_app_ge by lia. rewrite drop_drop. do 2 f_equal. lia.
Qed.
(** between the halves, the write position has left the end of the buffer *)
Definition ring_mid (s : ring) : Prop := ring_ok s ∧ (wrap_state s = false → read_buf_pos s < bmp_buffer_size).

Context (Hsize : 0 < bmp_buffer_size).

Lemma take_take_length (n : nat) (l : list Z) : take (length (take n l)) l = take n l.
Proof. by rewrite length_take, <-take_take, firstn_all. Qed.

Lemma pending_put s data rest :
  ring_ok s → data ≠ [] →
  Z.of_nat (length data) ≤ (if wrap_state s then read_buf_pos s - write_buf_pos s - 1 else bmp_buffer_size - write_buf_pos s) →
  let s' := {| sock_buf := put (write_buf_pos s) data (sock_buf s);
               write_buf_pos := write_buf_pos s + Z.of_nat (length data); read_buf_pos := read_buf_pos s;
               wrap_state := wrap_state s; incoming := rest; pipe := pipe s |} in
  ring_mid s' ∧ pending s' = pending s ++ data.
Proof.
  intros (Hl & Hr & Hw) Hd Hn s'. subst s'. unfold ring_mid, ring_ok, pending. cbn [sock_buf write_buf_pos read_buf_pos wrap_state].
  assert (0 < Z.of_nat (length data)) by (destruct data; [done|cbn; lia]). set (w := write_buf_pos s) in *. set (r := read_buf_pos s) in *.
  destruct (wrap_state s).
  - rewrite length_put by lia. split; [split; [split_and!; lia|done]|].
    rewrite slice_put_after by lia. rewrite (slice_split 0 w) by lia.
    rewrite slice_put_before by lia. rewrite slice_put_at by lia. by rewrite app_assoc.
  - rewrite length_put by lia. split; [split; [split_and!; lia|lia]|].
    rewrite (slice_split r w) by lia. rewrite slice_put_before by lia. by rewrite slice_put_at by lia.
Qed.

Lemma read_sock_spec n s :
  ring_mid s →
  ∃ run s' data, read_sock (if wrap_state s then read_buf_pos s - write_buf_pos s - 1 else bmp_buffer_size - write_buf_pos s) n s
      = Ok (run, s')
    ∧ ring_mid s' ∧ pending s' = pending s ++ data ∧ incoming s = data ++ incoming s' ∧ pipe s' = pipe s.
Proof.
  intros Hs. pose proof Hs as [(Hl & Hr & Hw) Hm]. unfold read_sock. cbv zeta. set (count := if wrap_state s then _ else _).
  set (data := take _ (incoming s)).
  assert (incoming s = data ++ drop (length data) (incoming s)) as Ei.
  { rewrite <-(take_drop (length data) (incoming s)) at 1. subst data. by rewrite take_take_length. }
  destruct (Z.leb_spec (Z.of_nat (length data)) 0).
  { exists false, s, []. rewrite app_nil_r. by split_and!. }
  assert (Z.of_nat (length data) ≤ count) as Hd by (subst data; rewrite length_take in *; lia).
  rewrite (proj2 (Z.ltb_ge _ _)) by (subst count; destruct (wrap_state s); lia).
  destruct (pending_put s data (drop (length data) (incoming s))) as [Hok Hp]; [by apply Hs|by intros E; rewrite E in *|done|].
  eexists true, _, data. split; [done|]. by split_and!.
Qed.

Lemma fill_spec e s :
  ring_ok s →
  ∃ run s' data, fill_buffer e s = Ok (run, s') ∧ ring_mid s' ∧ pending s' = pending s ++ data
    ∧ incoming s = data ++ incoming s' ∧ pipe s' = pipe s.
Proof.
  intros Hs. pose proof Hs as (Hl & Hr & Hw). unfold fill_buffer. cbv zeta.
  destruct ((wrap_state s && (write_buf_pos s + 1 <? read_buf_pos s)) || (negb (wrap_state s) && (write_buf_pos s <? bmp_buffer_size))) eqn:E.
  - assert (ring_mid s) as Hm by (split; [done|]; intros Ew; rewrite Ew in *; cbn in E; apply Z.ltb_lt in E; lia).
    destruct e as [| |n]; [exists true, s, []|exists false, s, []|by apply read_sock_spec]; rewrite app_nil_r; by split_and!.
  - destruct (Z.leb_spec bmp_buffer_size (write_buf_pos s)) as [Hge|Hlt].
    + destruct (wrap_state s) eqn:Ew; [lia|]. assert (write_buf_pos s = bmp_buffer_size) as Ewp by lia.
      eexists true, _, []. split; [done|]. unfold ring_mid, ring_ok, pending. cbn [sock_buf write_buf_pos read_buf_pos wrap_state incoming pipe].
      rewrite Ew, Ewp. unfold slice at 2. rewrite take_0, !app_nil_r. split_and!; try done; lia.
    + exists true, s, []. rewrite app_nil_r. split_and!; try done.
      split; [done|]. intros Ew. rewrite Ew in *. cbn in E. apply Z.ltb_ge in E. lia.
Qed.

Lemma drain_spec e s :
  ring_mid s →
  ∃ run s' data, drain_buffer e s = Ok (run, s') ∧ ring_ok s' ∧ pending s = data ++ pending s'
    ∧ pipe s' = pipe s ++ data ∧ incoming s' = incoming s.
Proof.
  intros [Hs Hm]. pose proof Hs as (Hl & Hr & Hw). unfold drain_buffer. cbv zeta.
  destruct ((negb (wrap_state s) && (read_buf_pos s <? write_buf_pos s)) || (wrap_state s && (read_buf_pos s <? bmp_buffer_size))) eqn:E.
  - destruct e as [| |n]; [exists true, s, []|exists false, s, []|]; [by rewrite app_nil_r; split_and!..|].
    unfold write_pipe. set (avail := if wrap_state s then _ else _). cbv zeta.
    set (bytes := Z.min n _). destruct (Z.leb_spec bytes 0).
    { exists true, s, []. rewrite app_nil_r. by split_and!. }
    assert (0 < bytes ≤ avail) as Hb
      by (subst bytes; destruct (Z.ltb_spec CLIENT_WRITE_BUFFER_BLOCK_SIZE avail); unfold CLIENT_WRITE_BUFFER_BLOCK_SIZE in *; lia).
    clearbody bytes. unfold memcpy, adv. rewrite length_drop.
    assert (read_buf_pos s + avail ≤ bmp_buffer_size) by (subst avail; destruct (wrap_state s); lia).
    rewrite (proj2 (Z.leb_le _ _)) by lia. rewrite !bind_Ok_l. eexists true, _, _. split; [done|].
    unfold ring_ok, pending. cbn [sock_buf write_buf_pos read_buf_pos wrap_state incoming pipe].
    assert (take (Z.to_nat bytes) (drop (Z.to_nat (read_buf_pos s)) (sock_buf s))
            = slice (read_buf_pos s) (read_buf_pos s + bytes) (sock_buf s)) as -> by (unfold slice; f_equal; lia).
    subst avail. destruct (wrap_state s).
    + split_and!; try done; try lia. rewrite app_assoc, <-slice_split by lia. done.
    + split_and!; try done; try lia. by rewrite <-slice_split by lia.
  - destruct (Z.leb_spec bmp_buffer_size (read_buf_pos s)) as [Hge|Hlt].
    + destruct (wrap_state s) eqn:Ew; [|specialize (Hm eq_refl); lia]. assert (read_buf_pos s = bmp_buffer_size) as Er by lia.
      eexists true, _, []. split; [done|]. unfold ring_ok, pending. cbn [sock_buf write_buf_pos read_buf_pos wrap_state incoming pipe].
      rewrite Ew, Er. unfold slice at 1. rewrite Z.sub_diag. cbn [Z.to_nat take app]. rewrite app_nil_r. split_and!; try done; lia.
    + exists true, s, []. rewrite app_nil_r. by split_and!.
Qed.

Lemma iteration_spec e1 e2 s :
  ring_ok s →
  ∃ run s' got sent, iteration e1 e2 s = Ok (run, s') ∧ ring_ok s' ∧ pending s ++ got = sent ++ pending s'
    ∧ incoming s = got ++ incoming s' ∧ pipe s' = pipe s ++ sent.
Proof.
  intros Hs. unfold iteration. destruct (fill_spec e1 s Hs) as (run & s1 & got & -> & Hm & Hp & Hi & Hpi). rewrite bind_Ok_l. cbn beta iota.
  destruct run; [|exists false, s1, got, []; rewrite app_nil_r, Hp; destruct Hm; by split_and!].
  destruct (drain_spec e2 s1 Hm) as (run & s2 & sent & -> & Hok & Hp2 & Hpi2 & Hi2).
  exists run, s2, got, sent. rewrite <-Hp, Hp2, Hi, Hi2, Hpi2, Hpi. by split_and!.
Qed.

Lemma buffer_loop_spec events s :
  ring_ok s →
  ∃ run s', buffer_loop events s = Ok (run, s') ∧ ring_ok s'
    ∧ pipe s' ++ pending s' ++ incoming s' = pipe s ++ pending s ++ incoming s.
Proof.
  revert s. induction events as [|[e1 e2] events IH]; intros s Hs; cbn [buffer_loop]; [eauto|].
  destruct (iteration_spec e1 e2 s Hs) as (run & s1 & got & sent & -> & Hok & Hp & Hi & Hpi). rewrite bind_Ok_l. cbn beta iota.
  assert (pipe s1 ++ pending s1 ++ incoming s1 = pipe s ++ pending s ++ incoming s) as E.
  { rewrite Hpi, Hi, !app_assoc. rewrite <-(app_assoc (pipe s) (pending s)), Hp. by rewrite !app_assoc. }
  destruct run; [|by exists false, s1]. destruct (IH s1 Hok) as (run & s' & -> & Hok' & E'). exists run, s'. by rewrite E', E.
Qed.

(** what is left to do when the socket is silent: the octets, and one iteration
    for the end of the buffer *)
Definition work (s : ring) : nat :=
  (length (pending s) + (if wrap_state s || (bmp_buffer_size <=? write_buf_pos s)%Z then 1 else 0))%nat.

Lemma fill_idle s :
  ring_ok s → ∃ s', fill_buffer Idle s = Ok (true, s') ∧ ring_mid s' ∧ pending s' = pending s ∧ incoming s' = incoming s
    ∧ pipe s' = pipe s ∧ work s' = work s.
Proof.
  intros Hs. destruct (fill_spec Idle s Hs) as (run & s' & data & E & Hm & Hp & Hi & Hpi).
  unfold fill_buffer in E. cbv zeta in E. destruct (_ || _) eqn:Ec; [|destruct (Z.leb_spec bmp_buffer_size (write_buf_pos s))]; injection E as <- <-.
  - exists s. unfold fill_buffer. cbv zeta. rewrite Ec. by split_and!.
  - eexists. unfold fill_buffer. cbv zeta. rewrite Ec, (proj2 (Z.leb_le _ _)) by done. split; [done|].
    cbn [incoming] in Hi. assert (data = []) as -> by (apply (app_inv_tail (incoming s)); by rewrite <-Hi). rewrite app_nil_r in Hp.
    split_and!; try done. unfold work. rewrite Hp. cbn [wrap_state write_buf_pos]. by rewrite (proj2 (Z.leb_le bmp_buffer_size (write_buf_pos s))), orb_true_r by done.
  - exists s. unfold fill_buffer. cbv zeta. rewrite Ec, (proj2 (Z.leb_gt _ _)) by done. by split_and!.
Qed.

Lemma drain_works n s :
  ring_mid s → 1 ≤ n →
  ∃ s' data, drain_buffer (Ready n) s = Ok (true, s') ∧ ring_ok s' ∧ pending s = data ++ pending s'
    ∧ pipe s' = pipe s ++ data ∧ incoming s' = incoming s ∧ (pending s = [] ∨ work s' < work s)%nat.
Proof.
  intros Hmid Hn. destruct (drain_spec (Ready n) s Hmid) as (run & s' & data & E & Hok & Hp & Hpi & Hi).
  pose proof Hmid as [Hs Hm]. pose proof Hs as (Hl & Hr & Hw).
  assert (run = true ∧ (pending s = [] ∨ work s' < work s)%nat) as [-> Hwork]; [|exists s', data; by split_and!].
  unfold drain_buffer in E. cbv zeta in E. destruct (_ || _) eqn:Ec.
  - apply bind_Ok_inv in E as (s1 & E & E'). injection E' as <- <-. split; [done|]. right.
    unfold write_pipe in E. cbv zeta in E. set (avail := if wrap_state s then _ else _) in E.
    assert (0 < avail) by (subst avail; destruct (wrap_state s); cbn in Ec; rewrite ?orb_false_r in Ec; apply Z.ltb_lt in Ec; lia).
    assert (0 < Z.min n (if CLIENT_WRITE_BUFFER_BLOCK_SIZE <? avail then CLIENT_WRITE_BUFFER_BLOCK_SIZE else avail))
      by (clearbody avail; destruct (CLIENT_WRITE_BUFFER_BLOCK_SIZE <? avail); unfold CLIENT_WRITE_BUFFER_BLOCK_SIZE in *; lia).
    rewrite (proj2 (Z.leb_gt _ _)) in E by done. apply bind_Ok_inv in E as (d & Ed & E). injection E as <-.
    cbn [pipe] in Hpi. apply app_inv_head in Hpi as <-. unfold work. rewrite Hp, length_app. cbn [wrap_state write_buf_pos].
    apply memcpy_inv in Ed as [Hle ->]. rewrite length_take. lia.
  - destruct (Z.leb_spec bmp_buffer_size (read_buf_pos s)); injection E as <- <-; (split; [done|]).
    + destruct (wrap_state s) eqn:Ew; [|specialize (Hm eq_refl); lia]. right. unfold work. cbn [pipe] in Hpi.
      assert (data = []) as -> by (apply (app_inv_head (pipe s)); by rewrite app_nil_r). cbn [app] in Hp. rewrite Hp, Ew.
      cbn [wrap_state write_buf_pos orb]. rewrite (proj2 (Z.leb_gt _ _)) by lia. lia.
    + left. destruct (wrap_state s) eqn:Ew; cbn in Ec; rewrite ?orb_false_r in Ec; apply Z.ltb_ge in Ec; [lia|].
      unfold pending. rewrite Ew. unfold slice. replace (Z.to_nat (write_buf_pos s - read_buf_pos s)) with 0%nat by lia. done.
Qed.
End loop.

(** C6: the buffer is a queue.  Whatever the socket and the pipe do, and however the
    octets come in pieces, every access is inside the buffer, and the octets
    written to the reader, those in the buffer and those still to come are the
    stream of the router: nothing is lost, repeated or reordered across the
    wrap-around. *)
Theorem ring_is_fifo (buf octets : list Z) (events : list (polled * polled)) :
  (0 < length buf)%nat →
  let size := Z.of_nat (length buf) in
  ∃ run s', buffer_loop size events (new_ring buf octets) = Ok (run, s') ∧ ring_ok size s'
    ∧ pipe s' ++ pending size s' ++ incoming s' = octets.
Proof.
  intros Hb size. destruct (buffer_loop_spec size ltac:(lia) events (new_ring buf octets)) as (run & s' & E & Hok & Hp).
  { unfold ring_ok. cbn. lia. }
  exists run, s'. by split_and!.
Qed.

(** C18: the buffer is emptied.  When the router is silent and the reader takes at
    least one octet each time, after one iteration for each octet and one for
    the end of the buffer everything has been written to the reader. *)
Theorem ring_delivers (size : Z) (s : ring) (ns : list Z) :
  0 < size → ring_ok size s → Forall (λ n, 1 ≤ n) ns → (length (pending size s) < length ns)%nat →
  ∃ s', buffer_loop size ((λ n, (Idle, Ready n)) <$> ns) s = Ok (true, s') ∧ pending size s' = []
    ∧ pipe s' = pipe s ++ pending size s ∧ incoming s' = incoming s.
Proof.
  intros Hsize Hs Hns Hlen.
  assert (∃ s', buffer_loop size ((λ n, (Idle, Ready n)) <$> ns) s = Ok (true, s')
    ∧ pipe s' ++ pending size s' = pipe s ++ pending size s ∧ incoming s' = incoming s
    ∧ (pending size s = [] → pending size s' = [])
    ∧ (pending size s' = [] ∨ work size s' + length ns ≤ work size s)%nat) as (s' & E & Hp & Hi & _ & Hw).
  { clear Hlen. revert s Hs. induction Hns as [|n ns Hn Hns IH]; intros s Hs; cbn [fmap list_fmap buffer_loop].
    - exists s. split_and!; try done. right. cbn. lia.
    - unfold iteration. destruct (fill_idle size Hsize s Hs) as (s1 & -> & Hm & Hp1 & Hi1 & Hpi1 & Hw1). rewrite bind_Ok_l. cbn beta iota.
      destruct (drain_works size Hsize n s1 Hm Hn) as (s2 & data & -> & Hok & Hp2 & Hpi2 & Hi2 & Hw2). rewrite bind_Ok_l. cbn beta iota.
      destruct (IH s2 Hok) as (s' & E & Hp & Hi & H0 & Hw). exists s'. split; [done|].
      assert (pending size s = [] → pending size s2 = []) as H02
        by (rewrite <-Hp1, Hp2; by intros [_ ?]%app_eq_nil).
      split_and!; [by rewrite Hp, Hpi2, <-app_assoc, <-Hp2, Hpi1, Hp1|by rewrite Hi, Hi2|auto|].
      destruct Hw as [|Hw]; [by left|]. destruct Hw2 as [He|Hw2]; [left; apply H0, H02; by rewrite <-Hp1|right; cbn [length]; lia]. }
  assert (pending size s' = []) as H0.
  { destruct Hw as [|Hw]; [done|]. apply length_zero_iff_nil. unfold work in Hw. destruct (wrap_state s || _), (wrap_state s' || _); lia. }
  exists s'. split_and!; try done. by rewrite <-Hp, H0, app_nil_r.
Qed.

(** A closed connection loses what is buffered.  When the socket hangs up while
    there is room in the buffer, the loop ends at once: the octets that were
    received but not yet written never reach the reader. *)
Theorem hangup_drops_buffer (size : Z) (e : polled) (s : ring) :
  wrap_state s = false → write_buf_pos s < size → iteration size Hup e s = Ok (false, s).
Proof.
  intros Hw Hlt. unfold iteration, fill_buffer. rewrite Hw. cbn [andb orb negb]. by rewrite (proj2 (Z.ltb_lt _ _)).
Qed.

(** ** Witnesses *)

Lemma ring_is_fifo_witness :
  ∃ run s', buffer_loop 4 [(Ready 3, Ready 2); (Ready 9, Ready 1); (Idle, Ready 9); (Ready 2, Ready 9); (Ready 2, Ready 9)]
              (new_ring [0; 0; 0; 0] [1; 2; 3; 4; 5; 6; 7]) = Ok (run, s')
    ∧ ring_ok 4 s' ∧ pipe s' ++ pending 4 s' ++ incoming s' = [1; 2; 3; 4; 5; 6; 7].
Proof.
  apply (ring_is_fifo [0; 0; 0; 0] [1; 2; 3; 4; 5; 6; 7]
    [(Ready 3, Ready 2); (Ready 9, Ready 1); (Idle, Ready 9); (Ready 2, Ready 9); (Ready 2, Ready 9)]).
  simpl. lia.
Defined.

(** a buffer that has wrapped *)
Definition sample_ring : ring :=
  {| sock_buf := [5; 6; 3; 4]; write_buf_pos := 1; read_buf_pos := 3; wrap_state := true; incoming := []; pipe := [1; 2; 3] |}.
Lemma ring_delivers_witness :
  ∃ s', buffer_loop 4 [(Idle, Ready 1); (Idle, Ready 7); (Idle, Ready 1)] sample_ring = Ok (true, s') ∧ pending 4 s' = []
    ∧ pipe s' = [1; 2; 3; 4; 5] ∧ incoming s' = [].
Proof.
  apply (ring_delivers 4 sample_ring [1; 7; 1]).
  - lia.
  - split_and!; cbn; lia.
  - repeat constructor; lia.
  - vm_compute. lia.
Defined.

Lemma hangup_drops_buffer_witness :
  let s := {| sock_buf := [1; 2; 3; 0]; write_buf_pos := 3; read_buf_pos := 1; wrap_state := false; incoming := []; pipe := [1] |} in
  iteration 4 Hup (Ready 4) s = Ok (false, s) ∧ pending 4 s = [2; 3].
Proof.
  intros s. split; [|reflexivity].
  apply (hangup_drops_buffer 4 (Ready 4) s); [reflexivity|simpl; lia].
Defined.
