(* ===== verification/Listener.v ===== *)
(** * The listener ([bmp/BMPListener.cpp])

    The listening sockets and the connections they accept.  The sockets of the
    operating system are the class [Sockets]. *)

From S2P Require Import Prelude Inet MD5 BgpCommon TopicSelector Configuration MsgBus BMPReader.

(** an address of four or sixteen octets, which may be indeterminate, and a port *)
Record sockaddr : Type := { sa_octets : option (list Z); sa_port : Z }.

(** what [poll] reports of a socket *)
Record revents : Set := { rv_err : bool; rv_in : bool }.     (** [POLLHUP] or [POLLERR]; [POLLIN] *)

(** [sk_socket] and [sk_accept] give a descriptor, negative when they fail;
    [sk_accept] also the address of the client; [sk_bind] of an address. *)
Class Sockets (w : Type) : Type := {
  sk_socket : bool → w → Z * w;
  sk_setsockopt : Z → string → w → bool * w;
  sk_bind : Z → list Z → Z → w → bool * w;
  sk_listen : Z → w → w;
  sk_close : Z → w → w;
  sk_poll : list Z → Z → w → list revents * w;
  sk_accept : Z → w → Z * (list Z * Z) * w;
  sk_getsockname : Z → w → option (list Z * Z) * w;
  sk_gettimeofday : w → (Z * Z) * w }.

(** the members of [BMPListener]; a socket that is not open is 0 *)
Record BMPListener : Type := { sock : Z; sockv6 : Z; svr_addr : sockaddr; svr_addrv6 : sockaddr }.

(** [ClientInfo] of an accepted connection; the address of the server is
    indeterminate when it is not known *)
Record client_conn : Type := {
  cc_hash_id : list Z; cc_initRec : bool; cc_sock : Z; cc_ip : string; cc_port : string;
  cc_s_ip : option string; cc_s_port : option string; cc_startTime : Z }.

(** the client as the reader has it, with the octets it is going to send *)
Definition client_of (c : client_conn) (octets : list Z) : ClientInfo :=
  {| hash_id := cc_hash_id c; initRec := cc_initRec c; c_ip := cc_ip c; startTime := cc_startTime c;
     stream := octets; stream_err := false; c_open := true |}.

Section listener.
Context {w : Type} {S : Sockets w}.

(** *** Opening *)

(** the descriptor is closed before the error is thrown, which ends the program *)
Definition require (ok : bool) (msg : string) : outcome unit := if ok then Ok () else Throw msg.

(** The address is indeterminate when the configured text is not an address. *)
Definition open_one (isIPv4 : bool) (addr : sockaddr) (s : w) : outcome (Z * w) :=
  let v := if isIPv4 then "IPv4" else "IPv6" in
  let '(fd, s) := sk_socket isIPv4 s in
  if fd <? 0 then Throw ("ERROR: Cannot open " +:+ v +:+ " socket.")
  else
    let '(ok, s) := sk_setsockopt fd "SO_REUSEADDR" s in
    _ ← require ok ("ERROR: Failed to set " +:+ v +:+ " socket option SO_REUSEADDR");
    let '(ok, s) := if isIPv4 then (true, s) else sk_setsockopt fd "IPV6_V6ONLY" s in
    _ ← require ok "ERROR: Failed to set IPv6 socket option IPV6_V6ONLY";
    octets ← init_read (sa_octets addr);
    let '(ok, s) := sk_bind fd octets (sa_port addr) s in
    _ ← require ok ("ERROR: Cannot bind to " +:+ v +:+ " address and port");
    Ok (fd, sk_listen fd s).

Definition open_socket (ipv4 ipv6 : bool) (l : BMPListener) (s : w) : outcome (BMPListener * w) :=
  '(fd4, s) ← (if ipv4 then open_one true (svr_addr l) s else Ok (sock l, s));
  '(fd6, s) ← (if ipv6 then open_one false (svr_addrv6 l) s else Ok (sockv6 l, s));
  Ok ({| sock := fd4; sockv6 := fd6; svr_addr := svr_addr l; svr_addrv6 := svr_addrv6 l |}, s).

(** the constructor *)
Definition new_listener {regex} (c : config regex) (s : w) : outcome (BMPListener * w) :=
  let addr isIPv4 text any := {|
    sa_octets := if is_empty text then Some any else if (isIPv4 : bool) then inet_pton4 (c_str text) else inet_pton6 (c_str text);
    sa_port := cf_int c bmp_port |} in
  open_socket (cf_bool c svr_ipv4) (cf_bool c svr_ipv6)
    {| sock := 0; sockv6 := 0; svr_addr := addr true (cf_string c bind_ipv4) (zeros 4);
       svr_addrv6 := addr false (cf_string c bind_ipv6) (zeros 16) |} s.

(** *** Accepting *)

(** [c_hash_id] is the collector.  The address of the server is printed as an
    IPv4 address in both families.  When [accept] fails, the text thrown is inside
    of a string that is destroyed before the server logs it. *)
Definition accept_connection (c_hash_id : list Z) (l : BMPListener) (isIPv4 : bool) (s : w) : outcome (client_conn * w) :=
  let '(fd, (octets, port), s) := sk_accept (if isIPv4 then sock l else sockv6 l) s in
  if fd <? 0 then Undef OobRead
  else
    let ip := inet_ntop isIPv4 octets in
    let '(name, s) := sk_getsockname fd s in
    let s := (sk_setsockopt fd "SO_KEEPALIVE" s).2 in
    hash ← Md5.md5_digest [bytes_of_string ip; bytes_of_string (hash_toStr c_hash_id)];
    Ok ({| cc_hash_id := hash; cc_initRec := false; cc_sock := fd; cc_ip := ip; cc_port := snprintf 6 (dec port);
           cc_s_ip := (λ n, inet_ntop4 (take 4 n.1)) <$> name; cc_s_port := (λ n, snprintf 6 (dec n.2)) <$> name;
           cc_startTime := 0 |}, s).

Definition set_start (t : Z) (c : client_conn) : client_conn :=
  {| cc_hash_id := cc_hash_id c; cc_initRec := cc_initRec c; cc_sock := cc_sock c; cc_ip := cc_ip c; cc_port := cc_port c;
     cc_s_ip := cc_s_ip c; cc_s_port := cc_s_port c; cc_startTime := t |}.

(** the first socket with something to report, and whether it is an error *)
Fixpoint ready (fds : list Z) (evs : list revents) : option (Z * bool) :=
  match fds, evs with
  | fd :: fds, ev :: evs => if rv_err ev then Some (fd, true) else if rv_in ev then Some (fd, false) else ready fds evs
  | _, _ => None
  end.

(** [poll] is given one entry more than there are sockets, and its answer for that
    one is not looked at.  A listening socket that is closed stays in the
    listener. *)
Definition wait_and_accept_connection (c_hash_id : list Z) (l : BMPListener) (timeout : Z) (s : w)
  : outcome (option client_conn * w) :=
  let fds := filter (λ fd, 0 < fd) [sock l; sockv6 l] in
  let '(evs, s) := sk_poll fds timeout s in
  match ready fds evs with
  | Some (fd, true) => Ok (None, if (fd =? sock l) || (fd =? sockv6 l) then sk_close fd s else s)
  | Some (fd, false) =>
      '(c, s) ← accept_connection c_hash_id l (fd =? sock l) s;
      let '((secs, _), s) := sk_gettimeofday s in
      Ok (Some (set_start secs c), s)
  | None => Ok (None, s)
  end.
End listener.

(** a listener that takes both of its sockets for closed *)
Lemma deaf_listener {w : Type} {S : Sockets w} (hash : list Z) (l : BMPListener) (timeout : Z) (s : w) :
  sock l = 0 → sockv6 l = 0 → wait_and_accept_connection hash l timeout s = Ok (None, (sk_poll [] timeout s).2).
Proof.
  intros E4 E6. unfold wait_and_accept_connection. rewrite E4, E6.
  change (filter (λ fd, 0 < fd) [0; 0]) with (@nil Z). by destruct (sk_poll [] timeout s).
Qed.

(** the descriptor of the listener is the one the system gave *)
Lemma new_listener_sock {w regex : Type} {S : Sockets w} (c : config regex) (l : BMPListener) (s s0 : w) :
  cf_bool c svr_ipv6 = false → new_listener c s = Ok (l, s0) →
  sockv6 l = 0 ∧ (sock l = 0 ∨ sock l = (sk_socket true s).1 ∧ 0 ≤ sock l).
Proof.
  unfold new_listener, open_socket. intros H6 H. rewrite H6 in H.
  apply bind_Ok_inv in H as ([fd4 s2] & H4 & H). rewrite bind_Ok_l in H. injection H as <- _. cbn. split; [done|].
  destruct (cf_bool c svr_ipv4); [|by injection H4; auto]. unfold open_one in H4. cbn [svr_addr] in H4.
  destruct (sk_socket true s) as [fd s']. destruct (Z.ltb_spec fd 0); [done|]. right.
  destruct (sk_setsockopt fd _ s') as [ok1 s3]. apply bind_Ok_inv in H4 as (? & _ & H4).
  cbn beta iota in H4. apply bind_Ok_inv in H4 as (? & _ & H4).
  apply bind_Ok_inv in H4 as (o & _ & H4). destruct (sk_bind fd o _ s3) as [ok2 s4].
  apply bind_Ok_inv in H4 as (? & _ & H4). injection H4 as <- _. done.
Qed.

(** A listening socket with the descriptor 0 is never looked at.  The daemon
    closes its standard descriptors before it opens the listening socket, and the
    system gives out the lowest descriptor that is free; the listener takes 0 for
    a socket that is not open, polls nothing and accepts no connection. *)
Theorem descriptor_zero_deaf {w regex : Type} {S : Sockets w} (c : config regex) (hash : list Z) (timeout : Z)
    (l : BMPListener) (s s0 s1 : w) :
  cf_bool c svr_ipv6 = false → (sk_socket true s).1 = 0 → new_listener c s = Ok (l, s0) →
  wait_and_accept_connection hash l timeout s1 = Ok (None, (sk_poll [] timeout s1).2).
Proof.
  intros H6 H0 H. destruct (new_listener_sock c l s s0 H6 H) as [E6 E4]. apply deaf_listener; [|done].
  destruct E4 as [|[-> _]]; done.
Qed.

(** ** Sample sockets *)

(** descriptors from the lowest free one; nothing is pending *)
#[global] Instance free_sockets : Sockets Z := {
  sk_socket _ n := (n, n + 1);
  sk_setsockopt _ _ n := (true, n);
  sk_bind _ _ _ n := (true, n);
  sk_listen _ n := n;
  sk_close _ n := n;
  sk_poll fds _ n := ((λ _, {| rv_err := false; rv_in := true |}) <$> fds, n);
  sk_accept _ n := (n, ([192; 0; 2; 1], 40000), n + 1);
  sk_getsockname _ n := (Some ([198; 51; 100; 1], 5000), n);
  sk_gettimeofday n := ((1700000000, 0), n) }.

Lemma descriptor_zero_deaf_witness :
  ∃ l, new_listener (new_config string) 0 = Ok (l, 1) ∧ wait_and_accept_connection (zeros 16) l 500 1 = Ok (None, 1).
Proof.
  exists {| sock := 0; sockv6 := 0; svr_addr := {| sa_octets := Some (zeros 4); sa_port := 5000 |};
            svr_addrv6 := {| sa_octets := Some (zeros 16); sa_port := 5000 |} |}.
  split; [reflexivity|]. exact (descriptor_zero_deaf (new_config string) (zeros 16) 500 _ 0 1 1 eq_refl eq_refl eq_refl).
Defined.

(** with the standard descriptors open, the first connection is accepted *)
Example accepts_connection :
  match new_listener (new_config string) 3 with
  | Ok (l, s) => match wait_and_accept_connection (zeros 16) l 500 s with
                 | Ok (Some c, _) => cc_ip c = "192.0.2.1" ∧ cc_port c = "40000" ∧ cc_s_ip c = Some "198.51.100.1"
                                     ∧ cc_startTime c = 1700000000
                 | _ => False
                 end
  | _ => False
  end.
Proof. vm_compute. done. Qed.
