(* ===== verification/Server.v ===== *)
(** * The program ([openbmp.cpp])

    The command line, the configuration the server runs with, and the server
    loop: threads that ended are removed, routers past their initial time no
    longer count, connections are accepted up to the limits, and the message bus
    is told.  The client threads run beside the loop, so that its steps and
    theirs interleave. *)

From S2P Require Import Prelude Inet MD5 BgpCommon TopicSelector Configuration MsgBus BMPReader Kafka Listener.

(** ** Command line *)

Record options (regex : Type) : Type := {
  op_cfg : config regex;
  op_cfg_filename : option string; op_log_filename : option string;
  op_debug_filename : option string; op_pid_filename : option string;
  op_foreground : bool }.
Arguments op_cfg {_} _.
Arguments op_cfg_filename {_} _.
Arguments op_log_filename {_} _.
Arguments op_debug_filename {_} _.
Arguments op_pid_filename {_} _.
Arguments op_foreground {_} _.

Inductive args_result (regex : Type) : Type :=
| ArgsOk (o : options regex)
| ArgsError                       (** [return true] *)
| ArgsExit.                       (** [exit(0)], after the help or the version *)
Arguments ArgsOk {_} _.
Arguments ArgsError {_}.
Arguments ArgsExit {_}.

(** [strcasecmp] is equality of these *)
Definition lower_char (c : Ascii.ascii) : Ascii.ascii :=
  let b := byte_of_ascii c in if (65 <=? b) && (b <=? 90) then ascii_of_byte (b + 32) else c.
Definition lower (s : string) : string := String.string_of_list_ascii (lower_char <$> String.list_ascii_of_string s).

(** [snprintf(dst, sizeof(dst), "%s", s)]: the octets after the text stay *)
Definition snprintf_into (dst : list Z) (s : string) : list Z :=
  let t := bytes_of_string (snprintf (length dst) s) in t ++ 0 :: drop (S (length t)) dst.

Section args.
Context {regex : Type}.
Implicit Type o : options regex.

Definition set_cfg (f : config regex → config regex) o : options regex :=
  {| op_cfg := f (op_cfg o); op_cfg_filename := op_cfg_filename o; op_log_filename := op_log_filename o;
     op_debug_filename := op_debug_filename o; op_pid_filename := op_pid_filename o; op_foreground := op_foreground o |}.
Definition set_files (cfgf logf debugf pidf : option string) (fg : bool) o : options regex :=
  {| op_cfg := op_cfg o; op_cfg_filename := cfgf; op_log_filename := logf; op_debug_filename := debugf;
     op_pid_filename := pidf; op_foreground := fg |}.

(** options that take a value, after the value is known.  The port is stored in 16
    bits before it is checked; the product of the minutes may overflow. *)
Definition value_option (opt v : string) o : option (outcome (args_result regex)) :=
  if String.eqb opt "-p" then
    let port := u16 (atoi v) in
    Some (Ok (if (port <? 25) || (65535 <? port) then ArgsError else ArgsOk (set_cfg (set_int bmp_port port) o)))
  else if String.eqb opt "-hi" then
    let t := atoi v * 60 in
    Some (if negb (i32 t =? t) then Undef Overflow
          else Ok (if (t <? 60) || (86400 <? t) then ArgsError else ArgsOk (set_cfg (set_int heartbeat_interval t) o)))
  else if String.eqb opt "-m" then
    Some (Ok (if String.eqb (lower v) "v4" then ArgsOk (set_cfg (set_bool svr_ipv4 true) o)
              else if String.eqb (lower v) "v6" then ArgsOk (set_cfg (λ c, set_bool svr_ipv4 false (set_bool svr_ipv6 true c)) o)
              else if String.eqb (lower v) "v4v6" then ArgsOk (set_cfg (λ c, set_bool svr_ipv4 true (set_bool svr_ipv6 true c)) o)
              else ArgsError))
  else if String.eqb opt "-k" then Some (Ok (ArgsOk (set_cfg (set_string kafka_brokers v) o)))
  else if String.eqb opt "-a" then
    Some (Ok (ArgsOk (set_cfg (λ c, set_admin (snprintf_into (cf_admin_id c) v) c) o)))
  else if String.eqb opt "-b" then
    let mb := atoi v in
    Some (Ok (if (mb <? 2) || (384 <? mb) then ArgsError
              else ArgsOk (set_cfg (set_int bmp_buffer_size (mb * 1024 * 1024)) o)))
  else if String.eqb opt "-c" then
    Some (Ok (ArgsOk (set_files (Some v) (op_log_filename o) (op_debug_filename o) (op_pid_filename o) (op_foreground o) o)))
  else if String.eqb opt "-l" then
    Some (Ok (ArgsOk (set_files (op_cfg_filename o) (Some v) (op_debug_filename o) (op_pid_filename o) (op_foreground o) o)))
  else if String.eqb opt "-d" then
    Some (Ok (ArgsOk (set_files (op_cfg_filename o) (op_log_filename o) (Some v) (op_pid_filename o) (op_foreground o) o)))
  else if String.eqb opt "-pid" then
    Some (Ok (ArgsOk (set_files (op_cfg_filename o) (op_log_filename o) (op_debug_filename o) (Some v) (op_foreground o) o)))
  else None.

(** options without a value; others are ignored *)
Definition plain_option (opt : string) o : options regex :=
  if String.eqb opt "-debug" then set_cfg (set_bool debug_general true) o
  else if String.eqb opt "-dbgp" then set_cfg (set_bool debug_bgp true) o
  else if String.eqb opt "-dbmp" then set_cfg (set_bool debug_bmp true) o
  else if String.eqb opt "-dmsgbus" then set_cfg (set_bool debug_msgbus true) o
  else if String.eqb opt "-f" then
    set_files (op_cfg_filename o) (op_log_filename o) (op_debug_filename o) (op_pid_filename o) true o
  else o.

Definition takes_value (opt : string) : bool :=
  existsb (String.eqb opt) ["-p"; "-hi"; "-m"; "-k"; "-a"; "-b"; "-c"; "-l"; "-d"; "-pid"].

Fixpoint args_loop (args : list string) o : outcome (args_result regex) :=
  match args with
  | [] => Ok (ArgsOk o)
  | opt :: rest =>
      if String.eqb opt "-h" then Ok ArgsExit
      else if takes_value opt then
        match rest with
        | [] => Ok ArgsError
        | v :: rest =>
            r ← default (Ok (ArgsOk o)) (value_option opt v o);
            match r with ArgsOk o => args_loop rest o | r => Ok r end
        end
      else args_loop rest (plain_option opt o)
  end.

(** [args] are the arguments after the name of the program *)
Definition ReadCmdArgs (args : list string) (c : config regex) : outcome (args_result regex) :=
  match args with
  | "-v" :: _ => Ok ArgsExit
  | _ => args_loop args {| op_cfg := c; op_cfg_filename := None; op_log_filename := None; op_debug_filename := None;
                           op_pid_filename := None; op_foreground := false |}
  end.
End args.

(** ** From [main] to the server *)

Inductive main_result (regex : Type) : Type :=
| MainExit (code : Z)
| MainAbort                        (** an exception that nobody catches *)
| MainRun (o : options regex).     (** [runServer] *)
Arguments MainExit {_} _.
Arguments MainAbort {_}.
Arguments MainRun {_} _.

(** The message of a configuration error is printed, also one that is no longer
    there; the length of the admin ID is computed to its end. *)
Definition main_config {node regex} {Y : Yaml node} (regex_compile : string → option regex) (gethostname : list Z → list Z)
    (subscript_first : bool) (file : string → option node) (args : list string) : outcome (main_result regex) :=
  r ← ReadCmdArgs args (new_config regex);
  match r with
  | ArgsError => Ok (MainExit 1)
  | ArgsExit => Ok (MainExit 0)
  | ArgsOk o =>
      let loaded := match op_cfg_filename o with
                    | Some f => load regex_compile gethostname subscript_first (file f) (op_cfg o)
                    | None => Good (op_cfg o)
                    end in
      match loaded with
      | Good c =>
          t ← c_string (cf_admin_id c);
          Ok (match t with [] => MainExit 2 | _ => MainRun (set_cfg (λ _, c) o) end)
      | Exn (ExText _) => Ok (MainExit 2)
      | Exn ExDangling => Undef OobRead
      | Exn _ => Ok MainAbort
      end
  end.

(** ** The server loop *)

(** what the server needs of a message bus: the collector messages.  The Redis bus
    is not told ([redis_collector]). *)
Class CollectorBus (b : Type) : Type := { cb_update : obj_collector → collector_action_code → b → outcome b }.

Record ThreadMgmt : Type := { th_client : client_conn; th_running : bool; th_baselineTimeout : bool }.

(** [sv_baseline] is [router_baseline_time] of the configuration, as the whole
    seconds the server makes of it *)
Record server (b w : Type) : Type := {
  sv_thr_list : list ThreadMgmt;
  sv_active : Z;                    (** [active_connections] *)
  sv_concurrent : Z;                (** [concurrent_routers] *)
  sv_last_heartbeat : Z;
  sv_baseline : gmap (list Z) Z;
  sv_bus : b;
  sv_world : w }.
Arguments sv_thr_list {_ _} _.
Arguments sv_active {_ _} _.
Arguments sv_concurrent {_ _} _.
Arguments sv_last_heartbeat {_ _} _.
Arguments sv_baseline {_ _} _.
Arguments sv_bus {_ _} _.
Arguments sv_world {_ _} _.

Section loop.
Context {regex b w : Type} {CB : CollectorBus b} {SK : Sockets w} (cfg : config regex).
Implicit Type s : server b w.

Definition set_threads (l : list ThreadMgmt) (active concurrent : Z) s : server b w :=
  {| sv_thr_list := l; sv_active := active; sv_concurrent := concurrent; sv_last_heartbeat := sv_last_heartbeat s;
     sv_baseline := sv_baseline s; sv_bus := sv_bus s; sv_world := sv_world s |}.
Definition set_outside (heartbeat : Z) (bus : b) (world : w) s : server b w :=
  {| sv_thr_list := sv_thr_list s; sv_active := sv_active s; sv_concurrent := sv_concurrent s;
     sv_last_heartbeat := heartbeat; sv_baseline := sv_baseline s; sv_bus := bus; sv_world := world |}.

(** seconds and microseconds of the clock *)
Definition clock s : (Z * Z) * server b w :=
  let '(t, k) := sk_gettimeofday (sv_world s) in (t, set_outside (sv_last_heartbeat s) (sv_bus s) k s).

Definition append_ip (acc : string) (t : ThreadMgmt) : string :=
  (if is_empty acc then "" else acc +:+ ", ") +:+ cc_ip (th_client t).

Definition collector_update_msg (code : collector_action_code) s : outcome (server b w) :=
  admin ← c_string (cf_admin_id cfg);
  let '((secs, us), s) := clock s in
  bus ← cb_update {| co_admin_id := snprintf 64 (text admin);
                     co_routers := snprintf 4096 (c_str (fold_left append_ip (sv_thr_list s) ""));
                     co_router_count := u32 (Z.of_nat (length (sv_thr_list s)));
                     co_timestamp_secs := u32 secs; co_timestamp_us := u32 us |} code (sv_bus s);
  Ok (set_outside (sv_last_heartbeat s) bus (sv_world s) s).

(** [last_heartbeat_time = time(NULL)] *)
Definition beat s : server b w :=
  let '((secs, _), s) := clock s in set_outside secs (sv_bus s) (sv_world s) s.

Definition past_baseline (t : ThreadMgmt) : ThreadMgmt :=
  {| th_client := th_client t; th_running := th_running t; th_baselineTimeout := true |}.

(** one round of the loop over the threads, at index [i] *)
Definition check_thread (i : nat) s : outcome (server b w) :=
  match sv_thr_list s !! i with
  | None => Ok s
  | Some t =>
      if negb (th_running t) then
        collector_update_msg COLLECTOR_ACTION_CHANGE
          (set_threads (delete i (sv_thr_list s)) (sv_active s - 1)
             (if th_baselineTimeout t then sv_concurrent s else sv_concurrent s - 1) s)
      else if th_baselineTimeout t then Ok s
      else
        let initial_time := if cf_bool cfg calculate_baseline
                            then default (cf_int cfg initial_router_time) (sv_baseline s !! cc_hash_id (th_client t))
                            else cf_int cfg initial_router_time in
        let '((secs, _), s) := clock s in
        if initial_time <=? secs - cc_startTime (th_client t) then
          Ok (set_threads (<[i := past_baseline t]> (sv_thr_list s)) (sv_active s) (sv_concurrent s - 1) s)
        else Ok s
  end.

(** [for (i = 0; i < thr_list.size(); i++)]: the index moves on also when the
    element at it was erased.  The list only gets shorter, so that [n] rounds from
    its start are enough when it has [n] elements. *)
Fixpoint check_from (n i : nat) s : outcome (server b w) :=
  match n with
  | O => Ok s
  | S n => s ← check_thread i s; check_from n (S i) s
  end.
Definition check_threads s : outcome (server b w) := check_from (length (sv_thr_list s)) 0 s.

Definition new_thread (c : client_conn) : ThreadMgmt := {| th_client := c; th_running := true; th_baselineTimeout := false |}.

(** accepting, or the heartbeat *)
Definition accept_phase (c_hash_id : list Z) (l : BMPListener) s : outcome (server b w) :=
  if sv_concurrent s <? cf_int cfg max_concurrent_routers then
    if sv_active s <=? MAX_THREADS then
      '(c, k) ← wait_and_accept_connection c_hash_id l 500 (sv_world s);
      let s := set_outside (sv_last_heartbeat s) (sv_bus s) k s in
      match c with
      | Some c =>
          s ← collector_update_msg COLLECTOR_ACTION_CHANGE
                (set_threads (sv_thr_list s ++ [new_thread c]) (sv_active s + 1) (sv_concurrent s + 1) s);
          Ok (beat s)
      | None =>
          let '((secs, _), s) := clock s in
          if cf_int cfg heartbeat_interval <=? secs - sv_last_heartbeat s then
            s ← collector_update_msg COLLECTOR_ACTION_HEARTBEAT s; Ok (beat s)
          else Ok s
      end
    else Ok s
  else Ok s.

(** after the loop; the signal handlers exit before it is reached *)
Definition server_stop s : outcome (server b w) := collector_update_msg COLLECTOR_ACTION_STOPPED s.

(** what [runServer] does before the loop; the bus is connected first *)
Definition server_start (connect : list Z → outcome b) (k : w) : outcome (list Z * BMPListener * server b w) :=
  admin ← c_string (cf_admin_id cfg);
  c_hash_id ← Md5.md5_digest [admin];
  bus ← connect c_hash_id;
  '(l, k) ← new_listener cfg k;
  s ← collector_update_msg COLLECTOR_ACTION_STARTED
        {| sv_thr_list := []; sv_active := 0; sv_concurrent := 0; sv_last_heartbeat := 0; sv_baseline := ∅;
           sv_bus := bus; sv_world := k |};
  Ok (c_hash_id, l, beat s).

(** ** Interleaving *)

(** where the loop is: at a thread, or accepting *)
Inductive pc : Set := Check (i : nat) | Accept.

(** a client thread that ends, and the baseline times that readers learn *)
Definition stop_thread (t : ThreadMgmt) : ThreadMgmt :=
  {| th_client := th_client t; th_running := false; th_baselineTimeout := th_baselineTimeout t |}.
Definition learn (m : gmap (list Z) Z) s : server b w :=
  {| sv_thr_list := sv_thr_list s; sv_active := sv_active s; sv_concurrent := sv_concurrent s;
     sv_last_heartbeat := sv_last_heartbeat s; sv_baseline := m; sv_bus := sv_bus s; sv_world := sv_world s |}.

Inductive step (c_hash_id : list Z) (l : BMPListener) : pc * server b w → pc * server b w → Prop :=
| step_check i s s' :
    (i < length (sv_thr_list s))%nat → check_thread i s = Ok s' → step c_hash_id l (Check i, s) (Check (S i), s')
| step_checked i s : (length (sv_thr_list s) ≤ i)%nat → step c_hash_id l (Check i, s) (Accept, s)
| step_accept s s' : accept_phase c_hash_id l s = Ok s' → step c_hash_id l (Accept, s) (Check 0, s')
| step_stop p s j :
    step c_hash_id l (p, s) (p, set_threads (alter stop_thread j (sv_thr_list s)) (sv_active s) (sv_concurrent s) s)
| step_learn p s m : step c_hash_id l (p, s) (p, learn m s).

(** ** The counters *)

Definition counted (t : ThreadMgmt) : Prop := th_baselineTimeout t = false.
#[global] Instance counted_dec t : Decision (counted t) := decide (th_baselineTimeout t = false).

(** the counters are those of the list, within the limits *)
Record books s : Prop := {
  bk_active : sv_active s = Z.of_nat (length (sv_thr_list s));
  bk_concurrent : sv_concurrent s = Z.of_nat (length (filter counted (sv_thr_list s)));
  bk_max : sv_concurrent s ≤ cf_int cfg max_concurrent_routers;
  bk_threads : sv_active s ≤ MAX_THREADS + 1 }.

(** telling the bus and reading the clock leave the threads alone *)
Definition same_threads s s' : Prop :=
  sv_thr_list s' = sv_thr_list s ∧ sv_active s' = sv_active s ∧ sv_concurrent s' = sv_concurrent s.
#[global] Instance same_threads_preorder : PreOrder same_threads.
Proof. unfold same_threads. split; [intros ?|intros ??? H1 H2]; naive_solver congruence. Qed.

Lemma books_same s s' : same_threads s s' → books s → books s'.
Proof. intros (El & Ea & Ec) []. constructor; rewrite ?El, ?Ea, ?Ec; done. Qed.

Lemma clock_same s : same_threads s (clock s).2.
Proof. unfold clock. by destruct (sk_gettimeofday _). Qed.
Lemma beat_same s : same_threads s (beat s).
Proof. unfold beat. pose proof (clock_same s) as H. by destruct (clock s) as [[secs us] s']. Qed.
Lemma collector_same code s s' : collector_update_msg code s = Ok s' → same_threads s s'.
Proof.
  unfold collector_update_msg. intros (adm & _ & H)%bind_Ok_inv. pose proof (clock_same s) as Hc.
  destruct (clock s) as [[secs us] s1]. apply bind_Ok_inv in H as (bus & _ & H). injection H as <-. exact Hc.
Qed.

Lemma counted_one t : (if decide (counted t) then 1 else 0)%nat = (if th_baselineTimeout t then 0 else 1)%nat.
Proof. case_decide as H; unfold counted in H; [by rewrite H|]. by destruct (th_baselineTimeout t). Qed.
Lemma filter_stop (l : list ThreadMgmt) j : length (filter counted (alter stop_thread j l)) = length (filter counted l).
Proof.
  revert j. induction l as [|t l IH]; intros [|j]; [done..| |]; cbn [alter list_alter]; rewrite !length_filter_cons, ?counted_one; [done|].
  by rewrite IH.
Qed.

Lemma check_thread_books i s s' : check_thread i s = Ok s' → books s → books s'.
Proof.
  unfold check_thread. intros H [Ha Hc Hm Ht]. destruct (sv_thr_list s !! i) as [t|] eqn:Hi; [|by injection H as <-].
  destruct (th_running t) eqn:Hr; cbn [negb] in H.
  - destruct (th_baselineTimeout t) eqn:Hb; [by injection H as <-|]. pose proof (clock_same s) as Hs.
    destruct (clock s) as [[secs us] s1]. cbn in Hs. destruct (_ <=? _); injection H as <-; [|by apply (books_same s)].
    destruct Hs as (El & Ea & Ec). pose proof (filter_insert counted _ _ _ (past_baseline t) Hi) as Hf.
    rewrite !counted_one, Hb in Hf. cbn in Hf.
    constructor; cbn; rewrite ?length_insert, ?El, ?Ea, ?Ec; lia.
  - apply collector_same in H. apply (books_same _ _ H). pose proof (filter_delete counted _ _ _ Hi) as Hf.
    pose proof (length_delete _ _ (mk_is_Some _ _ Hi)) as Hl. pose proof (lookup_lt_Some _ _ _ Hi). rewrite counted_one in Hf.
    constructor; cbn; destruct (th_baselineTimeout t); lia.
Qed.

Lemma accept_phase_books h l s s' : accept_phase h l s = Ok s' → books s → books s'.
Proof.
  unfold accept_phase. intros H Hb. destruct (Z.ltb_spec (sv_concurrent s) (cf_int cfg max_concurrent_routers)); [|by injection H as <-].
  destruct (Z.leb_spec (sv_active s) MAX_THREADS); [|by injection H as <-].
  apply bind_Ok_inv in H as ([c k] & _ & H). destruct c as [c|].
  - apply bind_Ok_inv in H as (s1 & Hs & H). injection H as <-. apply (books_same _ _ (beat_same s1)).
    apply (books_same _ _ (collector_same _ _ _ Hs)). destruct Hb as [Ha Hc Hm Ht].
    constructor; cbn; rewrite ?filter_app, ?length_app; cbn [length]; try lia.
    change (filter counted [new_thread c]) with [new_thread c]. cbn [length]. lia.
  - pose proof (clock_same (set_outside (sv_last_heartbeat s) (sv_bus s) k s)) as Hs. destruct (clock _) as [[secs us] s1].
    cbn [snd] in Hs. assert (books s1) as Hb1 by (apply (books_same _ _ Hs); by destruct Hb).
    destruct (_ <=? _); [|by injection H as <-]. apply bind_Ok_inv in H as (s2 & H2 & H). injection H as <-.
    apply (books_same _ _ (beat_same s2)). by apply (books_same _ _ (collector_same _ _ _ H2)).
Qed.

Lemma step_books h l x y : step h l x y → books x.2 → books y.2.
Proof.
  intros [i s s' _ H|i s _|s s' H|p s j|p s m]; cbn; [by eapply check_thread_books|done|by eapply accept_phase_books| |].
  - intros [Ha Hc Hm Ht]. constructor; cbn; rewrite ?length_alter, ?filter_stop; done.
  - intros []. by constructor.
Qed.

Lemma start_books connect k h l s :
  config_ok cfg → server_start connect k = Ok (h, l, s) → books s.
Proof.
  intros Hc H. unfold server_start in H. apply bind_Ok_inv in H as (adm & _ & H). apply bind_Ok_inv in H as (d & _ & H).
  apply bind_Ok_inv in H as (bus & _ & H). apply bind_Ok_inv in H as ([l' k'] & _ & H).
  apply bind_Ok_inv in H as (s1 & Hs & H). injection H as _ _ <-.
  apply (books_same _ _ (beat_same s1)), (books_same _ _ (collector_same _ _ _ Hs)).
  pose proof (ok_ints _ Hc max_concurrent_routers) as Hm. cbn in Hm. constructor; cbn; [done|done|lia|unfold MAX_THREADS; lia].
Qed.
End loop.

(** C4: the counters of the server.  From its start on, whatever client threads end
    and whenever they do, [active_connections] is the number of threads in the
    list and never more than 201, and [concurrent_routers] the number of those
    that are not past their initial time and never more than the configured
    limit. *)
Theorem server_counters {regex b w : Type} {CB : CollectorBus b} {SK : Sockets w} (cfg : config regex)
    (connect : list Z → outcome b) (k : w) (h : list Z) (l : BMPListener) (s0 : server b w) (p : pc) (s : server b w) :
  config_ok cfg → server_start cfg connect k = Ok (h, l, s0) → rtc (step cfg h l) (Check 0, s0) (p, s) → books cfg s.
Proof.
  intros Hc H0 Hr. apply start_books in H0; [|done].
  assert (∀ x y, rtc (step cfg h l) x y → books cfg x.2 → books cfg y.2) as Hk.
  { intros x y. induction 1; [done|]. eauto using step_books. }
  by apply (Hk _ _ Hr).
Qed.

(** ** Threads that ended *)

(** a bus that takes every collector message, as long as [cb_ok] holds *)
Class CollectorUp (b : Type) {CB : CollectorBus b} : Type := {
  cb_ok : b → Prop;
  cb_update_ok oc code s : cb_ok s → ∃ s', cb_update oc code s = Ok s' ∧ cb_ok s' }.

Section reap.
Context {regex b w : Type} {CB : CollectorBus b} {CU : CollectorUp b} {SK : Sockets w} (cfg : config regex).
Implicit Type s : server b w.
Context (admin_text : ∃ t, c_string (cf_admin_id cfg) = Ok t).

Definition stopped (t : ThreadMgmt) : Prop := th_running t = false.
#[global] Instance stopped_dec t : Decision (stopped t) := decide (th_running t = false).

(** the clients that are still served *)
Definition served (l : list ThreadMgmt) : list client_conn := th_client <$> filter (λ t, th_running t = true) l.

Lemma collector_ok code s : cb_ok (sv_bus s) → ∃ s', collector_update_msg cfg code s = Ok s' ∧ cb_ok (sv_bus s') ∧ same_threads s s'.
Proof.
  intros Hb. destruct admin_text as (t & Ht). unfold collector_update_msg. rewrite Ht, bind_Ok_l.
  pose proof (clock_same s) as Hs. assert (sv_bus (clock s).2 = sv_bus s) as Hc by (unfold clock; by destruct (sk_gettimeofday _)).
  destruct (clock s) as [[secs us] s1]. cbn in *. rewrite Hc.
  edestruct (cb_update_ok) as (s' & Hu & Hb'); [exact Hb|]. rewrite Hu, bind_Ok_l. eexists. split; [done|]. split; [done|exact Hs].
Qed.

Lemma served_delete l i t : l !! i = Some t → th_running t = false → served (delete i l) = served l.
Proof.
  intros Hi Ht. unfold served. rewrite delete_take_drop. rewrite <-(take_drop_middle l i t Hi) at 3.
  rewrite !filter_app, filter_cons. rewrite decide_False by congruence. done.
Qed.
Lemma served_insert l i t : l !! i = Some t → served (<[i := past_baseline t]> l) = served l.
Proof.
  intros Hi. pose proof (lookup_lt_Some _ _ _ Hi). unfold served. rewrite insert_take_drop by done.
  rewrite <-(take_drop_middle l i t Hi) at 3. rewrite !filter_app, !filter_cons, !fmap_app. f_equal.
  cbn [past_baseline th_running]. by case_decide.
Qed.

(** what a round does to the threads: those that run stay, and an ended one at the
    index is gone *)
Lemma check_thread_reaps i s :
  cb_ok (sv_bus s) →
  ∃ s', check_thread cfg i s = Ok s' ∧ cb_ok (sv_bus s') ∧ served (sv_thr_list s') = served (sv_thr_list s)
    ∧ match sv_thr_list s !! i with
      | Some t => if th_running t then th_running <$> sv_thr_list s' = th_running <$> sv_thr_list s
                  else sv_thr_list s' = delete i (sv_thr_list s)
      | None => s' = s
      end.
Proof.
  intros Hb. unfold check_thread. destruct (sv_thr_list s !! i) as [t|] eqn:Hi; [|by exists s].
  destruct (th_running t) eqn:Hr; cbn [negb].
  - destruct (th_baselineTimeout t); [by exists s|]. pose proof (clock_same s) as Hs.
    assert (sv_bus (clock s).2 = sv_bus s) as Hc by (unfold clock; by destruct (sk_gettimeofday _)).
    destruct (clock s) as [[secs us] s1]. destruct Hs as (El & _). cbn in *.
    destruct (_ <=? _); eexists; (split; [done|]); cbn; rewrite ?Hc, ?El; split_and!; try done; [by apply served_insert|].
    rewrite list_fmap_insert. cbn [past_baseline th_running]. apply list_insert_id. by rewrite list_lookup_fmap, Hi.
  - edestruct (collector_ok COLLECTOR_ACTION_CHANGE) as (s' & -> & Hb' & El & _); [|exists s']; [exact Hb|].
    cbn in El. rewrite El. split_and!; try done. by eapply served_delete.
Qed.

Abbreviation ended s := (length (filter stopped (sv_thr_list s))).

Lemma ended_flags s s' : th_running <$> sv_thr_list s' = th_running <$> sv_thr_list s → ended s' = ended s.
Proof.
  generalize (sv_thr_list s'), (sv_thr_list s). induction l as [|t l IH]; intros [|t' l'] H; try done. cbn in H.
  injection H as Ht Hl. rewrite !length_filter_cons, (IH _ Hl). unfold stopped. repeat case_decide; congruence.
Qed.

Lemma check_from_reaps n i s :
  cb_ok (sv_bus s) →
  ∃ s', check_from cfg n i s = Ok s' ∧ cb_ok (sv_bus s') ∧ served (sv_thr_list s') = served (sv_thr_list s)
    ∧ (ended s' ≤ ended s)%nat
    ∧ ((∃ j t, (i ≤ j < i + n)%nat ∧ sv_thr_list s !! j = Some t ∧ stopped t) → (ended s' < ended s)%nat).
Proof.
  revert i s. induction n as [|n IH]; intros i s Hb; cbn [check_from].
  { exists s. split_and!; try done. intros (j & t & Hj & _). lia. }
  destruct (check_thread_reaps i s Hb) as (s1 & -> & Hb1 & Hs1 & Hl). rewrite bind_Ok_l.
  destruct (IH (S i) s1 Hb1) as (s' & -> & Hb' & Hs' & Hle & Hlt). exists s'. split; [done|].
  split; [done|]. split; [congruence|]. destruct (sv_thr_list s !! i) as [t|] eqn:Hi.
  - destruct (th_running t) eqn:Ht.
    + rewrite <-(ended_flags _ _ Hl). split; [done|]. intros (j & u & Hj & Hu & Hst). apply Hlt.
      assert (j ≠ i) by (intros ->; unfold stopped in Hst; congruence).
      pose proof (f_equal (λ l, l !! j) Hl) as Hf. cbn in Hf. rewrite !list_lookup_fmap, Hu in Hf. cbn in Hf.
      destruct (sv_thr_list s1 !! j) as [v|] eqn:Hv; [|done]. injection Hf as Hf. exists j, v.
      split_and!; [lia|lia|done|]. unfold stopped in *. congruence.
    + pose proof (filter_delete stopped _ _ _ Hi) as Hd. rewrite decide_True in Hd by done. rewrite <-Hl in Hd. split; lia.
  - subst. split; [done|]. intros (j & u & Hj & Hu & _). apply lookup_lt_Some in Hu. apply lookup_ge_None in Hi. lia.
Qed.

(** so many passes over the threads *)
Fixpoint passes (n : nat) s : outcome (server b w) :=
  match n with O => Ok s | S n => s ← check_threads cfg s; passes n s end.
End reap.

(** C19: ended threads are removed.  Erasing an element of the list skips the one
    after it, but every pass removes at least the first of the threads that ended:
    after as many passes as there are of them none is left, and the clients that
    are still served are the same, in the same order. *)
Theorem ended_threads_removed {regex b w : Type} {CB : CollectorBus b} {CU : CollectorUp b} {SK : Sockets w}
    (cfg : config regex) (s : server b w) (n : nat) :
  (∃ t, c_string (cf_admin_id cfg) = Ok t) → cb_ok (sv_bus s) → (length (filter stopped (sv_thr_list s)) ≤ n)%nat →
  ∃ s', passes cfg n s = Ok s' ∧ Forall (λ t, th_running t = true) (sv_thr_list s')
    ∧ served (sv_thr_list s') = served (sv_thr_list s).
Proof.
  intros Ha. revert s. induction n as [|n IH]; intros s Hb Hn; cbn [passes].
  - exists s. split_and!; try done. apply Forall_forall. intros t Ht. destruct (th_running t) eqn:E; [done|exfalso].
    assert (t ∈ filter stopped (sv_thr_list s)) as Hin by (by apply list_elem_of_filter).
    destruct (filter stopped (sv_thr_list s)); [by apply not_elem_of_nil in Hin|cbn in Hn; lia].
  - unfold check_threads. destruct (check_from_reaps cfg Ha (length (sv_thr_list s)) 0 s Hb) as (s1 & -> & Hb1 & Hs1 & Hle & Hlt).
    rewrite bind_Ok_l. destruct (IH s1 Hb1) as (s' & -> & Hf & Hs'); [|exists s'; split_and!; congruence].
    destruct (filter stopped (sv_thr_list s)) as [|t ts] eqn:E; [cbn in Hle; lia|].
    assert (t ∈ filter stopped (sv_thr_list s)) as [Hst Hin]%list_elem_of_filter by (rewrite E; left).
    apply list_elem_of_lookup in Hin as [j Hj]. pose proof (lookup_lt_Some _ _ _ Hj).
    assert (∃ j t, (0 ≤ j < 0 + length (sv_thr_list s))%nat ∧ sv_thr_list s !! j = Some t ∧ stopped t) as He
      by (exists j, t; split_and!; [lia|lia|done|done]).
    specialize (Hlt He). cbn in *. lia.
Qed.

(** ** The Kafka bus as the collector's bus *)

(** the values of the configuration the bus uses *)
Definition kafka_config {regex} (c : config regex) : KafkaConfig regex :=
  {| kf_groups := group_config c; kf_q_buf_max_ms := cf_int c q_buf_max_ms; kf_compression := cf_string c compression;
     kf_brokers := cf_string c kafka_brokers; kf_tx_max_bytes := cf_int c tx_max_bytes; kf_rx_max_bytes := cf_int c rx_max_bytes;
     kf_session_timeout := cf_int c session_timeout; kf_socket_timeout := cf_int c socket_timeout;
     kf_q_buf_max_msgs := cf_int c q_buf_max_msgs; kf_q_buf_max_kbytes := cf_int c q_buf_max_kbytes;
     kf_msg_send_max_retry := cf_int c msg_send_max_retry; kf_retry_backoff_ms := cf_int c retry_backoff_ms |}.

(** an exception of the bus ends the loop of the server *)
Definition kafka_collector {kc regex} {W : KafkaWorld kc} (cfg : KafkaConfig regex) (attempts : nat)
  : CollectorBus (msgBus_kafka kc) := {| cb_update oc code s := s ← k_update_Collector cfg attempts oc code s; surface s |}.

(** the second [collector_update_msg], of the SONiC build: the object is filled and
    goes nowhere *)
Definition redis_collector : CollectorBus unit := {| cb_update _ _ s := Ok s |}.
Lemma redis_collector_up : CollectorUp unit (CB := redis_collector).
Proof. refine {| cb_ok := λ _, True |}. intros oc code s _. by exists s. Qed.

Lemma kafka_collector_ok {kc regex} {W : KafkaWorld kc} {U : KafkaUp kc} (cfg : KafkaConfig regex) (attempts : nat)
    (templates : string → list segment) oc code s :
  templates_of (topic_names_map (kf_groups cfg)) templates → up_bus cfg templates s →
  ∃ s', k_update_Collector cfg attempts oc code s = Ok s' ∧ up_bus cfg templates s'.
Proof.
  intros HT Hs. unfold k_update_Collector, timestamp. destruct (getTimestamp _ _ _) as [ts k].
  set (s1 := set_world k s). assert (up_bus cfg templates s1) as H1 by exact Hs. unfold produce_text.
  set (body := snprintf 4096 _). rewrite length_bytes_of_string.
  assert (String.length body ≤ 4095)%nat as Hlen.
  { unfold body, snprintf. rewrite length_str_take. etransitivity; [apply Nat.le_min_l|]. by apply Nat.leb_le. }
  destruct (topicEnabled (topic_names_map (kf_groups cfg)) MSGBUS_TOPIC_VAR_COLLECTOR) eqn:E.
  - edestruct (produce_up cfg attempts templates HT MSGBUS_TOPIC_VAR_COLLECTOR body 1 (kb_collector_hash s1) "" 0 s1)
      as (s' & -> & Hu & _); [done|set_solver|done|done|done|lia|unfold MSGBUS_WORKING_BUF_SIZE; lia|].
    rewrite bind_Ok_l. eexists. split; [reflexivity|]. unfold count_one. destruct (raised s'); exact Hu.
  - unfold produce. destruct H1 as (Hx & Hc & Hrest & Hcl & Hg & Hip & sel & Hsel & Hok).
    assert (ensure_connected cfg attempts true s1 = Ok s1) as ->
      by (destruct attempts; cbn [ensure_connected]; rewrite Hc, Hsel; by rewrite bool_decide_true by (by eexists)).
    rewrite bind_Ok_l, raised_false, E by done. cbn [negb]. rewrite bind_Ok_l.
    eexists. split; [reflexivity|]. unfold count_one. destruct (raised s1); exact Hs.
Qed.

Definition kafka_collector_up {kc regex} {W : KafkaWorld kc} {U : KafkaUp kc} (cfg : KafkaConfig regex) (attempts : nat)
    (templates : string → list segment) (HT : templates_of (topic_names_map (kf_groups cfg)) templates)
  : @CollectorUp (msgBus_kafka kc) (kafka_collector cfg attempts).
Proof.
  refine (@Build_CollectorUp _ (kafka_collector cfg attempts) (up_bus cfg templates) _).
  intros oc code s H. destruct (kafka_collector_ok cfg attempts templates oc code s HT H) as (s' & E & Hu). exists s'.
  split; [|exact Hu]. cbn. rewrite E, bind_Ok_l. unfold surface. by rewrite (proj1 Hu).
Defined.

(** ** The configuration the server runs with *)

Lemma length_snprintf_into dst s : dst ≠ [] → length (snprintf_into dst s) = length dst.
Proof.
  intros Hn. unfold snprintf_into. rewrite length_app. cbn [length]. rewrite length_drop, length_bytes_of_string.
  unfold snprintf. rewrite length_str_take. destruct dst; [done|]. cbn [length pred]. lia.
Qed.

Section args_ok.
Context {regex : Type}.
Implicit Type o : options regex.

Definition args_ok (r : args_result regex) : Prop := match r with ArgsOk o => config_ok (op_cfg o) | _ => True end.

Lemma value_option_ok opt v o r :
  config_ok (op_cfg o) → value_option opt v o = Some (Ok r) → args_ok r.
Proof.
  intros Hc. unfold value_option.
  repeat match goal with
  | |- context [if String.eqb opt ?x then _ else _] => destruct (String.eqb opt x)
  end; intros H; simplify_eq; cbn; try done.
  - destruct (_ || _) eqn:E; [done|]. apply orb_false_iff in E as [E1 E2]. apply set_int_ok; [cbn; lia|done].
  - destruct (negb _); [done|]. injection H as <-. destruct (_ || _) eqn:E; [done|]. apply orb_false_iff in E as [E1 E2].
    apply set_int_ok; [cbn; lia|done].
  - repeat case_match; simplify_eq; cbn; try done; repeat (apply set_bool_ok; [try done..|]); try done;
      cbn; intros _; by rewrite ?orb_true_r.
  - by apply set_string_ok.
  - destruct Hc. constructor; try done. cbn. rewrite length_snprintf_into; [done|]. intros E. by rewrite E in ok_admin.
  - destruct (_ || _) eqn:E; [done|]. apply orb_false_iff in E as [E1 E2]. apply set_int_ok; [cbn; lia|done].
Qed.
Lemma plain_option_ok opt o : config_ok (op_cfg o) → config_ok (op_cfg (plain_option opt o)).
Proof. intros Hc. unfold plain_option. repeat case_match; cbn; try done; by apply set_bool_ok. Qed.

Lemma args_loop_ok args o r : config_ok (op_cfg o) → args_loop args o = Ok r → args_ok r.
Proof.
  revert o. induction (well_founded_ltof _ (@length string) args) as [args _ IH]. unfold ltof in IH.
  intros o Hc. destruct args as [|opt rest]; cbn [args_loop]; [by intros [= <-]|].
  destruct (String.eqb opt "-h"); [by intros [= <-]|]. destruct (takes_value opt).
  - destruct rest as [|v rest]; [by intros [= <-]|]. intros (r1 & H1 & H)%bind_Ok_inv.
    assert (args_ok r1) as Hr.
    { destruct (value_option opt v o) as [m|] eqn:E; cbn in H1; [subst; by eapply value_option_ok|by injection H1 as <-]. }
    destruct r1; [|by injection H as <-..]. eapply IH; [|exact Hr|exact H]. cbn. lia.
  - apply IH; [cbn; lia|by apply plain_option_ok].
Qed.
End args_ok.

(** C17: the server starts with a configuration in range, from every command line
    and every file: the numbers are within the bounds that the code compares with
    ([int_low], [int_high]: a port from 25, although the message of the option says 100,
    and a buffer of 2 to 384 MB, although the usage says 128), at least one family is
    listened on, the compression is one of the four that are known, the groups are
    ordered, the prefixes in them have a bit count in the range of their family (and
    nothing more, see [entry_ok]), and the admin ID is a text that is not empty. *)
Theorem server_config_ok {node regex : Type} {Y : Yaml node} {YL : YamlLaws node} (regex_compile : string → option regex)
    (gethostname : list Z → list Z) (subscript_first : bool) (file : string → option node) (args : list string)
    (o : options regex) :
  (∀ l, length (gethostname l) = length l) →
  main_config regex_compile gethostname subscript_first file args = Ok (MainRun o) →
  config_ok (op_cfg o) ∧ ∃ t, c_string (cf_admin_id (op_cfg o)) = Ok t ∧ t ≠ [].
Proof.
  intros Hh H. unfold main_config in H. apply bind_Ok_inv in H as (r & Hr & H).
  assert (args_ok r) as Hok.
  { unfold ReadCmdArgs in Hr. repeat case_match; simplify_eq; try done; (eapply args_loop_ok; [|exact Hr]); apply new_config_ok. }
  destruct r as [o1| |]; [|done..]. cbn in Hok.
  assert (keeps config_ok (match op_cfg_filename o1 with
    Some f => load regex_compile gethostname subscript_first (file f) (op_cfg o1) | None => Good (op_cfg o1) end)) as Hk.
  { destruct (op_cfg_filename o1) as [f|]; [|done]. apply load_ok; done. }
  destruct (match op_cfg_filename o1 with Some f => _ | None => _ end) as [c|[]]; try done.
  apply bind_Ok_inv in H as (t & Ht & H). destruct t as [|x t]; [done|]. injection H as <-. cbn. split; [exact Hk|eauto].
Qed.

(** An admin ID of 64 characters or more in the configuration file fills its
    array, and the length the program asks for is read past the end. *)
Theorem long_admin_id_overread (s : string) (f : string) :
  (64 ≤ String.length s)%nat → str_all no_nul_char s = true →
  main_config any_regex fixed_host false (λ _, Some (DMap [("base", DMap [("admin_id", DScalar s)])])) ["-c"; f] = Undef OobRead.
Proof.
  intros Hl Hs. unfold main_config. cbn [ReadCmdArgs]. cbn. unfold load. cbn.
  assert (String.eqb s "hostname" = false) as -> by (apply String.eqb_neq; intros ->; cbn in Hl; lia). cbn.
  assert (¬ 0 ∈ strncpy_fill 64 s) as Hn.
  { unfold strncpy_fill. rewrite c_str_id by done. rewrite length_take, length_bytes_of_string, Nat.min_l by lia.
    replace (64 - 64)%nat with 0%nat by lia. cbn [zeros replicate]. rewrite app_nil_r. intros H%elem_of_take.
    destruct H as (i & H & _). apply list_elem_of_lookup_2 in H. unfold bytes_of_string in H.
    apply list_elem_of_fmap in H as (c & Hc & Hin). clear -Hs Hc Hin. induction s as [|c' s IH]; [by apply not_elem_of_nil in Hin|].
    cbn in Hs, Hin. apply andb_prop in Hs as [H1 H2]. apply elem_of_cons in Hin as [->|Hin]; [|auto].
    unfold no_nul_char in H1. rewrite <-Hc in H1. done. }
  unfold c_string. by rewrite bool_decide_false by done.
Qed.

(** ** Samples *)

(** a bus that remembers what it was told *)
#[global] Instance log_bus : CollectorBus (list (collector_action_code * string * Z)) := {
  cb_update oc code l := Ok (l ++ [(code, co_routers oc, co_router_count oc)]) }.

Definition sample_config : config unit := set_admin (strncpy_fill 64 "collector1") (new_config unit).
Lemma sample_config_ok : config_ok sample_config.
Proof. destruct (new_config_ok unit). by constructor. Qed.

Definition sample_thread (n : Z) (running : bool) : ThreadMgmt :=
  {| th_client := {| cc_hash_id := zeros 16; cc_initRec := false; cc_sock := 0; cc_ip := inet_ntop4 [192; 0; 2; n];
                     cc_port := ""; cc_s_ip := None; cc_s_port := None; cc_startTime := 1700000000 |};
     th_running := running; th_baselineTimeout := false |}.

(** three connections; two are within their initial time, so that the third waits
    until the first thread has ended *)
Definition server_round (h : list Z) (l : BMPListener) (s : server (list (collector_action_code * string * Z)) Z) :=
  s ← check_threads sample_config s; accept_phase sample_config h l s.
Example server_run :
  match server_start sample_config (λ _, Ok []) 3 with
  | Ok (h, l, s) =>
      match s ← server_round h l s; s ← server_round h l s; s ← server_round h l s;
            server_round h l (set_threads (alter stop_thread 0%nat (sv_thr_list s)) (sv_active s) (sv_concurrent s) s) with
      | Ok s => sv_bus s = [(COLLECTOR_ACTION_STARTED, "", 0); (COLLECTOR_ACTION_CHANGE, "192.0.2.1", 1);
                            (COLLECTOR_ACTION_CHANGE, "192.0.2.1, 192.0.2.1", 2); (COLLECTOR_ACTION_CHANGE, "192.0.2.1", 1);
                            (COLLECTOR_ACTION_CHANGE, "192.0.2.1, 192.0.2.1", 2)]
                ∧ sv_active s = 2 ∧ sv_concurrent s = 2
      | _ => False
      end
  | _ => False
  end.
Proof. vm_compute. done. Qed.

(** a port is taken modulo 65536, and the mode v4 does not switch IPv6 off *)
Example port_wraps :
  match ReadCmdArgs ["-p"; "65561"; "-m"; "V4V6"; "-m"; "v4"] (new_config unit) with
  | Ok (ArgsOk o) => cf_int (op_cfg o) bmp_port = 25 ∧ cf_bool (op_cfg o) svr_ipv6 = true
  | _ => False
  end.
Proof. vm_compute. done. Qed.

Lemma server_counters_witness :
  ∃ h l s0 (s : server (list (collector_action_code * string * Z)) Z),
    server_start sample_config (λ _, Ok ([] : list (collector_action_code * string * Z))) 3 = Ok (h, l, s0)
    ∧ length (sv_thr_list s) = 1%nat ∧ books sample_config s.
Proof.
  destruct (server_start sample_config (λ _, Ok []) 3) as [[[h l] s0]| | |] eqn:E; [|exfalso; vm_compute in E; discriminate E..].
  destruct (accept_phase sample_config h l s0) as [s| | |] eqn:E1;
    [|exfalso; vm_compute in E; injection E as <- <- <-; vm_compute in E1; discriminate E1..].
  exists h, l, s0, s. split; [reflexivity|]. split.
  - vm_compute in E. injection E as <- <- <-. vm_compute in E1. injection E1 as <-. reflexivity.
  - apply (server_counters sample_config (λ _, Ok []) 3 h l s0 (Check 0) s sample_config_ok E).
    eapply rtc_l; [apply step_checked|eapply rtc_l; [apply step_accept; exact E1|apply rtc_refl]].
    vm_compute in E. injection E as <- <- <-. cbn. lia.
Defined.

Lemma ended_threads_removed_witness :
  ∃ s' : server (msgBus_kafka kafka_record) Z,
    passes (CB := kafka_collector sample_kafka_config 3) sample_config 2
      {| sv_thr_list := [sample_thread 1 false; sample_thread 2 false; sample_thread 3 true]; sv_active := 3;
         sv_concurrent := 3; sv_last_heartbeat := 0; sv_baseline := ∅; sv_bus := sample_bus; sv_world := 3 |} = Ok s'
    ∧ Forall (λ t, th_running t = true) (sv_thr_list s').
Proof.
  destruct (ended_threads_removed (CB := kafka_collector sample_kafka_config 3)
    (CU := kafka_collector_up sample_kafka_config 3 sample_templates sample_templates_ok) sample_config
    {| sv_thr_list := [sample_thread 1 false; sample_thread 2 false; sample_thread 3 true]; sv_active := 3;
       sv_concurrent := 3; sv_last_heartbeat := 0; sv_baseline := ∅; sv_bus := sample_bus; sv_world := 3 |} 2)
    as (s' & H1 & H2 & _).
  - eexists. vm_compute. reflexivity.
  - exact sample_bus_up.
  - vm_compute. lia.
  - exists s'. split; [exact H1|exact H2].
Defined.

Lemma server_config_ok_witness :
  ∃ o, main_config any_regex fixed_host false (λ _, Some sample) ["-c"; "openbmpd.conf"; "-hi"; "10"] = Ok (MainRun o)
    ∧ config_ok (op_cfg o).
Proof.
  destruct (main_config any_regex fixed_host false (λ _, Some sample) ["-c"; "openbmpd.conf"; "-hi"; "10"])
    as [[| |o]| | |] eqn:E; try (exfalso; vm_compute in E; discriminate E).
  exists o. split; [reflexivity|].
  apply (server_config_ok any_regex fixed_host false (λ _, Some sample) ["-c"; "openbmpd.conf"; "-hi"; "10"] o); [|exact E].
  intros l. unfold fixed_host. rewrite length_take, length_app, length_zeros. lia.
Defined.

Lemma long_admin_id_overread_witness :
  main_config any_regex fixed_host false
    (λ _, Some (DMap [("base", DMap [("admin_id",
       DScalar "collector-0123456789-0123456789-0123456789-0123456789-0123456789")])])) ["-c"; "openbmpd.conf"]
  = Undef OobRead.
Proof. apply long_admin_id_overread; [vm_compute; lia|vm_compute; reflexivity]. Defined.

(** at the limit of concurrent routers there is no heartbeat, however long ago the
    last one was *)
Example limit_no_heartbeat :
  let s := {| sv_thr_list := [sample_thread 1 true; sample_thread 2 true]; sv_active := 2; sv_concurrent := 2;
              sv_last_heartbeat := 0; sv_baseline := {[zeros 16 := 2000000000]};
              sv_bus := [] : list (collector_action_code * string * Z); sv_world := 3 |} in
  match server_round (zeros 16) {| sock := 3; sockv6 := 0; svr_addr := {| sa_octets := None; sa_port := 0 |};
                                   svr_addrv6 := {| sa_octets := None; sa_port := 0 |} |} s with
  | Ok s' => sv_bus s' = []
  | _ => False
  end.
Proof. vm_compute. done. Qed.
