(* ===== verification/Session.v ===== *)
(** * A connection from end to end ([client_thread.cpp])

    The bus and the reader of a connection: the thread opens a Kafka bus, the reader
    reads its octets with it, and the bus is closed when the reader has ended.  How the
    two threads interleave is in [Connection]. *)

From S2P Require Import Prelude Inet BgpCommon TopicSelector Configuration UpdateTypes MPReach MsgBus BMPReader Kafka KafkaLs.
From S2P Require Import BusFrame ClientThread Listener Server.

(** a new reader; its hash is set before it is used *)
Definition new_reader {b : Type} (conn : client_conn) (hash octets : list Z) (baseline : gmap (list Z) Z) (bus : b) : reader b :=
  {| router_hash_id := hash; rate := new_rate; peer_info_map := ∅; client := client_of conn octets;
     router_baseline_time := baseline; mbus := bus |}.

(** the configuration as the reader uses it *)
Definition reader_config {regex} (c : config regex) (c_hash_id : list Z) : Config :=
  {| BMPReader.pat_enabled := cf_bool c Configuration.pat_enabled; BMPReader.c_hash_id := c_hash_id |}.

Section session.
Context {kc : Type} {W : KafkaWorld kc} {LS : LinkState} {regex : Type}.
Context (regex_search : string → regex → bool) (c : config regex) (c_hash_id : list Z) (attempts : nat).
Abbreviation kcfg := (kafka_config c).
#[local] Instance session_bus : MsgBus (msgBus_kafka kc) := kafka_bus regex_search kcfg attempts.

(** The bus of the connection, with its debug mode.  The thread catches an exception
    of the bus, and then closes descriptors and waits for a reader that it never
    assigned. *)
Definition open_session (k : kc) : outcome (msgBus_kafka kc) :=
  match (bus ← new_bus kcfg c_hash_id None k;
         if cf_bool c debug_msgbus then k_enableDebug kcfg bus else Ok bus) with
  | Throw _ => Undef Uninit
  | r => r
  end.

(** what the reader does with the octets it gets, and the end of the bus *)
Definition read_session (conn : client_conn) (hash : list Z) (baseline : gmap (list Z) Z) (clock : list (Z * Z * Z))
    (octets : list Z) (k : kc) : outcome (msgBus_kafka kc) :=
  bus ← open_session k;
  '(_, rd) ← readerThreadLoop false (reader_config c c_hash_id) clock (new_reader conn hash octets baseline bus);
  close_bus regex_search kcfg attempts (mbus rd).
End session.

(** The bus keeps its shape.  Whatever the router sends and whatever the broker
    answers, the bus of a connection has a producer and a topic selector when it is
    connected, and counters of their width, when the reader has ended. *)
Theorem session_keeps_shape {kc : Type} {W : KafkaWorld kc} {LS : LinkState} {regex : Type}
    (regex_search : string → regex → bool) (c : config regex) (c_hash_id : list Z) (attempts : nat) (conn : client_conn)
    (hash octets : list Z) (baseline : gmap (list Z) Z) (clock : list (Z * Z * Z)) (k : kc) (bus : msgBus_kafka kc)
    (run : bool) (rd : reader (msgBus_kafka kc)) :
  bytes_ok c_hash_id → length c_hash_id = 16%nat → open_session c c_hash_id k = Ok bus →
  readerThreadLoop (MB := session_bus regex_search c attempts) false (reader_config c c_hash_id) clock
    (new_reader conn hash octets baseline bus) = Ok (run, rd) →
  bus_wf (mbus rd).
Proof.
  intros Hb Hl Ho Hr. revert Hr. apply reader_uses_interface.
  - intros b b' H%handler_bus_op. by eapply wf_bus_op.
  - change (bus_wf bus). unfold open_session in Ho. destruct (new_bus (kafka_config c) c_hash_id None k) as [b0| | |] eqn:E; [|done..].
    assert (bus_wf b0) as H0.
    { unfold new_bus in E. eapply wf_surface; [exact E|]. apply wf_connect. split_and!; [done|cbn; lia|by apply hash_toStr_32]. }
    rewrite bind_Ok_l in Ho. destruct (cf_bool c debug_msgbus); [|by injection Ho as <-].
    destruct (k_enableDebug (kafka_config c) b0) as [b1| | |] eqn:Ec; [|done..]. injection Ho as <-.
    unfold k_enableDebug in Ec. eapply wf_surface; [exact Ec|]. apply wf_connect.
    apply wf_set_world. destruct H0 as (_ & H1 & H2). split_and!; [done|exact H1|exact H2].
Qed.

(** ** A sample connection *)

Definition sample_conn : client_conn :=
  {| cc_hash_id := zeros 16; cc_initRec := false; cc_sock := 4; cc_ip := "192.0.2.9"; cc_port := "40000";
     cc_s_ip := None; cc_s_port := None; cc_startTime := 0 |}.
(** the smallest buffer the configuration allows *)
Definition small_config : config unit := set_int bmp_buffer_size (2 * 1024 * 1024) sample_config.

Lemma small_config_ok : config_ok small_config.
Proof. apply set_int_ok; [cbn; lia|apply sample_config_ok]. Qed.
