(* ===== verification/Process.v ===== *)
(** * The process ([openbmp.cpp])

    What surrounds the server loop: the log file, becoming a daemon, and the
    signals.  The answers of the operating system are a record; the descriptors of
    the process are a map, from which the system takes the lowest free number. *)

From stdpp Require Import sorting.
From S2P Require Import Prelude Inet Logger TopicSelector Configuration MsgBus Listener Server.

(** ** Descriptors *)

Section descriptors.
Context {A : Type}.
Implicit Type fds : gmap Z A.

Fixpoint lowest_from (n : nat) (i : Z) fds : Z :=
  match n with
  | O => i
  | S n => match fds !! i with Some _ => lowest_from n (i + 1) fds | None => i end
  end.
(** the lowest number that is not in use *)
Definition lowest_free fds : Z := lowest_from (size fds) 0 fds.

Lemma lowest_from_spec n i fds :
  let r := lowest_from n i fds in
  i ≤ r ≤ i + Z.of_nat n ∧ (∀ j, i ≤ j < r → is_Some (fds !! j)) ∧ (fds !! r = None ∨ r = i + Z.of_nat n).
Proof.
  revert i. induction n as [|n IH]; intros i; cbn [lowest_from]; [split_and!; try lia|].
  destruct (fds !! i) eqn:E; [|split_and!; [lia..|by left]].
  destruct (IH (i + 1)) as (H1 & H2 & H3). split_and!; [lia..| |].
  - intros j Hj. destruct (decide (j = i)) as [->|]; [by eexists|]. apply H2. lia.
  - destruct H3 as [H3|H3]; [by left|right; lia].
Qed.

Lemma lowest_free_spec fds :
  0 ≤ lowest_free fds ∧ fds !! lowest_free fds = None ∧ ∀ j, 0 ≤ j < lowest_free fds → is_Some (fds !! j).
Proof.
  destruct (lowest_from_spec (size fds) 0 fds) as (H1 & H2 & H3). fold (lowest_free fds) in *. split_and!; [lia| |done].
  destruct (fds !! lowest_free fds) as [x|] eqn:E; [|done]. destruct H3 as [H3|H3]; [done|]. exfalso.
  assert ((list_to_set (seqZ 0 (Z.of_nat (S (size fds)))) : gset Z) ⊆ dom fds) as Hsub.
  { intros j. rewrite elem_of_list_to_set, elem_of_seqZ, elem_of_dom. intros Hj.
    destruct (decide (j = lowest_free fds)) as [->|]; [by eexists|]. apply H2. lia. }
  apply subseteq_size in Hsub. rewrite size_list_to_set, size_dom, length_seqZ in Hsub by apply NoDup_seqZ. lia.
Qed.

Lemma lowest_free_zero fds : fds !! 0 = None → lowest_free fds = 0.
Proof.
  intros H. destruct (lowest_free_spec fds) as (H1 & _ & H2). destruct (decide (lowest_free fds = 0)) as [|Hn]; [done|].
  destruct (H2 0) as [x Hx]; [lia|]. by rewrite H in Hx.
Qed.
End descriptors.

(** ** The process *)

(** descriptors and what they are; created files with their contents and modes *)
Record proc : Type := {
  pr_fds : gmap Z string; pr_umask : Z; pr_cwd : string; pr_files : gmap string (string * Z) }.

Definition set_fds (fds : gmap Z string) (p : proc) : proc :=
  {| pr_fds := fds; pr_umask := pr_umask p; pr_cwd := pr_cwd p; pr_files := pr_files p |}.
Definition close_fd (fd : Z) (p : proc) : proc := set_fds (delete fd (pr_fds p)) p.
Definition open_fd (what : string) (p : proc) : Z * proc :=
  let fd := lowest_free (pr_fds p) in (fd, set_fds (<[fd := what]> (pr_fds p)) p).

(** a name that does not start with a slash is in the current directory *)
Definition absolute (p : proc) (name : string) : string :=
  match name with String "/" _ => name | _ => pr_cwd p +:+ name end.

(** the answers of the system *)
Record os_answers : Type := { os_fork : Z; os_setsid : Z; os_chdir : Z; os_pid : Z; os_creatable : string → bool }.

Inductive fate (A : Type) : Type := Exited (code : Z) | Runs (a : A).
Arguments Exited {_} _.
Arguments Runs {_} _.

Definition STDIN_FILENO : Z := 0.
Definition STDOUT_FILENO : Z := 1.
Definition STDERR_FILENO : Z := 2.

(** [ofstream pfile(name)], the number and a newline, [close] *)
Definition write_pid (os : os_answers) (name : string) (p : proc) : fate proc :=
  let file := absolute p name in
  if os_creatable os file then
    let '(fd, p) := open_fd file p in
    Runs (close_fd fd {| pr_fds := pr_fds p; pr_umask := pr_umask p; pr_cwd := pr_cwd p;
                         pr_files := <[file := (dec (os_pid os) +:+ NL, Z.land 438 (Z.lnot (pr_umask p)))]> (pr_files p) |})
  else Exited 1.

(** The parent ends with the code 0, as [fork] gives it a positive number. *)
Definition daemonize (os : os_answers) (pid_filename : option string) (p : proc) : fate proc :=
  if os_fork os <? 0 then Exited 1
  else if 0 <? os_fork os then Exited 0
  else if os_setsid os <? 0 then Exited 1
  else
    let p := {| pr_fds := pr_fds p; pr_umask := 0; pr_cwd := pr_cwd p; pr_files := pr_files p |} in
    if os_chdir os <? 0 then Exited 1
    else
      let p := {| pr_fds := pr_fds p; pr_umask := pr_umask p; pr_cwd := "/"; pr_files := pr_files p |} in
      let p := close_fd STDERR_FILENO (close_fd STDOUT_FILENO (close_fd STDIN_FILENO p)) in
      match pid_filename with
      | Some name => write_pid os name p
      | None => Runs p
      end.

Section main.
Context {regex : Type} (path : string → string + Z) (fresh : gmap Z stream → Z).

(** the descriptors of the files a logger opened *)
Definition log_fds (lg : Logger) (p : proc) : proc :=
  let p := if logFile_REALFILE lg then (open_fd "log" p).2 else p in
  if debugFile_REALFILE lg then (open_fd "debug" p).2 else p.

(** [main] from the log file to [runServer] *)
Definition main_setup (os : os_answers) (o : options regex) (io : stdio) (p : proc) : fate (Logger * stdio * proc) :=
  match new_logger path fresh (op_log_filename o) (op_debug_filename o) io with
  | (inl _, _) => Exited 2
  | (inr lg, io) =>
      let p := log_fds lg p in
      let lg := setWidthFunction 18 (setWidthFilename 15 lg) in
      if cf_bool (op_cfg o) debug_general then Runs (lg_enableDebug lg, io, p)
      else if negb (op_foreground o) then
        match daemonize os (op_pid_filename o) p with
        | Exited c => Exited c
        | Runs p => Runs (lg, io, p)
        end
      else Runs (lg, io, p)
  end.
End main.

(** ** Signals *)

Definition SIGHUP : Z := 1.
Definition SIGINT : Z := 2.
Definition SIGQUIT : Z := 3.
Definition SIGKILL : Z := 9.
Definition SIGUSR1 : Z := 10.
Definition SIGUSR2 : Z := 12.
Definition SIGPIPE : Z := 13.
Definition SIGTERM : Z := 15.
Definition SIGCHLD : Z := 17.

(** the signals [main] installs the handler for *)
Definition handled_signals : list Z := [SIGCHLD; SIGHUP; SIGTERM; SIGPIPE; SIGQUIT; SIGINT; SIGUSR1; SIGUSR2].

(** what is done to the thread at an index of the list *)
Inductive thread_call : Set := PthreadCancel (i : nat) | PthreadJoin (i : nat).

(** [for (i = 0; i < thr_list.size(); i++)] *)
Fixpoint cancel_threads (i : nat) (l : list ThreadMgmt) : list thread_call :=
  match l with
  | [] => []
  | t :: l => (if th_running t then [PthreadCancel i; PthreadJoin i] else []) ++ cancel_threads (S i) l
  end.

Record handled : Type := { hd_calls : list thread_call; hd_threads : list ThreadMgmt; hd_run : bool; hd_exit : option Z }.

Definition signal_handler (signum : Z) (l : list ThreadMgmt) (run : bool) : handled :=
  if bool_decide (signum ∈ [SIGTERM; SIGKILL; SIGQUIT; SIGPIPE; SIGINT; SIGCHLD]) then
    {| hd_calls := cancel_threads 0 l; hd_threads := []; hd_run := false; hd_exit := Some 0 |}
  else {| hd_calls := []; hd_threads := l; hd_run := run; hd_exit := None |}.

(** ** Theorems *)

(** Becoming a daemon.  The server only runs in the child, in a session of its own:
    the parent exits with success, and every failure with code 1.  The child keeps
    all descriptors but the standard ones, which are closed, runs in the root
    directory, and its number is in the pid file: one with a relative name is in
    the root directory and not where the program was started, and everyone may
    write to it, since the mask of the process is cleared before. *)
Theorem daemon_environment (os : os_answers) (pid_filename : option string) (p : proc) :
  match daemonize os pid_filename p with
  | Exited code => code = 0 ∧ 0 < os_fork os ∨ code = 1
  | Runs p' =>
      os_fork os = 0 ∧ 0 ≤ os_setsid os ∧ 0 ≤ os_chdir os
      ∧ pr_cwd p' = "/" ∧ pr_umask p' = 0
      ∧ (∀ fd, pr_fds p' !! fd = if decide (fd = 0 ∨ fd = 1 ∨ fd = 2) then None else pr_fds p !! fd)
      ∧ pr_files p' = match pid_filename with
                      | None => pr_files p
                      | Some name => <[match name with String "/" _ => name | _ => "/" +:+ name end
                                       := (dec (os_pid os) +:+ NL, 438)]> (pr_files p)
                      end
  end.
Proof.
  unfold daemonize. destruct (Z.ltb_spec (os_fork os) 0); [by right|]. destruct (Z.ltb_spec 0 (os_fork os)); [by left|].
  destruct (Z.ltb_spec (os_setsid os) 0); [by right|]. destruct (Z.ltb_spec (os_chdir os) 0); [by right|].
  cbv zeta. set (p1 := close_fd STDERR_FILENO _).
  assert (∀ fd, pr_fds p1 !! fd = if decide (fd = 0 ∨ fd = 1 ∨ fd = 2) then None else pr_fds p !! fd) as Hfds.
  { intros fd. subst p1. cbn. unfold STDERR_FILENO, STDOUT_FILENO, STDIN_FILENO. rewrite !lookup_delete.
    repeat case_decide; try done; naive_solver. }
  destruct pid_filename as [name|]; [|split_and!; try done; lia].
  unfold write_pid. destruct (os_creatable os _); [|by right]. cbn [open_fd].
  split_and!; try done; try lia. intros fd. unfold open_fd, close_fd. cbn [pr_fds set_fds]. rewrite delete_insert_eq.
  destruct (lowest_free_spec (pr_fds p1)) as (_ & Hn & _). by rewrite delete_id, Hfds.
Qed.

(** the calls for a list of threads *)
Lemma cancel_threads_spec l k :
  ∃ idx, cancel_threads k l = idx ≫= (λ i, [PthreadCancel i; PthreadJoin i]) ∧ StronglySorted lt idx
    ∧ Forall (λ i, k ≤ i)%nat idx ∧ ∀ i, i ∈ idx ↔ ∃ j t, i = (k + j)%nat ∧ l !! j = Some t ∧ th_running t = true.
Proof.
  revert k. induction l as [|t l IH]; intros k.
    { exists []. split_and!; try constructor; intros; [by apply elem_of_nil in H|]. destruct H as (j & t & _ & Hj & _). by rewrite lookup_nil in Hj. }
    destruct (IH (S k)) as (idx & E & Hsort & Hk & Hin). cbn [cancel_threads]. rewrite E.
    assert (∀ i, i ∈ idx ↔ ∃ j t0, i = (k + S j)%nat ∧ l !! j = Some t0 ∧ th_running t0 = true) as Hin'.
    { intros i. rewrite Hin. by setoid_rewrite Nat.add_succ_r. }
    destruct (th_running t) eqn:Er; cbn [app].
    - exists (k :: idx). split_and!; [done| | |].
      + constructor; [done|]. eapply Forall_impl; [exact Hk|]. intros i. cbn. lia.
      + constructor; [done|]. eapply Forall_impl; [exact Hk|]. intros i. cbn. lia.
      + intros i. rewrite elem_of_cons, Hin'. split.
        * intros [->|(j & t0 & -> & Hj)]; [exists O, t; split_and!; [lia|done..]|by exists (S j), t0].
        * intros ([|j] & t0 & -> & Hj); [left; lia|right; by exists j, t0].
    - exists idx. split_and!; [done..| |].
      + eapply Forall_impl; [exact Hk|]. intros i. cbn. lia.
      + intros i. rewrite Hin'. split; [intros (j & t0 & -> & Hj); by exists (S j), t0|].
        intros ([|j] & t0 & -> & Hj & Hr); [|by exists j, t0]. cbn in Hj. congruence.
Qed.

(** A signal that ends the program: each thread that runs is cancelled once and waited
    for before the next, in the order of the list, no other is touched, and the process
    exits with 0 before the loop can tell the bus; the remaining signals the handler
    is installed for are ignored. *)
Theorem signals_end_threads (signum : Z) (l : list ThreadMgmt) (run : bool) :
  signum ∈ handled_signals →
  let h := signal_handler signum l run in
  if bool_decide (signum ∈ [SIGHUP; SIGUSR1; SIGUSR2])
  then h = {| hd_calls := []; hd_threads := l; hd_run := run; hd_exit := None |}
  else hd_exit h = Some 0 ∧ hd_threads h = []
    ∧ (∀ i, PthreadCancel i ∈ hd_calls h ↔ ∃ t, l !! i = Some t ∧ th_running t = true)
    ∧ (∃ idx, hd_calls h = idx ≫= (λ i, [PthreadCancel i; PthreadJoin i]) ∧ StronglySorted lt idx).
Proof.
  intros Hs. cbv zeta. unfold signal_handler.
  assert (bool_decide (signum ∈ [SIGTERM; SIGKILL; SIGQUIT; SIGPIPE; SIGINT; SIGCHLD])
    = negb (bool_decide (signum ∈ [SIGHUP; SIGUSR1; SIGUSR2]))) as ->.
  { unfold handled_signals in Hs. repeat (apply elem_of_cons in Hs as [->|Hs]; [reflexivity|]). by apply elem_of_nil in Hs. }
  destruct (bool_decide (signum ∈ [SIGHUP; SIGUSR1; SIGUSR2])); [done|]. cbn [negb hd_exit hd_threads hd_calls].
  destruct (cancel_threads_spec l O) as (idx & E & Hsort & _ & Hin). rewrite E. split_and!; try done; [|by exists idx].
  intros i. rewrite list_elem_of_bind. split.
  - intros (j & Hj & Hi). apply Hin in Hi as (k & t & -> & Hk). exists t.
    apply elem_of_cons in Hj as [[= ->]|Hj]; [done|]. by apply list_elem_of_singleton in Hj.
  - intros (t & Ht). exists i. split; [by left|]. apply Hin. by exists i, t.
Qed.

(** ** The daemon and its listener *)

(** the sockets of a process: [socket] fails or gives the lowest free descriptor *)
Class SocketFds (w : Type) {S : Sockets w} : Type := {
  sf_fds : w → gmap Z string;
  sf_lowest : ∀ v4 k, (sk_socket v4 k).1 < 0 ∨ (sk_socket v4 k).1 = lowest_free (sf_fds k) }.

(** a server whose listener is deaf stays without threads *)
Lemma deaf_server {regex b w : Type} {CB : CollectorBus b} {SK : Sockets w} (cfg : config regex) (h : list Z) (l : BMPListener)
    (x y : pc * server b w) :
  sock l = 0 → sockv6 l = 0 → rtc (step cfg h l) x y → sv_thr_list x.2 = [] → sv_thr_list y.2 = [].
Proof.
  intros E4 E6 Hr Hx. induction Hr as [|x y z Hs _ IH]; [done|]. apply IH. clear IH.
  destruct Hs as [i s s' Hi _|i s Hi|s s' E|p s j|p s m]; cbn in *; try done.
  - rewrite Hx in Hi. cbn in Hi. lia.
  - unfold accept_phase in E. rewrite deaf_listener in E by done.
    destruct (sv_concurrent s <? _); [|by injection E as <-]. destruct (sv_active s <=? MAX_THREADS); [|by injection E as <-].
    rewrite bind_Ok_l in E. cbn beta iota in E. set (s1 := set_outside _ _ _ s) in E.
    pose proof (clock_same s1) as Hc. destruct (clock s1) as [[secs us] s2]. cbn [snd] in Hc.
    assert (sv_thr_list s2 = []) as H2 by (destruct Hc as (-> & _); done).
    destruct (_ <=? _); [|by injection E as <-]. apply bind_Ok_inv in E as (s3 & E3 & E). injection E as <-.
    apply collector_same in E3 as (E3 & _). destruct (beat_same s3) as (-> & _). by rewrite E3.
  - by rewrite Hx.
Qed.

(** A daemon of the Redis build that listens on IPv4 only never serves a router.  The
    daemon closes its standard descriptors, and in this build nothing is connected
    before the listener ([connect] leaves the descriptors as they are): its socket gets
    the descriptor 0, which it takes for a socket that is not open.  However the loop
    goes on, whatever connections arrive, there is never a thread. *)
Theorem redis_daemon_deaf {regex b w : Type} {CB : CollectorBus b} {SK : Sockets w} {SF : SocketFds w}
    (path : string → string + Z) (fresh : gmap Z stream → Z) (os : os_answers) (o : options regex) (io io' : stdio) (p p' : proc)
    (lg : Logger) (bus : b) (k : w) (h : list Z) (l : BMPListener) (s : server b w) (y : pc * server b w) :
  cf_bool (op_cfg o) debug_general = false → op_foreground o = false → cf_bool (op_cfg o) svr_ipv6 = false →
  main_setup path fresh os o io p = Runs (lg, io', p') → sf_fds k = pr_fds p' →
  server_start (op_cfg o) (λ _, Ok bus) k = Ok (h, l, s) → rtc (step (op_cfg o) h l) (Check 0, s) y →
  sv_thr_list y.2 = [].
Proof.
  intros Hd Hf H6 Hsetup Hk Hstart Hr. unfold main_setup in Hsetup. rewrite Hd, Hf in Hsetup. cbn [negb] in Hsetup.
  destruct (new_logger path fresh _ _ io) as [[e|lg0] io0]; [done|].
  pose proof (daemon_environment os (op_pid_filename o) (log_fds lg0 p)) as Henv.
  destruct (daemonize os _ _) as [c|p1]; [done|]. injection Hsetup as _ _ <-. destruct Henv as (_ & _ & _ & _ & _ & Hfds & _).
  assert (lowest_free (sf_fds k) = 0) as H0 by (apply lowest_free_zero; by rewrite Hk, Hfds).
  unfold server_start in Hstart. apply bind_Ok_inv in Hstart as (adm & _ & Hstart). apply bind_Ok_inv in Hstart as (hh & _ & Hstart).
  rewrite bind_Ok_l in Hstart. apply bind_Ok_inv in Hstart as ([l' k'] & Hl & Hstart).
  apply bind_Ok_inv in Hstart as (s1 & Hs1 & Hstart). injection Hstart as <- <- <-.
  destruct (new_listener_sock _ _ _ _ H6 Hl) as [E6 E4]. assert (sock l' = 0) as E0.
  { destruct E4 as [|[E4 Hge]]; [done|]. destruct (sf_lowest true k) as [Hneg|Heq]; [lia|]. by rewrite E4, Heq. }
  apply (deaf_server (op_cfg o) _ _ _ _ E0 E6 Hr). cbn [snd]. destruct (beat_same s1) as (-> & _).
  apply collector_same in Hs1 as (-> & _). done.
Qed.

(** ** A sample process *)

(** sockets over the descriptors of a process, on which something always arrives *)
#[global] Instance fd_sockets : Sockets (gmap Z string) := {
  sk_socket _ m := let fd := lowest_free m in (fd, <[fd := "socket"]> m);
  sk_setsockopt _ _ m := (true, m);
  sk_bind _ _ _ m := (true, m);
  sk_listen _ m := m;
  sk_close fd m := delete fd m;
  sk_poll fds _ m := ((λ _, {| rv_err := false; rv_in := true |}) <$> fds, m);
  sk_accept _ m := let fd := lowest_free m in (fd, ([192; 0; 2; 1], 40000), <[fd := "router"]> m);
  sk_getsockname _ m := (None, m);
  sk_gettimeofday m := ((1700000000, 0), m) }.
#[global] Instance fd_sockets_fds : SocketFds (gmap Z string).
Proof. refine {| sf_fds := λ m, m |}. intros v4 m. right. reflexivity. Defined.

Definition sample_os : os_answers :=
  {| os_fork := 0; os_setsid := 4711; os_chdir := 0; os_pid := 4711; os_creatable := λ _, true |}.
Definition sample_proc : proc :=
  {| pr_fds := {[ 0 := "stdin"; 1 := "stdout"; 2 := "stderr" ]}; pr_umask := 18; pr_cwd := "/home/bmp/"; pr_files := ∅ |}.
Definition sample_options (fg : bool) : options unit :=
  {| op_cfg := sample_config; op_cfg_filename := None; op_log_filename := Some "log"; op_debug_filename := None;
     op_pid_filename := Some "run/bmp.pid"; op_foreground := fg |}.

(** the descriptors at the start of the server: in the foreground, and as a daemon *)
Definition sample_fds (fg : bool) : gmap Z string :=
  match main_setup sample_path sample_fresh sample_os (sample_options fg) sample_io sample_proc with
  | Runs (_, _, p) => pr_fds p
  | Exited _ => ∅
  end.
Example sample_daemon : sample_fds false = {[ 3 := "log" ]} ∧ sample_fds true !! 0 = Some "stdin".
Proof. vm_compute. done. Qed.

(** one pass of the loop, in the foreground and as a daemon: a connection is accepted
    only in the foreground *)
Definition first_pass (fg : bool) : outcome nat :=
  '(h, l, s) ← server_start sample_config (λ _, Ok []) (sample_fds fg);
  s ← accept_phase sample_config h l s;
  Ok (length (sv_thr_list s)).
Example foreground_serves : first_pass true = Ok 1%nat ∧ first_pass false = Ok 0%nat.
Proof. vm_compute. done. Qed.

Lemma redis_daemon_deaf_witness :
  ∃ h l s, server_start sample_config (λ _, Ok []) (sample_fds false) = Ok (h, l, s)
    ∧ ∀ y, rtc (step sample_config h l) (Check 0, s) y → sv_thr_list y.2 = [].
Proof.
  destruct (server_start sample_config (λ _, Ok []) (sample_fds false)) as [[[h l] s]| | |] eqn:E;
    [|exfalso; vm_compute in E; discriminate E..].
  exists h, l, s. split; [reflexivity|]. intros y Hy.
  destruct (main_setup sample_path sample_fresh sample_os (sample_options false) sample_io sample_proc) as [c|[[lg io'] p']] eqn:Es;
    [exfalso; vm_compute in Es; discriminate Es|].
  apply (redis_daemon_deaf sample_path sample_fresh sample_os (sample_options false) sample_io io' sample_proc p' lg []
    (sample_fds false) h l s y); try reflexivity; try exact E; try exact Hy; try exact Es.
  unfold sample_fds. rewrite Es. reflexivity.
Defined.

Lemma signals_end_threads_witness :
  hd_calls (signal_handler SIGTERM [sample_thread 1 true; sample_thread 2 false; sample_thread 3 true] true)
    = [PthreadCancel 0; PthreadJoin 0; PthreadCancel 2; PthreadJoin 2]
  ∧ hd_exit (signal_handler SIGTERM [sample_thread 1 true; sample_thread 2 false; sample_thread 3 true] true) = Some 0.
Proof.
  pose proof (signals_end_threads SIGTERM [sample_thread 1 true; sample_thread 2 false; sample_thread 3 true] true) as H.
  split; [reflexivity|]. apply H. by right; right; left.
Defined.
