(* ===== verification/ClientLife.v ===== *)
(** * The life of a connection thread ([client_thread.cpp])

    What the thread of a connection holds (the socket, the pair of sockets to the
    reader, the reader thread, the bus) and how it lets go of it, at every point
    where it may end: the hangup of the router, a reader that stopped, exceptions,
    and the cancellation by the signal handler.  A run is the list of the calls
    that release something; [Connection] runs these lists beside the reader thread.  The
    circular buffer is in [ClientThread]. *)

From S2P Require Import Prelude Inet Listener Process.

(** a pointer to a [std::thread]: never assigned, null, or a thread that was started *)
Inductive thread_ptr : Set := Indeterminate | NullThread | Started.

(** [ClientThreadInfo]; the members without a value are indeterminate.  [ci_mbus] is
    whether the pointer to the Kafka bus is not null; the Redis bus is held by a shared
    pointer of the structure and goes with it at the end of the thread. *)
Record ClientThreadInfo : Set := {
  ci_mbus : bool; ci_c_sock : Z; ci_pipe_sock : option Z; ci_write_end : option Z;
  ci_reader : thread_ptr; ci_closing : bool }.

Inductive release : Set :=
| Shutdown (fd : Z) | Close (fd : Z)
| DestroyReader                     (** the reader object [rBMP] leaves its scope *)
| StopRunning                       (** [thr->running = false] *)
| JoinReader | DeleteReader | DeleteBus.
#[global] Instance release_eq_dec : EqDecision release.
Proof. solve_decision. Defined.

Definition set_closed (mbus : bool) (reader : thread_ptr) (ci : ClientThreadInfo) : ClientThreadInfo :=
  {| ci_mbus := mbus; ci_c_sock := ci_c_sock ci; ci_pipe_sock := ci_pipe_sock ci; ci_write_end := ci_write_end ci;
     ci_reader := reader; ci_closing := true |}.

(** [if (mbus != NULL) { delete mbus; mbus = NULL; }] *)
Definition delete_bus (ci : ClientThreadInfo) : list release := if ci_mbus ci then [DeleteBus] else [].

(** The pointer to the reader is followed before it is compared with null. *)
Definition ClientThread_cancel (ci : ClientThreadInfo) : outcome (list release * ClientThreadInfo) :=
  if ci_closing ci then Ok ([], ci)
  else
    let sock := if ci_c_sock ci =? 0 then [] else [Shutdown (ci_c_sock ci); Close (ci_c_sock ci)] in
    pipe ← init_read (ci_pipe_sock ci);
    wr ← init_read (ci_write_end ci);
    match ci_reader ci with
    | Indeterminate => Undef Uninit
    | NullThread => Undef NullDeref
    | Started => Ok (sock ++ [Close pipe; Close wr; JoinReader; DeleteReader] ++ delete_bus ci, set_closed false NullThread ci)
    end.

(** after the handlers *)
Definition client_finish (ci : ClientThreadInfo) : outcome (list release * ClientThreadInfo) :=
  if ci_closing ci then Ok ([StopRunning], ci)
  else
    match ci_reader ci with
    | Indeterminate => Undef Uninit
    | NullThread => Ok (StopRunning :: delete_bus ci, set_closed false NullThread ci)
    | Started => Ok ([StopRunning; JoinReader; DeleteReader] ++ delete_bus ci, set_closed false NullThread ci)
    end.

(** ** The points where a thread may end *)

(** while the bus is created; after it; with the pair of sockets; and in the loop *)
Inductive stage : Set := Connecting | Connected | Piped | Reading.

(** the hangup of the socket or of the pipe, or a read without octets; the flag
    [bmp_run] cleared by the reader; an exception; the cancellation *)
Inductive ending : Set := Hangup | ReaderStopped | Raised | Cancelled.

(** [c_sock] is the socket at the end: the reader closes it and sets it to zero when
    it raises an exception. *)
Section thread.
Context (redis : bool) (c_sock s0 s1 : Z).

Definition info_at (st : stage) : ClientThreadInfo :=
  let piped := match st with Piped | Reading => true | _ => false end in
  {| ci_mbus := negb redis && match st with Connecting => false | _ => true end;
     ci_c_sock := c_sock; ci_pipe_sock := if piped then Some s0 else None; ci_write_end := if piped then Some s1 else None;
     ci_reader := match st with Reading => Started | _ => Indeterminate end; ci_closing := false |}.

(** [sock_fds], an array without an initialiser *)
Definition sock_fds (st : stage) : option (Z * Z) := match st with Piped | Reading => Some (s0, s1) | _ => None end.

(** [close(sock_fds[0]); close(sock_fds[1])] *)
Definition close_pair (st : stage) : outcome (list release) :=
  '(a, b) ← init_read (sock_fds st); Ok [Close a; Close b].

(** the reader object is constructed between the bus and the pair of sockets *)
Definition leave_try (st : stage) : list release := match st with Piped | Reading => [DestroyReader] | _ => [] end.

(** On a cancellation the handler of the forced unwinding runs first and then the
    cleanup routine; the rest of the function does not run. *)
Definition client_end (st : stage) (e : ending) : outcome (list release) :=
  let ci := info_at st in
  match e with
  | Hangup =>
      pair ← close_pair st;
      '(tr, _) ← client_finish ci;
      Ok (pair ++ [Close (ci_c_sock ci)] ++ leave_try st ++ tr)
  | ReaderStopped => '(tr, _) ← client_finish ci; Ok (leave_try st ++ tr)
  | Raised =>
      pair ← close_pair st;
      '(tr, _) ← client_finish ci;
      Ok (leave_try st ++ pair ++ tr)
  | Cancelled =>
      pair ← close_pair st;
      '(tr, _) ← ClientThread_cancel ci;
      Ok (leave_try st ++ pair ++ tr)
  end.

(** ** Order of release *)

Definition closes (tr : list release) (fd : Z) : nat := length (filter (λ x, x = Close fd) tr).
End thread.

Lemma client_end_reading redis c_sock s0 s1 e :
  client_end redis c_sock s0 s1 Reading e
  = Ok ((match e with
        | Hangup => [Close s0; Close s1; Close c_sock; DestroyReader; StopRunning]
        | ReaderStopped => [DestroyReader; StopRunning]
        | Raised => [DestroyReader; Close s0; Close s1; StopRunning]
        | Cancelled => [DestroyReader; Close s0; Close s1]
                       ++ (if c_sock =? 0 then [] else [Shutdown c_sock; Close c_sock]) ++ [Close s0; Close s1]
        end) ++ [JoinReader; DeleteReader] ++ (if redis then [] else [DeleteBus])).
Proof.
  destruct e, redis; unfold client_end, client_finish, ClientThread_cancel; cbn; try reflexivity; by destruct (c_sock =? 0).
Qed.

(** Descriptors.  A hangup closes the socket and both ends of the pipe, each once.  When
    the reader stopped, after an exception that made it close the socket, the two
    descriptors of the pipe are never closed; an exception of the thread itself loses
    the socket; and a cancellation closes both ends of the pipe twice, with a pause in
    between in which another thread may get their numbers. *)
Theorem descriptors_released (redis : bool) (c_sock s0 s1 : Z) (e : ending) (tr : list release) :
  c_sock ≠ 0 → NoDup [c_sock; s0; s1] → client_end redis c_sock s0 s1 Reading e = Ok tr →
  (closes tr c_sock, closes tr s0, closes tr s1)
  = (match e with Hangup => (1, 1, 1) | ReaderStopped => (0, 0, 0) | Raised => (0, 1, 1) | Cancelled => (1, 2, 2) end)%nat.
Proof.
  intros Hc Hnd. rewrite client_end_reading. intros [= <-].
  apply NoDup_cons in Hnd as [N1 Hnd]. apply NoDup_cons in Hnd as [N2 _].
  assert (c_sock ≠ s0 ∧ c_sock ≠ s1 ∧ s0 ≠ s1) as (A & B & C) by set_solver. clear N1 N2.
  unfold closes. rewrite (proj2 (Z.eqb_neq _ _)) by done.
  destruct e, redis; cbn [app]; repeat (rewrite filter_cons; case_decide; try congruence); reflexivity.
Qed.

(** The reader object is destroyed before the reader thread is waited for, however
    the thread ends: until then the reader may still be using it. *)
Theorem reader_object_dies_first (redis : bool) (c_sock s0 s1 : Z) (e : ending) :
  ∃ a b c, client_end redis c_sock s0 s1 Reading e = Ok (a ++ [DestroyReader] ++ b ++ [JoinReader] ++ c).
Proof.
  rewrite client_end_reading. destruct e.
  - by exists [Close s0; Close s1; Close c_sock], [StopRunning], (DeleteReader :: if redis then [] else [DeleteBus]).
  - by exists [], [StopRunning], (DeleteReader :: if redis then [] else [DeleteBus]).
  - by exists [], [Close s0; Close s1; StopRunning], (DeleteReader :: if redis then [] else [DeleteBus]).
  - exists [], ([Close s0; Close s1] ++ (if c_sock =? 0 then [] else [Shutdown c_sock; Close c_sock]) ++ [Close s0; Close s1]),
      (DeleteReader :: if redis then [] else [DeleteBus]). by rewrite <-!app_assoc.
Qed.

(** A thread that ends before its loop, by an exception or a cancellation, uses
    variables that were never assigned: when the connection to the bus fails, the
    descriptors it closes and the thread it waits for are whatever the stack holds. *)
Theorem early_end_undefined (redis : bool) (c_sock s0 s1 : Z) (st : stage) (e : ending) :
  st ≠ Reading → e = Raised ∨ e = Cancelled → client_end redis c_sock s0 s1 st e = Undef Uninit.
Proof. by destruct st, e; intros ? [?|?]. Qed.
Lemma early_end_undefined_witness : client_end false 7 8 9 Connecting Raised = Undef Uninit.
Proof. apply (early_end_undefined false 7 8 9 Connecting Raised); [done|by left]. Defined.

(** ** Numbers that are used again *)

(** the connections of the process: a descriptor and the octets that will arrive *)
Abbreviation sockets := (gmap Z (list Z)).

Definition close_sock (fd : Z) (m : sockets) : sockets := delete fd m.
Definition accept_sock (octets : list Z) (m : sockets) : Z * sockets :=
  let fd := lowest_free m in (fd, <[fd := octets]> m).
(** [read(fd, ptr, n)]; an error when the descriptor is not open *)
Definition read_fd (fd n : Z) (m : sockets) : option (list Z * sockets) :=
  octets ← m !! fd; Some (take (Z.to_nat n) octets, <[fd := drop (Z.to_nat n) octets]> m).

(** A Termination message: the reader closes the socket and ends, without telling the
    thread of the connection, which goes on with the number.  When another router
    connects in the meantime and gets the number, the thread of the first reads the
    octets of the second, whose own thread never sees them; and when it ends, it
    closes the connection of the second. *)
Theorem terminated_thread_steals (fd n : Z) (a b : list Z) (m : sockets) :
  (∀ j, 0 ≤ j < fd → is_Some (m !! j)) → 0 ≤ fd → m !! fd = Some a →
  let '(fd', m') := accept_sock b (close_sock fd m) in
  fd' = fd ∧ read_fd fd n m' = Some (take (Z.to_nat n) b, <[fd := drop (Z.to_nat n) b]> m')
  ∧ close_sock fd m' !! fd' = None.
Proof.
  intros Hlow Hfd Ha. unfold accept_sock. assert (lowest_free (close_sock fd m) = fd) as ->.
  { destruct (lowest_free_spec (close_sock fd m)) as (H0 & H1 & H2). unfold close_sock in *.
    destruct (Z.lt_trichotomy (lowest_free (delete fd m)) fd) as [Hl|[He|Hg]]; [|done|].
    - rewrite lookup_delete_ne in H1 by lia. destruct (Hlow (lowest_free (delete fd m))) as [x Hx]; [lia|]. by rewrite Hx in H1.
    - destruct (H2 fd) as [x Hx]; [lia|]. by rewrite lookup_delete_eq in Hx. }
  split_and!; [done| |].
  - unfold read_fd. by rewrite lookup_insert_eq.
  - apply lookup_delete_eq.
Qed.
Lemma terminated_thread_steals_witness :
  let m : sockets := {[ 0 := []; 1 := []; 2 := []; 3 := [1] ]} in
  read_fd 3 2 (accept_sock [7; 8; 9] (close_sock 3 m)).2
  = Some ([7; 8], <[3 := [9]]> (accept_sock [7; 8; 9] (close_sock 3 m)).2).
Proof.
  intros m. pose proof (terminated_thread_steals 3 2 [1] [7; 8; 9] m) as H. apply H; [|lia|reflexivity].
  intros j Hj. assert (j = 0 ∨ j = 1 ∨ j = 2) as [->|[->| ->]] by lia; by eexists.
Defined.

Lemma descriptors_released_witness :
  ∃ tr, client_end false 7 8 9 Reading Cancelled = Ok tr ∧ (closes tr 7, closes tr 8, closes tr 9) = (1, 2, 2)%nat.
Proof.
  eexists. split; [reflexivity|].
  apply (descriptors_released false 7 8 9 Cancelled); [done|apply (bool_decide_unpack _); vm_compute; exact I|reflexivity].
Defined.
