(* ===== verification/Connection.v ===== *)
(** * The two threads of a connection ([client_thread.cpp], [bmp/BMPReader.cpp])

    The thread of a connection moves octets from the socket through its buffer into a
    pair of sockets; the reader thread takes them out and calls the bus.  The two share
    the pair, the flag [bmp_run], the socket (which the reader closes), the reader object
    (a local variable of the first thread) and the bus.  A step is a half of an iteration
    of the buffer loop, one call on the way out of the first thread (the lists of
    [ClientLife]), or the begin or the end of one message of the reader; steps of the two
    threads interleave in any order. *)

From S2P Require Import Prelude Inet UpdateTypes MPReach MsgBus BMPReader BusFrame ClientThread ClientLife.

(** where the reader thread is: at the head of its loop, inside of [ReadIncomingMsg], or at
    its end *)
Inductive reader_at : Set := AtLoop | InMessage | Ended.

(** where the thread of the connection is: before either half of an iteration, on the way
    out with the calls that are left, or gone *)
Inductive phase : Set := Filling | Draining | Ending (todo : list release) | Exited.

Section connection.
Context {LS : LinkState} {bus : Type} {MB : MsgBus bus} (redis : bool) (cfg : Config) (size c_sock s0 s1 : Z).

(** [cn_taken] octets of the pipe were taken by the reader; [cn_pair] is whether the ends of
    the pair are open, [cn_object] whether the block with the reader object and [bmp_run]
    was not left, [cn_bus] whether the bus exists. *)
Record connection : Type := {
  cn_ring : ring; cn_taken : nat; cn_reader : reader bus; cn_at : reader_at; cn_run : bool; cn_raised : bool;
  cn_phase : phase; cn_pair : bool; cn_object : bool; cn_bus : bool; cn_joined : bool }.

Definition start (buf octets : list Z) (rd : reader bus) : connection :=
  {| cn_ring := new_ring buf octets; cn_taken := 0; cn_reader := rd; cn_at := AtLoop; cn_run := true; cn_raised := false;
     cn_phase := Filling; cn_pair := true; cn_object := true; cn_bus := true; cn_joined := false |}.

(** *** The thread of the connection *)

Definition set_client_at (r : ring) (run : bool) (p : phase) (s : connection) : connection :=
  {| cn_ring := r; cn_taken := cn_taken s; cn_reader := cn_reader s; cn_at := cn_at s; cn_run := run; cn_raised := cn_raised s;
     cn_phase := p; cn_pair := cn_pair s; cn_object := cn_object s; cn_bus := cn_bus s; cn_joined := cn_joined s |}.

(** A reader that ended may have closed the socket, whose number may be another one's by
    now: whatever is read from it then need not be from the router. *)
Definition sock_ring (other : list Z) (s : connection) : ring :=
  let r := cn_ring s in
  match cn_at s with
  | Ended => {| sock_buf := sock_buf r; write_buf_pos := write_buf_pos r; read_buf_pos := read_buf_pos r;
                wrap_state := wrap_state r; incoming := other; pipe := pipe r |}
  | _ => r
  end.

(** the calls on the way out, listed when the loop is left; the reader sets the number of
    the socket to zero when it disconnects *)
Definition way_out (e : ending) (s : connection) : outcome (list release) :=
  client_end redis (if cn_raised s then 0 else c_sock) s0 s1 Reading e.

(** one call on the way out; a second join or a second deletion is not defined, nor is the
    deletion of a thread that was not waited for *)
Definition released (r : release) (todo : list release) (s : connection) : option connection :=
  let upd pair object bus joined :=
    Some {| cn_ring := cn_ring s; cn_taken := cn_taken s; cn_reader := cn_reader s; cn_at := cn_at s; cn_run := cn_run s;
            cn_raised := cn_raised s; cn_phase := Ending todo; cn_pair := pair; cn_object := object; cn_bus := bus;
            cn_joined := joined |} in
  match r with
  | Shutdown _ | StopRunning => upd (cn_pair s) (cn_object s) (cn_bus s) (cn_joined s)
  | Close fd => upd (cn_pair s && negb ((fd =? s0) || (fd =? s1))) (cn_object s) (cn_bus s) (cn_joined s)
  | DestroyReader => upd (cn_pair s) false (cn_bus s) (cn_joined s)
  | JoinReader => if cn_joined s then None else upd (cn_pair s) (cn_object s) (cn_bus s) true
  | DeleteReader => if cn_joined s then upd (cn_pair s) (cn_object s) (cn_bus s) true else None
  | DeleteBus => if cn_bus s then upd (cn_pair s) (cn_object s) false (cn_joined s) else None
  end.

(** the end of the thread releases the shared pointer to the Redis bus *)
Definition exited (s : connection) : connection :=
  {| cn_ring := cn_ring s; cn_taken := cn_taken s; cn_reader := cn_reader s; cn_at := cn_at s; cn_run := cn_run s;
     cn_raised := cn_raised s; cn_phase := Exited; cn_pair := cn_pair s; cn_object := cn_object s;
     cn_bus := if redis then false else cn_bus s; cn_joined := cn_joined s |}.

(** *** The reader thread *)

Definition give (octets : list Z) (err : bool) (rd : reader bus) : reader bus :=
  with_client (router_hash_id rd)
    {| hash_id := hash_id (client rd); initRec := initRec (client rd); c_ip := c_ip (client rd);
       startTime := startTime (client rd); stream := octets; stream_err := err; c_open := c_open (client rd) |} rd.

(** One message, read from the octets [src]: as much of them as there are when it asks for
    them, of which it takes the first [n]. *)
Definition reads (src : list Z) (now : Z * Z) (tod : Z) (rd : reader bus) (x : read_result) (n : nat) (rd' : reader bus) : Prop :=
  ∃ k err, ReadIncomingMsg redis cfg now tod (give (take k src) err rd) = Ok (x, rd')
    ∧ (n ≤ length (take k src))%nat
    ∧ match x with ReadRaised _ => True | _ => take k src = take n src ++ stream (client rd') end.

Definition is_more (x : read_result) : bool := match x with ReadMore => true | _ => false end.
Definition is_raised (x : read_result) : bool := match x with ReadRaised _ => true | _ => false end.

(** the end of a message: an exception clears [bmp_run] *)
Definition message_read (x : read_result) (n : nat) (rd' : reader bus) (s : connection) : connection :=
  {| cn_ring := cn_ring s; cn_taken := cn_taken s + n; cn_reader := rd'; cn_at := if is_more x then AtLoop else Ended;
     cn_run := if is_raised x then false else cn_run s; cn_raised := is_raised x && negb (c_open (client rd'));
     cn_phase := cn_phase s; cn_pair := cn_pair s; cn_object := cn_object s; cn_bus := cn_bus s; cn_joined := cn_joined s |}.

Definition set_at (a : reader_at) (s : connection) : connection :=
  {| cn_ring := cn_ring s; cn_taken := cn_taken s; cn_reader := cn_reader s; cn_at := a; cn_run := cn_run s;
     cn_raised := cn_raised s; cn_phase := cn_phase s; cn_pair := cn_pair s; cn_object := cn_object s; cn_bus := cn_bus s;
     cn_joined := cn_joined s |}.

(** ** Interleavings *)

(** [None] is undefined behaviour.  A descriptor that was closed may be given out again, so
    that the reader may get any octets once the pair is closed. *)
Inductive step : connection → option connection → Prop :=
| step_fill e other r s :
    cn_phase s = Filling → cn_run s = true → fill_buffer size e (sock_ring other s) = Ok (true, r) →
    step s (Some (set_client_at r true Draining s))
| step_drain e r s :
    cn_phase s = Draining → drain_buffer size e (cn_ring s) = Ok (true, r) →
    step s (Some (set_client_at r (cn_run s) Filling s))
| step_fill_hangup e other r tr s :
    cn_phase s = Filling → cn_run s = true → fill_buffer size e (sock_ring other s) = Ok (false, r) → way_out Hangup s = Ok tr →
    step s (Some (set_client_at r false (Ending tr) s))
| step_drain_hangup e r tr s :
    cn_phase s = Draining → drain_buffer size e (cn_ring s) = Ok (false, r) → way_out Hangup s = Ok tr →
    step s (Some (set_client_at r false (Ending tr) s))
| step_stopped tr s :
    cn_phase s = Filling → cn_run s = false → way_out ReaderStopped s = Ok tr → step s (Some (set_client_at (cn_ring s) false (Ending tr) s))
| step_thrown e tr s :
    cn_phase s = Filling ∨ cn_phase s = Draining → e = Raised ∨ e = Cancelled → way_out e s = Ok tr →
    step s (Some (set_client_at (cn_ring s) (cn_run s) (Ending tr) s))
| step_release r todo s :
    cn_phase s = Ending (r :: todo) → (r = JoinReader → cn_at s = Ended) → step s (released r todo s)
| step_exit s : cn_phase s = Ending [] → step s (Some (exited s))
| step_loop s :
    cn_at s = AtLoop → cn_object s = true → step s (Some (set_at (if cn_run s then InMessage else Ended) s))
| step_message src now tod x n rd' s :
    cn_at s = InMessage → cn_object s = true → cn_bus s = true → (cn_pair s = true → src = drop (cn_taken s) (pipe (cn_ring s))) →
    reads src now tod (cn_reader s) x n rd' → step s (Some (message_read x n rd' s))
| step_undefined src now tod err u s :
    cn_at s = InMessage → ReadIncomingMsg redis cfg now tod (give src err (cn_reader s)) = Undef u → step s None
| step_after_life s :
    cn_at s ≠ Ended → cn_object s = false ∨ cn_at s = InMessage ∧ cn_bus s = false → step s None.

Definition steps (s s' : connection) : Prop := rtc (λ a b, step a (Some b)) s s'.

Lemma steps_keep (P : connection → Prop) s s' : (∀ a b, step a (Some b) → P a → P b) → steps s s' → P s → P s'.
Proof. intros Hk H. induction H; eauto. Qed.

(** *** The reader alone *)

(** a reader that reads the octets of the router without a thread in between: how many it
    has taken and whether it goes on *)
Inductive alone (octets : list Z) (rd : reader bus) : nat → bool → reader bus → Prop :=
| alone_start : alone octets rd 0 true rd
| alone_message now tod pos rd1 x n rd' :
    alone octets rd pos true rd1 → reads (drop pos octets) now tod rd1 x n rd' → alone octets rd (pos + n) (is_more x) rd'.

(** ** The octets *)

Definition octets_inv (octets : list Z) (rd : reader bus) (s : connection) : Prop :=
  match cn_phase s with Filling => ring_ok size (cn_ring s) ∧ cn_pair s = true
                      | Draining => ring_mid size (cn_ring s) ∧ cn_pair s = true | _ => True end
  ∧ (cn_pair s = true →
     (cn_taken s ≤ length (pipe (cn_ring s)))%nat
     ∧ (cn_at s ≠ Ended → pipe (cn_ring s) ++ pending size (cn_ring s) ++ incoming (cn_ring s) = octets
                          ∧ alone octets rd (cn_taken s) true (cn_reader s))
     ∧ ∃ more, alone octets rd (cn_taken s) more (cn_reader s)).

(** what the reader gets from the pipe it could have got from the router *)
Lemma reads_prefix p rest more now tod rd x n rd' :
  (p ≤ length rest)%nat → reads (drop p rest) now tod rd x n rd' →
  (p + n ≤ length rest)%nat ∧ reads (drop p (rest ++ more)) now tod rd x n rd'.
Proof.
  intros Hp (k & err & E & Hn & Hs). assert (n ≤ length (drop p rest))%nat by (rewrite length_take in Hn; lia).
  split; [rewrite length_drop in *; lia|].
  assert (take k (drop p rest) = take (min k (length (drop p rest))) (drop p (rest ++ more))) as Ek.
  { rewrite drop_app_le, take_app_le by lia. by rewrite <-take_take, firstn_all. }
  exists (min k (length (drop p rest))), err. rewrite <-Ek. split_and!; [done|done|].
  assert (take n (drop p rest) = take n (drop p (rest ++ more))) as <-; [|done].
  by rewrite drop_app_le, take_app_le by lia.
Qed.

Context (Hsize : 0 < size).

Lemma sock_ring_ok other s : ring_ok size (cn_ring s) → ring_ok size (sock_ring other s).
Proof. unfold sock_ring. by destruct (cn_at s). Qed.

(** a half of an iteration *)
Lemma client_moves octets rd r b p s :
  octets_inv octets rd s → pipe (cn_ring s) `prefix_of` pipe r →
  (cn_at s ≠ Ended → pipe r ++ pending size r ++ incoming r = pipe (cn_ring s) ++ pending size (cn_ring s) ++ incoming (cn_ring s)) →
  match p with Filling => ring_ok size r ∧ cn_pair s = true | Draining => ring_mid size r ∧ cn_pair s = true | _ => True end →
  octets_inv octets rd (set_client_at r b p s).
Proof.
  intros [_ H] Hpre Hmv Hp. split; [done|]. cbn. intros Hpair. destruct (H Hpair) as (Ht & Hne & Hal).
  split_and!; [|intros Ha; rewrite (Hmv Ha); by apply Hne|done]. apply prefix_length in Hpre. lia.
Qed.

Lemma fill_octets e other s run r :
  ring_ok size (cn_ring s) → fill_buffer size e (sock_ring other s) = Ok (run, r) →
  ring_mid size r ∧ pipe (cn_ring s) `prefix_of` pipe r
  ∧ (cn_at s ≠ Ended → pipe r ++ pending size r ++ incoming r = pipe (cn_ring s) ++ pending size (cn_ring s) ++ incoming (cn_ring s)).
Proof.
  intros Hr E. destruct (fill_spec size Hsize e (sock_ring other s) (sock_ring_ok other s Hr)) as (run' & r' & data & E' & Hm & Hp & Hi & Hpi).
  rewrite E in E'. injection E' as <- <-. assert (pipe r = pipe (cn_ring s)) as Hpi' by (rewrite Hpi; unfold sock_ring; by destruct (cn_at s)).
  split_and!; [done|by rewrite Hpi'|]. intros Ha. assert (sock_ring other s = cn_ring s) as Es by (unfold sock_ring; by destruct (cn_at s)).
  rewrite Es in *. by rewrite Hpi', Hp, Hi, <-!app_assoc.
Qed.

Lemma drain_octets e s run r :
  ring_mid size (cn_ring s) → drain_buffer size e (cn_ring s) = Ok (run, r) →
  ring_ok size r ∧ pipe (cn_ring s) `prefix_of` pipe r
  ∧ pipe r ++ pending size r ++ incoming r = pipe (cn_ring s) ++ pending size (cn_ring s) ++ incoming (cn_ring s).
Proof.
  intros Hm E. destruct (drain_spec size Hsize e (cn_ring s) Hm) as (run' & r' & data & E' & Hr & Hp & Hpi & Hi).
  rewrite E in E'. injection E' as <- <-. rewrite Hpi, Hp, Hi, <-!app_assoc. split_and!; [done|by apply prefix_app_r|done].
Qed.

(** a step that leaves the octets alone, and may close the pair or end the reader *)
Lemma octets_frame octets rd s s' :
  octets_inv octets rd s → cn_ring s' = cn_ring s → cn_taken s' = cn_taken s → cn_reader s' = cn_reader s →
  (cn_pair s' = true → cn_pair s = true) → (cn_at s' ≠ Ended → cn_at s ≠ Ended) →
  (cn_phase s' = cn_phase s ∧ cn_pair s' = cn_pair s ∨ cn_phase s' = Exited ∨ ∃ todo, cn_phase s' = Ending todo) → octets_inv octets rd s'.
Proof.
  intros [H1 H2] Er Et Ed Hp Ha Hph. split.
  - destruct Hph as [[-> ->]|[->|[todo ->]]]; [|done..]. by rewrite Er.
  - intros Hp'. rewrite Er, Et, Ed. destruct (H2 (Hp Hp')) as (? & ? & ?). split_and!; auto.
Qed.

Lemma released_frame r todo s s' :
  released r todo s = Some s' →
  cn_ring s' = cn_ring s ∧ cn_taken s' = cn_taken s ∧ cn_reader s' = cn_reader s ∧ cn_at s' = cn_at s ∧ cn_phase s' = Ending todo
  ∧ (cn_pair s' = true → cn_pair s = true).
Proof.
  clear Hsize.
  unfold released. intros H. destruct r; repeat case_match; simplify_eq; split_and!; try done. cbn. by intros [? _]%andb_prop.
Qed.

Lemma octets_step octets rd s s' : step s (Some s') → octets_inv octets rd s → octets_inv octets rd s'.
Proof.
  intros H Hs. pose proof Hs as [H1 H2]. remember (Some s') as o eqn:Eo.
  destruct H as [e other r s Hph Hrun E|e r s Hph E|e other r tr s Hph Hrun E _|e r tr s Hph E _|tr s Hph Hrun _|e tr s Hph _ _
    |r todo s Hph _|s Hph|s Hat Hob|src now tod x n rd' s Hat Hob Hbus Hsrc Hr|src now tod err u s|s]; try discriminate Eo.
  - injection Eo as <-. rewrite Hph in H1. destruct H1 as [Hr Hpr]. apply fill_octets in E as (? & ? & ?); [|done]. by apply client_moves.
  - injection Eo as <-. rewrite Hph in H1. destruct H1 as [Hr Hpr]. apply drain_octets in E as (? & ? & ?); [|done]. by apply client_moves.
  - injection Eo as <-. rewrite Hph in H1. destruct H1 as [Hr Hpr]. apply fill_octets in E as (? & ? & ?); [|done]. by apply client_moves.
  - injection Eo as <-. rewrite Hph in H1. destruct H1 as [Hr Hpr]. apply drain_octets in E as (? & ? & ?); [|done]. by apply client_moves.
  - injection Eo as <-. by apply client_moves.
  - injection Eo as <-. by apply client_moves.
  - apply released_frame in Eo as (E1 & E2 & E3 & E4 & E5 & E6).
    apply (octets_frame octets rd s); try done; [by rewrite E4|right; right; by eexists].
  - injection Eo as <-. apply (octets_frame octets rd s); try done. by right; left.
  - injection Eo as <-. apply (octets_frame octets rd s); try done; [|by left]. cbn. by rewrite Hat.
  - injection Eo as <-. split; [exact H1|]. cbn. intros Hpair. destruct (H2 Hpair) as (Ht & Hne & _).
    destruct Hne as [Ho Hal]; [congruence|]. specialize (Hsrc Hpair) as ->.
    destruct (reads_prefix _ _ (pending size (cn_ring s) ++ incoming (cn_ring s)) _ _ _ _ _ _ Ht Hr) as [Hn Hr']. rewrite Ho in Hr'.
    assert (alone octets rd (cn_taken s + n) (is_more x) rd') as Ha by by eapply alone_message.
    split_and!; [done| |by eexists]. intros Hat'. split; [done|]. by destruct x.
Qed.

(** ** Lifetimes *)

Definition del_bus : list release := if redis then [] else [DeleteBus].

Definition life_inv (s : connection) : Prop :=
  match cn_phase s with
  | Filling | Draining => cn_bus s = true ∧ cn_joined s = false
  | Ending todo =>
      (∃ pre, todo = pre ++ [JoinReader; DeleteReader] ++ del_bus ∧ (JoinReader ∉ pre) ∧ (DeleteReader ∉ pre) ∧ (DeleteBus ∉ pre)
              ∧ cn_bus s = true ∧ cn_joined s = false)
      ∨ cn_joined s = true ∧ cn_at s = Ended
        ∧ (cn_bus s = true ∧ (todo = DeleteReader :: del_bus ∨ todo = del_bus) ∨ todo = [])
  | Exited => cn_at s = Ended
  end.

(** the way out of the loop ends with the reader and the bus *)
Lemma way_out_spec e s tr :
  way_out e s = Ok tr →
  ∃ pre, tr = pre ++ [JoinReader; DeleteReader] ++ del_bus ∧ (JoinReader ∉ pre) ∧ (DeleteReader ∉ pre) ∧ (DeleteBus ∉ pre).
Proof.
  clear Hsize.
  unfold way_out. rewrite client_end_reading. intros [= <-]. eexists. split; [reflexivity|].
  destruct e; try destruct (_ =? 0); set_solver.
Qed.

Lemma life_step s s' : step s (Some s') → life_inv s → life_inv s'.
Proof.
  clear Hsize.
  intros H Hs. remember (Some s') as o eqn:Eo. unfold life_inv in Hs.
  destruct H as [e other r s Hph Hrun E|e r s Hph E|e other r tr s Hph Hrun E Hw|e r tr s Hph E Hw|tr s Hph Hrun Hw|e tr s Hph _ Hw
    |r todo s Hph Hj|s Hph|s Hat Hob|src now tod x n rd' s Hat Hob Hbus Hsrc Hr|src now tod err u s|s]; try discriminate Eo.
  - injection Eo as <-. by rewrite Hph in Hs.
  - injection Eo as <-. by rewrite Hph in Hs.
  - injection Eo as <-. rewrite Hph in Hs. apply way_out_spec in Hw as (pre & ? & ? & ? & ?). left. exists pre. by destruct Hs.
  - injection Eo as <-. rewrite Hph in Hs. apply way_out_spec in Hw as (pre & ? & ? & ? & ?). left. exists pre. by destruct Hs.
  - injection Eo as <-. rewrite Hph in Hs. apply way_out_spec in Hw as (pre & ? & ? & ? & ?). left. exists pre. by destruct Hs.
  - injection Eo as <-. apply way_out_spec in Hw as (pre & ? & ? & ? & ?). left. exists pre.
    assert (cn_bus s = true ∧ cn_joined s = false) as [? ?] by (by destruct Hph as [Hph|Hph]; rewrite Hph in Hs). done.
  - rewrite Hph in Hs. destruct Hs as [(pre & Et & N1 & N2 & N3 & Hb & Hjn)|(Hjn & Ha & Ht)].
    + destruct pre as [|r' pre]; cbn in Et; injection Et as -> ->.
      * unfold released in Eo. rewrite Hjn in Eo. injection Eo as <-. right. cbn. split_and!; [done|by apply Hj|]. left. split; [done|by left].
      * pose proof (released_frame r' _ s s' Eo) as (_ & _ & _ & _ & E5 & _). unfold life_inv. rewrite E5. left. exists pre.
        assert (cn_bus s' = cn_bus s ∧ cn_joined s' = cn_joined s) as [-> ->].
        { unfold released in Eo. destruct r'; repeat case_match; simplify_eq; try done; set_solver. }
        split_and!; set_solver.
    + destruct Ht as [[Hb [Et|Et]]|Et].
      * injection Et as -> ->. unfold released in Eo. rewrite Hjn in Eo. injection Eo as <-. right. cbn. split_and!; [done..|].
        left. split; [done|by right].
      * unfold del_bus in Et. destruct redis; [done|]. injection Et as -> ->. unfold released in Eo. rewrite Hb in Eo. injection Eo as <-.
        right. cbn. split_and!; [done..|by right].
      * done.
  - injection Eo as <-. rewrite Hph in Hs. cbn. destruct Hs as [(pre & Et & _)|(_ & Ha & _)]; [by destruct pre|done].
  - injection Eo as <-. unfold life_inv. cbn. destruct (cn_phase s); try done.
    + destruct Hs as [?|(? & Ha & ?)]; [by left|congruence].
    + congruence.
  - injection Eo as <-. unfold life_inv. cbn. destruct (cn_phase s); try done.
    + destruct Hs as [?|(? & Ha & ?)]; [by left|congruence].
    + congruence.
Qed.

Lemma bus_step (P : bus → Prop) s s' :
  (∀ b b', handler_op MB b b' → P b → P b') → step s (Some s') → P (mbus (cn_reader s)) → P (mbus (cn_reader s')).
Proof.
  clear Hsize.
  intros Hop H Hp. remember (Some s') as o eqn:Eo.
  destruct H as [| | | | | |r todo s Hph Hj| | |src now tod x n rd' s Hat Hob Hbus Hsrc (k & err & E & _)| |];
    try discriminate Eo; try (injection Eo as <-; exact Hp).
  - unfold released in Eo. by destruct r; repeat case_match; simplify_eq.
  - injection Eo as <-. apply read_incoming_calls in E. cbn in *. clear -Hop Hp E. induction E; eauto.
Qed.
End connection.

(** C10: the reader reads what the router sent.  However the two threads interleave, in
    whatever pieces the octets come and go, and however messages, exceptions and the ends of
    the two threads are ordered: as long as the pair between them is open, the reader and
    its bus are in a state that a reader alone reaches that reads the octets of the router
    one message after the other without buffer and thread in between, and it has taken the
    first octets of the stream; and until it has ended, the octets in the pair, those in
    the buffer and those still in the socket are the rest of the stream. *)
Theorem connection_transparent {LS : LinkState} {bus : Type} {MB : MsgBus bus} (redis : bool) (cfg : Config)
    (size c_sock s0 s1 : Z) (buf octets : list Z) (rd : reader bus) (s : connection) :
  0 < size → Z.of_nat (length buf) = size → steps redis cfg size c_sock s0 s1 (start buf octets rd) s → cn_pair s = true →
  (∃ more, alone redis cfg octets rd (cn_taken s) more (cn_reader s))
  ∧ (cn_at s ≠ Ended →
     octets = take (cn_taken s) octets ++ drop (cn_taken s) (pipe (cn_ring s)) ++ pending size (cn_ring s) ++ incoming (cn_ring s)).
Proof.
  intros Hsz Hb H Hp. assert (octets_inv redis cfg size octets rd s) as [_ Hi].
  { assert (octets_inv redis cfg size octets rd (start buf octets rd)) as H0.
    { split; [split; [unfold ring_ok; cbn; lia|done]|]. intros _. split_and!; [cbn; lia| |exists true; constructor].
      intros _. split; [done|constructor]. }
    revert H0. apply (steps_keep redis cfg size c_sock s0 s1 _ _ _ (octets_step redis cfg size c_sock s0 s1 Hsz octets rd) H). }
  destruct (Hi Hp) as (Ht & Hne & Ha). split; [done|]. intros Hat. destruct (Hne Hat) as [Ho _].
  rewrite <-Ho at 2. rewrite take_app_le by done. rewrite app_assoc, take_drop. by rewrite Ho.
Qed.

(** C40: the bus outlives the reader.  However the two threads interleave and however the
    thread of the connection ends (a hangup, a reader that stopped, an exception, a
    cancellation), in the Kafka and in the Redis build: when the bus is gone, the reader
    thread has ended; the bus is deleted at most once; and the reader thread is waited for
    once, before its object is deleted. *)
Theorem bus_outlives_reader {LS : LinkState} {bus : Type} {MB : MsgBus bus} (redis : bool) (cfg : Config)
    (size c_sock s0 s1 : Z) (buf octets : list Z) (rd : reader bus) (s : connection) :
  steps redis cfg size c_sock s0 s1 (start buf octets rd) s →
  (cn_bus s = false → cn_at s = Ended)
  ∧ ∀ r todo, cn_phase s = Ending (r :: todo) → is_Some (released s0 s1 r todo s).
Proof.
  intros H. assert (life_inv redis s) as Hi.
  { by apply (steps_keep redis cfg size c_sock s0 s1 _ _ _ (life_step redis cfg size c_sock s0 s1) H). }
  unfold life_inv in Hi. split.
  - intros Hb. destruct (cn_phase s) as [| |todo|].
    + destruct Hi; congruence.
    + destruct Hi; congruence.
    + destruct Hi as [(? & _ & _ & _ & _ & Hb' & _)|(_ & ? & _)]; [congruence|done].
    + done.
  - intros r todo Hph. rewrite Hph in Hi. unfold released. destruct Hi as [(pre & Et & N1 & N2 & N3 & Hb & Hj)|(Hj & _ & Ht)].
    + rewrite Hb, Hj. destruct pre as [|r' pre]; injection Et as -> _; [done|]. destruct r'; try done; set_solver.
    + rewrite Hj. destruct Ht as [[Hb [[= -> _]|Et]]|[=]]; [done|]. unfold del_bus in Et. destruct redis; [done|].
      injection Et as -> _. by rewrite Hb.
Qed.

(** What the calls of the interface preserve holds of the bus in every state the two threads
    reach. *)
Lemma connection_bus {LS : LinkState} {bus : Type} {MB : MsgBus bus} (redis : bool) (cfg : Config)
    (size c_sock s0 s1 : Z) (s s' : connection) (P : bus → Prop) :
  (∀ b b', handler_op MB b b' → P b → P b') → P (mbus (cn_reader s)) → steps redis cfg size c_sock s0 s1 s s' →
  P (mbus (cn_reader s')).
Proof.
  intros Hop Hp H. revert Hp. apply (steps_keep redis cfg size c_sock s0 s1 (λ s, P (mbus (cn_reader s))) s s'); [|done].
  intros a b Hab. by eapply bus_step.
Qed.

Lemma release_step {LS : LinkState} {bus : Type} {MB : MsgBus bus} redis cfg size c_sock s0 s1 r todo (s s' : connection) :
  cn_phase s = Ending (r :: todo) → (r = JoinReader → cn_at s = Ended) → released s0 s1 r todo s = Some s' →
  step redis cfg size c_sock s0 s1 s (Some s').
Proof. intros Hp Hj <-. by apply step_release. Qed.

(** ** A hangup while a message is read *)

(** The router closes its connection while the reader waits for a message: the thread of the
    connection closes the pair and leaves the block with the reader object, which the reader
    then uses. *)
Theorem hangup_use_after_scope {LS : LinkState} {bus : Type} {MB : MsgBus bus} (redis : bool) (cfg : Config)
    (size c_sock s0 s1 : Z) (buf octets : list Z) (rd : reader bus) :
  0 < size → ∃ s, steps redis cfg size c_sock s0 s1 (start buf octets rd) s ∧ step redis cfg size c_sock s0 s1 s None.
Proof.
  intros Hs. eexists. split.
  - eapply rtc_l; [by apply step_loop|]. eapply rtc_l.
    { eapply (step_fill_hangup _ _ _ _ _ _ Hup []); [done..| |unfold way_out; apply client_end_reading].
      unfold fill_buffer. cbn [sock_ring set_at cn_ring cn_at start cn_run new_ring wrap_state write_buf_pos read_buf_pos negb andb orb].
      by rewrite (proj2 (Z.ltb_lt 0 size)). }
    do 4 (eapply rtc_l; [by eapply release_step; [reflexivity| |reflexivity]|]). apply rtc_refl.
  - apply step_after_life; [discriminate|left; reflexivity].
Qed.

(** ** A sample connection *)

(** The router sends an octet that is no BMP version; it goes through the buffer and the
    pair, the reader raises an exception and clears the flag. *)
Lemma sample_run : ∃ s : connection (bus := list bus_call),
  steps (LS := null_link_state) false sample_config 4 7 8 9 (start (zeros 4) [99; 5] (sample_reader [])) s
  ∧ cn_pair s = true ∧ cn_taken s = 1%nat ∧ cn_at s = Ended ∧ cn_run s = false.
Proof.
  eexists. split.
  - eapply rtc_l; [by eapply (step_fill _ _ _ _ _ _ (Ready 1) []); [..|vm_compute; reflexivity]|].
    eapply rtc_l; [by apply step_loop|].
    eapply rtc_l; [by eapply (step_drain _ _ _ _ _ _ (Ready 1)); [..|vm_compute; reflexivity]|].
    eapply rtc_l; [|apply rtc_refl].
    eapply (step_message _ _ _ _ _ _ _ (0, 0) 0 _ 1); [done..|by intros _|].
    exists 1%nat, false. split; [vm_compute; reflexivity|]. split; [cbn; lia|exact I].
  - cbn. done.
Qed.

Lemma connection_transparent_witness :
  ∃ s : connection (bus := list bus_call),
    cn_taken s = 1%nat ∧ ∃ more, alone (LS := null_link_state) false sample_config [99; 5] (sample_reader []) 1 more (cn_reader s).
Proof.
  destruct sample_run as (s & Hs & Hp & Ht & _). exists s. split; [exact Ht|]. rewrite <-Ht.
  apply (connection_transparent (LS := null_link_state) false sample_config 4 7 8 9 (zeros 4) [99; 5] (sample_reader []) s);
    [lia|reflexivity|exact Hs|exact Hp].
Defined.

Lemma bus_outlives_reader_witness :
  ∃ s : connection (bus := list bus_call),
    cn_at s = Ended ∧ ∀ r todo, cn_phase s = Ending (r :: todo) → is_Some (released 8 9 r todo s).
Proof.
  destruct sample_run as (s & Hs & _ & _ & Ha & _). exists s. split; [exact Ha|].
  apply (bus_outlives_reader (LS := null_link_state) false sample_config 4 7 8 9 (zeros 4) [99; 5] (sample_reader []) s Hs).
Defined.
