(* ===== verification/SafeQueue.v ===== *)
(** * The thread-safe queue ([safeQueue.hpp])

    Threads that call the operations of a shared queue: every operation is a
    sequence of steps, those between [pthread_mutex_lock] and
    [pthread_mutex_unlock] are taken by the holder of the mutex only.  The size is also
    read without it, while another thread may be changing the deque: such a read may
    give any number. *)

From S2P Require Import Prelude.

(** where a thread is in an operation.  The [Enter] places wait for the mutex. *)
Inductive place (A : Type) : Type :=
| Idle
| PushEnter (v : A) | PushCheck (v : A) | PushWait (v : A) | PushRelock (v : A) | PushAdd (v : A)
| PopEnter | PopDo
| FrontEnter | FrontDo
| BackEnter | BackDo
| TakeEnter | TakeRead | TakePop (v : A)      (** [popFront]: the front is read, then popped *)
| WaitLoop
| Leave.                                      (** before the mutex is unlocked *)
Arguments Idle {_}.
Arguments PushEnter {_} _.
Arguments PushCheck {_} _.
Arguments PushWait {_} _.
Arguments PushRelock {_} _.
Arguments PushAdd {_} _.
Arguments PopEnter {_}.
Arguments PopDo {_}.
Arguments FrontEnter {_}.
Arguments FrontDo {_}.
Arguments BackEnter {_}.
Arguments BackDo {_}.
Arguments TakeEnter {_}.
Arguments TakeRead {_}.
Arguments TakePop {_} _.
Arguments WaitLoop {_}.
Arguments Leave {_}.

(** what an operation did, with its result *)
Inductive event (A : Type) : Type :=
| EPush (v : A) | EPop | EFront (r : option A) | EBack (v : A) | ETake (r : option A).
Arguments EPush {_} _.
Arguments EPop {_}.
Arguments EFront {_} _.
Arguments EBack {_} _.
Arguments ETake {_} _.

(** the queue, the holder of the mutex, the limit, the threads, and the operations
    so far *)
Record safeQueue (A : Type) : Type := {
  sq_items : list A; sq_mutex : option nat; sq_limit : Z; sq_threads : list (place A); sq_log : list (event A) }.
Arguments sq_items {_} _.
Arguments sq_mutex {_} _.
Arguments sq_limit {_} _.
Arguments sq_threads {_} _.
Arguments sq_log {_} _.

Section queue.
Context {A : Type}.
Implicit Type (q : safeQueue A) (p : place A).

Definition new_queue (limit : Z) (threads : nat) : safeQueue A :=
  {| sq_items := []; sq_mutex := None; sq_limit := limit; sq_threads := replicate threads Idle; sq_log := [] |}.

Definition size q : Z := Z.of_nat (length (sq_items q)).
Definition setLimit (limit : Z) q : safeQueue A :=
  {| sq_items := sq_items q; sq_mutex := sq_mutex q; sq_limit := limit; sq_threads := sq_threads q; sq_log := sq_log q |}.
Definition move (i : nat) p (mutex : option nat) q : safeQueue A :=
  {| sq_items := sq_items q; sq_mutex := mutex; sq_limit := sq_limit q; sq_threads := <[i := p]> (sq_threads q);
     sq_log := sq_log q |}.
Definition effect (items : list A) (evs : list (event A)) q : safeQueue A :=
  {| sq_items := items; sq_mutex := sq_mutex q; sq_limit := sq_limit q; sq_threads := sq_threads q;
     sq_log := sq_log q ++ evs |}.

(** the first place of an operation *)
Definition entry p : bool :=
  match p with PushEnter _ | PopEnter | FrontEnter | BackEnter | TakeEnter | WaitLoop => true | _ => false end.

(** [pthread_mutex_lock] *)
Definition locked p : option (place A) :=
  match p with
  | PushEnter v => Some (PushCheck v)
  | PushRelock v => Some (PushAdd v)
  | PopEnter => Some PopDo
  | FrontEnter => Some FrontDo
  | BackEnter => Some BackDo
  | TakeEnter => Some TakeRead
  | _ => None
  end.

(** [if (limit and size() >= limit)] *)
Definition full q : bool := negb (sq_limit q =? 0) && (sq_limit q <=? size q).

(** the work with the mutex: the next place, the items and what was done; [back] of
    an empty queue is not defined *)
Definition work p (items : list A) : option (place A * list A * list (event A)) :=
  match p, items with
  | PushAdd v, _ => Some (Leave, items ++ [v], [EPush v])
  | PopDo, _ => Some (Leave, tail items, [EPop])
  | FrontDo, _ => Some (Leave, items, [EFront (head items)])
  | BackDo, _ => match last items with Some v => Some (Leave, items, [EBack v]) | None => None end
  | TakeRead, v :: _ => Some (TakePop v, items, [])
  | TakeRead, [] => Some (Leave, items, [ETake None])
  | TakePop v, _ => Some (Leave, tail items, [ETake (Some v)])
  | _, _ => None
  end.

(** [None] is undefined behaviour *)
Inductive step : safeQueue A → option (safeQueue A) → Prop :=
| step_call i p q : sq_threads q !! i = Some Idle → entry p = true → step q (Some (move i p (sq_mutex q) q))
| step_lock i p p' q :
    sq_threads q !! i = Some p → locked p = Some p' → sq_mutex q = None → step q (Some (move i p' (Some i) q))
| step_full i v q :                          (** unlocks and waits *)
    sq_threads q !! i = Some (PushCheck v) → full q = true → step q (Some (move i (PushWait v) None q))
| step_room i v q :
    sq_threads q !! i = Some (PushCheck v) → full q = false → step q (Some (move i (PushAdd v) (sq_mutex q) q))
| step_awake i v seen q :                    (** [while (size() >= limit)], without the mutex *)
    sq_threads q !! i = Some (PushWait v) → 0 ≤ seen → seen < sq_limit q → step q (Some (move i (PushRelock v) (sq_mutex q) q))
| step_work i p p' items evs q :
    sq_threads q !! i = Some p → work p (sq_items q) = Some (p', items, evs) →
    step q (Some (effect items evs (move i p' (sq_mutex q) q)))
| step_unlock i q : sq_threads q !! i = Some Leave → step q (Some (move i Idle None q))
| step_waited i seen q :                     (** [wait]: [while (size() <= 0)], without the mutex *)
    sq_threads q !! i = Some WaitLoop → 0 < seen → step q (Some (move i Idle (sq_mutex q) q))
| step_setLimit n q : 0 ≤ n → step q (Some (setLimit n q))
| step_back_empty i q : sq_threads q !! i = Some BackDo → sq_items q = [] → step q None.

Definition run : safeQueue A → safeQueue A → Prop := rtc (λ q q', step q (Some q')).

(** ** The queue as a value *)

(** the same operations on a list, one after the other; [None] when a result is not
    the one of the list *)
Definition fifo `{EqDecision A} (items : list A) (e : event A) : option (list A) :=
  match e with
  | EPush v => Some (items ++ [v])
  | EPop => Some (tail items)
  | EFront r => if decide (r = head items) then Some items else None
  | EBack v => if decide (Some v = last items) then Some items else None
  | ETake r => if decide (r = head items) then Some (tail items) else None
  end.
Fixpoint replay `{EqDecision A} (items : list A) (log : list (event A)) : option (list A) :=
  match log with [] => Some items | e :: log => items ← fifo items e; replay items log end.

Lemma replay_app `{EqDecision A} items log1 log2 : replay items (log1 ++ log2) = replay items log1 ≫= λ l, replay l log2.
Proof.
  revert items. induction log1 as [|e log1 IH]; intros items; [done|]. cbn [replay app]. destruct (fifo items e); cbn; auto.
Qed.

(** ** Invariant *)

(** the places where a thread has the mutex *)
Definition holds p : bool :=
  match p with PushCheck _ | PushAdd _ | PopDo | FrontDo | BackDo | TakeRead | TakePop _ | Leave => true | _ => false end.

Record safe q : Prop := {
  sf_mutex i p : sq_threads q !! i = Some p → holds p = true ↔ sq_mutex q = Some i;
  sf_taken i v : sq_threads q !! i = Some (TakePop v) → head (sq_items q) = Some v }.

Lemma safe_new limit n : safe (new_queue limit n).
Proof.
  constructor; cbn.
  - intros i p [-> _]%lookup_replicate_1. cbn. naive_solver.
  - intros i v [H _]%lookup_replicate_1. done.
Qed.

Lemma move_lookup i p q j r :
  <[i := p]> (sq_threads q) !! j = Some r → (j = i ∧ r = p) ∨ (j ≠ i ∧ sq_threads q !! j = Some r).
Proof. rewrite list_lookup_insert_Some. naive_solver. Qed.

(** a move of one thread: it has the mutex where it should, and the others see no
    change of it *)
Lemma safe_move i p p' m q :
  safe q → sq_threads q !! i = Some p → (holds p' = true ↔ m = Some i) →
  (∀ j, j ≠ i → m = Some j ↔ sq_mutex q = Some j) → (∀ v, p' = TakePop v → head (sq_items q) = Some v) →
  safe (move i p' m q).
Proof.
  intros [Hm Ht] Hi Hh Hj Hv. constructor.
  - cbn. intros j r [[-> ->]|[Hn Hr]]%move_lookup; cbn; [done|]. rewrite Hj by done. by apply Hm.
  - cbn. intros j v [[-> Hp]|[Hn Hr]]%move_lookup; cbn; eauto.
Qed.

(** the thread that has the mutex is the only one *)
Lemma safe_holder i p q : safe q → sq_threads q !! i = Some p → holds p = true → sq_mutex q = Some i.
Proof. intros [Hm _] Hi Hp. by apply (Hm i p). Qed.

Lemma locked_holds p p' : locked p = Some p' → holds p = false ∧ holds p' = true ∧ ∀ v, p' ≠ TakePop v.
Proof. destruct p; cbn; intros; simplify_eq; done. Qed.
Lemma work_holds p items p' items' evs : work p items = Some (p', items', evs) → holds p = true ∧ holds p' = true.
Proof. destruct p; cbn; intros; repeat case_match; simplify_eq; done. Qed.

Lemma safe_work i p p' items evs q :
  safe q → sq_threads q !! i = Some p → work p (sq_items q) = Some (p', items, evs) →
  safe (effect items evs (move i p' (sq_mutex q) q)).
Proof.
  intros Hs Hi Hw. destruct (work_holds _ _ _ _ _ Hw) as [Hp Hp']. pose proof (safe_holder i p q Hs Hi Hp) as Hmx.
  constructor.
  - cbn. intros j r [[-> ->]|[Hn Hr]]%move_lookup; cbn; [by rewrite Hp', Hmx|]. by apply Hs.
  - cbn. intros j v [[-> Hv]|[Hn Hr]]%move_lookup.
    + subst p'. destruct p; cbn in Hw; repeat case_match; simplify_eq. by cbn.
    + pose proof (safe_holder j _ q Hs Hr ltac:(done)). congruence.
Qed.

Lemma safe_step q q' : step q (Some q') → safe q → safe q'.
Proof.
  intros H Hs. remember (Some q') as o eqn:Eo.
  destruct H as [i p q Hi He|i p p' q Hi Hl Hm|i v q Hi Hf|i v q Hi Hf|i v seen q Hi _ Hw|i p p' items evs q Hi Hw|i q Hi|i seen q Hi Hw|n q _|];
    [injection Eo as <-..|discriminate Eo].
  - apply (safe_move _ _ _ _ _ Hs Hi); [|done|by intros v ->]. pose proof (sf_mutex _ Hs i _ Hi) as Hx. destruct p; naive_solver.
  - destruct (locked_holds _ _ Hl) as (Hp & Hp' & Ht). apply (safe_move _ _ _ _ _ Hs Hi); [by rewrite Hp'| |by intros v []%Ht].
    intros j Hj. rewrite Hm. naive_solver.
  - pose proof (safe_holder i _ q Hs Hi ltac:(done)). apply (safe_move _ _ _ _ _ Hs Hi); [done| |done]. naive_solver.
  - pose proof (safe_holder i _ q Hs Hi ltac:(done)). apply (safe_move _ _ _ _ _ Hs Hi); done.
  - apply (safe_move _ _ _ _ _ Hs Hi); [|done|done]. pose proof (sf_mutex _ Hs i _ Hi) as Hx. naive_solver.
  - by apply (safe_work _ p).
  - pose proof (safe_holder i _ q Hs Hi ltac:(done)). apply (safe_move _ _ _ _ _ Hs Hi); [done| |done]. naive_solver.
  - apply (safe_move _ _ _ _ _ Hs Hi); [|done|done]. pose proof (sf_mutex _ Hs i _ Hi) as Hx. naive_solver.
  - destruct Hs. by constructor.
Qed.

(** ** Order *)

Lemma work_fifo `{EqDecision A} i p p' items evs q :
  safe q → sq_threads q !! i = Some p → work p (sq_items q) = Some (p', items, evs) → replay (sq_items q) evs = Some items.
Proof.
  intros [_ Ht] Hi Hw. destruct p; cbn in Hw; repeat case_match; simplify_eq; cbn; try done.
  - by rewrite decide_True.
  - by rewrite decide_True.
  - rewrite (decide_True _ _) by (by rewrite (Ht i _ Hi)). done.
Qed.

End queue.

(** C20: the queue is first in, first out.  However the threads interleave, the
    operations took place in the order of the log: done one after the other on a
    list they give the same results and the same items, and at any time only the
    holder of the mutex is inside of an operation. *)
Theorem queue_is_fifo {A : Type} `{EqDecision A} (limit : Z) (n : nat) (q : safeQueue A) :
  run (new_queue limit n) q →
  replay [] (sq_log q) = Some (sq_items q)
  ∧ ∀ i j p r, sq_threads q !! i = Some p → sq_threads q !! j = Some r → holds p = true → holds r = true → i = j.
Proof.
  intros Hr. assert (safe q ∧ replay [] (sq_log q) = Some (sq_items q)) as [Hs Hq].
  { refine (rtc_ind_r (λ q, safe q ∧ replay [] (sq_log q) = Some (sq_items q)) _ _ _ q Hr); [split; [apply safe_new|done]|]. intros q1 q2 _ Hstep [Hs Hq].
    split; [by eapply safe_step|]. remember (Some q2) as o eqn:Eo. destruct Hstep; simplify_eq; try exact Hq.
    cbn. rewrite replay_app, Hq. cbn. by eapply work_fifo. }
  split; [exact Hq|]. intros i j p r Hi Hj Hp Hj'.
  pose proof (safe_holder i p q Hs Hi Hp). pose proof (safe_holder j r q Hs Hj Hj'). congruence.
Qed.

(** A push that waits when the limit is set to zero, which stands for no limit,
    waits as long as it is zero. *)
Theorem no_limit_blocks {A : Type} (q q' : safeQueue A) (i : nat) (v : A) :
  sq_threads q !! i = Some (PushWait v) → sq_limit q = 0 →
  rtc (λ q q', step q (Some q') ∧ sq_limit q' = sq_limit q) q q' → sq_threads q' !! i = Some (PushWait v).
Proof.
  intros Hi Hl Hr. assert (sq_threads q' !! i = Some (PushWait v) ∧ sq_limit q' = 0) as [? _]; [|done].
  refine (rtc_ind_r (λ q', sq_threads q' !! i = Some (PushWait v) ∧ sq_limit q' = 0) _ _ _ q' Hr); [done|]. intros q1 q2 _ [Hstep He] [Hi1 Hl1]. split; [|congruence].
  remember (Some q2) as o eqn:Eo. destruct Hstep; simplify_eq; cbn; try done;
    (destruct (decide (i0 = i)) as [->|]; [exfalso; rewrite Hi1 in *; simplify_eq/=|by rewrite list_lookup_insert_ne]).
  rewrite Hl1 in *. lia.
Qed.

(** ** Samples *)

(** a run is given by its steps *)
Ltac eval_state := match goal with |- rtc _ ?x _ => let y := eval vm_compute in x in change x with y end.
Tactic Notation "go" uconstr(t) := eapply rtc_l; [eapply t; (reflexivity || lia)|eval_state].
Tactic Notation "go_fixed" uconstr(t) := eapply rtc_l; [split; [eapply t; (reflexivity || lia)|reflexivity]|eval_state].

(** two threads: one pushes 5 while the other waits for the mutex and takes it *)
Lemma queue_is_fifo_witness :
  ∃ q : safeQueue Z, run (new_queue 0 2) q ∧ sq_log q = [EPush 5; ETake (Some 5)]
    ∧ replay [] (sq_log q) = Some (sq_items q).
Proof.
  eexists. match goal with |- ?P ∧ _ => assert (H : P) end.
  { go (step_call 0 (PushEnter 5)). go (step_lock 0 (PushEnter 5)). go (step_call 1 TakeEnter). go (step_room 0 5).
    go (step_work 0 (PushAdd 5)). go (step_unlock 0). go (step_lock 1 TakeEnter). go (step_work 1 TakeRead).
    go (step_work 1 (TakePop 5)). apply rtc_refl. }
  split; [exact H|]. split; [reflexivity|]. exact (proj1 (queue_is_fifo 0 2 _ H)).
Defined.

(** The limit is passed.  With three threads and the limit 1, two pushes that wait see room
    at the same time, after a pop, and both add their item, also when what they read is
    the size. *)
Lemma limit_passed : ∃ q : safeQueue Z, run (new_queue 1 3) q ∧ sq_limit q = 1 ∧ size q = 2.
Proof.
  eexists. split.
  { go (step_call 0 (PushEnter 5)). go (step_lock 0 (PushEnter 5)). go (step_room 0 5). go (step_work 0 (PushAdd 5)). go (step_unlock 0).
    go (step_call 0 (PushEnter 6)). go (step_lock 0 (PushEnter 6)). go (step_full 0 6).
    go (step_call 1 (PushEnter 7)). go (step_lock 1 (PushEnter 7)). go (step_full 1 7).
    go (step_call 2 PopEnter). go (step_lock 2 PopEnter). go (step_work 2 PopDo). go (step_unlock 2).
    go (step_awake 0 6 0). go (step_awake 1 7 0).
    go (step_lock 0 (PushRelock 6)). go (step_work 0 (PushAdd 6)). go (step_unlock 0).
    go (step_lock 1 (PushRelock 7)). go (step_work 1 (PushAdd 7)). apply rtc_refl. }
  split; reflexivity.
Qed.

(** [back] of a queue that is empty is undefined, although its result is meant to say
    whether there was an item. *)
Lemma back_of_empty_undefined : ∃ q : safeQueue Z, run (new_queue 0 1) q ∧ step q None.
Proof.
  eexists. split; [go (step_call 0 BackEnter); go (step_lock 0 BackEnter); apply rtc_refl|]. by apply (step_back_empty 0).
Qed.

Lemma no_limit_blocks_witness :
  ∃ q : safeQueue Z, sq_items q = [] ∧ sq_limit q = 0 ∧ sq_threads q !! 0%nat = Some (PushWait 6).
Proof.
  eexists. match goal with |- _ ∧ _ ∧ sq_threads ?x !! _ = _ =>
    assert (H : rtc (λ q q', step q (Some q') ∧ sq_limit q' = sq_limit q)
      {| sq_items := [5]; sq_mutex := None; sq_limit := 0; sq_threads := [PushWait 6; Idle]; sq_log := [] |} x) end.
  { go_fixed (step_call 1 PopEnter). go_fixed (step_lock 1 PopEnter). go_fixed (step_work 1 PopDo). apply rtc_refl. }
  split; [reflexivity|]. split; [reflexivity|]. apply (λ a b, no_limit_blocks _ _ 0 6 a b H); reflexivity.
Defined.
