(* ===== verification/Redis.v ===== *)
(** * The SONiC state database ([redis/MsgBusImpl_redis.cpp], [RedisManager.cpp])

    The message bus implementation that mirrors neighbours and unicast routes
    into the tables of [BMP_STATE_DB].  The database client is the swss library:
    it is a parameter, the class [SwssDb], and what the collector relies on are
    the laws [SwssLaws]. *)

From S2P Require Import Prelude Inet BgpCommon UpdateTypes MPReach UpdateMsg MsgBus ParseBGP.

(** ** The database client *)

Abbreviation fields := (list (string * string)).

Class SwssDb (db : Type) : Type := {
  db_get : db → string → option fields;               (** the hash stored at a key *)
  table_set : string → string → fields → db → db;     (** [Table(db, name).set(key, values)] *)
  table_getKeys : string → db → list string;          (** [Table(db, name).getKeys(keys)] *)
  db_del : list string → db → db;                     (** [DBConnector::del(keys)] *)
  db_separator : Ascii.ascii }.                       (** [SonicDBConfig::getSeparator] *)

Definition sep_str `{SwssDb db} : string := String db_separator "".

(** the redis key of a table entry *)
Definition redis_key `{SwssDb db} (table key : string) : string := table +:+ sep_str +:+ key.

(** A table entry lives at table name, separator, key; [set] touches only it;
    [del] removes the given redis keys and nothing else; [getKeys] lists the
    keys of a table without the table name. *)
Class SwssLaws (db : Type) `{SwssDb db} : Prop := {
  set_present t k f d : is_Some (db_get (table_set t k f d) (redis_key t k));
  set_other t k f d k' : k' ≠ redis_key t k → db_get (table_set t k f d) k' = db_get d k';
  del_listed ks d k : k ∈ ks → db_get (db_del ks d) k = None;
  del_other ks d k : k ∉ ks → db_get (db_del ks d) k = db_get d k;
  getKeys_spec t d k : k ∈ table_getKeys t d ↔ is_Some (db_get d (redis_key t k)) }.

(** ** Tables *)

Definition BMP_TABLE_NEI : string := "BGP_NEIGHBOR_TABLE".
Definition BMP_TABLE_RIB_IN : string := "BGP_RIB_IN_TABLE".
Definition BMP_TABLE_RIB_OUT : string := "BGP_RIB_OUT_TABLE".
Definition BMP_CFG_TABLE_NEI : string := "bgp_neighbor_table".
Definition BMP_CFG_TABLE_RIB_IN : string := "bgp_rib_in_table".
Definition BMP_CFG_TABLE_RIB_OUT : string := "bgp_rib_out_table".

(** [std::string::pop_back] *)
Fixpoint pop_back (s : string) : string :=
  match s with
  | String _ EmptyString => ""
  | String c s' => String c (pop_back s')
  | EmptyString => ""
  end.

Section redis.
Context {db : Type} {D : SwssDb db}.

(** ** [RedisManager] *)

Record manager : Type := { stateDb : db; enabledTables : gset string }.

(** the key parts, each followed by the separator, and the last one removed *)
Definition full_key (keys : list string) : string :=
  pop_back (foldr (λ k s, k +:+ sep_str +:+ s) "" keys).

Definition WriteBMPTable (table : string) (keys : list string) (f : fields) (m : manager) : bool * manager :=
  if decide (table ∈ enabledTables m)
  then (true, {| stateDb := table_set table (full_key keys) f (stateDb m); enabledTables := enabledTables m |})
  else (false, m).

Definition RemoveEntityFromBMPTable (keys : list string) (m : manager) : manager :=
  {| stateDb := db_del keys (stateDb m); enabledTables := enabledTables m |}.

(** the configuration fields are read once, at start *)
Definition InitBMPConfig (fvt : fields) (m : manager) : manager :=
  let enable (acc : gset string) (fv : string * string) : gset string :=
    if String.eqb fv.2 "true" then
      if String.eqb fv.1 BMP_CFG_TABLE_NEI then {[BMP_TABLE_NEI]} ∪ acc
      else if String.eqb fv.1 BMP_CFG_TABLE_RIB_IN then {[BMP_TABLE_RIB_IN]} ∪ acc
      else if String.eqb fv.1 BMP_CFG_TABLE_RIB_OUT then {[BMP_TABLE_RIB_OUT]} ∪ acc
      else acc
    else acc in
  {| stateDb := stateDb m; enabledTables := foldl enable (enabledTables m) fvt |}.

Definition ResetBMPTable (table : string) (m : manager) : manager :=
  {| stateDb := db_del (table_getKeys table (stateDb m)) (stateDb m); enabledTables := enabledTables m |}.

Definition ResetAllTables (m : manager) : manager :=
  foldl (λ m t, ResetBMPTable t m) m (elements (enabledTables m)).

(** ** [MsgBusImpl_redis] *)

Definition peer_fields (p : obj_bgp_peer) (up : option obj_peer_up_event) (down : option obj_peer_down_event)
    (code : peer_action_code) : fields :=
  [("peer_addr", pe_addr p); ("peer_asn", dec (pe_as p)); ("peer_rd", pe_rd p)]
  ++ (match up with
      | Some u => [("remote_port", dec (ue_remote_port u)); ("local_asn", dec (ue_local_asn u));
                   ("local_ip", ue_local_ip u); ("local_port", dec (ue_local_port u));
                   ("sent_cap", ue_sent_cap u); ("recv_cap", ue_recv_cap u)]
      | None => []
      end)
  ++ (match code, down with
      | PEER_ACTION_DOWN, Some e =>
          [("bgp_err_code", dec (de_bgp_err_code e)); ("bgp_err_subcode", dec (de_bgp_err_subcode e));
           ("error_text", de_error_text e)]
      | _, _ => []
      end).

Definition attr_fields (a : obj_path_attr) : outcome fields :=
  origin ← init_read (at_origin a);
  count ← init_read (at_as_path_count a);
  origin_as ← init_read (at_origin_as a);
  nh ← init_read (at_next_hop a);
  lp ← init_read (at_local_pref a);
  oid ← init_read (at_originator_id a);
  Ok [("origin", origin); ("as_path", at_as_path a); ("as_path_count", dec count);
      ("origin_as", dec origin_as); ("next_hop", nh); ("local_pref", dec lp);
      ("community_list", at_community_list a); ("ext_community_list", at_ext_community_list a);
      ("large_community_list", at_large_community_list a); ("originator_id", oid)].

Definition rib_table (p : obj_bgp_peer) : string := if pe_isAdjIn p then BMP_TABLE_RIB_IN else BMP_TABLE_RIB_OUT.
Definition rib_prefix (r : obj_rib) : string := ri_prefix r +:+ "/" +:+ dec (ri_prefix_len r).

(** one [UNICAST_PREFIX_ACTION_ADD] entry after the other *)
Fixpoint add_entries (p : obj_bgp_peer) (a : obj_path_attr) (rib : list obj_rib) (m : manager)
  : outcome manager :=
  match rib with
  | [] => Ok m
  | r :: rib' =>
      f ← attr_fields a;
      add_entries p a rib' (WriteBMPTable (rib_table p) [rib_prefix r; pe_addr p] f m).2
  end.

Definition del_key (p : obj_bgp_peer) (r : obj_rib) : string :=
  rib_table p +:+ sep_str +:+ rib_prefix r +:+ sep_str +:+ pe_addr p.

Definition redis_update_unicastPrefix (p : obj_bgp_peer) (rib : list obj_rib) (attr : option obj_path_attr)
    (code : unicast_prefix_action_code) (m : manager) : outcome manager :=
  match attr with
  | None => Ok m
  | Some a =>
      match code with
      | UNICAST_PREFIX_ACTION_ADD => add_entries p a rib m
      | UNICAST_PREFIX_ACTION_DEL =>
          match del_key p <$> rib with
          | [] => Ok m
          | del_keys => Ok (RemoveEntityFromBMPTable del_keys m)
          end
      end
  end.

Definition redis_update_Peer (p : obj_bgp_peer) (up : option obj_peer_up_event)
    (down : option obj_peer_down_event) (code : peer_action_code) (m : manager) : manager :=
  (WriteBMPTable BMP_TABLE_NEI [pe_addr p] (peer_fields p up down code) m).2.

(** the other methods have empty bodies *)
#[global] Instance redis_bus : MsgBus manager := {|
  update_Router r _ m := Ok (r, m);
  update_Peer p u d c m := Ok (p, redis_update_Peer p u d c m);
  update_baseAttribute _ a m := Ok (a, m);
  update_unicastPrefix := redis_update_unicastPrefix;
  update_L3Vpn _ _ _ _ m := Ok m;
  update_eVPN _ _ _ _ m := Ok m;
  update_LsNode _ _ _ _ m := Ok m;
  update_LsLink _ _ _ _ m := Ok m;
  update_LsPrefix _ _ _ _ m := Ok m;
  add_StatReport _ _ m := Ok m;
  send_bmp_raw _ _ _ m := Ok m;
  (* never assigned *)
  ribSeq _ := None;
  (* no method throws a text *)
  thrown _ := None;
  caught m := m |}.
End redis.
Arguments manager : clear implicits.

(** ** Keys *)

Lemma pop_back_app s c : pop_back (s +:+ String c "") = s.
Proof.
  induction s as [|a s IH]; [done|]. rewrite append_cons.
  destruct s as [|a' s]; [done|]. cbn [pop_back]. rewrite append_cons in *. by rewrite IH.
Qed.

Section redis_properties.
Context {db : Type} {D : SwssDb db} {L : SwssLaws db}.
Implicit Types (m : manager db) (p : obj_bgp_peer).

(** The key an announcement writes is the key a deletion removes. *)
Lemma write_key p r : redis_key (rib_table p) (full_key [rib_prefix r; pe_addr p]) = del_key p r.
Proof.
  unfold redis_key, del_key, full_key. cbn [foldr]. rewrite string_app_nil_r.
  rewrite <-(string_app_assoc sep_str), <-(string_app_assoc (rib_prefix r)).
  unfold sep_str at 3. by rewrite pop_back_app.
Qed.

Lemma WriteBMPTable_rib p r f m :
  rib_table p ∈ enabledTables m →
  let m' := (WriteBMPTable (rib_table p) [rib_prefix r; pe_addr p] f m).2 in
  enabledTables m' = enabledTables m
  ∧ is_Some (db_get (stateDb m') (del_key p r))
  ∧ ∀ k, k ≠ del_key p r → db_get (stateDb m') k = db_get (stateDb m) k.
Proof.
  intros He. unfold WriteBMPTable. rewrite decide_True by done. cbn [snd stateDb enabledTables].
  rewrite <-write_key. split_and!; [done|apply set_present|apply set_other].
Qed.

Lemma add_entries_ok p a f rib m :
  attr_fields a = Ok f → rib_table p ∈ enabledTables m →
  ∃ m', add_entries p a rib m = Ok m' ∧ enabledTables m' = enabledTables m
    ∧ (∀ r, r ∈ rib → is_Some (db_get (stateDb m') (del_key p r)))
    ∧ (∀ k, k ∉ del_key p <$> rib → db_get (stateDb m') k = db_get (stateDb m) k).
Proof.
  intros Hf. revert m. induction rib as [|r rib IH]; intros m He; cbn [add_entries].
  { exists m. split_and!; [done|done| |done]. intros r Hr. by apply elem_of_nil in Hr. }
  rewrite Hf, bind_Ok_l. destruct (WriteBMPTable_rib p r f m He) as (E1 & E2 & E3).
  destruct (IH (WriteBMPTable (rib_table p) [rib_prefix r; pe_addr p] f m).2) as (m' & -> & H1 & H2 & H3);
    [by rewrite E1|].
  exists m'. split_and!; [done|congruence| |].
  - intros r' [->|Hr]%elem_of_cons; [|by apply H2].
    destruct (decide (del_key p r ∈ del_key p <$> rib)) as [Hin|Hout]; [|by rewrite H3].
    apply list_elem_of_fmap in Hin as (r'' & -> & Hr''). by apply H2.
  - intros k Hk. rewrite fmap_cons, not_elem_of_cons in Hk. destruct Hk as [Hk1 Hk2].
    by rewrite H3, E3.
Qed.


(** Withdrawn routes stay in the state database.  The handler of withdrawals
    passes no attribute object, and the implementation returns at once when there
    is none: an UPDATE that only withdraws leaves the database untouched,
    whatever it withdraws. *)
Theorem redis_withdraw_ignored (p : obj_bgp_peer) (d : parsed_update_data) (s : parser) (m : manager db) :
  advertised d = [] → UpdateDB true p d s m = Ok (s, m).
Proof.
  intros Hd. unfold UpdateDB, UpdateDBAdvPrefixes, UpdateDBWdrawnPrefixes. rewrite Hd. run.
  cbn [rib_entries]. run. by destruct (_ <$> _).
Qed.

(** Announcing a route to the state database reads uninitialised members.
    In the build with [REDIS_ENABLED], handling any parsed UPDATE that announces
    at least one (complete) prefix has undefined behaviour: the attribute object
    that is printed into the table was never filled. *)
Theorem redis_announce_uninitialised (p : obj_bgp_peer) (d : parsed_update_data) (m : manager db) :
  Forall (λ t, is_Some (pt_prefix_bin t)) (advertised d) → advertised d ≠ [] →
  UpdateDB true p d new_parser m = Undef Uninit.
Proof.
  intros Hb Hne. unfold UpdateDB, UpdateDBAdvPrefixes. run.
  destruct (rib_entries_ok p (path_hash_id new_parser) (advertised d) no_bcast Hb) as (ribs & -> & Hr). run.
  destruct Hr; done.
Qed.

(** Resetting a table does not remove its entries.  The keys that are listed
    carry no table name, but are deleted as complete redis keys: an entry of the
    table is still there after [ResetBMPTable], unless the table also has an
    entry whose key repeats the table name. *)
Theorem redis_reset_keeps_entries (table key : string) (m : manager db) :
  is_Some (db_get (stateDb m) (redis_key table key)) →
  db_get (stateDb m) (redis_key table (redis_key table key)) = None →
  db_get (stateDb (ResetBMPTable table m)) (redis_key table key) = db_get (stateDb m) (redis_key table key).
Proof.
  intros Hk Hn. cbn [stateDb ResetBMPTable]. apply del_other. rewrite getKeys_spec, Hn. by intros [? ?].
Qed.

(** A table that is not enabled is never written.  Neighbour updates and
    announcements for a disabled table leave the database as it is, and a table
    is enabled exactly when it was before or the configuration has its field set
    to "true". *)
Theorem redis_disabled_tables_untouched (p : obj_bgp_peer) (a : obj_path_attr) (f fvt : fields) (rib : list obj_rib)
    (up : option obj_peer_up_event) (down : option obj_peer_down_event) (code : peer_action_code)
    (m : manager db) :
  attr_fields a = Ok f →
  (BMP_TABLE_NEI ∉ enabledTables m → redis_update_Peer p up down code m = m)
  ∧ (rib_table p ∉ enabledTables m →
     redis_update_unicastPrefix p rib (Some a) UNICAST_PREFIX_ACTION_ADD m = Ok m)
  ∧ (BMP_TABLE_RIB_IN ∈ enabledTables (InitBMPConfig fvt m)
     ↔ BMP_TABLE_RIB_IN ∈ enabledTables m ∨ (BMP_CFG_TABLE_RIB_IN, "true") ∈ fvt).
Proof.
  intros Hf. split_and!.
  - intros Hn. unfold redis_update_Peer, WriteBMPTable. by rewrite decide_False.
  - intros Hn. cbn. induction rib as [|r rib IH]; [done|]. cbn [add_entries]. rewrite Hf, bind_Ok_l.
    unfold WriteBMPTable at 1. by rewrite decide_False.
  - cbn [enabledTables InitBMPConfig]. generalize (enabledTables m). induction fvt as [|[k v] fvt IH]; intros E.
    { cbn. set_solver. }
    cbn [foldl]. rewrite IH. clear IH. cbn [fst snd]. rewrite elem_of_cons.
    destruct (String.eqb_spec v "true") as [->|Hv]; [|set_solver].
    destruct (String.eqb_spec k BMP_CFG_TABLE_NEI) as [->|H1].
    { rewrite elem_of_union, elem_of_singleton. split; [|naive_solver].
      intros [[Hx|?]|?]; [discriminate Hx|auto..]. }
    destruct (String.eqb_spec k BMP_CFG_TABLE_RIB_IN) as [->|H2]; [set_solver|].
    destruct (String.eqb_spec k BMP_CFG_TABLE_RIB_OUT) as [->|H3].
    { rewrite elem_of_union, elem_of_singleton. split; [|naive_solver].
      intros [[Hx|?]|?]; [discriminate Hx|auto..]. }
    naive_solver.
Qed.
End redis_properties.

(** ** A database to run the bus on

    Redis as a finite map from keys to hashes, with the separator of SONiC. *)

Fixpoint strip_prefix (pre s : string) : option string :=
  match pre, s with
  | EmptyString, _ => Some s
  | String a pre', String b s' => if Ascii.eqb a b then strip_prefix pre' s' else None
  | String _ _, EmptyString => None
  end.

Lemma strip_prefix_spec pre s k : strip_prefix pre s = Some k ↔ s = pre +:+ k.
Proof.
  revert s. induction pre as [|a pre IH]; intros s; cbn [strip_prefix].
  - rewrite append_nil_l. naive_solver.
  - rewrite append_cons. destruct s as [|b s]; [done|].
    destruct (Ascii.eqb_spec a b) as [->|Hne]; [rewrite IH; naive_solver|naive_solver].
Qed.

Abbreviation map_db := (gmap string fields).

#[global] Instance map_swss : SwssDb map_db := {|
  db_get d k := d !! k;
  table_set t k f d := <[t +:+ "|" +:+ k := f]> d;
  table_getKeys t d := omap (strip_prefix (t +:+ "|")) (map_to_list d).*1;
  db_del ks d := foldr delete d ks;
  db_separator := "|"%char |}.

Lemma foldr_delete_lookup (ks : list string) (d : map_db) k :
  foldr delete d ks !! k = if decide (k ∈ ks) then None else d !! k.
Proof.
  induction ks as [|k' ks IH]; cbn [foldr].
  - by rewrite decide_False by apply not_elem_of_nil.
  - destruct (decide (k = k')) as [->|Hne].
    + rewrite lookup_delete_eq, decide_True; [done|by left].
    + rewrite lookup_delete_ne, IH by done. apply decide_ext. rewrite elem_of_cons. naive_solver.
Qed.

#[global] Instance map_swss_laws : SwssLaws map_db.
Proof.
  split.
  - intros t k f d. cbn. unfold redis_key, sep_str. cbn. rewrite lookup_insert_eq. eauto.
  - intros t k f d k' Hne. cbn. by rewrite lookup_insert_ne.
  - intros ks d k Hk. cbn. by rewrite foldr_delete_lookup, decide_True.
  - intros ks d k Hk. cbn. by rewrite foldr_delete_lookup, decide_False.
  - intros t d k. cbn [table_getKeys map_swss]. rewrite list_elem_of_omap. unfold redis_key, sep_str.
    cbn [db_get db_separator map_swss]. split.
    + intros (x & Hx & Hs). apply strip_prefix_spec in Hs. subst x.
      apply list_elem_of_fmap in Hx as ([x f] & E & Hx). cbn in E. subst x.
      apply elem_of_map_to_list in Hx. rewrite string_app_assoc in Hx. by exists f.
    + intros [f Hf]. exists ((t +:+ "|") +:+ k). split; [|by apply strip_prefix_spec].
      apply list_elem_of_fmap. exists ((t +:+ "|") +:+ k, f). split; [done|].
      apply elem_of_map_to_list. by rewrite string_app_assoc.
Qed.

(** ** Witnesses *)

Definition sample_manager : manager map_db :=
  {| stateDb := {["BGP_RIB_OUT_TABLE|10.0.0.0/8|192.0.2.1" := [("origin", "igp")]]};
     enabledTables := {[BMP_TABLE_RIB_OUT]} |}.

Definition sample_path_attr : obj_path_attr :=
  {| at_hash_id := None; at_origin := Some "igp"; at_as_path := " 65001"; at_as_path_count := Some 1;
     at_origin_as := Some 65001; at_nexthop_isIPv4 := Some true; at_next_hop := Some "192.0.2.9";
     at_aggregator := Some ""; at_atomic_agg := Some false; at_med := Some 0; at_local_pref := Some 100;
     at_community_list := ""; at_ext_community_list := ""; at_large_community_list := "";
     at_cluster_list := ""; at_originator_id := Some "" |}.

Definition sample_ribs : list obj_rib :=
  (λ x, rib_entry zero_peer None (dec_nlri true false x) no_bcast) <$> sample_announced.


Lemma redis_withdraw_ignored_witness :
  let d := set_withdrawn (dec_nlri true false <$> sample_announced) no_update in
  UpdateDB true zero_peer d new_parser sample_manager = Ok (new_parser, sample_manager).
Proof. intros d. apply (redis_withdraw_ignored zero_peer d new_parser sample_manager). reflexivity. Defined.

Lemma redis_announce_uninitialised_witness :
  let d := set_advertised (dec_nlri true false <$> sample_announced) no_update in
  UpdateDB true zero_peer d new_parser sample_manager = Undef Uninit.
Proof.
  intros d. apply (redis_announce_uninitialised zero_peer d sample_manager); [|done].
  apply dec_nlri_bin.
Defined.

Lemma redis_reset_keeps_entries_witness :
  db_get (stateDb (ResetBMPTable BMP_TABLE_RIB_OUT sample_manager))
    (redis_key BMP_TABLE_RIB_OUT "10.0.0.0/8|192.0.2.1")
  = Some [("origin", "igp")].
Proof.
  rewrite (redis_reset_keeps_entries BMP_TABLE_RIB_OUT "10.0.0.0/8|192.0.2.1" sample_manager);
    [vm_compute; reflexivity|vm_compute; eauto|vm_compute; reflexivity].
Defined.

Lemma redis_disabled_tables_untouched_witness :
  (BMP_TABLE_NEI ∉ enabledTables sample_manager →
   redis_update_Peer zero_peer None None PEER_ACTION_FIRST sample_manager = sample_manager)
  ∧ (rib_table zero_peer ∉ enabledTables sample_manager →
     redis_update_unicastPrefix zero_peer sample_ribs (Some sample_path_attr) UNICAST_PREFIX_ACTION_ADD
       sample_manager = Ok sample_manager)
  ∧ (BMP_TABLE_RIB_IN ∈ enabledTables (InitBMPConfig [(BMP_CFG_TABLE_RIB_IN, "true")] sample_manager)
     ↔ BMP_TABLE_RIB_IN ∈ enabledTables sample_manager
       ∨ (BMP_CFG_TABLE_RIB_IN, "true") ∈ [(BMP_CFG_TABLE_RIB_IN, "true")]).
Proof.
  eapply (redis_disabled_tables_untouched zero_peer sample_path_attr _ [(BMP_CFG_TABLE_RIB_IN, "true")]
           sample_ribs None None PEER_ACTION_FIRST sample_manager). reflexivity.
Defined.
