(* ===== verification/RedisSession.v ===== *)
(** * A connection in the SONiC build ([client_thread.cpp] with [REDIS_ENABLED])

    A connection with the state database as its bus: the tables are chosen from the
    configuration database and reset, and the reader writes the routes and neighbours of
    the router. *)

From S2P Require Import Prelude Inet BgpCommon Configuration UpdateTypes MPReach UpdateMsg MsgBus ParseBGP BMPReader BusFrame.
From S2P Require Import ClientThread Listener Server Session ClientLife Connection Redis.

Section session.
Context {db : Type} {D : SwssDb db}.

(** the constructor of [MsgBusImpl_redis]: [fvt] are the fields of the table in the
    configuration database *)
Definition new_redis (fvt : fields) (d : db) : manager db := InitBMPConfig fvt {| stateDb := d; enabledTables := ∅ |}.

(** what the reader starts with: the tables that are switched on, after their reset *)
Definition redis_session (conn : client_conn) (hash : list Z) (baseline : gmap (list Z) Z) (fvt : fields) (d : db)
  : reader (manager db) :=
  new_reader conn hash [] baseline (ResetAllTables (new_redis fvt d)).
End session.

(** ** What a connection does to the database *)

Section effect.
Context {db : Type} {D : SwssDb db} {L : SwssLaws db}.

(** a key of the tables of a manager *)
Definition in_tables (tables : gset string) (k : string) : Prop := ∃ t key, t ∈ tables ∧ k = redis_key t key.
(** a complete key that is not, at the same time, a key inside of one of the tables *)
Definition not_listed (tables : gset string) (d : db) (k : string) : Prop :=
  ∀ t, t ∈ tables → db_get d (redis_key t k) = None.

(** the tables are those of the start, entries stay, and other keys are as they were *)
Definition only_adds (tables : gset string) (d : db) (ks : string → Prop) (m : manager db) : Prop :=
  enabledTables m = tables
  ∧ ∀ k, ks k → (is_Some (db_get d k) → is_Some (db_get (stateDb m) k))
               ∧ (¬ in_tables tables k → db_get (stateDb m) k = db_get d k).

Lemma write_only_adds tables d ks table keys f m :
  only_adds tables d ks m → only_adds tables d ks (WriteBMPTable table keys f m).2.
Proof.
  intros [He Hk]. unfold WriteBMPTable. case_decide as Ht; [|done]. split; [done|]. intros k Hks. cbn [stateDb snd].
  destruct (Hk k Hks) as [H1 H2]. destruct (decide (k = redis_key table (full_key keys))) as [->|Hne].
  - split; [intros _; apply set_present|]. intros Hn. destruct Hn. exists table, (full_key keys). by rewrite <-He.
  - rewrite set_other by done. done.
Qed.

Lemma add_only_adds tables d ks p a rib m m' :
  add_entries p a rib m = Ok m' → only_adds tables d ks m → only_adds tables d ks m'.
Proof.
  revert m. induction rib as [|r rib IH]; intros m H Hm; cbn [add_entries] in H; [by injection H as <-|].
  apply bind_Ok_inv in H as (f & _ & H). eapply IH; [exact H|]. by apply write_only_adds.
Qed.

Lemma handler_only_adds tables d ks m m' :
  handler_op redis_bus m m' → only_adds tables d ks m → only_adds tables d ks m'.
Proof.
  destruct 1 as [r code r' s s' H|p u dn code p' s s' H|p a a' s s' H|p l a s s' H|p l s s' H|p l a code s s' H|p l a code s s' H
    |p a l code s s' H|p a l code s s' H|p a l code s s' H|p st s s' H|h p data s s' H|s]; cbn in *; intros Hm;
    try (injection H as _ <-); try (injection H as <-); try done.
  - by apply write_only_adds.
  - by eapply add_only_adds.
Qed.

Lemma reset_only_adds tables d (m : manager db) :
  only_adds tables d (not_listed tables d) m → (∀ k, db_get d k = None → db_get (stateDb m) k = None) →
  only_adds tables d (not_listed tables d) (ResetAllTables m)
  ∧ ∀ k, db_get d k = None → db_get (stateDb (ResetAllTables m)) k = None.
Proof.
  unfold ResetAllTables. intros Hm Hsub. assert (Forall (λ t, t ∈ tables) (elements (enabledTables m))) as Hall.
  { apply Forall_forall. intros t. rewrite elem_of_elements. by destruct Hm as [-> _]. }
  revert Hall. generalize (elements (enabledTables m)) as l. intros l. revert m Hm Hsub.
  induction l as [|t l IH]; intros m Hm Hsub Hall; [done|]. apply Forall_cons in Hall as [Ht Hall]. cbn [foldl].
  apply IH; [| |done].
  - destruct Hm as [He Hk]. split; [done|]. intros k Hks. cbn [stateDb ResetBMPTable].
    rewrite del_other; [by apply Hk|]. rewrite getKeys_spec. rewrite (Hsub (redis_key t k)) by by apply Hks. by intros [? ?].
  - intros k Hn. cbn [stateDb ResetBMPTable]. destruct (decide (k ∈ table_getKeys t (stateDb m))) as [Hin|Hin];
      [by apply del_listed|]. rewrite del_other by done. by apply Hsub.
Qed.
End effect.

(** C32: a connection only adds to the database.  Whatever octets a router sends, however
    the two threads of its connection interleave and however they end, in every state they
    reach before anything undefined happens: no entry that was there when the router
    connected is removed, neither by the reset at the start (which deletes keys without
    their table name, although it is meant to empty the tables) nor by a withdrawal (which
    reaches the bus without attributes), and nothing outside of the tables that are
    switched on changes.  This is of every key that is not, at the same time, the part
    after the table name of an entry in one of these tables.  An announcement of unicast
    prefixes is itself undefined in this build. *)
Theorem redis_session_only_adds {db : Type} {D : SwssDb db} {L : SwssLaws db} {LS : LinkState} (cfg : Config)
    (size c_sock s0 s1 : Z) (buf octets : list Z) (conn : client_conn) (hash : list Z) (baseline : gmap (list Z) Z) (fvt : fields)
    (d : db) (s : connection) (k : string) :
  let tables := enabledTables (new_redis fvt d) in
  steps true cfg size c_sock s0 s1 (start buf octets (redis_session conn hash baseline fvt d)) s → not_listed tables d k →
  let m := mbus (cn_reader s) in
  enabledTables m = tables
  ∧ (is_Some (db_get d k) → is_Some (db_get (stateDb m) k))
  ∧ (¬ in_tables tables k → db_get (stateDb m) k = db_get d k).
Proof.
  intros tables H Hk m. assert (only_adds tables d (not_listed tables d) m) as [H1 H2]; [|split; [done|by apply H2]].
  revert H. apply connection_bus; [intros b b'; apply handler_only_adds|]. apply reset_only_adds; [|done]. by split.
Qed.

(** an entry of the table of the routes, and the connection of a router that sends an octet
    that is no BMP version *)
Definition sample_db : map_db :=
  {["BGP_RIB_IN_TABLE|10.0.0.0/8|192.0.2.1" := [("origin", "igp")]; "OTHER|x" := [("a", "b")]]}.
Definition sample_redis : reader (manager map_db) :=
  redis_session sample_conn (zeros 16) ∅ [(BMP_CFG_TABLE_RIB_IN, "true")] sample_db.

Lemma sample_redis_message :
  ∃ e rd', ReadIncomingMsg (LS := null_link_state) true BMPReader.sample_config (0, 0) 0 (give [99] false sample_redis)
           = Ok (ReadRaised e, rd').
Proof.
  assert ((if ReadIncomingMsg (LS := null_link_state) true BMPReader.sample_config (0, 0) 0 (give [99] false sample_redis)
           is Ok (ReadRaised _, _) then true else false) = true) as H by (vm_compute; reflexivity).
  destruct (ReadIncomingMsg _ _ _ _ _) as [[[| |e] rd']| | |]; try discriminate H. by eexists _, _.
Qed.

Lemma sample_redis_run : ∃ s : connection,
  steps (LS := null_link_state) true BMPReader.sample_config 4 7 8 9 (start (zeros 4) [99] sample_redis) s ∧ cn_at s = Ended.
Proof.
  destruct sample_redis_message as (e & rd' & E). eexists. split.
  - eapply rtc_l; [by eapply (step_fill _ _ _ _ _ _ (Ready 1) []); [..|vm_compute; reflexivity]|].
    eapply rtc_l; [by apply step_loop|].
    eapply rtc_l; [by eapply (step_drain _ _ _ _ _ _ (Ready 1)); [..|vm_compute; reflexivity]|].
    eapply rtc_l; [|apply rtc_refl].
    eapply (step_message _ _ _ _ _ _ [99] (0, 0) 0 (ReadRaised e) 1 rd'); [reflexivity..|intros _; reflexivity|].
    exists 1%nat, false. split; [exact E|]. split; [cbn; lia|exact I].
  - reflexivity.
Qed.

Lemma redis_session_only_adds_witness :
  ∃ s : connection, cn_at s = Ended ∧ is_Some (db_get (stateDb (mbus (cn_reader s))) "BGP_RIB_IN_TABLE|10.0.0.0/8|192.0.2.1").
Proof.
  destruct sample_redis_run as (s & Hs & Ha). exists s. split; [exact Ha|].
  apply (redis_session_only_adds BMPReader.sample_config 4 7 8 9 (zeros 4) [99] sample_conn (zeros 16) ∅
    [(BMP_CFG_TABLE_RIB_IN, "true")] sample_db s "BGP_RIB_IN_TABLE|10.0.0.0/8|192.0.2.1" Hs).
  - assert (enabledTables (new_redis [(BMP_CFG_TABLE_RIB_IN, "true")] sample_db) = {[BMP_TABLE_RIB_IN]}) as -> by (vm_compute; reflexivity).
    intros t ->%elem_of_singleton. reflexivity.
  - vm_compute. by eexists.
Defined.
