(* ===== verification/Termination.v ===== *)
(** * Termination of the collector

    Every loop of the model carries a bound on its iterations.  This file shows
    that no bound is ever exhausted: for arbitrary octets the parsers return,
    throw or are undefined, and the reader of a connection handles every message
    and stops.  The link-state component and the message bus enter through the
    interfaces [LinkStateTotal] and [BusTotal].  The parsers of the program satisfy the
    first.  The recording bus and the Redis bus of the SONiC build satisfy the second;
    the Kafka bus does not, since it tries to reconnect until its broker answers
    ([ensure_connected]), and [reader_terminates] says nothing of a reader that waits
    in there. *)

From S2P Require Import Prelude Connection RedisSession.
From S2P Require Import Prelude Inet MD5 BgpCommon AddPath NotificationMsg OpenMsg UpdateTypes EVPN MPReach LinkStateNlri LinkStateAttr ExtCommunity UpdateMsg MsgBus LsMerge ParseBGP ParseBMP BMPReader Redis.

(** ** Octets of a buffer *)

Lemma rd_bytes p b p' : bytes_ok p → rd p = Ok (b, p') → 0 ≤ b < 256 ∧ bytes_ok p'.
Proof. intros Hp. destruct p as [|x p]; [done|]. intros [= <- <-]. by inversion_clear Hp. Qed.

Lemma get_u32_bound p v : bytes_ok p → get_u32 p = Ok v → 0 ≤ v.
Proof.
  intros Hb H. unfold get_u32 in H. inv_ok.
  match goal with H2 : memcpy 4 _ = Ok _ |- _ => apply memcpy_inv in H2 as [? ->] end.
  exact (proj1 (ntoh_bound (take 4 p) ltac:(apply Forall_take, Hb))).
Qed.

(** what the reads of a goal say about their results *)
Ltac reads := repeat match goal with
  | H : rd ?p = Ok (_, _) |- _ =>
      let Hb := fresh in assert (bytes_ok p) as Hb by eauto 6 using adv_bytes;
      apply (rd_bytes _ _ _ Hb) in H; clear Hb; destruct H
  | H : get_u16 ?p = Ok _ |- _ =>
      let Hb := fresh in assert (bytes_ok p) as Hb by eauto 6 using adv_bytes;
      apply (get_u16_bound _ _ Hb) in H; clear Hb
  end.

(** ** EVPN *)

Lemma parseRouteDistinguisher_terminates p r : terminates (parseRouteDistinguisher p r).
Proof. unfold parseRouteDistinguisher. term. Qed.
Lemma parse_mac_terminates p : terminates (parse_mac p).
Proof. unfold parse_mac. term. Qed.
#[export] Hint Resolve parse_mac_terminates : bmp.
Lemma parseEthernetSegmentIdentifier_terminates p : terminates (parseEthernetSegmentIdentifier p).
Proof. unfold parseEthernetSegmentIdentifier, get_u24, get_i32. term. Qed.
Lemma get_label_terminates p : terminates (get_label p).
Proof. unfold get_label. term. Qed.
Lemma evpn_addr_terminates b p n len : terminates (evpn_addr b p n len).
Proof. unfold evpn_addr. term. Qed.
#[export] Hint Resolve parseRouteDistinguisher_terminates parseEthernetSegmentIdentifier_terminates
  get_label_terminates evpn_addr_terminates : bmp.

Lemma evpn_route_terminates t r p n len l : terminates (evpn_route t r p n len l).
Proof. unfold evpn_route, evpn_auto_discovery, evpn_mac_ip, evpn_multicast, evpn_segment. term. Qed.

Lemma evpn_addr_nonneg b p n len s k : evpn_addr b p n len = Ok (s, k) → 0 ≤ k.
Proof.
  unfold evpn_addr, evpn_addr_bytes. destruct (_ && _) eqn:Hb; [|intros [= <- <-]; lia]. intros Hk.
  apply andb_prop in Hb as [? ?]; cmp. inv_ok.
  repeat case_match; cmp; try lia; (assert (0 ≤ b / 8) by (apply Z.div_pos; lia)); lia.
Qed.

Lemma evpn_route_progress t r p n len l x p' n' : evpn_route t r p n len l = Ok (x, (p', n')) → n ≤ n'.
Proof.
  unfold evpn_route, evpn_auto_discovery, evpn_mac_ip, evpn_multicast, evpn_segment. intros Hx.
  repeat (first [progress inv_ok | case_match]);
    repeat match goal with H : evpn_addr _ _ _ _ = Ok _ |- _ => apply evpn_addr_nonneg in H end; lia.
Qed.

Lemma evpn_loop_terminates fuel p n len acc :
  0 < Z.of_nat fuel → len - n < Z.of_nat fuel → terminates (evpn_loop fuel p n len acc).
Proof.
  revert p n acc. induction fuel as [|fuel IH]; intros p n acc H1 H2; [lia|]. cbn [evpn_loop].
  term; [apply evpn_route_terminates|]. cmp. subst.
  match goal with H : evpn_route _ _ _ _ _ _ = _ |- _ => apply evpn_route_progress in H end. apply IH; lia.
Qed.

Lemma parseNlriData_terminates u data len d : terminates (parseNlriData u data len d).
Proof. unfold parseNlriData. term. apply evpn_loop_terminates; lia. Qed.
#[export] Hint Resolve parseNlriData_terminates : bmp.

(** ** Multiprotocol attributes *)

Lemma isAddPathEnabled_terminates a s m : terminates (isAddPathEnabled a s m).
Proof. unfold isAddPathEnabled, codes_enabled, read_code. term. Qed.
Lemma path_id_step_terminates e n p : terminates (path_id_step e n p).
Proof. unfold path_id_step. term. Qed.
Lemma next_hop_text_terminates v4 n p : terminates (next_hop_text v4 n p).
Proof. unfold next_hop_text. term. Qed.
#[export] Hint Resolve isAddPathEnabled_terminates path_id_step_terminates next_hop_text_terminates : bmp.

Lemma path_id_step_nonneg e n p id k : path_id_step e n p = Ok (id, k) → 0 ≤ k.
Proof. unfold path_id_step. case_match; intros H'; inv_ok; lia. Qed.

Lemma addr_bytes_nonneg len : 0 ≤ len → 0 ≤ addr_bytes len.
Proof. intros. unfold addr_bytes. assert (0 ≤ len / 8) by (apply Z.div_pos; lia). case_match; lia. Qed.

(** the octets of a prefix: the identifier and the address count upwards *)
Ltac prefix_step := match goal with
  | H : path_id_step _ _ _ = Ok _ |- _ => apply path_id_step_nonneg in H
  | H : 0 ≤ ?z < 256 |- context [addr_bytes ?z] => pose proof (addr_bytes_nonneg z ltac:(lia)); clear H
  end.

Lemma prefix_loop_terminates fuel v4 ap p n len acc :
  bytes_ok p → 0 < Z.of_nat fuel → len - n < Z.of_nat fuel → terminates (prefix_loop fuel v4 ap p n len acc).
Proof.
  revert p n acc. induction fuel as [|fuel IH]; intros p n acc Hp H1 H2; [lia|]. cbn [prefix_loop].
  term. cmp. subst. reads. repeat prefix_step. apply IH; [by apply adv_bytes|lia..].
Qed.

Lemma label_loop_terminates fuel p n len s :
  0 < Z.of_nat fuel → len + 1 - n < Z.of_nat fuel → 0 ≤ n →
  terminates (label_loop fuel p n len s) ∧ ∀ k t, label_loop fuel p n len s = Ok (k, t) → 0 ≤ k.
Proof.
  revert p n s. induction fuel as [|fuel IH]; intros p n s H1 H2 H3; [lia|]. cbn [label_loop].
  zif; [|split; [done|intros ? ? [= <- _]; lia]].
  destruct (memcpy 3 p) as [bs|e|u|] eqn:Em; rewrite ?bind_Ok_l; try (by split; [|done]).
  - cbv zeta. case_match; [split; [done|intros ? ? [= <- _]; lia]|]. apply IH; lia.
  - by apply memcpy_not_NoFuel in Em.
Qed.

Lemma decodeLabel_total p len :
  0 ≤ len → terminates (decodeLabel p len) ∧ ∀ k t, decodeLabel p len = Ok (k, t) → 0 ≤ k.
Proof. intros. unfold decodeLabel. apply label_loop_terminates; lia. Qed.

Lemma vpn_rd_step_total v nb p r :
  terminates (vpn_rd_step v nb p r) ∧ ∀ r' k, vpn_rd_step v nb p r = Ok (r', k) → 0 ≤ k.
Proof. unfold vpn_rd_step. split; [term|]. intros r' k. case_match; intros H'; inv_ok; lia. Qed.
Lemma label_addr_step_total v4 nb p old :
  terminates (label_addr_step v4 nb p old) ∧ ∀ s b k, label_addr_step v4 nb p old = Ok (s, b, k) → 0 ≤ k.
Proof.
  unfold label_addr_step. split; [term|]. intros s b k. zif; intros H'; inv_ok; lia.
Qed.

Lemma label_prefix_loop_terminates fuel vpn v4 ap p n len t acc :
  bytes_ok p → 0 < Z.of_nat fuel → len - n < Z.of_nat fuel →
  terminates (label_prefix_loop fuel vpn v4 ap p n len t acc).
Proof.
  revert p n t acc. induction fuel as [|fuel IH]; intros p n t acc Hp H1 H2; [lia|]. cbn [label_prefix_loop].
  zif; [|done]. apply terminates_bind; [term|]. intros [id k] Hk. apply path_id_step_nonneg in Hk.
  apply terminates_bind; [term|]. intros [plen q] Hq. apply rd_bytes in Hq as [? Hq]; [|by apply adv_bytes].
  cbv zeta. assert (0 ≤ u16 (addr_bytes plen)) by (apply Z.mod_pos_bound; lia).
  destruct (decodeLabel_total q (u16 (addr_bytes plen))) as [T1 N1]; [done|].
  apply terminates_bind; [done|]. intros [lb ls] Hl. apply N1 in Hl.
  destruct (vpn_rd_step_total vpn (addr_bytes plen - lb) (adv lb q) (vt_rd t)) as [T2 N2].
  apply terminates_bind; [done|]. intros [r rb] Hr. apply N2 in Hr.
  destruct (label_addr_step_total v4 (addr_bytes plen - lb - rb) (adv rb (adv lb q)) (pt_prefix_bin (vt_prefix t))) as [T3 N3].
  apply terminates_bind; [done|]. intros [[s b] ab] Ha. apply N3 in Ha.
  apply IH; [eauto using adv_bytes|lia..].
Qed.

Lemma parseNlriData_IPv4IPv6_terminates v4 data len info acc :
  bytes_ok data → terminates (parseNlriData_IPv4IPv6 v4 data len info acc).
Proof. intros. unfold parseNlriData_IPv4IPv6. term. apply prefix_loop_terminates; [done|lia..]. Qed.
Lemma parseNlriData_LabelIPv4IPv6_terminates vpn v4 data len info :
  bytes_ok data → terminates (parseNlriData_LabelIPv4IPv6 vpn v4 data len info).
Proof. intros. unfold parseNlriData_LabelIPv4IPv6. term. apply label_prefix_loop_terminates; [done|lia..]. Qed.
#[export] Hint Resolve parseNlriData_IPv4IPv6_terminates parseNlriData_LabelIPv4IPv6_terminates : bmp.

(** what the UPDATE parsers expect of the link-state component *)
Class LinkStateTotal (LS : LinkState) : Prop := {
  reach_total nlri d : bytes_ok (nlri_data nlri) → terminates (parseReachLinkState nlri d);
  unreach_total nlri d : bytes_ok (un_nlri_data nlri) → terminates (parseUnReachLinkState nlri d);
  attr_total len data d : bytes_ok data → terminates (parseAttrLinkState len data d) }.

#[global] Instance link_state_total : LinkStateTotal link_state.
Proof.
  split; intros; [by apply reachLinkState_terminates|by apply unReachLinkState_terminates|by apply attrLinkState_terminates].
Qed.
#[global] Instance null_link_state_total : LinkStateTotal null_link_state.
Proof. by split. Qed.

Section update.
Context {LS : LinkState} {LST : LinkStateTotal LS}.

Lemma parseReachNlriAttr_terminates len data info d :
  bytes_ok data → terminates (parseReachNlriAttr len data info d).
Proof.
  intros Hb. unfold parseReachNlriAttr, reach_parseAfi, reach_IPv4IPv6. cbn [afi safi nh_len next_hop nlri_data nlri_len].
  term; reads; first [apply reach_total; done | by apply parseNlriData_IPv4IPv6_terminates
    | by apply parseNlriData_LabelIPv4IPv6_terminates].
Qed.

Lemma parseUnReachNlriAttr_terminates len data info d :
  bytes_ok data → terminates (parseUnReachNlriAttr len data info d).
Proof.
  intros Hb. unfold parseUnReachNlriAttr, unreach_parseAfi, unreach_IPv4IPv6.
  cbn [un_afi un_safi un_nlri_data un_nlri_len].
  term; reads; first [apply unreach_total; by cbn; eauto using adv_bytes
    | apply parseNlriData_IPv4IPv6_terminates; eauto using adv_bytes
    | apply parseNlriData_LabelIPv4IPv6_terminates; eauto using adv_bytes].
Qed.
#[local] Hint Resolve parseReachNlriAttr_terminates parseUnReachNlriAttr_terminates : bmp.

(** ** Path attributes *)

Lemma cluster_loop_terminates fuel i len p s :
  0 < Z.of_nat fuel → len - i < Z.of_nat fuel → terminates (cluster_loop fuel i len p s).
Proof.
  revert i p s. induction fuel as [|fuel IH]; intros i p s H1 H2; [lia|]. cbn [cluster_loop]. term. cmp. apply IH; lia.
Qed.
Lemma community_loop_terminates fuel i len p s :
  0 < Z.of_nat fuel → len - i < Z.of_nat fuel → terminates (community_loop fuel i len p s).
Proof.
  revert i p s. induction fuel as [|fuel IH]; intros i p s H1 H2; [lia|]. cbn [community_loop]. term. cmp. apply IH; lia.
Qed.
Lemma large_loop_terminates fuel i len p s :
  0 < Z.of_nat fuel → len - i < Z.of_nat fuel → terminates (large_loop fuel i len p s).
Proof.
  revert i p s. induction fuel as [|fuel IH]; intros i p s H1 H2; [lia|]. cbn [large_loop]. term. cmp. apply IH; lia.
Qed.

Lemma decode_ext_terminates high low v : terminates (decode_ext high low v).
Proof.
  unfold decode_ext, decodeType_common, decodeType_Generic, decodeType_Opaque, decodeType_EVPN, read_admin,
    get_u24, get_i32. term.
Qed.
#[local] Hint Resolve decode_ext_terminates : bmp.
Lemma ext_loop_terminates fuel i len p s :
  0 < Z.of_nat fuel → len - i < Z.of_nat fuel → terminates (ext_loop fuel i len p s).
Proof.
  revert i p s. induction fuel as [|fuel IH]; intros i p s H1 H2; [lia|]. cbn [ext_loop]. term. cmp. apply IH; lia.
Qed.
Lemma ext6_loop_terminates fuel i len p s :
  0 < Z.of_nat fuel → len - i < Z.of_nat fuel → terminates (ext6_loop fuel i len p s).
Proof.
  revert i p s. induction fuel as [|fuel IH]; intros i p s H1 H2; [lia|]. cbn [ext6_loop].
  unfold decodeType_IPv6Specific. term; cmp; apply IH; lia.
Qed.

(** the numbers of a segment are read, and the octets left do not grow *)
Lemma asn_loop_total k size st :
  0 ≤ size → terminates (asn_loop k size st)
  ∧ ∀ st', asn_loop k size st = Ok st' → as_path_len st' ≤ as_path_len st ∧ (bytes_ok (as_data st) → bytes_ok (as_data st')).
Proof.
  intros Hs. revert st. induction k as [|k IH]; intros st; cbn [asn_loop].
  { split; [done|]. intros st' [= <-]. split; [lia|done]. }
  destruct (memcpy size (as_data st)) as [bs|e|u|] eqn:Em; rewrite ?bind_Ok_l; try (by split; [|done]).
  - match goal with |- context [asn_loop k size ?s1] => destruct (IH s1) as [T N] end. split; [done|].
    intros st' H. destruct (N _ H) as [H1 H2]. cbn [as_path_len as_data] in *. split; [lia|].
    intros. by apply H2, adv_bytes.
  - by apply memcpy_not_NoFuel in Em.
Qed.

Lemma seg_loop_terminates fuel size st :
  0 ≤ size → bytes_ok (as_data st) → 0 < Z.of_nat fuel → as_path_len st < Z.of_nat fuel → terminates (seg_loop fuel size st).
Proof.
  intros Hs. revert st. induction fuel as [|fuel IH]; intros st Hb H1 H2; [lia|]. cbn [seg_loop]. zif; [|done].
  apply terminates_bind; [term|]. intros [ty q] Hq. apply rd_bytes in Hq as [_ Hq]; [|done].
  apply terminates_bind; [term|]. intros [n q'] Hq'. apply rd_bytes in Hq' as [_ Hq']; [|done]. cbv zeta. zif; [done|].
  match goal with |- context [asn_loop ?k ?s ?s1] => destruct (asn_loop_total k s s1 Hs) as [T N] end.
  apply terminates_bind; [done|]. intros st' H. destruct (N _ H) as [H3 H4]. cbn [as_path_len as_data] in *.
  apply IH; cbn [append_path as_data as_path_len]; [by apply H4|lia..].
Qed.

Lemma parseAttr_AsPath_terminates len data info m : bytes_ok data → terminates (parseAttr_AsPath len data info m).
Proof.
  intros Hb. unfold parseAttr_AsPath, as_path_rec, loop_fuel.
  assert (∀ size, 0 ≤ size → terminates (seg_loop (S (Z.to_nat len)) size
    {| as_data := data; as_path_len := len; decoded_path := ""; as_path_cnt := 0; seg_asn := 0 |})) as Hseg
    by (intros; apply seg_loop_terminates; cbn; done || lia).
  cbn [set_using_2_octet using_2_octet_asn]. destruct (using_2_octet_asn info); term; apply Hseg; lia.
Qed.

Lemma parseAttrData_terminates t len data info d : bytes_ok data → terminates (parseAttrData t len data info d).
Proof.
  intros Hb. unfold parseAttrData, parseExtCommunities, parsev6ExtCommunities, parseAttr_Aggegator, loop_fuel.
  term; first [by apply parseAttr_AsPath_terminates | apply cluster_loop_terminates; lia
    | apply community_loop_terminates; lia | apply large_loop_terminates; lia | apply ext_loop_terminates; lia
    | apply ext6_loop_terminates; lia | by apply attr_total].
Qed.

Lemma attr_length_nonneg f p l n : bytes_ok p → attr_length f p = Ok (l, n) → 0 ≤ l ∧ 0 ≤ n.
Proof.
  intros Hb. unfold attr_length. case_match; intros Hl; inv_ok; reads; lia.
Qed.

Lemma attr_loop_terminates fuel p n len info d :
  bytes_ok p → 0 < Z.of_nat fuel → len - n < Z.of_nat fuel → terminates (attr_loop fuel p n len info d).
Proof.
  revert p n info d. induction fuel as [|fuel IH]; intros p n info d Hp H1 H2; [lia|]. cbn [attr_loop]. zif; [|done].
  apply terminates_bind; [term|]. intros [f q] Hq. apply rd_bytes in Hq as [_ Hq]; [|done].
  apply terminates_bind; [term|]. intros [t q'] Hq'. apply rd_bytes in Hq' as [_ Hq']; [|done].
  apply terminates_bind; [unfold attr_length; term|]. intros [l k] Hl. apply attr_length_nonneg in Hl as [? ?]; [|done].
  cbv zeta. case_match; [apply terminates_bind|].
  - by apply parseAttrData_terminates, adv_bytes.
  - intros [info' d'] _. apply IH; [eauto using adv_bytes|lia..].
  - case_match; [done|]. apply IH; [eauto using adv_bytes|lia..].
Qed.

(** ** UPDATE *)

Lemma v4_loop_terminates fuel info p n len acc :
  bytes_ok p → 0 < Z.of_nat fuel → len - n < Z.of_nat fuel → terminates (v4_loop fuel info p n len acc).
Proof.
  revert p n acc. induction fuel as [|fuel IH]; intros p n acc Hp H1 H2; [lia|]. cbn [v4_loop].
  term; cmp; subst; reads; repeat prefix_step; (apply IH; [eauto using adv_bytes|lia..]).
Qed.
Lemma parseNlriData_v4_terminates data len info acc : bytes_ok data → terminates (parseNlriData_v4 data len info acc).
Proof. intros. unfold parseNlriData_v4. term. apply v4_loop_terminates; [done|lia..]. Qed.

Lemma parseUpdateMsg_total data size info d : bytes_ok data → terminates (parseUpdateMsg data size info d).
Proof.
  intros Hb. unfold parseUpdateMsg, parseAttributes, loop_fuel.
  term; first [apply parseNlriData_v4_terminates; eauto using adv_bytes
    | apply attr_loop_terminates; [eauto using adv_bytes|lia..]].
Qed.

End update.

(** C14: parsing an UPDATE terminates on every input: whatever the octets, the size and
    the state of the peer, all loops over prefixes, path attributes, AS paths,
    communities, multiprotocol, EVPN and link-state data end. *)
Theorem parseUpdateMsg_terminates {LS : LinkState} {LST : LinkStateTotal LS} (data : ptr) (size : Z) (info : peer_info) (d : parsed_update_data) :
  bytes_ok data → terminates (parseUpdateMsg data size info d).
Proof. apply parseUpdateMsg_total. Qed.

(** ** BGP messages *)

(** What the handlers expect of the message bus: every call returns, throws or is
    undefined.  A bus that waits for a broker without a limit is none of these. *)
Class BusTotal {bus : Type} (MB : MsgBus bus) : Prop := {
  Router_total r c b : terminates (update_Router r c b);
  Peer_total p u d c b : terminates (update_Peer p u d c b);
  baseAttribute_total p a b : terminates (update_baseAttribute p a b);
  unicastPrefix_total p l a c b : terminates (update_unicastPrefix p l a c b);
  L3Vpn_total p l a c b : terminates (update_L3Vpn p l a c b);
  eVPN_total p l a c b : terminates (update_eVPN p l a c b);
  LsNode_total p a l c b : terminates (update_LsNode p a l c b);
  LsLink_total p a l c b : terminates (update_LsLink p a l c b);
  LsPrefix_total p a l c b : terminates (update_LsPrefix p a l c b);
  StatReport_total p s b : terminates (add_StatReport p s b);
  raw_total h p d b : terminates (send_bmp_raw h p d b) }.

#[export] Hint Resolve Router_total Peer_total baseAttribute_total unicastPrefix_total L3Vpn_total eVPN_total
  LsNode_total LsLink_total LsPrefix_total StatReport_total raw_total : bmp.

#[global] Instance trace_bus_total : BusTotal trace_bus.
Proof. by split. Qed.

Lemma add_entries_terminates {db} `{SwssDb db} p a rib (m : manager db) : terminates (add_entries p a rib m).
Proof.
  revert m. induction rib as [|r rib IH]; intros m; cbn [add_entries]; [done|].
  unfold attr_fields, init_read. term.
Qed.
#[global] Instance redis_bus_total {db} `{SwssDb db} : BusTotal redis_bus.
Proof.
  split; intros; try done; cbn.
  unfold redis_update_unicastPrefix. term; apply add_entries_terminates.
Qed.

Lemma parseBgpHeader_terminates data size s : terminates (parseBgpHeader data size s).
Proof. unfold parseBgpHeader. term. Qed.
Lemma fill_base_attr_terminates m a : terminates (fill_base_attr m a).
Proof. unfold fill_base_attr, num_attr, stoul, stoi. term. Qed.
Lemma last_address_terminates v4 len bin old : terminates (last_address v4 len bin old).
Proof. unfold last_address. term. Qed.
#[export] Hint Resolve parseBgpHeader_terminates fill_base_attr_terminates last_address_terminates : bmp.
Lemma rib_entries_terminates p h l bc : terminates (rib_entries p h l bc).
Proof. revert bc. induction l; intros bc; cbn [rib_entries]; term. Qed.
Lemma vpn_entries_terminates p h l bc : terminates (vpn_entries p h l bc).
Proof. revert bc. induction l; intros bc; cbn [vpn_entries]; term. Qed.
Lemma evpn_entries_terminates p h l : terminates (evpn_entries p h l).
Proof. induction l; cbn [evpn_entries]; unfold evpn_entry, strcpy; term. Qed.
#[export] Hint Resolve rib_entries_terminates vpn_entries_terminates evpn_entries_terminates : bmp.

Section handlers.
Context {LS : LinkState} {LST : LinkStateTotal LS} {bus : Type} {MB : MsgBus bus} {BT : BusTotal MB}.

Lemma UpdateDB_terminates redis p d s (b : bus) : terminates (UpdateDB redis p d s b).
Proof.
  unfold UpdateDB, UpdateDBAttrs, UpdateDbBgpLs, UpdateDBAdvPrefixes, UpdateDBL3Vpn, UpdateDBeVPN, UpdateDBWdrawnPrefixes,
    and_then.
  term.
Qed.

Lemma handleUpdate_terminates redis p data size s info (b : bus) :
  bytes_ok data → terminates (handleUpdate redis p data size s info b).
Proof.
  intros Hb. unfold handleUpdate. term; [apply parseUpdateMsg_total; by apply adv_bytes|apply UpdateDB_terminates].
Qed.
End handlers.

Lemma handleDownEvent_terminates data size s e : terminates (handleDownEvent data size s e).
Proof. unfold handleDownEvent, parseNotify. term. Qed.

Lemma handleOpen_terminates sent data size s asn hold info err :
  bytes_ok data → terminates (handleOpen sent data size s asn hold info err).
Proof. intros Hb. unfold handleOpen. term. apply parseOpenMsg_total. by apply adv_bytes. Qed.

Lemma handleOpen_bytes sent data size s asn hold info err o data' s' :
  bytes_ok data → handleOpen sent data size s asn hold info err = Ok (o, data', s') → bytes_ok data'.
Proof. intros Hb. unfold handleOpen. intros H'. inv_ok. revert H'. case_match; [|done]. intros H'. inv_ok. revert H'. case_match; [done|]. intros [= _ <- _]. eauto using adv_bytes. Qed.

Lemma handleUpEvent_terminates data size s info u : bytes_ok data → terminates (handleUpEvent data size s info u).
Proof.
  intros Hb. unfold handleUpEvent. cbv zeta. apply terminates_bind; [by apply handleOpen_terminates|].
  intros [[o data'] s'] Ho. apply handleOpen_bytes in Ho; [|done]. term. by apply handleOpen_terminates.
Qed.

(** ** The router hash *)

Lemma block_loop_terminates fuel input i len s :
  0 < Z.of_nat fuel → 0 ≤ i ≤ len → len < 2 ^ 32 - 64 → len - i < Z.of_nat fuel →
  terminates (Md5.block_loop fuel input i len s).
Proof.
  revert i s. induction fuel as [|fuel IH]; intros i s H0 Hi Hl Hf; [lia|]. cbn [Md5.block_loop].
  rewrite !u32_small by lia. term. cmp. apply IH; lia.
Qed.

Lemma memcpy_at_terminates dst off n src : terminates (Md5.memcpy_at dst off n src).
Proof. unfold Md5.memcpy_at. term. Qed.
#[export] Hint Resolve memcpy_at_terminates : bmp.

Lemma update_terminates input len m : len < 2 ^ 32 - 64 → terminates (Md5.update input len m).
Proof.
  intros Hl. unfold Md5.update. assert (0 ≤ Z.land (Z.shiftr (Md5.count0 m) 3) 63 < 64).
  { change 63 with (Z.ones 6). rewrite Z.land_ones by lia. by apply Z.mod_pos_bound. }
  term. cmp. apply block_loop_terminates; lia.
Qed.

Lemma md5_digest_terminates chunks :
  Forall (λ bs, Z.of_nat (length bs) < 2 ^ 32 - 64) chunks → terminates (Md5.md5_digest chunks).
Proof.
  intros Hc. unfold Md5.md5_digest, Md5.md5_chunks, Md5.finalize. generalize (Md5.init (zeros 64) (zeros 16)).
  intros m. apply terminates_bind.
  { revert m. induction Hc; intros m; cbn [Md5.update_all]; [done|]. term. by apply update_terminates. }
  intros m1 _. clear m. rename m1 into m. assert (0 ≤ Z.land (Z.shiftr (Md5.count0 m) 3) 63).
  { change 63 with (Z.ones 6). rewrite Z.land_ones by lia. by apply Z.mod_pos_bound. }
  term; apply update_terminates; repeat case_match; lia.
Qed.

(** the members that the hash of a router is computed from, in their arrays *)
Definition router_sized (r : obj_router) : Prop :=
  (length (ro_name r) ≤ 255)%nat ∧ (String.length (ro_ip_addr r) < 46)%nat ∧ (String.length (ro_bgp_id r) < 16)%nat.

Lemma length_until_nul l : (length (until_nul l) ≤ length l)%nat.
Proof. induction l as [|x l IH]; cbn; [done|]. case_match; cbn; lia. Qed.

Lemma router_hash_terminates cfg r : bytes_ok (c_hash_id cfg) → router_sized r → terminates (router_hash cfg r).
Proof.
  intros Hc (H1 & H2 & H3). unfold router_hash, c_string. pose proof (hash_toStr_length _ Hc).
  apply terminates_bind; [term|]. intros v Hv. apply md5_digest_terminates.
  repeat apply Forall_cons_2; [|rewrite length_bytes_of_string; lia|apply Forall_nil_2].
  pose proof (length_until_nul (ro_name r)). repeat case_match; simplify_eq; rewrite ?length_bytes_of_string; lia.
Qed.

(** ** The BMP parser

    A step runs when it terminates, keeps the octets in range, reads the socket
    forwards and returns a value with the property. *)
Definition bmp_bytes (b : bmp) : Prop := bytes_ok (sock b) ∧ bytes_ok (bmp_data b).

Definition runs {A} (Q : A → Prop) (m : M A) : Prop :=
  ∀ b, bmp_bytes b → terminates (m b)
    ∧ ∀ a b', m b = Ok (a, b') → Q a ∧ bmp_bytes b' ∧ (length (sock b') ≤ length (sock b))%nat.

Lemma runs_ret {A} (Q : A → Prop) a : Q a → runs Q (mret a).
Proof. intros Hq b Hb. split; [done|]. intros ? ? [= <- <-]. done. Qed.
Lemma runs_throw {A} (Q : A → Prop) s : runs Q (throw s).
Proof. done. Qed.
Lemma runs_lift {A} (m : outcome A) : terminates m → runs (λ _, True) (lift m).
Proof.
  intros Hm b Hb. unfold lift. destruct m; cbn; split; try done. by intros ? ? [= <- <-].
Qed.
Lemma runs_get {A} (Q : A → Prop) (f : bmp → A) : (∀ b, bmp_bytes b → Q (f b)) → runs Q (get f).
Proof. intros Hf b Hb. split; [done|]. intros ? ? [= <- <-]. auto. Qed.
Lemma runs_modify (f : bmp → bmp) :
  (∀ b, bmp_bytes b → bmp_bytes (f b) ∧ sock (f b) = sock b) → runs (λ _, True) (modify f).
Proof. intros Hf b Hb. split; [done|]. intros ? ? [= <- <-]. destruct (Hf b Hb) as [? ->]. done. Qed.
Lemma runs_bind {A B} (P : A → Prop) (Q : B → Prop) (m : M A) (f : A → M B) :
  runs P m → (∀ a, P a → runs Q (f a)) → runs Q (m ≫= f).
Proof.
  intros Hm Hf b Hb. destruct (Hm b Hb) as [T N]. unfold mbind, M_bind.
  destruct (m b) as [[a b1]|e|u|]; cbn; try (by split; [|done]).
  destruct (N a b1 eq_refl) as (Pa & Hb1 & L1). destruct (Hf a Pa b1 Hb1) as [T2 N2]. split; [done|].
  intros c b2 E. destruct (N2 c b2 E) as (? & ? & ?). split_and!; [done..|lia].
Qed.
Lemma runs_Recv n peek : runs (λ x, bytes_ok x.2) (Recv n peek).
Proof.
  intros b [Hs Hd]. unfold Recv. case_match.
  - split; [done|]. intros ? ? [= <- <-]. by split_and!.
  - split; [done|]. intros ? ? [= <- <-]. cbn. split_and!; [by apply Forall_take| |].
    + split; [|done]. cbn. case_match; [done|by apply Forall_drop].
    + destruct peek; [done|]. rewrite length_drop. lia.
Qed.
Lemma runs_weaken {A} (P Q : A → Prop) (m : M A) : runs P m → (∀ a, P a → Q a) → runs Q m.
Proof. intros Hm HP b Hb. destruct (Hm b Hb) as [T N]. split; [done|]. intros a b' E. destruct (N a b' E); eauto. Qed.

Create HintDb runs discriminated.
#[export] Hint Resolve runs_throw runs_Recv : runs.

(** splits a step of the parser; what it binds needs no property but that of
    the octets received *)
Ltac runs_step := first
  [ solve [eauto 2 with runs] | apply runs_ret; done
  | match goal with
    | |- runs _ (mbind _ (Recv _ _)) => eapply runs_bind; [apply runs_Recv|intros [? ?] ?]
    | |- runs _ (mbind _ _) => apply (runs_bind (λ _, True)); [|intros ? _]
    | |- runs _ (get _) => by apply runs_get
    | |- runs _ (modify _) => by apply runs_modify
    | |- runs _ (if ?b then _ else _) => destruct b
    | |- runs _ (let '(_, _) := ?x in _) => destruct x
    | |- runs _ (match ?x with _ => _ end) => destruct x
    end ]; cbv beta zeta.
Ltac runs_go := repeat (cbv beta zeta; runs_step).

Abbreviation runs_ok := (runs (λ _, True)).

Lemma parsePeerHdr_runs now : runs_ok (parsePeerHdr now).
Proof. unfold parsePeerHdr. runs_go. Qed.
#[export] Hint Resolve parsePeerHdr_runs : runs.
Lemma parseBMPv3_runs now : runs_ok (parseBMPv3 now).
Proof. unfold parseBMPv3. runs_go. Qed.
Lemma parseBMPv2_runs now : runs_ok (parseBMPv2 now).
Proof. unfold parseBMPv2, peek_bgp_len. runs_go. Qed.
#[export] Hint Resolve parseBMPv3_runs parseBMPv2_runs : runs.
Lemma handleMessage_runs now : runs_ok (handleMessage now).
Proof. unfold handleMessage. runs_go. Qed.

(** a message takes at least one octet from the socket *)
Lemma handleMessage_consumes now b t b' :
  bmp_bytes b → handleMessage now b = Ok (t, b') → (length (sock b') < length (sock b))%nat.
Proof.
  intros Hb. unfold handleMessage. destruct (sock b) as [|x l] eqn:Es.
  { unfold mbind, M_bind, Recv. rewrite Es. cbn. by destruct (sock_err b). }
  rewrite (M_bind_Ok _ _ _ _ _ (Recv_app [x] l 1 b Es eq_refl eq_refl)). cbn beta iota.
  set (b1 := set_sock _ _ _). change (1 <? 0) with false. change (1 =? 0) with false. cbn iota beta zeta.
  match goal with |- ?m b1 = _ → _ => assert (runs (λ _, True) m) as Hm by runs_go end.
  assert (bmp_bytes b1) as H1 by (destruct Hb as [Hs Hd]; rewrite Es in Hs; by inversion_clear Hs).
  intros E. destruct (proj2 (Hm b1 H1) _ _ E) as (_ & _ & L). change (sock b1) with l in L. cbn [length]. lia.
Qed.

Lemma parsePeerDownEventHdr_runs e : runs_ok (parsePeerDownEventHdr e).
Proof. unfold parsePeerDownEventHdr. runs_go. Qed.

Lemma bufferBMPMessage_runs : runs_ok bufferBMPMessage.
Proof.
  unfold bufferBMPMessage. runs_step; [runs_go|]. runs_step; [runs_go|]. runs_step; [runs_go|]. runs_step.
  eapply (runs_bind bytes_ok); [by apply runs_get; intros ? []|]. intros old Hold. runs_go.
  apply runs_modify. intros b [Hs Hd]. split; [|done]. split; [done|]. apply Forall_app.
  split; [done|by apply Forall_drop].
Qed.
#[export] Hint Resolve bufferBMPMessage_runs parsePeerDownEventHdr_runs handleMessage_runs : runs.

Lemma recv_exact_runs good n : runs_ok (recv_exact good n).
Proof. unfold recv_exact. runs_go. Qed.
#[export] Hint Resolve recv_exact_runs : runs.
Lemma parsePeerUpEventHdr_runs u : runs_ok (parsePeerUpEventHdr u).
Proof. unfold parsePeerUpEventHdr. runs_go. Qed.

Lemma skip_octets_runs n : runs_ok (skip_octets n).
Proof. induction n; cbn [skip_octets]; runs_go. Qed.
#[export] Hint Resolve skip_octets_runs : runs.
Lemma set_stat_terminates t b s : terminates (set_stat t b s).
Proof. unfold set_stat, store_stat. term. Qed.
Lemma stats_loop_runs cnt s : runs_ok (stats_loop cnt s).
Proof.
  revert s. induction cnt as [|cnt IH]; intros s; cbn [stats_loop]; runs_go; try done.
  apply runs_lift, set_stat_terminates.
Qed.
#[export] Hint Resolve stats_loop_runs : runs.
Lemma handleStatsReport_runs s : runs_ok (handleStatsReport s).
Proof. unfold handleStatsReport. runs_go. Qed.

(** *** Information TLVs *)

Lemma memcpy_into_terminates dst n src : terminates (memcpy_into dst n src).
Proof. eauto with bmp. Qed.
Lemma copy_info_terminates dst n info : terminates (copy_info dst n info).
Proof. unfold copy_info. term. Qed.
#[export] Hint Resolve memcpy_into_terminates copy_info_terminates : bmp.

Lemma read_tlv_progress cap p t l i n : read_tlv cap p = Ok (t, l, i, n) → 4 ≤ n.
Proof. unfold read_tlv. intros H. inv_ok. revert H. zif; intros H; inv_ok; [case_match|]; cmp; lia. Qed.

Section tlvs.
Context {S : Type} (cap : nat) (f : Z → Z → option (list Z) → S → outcome S).

Lemma tlv_loop_terminates fuel i len p s :
  (∀ t l o s, terminates (f t l o s)) → 0 < Z.of_nat fuel → len - i < Z.of_nat fuel →
  terminates (tlv_loop cap f fuel i len p s).
Proof.
  intros Hf. revert i p s. induction fuel as [|fuel IH]; intros i p s H1 H2; [lia|]. cbn [tlv_loop]. zif; [|done].
  apply terminates_bind; [unfold read_tlv; term|]. intros [[[t l] o] n] Et. apply read_tlv_progress in Et.
  apply terminates_bind; [done|]. intros s' _. apply IH; lia.
Qed.

(** what the handler of a TLV keeps, the loop keeps *)
Lemma tlv_loop_inv (P : S → Prop) fuel i len p s s' :
  (∀ t l o s s', P s → f t l o s = Ok s' → P s') → P s → tlv_loop cap f fuel i len p s = Ok s' → P s'.
Proof.
  intros Hf. revert i p s. induction fuel as [|fuel IH]; intros i p s Hs; cbn [tlv_loop]; [done|]. case_match; [|by intros [= <-]].
  intros Hl. inv_ok. eauto.
Qed.
End tlvs.

Lemma init_info_terminates t l o r : terminates (init_info t l o r).
Proof. unfold init_info, strncpy_into. term. Qed.
Lemma term_info_terminates t l o r : terminates (term_info t l o r).
Proof. unfold term_info. term. Qed.
Lemma up_info_terminates t l o e : terminates (up_info t l o e).
Proof. unfold up_info. term. Qed.

Lemma strncpy_into_length dst n src l : strncpy_into dst n src = Ok l → length l = length dst.
Proof.
  unfold strncpy_into. case_match; [|done]. intros [= <-]. cmp. set (t := until_nul _).
  assert (length t ≤ Z.to_nat n)%nat.
  { unfold t. etransitivity; [apply length_until_nul|]. rewrite length_take. lia. }
  rewrite !length_app, length_zeros, length_drop. lia.
Qed.

Lemma init_info_sized t l o r r' : router_sized r → init_info t l o r = Ok r' → router_sized r'.
Proof.
  intros (H1 & H2 & H3). unfold init_info. intros H. repeat (first [progress inv_ok | case_match]); try done;
    repeat match goal with H : strncpy_into _ _ _ = Ok _ |- _ => apply strncpy_into_length in H end;
    split_and!; cbn [ro_name ro_ip_addr ro_bgp_id set_router]; try done; try lia.
  unfold snprintf. rewrite length_str_take. lia.
Qed.

Lemma parsePeerUpInfo_terminates data len e : terminates (parsePeerUpInfo data len e).
Proof. unfold parsePeerUpInfo. apply tlv_loop_terminates; [apply up_info_terminates|lia..]. Qed.

Lemma handleInitMsg_runs r : router_sized r → runs router_sized (handleInitMsg r).
Proof.
  intros Hr. unfold handleInitMsg. do 3 runs_step; [runs_go..|]. cbv zeta. intros b Hb. unfold lift.
  match goal with |- context [tlv_loop 4096 init_info ?k ?i ?n ?p ?s] =>
    pose proof (tlv_loop_terminates 4096 init_info k i n p s init_info_terminates ltac:(lia) ltac:(lia)) as T;
    pose proof (λ s', tlv_loop_inv 4096 init_info router_sized k i n p s s' init_info_sized Hr) as I;
    destruct (tlv_loop 4096 init_info k i n p s) end; cbn; try done.
  split; [done|]. intros ? ? [= <- <-]. split_and!; [by apply I|done..].
Qed.

Lemma handleTermMsg_runs r : runs_ok (handleTermMsg r).
Proof.
  unfold handleTermMsg. runs_go. apply runs_lift, tlv_loop_terminates; [apply term_info_terminates|lia..].
Qed.
#[export] Hint Resolve parsePeerUpEventHdr_runs handleStatsReport_runs handleTermMsg_runs : runs.

(** ** The reader

    The same for a step of the [try] block: it also keeps the client's address. *)
Section reader_runs.
Context {LS : LinkState} {LST : LinkStateTotal LS} {bus : Type} {MB : MsgBus bus} {BT : BusTotal MB}.
Context (ip : string) (n : nat).

Definition frame_ok (fr : frame bus) : Prop :=
  bmp_bytes (fr_bmp fr) ∧ (length (sock (fr_bmp fr)) ≤ n)%nat ∧ c_ip (client (fr_reader fr)) = ip.

Definition rruns {A} (Q : A → Prop) (m : R A) : Prop :=
  ∀ fr, frame_ok fr → terminates (m fr)
    ∧ ∀ x fr', m fr = Ok (x, fr') → frame_ok fr' ∧ ∀ a, x = inl a → Q a.

Lemma rruns_ret {A} (Q : A → Prop) a : Q a → rruns Q (mret a).
Proof. intros Hq fr Hf. split; [done|]. intros ? ? [= <- <-]. split; [done|]. by intros ? [= <-]. Qed.
Lemma rruns_raise {A} (Q : A → Prop) e : rruns Q (raise (bus := bus) e).
Proof. intros fr Hf. split; [done|]. by intros ? ? [= <- <-]. Qed.
Lemma rruns_ask {A} (Q : A → Prop) (f : frame bus → A) : (∀ fr, frame_ok fr → Q (f fr)) → rruns Q (ask f).
Proof. intros HQ fr Hf. split; [done|]. intros ? ? [= <- <-]. split; [done|]. intros ? [= <-]. auto. Qed.
Lemma rruns_upd (f : reader bus → reader bus) :
  (∀ rd, c_ip (client (f rd)) = c_ip (client rd)) → rruns (λ _, True) (upd f).
Proof.
  intros HQ fr (H1 & H2 & H3). split; [done|]. intros ? ? [= <- <-]. split; [|done]. split_and!; [done..|].
  cbn. by rewrite HQ.
Qed.
Lemma rruns_put_entry p : rruns (λ _, True) (put_entry (bus := bus) p).
Proof. intros fr Hf. split; [done|]. by intros ? ? [= <- <-]. Qed.
Lemma rruns_put_router r : rruns (λ _, True) (put_router (bus := bus) r).
Proof. intros fr Hf. split; [done|]. by intros ? ? [= <- <-]. Qed.
Lemma rruns_uncaught {A} (m : outcome A) : terminates m → rruns (λ _, True) (uncaught (bus := bus) m).
Proof. intros Hm fr Hf. unfold uncaught. destruct m; cbn; split; try done. by intros ? ? [= <- <-]. Qed.
Lemma rruns_bgp_call {A} (m : outcome A) : terminates m → rruns (λ _, True) (bgp_call (bus := bus) m).
Proof. intros Hm fr Hf. unfold bgp_call. destruct m; cbn; split; try done; by intros ? ? [= <- <-]. Qed.
Lemma rruns_bmp_call {A} (Q : A → Prop) (m : M A) : runs Q m → rruns Q (bmp_call (bus := bus) m).
Proof.
  intros Hm fr (H1 & H2 & H3). destruct (Hm (fr_bmp fr) H1) as [T N]. unfold bmp_call.
  destruct (m (fr_bmp fr)) as [[a b]|e|u|]; split; try done.
  - destruct (N a b eq_refl) as (Qa & Hb & Hl). intros ? ? [= <- <-]. split; [split_and!; [done|cbn; lia|done]|]. by intros ? [= <-].
  - by intros ? ? [= <- <-].
Qed.
Lemma rruns_bind {A B} (P : A → Prop) (Q : B → Prop) (m : R A) (f : A → R B) :
  rruns P m → (∀ a, P a → rruns Q (f a)) → rruns Q (m ≫= f).
Proof.
  intros Hm Hf fr Hfr. destruct (Hm fr Hfr) as [T N]. unfold mbind, R_bind.
  destruct (m fr) as [[[a|e] fr1]|e|u|]; cbn; try (by split; [|done]).
  - destruct (N _ _ eq_refl) as [Hfr1 Pa]. by apply Hf; [apply Pa|].
  - destruct (N _ _ eq_refl) as [Hfr1 _]. split; [done|]. by intros ? ? [= <- <-].
Qed.

Lemma rruns_put_bus b : rruns (λ _, True) (put_bus b).
Proof.
  unfold put_bus. destruct (thrown b); [|by apply rruns_upd].
  apply (rruns_bind (λ _, True)); [by apply rruns_upd|intros _ _; apply rruns_raise].
Qed.

#[local] Hint Resolve rruns_raise rruns_put_entry rruns_put_router rruns_put_bus : runs.
Abbreviation rruns_ok := (rruns (λ _, True)).

Ltac rruns_step := first
  [ solve [eauto 2 with runs] | apply rruns_ret; done
  | match goal with
    | |- rruns _ (mbind _ body) => apply (rruns_bind (λ x, bytes_ok x.1)); [apply rruns_ask; by intros ? [[? ?] ?]|intros [? ?] ?]
    | |- rruns _ (mbind _ _) => apply (rruns_bind (λ _, True)); [|intros ? _]
    | |- rruns _ (ask _) => by apply rruns_ask
    | |- rruns _ p_entry => by apply rruns_ask
    | |- rruns _ (peer_info_of _) => by apply rruns_ask
    | |- rruns _ (upd _) => by apply rruns_upd
    | |- rruns _ (bmp_call _) => apply rruns_bmp_call; by eauto with runs
    | |- rruns _ (bgp_call _) => apply rruns_bgp_call
    | |- rruns _ (uncaught _) => apply rruns_uncaught; try solve [eauto 2 with bmp]
    | |- rruns _ (if ?b then _ else _) => destruct b
    | |- rruns _ (let '(_, _) := ?x in _) => destruct x
    | |- rruns _ (match ?x with _ => _ end) => destruct x
    end ]; cbv beta zeta.
Ltac rruns_go := repeat (cbv beta zeta; rruns_step).

Lemma publish_router_runs c : rruns_ok (publish_router c).
Proof. unfold publish_router. rruns_go. Qed.
Lemma publish_peer_runs u d c : rruns_ok (publish_peer u d c).
Proof. unfold publish_peer. rruns_go. Qed.
#[local] Hint Resolve publish_router_runs publish_peer_runs : runs.
Lemma note_peer_runs t : rruns_ok (note_peer t).
Proof. unfold note_peer. rruns_go. Qed.

Lemma peer_down_runs k : rruns_ok (peer_down k).
Proof. unfold peer_down. rruns_go; try apply handleDownEvent_terminates. Qed.
Lemma peer_up_runs k : rruns_ok (peer_up k).
Proof.
  unfold peer_up. rruns_go; [by apply handleUpEvent_terminates|apply parsePeerUpInfo_terminates].
Qed.
Lemma checkRIBdumpRate_terminates t s r : terminates (checkRIBdumpRate t s r).
Proof. unfold checkRIBdumpRate. term. Qed.
Lemma note_baseline_runs tod : rruns_ok (note_baseline tod).
Proof. unfold note_baseline. rruns_go. term; apply checkRIBdumpRate_terminates. Qed.
#[local] Hint Resolve note_baseline_runs : runs.
Lemma route_monitoring_runs redis tod k : rruns_ok (route_monitoring redis tod k).
Proof. unfold route_monitoring. rruns_go. by apply handleUpdate_terminates. Qed.
Lemma stats_report_runs : rruns_ok stats_report.
Proof. unfold stats_report. rruns_go. Qed.
Lemma termination_runs : rruns_ok termination.
Proof. unfold termination. rruns_go. Qed.

(** the hash is computed from the initiation message and the client's address *)
Lemma initiation_runs cfg fr :
  bytes_ok (c_hash_id cfg) → router_sized (r_object fr) → frame_ok fr →
  terminates (initiation cfg fr) ∧ ∀ x fr', initiation cfg fr = Ok (x, fr') → frame_ok fr'.
Proof.
  intros Hc Hr Hfr. unfold initiation. rewrite (R_bind_inl _ _ fr tt _ eq_refl). set (fr1 := Build_frame _ _ _ _).
  rewrite (R_bind_inl _ _ fr1 _ _ eq_refl). assert (frame_ok fr1) as H1 by done. change (r_object fr1) with (r_object fr).
  match goal with |- terminates (?m fr1) ∧ _ => assert (rruns_ok m) as Hm end.
  { apply (rruns_bind router_sized); [by apply rruns_bmp_call, handleInitMsg_runs|]. intros r Hs. rruns_go.
    by apply router_hash_terminates. }
  destruct (Hm fr1 H1) as [T N]. split; [done|]. intros x fr' E. by destruct (N x fr' E).
Qed.
#[local] Hint Resolve note_peer_runs peer_down_runs peer_up_runs route_monitoring_runs stats_report_runs
  termination_runs : runs.
End reader_runs.

Section reader.
Context {LS : LinkState} {LST : LinkStateTotal LS} {bus : Type} {MB : MsgBus bus} {BT : BusTotal MB}.
Context (redis : bool) (cfg : Config).
#[local] Hint Resolve publish_router_runs note_peer_runs peer_down_runs peer_up_runs route_monitoring_runs
  stats_report_runs termination_runs : runs.

(** the types other than the initiation *)
Lemma message_runs tod ip n t :
  t ≠ TYPE_INIT_MSG →
  rruns (bus := bus) ip n (λ _, True)
    (_ ← (if negb (t =? TYPE_INIT_MSG) then publish_router ROUTER_ACTION_FIRST else mret tt);
     key ← (if t <? 4 then note_peer t else mret "");
     if t =? TYPE_PEER_DOWN then _ ← peer_down key; mret true
     else if t =? TYPE_PEER_UP then _ ← peer_up key; mret true
     else if t =? TYPE_ROUTE_MON then _ ← route_monitoring redis tod key; mret true
     else if t =? TYPE_STATS_REPORT then _ ← stats_report; mret true
     else if t =? TYPE_INIT_MSG then _ ← initiation cfg; mret true
     else if t =? TYPE_TERM_MSG then _ ← termination; mret false
     else mret true).
Proof.
  intros Ht. rewrite (proj2 (Z.eqb_neq t _) Ht). cbn [negb].
  repeat match goal with
  | |- rruns _ _ _ (mbind _ _) => apply (rruns_bind _ _ (λ _, True)); [|intros ? _]
  | |- rruns _ _ _ (if ?b then _ else _) => destruct b
  | |- rruns _ _ _ (mret _) => by apply rruns_ret
  | |- _ => solve [eauto 2 with runs]
  end.
Qed.

Lemma try_block_runs now tod ip fr :
  bytes_ok (c_hash_id cfg) → router_sized (r_object fr) → frame_ok ip (length (sock (fr_bmp fr))) fr →
  terminates (try_block redis cfg now tod fr)
  ∧ ∀ x fr', try_block redis cfg now tod fr = Ok (x, fr') →
      frame_ok ip (length (sock (fr_bmp fr))) fr'
      ∧ ∀ v, x = inl v → (length (sock (fr_bmp fr')) < length (sock (fr_bmp fr)))%nat.
Proof.
  intros Hc Hr (H1 & H2 & H3). unfold try_block. destruct (handleMessage_runs now (fr_bmp fr) H1) as [T N].
  destruct (handleMessage now (fr_bmp fr)) as [[t b]|e|u|] eqn:E; [| |unfold mbind, R_bind, bmp_call; by rewrite E|done].
  2: { unfold mbind, R_bind, bmp_call. rewrite E. split; [done|]. by intros ? ? [= <- <-]. }
  destruct (N t b eq_refl) as (_ & Hb & _). apply handleMessage_consumes in E as Hl; [|done].
  rewrite (R_bind_inl _ _ _ _ _ (bmp_call_Ok _ _ _ _ E)). set (fr1 := Build_frame _ _ b _).
  assert (frame_ok ip (length (sock b)) fr1) as Hf1 by (by split_and!).
  match goal with |- terminates ?m ∧ _ =>
    assert (terminates m ∧ ∀ x fr', m = Ok (x, fr') → frame_ok ip (length (sock b)) fr') as [T' N'] end.
  { destruct (decide (t = TYPE_INIT_MSG)) as [->|Ht].
    - destruct (initiation_runs ip (length (sock b)) cfg fr1) as [T1 N1]; [done..|].
      unfold TYPE_INIT_MSG. cbn -[initiation]. rewrite !(R_bind_inl (mret _) _ fr1 _ _ eq_refl).
      unfold mbind, R_bind. destruct (initiation cfg fr1) as [[[v|e] fr2]|e|u|]; cbn; (split; [done|]); try done;
        intros ? ? [= <- <-]; by apply (N1 _ _ eq_refl).
    - destruct (message_runs tod ip (length (sock b)) t Ht fr1 Hf1) as [T1 N1]. split; [done|].
      intros x fr' E'. by destruct (N1 x fr' E'). }
  split; [done|]. intros x fr' Hx. destruct (N' x fr' Hx) as (? & ? & ?). split; [split_and!; [done|lia|done]|].
  intros. lia.
Qed.

(** the conditions on a connection: octets, and an address of its array *)
Definition client_ok (c : ClientInfo) : Prop := bytes_ok (stream c) ∧ (String.length (c_ip c) < 46)%nat.

Lemma ReadIncomingMsg_total now tod (rd : reader bus) :
  bytes_ok (c_hash_id cfg) → client_ok (client rd) →
  terminates (ReadIncomingMsg redis cfg now tod rd)
  ∧ ∀ rd', ReadIncomingMsg redis cfg now tod rd = Ok (ReadMore, rd') →
      client_ok (client rd') ∧ (length (stream (client rd')) < length (stream (client rd)))%nat.
Proof.
  intros Hc [Hs Hi]. unfold ReadIncomingMsg, disconnect.
  destruct (try_block_runs now tod (c_ip (client rd)) (start_frame rd)) as [T N]; [done| |split_and!; try done|].
  { split_and!; [cbn; lia|done|cbn; lia]. }
  { split; [done|apply zero_data_bytes]. }
  split; [term|]. intros rd' H. apply bind_Ok_inv in H as ([x fr] & E & H). destruct (N _ _ E) as ((Hb & _ & Hip) & Hl).
  destruct x as [v|e]; inv_ok. destruct (thrown _); [done|]. destruct v; simplify_eq. split; [split|]; cbn; [apply Hb|by rewrite Hip|by apply (Hl true)].
Qed.

(** C13: the reader of a connection stops, on every bus whose calls return ([BusTotal]: the
    Redis bus of the SONiC build and the recording bus; the Kafka bus waits for its
    broker).  For every finite stream of octets the loop [while (run)] ends: no parser
    loops, and each message that keeps the connection takes at least one octet, so that
    there are at most as many iterations as octets, and one more. *)
Theorem reader_terminates (clock : list (Z * Z * Z)) (rd : reader bus) :
  bytes_ok (c_hash_id cfg) → client_ok (client rd) → (length (stream (client rd)) < length clock)%nat →
  terminates (readerThreadLoop redis cfg clock rd).
Proof.
  intros Hc. revert rd. induction clock as [|[now tod] clock IH]; intros rd Hi Hl; cbn [length readerThreadLoop] in *; [lia|].
  destruct (ReadIncomingMsg_total now tod rd Hc Hi) as [T N]. apply terminates_bind; [done|]. intros [[| |e] rd'] E; try done.
  destruct (N rd' E). apply IH; [done|lia].
Qed.
End reader.

(** ** Witnesses *)

Lemma parseUpdateMsg_terminates_witness :
  terminates (parseUpdateMsg (LS := link_state) [0; 0; 0; 4; 64; 1; 1; 0] 8 new_peer_info no_update).
Proof.
  apply (parseUpdateMsg_terminates (LS := link_state) [0; 0; 0; 4; 64; 1; 1; 0] 8 new_peer_info no_update).
  repeat constructor; done.
Defined.

(** a connection that is closed in the middle of a header, on the recording bus and on the
    bus of the SONiC build *)
Lemma reader_terminates_witness :
  terminates (readerThreadLoop (LS := link_state) false BMPReader.sample_config (replicate 5 (0, 0, 0)) (sample_reader [3; 0; 0]))
  ∧ terminates (readerThreadLoop (LS := link_state) true BMPReader.sample_config (replicate 5 (0, 0, 0)) (give [3; 0; 0] true sample_redis)).
Proof.
  split.
  - apply (reader_terminates (LS := link_state) false BMPReader.sample_config (replicate 5 (0, 0, 0)) (sample_reader [3; 0; 0])).
    + cbn. repeat constructor; done.
    + split; [repeat constructor; done|cbn; lia].
    + cbn. lia.
  - apply (reader_terminates (LS := link_state) true BMPReader.sample_config (replicate 5 (0, 0, 0)) (give [3; 0; 0] true sample_redis)).
    + cbn. repeat constructor; done.
    + split; [cbn; repeat constructor; done|vm_compute; lia].
    + cbn. lia.
Defined.
